(* ===== verification/_CoqProject ===== *)
-Q . S2P
Prelude.v
PyStr.v
Ini.v
Probe.v
Route.v
Txn.v
Loader.v
Join.v
Bounded.v
Numbered.v
Trees.v
Aggregate.v
Timeline.v
Conflate.v
Rebuild.v
Records.v
Analyze.v
Profiles.v
Histogram.v
TimelineTree.v
Pmu.v
EventsDb.v
Topdown.v
Wire.v
Target.v
Admin.v
Session.v
Source.v
Storage.v
Filled.v
Report.v
Runtime.v
Profiler.v
Bars.v
DataFile.v
Loading.v
Plot.v
Commands.v
Base64.v
Notebook.v
PathFiles.v
Served.v
Generator.v
Host.v
Specs.v
Plugins.v
Attach.v
