(* ===== verification/Prelude.v ===== *)
(** * Xpedite, the Python profiler: verification library

    Xpedite (src/scripts/lib/xpedite) profiles the transactions of a running process.
    The process records a counter (time stamp, pmu counts, user data) at every probe it
    hits; the profiler switches probes on over a tcp session, collects the samples,
    builds transactions from the counters of each thread, groups them by category and
    route, computes timelines with their statistics, compares them with stored
    benchmarks and renders a report.  This library models that path in Python order and
    proves what each part promises.  It is a shallow embedding: a Python function is a
    function of the same name, an exception is a value of [result] (this file), an
    object with aliases lives in a store and is passed by reference, an ordered dict is
    an association list with the key test of its class ([od_get], [od_set]).

    ** Files, from the ground up

    - [Prelude]: results and loops that may raise, ordered dicts and their key tests,
      stable sorting, floats as the class [PyFloat] with the laws that are used, list lemmas.
    - [PyStr]: the [str] and [os.path] operations used.  [Ini]: the config files of
      [RawConfigParser], written and read.
    - [Probe], [Route]: types/probe.py, types/containers.py, types/route.py.
    - [Txn]: txn/__init__.py and txn/collection.py; [ProbeIndexFactory].
    - [Loader], [Join], [Bounded], [Numbered]: txn/loader.py and txn/fragments.py.  [Loader.Loader] is
      the state of a [BoundedTxnLoader]; [loadCounter], [endLoad], [buildTxn] and
      [appendTxn] are its methods, [load_threads] the calls [beginLoad], [loadCounter]* and
      [endLoad] for a sequence of threads, [join_all] is [TxnFragments.join].
    - [Trees], [Aggregate], [Analyze], [Profiles]: analytics/treeCollections.py,
      analytics/aggregator.py, txn/classifier.py, txn/repo.py, analytics/__init__.py and the
      profiles they end in.
    - [Timeline], [Conflate], [Rebuild], [TimelineTree]: analytics/timeline.py, conflator.py,
      timelineFilter.py and timelineTree.py.
    - [Histogram]: report/histogram.py and profiler/reportgenerator.py.
    - [Records]: txn/extractor.py, txn/collector.py, txn/filter.py, util/probeFactory.py and
      profiler/appInfo.py; the loaders are reached through the class [TxnLoader].
    - [Pmu], [EventsDb], [Topdown]: pmu/*.py, from event files to the bytes of a request
      and to topdown metrics.
    - [Wire], [Target], [Admin]: transport/*.py, profiler/environment.py and the process at
      the other end (lib/xpedite, C++), profiler/probeAdmin.py, resolver.py and app.py.  [Admin] is written against the class [AdminPort]; [PortSpec] is what a
      port promises, and the connection of [Target] keeps that promise.
    - [Session]: profiler/runtime.py, from the counters a profile asks for to the events its
      samples are loaded with, and the start of a session.
    - [Source]: the binary sources of types/dataSource.py and the file patterns of
      profiler/app.py.
    - [Storage]: the csv sources of types/dataSource.py, benchmark/info.py,
      benchmark/__init__.py and [TxnRepoFactory] of txn/repo.py: how a run is stored as a
      benchmark, found, loaded and put in the repository of a session.
    - [Filled], [Report]: report/reportbuilder.py, stats.py, flot.py, diff.py, __init__.py and
      [ReportGenerator.generateReport].  [Filled] shows what the statistics of [Timeline]
      promise to the tables made of them.
    - [Runtime]: the rest of profiler/runtime.py and profiler/app.py: live and dormant
      applications, the loaders of the current run and of the benchmarks, the report of a
      session.  [Profiler]: profiler/__init__.py and profiler/profileInfo.py, a session with
      its clock and console, recorded, and reported again from what it stored.
    - [Generator]: profiler/profileInfoGenerator.py and [Profiler.generate], the code of a new
      profile info.  [Host]: util/cpuInfo.py, the values [ProxyEnvironment] reads once, the caches
      by cpu, readers of /proc and util/__init__.py, and the tables of report/env.py and
      report/profileInfo.py.
    - [Attach]: what [XpediteApp.start], [stop] and [restart] open and close, on this host and
      through the rpyc server of transport/remote.py, and the launch of a target (profiler/app.py,
      profiler/environment.py); a computation keeps its state when it raises ([Attach.St]).
    - [PathFiles]: files by their path, [mkdir], [removeFiles] and [touch] of util/__init__.py.
      [Specs]: pmu/uarchspec/uarchSpecLoader.py, the manifest read as csv and
      dependencies/config.py.  [Plugins]: dependencies/pluginLoader.py and the requirements.
    - [Bars]: the bars of report/histogram.py and the data a notebook draws them from.
    - [DataFile], [Base64], [Notebook]: jupyter/xpediteData.py, the text form of a page, and
      jupyter/result.py with [Driver] of jupyter/driver.py: the report of a session as a
      notebook with its data file.  [Served]: where the driver stores both, how
      jupyter/context.py and the handler of the server (tornadoExtension) find them, and
      jupyter/archive.py.
    - [Loading]: jupyter/context.py and jupyter/autoComplete.py, the thread that loads profiles
      against the commands that wait for it.  [Commands], [Plot]: jupyter/commands.py,
      jupyter/plot.py and jupyter/snippetsBuilder.py.

    ** What the theorems show

    - Conservation: [load_threads_conserves], [load_threads_accounts], [loadSamples_loads],
      [generateProfiles_partition], [groupTxns_partition], [aggregateTxnsByRoutes_partition]
      follow every sample record to the counter, transaction, category, route and profile it
      ends in, without loss or duplication.
    - Functional behaviour on every branch: [join_all_paths], [buildIndex_correct],
      [conflateRoutes_spec], [conflateTxnsByRoutes_spec], [buildTimelineStats_spec],
      [conflateTimepoints_spec], [filterTxns_spec], [buildDistribution_spec] and others.
    - Refinement and equivalence: the node store of a tree against a recursive
      specification ([buildTreeCollection_refines]), lookups in a composite tree
      ([buildComposite_lookup]), rebuilt against accumulated statistics
      ([filter_all_identity]), an admin command over the network against a call in the
      process ([env_admin_refines]), probe control over any port ([updateProbes_spec]).
    - Composition: from files to the repository of a session ([gatherSampleFiles_spec],
      [gatherBenchmarks_spec], [buildTxnRepo_spec]); from the information on a cpu to the
      specification of its model ([cpu_spec_found]); from transactions to reports that
      cannot fail ([generate_reports], [generateReport_total]), with the slowest
      transactions first ([buildTimelineTable_worst_first]); from the counters a session
      asks for to topdown metrics that can be computed on its samples
      ([session_metrics_computable]); a session starts ([session_starts]); its report fails
      nowhere between loaded samples and profiles ([session_report_shown]), over a
      repository whose transactions are numbered and indexed ([session_repo_typed]); a
      recorded session reports the same when it is reported again ([report_recorded_same]),
      unless its events were sorted for their registers ([dry_run_mislabels]).
    - Notebooks: every link of a stored notebook is answered with the report of its route
      ([links_served]), also after it was packed and unpacked ([archive_serves_same]), and
      other requests are refused ([requests_refused]); a command ends however the two
      threads interleave ([command_ends]); any two transactions can be compared
      ([session_diff_shown]); a plot has the shape of the tree it shows ([plot_tree_spec]).
    - Resources: a session closes what it opened ([local_session_closed],
      [remote_session_closed], [target_closed]), and the starts after which something stays open
      ([remote_start_leaks], [timed_out_server_stays], [failed_restart_hidden],
      [silent_target_stays]).
    - Downloads: what is on disk is kept and what is missing is what the server gives
      ([specs_synced]); nothing is asked for twice ([load_offline]).
    - Values that are kept: what was found out about a host does not change during a session
      ([answers_steady]), and the caches by cpu change no answer ([topdown_cache_transparent]).
    - Round trips: the names of sample files, samples, probe records, datagrams, the info file
      of a benchmark ([binary_sources_roundtrip], [csv_record_roundtrip], [probe_records_roundtrip], [frames_roundtrip],
      [benchmark_info_roundtrip]), data files ([xpd_roundtrip]), and the code generated for the
      probes of a process, read as python reads it ([generated_probes]).  A benchmark as a whole does not come back: its samples
      are stored one directory too high ([makeBenchmark_gathers_nothing]).
    - Termination and errors: [profile_loop_ends] (a session with a duration ends in time),
      [join_all_terminates], [allocate_sound],
      [buildTimelineTree_leaves], [load_threads_total], [enableProbes_spec], [loadJson_spec].
    - Bounds: [buildRequestGroup_layout], [resolveEvents_spec].

    ** Fuel

    Recursion that Python does not bound takes fuel, and running out of it raises
    [RecursionError_].  Enough is: for [join_all] the longest chain of links plus one
    ([join_all_terminates] gives the bound from a rank of the links), for [allocate] the
    number of events, for [build_range] the number of points, for [bisect_loop] the length
    of the list, for [profile_loop] the heartbeats that begin within the duration plus two,
    for [read_loop] the length asked for (every block has a character), for
    [wait_started] how often it looks before the time out, for [pollClient] the bytes in the buffer (a frame has eight at least), for [findall] the length
    of the text, for [breakCommand] and [parents] that of the command and of the path.  The
    steps of a command and its loading thread are a relation; [command_ends] bounds their
    number.  The theorems on these
    functions state that the result is reached.

    ** Assumptions

    Floats are a parameter ([PyFloat]) with the order laws that are used; no theorem uses
    associativity of addition.  Python's hash of a tuple of strings is the parameter
    [RouteHash]; the formulas of the topdown ratios come with each cpu's module and are
    programs over events.  Characters are bytes, so texts are ASCII.  A probe of the process
    is in memory the process can patch.  The network delivers what was sent, in order, cut
    into non-empty blocks of its own choice.  The file system is a tree of named
    directories and of text files without links or access rights; what the native library
    makes of a binary sample file, what numpy computes from a series, the length of a
    rendered report and its unique ids are parameters.  Time is a count of ticks; a console
    is the class [Console], which waits and may see a key, and its laws are
    [PatientConsole].  A ping that fails leaves the world as it was.  The files a session
    reports from are those found once its profile has ended.  Pickle, zlib and tar give back what
    they were given ([PickleLaws], [ZipLaws], [TarLaws]); in a notebook two path texts are two
    paths.  A thread and a command interleave at single reads and writes of an attribute.
    Servers answer with texts.  Closing a socket, a file, a connection or ending a child process
    does not fail; a server prints its own pid ([Attach.honest]).  The package py-cpuinfo and os.uname answer with whatever a [Machine] holds, which may
    differ from one call to the next.

    ** Not modelled

    Processes, sockets and devices beyond the text or bytes
    that pass; the decoding of binary sample files, which is C++ (bindings); logging, except
    where a count is the result; html text, tabs, style sheets and scripts (a table is its rows of cells);
    the templates of a notebook and the launch of its server; what ssh, rpyc, json and the import
    of modules do; self profiling (selfProfile/), third-party code (thirdParty/), the kernel module,
    the java agent and the C++ recording of samples. *)

From stdpp Require Export base list strings gmap sorting.
From Stdlib Require Export ZArith Lia.
From Corelib Require Export ssreflect.

#[global] Open Scope general_if_scope.

Open Scope Z_scope.

(** ** Exceptions and the result monad

    Python exceptions are modelled by their class; the text of a message is not
    part of the model. *)

Inductive exn :=
  | Exception_              (* raise Exception(...) *)
  | InvariantViloation      (* xpedite.types.InvariantViloation *)
  | KeyError_ | IndexError_ | ValueError_ | TypeError_ | AttributeError_
  | ZeroDivisionError_ | RecursionError_ | StructError_ | RuntimeError_
  | OSError_                (* file system errors *)
  | ConfigError_            (* configparser.Error and its subclasses *)
  | SocketError_            (* socket.error and its subclasses, time outs included *)
  | SystemExit_.            (* sys.exit, which except Exception does not catch *)

#[export] Instance exn_eq_dec : EqDecision exn.
Proof. solve_decision. Defined.

Inductive result (A : Type) :=
  | Ok (a : A)
  | Raise (e : exn).
Arguments Ok {A} a.
Arguments Raise {A} e.

#[export] Instance result_ret : MRet result := fun A a => Ok a.
#[export] Instance result_bind : MBind result := fun A B f m =>
  match m with Ok a => f a | Raise e => Raise e end.
#[export] Instance result_fmap : FMap result := fun A B f m =>
  match m with Ok a => Ok (f a) | Raise e => Raise e end.

#[export] Instance result_eq_dec {A} `{EqDecision A} : EqDecision (result A).
Proof. solve_decision. Defined.

(** [from_option_exn e o]: the value of [o], or the exception a failed lookup raises. *)
Definition or_raise {A} (e : exn) (o : option A) : result A :=
  match o with Some a => Ok a | None => Raise e end.

Definition isOk {A} (m : result A) : bool :=
  match m with Ok _ => true | Raise _ => false end.

Section ResultLemmas.
Context {A B : Type}.

Lemma bind_Ok (m : result A) (f : A -> result B) b :
  m ≫= f = Ok b <-> exists a, m = Ok a /\ f a = Ok b.
Proof. destruct m; simpl; naive_solver. Qed.

Lemma bind_Raise (m : result A) (f : A -> result B) e :
  m ≫= f = Raise e <-> m = Raise e \/ exists a, m = Ok a /\ f a = Raise e.
Proof. destruct m; simpl; naive_solver. Qed.

Lemma or_raise_Ok e (o : option A) a : or_raise e o = Ok a <-> o = Some a.
Proof. destruct o; simpl; naive_solver. Qed.
End ResultLemmas.

(** Loops whose body may raise: the loop stops at the first exception. *)
Fixpoint mfor {A S} (f : S -> A -> result S) (s : S) (l : list A) : result S :=
  match l with
  | [] => Ok s
  | x :: l => s' ← f s x; mfor f s' l
  end.

Section MforLemmas.
Context {A S : Type} (f : S -> A -> result S).

Lemma mfor_app s l1 l2 :
  mfor f s (l1 ++ l2) = (s' ← mfor f s l1; mfor f s' l2).
Proof.
  revert s. induction l1 as [|x l1 IH]; intros s; simpl; [done|].
  destruct (f s x); simpl; auto.
Qed.

Lemma mfor_total l s :
  Forall (fun x => forall s, exists s', f s x = Ok s') l -> exists s', mfor f s l = Ok s'.
Proof.
  intros H. revert s. induction H as [|x l Hx _ IH]; intros s; [by exists s|].
  cbn. destruct (Hx s) as [s1 ->]. cbn. apply IH.
Qed.

(** A loop whose body succeeds and keeps an invariant. *)
Lemma mfor_safe (P : S -> Prop) s l :
  (forall s x, x ∈ l -> P s -> exists s', f s x = Ok s' /\ P s') -> P s -> exists s', mfor f s l = Ok s' /\ P s'.
Proof.
  revert s. induction l as [|x l IH]; intros s Hf Hs; [by exists s|].
  destruct (Hf s x) as (s1 & H1 & Hs1); [left|done|]. cbn [mfor]. rewrite H1. cbn [mbind result_bind].
  apply IH; [|done]. intros s2 y Hy. apply Hf. by right.
Qed.

(** Rule of invariance for loops. *)
Lemma mfor_inv (P : S -> Prop) s l s' :
  (forall s x s', x ∈ l -> P s -> f s x = Ok s' -> P s') ->
  P s -> mfor f s l = Ok s' -> P s'.
Proof.
  revert s. induction l as [|x l IH]; intros s Hstep Hs; simpl.
  - by intros [= <-].
  - rewrite bind_Ok. intros (s1 & H1 & H2).
    eapply IH; [|eapply (Hstep s x); eauto; left|done].
    intros ? y **. eapply (Hstep _ y); eauto. by right.
Qed.

(** The same rule, with the prefix of the list already processed. *)
Lemma mfor_inv_prefix (P : list A -> S -> Prop) s l s' :
  (forall pre x post s s', l = pre ++ x :: post -> P pre s ->
     f s x = Ok s' -> P (pre ++ [x]) s') ->
  P [] s -> mfor f s l = Ok s' -> P l s'.
Proof.
  intros Hstep. cut (forall pre post s0, l = pre ++ post -> P pre s0 ->
    mfor f s0 post = Ok s' -> P l s').
  { intros Hc H0 Hm. by eapply (Hc [] l s). }
  intros pre post. revert pre. induction post as [|x post IH]; intros pre s0 Hl HP; simpl.
  - intros [= <-]. by rewrite Hl app_nil_r.
  - rewrite bind_Ok. intros (s1 & H1 & H2).
    eapply (IH (pre ++ [x])); [by rewrite -app_assoc|eapply Hstep; eauto|done].
Qed.
End MforLemmas.

(** Two loops whose bodies agree on related items. *)
Lemma mfor_Forall2 {A B S} (R : A -> B -> Prop) (f : S -> A -> result S) (g : S -> B -> result S) l l' s :
  Forall2 R l l' -> (forall s a b, R a b -> f s a = g s b) -> mfor f s l = mfor g s l'.
Proof.
  intros H Hfg. revert s. induction H as [|a b l l' Hab _ IH]; intros s; [done|]. cbn [mfor].
  rewrite (Hfg s a b Hab). destruct (g s b); [apply IH|done].
Qed.

(** Two loops over the same items whose states stay related. *)
Lemma mfor_sim {A S T} (R : S -> T -> Prop) (f : S -> A -> result S) (g : T -> A -> result T) l s t s' :
  (forall x s t s', R s t -> f s x = Ok s' -> exists t', g t x = Ok t' /\ R s' t') -> R s t ->
  mfor f s l = Ok s' -> exists t', mfor g t l = Ok t' /\ R s' t'.
Proof.
  intros H. revert s t. induction l as [|x l IH]; intros s t Hst Hl; cbn [mfor] in *; [injection Hl as <-; by exists t|].
  apply bind_Ok in Hl as (s1 & H1 & Hl). destruct (H x s t s1 Hst H1) as (t1 & Ht & Hst1). rewrite Ht. exact (IH s1 t1 Hst1 Hl).
Qed.

Lemma mfor_nested {A B S} (f : S -> B -> result S) (items : A -> list B) l s :
  mfor (fun s a => mfor f s (items a)) s l = mfor f s (l ≫= items).
Proof.
  revert s. induction l as [|a l IH]; intros s; [done|]. cbn [mfor mbind list_bind].
  rewrite mfor_app. destruct (mfor f s (items a)); [apply IH|done].
Qed.

(** A loop that appends what it makes. *)
Lemma mfor_collect {A B} (f : A -> result B) l acc r :
  mfor (fun acc a => b ← f a; Ok (acc ++ [b])) acc l = Ok r ->
  exists bs, r = acc ++ bs /\ Forall2 (fun a b => f a = Ok b) l bs.
Proof.
  revert acc. induction l as [|a l IH]; intros acc; cbn [mfor].
  - intros [= <-]. exists []. by rewrite app_nil_r.
  - intros H. apply bind_Ok in H as (acc' & H1 & H). apply bind_Ok in H1 as (b & Hb & [= <-]).
    destruct (IH _ H) as (bs & -> & Hbs). exists (b :: bs). rewrite -app_assoc. by split; [|constructor].
Qed.

(** [for x in l: r.append(f(x))] with a body that may raise. *)
Fixpoint mmap {A B} (f : A -> result B) (l : list A) : result (list B) :=
  match l with
  | [] => Ok []
  | x :: l => y ← f x; ys ← mmap f l; Ok (y :: ys)
  end.

Lemma mmap_Ok_fmap {A B} (f : A -> result B) (g : A -> B) l : Forall (fun x => f x = Ok (g x)) l -> mmap f l = Ok (g <$> l).
Proof. induction 1 as [|x l Hx _ IH]; [done|]. by rewrite /= Hx /= IH. Qed.

Lemma mmap_Ok_length {A B} (f : A -> result B) l ys :
  mmap f l = Ok ys -> length ys = length l.
Proof.
  revert ys. induction l as [|x l IH]; intros ys; simpl; [by intros [= <-]|].
  rewrite bind_Ok. intros (y & ? & Hy). apply bind_Ok in Hy as (ys' & Hm & [= <-]).
  simpl. f_equal. eauto.
Qed.

Lemma mmap_Ok_lookup {A B} (f : A -> result B) l ys i x :
  mmap f l = Ok ys -> l !! i = Some x -> exists y, ys !! i = Some y /\ f x = Ok y.
Proof.
  revert ys i. induction l as [|x' l IH]; intros ys i; simpl; [done|].
  rewrite bind_Ok. intros (y & Hfy & Hy). apply bind_Ok in Hy as (ys' & Hm & [= <-]).
  destruct i as [|i]; simpl; [naive_solver|]. eauto.
Qed.

(** ** Stable sorting

    Python's [sorted(l, key=k)] and [l.sort(key=k, reverse=b)] are stable; insertion
    before the first element that is not smaller is the stable order. *)

Section Sort.
Context {A : Type} (leb : A -> A -> bool).

Fixpoint sort_insert (x : A) (l : list A) : list A :=
  match l with
  | [] => [x]
  | y :: l => if leb x y then x :: y :: l else y :: sort_insert x l
  end.

Fixpoint py_sort (l : list A) : list A :=
  match l with
  | [] => []
  | x :: l => sort_insert x (py_sort l)
  end.

Lemma sort_insert_perm x l : sort_insert x l ≡ₚ x :: l.
Proof.
  induction l as [|y l IH]; simpl; [done|].
  destruct (leb x y); [done|]. rewrite IH. apply Permutation_swap.
Qed.

Lemma py_sort_perm l : py_sort l ≡ₚ l.
Proof. induction l as [|x l IH]; simpl; [done|]. by rewrite sort_insert_perm IH. Qed.

Lemma py_sort_length l : length (py_sort l) = length l.
Proof. apply Permutation_length, py_sort_perm. Qed.

Lemma py_sort_elem_of x l : x ∈ py_sort l <-> x ∈ l.
Proof. by rewrite py_sort_perm. Qed.

Context (Htot : forall x y, leb x y = false -> leb y x = true).
Context (Htrans : forall x y z, leb x y = true -> leb y z = true -> leb x z = true).

Lemma sort_insert_sorted x l :
  StronglySorted (fun a b => leb a b = true) l ->
  StronglySorted (fun a b => leb a b = true) (sort_insert x l).
Proof.
  induction 1 as [|y l Hl IH Hy]; simpl; [by repeat constructor|].
  destruct (leb x y) eqn:E.
  - constructor; [by constructor|]. constructor; [done|].
    eapply Forall_impl; [exact Hy|]. simpl. eauto.
  - constructor; [done|]. rewrite sort_insert_perm. constructor; auto.
Qed.

Lemma py_sort_sorted l : StronglySorted (fun a b => leb a b = true) (py_sort l).
Proof. induction l; simpl; [constructor|by apply sort_insert_sorted]. Qed.

Lemma py_sort_id l :
  StronglySorted (fun a b => leb a b = true) l -> py_sort l = l.
Proof.
  induction 1 as [|x l Hl IH Hx]; simpl; [done|]. rewrite IH.
  destruct l as [|y l]; simpl; [done|]. apply Forall_cons in Hx as [-> _]. done.
Qed.

(** Stability: elements of one key class keep their order. *)
Lemma sort_insert_stable (P : A -> Prop) `{!forall x, Decision (P x)} x l :
  (forall y, P x -> P y -> leb x y = true) ->
  filter P (sort_insert x l) = filter P (x :: l).
Proof.
  intros HP. induction l as [|y l IH]; [done|]. cbn [sort_insert].
  destruct (leb x y) eqn:E; [done|].
  rewrite filter_cons IH !filter_cons.
  destruct (decide (P y)), (decide (P x)); try done.
  exfalso. rewrite HP in E; done.
Qed.

Lemma py_sort_stable (P : A -> Prop) `{!forall x, Decision (P x)} l :
  (forall x y, P x -> P y -> leb x y = true) -> filter P (py_sort l) = filter P l.
Proof.
  intros HP. induction l as [|x l IH]; [done|]. cbn [py_sort].
  rewrite sort_insert_stable; [intros; apply HP; done|].
  by rewrite !filter_cons IH.
Qed.
End Sort.

Lemma StronglySorted_weaken {A} (R S : A -> A -> Prop) l :
  (forall x y, R x y -> S x y) -> StronglySorted R l -> StronglySorted S l.
Proof.
  intros HRS. induction 1 as [|x l Hl IH Hx]; constructor; [done|].
  eapply Forall_impl; [exact Hx|auto].
Qed.

(** The comparison a numeric sort key induces. *)
Definition key_leb {A} (key : A -> Z) (x y : A) : bool := key x <=? key y.
Definition key_geb {A} (key : A -> Z) (x y : A) : bool := key y <=? key x.

Lemma key_leb_total {A} (key : A -> Z) x y : key_leb key x y = false -> key_leb key y x = true.
Proof. unfold key_leb. rewrite Z.leb_gt Z.leb_le. lia. Qed.
Lemma key_leb_trans {A} (key : A -> Z) x y z :
  key_leb key x y = true -> key_leb key y z = true -> key_leb key x z = true.
Proof. unfold key_leb. rewrite !Z.leb_le. lia. Qed.
Lemma key_geb_total {A} (key : A -> Z) x y : key_geb key x y = false -> key_geb key y x = true.
Proof. apply key_leb_total. Qed.
Lemma key_geb_trans {A} (key : A -> Z) x y z :
  key_geb key x y = true -> key_geb key y z = true -> key_geb key x z = true.
Proof. unfold key_geb. rewrite !Z.leb_le. lia. Qed.

(** Sorting by a key: what callers of [sorted(l, key=k)] rely on. *)
Lemma py_sort_key_sorted {A} (key : A -> Z) l :
  StronglySorted (fun a b => key a <= key b) (py_sort (key_leb key) l).
Proof.
  eapply StronglySorted_weaken; [|apply py_sort_sorted; eauto using key_leb_total, key_leb_trans].
  intros a b. unfold key_leb. by rewrite Z.leb_le.
Qed.

(** [min(l, key=k)] and [max(l, key=k)]: the first extremal element; an empty
    argument raises ValueError. *)
Definition py_min_by {A} (key : A -> Z) (l : list A) : result A :=
  match l with
  | [] => Raise ValueError_
  | x :: l => Ok (fold_left (fun m y => if key y <? key m then y else m) l x)
  end.
Definition py_max_by {A} (key : A -> Z) (l : list A) : result A :=
  match l with
  | [] => Raise ValueError_
  | x :: l => Ok (fold_left (fun m y => if key m <? key y then y else m) l x)
  end.

Lemma py_min_by_spec {A} (key : A -> Z) l m :
  py_min_by key l = Ok m -> m ∈ l /\ Forall (fun y => key m <= key y) l.
Proof.
  destruct l as [|x l]; simpl; [done|]. intros [= <-]. revert x.
  induction l as [|y l IH]; intros x; simpl; [split; [set_solver|apply Forall_singleton; lia]|].
  destruct (key y <? key x) eqn:E.
  - destruct (IH y) as [H1 H2]. apply Z.ltb_lt in E.
    split; [set_solver|]. apply Forall_cons in H2 as [??].
    repeat (apply Forall_cons; split); first [done | lia].
  - destruct (IH x) as [H1 H2]. apply Z.ltb_ge in E.
    split; [set_solver|]. apply Forall_cons in H2 as [??].
    repeat (apply Forall_cons; split); first [done | lia].
Qed.

Lemma py_max_by_spec {A} (key : A -> Z) l m :
  py_max_by key l = Ok m -> m ∈ l /\ Forall (fun y => key y <= key m) l.
Proof.
  destruct l as [|x l]; simpl; [done|]. intros [= <-]. revert x.
  induction l as [|y l IH]; intros x; simpl; [split; [set_solver|apply Forall_singleton; lia]|].
  destruct (key x <? key y) eqn:E.
  - destruct (IH y) as [H1 H2]. apply Z.ltb_lt in E.
    split; [set_solver|]. apply Forall_cons in H2 as [??].
    repeat (apply Forall_cons; split); first [done | lia].
  - destruct (IH x) as [H1 H2]. apply Z.ltb_ge in E.
    split; [set_solver|]. apply Forall_cons in H2 as [??].
    repeat (apply Forall_cons; split); first [done | lia].
Qed.

(** ** Insertion-ordered dictionaries

    A Python [dict] (or [OrderedDict]) keeps insertion order; a lookup finds the
    stored key that hashes and compares equal to the probe key.  [keq probe stored]
    is that test: key types of the program override [__eq__] and [__hash__], and not
    all of them are equivalence relations, so the test is a parameter. *)

Section ODict.
Context {K V : Type} (keq : K -> K -> bool).

Fixpoint od_get (k : K) (d : list (K * V)) : option V :=
  match d with
  | [] => None
  | (k', v) :: d => if keq k k' then Some v else od_get k d
  end.

Definition od_mem (k : K) (d : list (K * V)) : bool :=
  match od_get k d with Some _ => true | None => false end.

(** [d.update({k: v})]: an equal stored key keeps its place (and its identity). *)
Fixpoint od_set (k : K) (v : V) (d : list (K * V)) : list (K * V) :=
  match d with
  | [] => [(k, v)]
  | (k', v') :: d => if keq k k' then (k', v) :: d else (k', v') :: od_set k v d
  end.

(** [d[k] = f(d[k])] at a key that is present. *)
Fixpoint od_alter (f : V -> V) (k : K) (d : list (K * V)) : list (K * V) :=
  match d with
  | [] => []
  | (k', v') :: d => if keq k k' then (k', f v') :: d else (k', v') :: od_alter f k d
  end.

Definition od_keys (d : list (K * V)) : list K := d.*1.
Definition od_values (d : list (K * V)) : list V := d.*2.

Lemma od_mem_true k d : od_mem k d = true <-> is_Some (od_get k d).
Proof. unfold od_mem. destruct (od_get k d); split; [done|done|done|by intros [? ?]]. Qed.

Lemma od_mem_false k d : od_mem k d = false <-> od_get k d = None.
Proof. unfold od_mem. by destruct (od_get k d). Qed.

Lemma od_get_elem_of k d v : od_get k d = Some v -> exists k', (k', v) ∈ d /\ keq k k' = true.
Proof.
  induction d as [|[k' v'] d IH]; simpl; [done|].
  destruct (keq k k') eqn:E.
  - intros [= ->]. exists k'. split; [left|done].
  - intros H. destruct (IH H) as (k'' & ? & ?). exists k''. split; [by right|done].
Qed.

Lemma od_get_None k d : od_get k d = None <-> Forall (fun k' => keq k k' = false) (od_keys d).
Proof.
  induction d as [|[k' v'] d IH]; simpl; [by split|].
  destruct (keq k k') eqn:E; [split; [done|]; inversion 1; congruence|].
  rewrite Forall_cons /=. rewrite IH. naive_solver.
Qed.

Lemma od_set_fresh k v d : od_get k d = None -> od_set k v d = d ++ [(k, v)].
Proof.
  induction d as [|[k' v'] d IH]; simpl; [done|].
  destruct (keq k k'); [done|]. intros H. by rewrite IH.
Qed.

Lemma od_set_keys k v d :
  od_keys (od_set k v d) = if od_mem k d then od_keys d else od_keys d ++ [k].
Proof.
  unfold od_mem. induction d as [|[k' v'] d IH]; simpl; [done|].
  destruct (keq k k'); simpl; [done|].
  rewrite IH. by destruct (od_get k d).
Qed.

Lemma od_alter_keys f k d : od_keys (od_alter f k d) = od_keys d.
Proof.
  induction d as [|[k' v'] d IH]; simpl; [done|].
  destruct (keq k k'); simpl; [done|by f_equal].
Qed.

Lemma od_get_set_same k v d : keq k k = true -> od_get k (od_set k v d) = Some v.
Proof.
  intros Hr. induction d as [|[k' v'] d IH]; simpl; [by rewrite Hr|].
  destruct (keq k k') eqn:E; simpl; by rewrite E.
Qed.

(** The keys of a dict are pairwise different for its key test. *)
Definition distinct_keys (d : list (K * V)) : Prop :=
  ForallOrdPairs (fun a b => keq b.1 a.1 = false) d.

Lemma distinct_keys_snoc d k v :
  distinct_keys d -> od_get k d = None -> distinct_keys (d ++ [(k, v)]).
Proof.
  intros Hd. induction Hd as [|a d Ha Hd IH]; intros Hk; [by repeat constructor|].
  destruct a as [k' v']. cbn in *. destruct (keq k k') eqn:E; [done|]. constructor; [|by apply IH].
  apply Forall_app. split; [done|]. by apply Forall_singleton.
Qed.

Lemma distinct_keys_map d d' : d.*1 = d'.*1 -> distinct_keys d -> distinct_keys d'.
Proof.
  intros E Hd. revert d' E. induction Hd as [|a d Ha Hd IH]; intros [|a' d'] E; try done; [constructor|].
  injection E as E1 E2. constructor; [|by apply IH]. clear IH Hd.
  revert d' E2. induction Ha as [|b d Hb Ha IH]; intros [|b' d'] E2; try done; constructor.
  - injection E2 as E2 _. by rewrite -E1 -E2.
  - injection E2 as _ E2. by apply IH.
Qed.

Lemma od_set_distinct k v d : distinct_keys d -> distinct_keys (od_set k v d).
Proof.
  intros Hd. destruct (od_get k d) as [v'|] eqn:E.
  - eapply distinct_keys_map; [|exact Hd]. fold (od_keys d). fold (od_keys (od_set k v d)).
    rewrite od_set_keys. unfold od_mem. by rewrite E.
  - rewrite od_set_fresh; [done|]. by apply distinct_keys_snoc.
Qed.

Lemma od_alter_distinct f k d : distinct_keys d -> distinct_keys (od_alter f k d).
Proof. apply distinct_keys_map. symmetry. apply od_alter_keys. Qed.

(** The key test as a partial equivalence: what hashing needs to behave. *)
Class KeyEquiv := {
  keq_refl k : keq k k = true;
  keq_sym k k' : keq k k' = true -> keq k' k = true;
  keq_trans k k' k'' : keq k k' = true -> keq k' k'' = true -> keq k k'' = true
}.

Section Equiv.
Context {HK : KeyEquiv}.

Lemma keq_cong k k' k'' : keq k k' = true -> keq k k'' = keq k' k''.
Proof.
  intros H.  destruct (keq k k'') eqn:E1, (keq k' k'') eqn:E2; try done.
  - apply keq_sym in H. rewrite (keq_trans _ _ _ H E1) in E2. done.
  - rewrite (keq_trans _ _ _ H E2) in E1. done.
Qed.

Lemma od_get_cong k k' d : keq k k' = true -> od_get k d = od_get k' d.
Proof.
  intros H. induction d as [|[k'' v] d IH]; simpl; [done|].
  by rewrite (keq_cong _ _ _ H) IH.
Qed.

Lemma od_get_set k v k' d :
  od_get k' (od_set k v d) = if keq k k' then Some v else od_get k' d.
Proof.
  induction d as [|[k'' v''] d IH]; simpl.
  - destruct (keq k k') eqn:E; [by rewrite keq_sym|].
    destruct (keq k' k) eqn:E'; [|done]. apply keq_sym in E'. congruence.
  - destruct (keq k k'') eqn:E; simpl.
    + rewrite (keq_cong _ _ k' E).
      destruct (keq k' k'') eqn:E2; [by rewrite (keq_sym _ _ E2)|].
      destruct (keq k'' k') eqn:E3; [|done]. apply keq_sym in E3. congruence.
    + rewrite IH. destruct (keq k' k'') eqn:E2; [|done].
      destruct (keq k k') eqn:E3; [|done].
      rewrite (keq_trans _ _ _ E3 E2) in E. done.
Qed.

Lemma od_set_get_ne k v k' d :
  keq k k' = false -> od_get k' (od_set k v d) = od_get k' d.
Proof. intros H. by rewrite od_get_set H. Qed.
End Equiv.
End ODict.

(** Whether keys are distinct does not depend on the values. *)
Lemma distinct_keys_transfer {K V W} (keq : K -> K -> bool) (d : list (K * V)) (d' : list (K * W)) :
  d.*1 = d'.*1 -> distinct_keys keq d -> distinct_keys keq d'.
Proof.
  intros E Hd. revert d' E. induction Hd as [|a d Ha Hd IH]; intros [|a' d'] E; try done; [constructor|].
  injection E as E1 E2. constructor; [|by apply IH]. clear IH Hd.
  revert d' E2. induction Ha as [|b d Hb Ha IH]; intros [|b' d'] E2; try done; constructor.
  - injection E2 as E2 _. by rewrite -E1 -E2.
  - injection E2 as _ E2. by apply IH.
Qed.

#[export] Instance string_eqb_equiv : KeyEquiv String.eqb.
Proof.
  split; intros *; rewrite ?String.eqb_eq; [done|done|congruence].
Qed.

#[export] Instance Z_eqb_equiv : KeyEquiv Z.eqb.
Proof. split; intros *; rewrite ?Z.eqb_eq; [done|done|congruence]. Qed.

(** A dict whose keys are strings. *)
Lemma od_set_Forall {V} (P : string * V -> Prop) k v (d : list (string * V)) : Forall P d -> P (k, v) -> Forall P (od_set String.eqb k v d).
Proof.
  intros Hd Hp. induction Hd as [|[k' v'] d Hh Hd IH]; cbn [od_set]; [by constructor|].
  destruct (String.eqb_spec k k') as [->|_]; by constructor.
Qed.

Lemma od_keys_set {V} k (v : V) d : od_keys (od_set String.eqb k v d) = if bool_decide (k ∈ od_keys d) then od_keys d else od_keys d ++ [k].
Proof.
  rewrite od_set_keys. destruct (od_mem String.eqb k d) eqn:E.
  - rewrite bool_decide_true //. apply od_mem_true in E as [w E]. apply od_get_elem_of in E as (k' & Hin & Ek).
    apply String.eqb_eq in Ek as <-. exact (list_elem_of_fmap_2 fst _ _ Hin).
  - rewrite bool_decide_false //. apply od_mem_false, od_get_None in E. rewrite Forall_forall in E. intros Hin.
    specialize (E k Hin). by rewrite String.eqb_refl in E.
Qed.

(** ** Python's floating point numbers

    Wall-clock times and topdown values are IEEE doubles in the program.  The
    definitions that use them are generic in a number type with the operations the
    source applies; no law is assumed unless a lemma names it. *)

Class PyFloat (F : Type) := {
  f_of_Z : Z -> F;               (* float(n), and int to float promotion *)
  f_add : F -> F -> F;
  f_sub : F -> F -> F;
  f_mul : F -> F -> F;
  f_div : F -> F -> F;           (* the divisor is not zero *)
  f_lt : F -> F -> bool;
  f_is_zero : F -> bool;
  f_nan : F;
  f_is_nan : F -> bool;
  f_trunc : F -> Z               (* int(x) on a finite x *)
}.

(** [x <= y], false when either is NaN. *)
Definition f_le {F} `{!PyFloat F} (x y : F) : bool :=
  negb (f_is_nan x || f_is_nan y || f_lt y x).

(** Python's [x / y] raises ZeroDivisionError on a zero divisor. *)
Definition py_div {F} `{!PyFloat F} (x y : F) : result F :=
  if f_is_zero y then Raise ZeroDivisionError_ else Ok (f_div x y).

(** ** Lists *)

Section ListLemmas.
Context {A : Type}.

(** [l[i]] for a non-negative index. *)
Definition py_nth (l : list A) (i : nat) : result A := or_raise IndexError_ (l !! i).

(** [l[i]] with Python's negative indices. *)
Definition py_index (l : list A) (i : Z) : result A :=
  let j := if i <? 0 then i + Z.of_nat (length l) else i in
  if j <? 0 then Raise IndexError_ else py_nth l (Z.to_nat j).

Lemma py_nth_Ok l i x : py_nth l i = Ok x <-> l !! i = Some x.
Proof. apply or_raise_Ok. Qed.

Lemma filter_length_le (P : A -> Prop) `{!forall x, Decision (P x)} (l : list A) :
  (length (filter P l) <= length l)%nat.
Proof. induction l as [|x l IH]; [done|]. rewrite filter_cons. case_decide; simpl; lia. Qed.

(** Filtering by a boolean test. *)
Lemma filter_cons_bool (f : A -> bool) x (l : list A) :
  filter (fun y => f y = true) (x :: l) =
  if f x then x :: filter (fun y => f y = true) l else filter (fun y => f y = true) l.
Proof. rewrite filter_cons. destruct (decide (f x = true)) as [->|H]; [done|]. by destruct (f x). Qed.

Lemma filter_none (P : A -> Prop) `{!forall x, Decision (P x)} (l : list A) :
  Forall (fun x => ~ P x) l -> filter P l = [].
Proof. induction 1 as [|x l Hx _ IH]; [done|]. by rewrite filter_cons_False. Qed.

Lemma filter_all (P : A -> Prop) `{!forall x, Decision (P x)} (l : list A) :
  Forall P l -> filter P l = l.
Proof. induction 1 as [|x l Hx _ IH]; [done|]. by rewrite filter_cons_True // IH. Qed.

Lemma bind_ext_in {B} (f g : A -> list B) (l : list A) :
  (forall x, x ∈ l -> f x = g x) -> l ≫= f = l ≫= g.
Proof.
  induction l as [|x l IH]; intros H; [done|]. cbn.
  rewrite H; [left|]. rewrite IH; [|done]. intros y Hy. apply H. by right.
Qed.

Lemma sublist_reverse (l k : list A) : l `sublist_of` k -> reverse l `sublist_of` reverse k.
Proof.
  induction 1 as [|x l k _ IH|x l k _ IH]; rewrite ?reverse_cons; [constructor| |].
  - apply sublist_app; [done|]. reflexivity.
  - by apply sublist_inserts_r.
Qed.

Lemma sublist_reverse_iff (l k : list A) :
  reverse l `sublist_of` reverse k <-> l `sublist_of` k.
Proof.
  split; [|apply sublist_reverse]. intros H%sublist_reverse. by rewrite !reverse_involutive in H.
Qed.

Lemma sum_perm (l1 l2 : list Z) : l1 ≡ₚ l2 -> foldr Z.add 0 l1 = foldr Z.add 0 l2.
Proof. induction 1; simpl; lia. Qed.
End ListLemmas.

Definition Zsum (l : list Z) : Z := foldr Z.add 0 l.

Lemma Zsum_app l1 l2 : Zsum (l1 ++ l2) = Zsum l1 + Zsum l2.
Proof. unfold Zsum. induction l1 as [|x l1 IH]; simpl; lia. Qed.

(** ** Automation *)

Create HintDb xpedite.
#[export] Hint Rewrite @bind_Ok @or_raise_Ok @py_nth_Ok : xpedite.
#[export] Hint Resolve key_leb_total key_leb_trans key_geb_total key_geb_trans : xpedite.

(** [inv_ok H]: invert a hypothesis that a monadic computation returned normally. *)
Ltac inv_ok H :=
  lazymatch type of H with
  | (_ ≫= _) = Ok _ =>
      let a := fresh "a" in let H1 := fresh H in
      apply bind_Ok in H as (a & H1 & H); try inv_ok H1; inv_ok H
  | Ok _ = Ok _ => injection H as H; try subst
  | Raise _ = Ok _ => discriminate H
  | or_raise _ _ = Ok _ => apply or_raise_Ok in H
  | _ => idtac
  end.

(** [forall_elim H]: a [Forall] hypothesis as a quantified one. *)
Ltac forall_elim H :=
  let H' := fresh H in
  pose proof (proj1 (Forall_forall _ _) H) as H'; clear H; rename H' into H; cbn beta in H.

(** [case_bools]: split on the boolean tests of the goal. *)
Ltac case_bools :=
  repeat match goal with
  | |- context [if ?b then _ else _] => let E := fresh "Eb" in destruct b eqn:E
  end.

(** [bool_facts]: turn boolean hypotheses about integers into propositions. *)
Ltac bool_facts :=
  repeat match goal with
  | H : (_ <? _) = true |- _ => apply Z.ltb_lt in H
  | H : (_ <? _) = false |- _ => apply Z.ltb_ge in H
  | H : (_ <=? _) = true |- _ => apply Z.leb_le in H
  | H : (_ <=? _) = false |- _ => apply Z.leb_gt in H
  | H : (_ =? _) = true |- _ => apply Z.eqb_eq in H
  | H : (_ =? _) = false |- _ => apply Z.eqb_neq in H
  | H : (_ && _)%bool = true |- _ => apply andb_true_iff in H as [? ?]
  | H : (_ || _)%bool = false |- _ => apply orb_false_iff in H as [? ?]
  | H : negb _ = true |- _ => apply negb_true_iff in H
  | H : negb _ = false |- _ => apply negb_false_iff in H
  end.

(** ** Loops over all items of a list *)

Lemma mmap_total {A B} (f : A -> result B) l : (forall x, x ∈ l -> exists y, f x = Ok y) -> exists ys, mmap f l = Ok ys.
Proof.
  induction l as [|x l IH]; intros H; [by exists []|]. destruct (H x) as [y Hy]; [left|].
  destruct IH as [ys Hys]; [intros z Hz; apply H; by right|]. exists (y :: ys). by rewrite /= Hy /= Hys.
Qed.

(** Reduces a call of [mmap] to its items. *)
Ltac mmap_ok ys := match goal with |- context [mmap ?f ?l] =>
  let H := fresh "Hys" in destruct (mmap_total f l) as [ys H]; [|rewrite H; cbn [mbind result_bind]] end.

Lemma imap_pair_elem {A} (l : list A) i x : (i, x) ∈ imap pair l <-> l !! i = Some x.
Proof.
  rewrite list_elem_of_lookup. split.
  - intros [j Hj]. rewrite list_lookup_imap in Hj. destruct (l !! j) eqn:E; [|done]. by injection Hj as <- <-.
  - intros H. exists i. by rewrite list_lookup_imap H.
Qed.

(** ** Integers as bytes, the lowest first *)

Fixpoint le_bytes (n : nat) (v : Z) : list Z :=
  match n with O => [] | S n => v mod 256 :: le_bytes n (v / 256) end.

Fixpoint le_value (b : list Z) : Z :=
  match b with [] => 0 | x :: b => x + 256 * le_value b end.

Lemma le_bytes_length n v : length (le_bytes n v) = n.
Proof. revert v. induction n as [|n IH]; intros v; cbn; [done|]. by rewrite IH. Qed.

Lemma le_value_bytes n v : le_value (le_bytes n v) = v mod 256 ^ Z.of_nat n.
Proof.
  revert v. induction n as [|n IH]; intros v; cbn [le_bytes le_value]; [by rewrite Z.mod_1_r|].
  assert (Hp : 0 < 256 ^ Z.of_nat n) by (apply Z.pow_pos_nonneg; lia).
  rewrite IH Nat2Z.inj_succ Z.pow_succ_r; [lia|]. by rewrite (Z.rem_mul_r v 256 (256 ^ Z.of_nat n)).
Qed.
