(* ===== verification/PyStr.v ===== *)
(** * Python strings

    The [str] operations the profiler uses: splitting, joining, slicing, searching,
    stripping, number parsing and hexadecimal printing, on 8-bit characters, together
    with the [os.path] functions on POSIX paths.  The text-processing components
    (probe records, sample records, datagrams, event names) are defined on these. *)

From Stdlib Require Import Ascii.
From S2P Require Import Prelude.

Abbreviation chars := (list ascii).
Definition to_chars : string -> chars := String.list_ascii_of_string.
Definition of_chars : chars -> string := String.string_of_list_ascii.

Lemma of_to_chars s : of_chars (to_chars s) = s.
Proof. apply String.string_of_list_ascii_of_string. Qed.
Lemma to_of_chars l : to_chars (of_chars l) = l.
Proof. apply String.list_ascii_of_string_of_list_ascii. Qed.
#[export] Hint Rewrite of_to_chars to_of_chars : xpedite.

Definition nonempty (s : string) : bool := negb (String.eqb s "").

(** A string or None is true when it is a non-empty string. *)
Definition truthy_str (o : option string) : bool :=
  match o with Some s => nonempty s | None => false end.

(** ** Prefixes, searching, splitting *)

Fixpoint starts_with (p l : chars) : bool :=
  match p, l with
  | [], _ => true
  | _, [] => false
  | c :: p, d :: l => Ascii.eqb c d && starts_with p l
  end.

(** [s.find(p)], [None] for -1. *)
Fixpoint find_sub (p l : chars) : option nat :=
  if starts_with p l then Some 0%nat
  else match l with [] => None | _ :: l => S <$> find_sub p l end.

(** [s.split(sep)] for a non-empty separator; [skip] is what is left of the separator. *)
Fixpoint split_aux (sep : chars) (skip : nat) (cur l : chars) : list chars :=
  match l with
  | [] => [rev cur]
  | c :: l' =>
      match skip with
      | S k => split_aux sep k cur l'
      | O => if starts_with sep l then rev cur :: split_aux sep (length sep - 1) [] l'
             else split_aux sep 0 (c :: cur) l'
      end
  end.
Definition split_chars (sep l : chars) : list chars := split_aux sep 0 [] l.
Definition py_split (sep s : string) : list string :=
  of_chars <$> split_chars (to_chars sep) (to_chars s).

Fixpoint join_chars (sep : chars) (ls : list chars) : chars :=
  match ls with
  | [] => []
  | [l] => l
  | l :: ls => l ++ sep ++ join_chars sep ls
  end.
Definition py_join (sep : string) (ls : list string) : string :=
  of_chars (join_chars (to_chars sep) (to_chars <$> ls)).

Lemma starts_with_true p l : starts_with p l = true <-> exists l', l = p ++ l'.
Proof.
  revert l. induction p as [|c p IH]; intros l; simpl; [naive_solver|].
  destruct l as [|d l]; [split; [done|by intros [? ?]]|].
  rewrite andb_true_iff Ascii.eqb_eq IH. naive_solver.
Qed.

Lemma split_aux_nonempty sep k cur l : split_aux sep k cur l <> [].
Proof.
  revert k cur. induction l as [|c l IH]; intros k cur; [discriminate|].
  destruct k; cbn [split_aux]; [case_match; [discriminate|]|]; apply IH.
Qed.

(** Characters of the fields survive a split: skipping a separator of length one. *)
Lemma split_aux_char c cur l1 :
  c ∉ l1 -> split_aux [c] 0 cur l1 = [rev cur ++ l1].
Proof.
  revert cur. induction l1 as [|d l1 IH]; intros cur H.
  - cbn. by rewrite app_nil_r.
  - apply not_elem_of_cons in H as [Hne H]. cbn [split_aux starts_with].
    rewrite (proj2 (Ascii.eqb_neq c d)) //=. rewrite IH //=. by rewrite -app_assoc.
Qed.

Lemma split_aux_char_app c cur l1 l2 :
  c ∉ l1 -> split_aux [c] 0 cur (l1 ++ c :: l2) = (rev cur ++ l1) :: split_aux [c] 0 [] l2.
Proof.
  revert cur. induction l1 as [|d l1 IH]; intros cur H.
  - cbn [app split_aux starts_with]. rewrite Ascii.eqb_refl. cbn. by rewrite app_nil_r.
  - apply not_elem_of_cons in H as [Hne H]. cbn [app split_aux starts_with].
    rewrite (proj2 (Ascii.eqb_neq c d)) //=. rewrite IH //=. by rewrite -app_assoc.
Qed.

(** Splitting on a character undoes joining fields that do not contain it. *)
Lemma split_join_char c ls :
  ls <> [] -> Forall (fun l => c ∉ l) ls -> split_chars [c] (join_chars [c] ls) = ls.
Proof.
  unfold split_chars. induction ls as [|l ls IH]; [intros []; reflexivity|].
  intros _ H. apply Forall_cons in H as [Hl Hls].
  destruct ls as [|l' ls].
  - cbn [join_chars]. by rewrite split_aux_char.
  - change (join_chars [c] (l :: l' :: ls)) with (l ++ c :: join_chars [c] (l' :: ls)).
    rewrite split_aux_char_app //=. by rewrite IH.
Qed.

(** [a <= b] on strings: by the codes of their characters. *)
Fixpoint chars_leb (a b : chars) : bool :=
  match a, b with
  | [], _ => true
  | _ :: _, [] => false
  | x :: a, y :: b =>
      (nat_of_ascii x <? nat_of_ascii y)%nat || ((nat_of_ascii x =? nat_of_ascii y)%nat && chars_leb a b)
  end.
Definition str_leb (a b : string) : bool := chars_leb (to_chars a) (to_chars b).

Lemma str_leb_total a b : str_leb a b = false -> str_leb b a = true.
Proof.
  unfold str_leb. generalize (to_chars a) (to_chars b). clear. intros a. induction a as [|x a IH]; intros [|y b]; try done.
  cbn [chars_leb]. destruct (Nat.lt_trichotomy (nat_of_ascii x) (nat_of_ascii y)) as [H|[H|H]].
  - by rewrite (proj2 (Nat.ltb_lt _ _) H).
  - rewrite H Nat.eqb_refl Nat.ltb_irrefl. apply IH.
  - by rewrite (proj2 (Nat.ltb_lt _ _) H).
Qed.

Lemma str_leb_trans a b c : str_leb a b = true -> str_leb b c = true -> str_leb a c = true.
Proof.
  unfold str_leb. generalize (to_chars a) (to_chars b) (to_chars c). clear. intros a.
  induction a as [|x a IH]; intros [|y b] [|z c]; try done.
  cbn [chars_leb]. rewrite !orb_true_iff !andb_true_iff !Nat.ltb_lt !Nat.eqb_eq.
  intros [H1|[H1 H1']] [H2|[H2 H2']]; [left; lia..|]. right. split; [lia|]. exact (IH b c H1' H2').
Qed.

(** ** Slices and whitespace *)

Definition slice_to (n : nat) (s : string) : string := of_chars (take n (to_chars s)).
Definition slice_from (n : nat) (s : string) : string := of_chars (drop n (to_chars s)).
(** [s[-n:]] for positive n. *)
Definition slice_last (n : nat) (s : string) : string :=
  of_chars (drop (length (to_chars s) - n) (to_chars s)).

(** Classes of characters, and the longest start of a text in one. *)
Definition is_digit (c : ascii) : bool := existsb (Ascii.eqb c) (to_chars "0123456789").
Definition is_alpha (c : ascii) : bool :=
  let n := nat_of_ascii c in (((65 <=? n)%nat && (n <=? 90)%nat) || ((97 <=? n)%nat && (n <=? 122)%nat))%bool.
Fixpoint take_while (p : ascii -> bool) (l : chars) : chars :=
  match l with c :: l => if p c then c :: take_while p l else [] | [] => [] end.
Definition drop_while (p : ascii -> bool) (l : chars) : chars := drop (length (take_while p l)) l.

Definition is_space (c : ascii) : bool :=
  let n := nat_of_ascii c in
  ((9 <=? n)%nat && (n <=? 13)%nat || (28 <=? n)%nat && (n <=? 32)%nat)%bool.

Fixpoint lstrip_chars (l : chars) : chars :=
  match l with
  | c :: l' => if is_space c then lstrip_chars l' else l
  | [] => []
  end.
Definition strip_chars (l : chars) : chars := rev (lstrip_chars (rev (lstrip_chars l))).
Definition py_strip (s : string) : string := of_chars (strip_chars (to_chars s)).

(** [s.lower()]. *)
Definition lower_char (c : ascii) : ascii :=
  let n := nat_of_ascii c in if ((65 <=? n)%nat && (n <=? 90)%nat)%bool then ascii_of_nat (n + 32) else c.
Definition py_lower (s : string) : string := of_chars (lower_char <$> to_chars s).

(** [s.split()]: maximal runs of non-space characters. *)
Fixpoint words_aux (cur l : chars) : list chars :=
  match l with
  | [] => match cur with [] => [] | _ => [rev cur] end
  | c :: l =>
      if is_space c then match cur with [] => words_aux [] l | _ => rev cur :: words_aux [] l end
      else words_aux (c :: cur) l
  end.
Definition py_words (s : string) : list string := of_chars <$> words_aux [] (to_chars s).

(** ** Numbers *)

Definition digit_raw (c : ascii) : Z :=
  let n := Z.of_nat (nat_of_ascii c) in
  if (48 <=? n) && (n <=? 57) then n - 48
  else if (97 <=? n) && (n <=? 122) then n - 87
  else if (65 <=? n) && (n <=? 90) then n - 55 else 99.
Definition digit_val (base : Z) (c : ascii) : option Z :=
  if digit_raw c <? base then Some (digit_raw c) else None.

(** Digits with single underscores between them; [under] marks a place where an
    underscore may not stand. *)
Fixpoint digits_val (base : Z) (under : bool) (acc : Z) (l : chars) : option Z :=
  match l with
  | [] => if under then None else Some acc
  | c :: l =>
      if Ascii.eqb c "_" then if under then None else digits_val base true acc l
      else match digit_val base c with
           | Some v => digits_val base false (acc * base + v) l
           | None => None
           end
  end.

Definition strip_0x (base : Z) (l : chars) : bool * chars :=
  match l with
  | c :: d :: l' =>
      if ((base =? 16) && Ascii.eqb c "0" && (Ascii.eqb d "x" || Ascii.eqb d "X"))%bool
      then (true, l') else (false, l)
  | _ => (false, l)
  end.

(** [int(s, base)]: surrounding whitespace, a sign and (base 16) a 0x prefix are
    accepted, after which an underscore may follow; anything else raises ValueError. *)
Definition parse_int (base : Z) (s : string) : option Z :=
  let l := strip_chars (to_chars s) in
  let '(neg, l) := match l with
    | c :: l' => if Ascii.eqb c "-" then (true, l') else if Ascii.eqb c "+" then (false, l')
                 else (false, l)
    | [] => (false, []) end in
  let '(prefixed, l) := strip_0x base l in
  let l := match l with
    | c :: l' => if (prefixed && Ascii.eqb c "_")%bool then l' else l
    | [] => [] end in
  v ← digits_val base true 0 l; Some (if neg : bool then - v else v).
Definition py_int (base : Z) (s : string) : result Z := or_raise ValueError_ (parse_int base s).

Definition digit_char (v : Z) : ascii :=
  ascii_of_nat (Z.to_nat (if v <? 10 then v + 48 else v + 87)).

(** Digits of a non-negative number, most significant first, at most [fuel] of them. *)
Fixpoint digits_of (fuel : nat) (base v : Z) (acc : chars) : chars :=
  match fuel with
  | O => acc
  | S fuel =>
      let acc := digit_char (v mod base) :: acc in
      if v <? base then acc else digits_of fuel base (v / base) acc
  end.
Definition digits_fuel (v : Z) : nat := S (Z.to_nat (Z.log2 v)).
Definition print_nat (base v : Z) : chars := digits_of (digits_fuel v) base v [].
Definition print_int (base v : Z) : string :=
  of_chars (if v <? 0 then "-"%char :: print_nat base (- v) else print_nat base v).

(** ** POSIX paths *)

(** The length of the prefix up to and including the last slash. *)
Fixpoint last_slash (i : nat) (l : chars) : nat :=
  match l with
  | [] => 0
  | c :: l => let r := last_slash (S i) l in
              if (r =? 0)%nat then if Ascii.eqb c "/" then S i else 0%nat else r
  end.

Fixpoint lstrip_slash (l : chars) : chars :=
  match l with
  | c :: l' => if Ascii.eqb c "/" then lstrip_slash l' else l
  | [] => []
  end.

Definition basename (p : string) : string :=
  let l := to_chars p in of_chars (drop (last_slash 0 l) l).
Definition dirname (p : string) : string :=
  let l := to_chars p in
  let head := take (last_slash 0 l) l in
  of_chars (if forallb (fun c => Ascii.eqb c "/") head then head
            else rev (lstrip_slash (rev head))).
Definition path_join (a b : string) : string :=
  match to_chars b with
  | c :: _ => if Ascii.eqb c "/" then b
              else if (String.eqb a "" || starts_with ["/"%char] (rev (to_chars a)))%bool
                   then String.append a b else String.append a (String.append "/" b)
  | [] => if (String.eqb a "" || starts_with ["/"%char] (rev (to_chars a)))%bool
          then a else String.append a "/"
  end.

(** ** Lemmas on numbers *)

Lemma digit_raw_char v : 0 <= v < 16 -> digit_raw (digit_char v) = v.
Proof.
  intros Hv.
  assert (v = 0 \/ v = 1 \/ v = 2 \/ v = 3 \/ v = 4 \/ v = 5 \/ v = 6 \/ v = 7 \/ v = 8 \/
          v = 9 \/ v = 10 \/ v = 11 \/ v = 12 \/ v = 13 \/ v = 14 \/ v = 15) as H by lia.
  repeat destruct H as [->|H]; try reflexivity. by subst.
Qed.

Lemma digit_char_val base v :
  2 <= base <= 16 -> 0 <= v < base -> digit_val base (digit_char v) = Some v.
Proof.
  intros Hb Hv. unfold digit_val. rewrite digit_raw_char; [lia|].
  destruct (Z.ltb_spec v base); [done|lia].
Qed.

(** Every digit character is a letter or a decimal digit. *)
Lemma digit_char_facts v : 0 <= v < 16 ->
  digit_char v <> "_"%char /\ digit_char v <> "-"%char /\ digit_char v <> "+"%char /\
  is_space (digit_char v) = false.
Proof.
  intros Hv.
  assert (v = 0 \/ v = 1 \/ v = 2 \/ v = 3 \/ v = 4 \/ v = 5 \/ v = 6 \/ v = 7 \/ v = 8 \/
          v = 9 \/ v = 10 \/ v = 11 \/ v = 12 \/ v = 13 \/ v = 14 \/ v = 15) as H by lia.
  repeat destruct H as [->|H]; try (vm_compute; intuition congruence).
  subst. vm_compute; intuition congruence.
Qed.

(** Printing produces digits, at least one of them. *)
Lemma digits_of_spec fuel base v acc :
  2 <= base <= 16 -> 0 <= v ->
  exists ds, digits_of fuel base v acc = ds ++ acc /\ (0 < fuel -> 0 < length ds)%nat /\
    Forall (fun c => exists d, c = digit_char d /\ 0 <= d < base) ds.
Proof.
  intros Hb. revert v acc. induction fuel as [|fuel IH]; intros v acc Hv; cbn [digits_of].
  { exists []. split_and!; [done|lia|constructor]. }
  assert (0 <= v mod base < base) as Hm by (apply Z.mod_pos_bound; lia).
  destruct (v <? base).
  - exists [digit_char (v mod base)]. split_and!; [done|simpl; lia|].
    apply Forall_singleton. eauto.
  - destruct (IH (v / base) (digit_char (v mod base) :: acc)) as (ds & -> & _ & Hds);
      [apply Z.div_pos; lia|].
    exists (ds ++ [digit_char (v mod base)]).
    split_and!; [by rewrite -app_assoc|rewrite length_app /=; lia|].
    apply Forall_app. split; [done|]. apply Forall_singleton. eauto.
Qed.

Lemma digits_val_app base u acc l1 l2 : 2 <= base <= 16 ->
  Forall (fun c => exists d, c = digit_char d /\ 0 <= d < base) l1 -> l1 <> [] ->
  digits_val base u acc (l1 ++ l2) =
  digits_val base false (fold_left (fun a c => a * base + digit_raw c) l1 acc) l2.
Proof.
  intros Hb. revert u acc. induction l1 as [|c l1 IH]; intros u acc H Hne; [done|].
  apply Forall_cons in H as [(d & -> & Hd) H]. cbn [app digits_val fold_left].
  destruct (digit_char_facts d) as (Hu & _); [lia|].
  rewrite (proj2 (Ascii.eqb_neq _ _) Hu) digit_char_val; [lia|lia|].
  rewrite digit_raw_char; [lia|].
  destruct l1 as [|c' l1]; [done|]. by apply IH.
Qed.

(** Enough fuel prints the whole number. *)
Lemma digits_of_value fuel base v acc a : 2 <= base <= 16 -> 0 <= v < base ^ Z.of_nat fuel ->
  (0 < fuel)%nat ->
  fold_left (fun a c => a * base + digit_raw c) (digits_of fuel base v []) a =
  a * base ^ Z.of_nat (length (digits_of fuel base v [])) + v /\
  digits_of fuel base v acc = digits_of fuel base v [] ++ acc.
Proof.
  intros Hb. revert v acc a. induction fuel as [|fuel IH]; intros v acc a Hv Hf; [lia|].
  cbn [digits_of].
  assert (0 <= v mod base < base) as Hm by (apply Z.mod_pos_bound; lia).
  destruct (v <? base) eqn:E.
  - apply Z.ltb_lt in E. cbn [fold_left length app].
    rewrite digit_raw_char; [lia|]. rewrite Z.mod_small; [lia|]. split; [lia|done].
  - apply Z.ltb_ge in E. rewrite Nat2Z.inj_succ Z.pow_succ_r in Hv; [lia|].
    assert (0 <= v / base < base ^ Z.of_nat fuel) as Hd.
    { split; [apply Z.div_pos; lia|]. apply Z.div_lt_upper_bound; lia. }
    destruct fuel as [|fuel]; [simpl in Hd; pose proof (Z.div_le_lower_bound v base 1); lia|].
    destruct (IH (v / base) (digit_char (v mod base) :: acc) a Hd) as [_ ->]; [lia|].
    destruct (IH (v / base) [digit_char (v mod base)] a Hd) as [Hv' ->]; [lia|].
    rewrite -app_assoc fold_left_app Hv' length_app. cbn [length fold_left app].
    rewrite digit_raw_char; [lia|]. split; [|done].
    rewrite Nat2Z.inj_add Z.pow_add_r; [lia|lia|].
    pose proof (Z.div_mod v base). nia.
Qed.

Lemma print_nat_spec base v : 2 <= base <= 16 -> 0 <= v ->
  print_nat base v <> [] /\
  Forall (fun c => exists d, c = digit_char d /\ 0 <= d < base) (print_nat base v) /\
  fold_left (fun a c => a * base + digit_raw c) (print_nat base v) 0 = v.
Proof.
  intros Hb Hv. unfold print_nat.
  assert (0 <= v < base ^ Z.of_nat (digits_fuel v)) as Hf.
  { split; [done|]. unfold digits_fuel. rewrite Nat2Z.inj_succ Z2Nat.id; [apply Z.log2_nonneg|].
    destruct (Z.eq_dec v 0) as [->|]; [apply Z.pow_pos_nonneg; [lia|done]|].
    eapply Z.lt_le_trans; [apply Z.log2_spec; lia|].
    apply Z.pow_le_mono_l. lia. }
  destruct (digits_of_spec (digits_fuel v) base v []) as (ds & E & Hlen & Hds); [done|done|].
  rewrite app_nil_r in E. split_and!.
  - rewrite E. destruct ds; [unfold digits_fuel in Hlen; simpl in Hlen; lia|done].
  - by rewrite E.
  - destruct (digits_of_value (digits_fuel v) base v [] 0) as [H _];
      [done|done|unfold digits_fuel; lia|]. rewrite H. lia.
Qed.

(** Zero padding does not change the number. *)
Lemma fold_digits_zeros base n l :
  fold_left (fun a c => a * base + digit_raw c) (replicate n "0"%char ++ l) 0 =
  fold_left (fun a c => a * base + digit_raw c) l 0.
Proof. induction n as [|n IH]; [done|]. cbn. apply IH. Qed.

Lemma strip_chars_id l : Forall (fun c => is_space c = false) l -> strip_chars l = l.
Proof.
  intros H. assert (forall l, Forall (fun c => is_space c = false) l -> lstrip_chars l = l) as Hl.
  { intros l' H'. destruct H' as [|c l' Hc _]; [done|]. simpl. by rewrite Hc. }
  unfold strip_chars. rewrite (Hl l H) (Hl (rev l)).
  { by apply Forall_rev. }
  apply rev_involutive.
Qed.

(** [int] reads a run of decimal digits, padded or not. *)
Lemma lstrip_id l : (forall c, head l = Some c -> is_space c = false) -> lstrip_chars l = l.
Proof. destruct l as [|c l]; [done|]. intros H. cbn. by rewrite (H c). Qed.

Lemma strip_ends l : (forall c, head l = Some c -> is_space c = false) -> (forall c, last l = Some c -> is_space c = false) ->
  strip_chars l = l.
Proof.
  intros Hh Hl. unfold strip_chars. rewrite (lstrip_id l Hh) (lstrip_id (rev l)); [|by rewrite rev_involutive].
  intros c Hc. apply Hl. rewrite -head_reverse /reverse -rev_alt. exact Hc.
Qed.

Lemma parse_int_digits l :
  Forall (fun c => exists d, c = digit_char d /\ 0 <= d < 10) l -> l <> [] ->
  parse_int 10 (of_chars l) = Some (fold_left (fun a c => a * 10 + digit_raw c) l 0).
Proof.
  intros H Hne. unfold parse_int. rewrite to_of_chars strip_chars_id.
  { eapply Forall_impl; [exact H|]. intros c (d & -> & Hd). apply digit_char_facts. lia. }
  destruct l as [|c l]; [done|].
  assert (exists d, c = digit_char d /\ 0 <= d < 10) as (d & -> & Hd) by (by apply Forall_cons in H as [? _]).
  destruct (digit_char_facts d) as (_ & H1 & H2 & _); [lia|].
  rewrite (proj2 (Ascii.eqb_neq _ _) H1) (proj2 (Ascii.eqb_neq _ _) H2).
  assert (strip_0x 10 (digit_char d :: l) = (false, digit_char d :: l)) as -> by (by destruct l).
  cbn [andb].
  rewrite -{1}(app_nil_r (digit_char d :: l)) digits_val_app; [lia|done|done|done].
Qed.

(** ** Splitting on a separator whose second character the fields avoid *)

Section SplitSep.
Context (a c : ascii) (rest : chars) (Hac : a <> c).
Abbreviation sep := (a :: c :: rest).

Lemma starts_with_app p l : starts_with p (p ++ l) = true.
Proof. induction p as [|x p IH]; [done|]. cbn. by rewrite Ascii.eqb_refl. Qed.

Lemma split_skip k x cur l : length x = k -> split_aux sep k cur (x ++ l) = split_aux sep 0 cur l.
Proof. revert k. induction x as [|y x IH]; intros k; cbn; [by intros <-|]. intros <-. by apply IH. Qed.

Lemma no_sep_at d l : head l <> Some c -> starts_with sep (d :: l) = false.
Proof.
  destruct l as [|e l]; cbn; [by rewrite andb_false_r|]. intros He.
  rewrite (proj2 (Ascii.eqb_neq c e)); [congruence|by rewrite andb_false_r].
Qed.

Lemma split_sep_last cur l : c ∉ l -> split_aux sep 0 cur l = [rev cur ++ l].
Proof.
  revert cur. induction l as [|d l IH]; intros cur Hl; [by rewrite /= app_nil_r|].
  apply not_elem_of_cons in Hl as [Hd Hl]. cbn [split_aux]. rewrite no_sep_at.
  - destruct l as [|e l]; [done|]. cbn. intros [= ->]. apply Hl. left.
  - rewrite IH //. cbn. by rewrite -app_assoc.
Qed.

Lemma split_sep_app cur l1 l2 : c ∉ l1 ->
  split_aux sep 0 cur (l1 ++ sep ++ l2) = (rev cur ++ l1) :: split_aux sep 0 [] l2.
Proof.
  revert cur. induction l1 as [|d l1 IH]; intros cur Hl.
  - change ([] ++ sep ++ l2) with (sep ++ l2). change (sep ++ l2) with (a :: (c :: rest) ++ l2).
    cbn [split_aux]. change (a :: (c :: rest) ++ l2) with (sep ++ l2).
    rewrite starts_with_app app_nil_r split_skip //.
  - apply not_elem_of_cons in Hl as [Hd Hl]. cbn [app split_aux]. rewrite no_sep_at.
    + destruct l1 as [|e l1]; cbn; [congruence|]. intros [= ->]. apply Hl. left.
    + change (l1 ++ a :: c :: rest ++ l2) with (l1 ++ sep ++ l2). rewrite IH //. cbn. by rewrite -app_assoc.
Qed.

Lemma split_join_sep ls : ls <> [] -> Forall (fun l => c ∉ l) ls -> split_chars sep (join_chars sep ls) = ls.
Proof.
  unfold split_chars. induction ls as [|l ls IH]; [done|]. intros _ H. apply Forall_cons in H as [Hl Hls].
  destruct ls as [|l' ls].
  - cbn [join_chars]. by rewrite split_sep_last.
  - change (join_chars sep (l :: l' :: ls)) with (l ++ sep ++ join_chars sep (l' :: ls)).
    rewrite split_sep_app // IH //.
Qed.
End SplitSep.

(** ** Whitespace at the end *)

Lemma lstrip_app_space l x : is_space x = true ->
  lstrip_chars (l ++ [x]) = match lstrip_chars l with [] => [] | l' => l' ++ [x] end.
Proof.
  intros Hx. induction l as [|c l IH]; cbn; [by rewrite Hx|]. by destruct (is_space c).
Qed.

Lemma strip_chars_trailing l x : is_space x = true -> strip_chars (l ++ [x]) = strip_chars l.
Proof.
  intros Hx. unfold strip_chars. rewrite lstrip_app_space //.
  destruct (lstrip_chars l) as [|c l']; [done|]. by rewrite rev_app_distr /= Hx.
Qed.

(** [int] reads a printed number back, with or without a line end. *)
Lemma digit_char_not_x d : 0 <= d < 16 -> digit_char d <> "x"%char /\ digit_char d <> "X"%char.
Proof.
  intros Hd.
  assert (d = 0 \/ d = 1 \/ d = 2 \/ d = 3 \/ d = 4 \/ d = 5 \/ d = 6 \/ d = 7 \/ d = 8 \/
          d = 9 \/ d = 10 \/ d = 11 \/ d = 12 \/ d = 13 \/ d = 14 \/ d = 15) as H by lia.
  repeat destruct H as [->|H]; try (split; discriminate). subst. split; discriminate.
Qed.

Lemma parse_int_chars base l n : 2 <= base <= 16 ->
  Forall (fun c => exists d, c = digit_char d /\ 0 <= d < base) l -> l <> [] ->
  fold_left (fun a c => a * base + digit_raw c) l 0 = n ->
  (parse_int base (of_chars l) = Some n) /\
  (forall x, is_space x = true -> parse_int base (of_chars (l ++ [x])) = Some n).
Proof.
  intros Hb H Hne Hn.
  assert (Hsp : Forall (fun c => is_space c = false) l).
  { eapply Forall_impl; [exact H|]. intros c (d & -> & Hd). apply digit_char_facts. lia. }
  cut (forall s, strip_chars (to_chars s) = l -> parse_int base s = Some n).
  { intros Hcut. split; [|intros x Hx]; apply Hcut; rewrite to_of_chars.
    - by apply strip_chars_id.
    - rewrite strip_chars_trailing //. by apply strip_chars_id. }
  intros s Hs. unfold parse_int. rewrite Hs. destruct l as [|c l]; [done|].
  assert (exists d, c = digit_char d /\ 0 <= d < base) as (d & -> & Hd) by (by apply Forall_cons in H as [? _]).
  destruct (digit_char_facts d) as (_ & H1 & H2 & _); [lia|].
  rewrite (proj2 (Ascii.eqb_neq _ _) H1) (proj2 (Ascii.eqb_neq _ _) H2).
  assert (strip_0x base (digit_char d :: l) = (false, digit_char d :: l)) as ->.
  { destruct l as [|c2 l]; [done|]. cbn. apply Forall_cons in H as [_ H]. apply Forall_cons in H as [(d2 & -> & Hd2) _].
    destruct (digit_char_not_x d2) as [Hx HX]; [lia|].
    by rewrite (proj2 (Ascii.eqb_neq _ _) Hx) (proj2 (Ascii.eqb_neq _ _) HX) andb_false_r. }
  cbn [andb]. rewrite -{1}(app_nil_r (digit_char d :: l)) digits_val_app; [lia|done|done|].
  cbn. by rewrite -Hn.
Qed.

Lemma py_int_print base n : 2 <= base <= 16 -> 0 <= n ->
  py_int base (print_int base n) = Ok n /\
  forall x, is_space x = true -> py_int base (of_chars (to_chars (print_int base n) ++ [x])) = Ok n.
Proof.
  intros Hb Hn. destruct (print_nat_spec base n Hb Hn) as (Hne & Hds & Hv).
  unfold print_int. rewrite (proj2 (Z.ltb_ge _ _) Hn) to_of_chars. unfold py_int.
  destruct (parse_int_chars base (print_nat base n) n Hb Hds Hne Hv) as [-> H2].
  split; [done|]. intros x Hx. by rewrite H2.
Qed.

(** Printed numbers contain digits only. *)
Lemma print_int_chars base n x : 2 <= base <= 16 -> 0 <= n ->
  (forall d, 0 <= d < 16 -> digit_char d <> x) -> x ∉ to_chars (print_int base n).
Proof.
  intros Hb Hn Hx Hin. unfold print_int in Hin. rewrite (proj2 (Z.ltb_ge _ _) Hn) to_of_chars in Hin.
  destruct (print_nat_spec base n Hb Hn) as (_ & Hds & _). rewrite Forall_forall in Hds.
  destruct (Hds x Hin) as (d & -> & Hd). apply (Hx d); [lia|done].
Qed.

Lemma digit_char_in d : 0 <= d < 16 -> digit_char d ∈ to_chars "0123456789abcdef".
Proof.
  intros Hd.
  assert (d = 0 \/ d = 1 \/ d = 2 \/ d = 3 \/ d = 4 \/ d = 5 \/ d = 6 \/ d = 7 \/ d = 8 \/
          d = 9 \/ d = 10 \/ d = 11 \/ d = 12 \/ d = 13 \/ d = 14 \/ d = 15) as H by lia.
  repeat destruct H as [->|H]; try (vm_compute; set_solver).
Qed.

Lemma find_sub_char c l l' : c ∉ l -> find_sub [c] (l ++ c :: l') = Some (length l).
Proof.
  induction l as [|x l IH]; intros H; cbn [app find_sub starts_with length].
  - by rewrite Ascii.eqb_refl.
  - apply not_elem_of_cons in H as [Hx H]. rewrite (proj2 (Ascii.eqb_neq _ _) Hx). cbn [andb]. by rewrite IH.
Qed.

Lemma last_slash_app i l b : "/"%char ∉ b -> last_slash i (l ++ "/"%char :: b) = S (i + length l).
Proof.
  assert (Hb : forall j, "/"%char ∉ b -> last_slash j b = 0%nat).
  { induction b as [|c b IH]; intros j H; [done|]. apply not_elem_of_cons in H as [Hc H]. cbn [last_slash].
    rewrite IH // (proj2 (Ascii.eqb_neq _ _)) //. congruence. }
  intros H. revert i. induction l as [|c l IH]; intros i; cbn [app last_slash length].
  - rewrite Hb //=.
  - rewrite IH. cbn [Nat.eqb]. lia.
Qed.

Lemma basename_app l b : "/"%char ∉ b -> basename (of_chars (l ++ "/"%char :: b)) = of_chars b.
Proof.
  intros H. unfold basename. rewrite to_of_chars last_slash_app //. f_equal.
  by rewrite cons_middle app_assoc (drop_app_length' _ b) // length_app /=; lia.
Qed.

Lemma print_digits n : 0 <= n -> to_chars (print_int 10 n) = print_nat 10 n /\ print_nat 10 n <> [] /\
  Forall (fun c => exists d, c = digit_char d /\ 0 <= d < 10) (print_nat 10 n).
Proof.
  intros Hn. destruct (print_nat_spec 10 n ltac:(lia) Hn) as (H1 & H2 & _). split; [|done].
  unfold print_int. rewrite (proj2 (Z.ltb_ge _ _) Hn). by rewrite to_of_chars.
Qed.

Lemma print_int_inj n m : 0 <= n -> 0 <= m -> print_int 10 n = print_int 10 m -> n = m.
Proof.
  intros Hn Hm E. destruct (py_int_print 10 n ltac:(lia) Hn) as [H1 _]. destruct (py_int_print 10 m ltac:(lia) Hm) as [H2 _].
  rewrite E H2 in H1. by injection H1.
Qed.

Lemma digit_forall (P : ascii -> Prop) n : 0 <= n -> (forall d, 0 <= d < 10 -> P (digit_char d)) -> Forall P (to_chars (print_int 10 n)).
Proof.
  intros Hn HP. destruct (print_digits n Hn) as (-> & _ & H). refine (Forall_impl _ _ _ H _). intros c (d & -> & Hd). by apply HP.
Qed.

Lemma ten_digits (P : ascii -> Prop) : Forall P (to_chars "0123456789") -> forall d, 0 <= d < 10 -> P (digit_char d).
Proof.
  intros H d Hd. rewrite Forall_forall in H. apply H.
  assert (d = 0 \/ d = 1 \/ d = 2 \/ d = 3 \/ d = 4 \/ d = 5 \/ d = 6 \/ d = 7 \/ d = 8 \/ d = 9) as Hd' by lia.
  repeat destruct Hd' as [->|Hd']; [..|subst]; vm_compute; set_solver.
Qed.

Lemma chars_append a b : to_chars (String.append a b) = to_chars a ++ to_chars b.
Proof. induction a as [|c a IH]; [done|]. exact (f_equal (cons c) IH). Qed.

Lemma drop_past {A} (x : A) l r : drop (S (length l)) (l ++ x :: r) = r.
Proof. by induction l. Qed.

Lemma length_of_chars l : String.length (of_chars l) = length l.
Proof. unfold of_chars. induction l as [|c l IH]; [done|]. cbn. by rewrite IH. Qed.

Lemma find_sub_app p x y : exists i, find_sub p (x ++ p ++ y) = Some i.
Proof.
  induction x as [|c x [i IH]].
  - exists 0%nat. pose proof (starts_with_app p y) as E. cbn [app]. by destruct (p ++ y); cbn [find_sub]; rewrite E.
  - cbn [app find_sub]. destruct (starts_with p _); [by exists 0%nat|]. exists (S i). by rewrite IH.
Qed.
