(* ===== verification/Ini.v ===== *)
(** * Configuration files

    The part of Python's [configparser.RawConfigParser] that benchmark/info.py uses:
    sections of options, written as lines and read back.  Option names are lower-cased;
    values come back stripped, further lines of a value are indented. *)

From Stdlib Require Import Ascii.
From S2P Require Import Prelude PyStr.

(** A parsed file: sections with their options, in order. *)
Definition Ini : Type := list (string * list (string * string)).

Definition add_section (name : string) (c : Ini) : result Ini :=
  if od_mem String.eqb name c then Raise ConfigError_ else Ok (od_set String.eqb name [] c).
Definition set_option (section option value : string) (c : Ini) : result Ini :=
  if od_mem String.eqb section c
  then Ok (od_alter String.eqb (od_set String.eqb (py_lower option) value) section c) else Raise ConfigError_.
Definition get_option (section option : string) (c : Ini) : result string :=
  os ← or_raise ConfigError_ (od_get String.eqb section c);
  or_raise ConfigError_ (od_get String.eqb (py_lower option) os).
Definition has_section (section : string) (c : Ini) : bool := od_mem String.eqb section c.
Definition has_option (section option : string) (c : Ini) : bool :=
  match od_get String.eqb section c with Some os => od_mem String.eqb (py_lower option) os | None => false end.

(** ** Writing *)

Definition option_lines (kv : string * string) : list chars :=
  match split_chars ["010"%char] (to_chars kv.2) with
  | v :: vs => (to_chars kv.1 ++ to_chars " = " ++ v) :: (cons "009"%char <$> vs)
  | [] => []
  end.
Definition section_lines (s : string * list (string * string)) : list chars :=
  ("["%char :: to_chars s.1 ++ ["]"%char]) :: (s.2 ≫= option_lines) ++ [[]].
Definition write_ini (c : Ini) : list string := of_chars <$> (c ≫= section_lines).

(** ** Reading *)

(** The reader: the finished sections, the open one with the lines of its values, whether
    its last option is open, and the indentation that option was read at. *)
Record Reader := mkReader {
  finished : list (string * list (string * list chars));
  open_section : option (string * list (string * list chars));
  open_option : bool;
  indent : nat
}.
Definition reader_start : Reader := mkReader [] None false 0.

Definition is_comment (l : chars) : bool :=
  match l with c :: _ => Ascii.eqb c "#" || Ascii.eqb c ";" | [] => false end.

(** Another line for the value of the last option. *)
Definition continue_value (v : chars) (r : Reader) : Reader :=
  match open_section r with
  | Some (s, os) =>
      mkReader (finished r)
        (Some (s, match last os with Some (k, ls) => take (length os - 1) os ++ [(k, ls ++ [v])] | None => os end))
        (open_option r) (indent r)
  | None => r
  end.

(** [\[(.+)\]] at the start of the line. *)
Fixpoint to_last_bracket (l : chars) : option chars :=
  match l with
  | [] => None
  | c :: l => match to_last_bracket l with
              | Some h => Some (c :: h)
              | None => if Ascii.eqb c "]" then Some [] else None
              end
  end.
Definition section_header (l : chars) : option chars :=
  match l with
  | c :: l => if Ascii.eqb c "[" then match to_last_bracket l with Some (x :: h) => Some (x :: h) | _ => None end else None
  | [] => None
  end.

(** The first [=] or [:] of the line. *)
Fixpoint split_option (l : chars) : option (chars * chars) :=
  match l with
  | [] => None
  | c :: l => if (Ascii.eqb c "=" || Ascii.eqb c ":")%bool then Some ([], l)
              else '(k, v) ← split_option l; Some (c :: k, v)
  end.

Definition rstrip_chars (l : chars) : chars := rev (lstrip_chars (rev l)).

Definition sections_of (r : Reader) : list (string * list (string * list chars)) :=
  finished r ++ match open_section r with Some s => [s] | None => [] end.

Definition read_line (r : Reader) (line : chars) : result Reader :=
  let value := strip_chars line in
  if is_comment value then Ok r
  else
    match value with
    | [] => Ok (if open_option r then continue_value [] r else r)
    | _ =>
        let level := (length line - length (lstrip_chars line))%nat in
        if (open_option r && (indent r <? level)%nat)%bool then Ok (continue_value value r)
        else
          match section_header value with
          | Some h =>
              let name := of_chars h in
              if existsb (String.eqb name) (sections_of r).*1 then Raise ConfigError_
              else Ok (mkReader (sections_of r) (Some (name, [])) false level)
          | None =>
              match open_section r with
              | None => Raise ConfigError_
              | Some (s, os) =>
                  '(k, v) ← or_raise ConfigError_ (split_option value);
                  let name := py_lower (of_chars (rstrip_chars k)) in
                  if (negb (nonempty name) || od_mem String.eqb name os)%bool then Raise ConfigError_
                  else Ok (mkReader (finished r) (Some (s, os ++ [(name, [strip_chars v])])) true level)
              end
          end
    end.

Definition join_value (ls : list chars) : string := of_chars (rstrip_chars (join_chars ["010"%char] ls)).

Definition read_ini (lines : list string) : result Ini :=
  r ← mfor (fun r line => read_line r (to_chars line)) reader_start lines;
  Ok ((fun s : string * list (string * list chars) =>
         (s.1, (fun kv : string * list chars => (kv.1, join_value kv.2)) <$> s.2)) <$> sections_of r).

(** ** What is written is read back *)

Lemma split_option_app k v : Forall (fun c => c <> "="%char /\ c <> ":"%char) k ->
  split_option (k ++ "="%char :: v) = Some (k, v).
Proof.
  induction 1 as [|c k [H1 H2] _ IH]; [done|]. cbn [app split_option].
  rewrite (proj2 (Ascii.eqb_neq _ _) H1) (proj2 (Ascii.eqb_neq _ _) H2) IH. done.
Qed.

Definition bare_ends (l : chars) : Prop :=
  (forall c, head l = Some c -> is_space c = false) /\ (forall c, last l = Some c -> is_space c = false).
Definition plain_key (k : string) : Prop :=
  py_lower k = k /\ bare_ends (to_chars k) /\ k <> ""%string /\
  Forall (fun c => c <> "="%char /\ c <> ":"%char) (to_chars k) /\
  is_comment (to_chars k) = false /\ head (to_chars k) <> Some "["%char.
Definition plain_value (v : string) : Prop := bare_ends (to_chars v) /\ "010"%char ∉ to_chars v.
Definition plain_section (s : string * list (string * string)) : Prop :=
  s.1 <> ""%string /\ "]"%char ∉ to_chars s.1 /\ NoDup s.2.*1 /\
  Forall (fun kv => plain_key kv.1 /\ plain_value kv.2) s.2.


Lemma chars_nil s : to_chars s = [] -> s = ""%string.
Proof. intros E. by rewrite -(of_to_chars s) E. Qed.

Lemma rstrip_bare l : (forall c, last l = Some c -> is_space c = false) -> rstrip_chars l = l.
Proof.
  intros H. unfold rstrip_chars. rewrite lstrip_id ?rev_involutive //.
  intros c Hc. apply H. rewrite -head_reverse /reverse -rev_alt. exact Hc.
Qed.

Lemma rstrip_space l x : is_space x = true -> rstrip_chars (l ++ [x]) = rstrip_chars l.
Proof. intros H. unfold rstrip_chars. rewrite rev_app_distr. cbn. by rewrite H. Qed.

Lemma strip_head_space l x : is_space x = true -> strip_chars (x :: l) = strip_chars l.
Proof. intros H. unfold strip_chars. cbn [lstrip_chars]. by rewrite H. Qed.

Lemma to_last_bracket_app s : "]"%char ∉ s -> to_last_bracket (s ++ ["]"%char]) = Some s.
Proof.
  induction s as [|c s IH]; intros H; [done|]. apply not_elem_of_cons in H as [Hc H]. cbn [app to_last_bracket]. by rewrite IH.
Qed.

Lemma read_section_line r s : s <> ""%string -> "]"%char ∉ to_chars s -> s ∉ (sections_of r).*1 ->
  read_line r ("["%char :: to_chars s ++ ["]"%char]) = Ok (mkReader (sections_of r) (Some (s, [])) false 0).
Proof.
  intros Hne Hb Hs. unfold read_line. rewrite (strip_ends ("["%char :: to_chars s ++ ["]"%char])).
  { by intros c [= <-]. }
  { intros c. rewrite app_comm_cons last_app /=. by intros [= <-]. }
  cbn [is_comment Ascii.eqb Bool.eqb orb lstrip_chars is_space section_header].
  rewrite to_last_bracket_app //. destruct (to_chars s) as [|c l] eqn:E; [by apply chars_nil in E|]. rewrite -E of_to_chars.
  change (lstrip_chars ("["%char :: to_chars s ++ ["]"%char])) with ("["%char :: to_chars s ++ ["]"%char]).
  rewrite Nat.sub_diag. change (indent r <? 0)%nat with false. rewrite andb_false_r.
  destruct (existsb (String.eqb s) (sections_of r).*1) eqn:Ex; [|done].
  exfalso. apply Hs. apply existsb_exists in Ex as (s' & Hin & Eq). apply String.eqb_eq in Eq as <-. by apply list_elem_of_In.
Qed.

Lemma read_option_line fin s os b i k v : plain_key k -> plain_value v -> k ∉ os.*1 ->
  read_line (mkReader fin (Some (s, os)) b i) (to_chars k ++ to_chars " = " ++ to_chars v) =
  Ok (mkReader fin (Some (s, os ++ [(k, [to_chars v])])) true 0).
Proof.
  intros (Hlow & [Hkh Hkl] & Hne & Hd & Hc & Hbr) [[Hvh Hvl] _] Hk.
  destruct (to_chars k) as [|x l] eqn:E; [by apply chars_nil in E|]. assert (Hx : is_space x = false) by (by apply Hkh).
  set (line := (x :: l) ++ to_chars " = " ++ to_chars v).
  assert (exists rest, strip_chars line = x :: l ++ " "%char :: "="%char :: rest /\ strip_chars rest = to_chars v) as (rest & Hs & Hrest).
  { destruct (to_chars v) as [|y v'] eqn:Ev.
    - exists []. split; [|done]. unfold line. change (to_chars " = " ++ []) with ([" "; "="]%char ++ [" "%char]).
      rewrite app_assoc strip_chars_trailing // strip_ends //.
      intros c. rewrite last_app /=. by intros [= <-].
    - exists (" "%char :: y :: v'). split; [|rewrite strip_head_space // strip_ends //]. unfold line. rewrite strip_ends //.
      intros c. rewrite app_assoc last_app. destruct (last (y :: v')) as [d|] eqn:El; [intros [= <-]; by apply Hvl|].
      by apply last_None in El. }
  unfold read_line. rewrite Hs. change (is_comment (x :: l ++ " "%char :: "="%char :: rest)) with (is_comment (x :: l)). rewrite Hc.
  assert (lstrip_chars line = line) as -> by (unfold line; cbn [app lstrip_chars]; by rewrite Hx). rewrite Nat.sub_diag.
  cbn [open_option indent open_section finished]. change (i <? 0)%nat with false. rewrite andb_false_r.
  assert (section_header (x :: l ++ " "%char :: "="%char :: rest) = None) as ->.
  { cbn [section_header]. destruct (Ascii.eqb_spec x "["); [by subst|done]. }
  assert (split_option (x :: l ++ " "%char :: "="%char :: rest) = Some ((x :: l) ++ [" "%char], rest)) as ->.
  { change (x :: l ++ " "%char :: "="%char :: rest) with ((x :: l) ++ [" "%char] ++ "="%char :: rest). rewrite app_assoc.
    apply split_option_app, Forall_app. split; [done|]. by repeat constructor. }
  cbn [or_raise mbind result_bind]. rewrite rstrip_space // rstrip_bare // -E of_to_chars Hlow Hrest.
  assert (nonempty k = true) as -> by (unfold nonempty; by destruct (String.eqb_spec k "")).
  destruct (od_mem String.eqb k os) eqn:Em; [|done].
  apply od_mem_true in Em as [w Em]. apply od_get_elem_of in Em as (k' & Hin & Eq). apply String.eqb_eq in Eq as <-.
  exfalso. apply Hk. exact (list_elem_of_fmap_2 fst _ _ Hin).
Qed.

(** The options of a section, and the blank line after it. *)
Lemma read_options kvs fin s os b : Forall (fun kv => plain_key kv.1 /\ plain_value kv.2) kvs -> NoDup (os.*1 ++ kvs.*1) ->
  mfor read_line (mkReader fin (Some (s, os)) b 0) (kvs ≫= option_lines) =
  Ok (mkReader fin (Some (s, os ++ ((fun kv => (kv.1, [to_chars kv.2])) <$> kvs)))
        (match kvs with [] => b | _ => true end) 0).
Proof.
  intros H. revert os b. induction H as [|[k v] kvs [Hk Hv] _ IH]; intros os b Hnd; [by rewrite app_nil_r|].
  assert (Hlines : option_lines (k, v) = [to_chars k ++ to_chars " = " ++ to_chars v]).
  { unfold option_lines, split_chars. cbn [fst snd]. rewrite (split_aux_char "010"%char []) //. exact (proj2 Hv). }
  cbn [mbind list_bind]. rewrite Hlines. cbn [app mfor].
  rewrite read_option_line //. { apply NoDup_app in Hnd as (_ & Hd & _). intros Hin. apply (Hd _ Hin). left. }
  cbn [mbind result_bind]. rewrite IH.
  - rewrite fmap_app -app_assoc. exact Hnd.
  - rewrite -app_assoc. by destruct kvs.
Qed.

Lemma join_value_one v : plain_value v -> join_value [to_chars v] = v.
Proof. intros [[_ Hl] _]. unfold join_value. cbn [join_chars]. by rewrite rstrip_bare // of_to_chars. Qed.

Lemma join_value_blank v : plain_value v -> join_value [to_chars v; []] = v.
Proof. intros [[_ Hl] _]. unfold join_value. cbn [join_chars app]. by rewrite rstrip_space // rstrip_bare // of_to_chars. Qed.

Definition values_of (s : string * list (string * list chars)) : string * list (string * string) :=
  (s.1, (fun kv : string * list chars => (kv.1, join_value kv.2)) <$> s.2).

Lemma read_section r s : plain_section s -> s.1 ∉ (sections_of r).*1 ->
  exists r', mfor read_line r (section_lines s) = Ok r' /\ values_of <$> sections_of r' = (values_of <$> sections_of r) ++ [s].
Proof.
  destruct s as [s kvs]. intros (Hne & Hb & Hnd & Hkvs) Hs. cbn [fst snd] in *. unfold section_lines. cbn [fst snd mfor].
  rewrite read_section_line //. cbn [mbind result_bind]. rewrite mfor_app read_options //. cbn [app mbind result_bind mfor].
  destruct kvs as [|kv kvs _] using rev_ind.
  - eexists. split; [reflexivity|]. unfold sections_of at 1. cbn. by rewrite fmap_app.
  - eexists. split; [reflexivity|].
    assert (forall {X} (l : list X) x, match l ++ [x] with [] => false | _ => true end = true) as -> by (by intros X []).
    cbn [open_option]. unfold continue_value. cbn [open_section finished indent open_option].
    rewrite fmap_app last_app length_app. cbn [fmap list_fmap last length].
    replace (length ((fun kv => (kv.1, [to_chars kv.2])) <$> kvs) + 1 - 1)%nat
      with (length ((fun kv : string * string => (kv.1, [to_chars kv.2])) <$> kvs)) by lia.
    rewrite take_app_length. unfold sections_of at 1. cbn [open_section finished]. rewrite fmap_app. f_equal. cbn [fmap list_fmap].
    unfold values_of. cbn [fst snd]. rewrite fmap_app -list_fmap_compose. cbn [fmap list_fmap fst snd app].
    apply Forall_app in Hkvs as [Hkvs Hlast]. apply Forall_cons in Hlast as [[_ Hv] _]. rewrite join_value_blank //.
    do 3 f_equal; [|by destruct kv]. clear -Hkvs. induction Hkvs as [|[k v] kvs [_ Hv] _ IH]; [done|].
    cbn [fmap list_fmap]. unfold compose at 1. cbn [fst snd]. rewrite join_value_one //. by f_equal.
Qed.

Lemma read_write_ini c : Forall plain_section c -> NoDup c.*1 -> read_ini (write_ini c) = Ok c.
Proof.
  intros Hc Hnd. unfold read_ini, write_ini.
  assert (H : forall r, NoDup ((values_of <$> sections_of r).*1 ++ c.*1) ->
    exists r', mfor read_line r (c ≫= section_lines) = Ok r' /\ values_of <$> sections_of r' = (values_of <$> sections_of r) ++ c).
  { clear Hnd. induction Hc as [|s c Hs _ IH]; intros r Hnd; [exists r; by rewrite app_nil_r|].
    assert (Hk : forall r, (values_of <$> sections_of r).*1 = (sections_of r).*1).
    { intros r0. rewrite -list_fmap_compose. by apply list_fmap_ext. }
    destruct (read_section r s Hs) as (r1 & H1 & E1).
    { apply NoDup_app in Hnd as (_ & Hd & _). rewrite -Hk. intros Hin. apply (Hd _ Hin). left. }
    destruct (IH r1) as (r' & H2 & E2); [rewrite E1 fmap_app -app_assoc; exact Hnd|]. exists r'. split; [|by rewrite E2 E1 -app_assoc].
    cbn [mbind list_bind]. rewrite mfor_app H1. exact H2. }
  destruct (H reader_start) as (r' & H1 & E); [exact Hnd|].
  assert (mfor (fun r line => read_line r (to_chars line)) reader_start (of_chars <$> (c ≫= section_lines)) = Ok r') as ->.
  { rewrite -H1. generalize reader_start as r. generalize (c ≫= section_lines) as ls. induction ls as [|l ls IH]; intros r; [done|].
    cbn [fmap list_fmap mfor]. rewrite to_of_chars. destruct (read_line r l); [apply IH|done]. }
  cbn [mbind result_bind]. f_equal. exact E.
Qed.
