(* ===== verification/Probe.v ===== *)
(** * Probes, routes of probes and multi-keyed probe maps

    Models types/probe.py, types/containers.py, types/route.py, the [Counter] and
    [CpuInfo] classes of types/__init__.py and the probe helpers of util/probeFactory.py.

    A probe object is a record with the attributes every class of the hierarchy has;
    its constructor functions set the flags as the classes do.  Attributes that an
    anchored probe's attribute string sets through [setattr] are the transaction flags
    and [isActive]; other names land in [extra]. *)

From Stdlib Require Import Ascii.
From S2P Require Import Prelude PyStr.

(** ** Probe classes *)

Inductive probeClass :=
  | CProbe | CAnonymousProbe | CAnchoredProbe
  | CTxnBeginProbe | CTxnSuspendProbe | CTxnResumeProbe | CTxnEndProbe.

#[export] Instance probeClass_eq_dec : EqDecision probeClass.
Proof. solve_decision. Defined.

Record Probe := mkProbe {
  cls : probeClass;
  pname : string;
  sysName : option string;
  isAnonymous : bool;
  canBeginTxn : bool;
  canSuspendTxn : bool;
  canResumeTxn : bool;
  canEndTxn : bool;
  isActive : option bool;
  filePath : string;
  ppath : string;
  fileName : string;
  lineNo : Z;
  attributes : string;
  extra : list string
}.

#[export] Instance Probe_eq_dec : EqDecision Probe.
Proof. solve_decision. Defined.

(** [AbstractProbe.__init__]; the location fields exist on anchored probes only. *)
Definition AbstractProbe_init (c : probeClass) (name : string) (sys : option string) : Probe :=
  mkProbe c name sys false false false false false None "" "" "" 0 "" [].

Definition isAnchored (p : Probe) : bool :=
  match cls p with CAnchoredProbe => true | _ => false end.

(** [Probe.__init__]: an empty or missing system name is refused. *)
Definition Probe_init (c : probeClass) (name : string) (sys : option string) : result Probe :=
  if truthy_str sys then Ok (AbstractProbe_init c name sys) else Raise Exception_.

Definition set_flag (attr : string) (p : Probe) : Probe :=
  let 'mkProbe c n s an cb cs cr ce ia fp pp fn ln at_ ex := p in
  if String.eqb attr "isAnonymous" then mkProbe c n s true cb cs cr ce ia fp pp fn ln at_ ex
  else if String.eqb attr "canBeginTxn" then mkProbe c n s an true cs cr ce ia fp pp fn ln at_ ex
  else if String.eqb attr "canSuspendTxn" then mkProbe c n s an cb true cr ce ia fp pp fn ln at_ ex
  else if String.eqb attr "canResumeTxn" then mkProbe c n s an cb cs true ce ia fp pp fn ln at_ ex
  else if String.eqb attr "canEndTxn" then mkProbe c n s an cb cs cr true ia fp pp fn ln at_ ex
  else if String.eqb attr "isActive" then mkProbe c n s an cb cs cr ce (Some true) fp pp fn ln at_ ex
  else mkProbe c n s an cb cs cr ce ia fp pp fn ln at_ (attr :: ex).

Definition AnonymousProbe_init (name : string) (sys : option string) : result Probe :=
  set_flag "isAnonymous" <$> Probe_init CAnonymousProbe name sys.
Definition TxnBeginProbe_init (name : string) (sys : option string) : result Probe :=
  set_flag "canBeginTxn" <$> Probe_init CTxnBeginProbe name sys.
Definition TxnSuspendProbe_init (name : string) (sys : option string) : result Probe :=
  set_flag "canSuspendTxn" <$> Probe_init CTxnSuspendProbe name sys.
Definition TxnResumeProbe_init (name : string) (sys : option string) : result Probe :=
  set_flag "canResumeTxn" <$> Probe_init CTxnResumeProbe name sys.
Definition TxnEndProbe_init (name : string) (sys : option string) : result Probe :=
  set_flag "canEndTxn" <$> Probe_init CTxnEndProbe name sys.

(** A line number arrives as an int (from a live probe) or a string (from a record). *)
Inductive lineArg := LInt (n : Z) | LStr (s : string).

Definition truthy_line (l : lineArg) : bool :=
  match l with LInt n => negb (n =? 0) | LStr s => nonempty s end.
Definition line_int (l : lineArg) : result Z :=
  match l with LInt n => Ok n | LStr s => py_int 10 s end.

(** [AnchoredProbe.initAttributes]. *)
Definition initAttributes (p : Probe) : Probe :=
  fold_left (fun p attr => set_flag attr p) (py_split "," (attributes p)) p.

Definition AnchoredProbe_init (name fp : string) (line : lineArg) (attrs : string)
    (active : option bool) (sys : option string) : result Probe :=
  if (nonempty fp && truthy_line line)%bool then
    n ← line_int line;
    Ok (initAttributes (mkProbe CAnchoredProbe name sys false false false false false
      active fp (dirname fp) (basename fp) n attrs []))
  else Raise Exception_.

(** ** Equality of probes *)

Definition opt_str_eqb (a b : option string) : bool := bool_decide (a = b).

(** [long.find(short, len(long) - len(short)) != -1] *)
Definition path_match (a b : string) : bool :=
  let la := to_chars a in let lb := to_chars b in
  let '(long, short) := if (length lb <=? length la)%nat then (la, lb) else (lb, la) in
  match find_sub short (drop (length long - length short) long) with
  | Some _ => true | None => false end.

(** [AnchoredProbe.__eq__] on two anchored probes. *)
Definition anchored_eqb (p q : Probe) : bool :=
  if (negb (lineNo p =? lineNo q) || negb (String.eqb (fileName p) (fileName q)))%bool then false
  else if (nonempty (ppath p) && nonempty (ppath q))%bool then path_match (ppath p) (ppath q)
  else true.

(** [lhs == rhs]: an anchored left side refuses a probe that is not anchored. *)
Definition probe_eq (lhs rhs : Probe) : result bool :=
  if isAnchored lhs then
    if isAnchored rhs then Ok (anchored_eqb lhs rhs) else Raise InvariantViloation
  else Ok (opt_str_eqb (sysName lhs) (sysName rhs)).

Definition compareProbes (lhs rhs : Probe) : result bool :=
  if (truthy_str (sysName lhs) && truthy_str (sysName rhs)
      && opt_str_eqb (sysName lhs) (sysName rhs))%bool
  then Ok true else probe_eq lhs rhs.

(** [getCanonicalName] of both class families. *)
Definition getCanonicalName (p : Probe) : string :=
  if isAnchored p then
    if truthy_str (sysName p) then default "" (sysName p)
    else String.append (fileName p) (String.append ":" (print_int 10 (lineNo p)))
  else default "None" (sysName p).

(** ** ProbeMap: a map indexed by name and by source location *)

Section ProbeMap.
Context {V : Type}.

Record ProbeMap := mkProbeMap {
  anchoredProbeMap : list (Probe * V);
  namedProbeMap : list (option string * V)
}.

Definition pm_empty : ProbeMap := mkProbeMap [] [].

Definition set_anchored (p : Probe) (v : V) (m : ProbeMap) : ProbeMap :=
  mkProbeMap (od_set anchored_eqb p v (anchoredProbeMap m)) (namedProbeMap m).
Definition set_named (s : option string) (v : V) (m : ProbeMap) : ProbeMap :=
  mkProbeMap (anchoredProbeMap m) (od_set opt_str_eqb s v (namedProbeMap m)).

(** One iteration of the constructor's loop. *)
Definition pm_add (m : ProbeMap) (pv : Probe * V) : ProbeMap :=
  let '(p, v) := pv in
  if isAnchored p then
    let m := set_anchored p v m in
    if truthy_str (sysName p) then set_named (sysName p) v m else m
  else set_named (sysName p) v m.

(** [ProbeMap.__init__]: [as_value] is the identity when the probes are their own
    values; an empty [values] stands for [None]. *)
Definition ProbeMap_init (as_value : Probe -> V) (probes : list Probe) (values : list V)
    : result ProbeMap :=
  match probes with
  | [] => Ok pm_empty
  | _ =>
      match values with
      | [] => Ok (fold_left pm_add (map (fun p => (p, as_value p)) probes) pm_empty)
      | _ => if (length values <? length probes)%nat then Raise Exception_
             else Ok (fold_left pm_add (zip probes values) pm_empty)
      end
  end.

(** [__contains__], with the falsy [None] as [false]. *)
Definition pm_contains (m : ProbeMap) (p : Probe) : bool :=
  if truthy_str (sysName p) then od_mem opt_str_eqb (sysName p) (namedProbeMap m)
  else if isAnchored p then od_mem anchored_eqb p (anchoredProbeMap m)
  else false.

(** [get]: the outer [None] is Python's [None], returned for a probe with neither
    a name nor a location. *)
Definition pm_get (m : ProbeMap) (p : Probe) (dflt : V) : option V :=
  if truthy_str (sysName p) then
    Some (default dflt (od_get opt_str_eqb (sysName p) (namedProbeMap m)))
  else if isAnchored p then
    Some (default dflt (od_get anchored_eqb p (anchoredProbeMap m)))
  else None.

Definition pm_getitem (m : ProbeMap) (p : Probe) : result (option V) :=
  if truthy_str (sysName p) then
    Some <$> or_raise KeyError_ (od_get opt_str_eqb (sysName p) (namedProbeMap m))
  else if isAnchored p then
    Some <$> or_raise KeyError_ (od_get anchored_eqb p (anchoredProbeMap m))
  else Ok None.

(** [update] on a dict of probes: both indices for an anchored probe, even when its
    name is missing. *)
Definition pm_update (m : ProbeMap) (kvs : list (Probe * V)) : ProbeMap :=
  fold_left (fun m '(p, v) =>
    if isAnchored p then set_named (sysName p) v (set_anchored p v m)
    else set_named (sysName p) v m) kvs m.
End ProbeMap.
Arguments ProbeMap V : clear implicits.

(** ** Samples: counters and cpu info *)

Record Counter := mkCounter {
  threadId : string;
  cprobe : Probe;
  data : string;
  tsc : Z;
  pmcs : list Z
}.

#[export] Instance Counter_eq_dec : EqDecision Counter.
Proof. solve_decision. Defined.

Definition Counter_init (tid : string) (p : Probe) (d : string) (t : Z) : Counter :=
  mkCounter tid p (py_strip d) t [].
Definition addPmc (c : Counter) (pmc : Z) : Counter :=
  mkCounter (threadId c) (cprobe c) (data c) (tsc c) (pmcs c ++ [pmc]).

Section CpuInfo.
Context {F : Type} `{!PyFloat F}.

Record CpuInfo := mkCpuInfo { cpuId : string; frequency : Z; cyclesPerUsec : F }.

(** [CpuInfo.__init__]: the frequency in cycles per second, twice divided by 1000. *)
Definition CpuInfo_init (id : string) (freq : Z) : CpuInfo :=
  mkCpuInfo id freq (f_div (f_div (f_of_Z freq) (f_of_Z 1000)) (f_of_Z 1000)).

Definition convertCyclesToTime (c : CpuInfo) (cycles : Z) : result F :=
  py_div (f_of_Z cycles) (cyclesPerUsec c).
End CpuInfo.
Arguments CpuInfo F : clear implicits.
