(* ===== verification/Route.v ===== *)
(** * Routes and route conflation

    Models types/route.py.  [Route.__eq__] compares [self.points] with itself, so two
    routes that end up in the same hash bucket of a dict always compare equal; the key
    test of a dict of routes is therefore equality of hashes, and Python's hash of a
    tuple of strings is the parameter [RouteHash]. *)

From S2P Require Import Prelude Probe.

Abbreviation points := (list (option string)).

Record Route := mkRoute { rprobes : list Probe; rpoints : points }.

#[export] Instance Route_eq_dec : EqDecision Route.
Proof. solve_decision. Defined.

Definition Route_init (probes : list Probe) : Route := mkRoute probes (sysName <$> probes).
Definition route_len (r : Route) : nat := length (rpoints r).

(** Python's [hash] on tuples of strings and [None]. *)
Class RouteHash := py_hash : points -> Z.

Definition Route_hash `{!RouteHash} (r : Route) : Z := py_hash (rpoints r).

(** [Route.__eq__]: [self.points == self.points]. *)
Definition Route_eq (self other : Route) : bool := bool_decide (rpoints self = rpoints self).

(** The key test of a dict whose keys are routes. *)
Definition route_keq `{!RouteHash} (r r' : Route) : bool :=
  (Route_hash r =? Route_hash r') && Route_eq r r'.

(** ** conflateRoutes *)

(** The loop over the reversed points of the source route. *)
Fixpoint conflate_loop (dst : points) (n : nat) (i : nat) (probeIndex : Z)
    (indices : list nat) (rsrc : points) : list nat :=
  match rsrc with
  | [] => indices
  | point :: rsrc =>
      if probeIndex <? 0 then indices
      else if bool_decide (dst !! Z.to_nat probeIndex = Some point)
      then conflate_loop dst n (S i) (probeIndex - 1) (indices ++ [(n - (i + 1))%nat]) rsrc
      else conflate_loop dst n (S i) probeIndex indices rsrc
  end.

Definition conflateRoutes (src dst : Route) : option (list nat) :=
  let indices := conflate_loop (rpoints dst) (route_len src) 0
                   (Z.of_nat (route_len dst) - 1) [] (reverse (rpoints src)) in
  if (route_len dst =? length indices)%nat then Some (reverse indices) else None.

(** The caller's test [if conflateRoutes(...)]: an empty list is false. *)
Definition truthy_indices (o : option (list nat)) : bool :=
  match o with Some (_ :: _) => true | _ => false end.

(** ** The loop as a greedy embedding *)

Fixpoint emb (rd rs : points) : list nat :=
  match rs with
  | [] => []
  | p :: rs' =>
      match rd with
      | [] => []
      | q :: rd' => if decide (q = p) then 0%nat :: (S <$> emb rd' rs') else S <$> emb rd rs'
      end
  end.

Section Greedy.
Implicit Types rd rs : points.

Lemma emb_nil rs : emb [] rs = [].
Proof. by destruct rs. Qed.

Lemma emb_lookup rd rs k o :
  emb rd rs !! k = Some o -> exists p, rs !! o = Some p /\ rd !! k = Some p.
Proof.
  revert rd k o. induction rs as [|p rs IH]; intros [|q rd] k o; cbn [emb]; [done|done|done|].
  destruct (decide (q = p)) as [->|Hne].
  - destruct k as [|k]; cbn; [intros [= <-]; by exists p|].
    rewrite list_lookup_fmap fmap_Some. intros (o' & H & ->). eauto.
  - rewrite list_lookup_fmap fmap_Some. intros (o' & H & ->). apply (IH (q :: rd)); eauto.
Qed.

Lemma emb_lt rd rs k k' o o' :
  (k < k')%nat -> emb rd rs !! k = Some o -> emb rd rs !! k' = Some o' -> (o < o')%nat.
Proof.
  revert rd k k' o o'. induction rs as [|p rs IH]; intros [|q rd] k k' o o' Hk; cbn [emb]; [done..|].
  destruct (decide (q = p)) as [->|Hne].
  - destruct k as [|k], k' as [|k']; cbn; try lia; rewrite !list_lookup_fmap !fmap_Some.
    + intros [= <-] (? & _ & ->). lia.
    + intros (a & Ha & ->) (b & Hb & ->). assert (a < b)%nat; [|lia].
      eapply (IH rd k k'); eauto; lia.
  - rewrite !list_lookup_fmap !fmap_Some. intros (a & Ha & ->) (b & Hb & ->).
    assert (a < b)%nat; [|lia]. eapply (IH (q :: rd) k k'); eauto.
Qed.

Lemma emb_length_le rd rs : (length (emb rd rs) <= length rd)%nat.
Proof.
  revert rd. induction rs as [|p rs IH]; intros [|q rd]; cbn [emb length]; try lia.
  destruct (decide (q = p)); cbn [length]; rewrite length_fmap.
  - specialize (IH rd). lia.
  - apply (IH (q :: rd)).
Qed.

Lemma emb_complete rd rs : rd `sublist_of` rs -> length (emb rd rs) = length rd.
Proof.
  revert rd. induction rs as [|p rs IH]; intros [|q rd] H; cbn [emb length]; [done| |done|].
  { by apply sublist_nil_r in H. }
  apply sublist_cons_r in H. destruct (decide (q = p)) as [->|Hne]; cbn [length];
    rewrite length_fmap.
  - f_equal. apply IH. destruct H as [H|(l & [= <-] & H)]; [|done].
    etrans; [|exact H]. by apply sublist_cons.
  - apply (IH (q :: rd)). destruct H as [H|(l & [= ? <-] & H)]; [done|]. by destruct Hne.
Qed.

Lemma emb_sublist rd rs : length (emb rd rs) = length rd -> rd `sublist_of` rs.
Proof.
  revert rd. induction rs as [|p rs IH]; intros [|q rd]; cbn [emb length]; intros H;
    [constructor|lia|apply sublist_nil_l|].
  destruct (decide (q = p)) as [->|Hne]; cbn [length] in H; rewrite length_fmap in H.
  - constructor. apply IH. lia.
  - constructor. by apply IH.
Qed.

(** Greedy means leftmost: no other increasing embedding is to its left. *)
Lemma emb_leftmost rd rs (js : nat -> nat) :
  (forall k, (k < length rd)%nat -> rs !! js k = rd !! k) ->
  (forall k, (S k < length rd)%nat -> (js k < js (S k))%nat) ->
  forall k o, emb rd rs !! k = Some o -> (o <= js k)%nat.
Proof.
  revert rd js. induction rs as [|p rs IH]; intros [|q rd] js Hjs Hinc k o; cbn [emb]; [done..|].
  assert (Hmono : forall k, (k < length (q :: rd))%nat -> (js 0 + k <= js k)%nat).
  { induction k0 as [|k0 IHk]; [lia|]. intros Hk. specialize (Hinc k0).
    simpl in *. specialize (IHk ltac:(lia)). lia. }
  destruct (decide (q = p)) as [->|Hne].
  - destruct k as [|k]; cbn; [intros [= <-]; lia|].
    rewrite list_lookup_fmap fmap_Some. intros (o' & Ho & ->).
    assert (k < length rd)%nat as Hk.
    { apply lookup_lt_Some in Ho. pose proof (emb_length_le rd rs). lia. }
    assert (0 < js (S k))%nat as Hpos by (specialize (Hmono (S k)); simpl in *; lia).
    enough (o' <= pred (js (S k)))%nat by lia.
    eapply (IH rd (fun k => pred (js (S k)))); [| |exact Ho].
    + intros k' Hk'. specialize (Hjs (S k')); cbn in Hjs. specialize (Hmono (S k')); cbn in Hmono.
      rewrite -Hjs; [lia|]. destruct (js (S k')); [lia|done].
    + intros k' Hk'. pose proof (Hinc (S k')). cbn in *. specialize (Hmono (S k')). cbn in *. lia.
  - rewrite list_lookup_fmap fmap_Some. intros (o' & Ho & ->).
    assert (k < length (q :: rd))%nat as Hk.
    { apply lookup_lt_Some in Ho. pose proof (emb_length_le (q :: rd) rs). lia. }
    assert (js 0%nat <> 0%nat) as H0.
    { intros E. specialize (Hjs 0%nat). rewrite E in Hjs. cbn in Hjs.
      specialize (Hjs ltac:(lia)). congruence. }
    assert (0 < js k)%nat by (specialize (Hmono k Hk); lia).
    enough (o' <= pred (js k))%nat by lia.
    eapply (IH (q :: rd) (fun k => pred (js k))); [| |exact Ho].
    + intros k' Hk'. rewrite -(Hjs k' Hk'). specialize (Hmono k' Hk').
      destruct (js k'); [lia|done].
    + intros k' Hk'. pose proof (Hinc k' Hk'). specialize (Hmono k'). lia.
Qed.

Lemma conflate_loop_emb dst n i (m : nat) indices rs :
  (m <= length dst)%nat ->
  conflate_loop dst n i (Z.of_nat m - 1) indices rs =
  indices ++ ((fun o => n - (i + o + 1))%nat <$> emb (reverse (take m dst)) rs).
Proof.
  revert i m indices. induction rs as [|p rs IH]; intros i m indices Hm; cbn [conflate_loop].
  { destruct (reverse _); by rewrite app_nil_r. }
  destruct m as [|m].
  { rewrite take_0 reverse_nil emb_nil app_nil_r. done. }
  rewrite (proj2 (Z.ltb_ge _ _)); [lia|].
  replace (Z.to_nat (Z.of_nat (S m) - 1)) with m by lia.
  destruct (lookup_lt_is_Some_2 dst m) as [q Hq]; [lia|].
  rewrite (take_S_r _ _ q) // reverse_snoc Hq. cbn [emb].
  destruct (decide (q = p)) as [->|Hne].
  - rewrite bool_decide_eq_true_2 //.
    replace (Z.of_nat (S m) - 1 - 1) with (Z.of_nat m - 1) by lia.
    rewrite IH; [lia|]. rewrite -app_assoc. cbn. f_equal. f_equal; [lia|].
    rewrite -list_fmap_compose. apply list_fmap_ext. intros. cbn. lia.
  - rewrite bool_decide_eq_false_2; [congruence|]. rewrite IH; [lia|]. f_equal.
    rewrite (take_S_r _ _ q) // reverse_snoc.
    rewrite -list_fmap_compose. apply list_fmap_ext. intros. cbn. lia.
Qed.

(** The function in terms of the greedy embedding of the reversed routes. *)
Lemma conflateRoutes_emb src dst :
  conflateRoutes src dst =
  let e := emb (reverse (rpoints dst)) (reverse (rpoints src)) in
  if (length e =? route_len dst)%nat
  then Some (reverse ((fun o => route_len src - (o + 1))%nat <$> e)) else None.
Proof.
  unfold conflateRoutes. rewrite conflate_loop_emb; [done|]. cbn [app].
  unfold route_len. rewrite firstn_all length_fmap Nat.eqb_sym. done.
Qed.
End Greedy.

(** What an embedding of one route in another is. *)
Definition embeds (src dst : points) (js : nat -> nat) : Prop :=
  (forall k, (k < length dst)%nat -> (js k < length src)%nat /\ src !! js k = dst !! k) /\
  (forall k, (S k < length dst)%nat -> (js k < js (S k))%nat).

Section Spec.
Context (src dst : Route).

Lemma conflateRoutes_lookup idx k j :
  conflateRoutes src dst = Some idx -> idx !! k = Some j ->
  (k < route_len dst)%nat /\
  exists o, emb (reverse (rpoints dst)) (reverse (rpoints src)) !! (route_len dst - 1 - k)%nat = Some o
    /\ j = (route_len src - (o + 1))%nat /\ (o < route_len src)%nat.
Proof.
  rewrite conflateRoutes_emb. cbn. case_match eqn:E; [|done]. apply Nat.eqb_eq in E.
  intros [= <-] H. pose proof (lookup_lt_Some _ _ _ H) as Hlt.
  rewrite length_reverse length_fmap E in Hlt. split; [done|].
  rewrite reverse_lookup in H; [by rewrite length_fmap E|].
  rewrite length_fmap E list_lookup_fmap fmap_Some in H. destruct H as (o & H & ->).
  exists o. replace (route_len dst - 1 - k)%nat with (route_len dst - S k)%nat by lia.
  split_and!; [done|done|].
  destruct (emb_lookup _ _ _ _ H) as (p & Hp & _). apply lookup_lt_Some in Hp.
  by rewrite length_reverse in Hp.
Qed.

Lemma conflateRoutes_length idx :
  conflateRoutes src dst = Some idx -> length idx = route_len dst.
Proof.
  rewrite conflateRoutes_emb. cbn. case_match eqn:E; [|done]. apply Nat.eqb_eq in E.
  intros [= <-]. by rewrite length_reverse length_fmap.
Qed.
End Spec.

Lemma conflateRoutes_is_Some (src dst : Route) :
  is_Some (conflateRoutes src dst) <-> rpoints dst `sublist_of` rpoints src.
Proof.
  rewrite conflateRoutes_emb. cbn. rewrite -sublist_reverse_iff.
  case_match eqn:E; [apply Nat.eqb_eq in E|apply Nat.eqb_neq in E].
  - split; [|by eauto]. intros _. apply emb_sublist. by rewrite length_reverse.
  - split; [by intros [? ?]|]. intros H. destruct E.
    by rewrite (emb_complete _ _ H) length_reverse.
Qed.

(** The caller's truth test also asks for a target with at least one point. *)
Lemma truthy_conflate (src dst : Route) :
  truthy_indices (conflateRoutes src dst) = true <->
  rpoints dst <> [] /\ rpoints dst `sublist_of` rpoints src.
Proof.
  rewrite -conflateRoutes_is_Some. destruct (conflateRoutes src dst) as [idx|] eqn:E; cbn.
  - apply conflateRoutes_length in E. unfold route_len in E.
    destruct idx, (rpoints dst); try done; naive_solver.
  - split; [done|]. by intros [_ [? ?]].
Qed.

(** ** Properties *)

(** A conflation picks one position per point of the target, in increasing order, where
    the source has the same point. *)
Lemma conflate_embeds (src dst : Route) idx :
  conflateRoutes src dst = Some idx ->
  length idx = route_len dst /\
  (forall k j, idx !! k = Some j ->
     (j < route_len src)%nat /\ rpoints src !! j = rpoints dst !! k) /\
  (forall k k' j j', (k < k')%nat -> idx !! k = Some j -> idx !! k' = Some j' -> (j < j')%nat).
Proof.
  intros H. split_and!; [by apply (conflateRoutes_length src)| |].
  - intros k j Hj. destruct (conflateRoutes_lookup _ _ _ _ _ H Hj) as (Hk & o & Ho & -> & Hlt).
    split; [lia|]. destruct (emb_lookup _ _ _ _ Ho) as (p & Hs & Hd).
    unfold route_len in *. rewrite reverse_lookup in Hs; [done|].
    rewrite reverse_lookup in Hd; [lia|].
    replace (length (rpoints dst) - S (length (rpoints dst) - 1 - k))%nat with k in Hd by lia.
    replace (length (rpoints src) - (o + 1))%nat with (length (rpoints src) - S o)%nat by lia.
    congruence.
  - intros k k' j j' Hkk Hj Hj'.
    destruct (conflateRoutes_lookup _ _ _ _ _ H Hj) as (Hk & o & Ho & -> & Hlt).
    destruct (conflateRoutes_lookup _ _ _ _ _ H Hj') as (Hk' & o' & Ho' & -> & Hlt').
    assert (o' < o)%nat; [|lia]. eapply emb_lt; [|exact Ho'|exact Ho]. lia.
Qed.

(** No embedding is to the right of the positions a conflation picks. *)
Lemma conflate_rightmost (src dst : Route) idx js k j :
  conflateRoutes src dst = Some idx -> embeds (rpoints src) (rpoints dst) js ->
  idx !! k = Some j -> (js k <= j)%nat.
Proof.
  intros H [Hjs Hinc] Hj. destruct (conflateRoutes_lookup _ _ _ _ _ H Hj) as (Hk & o & Ho & -> & Hlt).
  unfold route_len in *. set (n := length (rpoints src)) in *. set (m := length (rpoints dst)) in *.
  assert (o <= n - 1 - js k)%nat as Hle.
  { replace k with (m - 1 - (m - 1 - k))%nat by lia.
    eapply (emb_leftmost _ _ (fun k => n - 1 - js (m - 1 - k))%nat); [| |exact Ho].
    - intros k' Hk'. rewrite length_reverse in Hk'. fold m in Hk'.
      destruct (Hjs (m - 1 - k')%nat) as [H1 H2]; [lia|]. fold n in H1.
      rewrite !reverse_lookup; [lia|fold n; lia|]. fold n m.
      replace (n - S (n - 1 - js (m - 1 - k')))%nat with (js (m - 1 - k'))%nat by lia.
      by replace (m - S k')%nat with (m - 1 - k')%nat by lia.
    - intros k' Hk'. rewrite length_reverse in Hk'. fold m in Hk'.
      destruct (Hjs (m - 1 - k')%nat) as [H1 _]; [lia|]. fold n in H1.
      pose proof (Hinc (m - 1 - S k')%nat ltac:(lia)) as H2.
      replace (S (m - 1 - S k'))%nat with (m - 1 - k')%nat in H2 by lia. lia. }
  destruct (Hjs k Hk) as [H1 _]. fold n in H1. lia.
Qed.

(** C8 (conflation): a source route conflates to a target route exactly when the target's
    points are a subsequence of the source's.  The conflation then lists one position of
    the source for every point of the target, in increasing order, where the source has
    the same point, and every one is the latest possible: no increasing embedding of the
    target in the source is to its right anywhere. *)
Theorem conflateRoutes_spec (src dst : Route) :
  match conflateRoutes src dst with
  | None => ~ rpoints dst `sublist_of` rpoints src
  | Some idx =>
      length idx = route_len dst /\
      (forall k j, idx !! k = Some j -> (j < route_len src)%nat /\ rpoints src !! j = rpoints dst !! k) /\
      (forall k k' j j', (k < k')%nat -> idx !! k = Some j -> idx !! k' = Some j' -> (j < j')%nat) /\
      (forall js, embeds (rpoints src) (rpoints dst) js -> forall k j, idx !! k = Some j -> (js k <= j)%nat)
  end.
Proof.
  destruct (conflateRoutes src dst) as [idx|] eqn:E.
  - destruct (conflate_embeds _ _ _ E) as (H1 & H2 & H3). split_and!; [done..|].
    intros js Hjs k j Hj. exact (conflate_rightmost _ _ _ _ _ _ E Hjs Hj).
  - rewrite -conflateRoutes_is_Some E. by intros [? ?].
Qed.

Definition conflate_ex_src : Route := mkRoute [] [Some "a"; Some "b"; Some "a"; Some "c"].
Definition conflate_ex_dst : Route := mkRoute [] [Some "a"; Some "c"].

Lemma conflateRoutes_spec_witness :
  conflateRoutes conflate_ex_src conflate_ex_dst = Some [2%nat; 3%nat] /\
  forall js, embeds (rpoints conflate_ex_src) (rpoints conflate_ex_dst) js -> (js 0 <= 2)%nat.
Proof.
  pose proof (conflateRoutes_spec conflate_ex_src conflate_ex_dst) as H. cbn iota beta in H.
  split; [reflexivity|]. destruct H as (_ & _ & _ & H). intros js Hjs. exact (H js Hjs 0%nat 2%nat eq_refl).
Defined.
