(* ===== verification/Txn.v ===== *)
(** * Transactions

    Models txn/__init__.py ([Transaction]), txn/collection.py and the probe index
    factory of util/probeFactory.py.

    A probe index maps every probe of a route to the positions its hits have in the
    counters.  The position lists are Python lists shared by the two maps of a
    [ProbeMap], so they live in cells: a map entry holds the number of a cell. *)

From S2P Require Import Prelude PyStr Probe Route.

(** ** Probe index *)

Record Index := mkIndex {
  iroute : Route;
  iprobeMap : ProbeMap nat;
  icells : list (list nat)
}.

(** [ProbeIndexFactory._addCounterToMap]. *)
Definition addCounterToMap (st : ProbeMap nat * list (list nat)) (c : Counter) (i : nat)
    : result (ProbeMap nat * list (list nat)) :=
  let '(m, cells) := st in
  if pm_contains m (cprobe c) then
    o ← pm_getitem m (cprobe c);
    match o with
    | Some cell => Ok (m, alter (fun l => l ++ [i]) cell cells)
    | None => Raise AttributeError_
    end
  else Ok (pm_update m [(cprobe c, length cells)], cells ++ [[i]]).

Fixpoint addCounters (st : ProbeMap nat * list (list nat)) (i : nat) (cs : list Counter)
    : result (ProbeMap nat * list (list nat)) :=
  match cs with
  | [] => Ok st
  | c :: cs => st ← addCounterToMap st c i; addCounters st (S i) cs
  end.

Section IndexFactory.
Context {HH : RouteHash}.

(** The class-level cache of the factory. *)
Abbreviation IndexCache := (list (Route * Index)).

Definition buildIndex (cache : IndexCache) (cs : list Counter) : result (Index * IndexCache) :=
  let route := Route_init (cprobe <$> cs) in
  match od_get route_keq route cache with
  | Some index => Ok (index, cache)
  | None =>
      '(m, cells) ← addCounters (pm_empty, []) 0 cs;
      let index := mkIndex route m cells in
      Ok (index, od_set route_keq route index cache)
  end.
End IndexFactory.

(** ** Transaction *)

(** A transaction id is an int, or the data string of the counter that resumed it. *)
Inductive TxnId := IdInt (n : Z) | IdStr (s : string).
#[export] Instance TxnId_eq_dec : EqDecision TxnId.
Proof. solve_decision. Defined.
Definition txnid_eqb (a b : TxnId) : bool := bool_decide (a = b).

Record Transaction := mkTransaction {
  txnId : TxnId;
  counters : list Counter;
  tindex : option Index;      (* probeMap and route, set by finalize *)
  tbegin : option Counter;
  tend : option Counter;
  hasEndProbe : bool
}.

Definition Transaction_init (c : Counter) (id : TxnId) : Transaction :=
  mkTransaction id [c] None None None false.

Definition addCounter (c : Counter) (isEndProbe : bool) (t : Transaction) : Transaction :=
  mkTransaction (txnId t) (counters t ++ [c]) (tindex t) (tbegin t) (tend t)
    (hasEndProbe t || isEndProbe).

Definition set_txnId (id : TxnId) (t : Transaction) : Transaction :=
  mkTransaction id (counters t) (tindex t) (tbegin t) (tend t) (hasEndProbe t).

Definition join (self other : Transaction) : Transaction :=
  mkTransaction (txnId self) (py_sort (key_leb tsc) (counters self ++ counters other))
    (tindex self) (tbegin self) (tend self) (hasEndProbe self).

Definition probeMap_of (t : Transaction) : result Index := or_raise TypeError_ (tindex t).

Definition hasProbe (t : Transaction) (p : Probe) : result bool :=
  ix ← probeMap_of t; Ok (pm_contains (iprobeMap ix) p).

Definition hasProbes (t : Transaction) (ps : list Probe) : result bool :=
  mfor (fun b p => if b : bool then hasProbe t p else Ok false) true ps.

(** The position list of a probe, through its cell. *)
Definition probe_positions (ix : Index) (p : Probe) : result (list nat) :=
  o ← pm_getitem (iprobeMap ix) p;
  match o with Some cell => or_raise IndexError_ (icells ix !! cell) | None => Raise TypeError_ end.

Definition hitCount (t : Transaction) (p : Probe) : result nat :=
  ix ← probeMap_of t;
  if pm_contains (iprobeMap ix) p then length <$> probe_positions ix p
  else if truthy_str (sysName p) || isAnchored p then Ok 0%nat else Raise TypeError_.

Definition getCounterForProbe (t : Transaction) (p : Probe) (index : nat) : result (option Counter) :=
  ix ← probeMap_of t;
  if pm_contains (iprobeMap ix) p then
    l ← probe_positions ix p; i ← py_nth l index; Some <$> py_nth (counters t) i
  else Ok None.

Definition getElapsedTsc (t : Transaction) : result Z :=
  match tend t, tbegin t with
  | Some e, Some b => Ok (tsc e - tsc b)
  | _, _ => Raise AttributeError_
  end.

Section Collection.
Context {HH : RouteHash}.

Definition finalize (cache : list (Route * Index)) (t : Transaction)
    : result (Transaction * list (Route * Index)) :=
  b ← py_min_by tsc (counters t);
  e ← py_max_by tsc (counters t);
  '(ix, cache) ← buildIndex cache (counters t);
  Ok (mkTransaction (txnId t) (counters t) (Some ix) (Some b) (Some e) (hasEndProbe t), cache).

(** ** Collections; [M] is the metadata (name, cpu info, probes, metrics, events). *)
Context {M : Type}.

Record TxnSubCollection := mkSubCollection { sc_meta : M; transactions : list Transaction }.

Definition sc_append (sc : TxnSubCollection) (t : Transaction) : TxnSubCollection :=
  mkSubCollection (sc_meta sc) (transactions sc ++ [t]).
Definition cloneMetaData (sc : TxnSubCollection) : TxnSubCollection :=
  mkSubCollection (sc_meta sc) [].

Record TxnCollection := mkCollection { tc_meta : M; txnMap : list (TxnId * Transaction) }.

Fixpoint finalize_all (cache : list (Route * Index)) (l : list (TxnId * Transaction))
    : result (list (TxnId * Transaction) * list (Route * Index)) :=
  match l with
  | [] => Ok ([], cache)
  | (id, t) :: l =>
      '(t, cache) ← finalize cache t;
      '(l, cache) ← finalize_all cache l;
      Ok ((id, t) :: l, cache)
  end.

Definition begin_tsc (p : TxnId * Transaction) : Z :=
  match tbegin p.2 with Some c => tsc c | None => 0 end.

(** [TxnCollection.__init__]: the dict is rebuilt in order of begin time. *)
Definition TxnCollection_init (cache : list (Route * Index)) (meta : M)
    (txns : list (TxnId * Transaction)) : result (TxnCollection * list (Route * Index)) :=
  '(l, cache) ← finalize_all cache txns;
  let sorted := fold_left (fun d p => od_set txnid_eqb p.1 p.2 d)
                  (py_sort (key_leb begin_tsc) l) [] in
  if (length sorted =? length l)%nat then Ok (mkCollection meta sorted, cache)
  else Raise Exception_.

Definition getSubCollection (tc : TxnCollection) : TxnSubCollection :=
  mkSubCollection (tc_meta tc) (od_values (txnMap tc)).
End Collection.
Arguments TxnSubCollection M : clear implicits.
Arguments TxnCollection M : clear implicits.

(** ** The index finds every hit of a named probe *)

Definition named (s : option string) (c : Counter) : bool := opt_str_eqb s (sysName (cprobe c)).

Fixpoint positions_from (i : nat) (s : option string) (cs : list Counter) : list nat :=
  match cs with
  | [] => []
  | c :: cs => if named s c then i :: positions_from (S i) s cs else positions_from (S i) s cs
  end.
Abbreviation positions := (positions_from 0).

Lemma positions_from_app i s cs c :
  positions_from i s (cs ++ [c]) =
  positions_from i s cs ++ (if named s c then [i + length cs]%nat else []).
Proof.
  revert i. induction cs as [|c' cs IH]; intros i; cbn.
  - rewrite Nat.add_0_r. by destruct (named s c).
  - rewrite IH. replace (S i + length cs)%nat with (i + S (length cs))%nat by lia.
    by destruct (named s c').
Qed.

#[export] Instance opt_str_eqb_equiv : KeyEquiv opt_str_eqb.
Proof.
  split; unfold opt_str_eqb; intros *; rewrite ?bool_decide_eq_true; congruence.
Qed.

(** What the two maps and the cells hold after the counters [cs]. *)
Definition index_inv (cs : list Counter) (st : ProbeMap nat * list (list nat)) : Prop :=
  (forall s, truthy_str s = true ->
     match od_get opt_str_eqb s (namedProbeMap st.1) with
     | Some cell => st.2 !! cell = Some (positions s cs)
     | None => positions s cs = []
     end) /\
  (forall s s' cell, od_get opt_str_eqb s (namedProbeMap st.1) = Some cell ->
     od_get opt_str_eqb s' (namedProbeMap st.1) = Some cell -> opt_str_eqb s s' = true) /\
  (forall s cell, od_get opt_str_eqb s (namedProbeMap st.1) = Some cell ->
     (cell < length st.2)%nat).

Lemma pm_update_named (m : ProbeMap nat) p v :
  namedProbeMap (pm_update m [(p, v)]) = od_set opt_str_eqb (sysName p) v (namedProbeMap m).
Proof. unfold pm_update. cbn. by destruct (isAnchored p). Qed.


Lemma opt_str_eqb_sym a b : opt_str_eqb a b = opt_str_eqb b a.
Proof. apply bool_decide_ext. split; congruence. Qed.

(** A name that is already indexed: its cell grows. *)
Lemma index_inv_old cs c m cells :
  truthy_str (sysName (cprobe c)) = true -> index_inv cs (m, cells) ->
  od_mem opt_str_eqb (sysName (cprobe c)) (namedProbeMap m) = true ->
  exists cell, od_get opt_str_eqb (sysName (cprobe c)) (namedProbeMap m) = Some cell /\
    index_inv (cs ++ [c]) (m, alter (fun l => l ++ [length cs]) cell cells).
Proof.
  intros Ht (Hpos & Hinj & Hlt) Hm. apply od_mem_true in Hm as [cell Hcell].
  exists cell. split; [done|]. cbn [fst snd] in *.
  split_and!; cbn [fst snd]; [|done|by intros; rewrite length_alter; eauto].
  intros s Hs. specialize (Hpos s Hs). rewrite positions_from_app. unfold named. cbn [Nat.add].
  destruct (opt_str_eqb s _) eqn:E.
  - rewrite (od_get_cong _ _ _ _ E) Hcell in Hpos |- *. by rewrite list_lookup_alter_eq Hpos.
  - destruct (od_get _ s _) as [cell'|] eqn:Hs'; [|by rewrite app_nil_r].
    rewrite list_lookup_alter_ne; [|by rewrite app_nil_r].
    intros ->. rewrite (Hinj _ _ _ Hs' Hcell) in E. done.
Qed.

(** A new name gets a new cell. *)
Lemma index_inv_new cs c m cells :
  truthy_str (sysName (cprobe c)) = true -> index_inv cs (m, cells) ->
  od_mem opt_str_eqb (sysName (cprobe c)) (namedProbeMap m) = false ->
  index_inv (cs ++ [c]) (pm_update m [(cprobe c, length cells)], cells ++ [[length cs]]).
Proof.
  intros Ht (Hpos & Hinj & Hlt) Hm%od_mem_false. pose proof (Hpos _ Ht) as Hc.
  cbn [fst snd] in *. rewrite Hm in Hc.
  split_and!; cbn [fst snd]; rewrite pm_update_named.
  - intros s Hs. specialize (Hpos s Hs). rewrite od_get_set positions_from_app. unfold named.
    rewrite (opt_str_eqb_sym s). destruct (opt_str_eqb (sysName (cprobe c)) s) eqn:E.
    + rewrite -(od_get_cong _ _ _ _ E) Hm in Hpos. rewrite Hpos. by rewrite list_lookup_middle.
    + rewrite app_nil_r. destruct (od_get _ s _) as [cell|] eqn:Hg; [|done].
      rewrite lookup_app_l; [by eauto|done].
  - intros s s' cell. rewrite !od_get_set.
    destruct (opt_str_eqb _ s) eqn:E1, (opt_str_eqb _ s') eqn:E2.
    + intros _ _. apply (keq_sym opt_str_eqb) in E1. exact (keq_trans opt_str_eqb _ _ _ E1 E2).
    + intros [= <-] H%Hlt. lia.
    + intros H%Hlt [= <-]. lia.
    + apply Hinj.
  - intros s cell. rewrite od_get_set length_app Nat.add_1_r.
    case_match; [intros [= <-]; lia|]. intros H1%Hlt. lia.
Qed.

Lemma index_inv_step cs c st :
  truthy_str (sysName (cprobe c)) = true -> index_inv cs st ->
  exists st', addCounterToMap st c (length cs) = Ok st' /\ index_inv (cs ++ [c]) st'.
Proof.
  destruct st as [m cells]. intros Ht Hinv. unfold addCounterToMap, pm_contains, pm_getitem.
  rewrite Ht. destruct (od_mem _ _ _) eqn:Hm.
  - destruct (index_inv_old _ _ _ _ Ht Hinv Hm) as (cell & -> & ?). cbn. eauto.
  - eauto using index_inv_new.
Qed.

Lemma addCounters_inv cs0 cs st :
  Forall (fun c => truthy_str (sysName (cprobe c)) = true) cs -> index_inv cs0 st ->
  exists st', addCounters st (length cs0) cs = Ok st' /\ index_inv (cs0 ++ cs) st'.
Proof.
  revert cs0 st. induction cs as [|c cs IH]; intros cs0 st Hall Hinv.
  - rewrite app_nil_r. cbn. eauto.
  - apply Forall_cons in Hall as [Hc Hall].
    destruct (index_inv_step cs0 c st Hc Hinv) as (st1 & Hst1 & Hinv1).
    destruct (IH (cs0 ++ [c]) st1 Hall Hinv1) as (st2 & Hst2 & Hinv2).
    rewrite length_app Nat.add_comm in Hst2. rewrite -app_assoc in Hinv2.
    exists st2. split; [|done]. cbn. by rewrite Hst1.
Qed.

Lemma index_inv_empty : index_inv [] (pm_empty, []).
Proof. split_and!; cbn; done. Qed.

(** The positions an index reports for a named probe. *)
Definition index_positions (ix : Index) (s : option string) : list nat :=
  match od_get opt_str_eqb s (namedProbeMap (iprobeMap ix)) with
  | Some cell => default [] (icells ix !! cell)
  | None => []
  end.

(** A cache whose entries were built by the factory from counters of their route. *)
Definition cache_ok (cache : list (Route * Index)) : Prop :=
  Forall (fun kv => rpoints kv.1 = rpoints (iroute kv.2) /\
    exists cs, rpoints (iroute kv.2) = (fun c => sysName (cprobe c)) <$> cs /\
      index_inv cs (iprobeMap kv.2, icells kv.2)) cache.

Lemma positions_points i s cs cs' :
  (fun c => sysName (cprobe c)) <$> cs = (fun c => sysName (cprobe c)) <$> cs' ->
  positions_from i s cs = positions_from i s cs'.
Proof.
  revert i cs'. induction cs as [|c cs IH]; intros i [|c' cs']; cbn; [done..|].
  intros [= H1 H2]. unfold named. rewrite H1. rewrite (IH (S i) cs' H2). done.
Qed.

Lemma index_inv_positions cs m cells s ix :
  iprobeMap ix = m -> icells ix = cells -> truthy_str s = true -> index_inv cs (m, cells) ->
  index_positions ix s = positions s cs.
Proof.
  intros <- <- Hs (Hpos & _). specialize (Hpos s Hs). unfold index_positions.
  cbn [fst snd] in *. destruct (od_get _ _ _); [by rewrite Hpos|done].
Qed.

Lemma Route_init_points (cs : list Counter) :
  rpoints (Route_init (cprobe <$> cs)) = (fun c => sysName (cprobe c)) <$> cs.
Proof. unfold Route_init. cbn. by rewrite -list_fmap_compose. Qed.

(** ** Properties *)

Section IndexProperties.
Context {HH : RouteHash}.

Lemma cache_ok_insert cache r ix :
  cache_ok cache -> rpoints r = rpoints (iroute ix) ->
  (exists cs, rpoints (iroute ix) = (fun c => sysName (cprobe c)) <$> cs /\
     index_inv cs (iprobeMap ix, icells ix)) ->
  od_get route_keq r cache = None -> cache_ok (od_set route_keq r ix cache).
Proof.
  intros Hc Hr Hix Hn. rewrite od_set_fresh; [done|]. apply Forall_app. split; [done|].
  by apply Forall_singleton.
Qed.

(** C12 (index): on counters whose probes are named, and a hash that tells the routes in
    play apart, [buildIndex] succeeds, cached or not, and the index it returns lists for
    every name exactly the positions of that name's hits, in order; the cache stays
    sound. *)
Theorem buildIndex_correct cache cs :
  (forall r ix, (r, ix) ∈ cache -> py_hash (rpoints r) = py_hash ((fun c => sysName (cprobe c)) <$> cs) ->
     rpoints r = (fun c => sysName (cprobe c)) <$> cs) ->
  Forall (fun c => truthy_str (sysName (cprobe c)) = true) cs -> cache_ok cache ->
  exists ix cache', buildIndex cache cs = Ok (ix, cache') /\ cache_ok cache' /\
    rpoints (iroute ix) = (fun c => sysName (cprobe c)) <$> cs /\
    forall s, truthy_str s = true -> index_positions ix s = positions s cs.
Proof.
  intros Hh Hall Hc. unfold buildIndex.
  destruct (od_get _ _ cache) as [ix|] eqn:Hg.
  - exists ix, cache. split_and!; [done|done|..];
      apply od_get_elem_of in Hg as (r & Hin & Hk);
      pose proof (proj1 (Forall_forall _ _) Hc _ Hin) as (Hr & cs' & Hcs' & Hinv); cbn in *;
      apply andb_true_iff in Hk as [Hk%Z.eqb_eq _]; unfold Route_hash in Hk;
      rewrite Route_init_points in Hk; specialize (Hh _ _ Hin (eq_sym Hk)); [congruence|].
    intros s Hs. rewrite (index_inv_positions cs' _ _ s ix eq_refl eq_refl Hs Hinv).
    apply positions_points. congruence.
  - destruct (addCounters_inv [] cs (pm_empty, [])) as ([m cells] & Hadd & Hinv);
      [done|by apply index_inv_empty|]. cbn [length] in Hadd. rewrite Hadd. cbn.
    eexists _, _. split_and!; [done|..].
    + apply cache_ok_insert; cbn; [done|done| |done]. exists cs. split; [apply Route_init_points|done].
    + apply Route_init_points.
    + intros s Hs. by eapply index_inv_positions.
Qed.
End IndexProperties.

(** Joining two transactions keeps every counter of both and orders them by
    time stamp. *)
Theorem join_sorted_perm (t u : Transaction) :
  counters (join t u) ≡ₚ counters t ++ counters u /\
  StronglySorted (fun a b => tsc a <= tsc b) (counters (join t u)).
Proof.
  split; [apply py_sort_perm|apply py_sort_key_sorted].
Qed.

Section CollectionProperties.
Context {HH : RouteHash} {M : Type}.

Lemma finalize_spec cache t t' cache' :
  finalize cache t = Ok (t', cache') ->
  txnId t' = txnId t /\ counters t' = counters t /\ hasEndProbe t' = hasEndProbe t /\
  exists b e, tbegin t' = Some b /\ tend t' = Some e /\ b ∈ counters t /\ e ∈ counters t /\
    Forall (fun c => tsc b <= tsc c <= tsc e) (counters t).
Proof.
  unfold finalize. intros H. apply bind_Ok in H as (b & Hb & H).
  apply bind_Ok in H as (e & He & H). apply bind_Ok in H as ([ix c'] & Hix & H).
  injection H as <- <-. cbn. split_and!; [done..|]. exists b, e.
  apply py_min_by_spec in Hb as [? Hb]. apply py_max_by_spec in He as [? He].
  split_and!; [done..|]. apply Forall_forall. intros c Hc.
  rewrite !Forall_forall in Hb He. auto.
Qed.

Lemma finalize_all_spec cache l l' cache' :
  finalize_all cache l = Ok (l', cache') ->
  Forall2 (fun p p' => p'.1 = p.1 /\ counters p'.2 = counters p.2 /\
    exists b e, tbegin p'.2 = Some b /\ tend p'.2 = Some e /\
      Forall (fun c => tsc b <= tsc c <= tsc e) (counters p.2)) l l'.
Proof.
  revert cache l' cache'. induction l as [|[id t] l IH]; intros cache l' cache'; cbn.
  { intros [= <- <-]. constructor. }
  intros H. apply bind_Ok in H as ([t1 c1] & Hf & H).
  apply bind_Ok in H as ([l1 c2] & Hl & H). injection H as <- <-.
  apply finalize_spec in Hf as (? & ? & ? & b & e & ? & ? & ? & ? & ?).
  constructor; [cbn; naive_solver|eauto].
Qed.

#[local] Instance txnid_eqb_equiv : KeyEquiv txnid_eqb.
Proof. split; unfold txnid_eqb; intros *; rewrite ?bool_decide_eq_true; congruence. Qed.

(** Rebuilding a dict from items with distinct keys keeps the items in order. *)
Lemma od_rebuild (l d : list (TxnId * Transaction)) :
  NoDup (d.*1 ++ l.*1) ->
  fold_left (fun d p => od_set txnid_eqb p.1 p.2 d) l d = d ++ l.
Proof.
  revert d. induction l as [|[k v] l IH]; intros d Hd; cbn; [by rewrite app_nil_r|].
  rewrite od_set_fresh.
  - apply od_get_None, Forall_forall. intros k' Hk'. apply bool_decide_eq_false_2. intros <-.
    apply NoDup_app in Hd as (_ & Hd & _). apply (Hd k Hk'). cbn. left.
  - rewrite IH; [|by rewrite -app_assoc]. rewrite fmap_app -app_assoc. done.
Qed.

(** A collection built from transactions with distinct ids holds the
    same transactions, finalized, in order of begin time, and the constructor's
    consistency check never fires: it can only fail on a transaction without counters. *)
Theorem TxnCollection_ordered cache (meta : M) txns l c tc cache' :
  NoDup txns.*1 -> finalize_all cache txns = Ok (l, c) ->
  TxnCollection_init cache meta txns = Ok (tc, cache') <->
  tc = mkCollection meta (py_sort (key_leb begin_tsc) l) /\ cache' = c.
Proof.
  intros Hnd Hl. unfold TxnCollection_init. rewrite Hl. cbn.
  assert (l.*1 = txns.*1) as Hk.
  { apply finalize_all_spec in Hl. clear -Hl.
    induction Hl as [|p p' ? ? (Hp & _) _ IH]; cbn; [done|]. by rewrite Hp IH. }
  rewrite od_rebuild; cbn [app].
  { cbn. by rewrite py_sort_perm Hk. }
  rewrite py_sort_length Nat.eqb_refl. naive_solver.
Qed.
End CollectionProperties.

(** ** Witnesses *)

#[local] Instance ex_hash : RouteHash := fun ps => Z.of_nat (length ps).

Definition ex_named (s : string) : Probe :=
  mkProbe CProbe s (Some s) false false false false false None "" "" "" 0 "" [].
Definition ex_hits : list Counter :=
  [mkCounter "1" (ex_named "a") "" 5 []; mkCounter "1" (ex_named "b") "" 7 [];
   mkCounter "1" (ex_named "a") "" 9 []].

Lemma buildIndex_correct_witness :
  exists ix cache', buildIndex [] ex_hits = Ok (ix, cache') /\ index_positions ix (Some "a") = [0; 2]%nat.
Proof.
  destruct (buildIndex_correct [] ex_hits) as (ix & cache' & Hb & _ & _ & Hp).
  - intros r ix Hin. by apply elem_of_nil in Hin.
  - repeat (constructor; [reflexivity|]). constructor.
  - constructor.
  - exists ix, cache'. split; [exact Hb|]. rewrite (Hp (Some "a") eq_refl). reflexivity.
Defined.

(** The same route a second time is served from the cache. *)
Definition ex_cache : list (Route * Index) :=
  match buildIndex [] ex_hits with Ok (_, c) => c | Raise _ => [] end.
Definition ex_txns : list (TxnId * Transaction) :=
  [(IdInt 1, mkTransaction (IdInt 1) ex_hits None None None true);
   (IdInt 2, mkTransaction (IdInt 2) [mkCounter "2" (ex_named "a") "" 3 []] None None None true)].
Definition ex_finalized : list (TxnId * Transaction) * list (Route * Index) :=
  match finalize_all ex_cache ex_txns with Ok p => p | Raise _ => ([], []) end.

Lemma TxnCollection_ordered_witness :
  TxnCollection_init ex_cache tt ex_txns =
    Ok (mkCollection tt (py_sort (key_leb begin_tsc) ex_finalized.1), ex_finalized.2) /\
  (py_sort (key_leb begin_tsc) ex_finalized.1).*1 = [IdInt 2; IdInt 1].
Proof.
  split; [|vm_compute; reflexivity].
  refine (proj2 (TxnCollection_ordered ex_cache tt ex_txns ex_finalized.1 ex_finalized.2 _ _ _ _)
    (conj eq_refl eq_refl)).
  - apply (bool_decide_unpack _). vm_compute. exact I.
  - vm_compute. reflexivity.
Defined.
