(* ===== verification/Loader.v ===== *)
(** * Building transactions from counters

    Models txn/fragments.py and txn/loader.py.

    Transactions and fragments are mutable objects that several containers point to
    (the loader's current transaction, its dict of transactions, the fragments a
    suspended transaction waits in), so the model keeps them in a heap and passes
    references: a reference is the object's place in the store it was allocated in.

    [fragment.next] aliases the list that [TxnFragments.fragments] holds under the
    resume key of a link id; that list object is created once per link id and only
    appended to, so the model's [fnext] is the link id that names the list. *)

From S2P Require Import Prelude PyStr Probe Route Txn.

(** ** Fragments *)

Record TxnFragment := mkFragment {
  f_txn : nat;
  resumeId : option string;
  suspendId : option string;
  fnext : option string
}.

Record Heap := mkHeap { txnStore : list Transaction; fragStore : list TxnFragment }.

(** The dict of fragments, split by the [resuming] half of its key. *)
Record TxnFragments := mkFragments {
  resumeLists : gmap string (list nat);
  suspendFrags : gmap string nat;
  rootFragments : list nat
}.

Definition TxnFragments_init : TxnFragments := mkFragments ∅ ∅ [].

Definition alloc_txn (t : Transaction) (h : Heap) : nat * Heap :=
  (length (txnStore h), mkHeap (txnStore h ++ [t]) (fragStore h)).
Definition alloc_frag (f : TxnFragment) (h : Heap) : nat * Heap :=
  (length (fragStore h), mkHeap (txnStore h) (fragStore h ++ [f])).
Definition update_txn (g : Transaction -> Transaction) (r : nat) (h : Heap) : Heap :=
  mkHeap (alter g r (txnStore h)) (fragStore h).
Definition set_next (link : string) (f : nat) (h : Heap) : Heap :=
  mkHeap (txnStore h)
    (alter (fun fr => mkFragment (f_txn fr) (resumeId fr) (suspendId fr) (Some link)) f (fragStore h)).

(** [txn.join(other)] through references. *)
Definition join_ref (r r' : nat) (h : Heap) : Heap :=
  match txnStore h !! r' with
  | Some other => update_txn (fun t => join t other) r h
  | None => h
  end.

(** A list stored under a resume key, or [None] when it is missing or empty. *)
Definition resume_list (link : string) (fr : TxnFragments) : option (list nat) :=
  match resumeLists fr !! link with
  | Some (f :: fs) => Some (f :: fs)
  | _ => None
  end.

Definition addResumeFragment (link : string) (txn : nat) (st : Heap * TxnFragments)
    : nat * (Heap * TxnFragments) :=
  let '(h, fr) := st in
  let '(f, h) := alloc_frag (mkFragment txn (Some link) None None) h in
  match resume_list link fr with
  | Some fs =>
      (f, (h, mkFragments (<[link := fs ++ [f]]> (resumeLists fr)) (suspendFrags fr)
                (rootFragments fr)))
  | None =>
      let h := match suspendFrags fr !! link with
               | Some sf => set_next link sf h
               | None => h
               end in
      (f, (h, mkFragments (<[link := [f]]> (resumeLists fr)) (suspendFrags fr)
                (rootFragments fr)))
  end.

Definition addSuspendFragment (link : string) (txn : nat) (fragment : option nat)
    (st : Heap * TxnFragments) : Heap * TxnFragments :=
  let '(h, fr) := st in
  let '(f, h, roots) :=
    match fragment with
    | Some f => (f, h, rootFragments fr)
    | None => let '(f, h) := alloc_frag (mkFragment txn None (Some link) None) h in
              (f, h, rootFragments fr ++ [f])
    end in
  let h := match resume_list link fr with Some _ => set_next link f h | None => h end in
  (h, mkFragments (resumeLists fr) (<[link := f]> (suspendFrags fr)) roots).

(** State of the join: the heap, the next transaction id and the joined transactions. *)
Record JoinState := mkJoin { jheap : Heap; jnext : Z; jtxns : list nat }.

Definition frag_txn (h : Heap) (f : nat) : nat := default 0%nat (f_txn <$> fragStore h !! f).
Definition frag_next (h : Heap) (f : nat) : option string := fragStore h !! f ≫= fnext.

(** [copy.deepcopy(txn)]. *)
Definition clone_txn (r : nat) (h : Heap) : nat * Heap :=
  match txnStore h !! r with
  | Some t => alloc_txn t h
  | None => (r, h)
  end.

(** [txn.join(fragment.txn)]. *)
Definition join_frag (txn f : nat) (st : JoinState) : JoinState :=
  mkJoin (join_ref txn (frag_txn (jheap st) f) (jheap st)) (jnext st) (jtxns st).

(** [copy.deepcopy(txn)] in the joining state. *)
Definition clone_in (txn : nat) (st : JoinState) : nat * JoinState :=
  let '(c, h) := clone_txn txn (jheap st) in (c, mkJoin h (jnext st) (jtxns st)).

(** The loop over the fragments that resume one suspended transaction; [rec] is the
    recursive call. *)
Fixpoint join_loop (rec : nat -> option string -> JoinState -> result JoinState)
    (clone txn : nat) (fs : list nat) (st : JoinState) : result JoinState :=
  match fs with
  | [] => Ok st
  | f :: fs' =>
      st ← rec txn (frag_next (jheap st) f) (join_frag txn f st);
      if (1 <? length fs')%nat
      then let '(txn, st) := clone_in clone st in join_loop rec clone txn fs' st
      else join_loop rec clone clone fs' st
  end.

(** [joinFragments]; the fuel is the recursion depth Python allows. *)
Fixpoint joinFragments (fuel : nat) (lists : gmap string (list nat)) (txn : nat)
    (next : option string) (st : JoinState) : result JoinState :=
  match fuel with
  | O => Raise RecursionError_
  | S fuel =>
      match default [] (next ≫= fun link => lists !! link) with
      | [] =>
          let id := jnext st + 1 in
          Ok (mkJoin (update_txn (set_txnId (IdInt id)) txn (jheap st)) id (jtxns st ++ [txn]))
      | [f] => joinFragments fuel lists txn (frag_next (jheap st) f) (join_frag txn f st)
      | fs => let '(clone, st) := clone_in txn st in
              join_loop (joinFragments fuel lists) clone txn fs st
      end
  end.

(** [TxnFragments.join]. *)
Definition join_all (fuel : nat) (fr : TxnFragments) (nextTxnId : Z) (h : Heap)
    : result JoinState :=
  mfor (fun st f => joinFragments fuel (resumeLists fr) (frag_txn (jheap st) f)
                      (frag_next (jheap st) f) st)
    (mkJoin h nextTxnId []) (rootFragments fr).

(** ** The loader *)

Record Loader := mkLoader {
  heap : Heap;
  fragments : TxnFragments;
  processedCounterCount : Z;
  txns : list (TxnId * nat);
  compromisedTxns : list nat;
  nonTxnCounters : list Counter;
  ephemeralCounters : list Counter;
  currentTxn : option nat;
  lthreadId : option string;
  tlsAddr : option string;
  nextTxnId : Z;
  nextFragmentId : Z;
  resumeFragment : option nat;
  suspendingTxn : bool
}.

(** [BoundedTxnLoader.__init__] (with [AbstractTxnLoader.__init__] and [reset]). *)
Definition BoundedTxnLoader_init : Loader :=
  mkLoader (mkHeap [] []) TxnFragments_init 0 [] [] [] [] None None None 0 0 None false.

Section Setters.
Definition with_heap (l : Loader) (h : Heap) : Loader :=
  let 'mkLoader _ fr p t cp n e c th tl i j r s := l in mkLoader h fr p t cp n e c th tl i j r s.
Definition with_frags (l : Loader) (st : Heap * TxnFragments) : Loader :=
  let 'mkLoader _ _ p t cp n e c th tl i j r s := l in
  mkLoader st.1 st.2 p t cp n e c th tl i j r s.
Definition with_processed (l : Loader) (p : Z) : Loader :=
  let 'mkLoader h fr _ t cp n e c th tl i j r s := l in mkLoader h fr p t cp n e c th tl i j r s.
Definition with_txns (l : Loader) (t : list (TxnId * nat)) : Loader :=
  let 'mkLoader h fr p _ cp n e c th tl i j r s := l in mkLoader h fr p t cp n e c th tl i j r s.
Definition with_compromised (l : Loader) (cp : list nat) : Loader :=
  let 'mkLoader h fr p t _ n e c th tl i j r s := l in mkLoader h fr p t cp n e c th tl i j r s.
Definition with_nonTxn (l : Loader) (n : list Counter) : Loader :=
  let 'mkLoader h fr p t cp _ e c th tl i j r s := l in mkLoader h fr p t cp n e c th tl i j r s.
Definition with_ephemeral (l : Loader) (e : list Counter) : Loader :=
  let 'mkLoader h fr p t cp n _ c th tl i j r s := l in mkLoader h fr p t cp n e c th tl i j r s.
Definition with_current (l : Loader) (c : option nat) : Loader :=
  let 'mkLoader h fr p t cp n e _ th tl i j r s := l in mkLoader h fr p t cp n e c th tl i j r s.
Definition with_thread (l : Loader) (th tl : option string) : Loader :=
  let 'mkLoader h fr p t cp n e c _ _ i j r s := l in mkLoader h fr p t cp n e c th tl i j r s.
Definition with_nextTxnId (l : Loader) (i : Z) : Loader :=
  let 'mkLoader h fr p t cp n e c th tl _ j r s := l in mkLoader h fr p t cp n e c th tl i j r s.
Definition with_nextFragmentId (l : Loader) (j : Z) : Loader :=
  let 'mkLoader h fr p t cp n e c th tl i _ r s := l in mkLoader h fr p t cp n e c th tl i j r s.
Definition with_link (l : Loader) (r : option nat) (s : bool) : Loader :=
  let 'mkLoader h fr p t cp n e c th tl i j _ _ := l in mkLoader h fr p t cp n e c th tl i j r s.
End Setters.

Definition get_txn (l : Loader) (r : nat) : option Transaction := txnStore (heap l) !! r.
Definition has_end (l : Loader) (r : nat) : bool :=
  match get_txn l r with Some t => hasEndProbe t | None => false end.
Definition txn_id (l : Loader) (r : nat) : TxnId :=
  match get_txn l r with Some t => txnId t | None => IdInt 0 end.

(** [reset] of the abstract loader. *)
Definition reset (l : Loader) : Loader :=
  with_current (with_ephemeral (with_nonTxn (with_compromised (with_txns
    (with_processed l 0) []) []) []) []) None.

Definition getTxnCount (l : Loader) : nat := length (txns l).
Definition isCompromised (l : Loader) : bool := (0 <? length (compromisedTxns l))%nat.
Definition isNotAccounted (l : Loader) : bool := (0 <? length (nonTxnCounters l))%nat.
Definition getCount (l : Loader) : nat :=
  length (txns l) + match currentTxn l with Some _ => 1 | None => 0 end.

(** [AbstractTxnLoader.appendTxn]. *)
Definition abstract_appendTxn (r : nat) (l : Loader) : Loader :=
  match od_get txnid_eqb (txn_id l r) (txns l) with
  | Some r' => with_heap l (join_ref r' r (heap l))
  | None => with_txns l (od_set txnid_eqb (txn_id l r) r (txns l))
  end.

(** [BoundedTxnLoader.appendTxn]. *)
Definition appendTxn (r : nat) (l : Loader) : Loader :=
  if (match resumeFragment l with Some _ => true | None => false end || suspendingTxn l)%bool
  then l
  else
    let l := with_nextTxnId l (nextTxnId l + 1) in
    let l := with_heap l (update_txn (set_txnId (IdInt (nextTxnId l))) r (heap l)) in
    abstract_appendTxn r l.

(** [buildTxn]: the new transaction's reference and the loader after it. *)
Definition buildTxn (c : Counter) (resumeTxn : bool) (l : Loader) : nat * Loader :=
  let l := with_link l (resumeFragment l) false in
  if resumeTxn then
    let '(r, h) := alloc_txn (Transaction_init c (IdStr (data c))) (heap l) in
    let '(f, st) := addResumeFragment (data c) r (h, fragments l) in
    (r, with_link (with_frags l st) (Some f) false)
  else
    let l := with_nextFragmentId (with_link l None false) (nextFragmentId l + 1) in
    let '(r, h) := alloc_txn (Transaction_init c (IdInt (nextFragmentId l))) (heap l) in
    (r, with_heap l h).

(** [self.currentTxn.addCounter(counter, isEndProbe)] *)
Definition add_to (r : nat) (c : Counter) (isEnd : bool) (l : Loader) : Loader :=
  with_heap l (update_txn (addCounter c isEnd) r (heap l)).

Definition add_all (r : nat) (cs : list Counter) (l : Loader) : Loader :=
  fold_left (fun l c => add_to r c false l) cs l.

(** Ephemeral counters that turned out to lie outside any transaction. *)
Definition discard_ephemeral (l : Loader) : Loader :=
  match ephemeralCounters l with
  | [] => l
  | es => with_ephemeral (with_nonTxn l (nonTxnCounters l ++ es)) []
  end.

(** Ephemeral counters that turned out to belong to transaction [r]. *)
Definition adopt_ephemeral (r : nat) (l : Loader) : Loader :=
  match ephemeralCounters l with
  | [] => l
  | es => with_ephemeral (add_all r es l) []
  end.

Definition link_id (c : Counter) (tls : option string) : string :=
  String.append (print_int 16 (tsc c)) (default "None" tls).

Definition suspend (r : nat) (c : Counter) (l : Loader) : Loader :=
  let l := with_link l (resumeFragment l) true in
  with_frags l (addSuspendFragment (link_id c (tlsAddr l)) r (resumeFragment l)
                  (heap l, fragments l)).

(** A counter that arrives while transaction [r] is open. *)
Definition load_open (u : Probe) (c : Counter) (r : nat) (l : Loader) : Loader :=
  if (canBeginTxn u || canResumeTxn u)%bool then
    if (has_end l r || canResumeTxn u)%bool then
      let l := appendTxn r (discard_ephemeral l) in
      let '(r, l) := buildTxn c (canResumeTxn u) l in
      with_current l (Some r)
    else add_to r c false l
  else if (canEndTxn u || canSuspendTxn u)%bool then
    let l := add_to r c true (adopt_ephemeral r l) in
    if canSuspendTxn u then suspend r c l else l
  else if has_end l r then with_ephemeral l (ephemeralCounters l ++ [c])
  else add_to r c false l.

(** A counter that arrives between transactions. *)
Definition load_idle (u : Probe) (c : Counter) (l : Loader) : Loader :=
  if (canBeginTxn u || canResumeTxn u)%bool then
    let '(r, l) := buildTxn c (canResumeTxn u) l in
    discard_ephemeral (with_current l (Some r))
  else if (canEndTxn u || canSuspendTxn u)%bool then
    let '(r, l) := buildTxn c false l in
    let l := add_all r (ephemeralCounters l) l in
    with_ephemeral (with_compromised l (compromisedTxns l ++ [r])) []
  else with_ephemeral l (ephemeralCounters l ++ [c]).

Definition loadCounter (pm : ProbeMap Probe) (l : Loader) (c : Counter) : result Loader :=
  let l := with_processed l (processedCounterCount l + 1) in
  match pm_get pm (cprobe c) (cprobe c) with
  | None => Raise AttributeError_
  | Some u => Ok (match currentTxn l with
                  | Some r => load_open u c r l
                  | None => load_idle u c l
                  end)
  end.

Definition beginLoad (tid tls : string) (l : Loader) : Loader :=
  with_thread l (Some tid) (Some tls).

Definition endLoad (l : Loader) : Loader :=
  match currentTxn l with
  | Some r => with_current (if has_end l r then appendTxn r l
                            else with_compromised l (compromisedTxns l ++ [r])) None
  | None => with_current l None
  end.

(** [endCollection]: joins the fragments and appends the joined transactions. *)
Definition endCollection (fuel : nat) (l : Loader) : result Loader :=
  st ← join_all fuel (fragments l) (nextTxnId l) (heap l);
  Ok (fold_left (fun l r => abstract_appendTxn r l) (jtxns st) (with_heap l (jheap st))).

(** One load session per thread, as the collectors drive it. *)
Definition load_thread (pm : ProbeMap Probe) (l : Loader) (s : string * string * list Counter)
    : result Loader :=
  l ← mfor (loadCounter pm) (beginLoad s.1.1 s.1.2 l) s.2; Ok (endLoad l).

Definition load_threads (pm : ProbeMap Probe) (l : Loader)
    (ss : list (string * string * list Counter)) : result Loader :=
  mfor (load_thread pm) l ss.

(** [getData]: the transactions behind the dict of references. *)
Definition loaded_txns (l : Loader) : list (TxnId * Transaction) :=
  omap (fun p => (fun t => (p.1, t)) <$> get_txn l p.2) (txns l).

(** ** The loader's invariant *)

(** Every counter the loader still knows of. *)
Definition all_counters (l : Loader) : list Counter :=
  (txnStore (heap l) ≫= counters) ++ nonTxnCounters l ++ ephemeralCounters l.

(** The transactions that wait for their missing fragments. *)
Definition frag_held (h : Heap) (r : nat) : Prop :=
  exists f fr, fragStore h !! f = Some fr /\ f_txn fr = r.

(** Where the loader's own containers point. *)
Definition roots (l : Loader) : list nat :=
  option_list (currentTxn l) ++ (txns l).*2 ++ compromisedTxns l.

Record Inv (l : Loader) : Prop := {
  inv_roots : Forall (fun r => r < length (txnStore (heap l)))%nat (roots l);
  inv_nodup : NoDup (roots l);
  inv_owned : forall r, (r < length (txnStore (heap l)))%nat ->
    r ∈ roots l \/ frag_held (heap l) r;
  inv_held : forall r, currentTxn l = Some r ->
    is_Some (resumeFragment l) \/ suspendingTxn l = true -> frag_held (heap l) r;
  inv_ids : (txns l).*1 = IdInt <$> seqZ 1 (nextTxnId l) /\ 0 <= nextTxnId l;
  inv_nonempty : Forall (fun t => counters t <> []) (txnStore (heap l))
}.

Lemma Inv_init : Inv BoundedTxnLoader_init.
Proof. split; cbn; try done; try (by apply NoDup_nil); intros; lia. Qed.

(** *** Stores *)

Lemma alter_bind_counters g r ts :
  (forall t, counters (g t) = counters t) -> alter g r ts ≫= counters = ts ≫= counters.
Proof.
  intros Hg. revert r. induction ts as [|t ts IH]; intros [|r]; cbn; [done|done| |].
  - by rewrite Hg.
  - by f_equal.
Qed.

Lemma alter_add_counters c e r ts :
  (r < length ts)%nat -> alter (addCounter c e) r ts ≫= counters ≡ₚ c :: (ts ≫= counters).
Proof.
  revert r. induction ts as [|t ts IH]; intros [|r]; cbn; [lia|lia| |].
  - intros _. rewrite -app_assoc. cbn. by rewrite Permutation_middle.
  - intros Hr. rewrite IH; [lia|]. by rewrite Permutation_middle.
Qed.

Lemma alter_nonempty g r ts :
  (forall t, counters t <> [] -> counters (g t) <> []) ->
  Forall (fun t => counters t <> []) ts -> Forall (fun t => counters t <> []) (alter g r ts).
Proof.
  intros Hg H. apply Forall_alter; eauto.
Qed.

Lemma addCounter_nonempty c e t : counters (addCounter c e t) <> [].
Proof. cbn. destruct (counters t); done. Qed.

Lemma frag_held_heap ts ts' fs r : frag_held (mkHeap ts fs) r <-> frag_held (mkHeap ts' fs) r.
Proof. done. Qed.

Lemma frag_held_app ts fs fs' r : frag_held (mkHeap ts fs) r -> frag_held (mkHeap ts (fs ++ fs')) r.
Proof. intros (f & fr & H & ?). exists f, fr. split; [by apply lookup_app_l_Some|done]. Qed.

Lemma frag_held_new ts fs fr : frag_held (mkHeap ts (fs ++ [fr])) (f_txn fr).
Proof. exists (length fs), fr. split; [|done]. cbn. by rewrite list_lookup_middle. Qed.

Lemma frag_held_set_next link f h r : frag_held (set_next link f h) r <-> frag_held h r.
Proof.
  unfold frag_held, set_next. cbn. split; intros (g & fr & H & Hr).
  - destruct (decide (f = g)) as [->|Hne].
    + rewrite list_lookup_alter_eq fmap_Some in H. destruct H as (fr0 & H & ->). eauto.
    + rewrite list_lookup_alter_ne in H; eauto.
  - destruct (decide (f = g)) as [->|Hne].
    + eexists g, _. rewrite list_lookup_alter_eq H. done.
    + exists g, fr. by rewrite list_lookup_alter_ne.
Qed.

Lemma addResume_spec link r h fr f st :
  addResumeFragment link r (h, fr) = (f, st) ->
  txnStore st.1 = txnStore h /\ frag_held st.1 r /\
  (forall r', frag_held h r' -> frag_held st.1 r').
Proof.
  unfold addResumeFragment. destruct h as [ts fs]. cbn.
  destruct (resume_list link fr) as [l|]; [|destruct (suspendFrags fr !! link) as [sf|]];
    intros [= <- <-]; cbn [fst]; rewrite ?frag_held_set_next; split_and!; try done.
  1,3,5: apply (frag_held_new ts fs (mkFragment r (Some link) None None)).
  all: intros r' H; rewrite ?frag_held_set_next; by apply frag_held_app.
Qed.

Lemma addSuspend_spec link r fragment h fr :
  let st := addSuspendFragment link r fragment (h, fr) in
  txnStore st.1 = txnStore h /\ (fragment = None -> frag_held st.1 r) /\
  (forall r', frag_held h r' -> frag_held st.1 r').
Proof.
  unfold addSuspendFragment. destruct h as [ts fs]. cbn. destruct fragment as [f|]; cbn;
    (destruct (resume_list link fr) as [l|]; cbn); rewrite ?frag_held_set_next;
    split_and!; try done; intros; rewrite ?frag_held_set_next; try done.
  1,3: apply (frag_held_new ts fs (mkFragment r None (Some link) None)).
  all: by apply frag_held_app.
Qed.

#[local] Arguments addResumeFragment : simpl never.
#[local] Arguments addSuspendFragment : simpl never.

(** *** Operations, one transition of the loader at a time *)

#[export] Instance txnid_eqb_equiv : KeyEquiv txnid_eqb.
Proof. split; unfold txnid_eqb; intros *; rewrite ?bool_decide_eq_true; congruence. Qed.

Definition waiting (l : Loader) : bool :=
  (match resumeFragment l with Some _ => true | None => false end || suspendingTxn l)%bool.

Lemma waiting_true l : waiting l = true <-> is_Some (resumeFragment l) \/ suspendingTxn l = true.
Proof.
  unfold waiting. rewrite orb_true_iff. destruct (resumeFragment l); split; intros [?|?]; eauto;
    try done; by destruct H.
Qed.

Lemma fresh_id l n : (txns l).*1 = IdInt <$> seqZ 1 n -> 0 <= n ->
  od_get txnid_eqb (IdInt (n + 1)) (txns l) = None.
Proof.
  intros Hk Hn. apply od_get_None. unfold od_keys. rewrite Hk. apply Forall_forall.
  intros k (i & -> & Hi)%list_elem_of_fmap. apply elem_of_seqZ in Hi.
  apply bool_decide_eq_false_2. intros [= ?]. lia.
Qed.

(** A finished transaction that does not wait for fragments enters the dict under the
    next id. *)
Lemma appendTxn_fresh r l : Inv l -> (r < length (txnStore (heap l)))%nat -> waiting l = false ->
  appendTxn r l =
  let l1 := with_nextTxnId l (nextTxnId l + 1) in
  with_txns (with_heap l1 (update_txn (set_txnId (IdInt (nextTxnId l + 1))) r (heap l)))
    (txns l ++ [(IdInt (nextTxnId l + 1), r)]).
Proof.
  intros Hi Hr Hw. unfold appendTxn. fold (waiting l). rewrite Hw.
  destruct (inv_ids l Hi) as [Hids Hpos]. pose proof (fresh_id l _ Hids Hpos) as Hf.
  destruct l as [[ts fs] fr p t cp n e c th tl i j rf s]. cbn in *.
  unfold abstract_appendTxn, txn_id, get_txn. cbn.
  destruct (lookup_lt_is_Some_2 _ _ Hr) as [tr Htr].
  rewrite list_lookup_alter_eq Htr. cbn. rewrite Hf. by rewrite od_set_fresh.
Qed.

Lemma appendTxn_wait r l : waiting l = true -> appendTxn r l = l.
Proof. unfold appendTxn. fold (waiting l). by intros ->. Qed.

Lemma Inv_close r l : Inv l -> currentTxn l = Some r ->
  Inv (with_current (appendTxn r l) None) /\
  all_counters (with_current (appendTxn r l) None) = all_counters l.
Proof.
  intros Hi Hc. assert (r < length (txnStore (heap l)))%nat as Hr.
  { pose proof (inv_roots l Hi) as H. unfold roots in H. rewrite Hc in H. by inversion H. }
  destruct (waiting l) eqn:Hw.
  - rewrite appendTxn_wait //. apply waiting_true in Hw.
    destruct Hi as [H1 H2 H3 H4 H5 H6]. specialize (H4 r Hc Hw).
    destruct l as [[ts fs] fr p t cp n e c th tl i j rf s]. unfold roots in *. cbn in *. subst c.
    split; [|done]. apply Forall_cons in H1 as [_ H1]. apply NoDup_cons in H2 as [_ H2].
    split; unfold roots; cbn; try done.
    intros r' Hr'. destruct (H3 r' Hr') as [Hin|]; [|by right].
    apply elem_of_cons in Hin as [->|]; [by right|by left].
  - rewrite appendTxn_fresh //. destruct Hi as [H1 H2 H3 H4 H5 H6].
    destruct l as [[ts fs] fr p t cp n e c th tl i j rf s]. unfold roots in *. cbn in *. subst c.
    assert (Hp : (t ++ [(IdInt (i + 1), r)]).*2 ++ cp ≡ₚ r :: t.*2 ++ cp).
    { rewrite fmap_app -app_assoc /=. symmetry. apply Permutation_middle. }
    split; [split|]; unfold roots, all_counters; cbn [with_nextTxnId with_heap with_txns with_current
      txns currentTxn compromisedTxns heap txnStore option_list app update_txn fragStore
      nonTxnCounters ephemeralCounters resumeFragment suspendingTxn nextTxnId]; rewrite ?length_alter.
    + by rewrite Hp.
    + by rewrite Hp.
    + intros r' Hr'. rewrite Hp. by apply H3.
    + done.
    + destruct H5 as [H5 H5']. split; [|lia].
      rewrite fmap_app H5 Z.add_comm -(Z.add_comm i) seqZ_app; [done|done|].
      rewrite fmap_app. f_equal. cbn. by rewrite Z.add_comm.
    + by apply alter_nonempty.
    + by rewrite alter_bind_counters.
Qed.

(** A fresh transaction, with the fragment it may come with. *)
Lemma buildTxn_spec c b l r l' : buildTxn c b l = (r, l') ->
  r = length (txnStore (heap l)) /\
  (exists id, txnStore (heap l') = txnStore (heap l) ++ [Transaction_init c id]) /\
  txns l' = txns l /\ compromisedTxns l' = compromisedTxns l /\ currentTxn l' = currentTxn l /\
  nonTxnCounters l' = nonTxnCounters l /\ ephemeralCounters l' = ephemeralCounters l /\
  nextTxnId l' = nextTxnId l /\ (waiting l' = true -> frag_held (heap l') r) /\
  (forall r', frag_held (heap l) r' -> frag_held (heap l') r').
Proof.
  destruct l as [[ts fs] fr p t cp n e cu th tl i j rf s]. unfold buildTxn. destruct b.
  - cbn. destruct (addResumeFragment _ _ _) as [f st] eqn:E.
    destruct (addResume_spec _ _ _ _ _ _ E) as (H1 & H2 & H3).
    intros [= <- <-]. cbn in *. rewrite H1. split_and!; eauto.
  - cbn. intros [= <- <-]. cbn. split_and!; eauto. done.
Qed.

Lemma Inv_open c b l r l' : Inv l -> currentTxn l = None -> buildTxn c b l = (r, l') ->
  Inv (with_current l' (Some r)) /\ all_counters (with_current l' (Some r)) ≡ₚ c :: all_counters l.
Proof.
  intros [H1 H2 H3 H4 H5 H6] Hc Hb.
  destruct (buildTxn_spec _ _ _ _ _ Hb) as (-> & (id & Hts) & Ht & Hcp & Hcu & Hn & He & Hid & Hw & Hh).
  unfold roots, all_counters in *. rewrite Hc in H1 H2 H3. cbn in H1, H2, H3.
  assert (Hfresh : length (txnStore (heap l)) ∉ (txns l).*2 ++ compromisedTxns l).
  { intros Hin. rewrite Forall_forall in H1. specialize (H1 _ Hin). cbn in H1. lia. }
  destruct l' as [[ts fs] fr p t cp n e cu th tl i j rf s]. cbn in *. subst.
  split; [split|]; unfold roots, all_counters; cbn; rewrite ?length_app ?Nat.add_1_r.
  - apply Forall_cons. split; [lia|]. eapply Forall_impl; [exact H1|]. cbn. lia.
  - by apply NoDup_cons.
  - intros r' Hr'. destruct (decide (r' = length (txnStore (heap l)))) as [->|]; [by left; left|].
    destruct (H3 r') as [Hin|Hheld]; [lia|left; by right|right; by apply Hh].
  - intros r' [= <-] Hw'. by apply Hw, waiting_true.
  - done.
  - apply Forall_app. split; [done|]. by apply Forall_singleton.
  - rewrite bind_app -app_assoc. cbn. symmetry. apply Permutation_middle.
Qed.

Lemma Inv_add_to r c e l : Inv l -> (r < length (txnStore (heap l)))%nat ->
  Inv (add_to r c e l) /\ all_counters (add_to r c e l) ≡ₚ c :: all_counters l.
Proof.
  intros [H1 H2 H3 H4 H5 H6] Hr.
  destruct l as [[ts fs] fr p t cp n es cu th tl i j rf s]. unfold roots, all_counters in *. cbn in *.
  split; [split|]; unfold roots, all_counters; cbn; rewrite ?length_alter; try done.
  - apply alter_nonempty; [|done]. intros. apply addCounter_nonempty.
  - by rewrite alter_add_counters.
Qed.

Lemma add_to_fields r c e l :
  currentTxn (add_to r c e l) = currentTxn l /\
  length (txnStore (heap (add_to r c e l))) = length (txnStore (heap l)) /\
  ephemeralCounters (add_to r c e l) = ephemeralCounters l.
Proof. destruct l as [[? ?] ? ? ? ? ? ? ? ? ? ? ? ? ?]. cbn. by rewrite length_alter. Qed.

Lemma Inv_add_all r cs l : Inv l -> (r < length (txnStore (heap l)))%nat ->
  Inv (add_all r cs l) /\ all_counters (add_all r cs l) ≡ₚ cs ++ all_counters l /\
  currentTxn (add_all r cs l) = currentTxn l /\
  length (txnStore (heap (add_all r cs l))) = length (txnStore (heap l)) /\
  ephemeralCounters (add_all r cs l) = ephemeralCounters l.
Proof.
  revert l. induction cs as [|c cs IH]; intros l Hi Hr; [done|].
  destruct (Inv_add_to r c false l Hi Hr) as [Hi1 Hp1].
  destruct (add_to_fields r c false l) as (Hc1 & Hl1 & He1).
  destruct (IH (add_to r c false l) Hi1) as (Hi2 & Hp2 & Hc2 & Hl2 & He2); [by rewrite Hl1|].
  change (add_all r (c :: cs) l) with (add_all r cs (add_to r c false l)).
  split_and!; [done| |congruence..]. cbn. rewrite Hp2 Hp1. symmetry. apply (Permutation_middle cs).
Qed.

(** Moving the ephemeral counters only changes where they are. *)
Lemma Inv_with_ephemeral e l : Inv l -> Inv (with_ephemeral l e).
Proof. intros [H1 H2 H3 H4 H5 H6]. by destruct l. Qed.

Lemma Inv_discard l : Inv l ->
  Inv (discard_ephemeral l) /\ all_counters (discard_ephemeral l) ≡ₚ all_counters l /\
  currentTxn (discard_ephemeral l) = currentTxn l.
Proof.
  intros Hi. unfold discard_ephemeral. destruct (ephemeralCounters l) as [|x es] eqn:E; [done|].
  split_and!.
  - apply Inv_with_ephemeral. destruct Hi as [H1 H2 H3 H4 H5 H6]. by destruct l.
  - destruct l. unfold all_counters. cbn in *. by rewrite E app_nil_r.
  - by destruct l.
Qed.

Lemma adopt_ephemeral_eq r l :
  adopt_ephemeral r l = with_ephemeral (add_all r (ephemeralCounters l) l) [].
Proof.
  unfold adopt_ephemeral. destruct (ephemeralCounters l) eqn:E; [|done].
  destruct l. cbn in *. by subst.
Qed.

Lemma Inv_adopt r l : Inv l -> (r < length (txnStore (heap l)))%nat ->
  Inv (adopt_ephemeral r l) /\ all_counters (adopt_ephemeral r l) ≡ₚ all_counters l /\
  currentTxn (adopt_ephemeral r l) = currentTxn l /\
  length (txnStore (heap (adopt_ephemeral r l))) = length (txnStore (heap l)).
Proof.
  intros Hi Hr. rewrite adopt_ephemeral_eq.
  destruct (Inv_add_all r (ephemeralCounters l) l Hi Hr) as (Hi' & Hp & Hc & Hl & He).
  revert Hi' Hp He Hc Hl. generalize (add_all r (ephemeralCounters l) l). intros l' Hi' Hp He Hc Hl.
  split_and!; [by apply Inv_with_ephemeral| |by destruct l'|by destruct l'].
  apply (Permutation_app_inv_l (ephemeralCounters l)). rewrite -Hp. unfold all_counters.
  rewrite He. destruct l' as [[ts fs] fr p t cp n e cu th tl i j rf s]. cbn.
  rewrite app_nil_r !app_assoc -app_assoc. apply Permutation_app_comm.
Qed.

Lemma Inv_suspend r c l : Inv l -> currentTxn l = Some r ->
  Inv (suspend r c l) /\ all_counters (suspend r c l) = all_counters l.
Proof.
  intros [H1 H2 H3 H4 H5 H6] Hc. unfold suspend.
  destruct l as [[ts fs] fr p t cp n es cu th tl i j rf s]. unfold roots, all_counters in *.
  cbn in *. subst cu.
  pose proof (addSuspend_spec (link_id c tl) r rf (mkHeap ts fs) fr) as H. cbn zeta in H.
  destruct (addSuspendFragment _ _ _ _) as [[ts' fs'] fr']. cbn in H.
  destruct H as (-> & Hnew & Hold).
  split; [split|]; unfold roots, all_counters; cbn; try done.
  - intros r' Hr'. destruct (H3 r' Hr') as [|Hh]; [by left|right]. by apply Hold.
  - intros r' [= <-] _. destruct rf as [f|]; [|by apply Hnew]. apply Hold, H4; eauto.
Qed.

Lemma Inv_compromise r l : Inv l -> currentTxn l = Some r ->
  Inv (with_current (with_compromised l (compromisedTxns l ++ [r])) None) /\
  all_counters (with_current (with_compromised l (compromisedTxns l ++ [r])) None) = all_counters l.
Proof.
  intros [H1 H2 H3 H4 H5 H6] Hc.
  destruct l as [[ts fs] fr p t cp n es cu th tl i j rf s]. unfold roots in *.
  cbn in *. subst cu. cbn in *.
  assert (Hp : t.*2 ++ cp ++ [r] ≡ₚ r :: t.*2 ++ cp).
  { rewrite app_assoc. symmetry. apply Permutation_cons_append. }
  split; [split|]; unfold roots, all_counters; cbn; rewrite ?Hp; try done.
  intros r' Hr'. rewrite Hp. by apply H3.
Qed.

Lemma Inv_processed l p : Inv l -> Inv (with_processed l p) /\
  all_counters (with_processed l p) = all_counters l /\ currentTxn (with_processed l p) = currentTxn l.
Proof. intros [H1 H2 H3 H4 H5 H6]. by destruct l. Qed.

Lemma cur_lt l r : Inv l -> currentTxn l = Some r -> (r < length (txnStore (heap l)))%nat.
Proof.
  intros Hi Hc. pose proof (inv_roots l Hi) as H. unfold roots in H. rewrite Hc in H. by inversion H.
Qed.

(** [with_current] commutes with the operations that do not read the current transaction. *)
Lemma buildTxn_current c b l r l' o :
  buildTxn c b l = (r, l') -> buildTxn c b (with_current l o) = (r, with_current l' o).
Proof.
  destruct l as [[ts fs] fr p t cp n e cu th tl i j rf s]. unfold buildTxn. destruct b; cbn.
  - destruct (addResumeFragment _ _ _) as [f [h fr']]. by intros [= <- <-].
  - by intros [= <- <-].
Qed.

Lemma with_current_twice l o o' : with_current (with_current l o) o' = with_current l o'.
Proof. by destruct l. Qed.

Lemma with_current_id l : with_current l (currentTxn l) = l.
Proof. by destruct l. Qed.

Lemma Inv_load_open u c r l : Inv l -> currentTxn l = Some r ->
  Inv (load_open u c r l) /\ all_counters (load_open u c r l) ≡ₚ c :: all_counters l.
Proof.
  intros Hi Hc. pose proof (cur_lt l r Hi Hc) as Hr. unfold load_open.
  destruct (canBeginTxn u || canResumeTxn u)%bool.
  - destruct (has_end l r || canResumeTxn u)%bool; [|by apply Inv_add_to].
    destruct (Inv_discard l Hi) as (Hi1 & Hp1 & Hc1). rewrite Hc in Hc1.
    destruct (Inv_close r _ Hi1 Hc1) as [Hi2 Hp2].
    destruct (buildTxn c (canResumeTxn u) (appendTxn r (discard_ephemeral l))) as [r' l'] eqn:Hb.
    destruct (Inv_open c (canResumeTxn u) _ r' (with_current l' None) Hi2) as [Hi3 Hp3];
      [by destruct (appendTxn r (discard_ephemeral l))|by apply buildTxn_current|].
    rewrite with_current_twice in Hi3, Hp3. split; [done|]. by rewrite Hp3 Hp2 Hp1.
  - destruct (canEndTxn u || canSuspendTxn u)%bool.
    + destruct (Inv_adopt r l Hi Hr) as (Hi1 & Hp1 & Hc1 & Hl1).
      destruct (Inv_add_to r c true _ Hi1) as [Hi2 Hp2]; [by rewrite Hl1|].
      destruct (canSuspendTxn u); [|by rewrite Hp2 Hp1].
      destruct (Inv_suspend r c _ Hi2) as [Hi3 Hp3].
      { destruct (add_to_fields r c true (adopt_ephemeral r l)) as (-> & _). congruence. }
      by rewrite Hp3 Hp2 Hp1.
    + destruct (has_end l r); [|by apply Inv_add_to].
      split; [by apply Inv_with_ephemeral|]. destruct l. unfold all_counters. cbn.
      rewrite !app_assoc. symmetry. apply Permutation_cons_append.
Qed.

Lemma Inv_load_idle u c l : Inv l -> currentTxn l = None ->
  Inv (load_idle u c l) /\ all_counters (load_idle u c l) ≡ₚ c :: all_counters l.
Proof.
  intros Hi Hc. unfold load_idle. destruct (canBeginTxn u || canResumeTxn u)%bool.
  - destruct (buildTxn c (canResumeTxn u) l) as [r l'] eqn:Hb.
    destruct (Inv_open _ _ _ _ _ Hi Hc Hb) as [Hi1 Hp1].
    destruct (Inv_discard _ Hi1) as (Hi2 & Hp2 & _). by rewrite Hp2 Hp1.
  - destruct (canEndTxn u || canSuspendTxn u)%bool.
    + destruct (buildTxn c false l) as [r l'] eqn:Hb.
      destruct (buildTxn_spec _ _ _ _ _ Hb) as (_ & _ & _ & _ & Hcu & _ & He & _).
      destruct (Inv_open _ _ _ _ _ Hi Hc Hb) as [Hi1 Hp1].
      assert (Hr : (r < length (txnStore (heap (with_current l' (Some r)))))%nat).
      { apply (cur_lt _ _ Hi1). by destruct l'. }
      destruct (Inv_adopt r _ Hi1 Hr) as (Hi2 & Hp2 & Hc2 & _).
      rewrite adopt_ephemeral_eq in Hi2, Hp2, Hc2.
      set (l2 := with_ephemeral _ []) in *.
      destruct (Inv_compromise r l2 Hi2) as [Hi3 Hp3]; [rewrite Hc2; by destruct l'|].
      assert (with_ephemeral (with_compromised (add_all r (ephemeralCounters l') l')
          (compromisedTxns (add_all r (ephemeralCounters l') l') ++ [r])) [] =
        with_current (with_compromised l2 (compromisedTxns l2 ++ [r])) None) as ->.
      { rewrite Hc in Hcu. unfold l2. clear -Hcu.
        assert (forall cs l o, add_all r cs (with_current l o) = with_current (add_all r cs l) o) as Hcomm.
        { induction cs as [|x cs IH]; intros l o; [done|]. cbn. rewrite -IH. by destruct l. }
        rewrite Hcomm. assert (forall cs l, currentTxn (add_all r cs l) = currentTxn l) as Hk.
        { induction cs as [|x cs IH]; intros l; [done|]. cbn. fold (add_all r cs).
          unfold add_all in IH. rewrite IH. by destruct l. }
        assert (ephemeralCounters (with_current l' (Some r)) = ephemeralCounters l') as ->
          by by destruct l'.
        specialize (Hk (ephemeralCounters l') l'). rewrite Hcu in Hk.
        destruct (add_all _ _ l'). cbn in *. by subst. }
      split; [done|]. by rewrite Hp3 Hp2 Hp1.
    + split; [by apply Inv_with_ephemeral|]. destruct l. unfold all_counters. cbn.
      rewrite !app_assoc. symmetry. apply Permutation_cons_append.
Qed.

Lemma Inv_loadCounter pm l c l' : Inv l -> loadCounter pm l c = Ok l' ->
  Inv l' /\ all_counters l' ≡ₚ c :: all_counters l.
Proof.
  intros Hi. unfold loadCounter. destruct (Inv_processed l (processedCounterCount l + 1) Hi)
    as (Hi1 & Hp1 & Hc1). rewrite -Hp1. revert Hi1. generalize (with_processed l (processedCounterCount l + 1)).
  clear. intros l Hi. destruct (pm_get _ _ _) as [u|]; [|done]. intros [= <-].
  destruct (currentTxn l) eqn:Hc; [by apply Inv_load_open|by apply Inv_load_idle].
Qed.

Lemma Inv_endLoad l : Inv l ->
  Inv (endLoad l) /\ all_counters (endLoad l) = all_counters l /\ currentTxn (endLoad l) = None.
Proof.
  intros Hi. unfold endLoad. destruct (currentTxn l) as [r|] eqn:Hc.
  - destruct (has_end l r).
    + destruct (Inv_close r l Hi Hc). split_and!; [done|done|by destruct (appendTxn r l)].
    + destruct (Inv_compromise r l Hi Hc). split_and!; [done|done|by destruct l].
  - rewrite -Hc with_current_id. done.
Qed.

Lemma Inv_loadCounters pm cs l l' : Inv l -> mfor (loadCounter pm) l cs = Ok l' ->
  Inv l' /\ all_counters l' ≡ₚ cs ++ all_counters l.
Proof.
  revert l. induction cs as [|c cs IH]; intros l Hi; cbn; [by intros [= <-]|].
  intros H. apply bind_Ok in H as (l1 & H1 & H).
  destruct (Inv_loadCounter pm l c l1 Hi H1) as [Hi1 Hp1].
  destruct (IH l1 Hi1 H) as [Hi2 Hp2]. split; [done|]. rewrite Hp2 Hp1.
  symmetry. apply Permutation_middle.
Qed.

Lemma Inv_load_thread pm l s l' : Inv l -> load_thread pm l s = Ok l' ->
  Inv l' /\ all_counters l' ≡ₚ s.2 ++ all_counters l /\ currentTxn l' = None.
Proof.
  destruct s as [[tid tls] cs]. intros Hi H. unfold load_thread in H.
  apply bind_Ok in H as (l1 & H1 & [= <-]). cbn in H1.
  assert (Inv (beginLoad tid tls l) /\ all_counters (beginLoad tid tls l) = all_counters l) as [Hi0 Hp0].
  { destruct Hi as [? ? ? ? ? ?]. by destruct l. }
  destruct (Inv_loadCounters pm cs _ l1 Hi0 H1) as [Hi1 Hp1]. rewrite Hp0 in Hp1.
  destruct (Inv_endLoad l1 Hi1) as (? & -> & ?). done.
Qed.

Lemma load_threads_counters pm ss l :
  load_threads pm BoundedTxnLoader_init ss = Ok l -> all_counters l ≡ₚ (ss ≫= snd).
Proof.
  intros H. cut (Inv l /\ all_counters l ≡ₚ (ss ≫= snd)); [by intros [_ ?]|].
  revert H. apply (mfor_inv_prefix _ (fun pre l => Inv l /\ all_counters l ≡ₚ (pre ≫= snd)));
    [|by split; [apply Inv_init|]].
  intros pre s post l0 l1 _ [Hi Hp] Hl.
  destruct (Inv_load_thread pm l0 s l1 Hi Hl) as (Hi1 & Hp1 & _). split; [done|].
  rewrite Hp1 Hp bind_app /= app_nil_r. apply Permutation_app_comm.
Qed.

(** ** Properties of loading *)

(** C2 (conservation): loading any sequence of threads from the initial state never loses
    or duplicates a counter: the counters of all transactions, with the ones set aside as
    extraneous and the pending ones, are exactly the counters that were loaded. *)
Theorem load_threads_conserves pm ss l :
  load_threads pm BoundedTxnLoader_init ss = Ok l ->
  (txnStore (heap l) ≫= counters) ++ nonTxnCounters l ++ ephemeralCounters l ≡ₚ (ss ≫= snd).
Proof. apply load_threads_counters. Qed.

Lemma load_threads_Inv pm ss l l' : Inv l -> load_threads pm l ss = Ok l' ->
  Inv l' /\ (ss <> [] -> currentTxn l' = None).
Proof.
  revert l. induction ss as [|s ss IH]; intros l Hi; cbn; [by intros [= <-]|].
  intros H. apply bind_Ok in H as (l1 & H1 & H).
  destruct (Inv_load_thread pm l s l1 Hi H1) as (Hi1 & _ & Hc1).
  destruct (IH l1 Hi1 H) as [Hi2 Hc2]. split; [done|]. intros _.
  destruct ss; [by injection H as <-|by apply Hc2].
Qed.


Definition identified (p : Probe) : bool := truthy_str (sysName p) || isAnchored p.

Lemma loadCounter_total pm l c : identified (cprobe c) = true -> exists l', loadCounter pm l c = Ok l'.
Proof.
  unfold loadCounter, pm_get, identified. destruct (truthy_str _); [by eexists|].
  cbn. intros ->. by eexists.
Qed.

(** Loading raises on no counter whose probe has a name or a location. *)
Theorem load_threads_total pm ss l :
  Forall (fun s => Forall (fun c => identified (cprobe c) = true) s.2) ss ->
  exists l', load_threads pm l ss = Ok l'.
Proof.
  intros H. apply mfor_total. eapply Forall_impl; [exact H|].
  intros [[tid tls] cs] Hcs l0. unfold load_thread. cbn in Hcs.
  destruct (mfor_total (loadCounter pm) cs (beginLoad tid tls l0)) as [l1 H1].
  { eapply Forall_impl; [exact Hcs|]. intros c Hc l1. by apply loadCounter_total. }
  cbn. rewrite H1. by eexists.
Qed.

(** ** Concrete sessions *)

Definition ex_probe (c : probeClass) (s : string) (b su re en : bool) : Probe :=
  mkProbe c s (Some s) false b su re en None "" "" "" 0 "" [].
Definition exB := ex_probe CTxnBeginProbe "begin" true false false false.
Definition exM := ex_probe CProbe "mid" false false false false.
Definition exE := ex_probe CTxnEndProbe "end" false false false true.
Definition exS := ex_probe CTxnSuspendProbe "suspend" false true false false.
Definition exR := ex_probe CTxnResumeProbe "resume" false false true false.
Definition ex_counter (p : Probe) (d : string) (t : Z) : Counter := mkCounter "1" p d t [].

Definition ex_probes : ProbeMap Probe :=
  match ProbeMap_init (fun p => p) [exB; exM; exE; exS; exR] [] with Ok m => m | Raise _ => pm_empty end.

(** Two transactions, a stray end probe and a stray sample, over two threads. *)
Definition ex_session : list (string * string * list Counter) :=
  [ ("1", "a0", [ex_counter exE "" 1; ex_counter exB "" 2; ex_counter exM "" 3; ex_counter exE "" 4;
                 ex_counter exM "" 5; ex_counter exB "" 6; ex_counter exE "" 7]);
    ("2", "b0", [ex_counter exB "" 3; ex_counter exM "" 4]) ].

Definition ex_loaded : Loader :=
  match load_threads ex_probes BoundedTxnLoader_init ex_session with Ok l => l | Raise _ => BoundedTxnLoader_init end.

Lemma ex_loaded_Ok : load_threads ex_probes BoundedTxnLoader_init ex_session = Ok ex_loaded.
Proof. vm_compute. reflexivity. Qed.

Lemma load_threads_conserves_witness :
  (txnStore (heap ex_loaded) ≫= counters) ++ nonTxnCounters ex_loaded ++ ephemeralCounters ex_loaded
    ≡ₚ (ex_session ≫= snd) /\ length (txns ex_loaded) = 2%nat.
Proof. split; [exact (load_threads_conserves _ _ _ ex_loaded_Ok)|reflexivity]. Defined.


Lemma load_threads_total_witness :
  exists l', load_threads ex_probes BoundedTxnLoader_init ex_session = Ok l'.
Proof.
  apply (load_threads_total ex_probes ex_session BoundedTxnLoader_init).
  repeat constructor.
Defined.
