(* ===== verification/Join.v ===== *)
(** * Joining the fragments of suspended transactions

    Theorems about [TxnFragments.join] (txn/fragments.py): it terminates on acyclic
    links, and makes one transaction per path from a root fragment through the fragments
    that resume it, with the counters of that path. *)

From S2P Require Import Prelude PyStr Probe Route Txn Loader.

Definition get_counters (h : Heap) (r : nat) : list Counter :=
  default [] (counters <$> txnStore h !! r).
Definition get_id (h : Heap) (r : nat) : option TxnId := txnId <$> txnStore h !! r.

(** The list of fragments a link resumes with. *)
Definition linked (lists : gmap string (list nat)) (next : option string) : list nat :=
  default [] (next ≫= fun link => lists !! link).

(** ** Specification: the paths of fragments that follow a link *)

Section Paths.
Context (lists : gmap string (list nat)) (frags : list TxnFragment) (rc : nat -> list Counter).

Definition next_of (f : nat) : option string := frags !! f ≫= fnext.
Definition txn_of (f : nat) : nat := default 0%nat (f_txn <$> frags !! f).

Fixpoint paths (fuel : nat) (next : option string) : list (list Counter) :=
  match fuel with
  | O => []
  | S fuel =>
      match linked lists next with
      | [] => [[]]
      | fs => fs ≫= fun f => (fun p => rc (txn_of f) ++ p) <$> paths fuel (next_of f)
      end
  end.

(** References that the join only reads. *)
Definition read_only (r : nat) : Prop :=
  exists link l f, lists !! link = Some l /\ f ∈ l /\ r = txn_of f.

Record Joinable (st : JoinState) : Prop := {
  jn_frags : fragStore (jheap st) = frags;
  jn_ro : forall r, read_only r ->
    (r < length (txnStore (jheap st)))%nat /\ get_counters (jheap st) r = rc r
}.

(** What a call that joins into [txn] does to the state: [w] are the references it may
    write, [new] the transactions it produces. *)
Record JoinStep (w : list nat) (st st' : JoinState) (new : list nat) : Prop := {
  js_txns : jtxns st' = jtxns st ++ new;
  js_next : jnext st' = jnext st + Z.of_nat (length new);
  js_frags : fragStore (jheap st') = fragStore (jheap st);
  js_grow : (length (txnStore (jheap st)) <= length (txnStore (jheap st')))%nat;
  js_frame : forall r, (r < length (txnStore (jheap st)))%nat -> r ∉ w ->
    txnStore (jheap st') !! r = txnStore (jheap st) !! r;
  js_nodup : NoDup new;
  js_new : Forall (fun r => (r ∈ w \/ length (txnStore (jheap st)) <= r)%nat /\
                            (r < length (txnStore (jheap st')))%nat) new;
  js_ids : (get_id (jheap st') <$> new) = (fun i => Some (IdInt i)) <$> seqZ (jnext st + 1) (Z.of_nat (length new))
}.

Lemma Joinable_step w st st' new : Joinable st -> JoinStep w st st' new ->
  (forall r, r ∈ w -> ~ read_only r) -> Joinable st'.
Proof.
  intros [Hf Hr] [? ? Hfr Hg Hframe ? ? ?] Hw. split; [congruence|].
  intros r Hro. destruct (Hr r Hro) as [Hlt Hrc]. split; [lia|].
  rewrite -Hrc. unfold get_counters. rewrite Hframe; [done| |done]. intros Hin. by apply (Hw r).
Qed.

Lemma JoinStep_trans w1 w2 w st0 st1 st2 new1 new2 :
  JoinStep w1 st0 st1 new1 -> JoinStep w2 st1 st2 new2 ->
  (forall r, r ∈ new1 -> r ∉ w2) ->
  (forall r, r ∈ w1 -> r ∈ w) ->
  (forall r, r ∈ w2 -> r ∈ w \/ length (txnStore (jheap st0)) <= r)%nat ->
  JoinStep w st0 st2 (new1 ++ new2).
Proof.
  intros [Ht1 Hn1 Hf1 Hg1 Hfr1 Hnd1 Hnew1 Hid1] [Ht2 Hn2 Hf2 Hg2 Hfr2 Hnd2 Hnew2 Hid2] Hdis Hw1 Hw2.
  split.
  - by rewrite Ht2 Ht1 app_assoc.
  - rewrite length_app. lia.
  - congruence.
  - lia.
  - intros r Hr Hrw. rewrite Hfr2; [lia| |].
    + intros H. destruct (Hw2 r H); [done|lia].
    + apply Hfr1; [done|]. intros H. by apply Hrw, Hw1.
  - apply NoDup_app. split_and!; [done| |done]. intros r Hr1 Hr2.
    rewrite Forall_forall in Hnew1. destruct (Hnew1 r Hr1) as [_ Hlt].
    rewrite Forall_forall in Hnew2. destruct (Hnew2 r Hr2) as [[H|H] _]; [|lia].
    by apply (Hdis r).
  - apply Forall_app. split; eapply Forall_impl; [exact Hnew1| |exact Hnew2|].
    + intros r [[H|H] H']; split; [left; auto|lia|by right|lia].
    + intros r [[H|H] H']; split; [destruct (Hw2 r H); auto|lia|right; lia|lia].
  - rewrite fmap_app length_app Nat2Z.inj_add seqZ_app; [lia|lia|]. rewrite fmap_app. f_equal.
    + rewrite -Hid1. apply list_fmap_ext. intros i r Hir.
      apply list_elem_of_lookup_2 in Hir as Hr1. unfold get_id. f_equal.
      rewrite Forall_forall in Hnew1. destruct (Hnew1 r Hr1) as [_ Hlt].
      apply Hfr2; [done|]. by apply Hdis.
    + rewrite Hid2 Hn1. do 2 f_equal. lia.
Qed.

Lemma JoinStep_nil w st : JoinStep w st st [].
Proof.
  split; cbn; [by rewrite app_nil_r|lia|done|lia|done|by apply NoDup_nil|done|done].
Qed.

Lemma JoinStep_weaken w w' st st' new :
  JoinStep w st st' new -> (forall r, r ∈ w -> r ∈ w') -> JoinStep w' st st' new.
Proof.
  intros [] Hw. split; try done.
  - intros r Hr Hrw. apply js_frame0; [done|]. auto.
  - eapply Forall_impl; [exact js_new0|]. cbn. intros r [[|] ?]; auto.
Qed.

(** Counters of references that a step does not write. *)
Lemma JoinStep_counters w st st' new r : JoinStep w st st' new ->
  (r < length (txnStore (jheap st)))%nat -> r ∉ w ->
  get_counters (jheap st') r = get_counters (jheap st) r.
Proof. intros Hs Hr Hw. unfold get_counters. by rewrite (js_frame _ _ _ _ Hs). Qed.

(** *** The three primitive steps *)

Lemma leaf_step txn st : (txn < length (txnStore (jheap st)))%nat ->
  let st' := mkJoin (update_txn (set_txnId (IdInt (jnext st + 1))) txn (jheap st)) (jnext st + 1)
               (jtxns st ++ [txn]) in
  JoinStep [txn] st st' [txn] /\ get_counters (jheap st') txn = get_counters (jheap st) txn.
Proof.
  intros Hlt. cbn. destruct st as [[ts fs] n out]. cbn in *.
  destruct (lookup_lt_is_Some_2 _ _ Hlt) as [t Ht]. split.
  - split; cbn; rewrite ?length_alter; try done; try lia.
    + intros r Hr Hne. apply list_lookup_alter_ne. set_solver.
    + apply NoDup_singleton.
    + apply Forall_singleton. split; [left; set_solver|done].
    + unfold get_id. cbn. by rewrite list_lookup_alter_eq Ht.
  - unfold get_counters. cbn. by rewrite list_lookup_alter_eq Ht.
Qed.

Lemma join_frag_step txn f st : Joinable st -> ~ read_only txn -> read_only (txn_of f) ->
  (txn < length (txnStore (jheap st)))%nat ->
  JoinStep [txn] st (join_frag txn f st) [] /\
  get_counters (jheap (join_frag txn f st)) txn ≡ₚ get_counters (jheap st) txn ++ rc (txn_of f).
Proof.
  intros [Hf Hr] Hro Hfro Hlt. destruct (Hr _ Hfro) as [Hlt' <-].
  assert (frag_txn (jheap st) f = txn_of f) as Hft by (unfold frag_txn, txn_of; by rewrite Hf).
  unfold join_frag, join_ref. rewrite Hft. clear Hf Hr Hft.
  destruct st as [[ts fs] n out]. cbn in *.
  destruct (lookup_lt_is_Some_2 _ _ Hlt) as [t Ht]. destruct (lookup_lt_is_Some_2 _ _ Hlt') as [t' Ht'].
  rewrite Ht'. split.
  - split; cbn; rewrite ?length_alter ?app_nil_r; try done; try lia.
    + intros r Hrl Hne. apply list_lookup_alter_ne. set_solver.
    + by apply NoDup_nil.
  - unfold get_counters. cbn. rewrite list_lookup_alter_eq Ht Ht'. cbn. apply py_sort_perm.
Qed.

Lemma clone_step txn st c st' : (txn < length (txnStore (jheap st)))%nat ->
  clone_in txn st = (c, st') ->
  c = length (txnStore (jheap st)) /\ length (txnStore (jheap st')) = S c /\
  JoinStep [] st st' [] /\ get_counters (jheap st') c = get_counters (jheap st) txn.
Proof.
  intros Hlt. unfold clone_in, clone_txn. destruct st as [[ts fs] n out]. cbn in *.
  destruct (lookup_lt_is_Some_2 _ _ Hlt) as [t Ht]. rewrite Ht. cbn. intros [= <- <-]. cbn.
  rewrite length_app Nat.add_1_r. split_and!; [done|done| |].
  - split; cbn; rewrite ?app_nil_r; try done; try lia.
    + rewrite length_app. lia.
    + intros r Hr _. by apply lookup_app_l.
    + by apply NoDup_nil.
  - unfold get_counters. cbn. by rewrite list_lookup_middle // Ht.
Qed.

Lemma frag_next_of st f : Joinable st -> frag_next (jheap st) f = next_of f.
Proof. intros [Hf _]. unfold frag_next, next_of. by rewrite Hf. Qed.

Lemma linked_read_only next f : f ∈ linked lists next -> read_only (txn_of f).
Proof.
  unfold linked. destruct next as [link|]; cbn; [|set_solver].
  destruct (lists !! link) as [l|] eqn:E; cbn; [|set_solver].
  intros Hf. by exists link, l, f.
Qed.

(** *** The recursion *)

Lemma Forall2_transfer w st st' new' new (ps : list (list Counter)) (g : list Counter -> list Counter) :
  JoinStep w st st' new' ->
  Forall (fun r => r < length (txnStore (jheap st)))%nat new -> (forall r, r ∈ new -> r ∉ w) ->
  Forall2 (fun r p => get_counters (jheap st) r ≡ₚ g p) new ps ->
  Forall2 (fun r p => get_counters (jheap st') r ≡ₚ g p) new ps.
Proof.
  intros Hs Hlt Hw H. induction H as [|r p new ps Hrp H IH]; constructor.
  - apply Forall_cons in Hlt as [Hr _].
    rewrite (JoinStep_counters _ _ _ _ r Hs); [done|apply Hw; left|done].
  - apply Forall_cons in Hlt as [_ Hlt]. apply IH; [done|]. intros r' Hr'. apply Hw. by right.
Qed.

Definition joins_to (txn : nat) (st st' : JoinState) (new : list nat) (ps : list (list Counter)) : Prop :=
  Forall2 (fun r p => get_counters (jheap st') r ≡ₚ get_counters (jheap st) txn ++ p) new ps.

Definition rec_spec (fuel : nat) (rec : nat -> option string -> JoinState -> result JoinState) : Prop :=
  forall txn next st st', Joinable st -> ~ read_only txn ->
    (txn < length (txnStore (jheap st)))%nat -> rec txn next st = Ok st' ->
    exists new, JoinStep [txn] st st' new /\ joins_to txn st st' new (paths fuel next).

(** One fragment: join it, then follow its own link. *)
Lemma rec_frag fuel rec txn f st st' : rec_spec fuel rec -> Joinable st -> ~ read_only txn ->
  read_only (txn_of f) -> (txn < length (txnStore (jheap st)))%nat ->
  rec txn (frag_next (jheap st) f) (join_frag txn f st) = Ok st' ->
  exists new, JoinStep [txn] st st' new /\
    joins_to txn st st' new ((fun p => rc (txn_of f) ++ p) <$> paths fuel (next_of f)).
Proof.
  intros Hrec Hj Hro Hfro Hlt H. rewrite frag_next_of // in H.
  destruct (join_frag_step txn f st Hj Hro Hfro Hlt) as [Hs Hc].
  assert (Hw : forall r, r ∈ [txn] -> ~ read_only r) by (intros r ->%list_elem_of_singleton; done).
  pose proof (Joinable_step _ _ _ _ Hj Hs Hw) as Hj'.
  pose proof (js_grow _ _ _ _ Hs) as Hg.
  destruct (Hrec txn (next_of f) (join_frag txn f st) st' Hj' Hro) as (new & Hs' & Hps); [lia|done|].
  exists new. split.
  - apply (JoinStep_trans [txn] [txn] [txn] _ _ _ [] new Hs Hs'); set_solver.
  - unfold joins_to in *. apply Forall2_fmap_r. eapply Forall2_impl; [exact Hps|].
    intros r p Hr. cbn. by rewrite Hr Hc app_assoc.
Qed.

Lemma join_loop_spec fuel rec clone txn fs st st' : rec_spec fuel rec -> Joinable st ->
  ~ read_only txn -> ~ read_only clone ->
  (txn < length (txnStore (jheap st)))%nat -> (clone < length (txnStore (jheap st)))%nat ->
  get_counters (jheap st) clone = get_counters (jheap st) txn ->
  (txn = clone -> length fs <= 1)%nat -> (forall f, f ∈ fs -> read_only (txn_of f)) ->
  join_loop rec clone txn fs st = Ok st' ->
  exists new, JoinStep [txn; clone] st st' new /\
    joins_to txn st st' new (fs ≫= fun f => (fun p => rc (txn_of f) ++ p) <$> paths fuel (next_of f)).
Proof.
  intros Hrec. revert txn st. induction fs as [|f fs IH]; intros txn st Hj Ht Hcl Hlt Hltc Hbase Hne Hfs;
    cbn [join_loop].
  { intros [= <-]. exists []. split; [apply JoinStep_nil|constructor]. }
  intros H. apply bind_Ok in H as (st1 & H1 & H).
  destruct (rec_frag fuel rec txn f st st1) as (new1 & Hs1 & Hp1); try done.
  { apply Hfs. left. }
  assert (Hw1 : forall r, r ∈ [txn] -> ~ read_only r) by (intros r ->%list_elem_of_singleton; done).
  pose proof (Joinable_step _ _ _ _ Hj Hs1 Hw1) as Hj1. pose proof (js_grow _ _ _ _ Hs1) as Hg1.
  destruct fs as [|f2 fs].
  { cbn in H. injection H as <-. exists new1. split.
    - eapply JoinStep_weaken; [exact Hs1|]. set_solver.
    - cbn. by rewrite app_nil_r. }
  assert (Hneq : txn <> clone) by (intros E; specialize (Hne E); cbn in Hne; lia). clear Hne.
  assert (Hclone : get_counters (jheap st1) clone = get_counters (jheap st) txn).
  { rewrite (JoinStep_counters _ _ _ _ clone Hs1); [done|set_solver|done]. }
  assert (Hnc : forall r, r ∈ new1 -> r <> clone).
  { intros r Hr ->. pose proof (js_new _ _ _ _ Hs1) as Hn. rewrite Forall_forall in Hn.
    destruct (Hn _ Hr) as [[->%list_elem_of_singleton | ] _]; [done|lia]. }
  (* the state, transaction and written references of the next iteration *)
  cut (exists txn2 st2, JoinStep [] st1 st2 [] /\ Joinable st2 /\ ~ read_only txn2 /\
    (txn2 < length (txnStore (jheap st2)))%nat /\
    get_counters (jheap st2) txn2 = get_counters (jheap st) txn /\
    (txn2 = clone -> length (f2 :: fs) <= 1)%nat /\
    (txn2 = clone \/ length (txnStore (jheap st1)) <= txn2)%nat /\
    join_loop rec clone txn2 (f2 :: fs) st2 = Ok st').
  { intros (txn2 & st2 & Hs2 & Hj2 & Ht2 & Hlt2 & Hb2 & Hne2 & Hor & H2).
    pose proof (js_grow _ _ _ _ Hs2) as Hg2.
    assert (get_counters (jheap st2) clone = get_counters (jheap st) txn) as Hc2.
    { rewrite (JoinStep_counters _ _ _ _ clone Hs2); [lia|set_solver|done]. }
    destruct (IH txn2 st2 Hj2 Ht2 Hcl Hlt2) as (new2 & Hs3 & Hp3); [lia|congruence|done| |done|].
    { intros f' Hf'. apply Hfs. by right. }
    assert (Hs13 : JoinStep [txn2; clone] st1 st' new2).
    { apply (JoinStep_trans [] [txn2; clone] _ _ _ _ [] new2 Hs2 Hs3); set_solver. }
    assert (Hdis : forall r, r ∈ new1 -> r ∉ [txn2; clone]).
    { intros r Hr. pose proof (Hnc r Hr). pose proof (js_new _ _ _ _ Hs1) as Hn.
      rewrite Forall_forall in Hn. destruct (Hn _ Hr) as [_ Hrl].
      apply not_elem_of_cons. split; [destruct Hor; [congruence|lia]|]. set_solver. }
    exists (new1 ++ new2). split.
    - eapply (JoinStep_trans [txn] [txn2; clone]); [exact Hs1|exact Hs13|exact Hdis|set_solver|].
      intros r [-> | ->%list_elem_of_singleton]%elem_of_cons; [|left; set_solver].
      destruct Hor as [->|]; [left; set_solver|right; lia].
    - unfold joins_to in *. cbn [mbind list_bind]. apply Forall2_app.
      + eapply Forall2_transfer; [exact Hs13| |exact Hdis|exact Hp1].
        eapply Forall_impl; [exact (js_new _ _ _ _ Hs1)|]. by intros r [_ ?].
      + eapply Forall2_impl; [exact Hp3|]. intros r p Hr. cbn. by rewrite Hr Hb2. }
  destruct (1 <? length (f2 :: fs))%nat eqn:Hlen.
  - destruct (clone_in clone st1) as [txn2 st2] eqn:Ecl.
    destruct (clone_step clone st1 txn2 st2) as (-> & Hl2 & Hs2 & Hc2); [lia|done|].
    exists (length (txnStore (jheap st1))), st2. split_and!; [done| |..].
    + eapply Joinable_step; [exact Hj1|exact Hs2|set_solver].
    + intros Hr. destruct Hj1 as [_ Hr1]. destruct (Hr1 _ Hr). lia.
    + lia.
    + congruence.
    + intros E. lia.
    + by right.
    + done.
  - exists clone, st1. split_and!; try done; [apply JoinStep_nil|lia| |by left].
    intros _. apply Nat.ltb_ge in Hlen. done.
Qed.

Lemma joinFragments_spec fuel : rec_spec fuel (joinFragments fuel lists).
Proof.
  induction fuel as [|fuel IH]; intros txn next st st' Hj Ht Hlt; [done|]. cbn [joinFragments paths].
  fold (linked lists next). pose proof (linked_read_only next) as Hro.
  destruct (linked lists next) as [|f [|f2 fs]].
  - intros [= <-]. destruct (leaf_step txn st Hlt) as [Hs Hc]. exists [txn]. split; [done|].
    constructor; [|constructor]. by rewrite app_nil_r Hc.
  - intros H. destruct (rec_frag fuel _ txn f st st' IH Hj Ht) as (new & Hs & Hp); [|done|done|].
    { apply Hro. left. }
    exists new. split; [done|]. cbn. by rewrite app_nil_r.
  - destruct (clone_in txn st) as [clone st1] eqn:Ecl. intros H.
    destruct (clone_step txn st clone st1 Hlt Ecl) as (Hcl & Hl1 & Hs1 & Hc1).
    assert (Hj1 : Joinable st1) by (eapply Joinable_step; [exact Hj|exact Hs1|set_solver]).
    assert (Hct : get_counters (jheap st1) txn = get_counters (jheap st) txn).
    { apply (JoinStep_counters _ _ _ _ txn Hs1); [done|set_solver]. }
    destruct (join_loop_spec fuel (joinFragments fuel lists) clone txn (f :: f2 :: fs) st1 st' IH Hj1 Ht)
      as (new & Hs & Hp); [|lia|lia|congruence|lia|done|done|].
    { intros Hr. destruct Hj as [_ Hr0]. destruct (Hr0 _ Hr). lia. }
    exists new. split.
    + eapply (JoinStep_trans [] [txn; clone] [txn] _ _ _ [] new Hs1 Hs); [set_solver..|].
      intros r [-> | ->%list_elem_of_singleton]%elem_of_cons; [left; set_solver|right; lia].
    + unfold joins_to in *. eapply Forall2_impl; [exact Hp|]. intros r p Hr. cbn. by rewrite Hr Hct.
Qed.

(** *** All the roots *)


Lemma join_roots_spec fuel fs st st' : Joinable st ->
  (forall f, f ∈ fs -> ~ read_only (txn_of f) /\ (txn_of f < length (txnStore (jheap st)))%nat) ->
  NoDup (txn_of <$> fs) ->
  mfor (fun st f => joinFragments fuel lists (frag_txn (jheap st) f) (frag_next (jheap st) f) st) st fs
    = Ok st' ->
  exists new, JoinStep (txn_of <$> fs) st st' new /\
    Forall2 (fun r p => get_counters (jheap st') r ≡ₚ p) new
      (fs ≫= fun f => (fun p => get_counters (jheap st) (txn_of f) ++ p) <$> paths fuel (next_of f)).
Proof.
  revert st. induction fs as [|f fs IH]; intros st Hj Hfs Hnd; cbn [mfor].
  { intros [= <-]. exists []. split; [apply JoinStep_nil|constructor]. }
  intros H. apply bind_Ok in H as (st1 & H1 & H). rewrite frag_next_of // in H1.
  assert (frag_txn (jheap st) f = txn_of f) as Hft by (unfold frag_txn, txn_of; by rewrite (jn_frags _ Hj)).
  rewrite Hft in H1. destruct (Hfs f) as [Hro Hlt]; [left|].
  destruct (joinFragments_spec fuel _ _ _ _ Hj Hro Hlt H1) as (new1 & Hs1 & Hp1).
  rewrite fmap_cons in Hnd. apply NoDup_cons in Hnd as [Hnin Hnd].
  assert (Hj1 : Joinable st1).
  { eapply Joinable_step; [exact Hj|exact Hs1|]. by intros r ->%list_elem_of_singleton. }
  pose proof (js_grow _ _ _ _ Hs1) as Hg1.
  destruct (IH st1 Hj1) as (new2 & Hs2 & Hp2); [|done|done|].
  { intros f' Hf'. destruct (Hfs f') as [? ?]; [by right|]. split; [done|lia]. }
  assert (Hdis : forall r, r ∈ new1 -> r ∉ txn_of <$> fs).
  { intros r Hr Hin. pose proof (js_new _ _ _ _ Hs1) as Hn. rewrite Forall_forall in Hn.
    destruct (Hn r Hr) as [[->%list_elem_of_singleton | Hge] _]; [done|].
    apply list_elem_of_fmap in Hin as (f' & -> & Hf'). destruct (Hfs f') as [_ ?]; [by right|lia]. }
  exists (new1 ++ new2). split.
  - rewrite fmap_cons. apply (JoinStep_trans [txn_of f] (txn_of <$> fs) _ _ st1); [done|done|done|set_solver..].
  - cbn [mbind list_bind]. apply Forall2_app.
    + apply Forall2_fmap_r. eapply Forall2_transfer; [exact Hs2| |exact Hdis|exact Hp1].
      eapply Forall_impl; [exact (js_new _ _ _ _ Hs1)|]. by intros r [_ ?].
    + rewrite (bind_ext_in _ (fun f => (fun p => get_counters (jheap st1) (txn_of f) ++ p) <$>
        paths fuel (next_of f))); [|done].
      intros f' Hf'. rewrite (JoinStep_counters _ _ _ _ (txn_of f') Hs1); [by apply Hfs; right| |done].
      intros E%list_elem_of_singleton. apply Hnin. rewrite -E. by apply list_elem_of_fmap_2.
Qed.
End Paths.

(** ** Termination *)

Section Termination.
Context (lists : gmap string (list nat)) (frags : list TxnFragment).

(** Links are acyclic: a rank decreases along every fragment that links onwards. *)
Definition acyclic (rank : string -> nat) : Prop :=
  forall link l f link', lists !! link = Some l -> f ∈ l -> next_of frags f = Some link' ->
    linked lists (Some link') <> [] -> (rank link' < rank link)%nat.

(** Recursion depth that is enough for a link. *)
Definition depth (rank : string -> nat) (next : option string) : nat :=
  match next with
  | Some link => match linked lists next with [] => 1 | _ => rank link + 2 end
  | None => 1
  end.

Lemma join_frag_frags txn f st : fragStore (jheap (join_frag txn f st)) = fragStore (jheap st).
Proof. unfold join_frag, join_ref. cbn. by destruct (txnStore _ !! _). Qed.

Lemma clone_in_frags txn st : fragStore (jheap (clone_in txn st).2) = fragStore (jheap st).
Proof. unfold clone_in, clone_txn. by destruct (txnStore _ !! _). Qed.

Definition rec_total (fuel : nat) (rank : string -> nat)
    (rec : nat -> option string -> JoinState -> result JoinState) : Prop :=
  forall txn next st, fragStore (jheap st) = frags -> (depth rank next <= fuel)%nat ->
    exists st', rec txn next st = Ok st' /\ fragStore (jheap st') = frags.

Lemma join_loop_total fuel rank rec clone txn fs st : rec_total fuel rank rec ->
  fragStore (jheap st) = frags -> (forall f, f ∈ fs -> depth rank (next_of frags f) <= fuel)%nat ->
  exists st', join_loop rec clone txn fs st = Ok st' /\ fragStore (jheap st') = frags.
Proof.
  intros Hrec. revert txn st. induction fs as [|f fs IH]; intros txn st Hf Hd; cbn [join_loop]; [by exists st|].
  assert (frag_next (jheap st) f = next_of frags f) as -> by (unfold frag_next, next_of; by rewrite Hf).
  destruct (Hrec txn (next_of frags f) (join_frag txn f st)) as (st1 & -> & Hf1);
    [by rewrite join_frag_frags|apply Hd; left|]. cbn [mbind result_bind].
  assert (Hd' : (forall f', f' ∈ fs -> depth rank (next_of frags f') <= fuel)%nat)
    by (intros; apply Hd; by right).
  destruct (1 <? length fs)%nat; [|by apply IH].
  destruct (clone_in clone st1) as [txn2 st2] eqn:E. apply IH; [|done].
  by rewrite -Hf1 -(clone_in_frags clone st1) E.
Qed.

Lemma joinFragments_total rank fuel : acyclic rank -> rec_total fuel rank (joinFragments fuel lists).
Proof.
  intros Hac. induction fuel as [|fuel IH]; intros txn next st Hf Hd.
  { exfalso. unfold depth in Hd. destruct next; [|lia]. destruct (linked _ _); lia. }
  cbn [joinFragments]. fold (linked lists next).
  assert (Hdn : forall f, f ∈ linked lists next -> (depth rank (next_of frags f) <= fuel)%nat).
  { intros f Hin. destruct next as [link|]; [|by apply elem_of_nil in Hin].
    assert (lists !! link = Some (linked lists (Some link))) as Hl.
    { unfold linked in Hin |- *. cbn in *. by destruct (lists !! link); [|apply elem_of_nil in Hin]. }
    unfold depth in Hd. destruct (linked lists (Some link)) as [|f0 l] eqn:El;
      [by apply elem_of_nil in Hin|].
    unfold depth. destruct (next_of frags f) as [link'|] eqn:Hn; [|lia].
    destruct (linked lists (Some link')) eqn:El'; [lia|].
    assert (rank link' < rank link)%nat; [|lia]. eapply Hac; [exact Hl|exact Hin|exact Hn|by rewrite El']. }
  destruct (linked lists next) as [|f [|f2 fs]].
  - eexists. split; [done|]. done.
  - assert (frag_next (jheap st) f = next_of frags f) as -> by (unfold frag_next, next_of; by rewrite Hf).
    apply IH; [by rewrite join_frag_frags|apply Hdn; left].
  - destruct (clone_in txn st) as [clone st1] eqn:E.
    apply (join_loop_total fuel rank); [done| |done]. by rewrite -Hf -(clone_in_frags txn st) E.
Qed.
End Termination.

(** ** Properties *)

Section TwoFragments.
Context {A : Type} (g : A -> A) (l : list A) (x y : A).

Lemma alter_middle : alter g (length l) (l ++ [x; y]) = l ++ [g x; y].
Proof. induction l; cbn; congruence. Qed.
Lemma alter_second : alter g (S (length l)) (l ++ [x; y]) = l ++ [x; g y].
Proof. induction l; cbn; congruence. Qed.
Lemma lookup_first : (l ++ [x; y]) !! length l = Some x.
Proof. by apply list_lookup_middle. Qed.
Lemma lookup_second : (l ++ [x; y]) !! S (length l) = Some y.
Proof. induction l; done. Qed.
End TwoFragments.

(** C10 (join, termination): on acyclic links, a recursion limit above the longest chain of
    links lets the join of all fragments return; RecursionError is the only way it can
    fail. *)
Theorem join_all_terminates fuel fr n h rank :
  acyclic (resumeLists fr) (fragStore h) rank ->
  (forall f, f ∈ rootFragments fr ->
     depth (resumeLists fr) rank (next_of (fragStore h) f) <= fuel)%nat ->
  exists st, join_all fuel fr n h = Ok st.
Proof.
  intros Hac Hd. unfold join_all.
  assert (Hs : fragStore (jheap (mkJoin h n [])) = fragStore h) by done.
  revert Hs. generalize (mkJoin h n []) as st0. induction (rootFragments fr) as [|f fs IH]; intros st0 Hs;
    cbn [mfor]; [by eexists|].
  assert (frag_next (jheap st0) f = next_of (fragStore h) f) as ->
    by (unfold frag_next, next_of; by rewrite Hs).
  destruct (joinFragments_total (resumeLists fr) (fragStore h) rank fuel Hac
    (frag_txn (jheap st0) f) (next_of (fragStore h) f) st0 Hs) as (st1 & -> & Hs1).
  { apply Hd. left. }
  cbn. apply IH; [|done]. intros f' Hf'. apply Hd. by right.
Qed.

(** C3 (join, paths): joining makes exactly one transaction for every path from a root
    fragment through the fragments resuming it; each holds the counters of its own path
    and nothing else, the transactions are distinct objects, and they get consecutive
    fresh ids. The transactions of root fragments have to be distinct objects. *)
Theorem join_all_paths fuel fr n h st :
  NoDup (txn_of (fragStore h) <$> rootFragments fr) ->
  (forall f, f ∈ rootFragments fr ->
     ~ read_only (resumeLists fr) (fragStore h) (txn_of (fragStore h) f) /\
     (txn_of (fragStore h) f < length (txnStore h))%nat) ->
  (forall r, read_only (resumeLists fr) (fragStore h) r -> (r < length (txnStore h))%nat) ->
  join_all fuel fr n h = Ok st ->
  NoDup (jtxns st) /\
  (get_id (jheap st) <$> jtxns st) =
    ((fun i => Some (IdInt i)) <$> seqZ (n + 1) (Z.of_nat (length (jtxns st)))) /\
  Forall2 (fun r p => get_counters (jheap st) r ≡ₚ p) (jtxns st)
    (rootFragments fr ≫= fun f =>
       (fun p => get_counters h (txn_of (fragStore h) f) ++ p) <$>
         paths (resumeLists fr) (fragStore h) (get_counters h) fuel (next_of (fragStore h) f)).
Proof.
  intros Hnd Hroots Hro H.
  destruct (join_roots_spec (resumeLists fr) (fragStore h) (get_counters h) fuel (rootFragments fr)
    (mkJoin h n []) st) as (new & Hs & Hp); [split; [done|by auto]|done|done|exact H|].
  pose proof (js_txns _ _ _ _ Hs) as Ht. cbn in Ht. subst new.
  split_and!; [exact (js_nodup _ _ _ _ Hs)|exact (js_ids _ _ _ _ Hs)|exact Hp].
Qed.

(** A suspended fragment and the fragment that resumes it are linked whichever
    of the two is loaded first. *)
Theorem link_either_order link t u h fr :
  resumeLists fr !! link = None -> suspendFrags fr !! link = None ->
  let suspend_first := (addResumeFragment link u (addSuspendFragment link t None (h, fr))).2 in
  let resume_first := addSuspendFragment link t None (addResumeFragment link u (h, fr)).2 in
  forall st, st = suspend_first \/ st = resume_first ->
  exists fs fu, suspendFrags st.2 !! link = Some fs /\ resumeLists st.2 !! link = Some [fu] /\
    frag_txn st.1 fs = t /\ frag_next st.1 fs = Some link /\ frag_txn st.1 fu = u.
Proof.
  intros Hr Hs. destruct h as [ts fs]. cbn zeta. unfold addSuspendFragment, addResumeFragment, resume_list.
  cbn. rewrite !Hr. cbn. rewrite !lookup_insert_eq ?Hs. cbn.
  unfold frag_txn, frag_next. intros st [-> | ->]; cbn; rewrite ?lookup_insert_eq.
  all: eexists _, _; split_and!; [done|done|..]; rewrite -?app_assoc ?length_app ?Nat.add_1_r /=.
  all: rewrite ?alter_middle ?alter_second ?lookup_first ?lookup_second; done.
Qed.

(** ** A transaction suspended once and resumed on two threads *)

Definition ex_link : string := "10a0".
Definition ex_fragments_session : list (string * string * list Counter) :=
  [ ("1", "a0", [ex_counter exB "" 2; ex_counter exS "" 16]);
    ("2", "b0", [ex_counter exR ex_link 20; ex_counter exE "" 21]);
    ("3", "c0", [ex_counter exR ex_link 30; ex_counter exM "" 31; ex_counter exE "" 32]) ].
Definition ex_suspended : Loader :=
  match load_threads ex_probes BoundedTxnLoader_init ex_fragments_session with
  | Ok l => l | Raise _ => BoundedTxnLoader_init end.
Definition ex_joined : JoinState :=
  match join_all 5 (fragments ex_suspended) 0 (heap ex_suspended) with
  | Ok st => st | Raise _ => mkJoin (heap ex_suspended) 0 [] end.

Lemma ex_lists : resumeLists (fragments ex_suspended) = {[ ex_link := [1%nat; 2%nat] ]}.
Proof. vm_compute. reflexivity. Qed.

Lemma ex_lists_elem link l : resumeLists (fragments ex_suspended) !! link = Some l ->
  link = ex_link /\ l = [1%nat; 2%nat].
Proof. rewrite ex_lists. by intros [<- <-]%lookup_singleton_Some. Qed.

Lemma ex_joined_Ok : join_all 5 (fragments ex_suspended) 0 (heap ex_suspended) = Ok ex_joined.
Proof. vm_compute. reflexivity. Qed.

Lemma ex_read_only r : read_only (resumeLists (fragments ex_suspended)) (fragStore (heap ex_suspended)) r ->
  r = 1%nat \/ r = 2%nat.
Proof.
  intros (link & l & f & Hl & Hf & ->). apply ex_lists_elem in Hl as [-> ->].
  apply elem_of_cons in Hf as [-> | Hf]; [left; vm_compute; reflexivity|].
  apply list_elem_of_singleton in Hf as ->. right; vm_compute; reflexivity.
Qed.

Lemma ex_acyclic : acyclic (resumeLists (fragments ex_suspended)) (fragStore (heap ex_suspended)) (fun _ => 0%nat).
Proof.
  intros link l f link' Hl Hf Hn. apply ex_lists_elem in Hl as [-> ->].
  apply elem_of_cons in Hf as [-> | Hf]; [|apply list_elem_of_singleton in Hf as ->];
    vm_compute in Hn; discriminate.
Qed.

Lemma join_all_terminates_witness :
  exists st, join_all 5 (fragments ex_suspended) 0 (heap ex_suspended) = Ok st.
Proof.
  apply (join_all_terminates 5 (fragments ex_suspended) 0 (heap ex_suspended) (fun _ => 0%nat) ex_acyclic).
  intros f Hf. change (rootFragments (fragments ex_suspended)) with [0%nat] in Hf.
  apply list_elem_of_singleton in Hf. subst f. vm_compute. lia.
Defined.

(** Both resumptions get a copy of the suspended counters. *)
Lemma join_all_paths_witness :
  NoDup (jtxns ex_joined) /\
  ((fun r => tsc <$> get_counters (jheap ex_joined) r) <$> jtxns ex_joined) =
    [[2; 16; 20; 21]; [2; 16; 30; 31; 32]].
Proof.
  split; [|vm_compute; reflexivity].
  refine (proj1 (join_all_paths 5 (fragments ex_suspended) 0 (heap ex_suspended) ex_joined _ _ _ ex_joined_Ok)).
  - change (NoDup [0%nat]). apply NoDup_singleton.
  - intros f Hf. change (rootFragments (fragments ex_suspended)) with [0%nat] in Hf.
    apply list_elem_of_singleton in Hf. subst f. split; [|vm_compute; lia].
    intros Hr. apply ex_read_only in Hr. vm_compute in Hr. destruct Hr; discriminate.
  - intros r Hr. apply ex_read_only in Hr. destruct Hr as [-> | ->]; vm_compute; lia.
Defined.

Lemma link_either_order_witness :
  let fr := TxnFragments_init in
  resumeLists fr !! ex_link = None /\ suspendFrags fr !! ex_link = None /\
  exists fs, suspendFrags (addSuspendFragment ex_link 0 None
    (addResumeFragment ex_link 1 (mkHeap [] [], fr)).2).2 !! ex_link = Some fs.
Proof.
  split; [reflexivity|split; [reflexivity|]].
  destruct (link_either_order ex_link 0 1 (mkHeap [] []) TxnFragments_init eq_refl eq_refl
    (addSuspendFragment ex_link 0 None (addResumeFragment ex_link 1 (mkHeap [] [], TxnFragments_init)).2)
    (or_intror eq_refl)) as (fs & fu & H & _).
  exists fs. exact H.
Defined.

(** ** A transaction that is suspended twice without being resumed between

    Both suspensions add a root fragment for the same transaction object, so the
    hypothesis of [join_all_paths] that roots are distinct objects fails: when both links
    are resumed, the second join mutates the transaction that the first one produced. *)

Definition ex_twice_session : list (string * string * list Counter) :=
  [ ("1", "a0", [ex_counter exB "" 2; ex_counter exS "" 16; ex_counter exS "" 17]);
    ("2", "b0", [ex_counter exR "10a0" 20; ex_counter exE "" 21]);
    ("3", "c0", [ex_counter exR "11a0" 30; ex_counter exE "" 32]) ].

(** A transaction that suspends twice and is resumed from both
    links is joined into one object that appears twice in the joined list, under the last
    id, with the counters of both resumptions mixed; collecting it joins the object with
    itself, which duplicates every counter. *)
Theorem double_suspend_aliases :
  exists l st l', load_threads ex_probes BoundedTxnLoader_init ex_twice_session = Ok l /\
    join_all 5 (fragments l) (nextTxnId l) (heap l) = Ok st /\
    jtxns st = [0%nat; 0%nat] /\
    tsc <$> get_counters (jheap st) 0 = [2; 16; 17; 20; 21; 30; 32] /\
    endCollection 5 l = Ok l' /\
    (fun p => tsc <$> counters p.2) <$> loaded_txns l' =
      [[2; 2; 16; 16; 17; 17; 20; 20; 21; 21; 30; 30; 32; 32]].
Proof. do 3 eexists. do 5 (split; [vm_compute; reflexivity|]). vm_compute. reflexivity. Qed.
