(* ===== verification/Bounded.v ===== *)
(** * Bounded transactions

    When no probe suspends or resumes (the common, single-threaded case of
    txn/loader.py), every transaction the loader completes is bounded as its class
    promises: it starts at a begin probe and ends at an end probe. *)

From S2P Require Import Prelude PyStr Probe Route Txn Loader.

Section Bounded.
Context (pm : ProbeMap Probe).

(** The probe of the profile that describes a counter. *)
Definition user_probe (c : Counter) : Probe := default (cprobe c) (pm_get pm (cprobe c) (cprobe c)).
Definition begins (c : Counter) : Prop := canBeginTxn (user_probe c) = true.
Definition ends (c : Counter) : Prop := canEndTxn (user_probe c) = true.
Definition never_suspends (c : Counter) : Prop :=
  canSuspendTxn (user_probe c) = false /\ canResumeTxn (user_probe c) = false.

Definition bounded (t : Transaction) : Prop :=
  exists b mid e, counters t = b :: mid ++ [e] /\ begins b /\ ends e.

Definition opened (t : Transaction) : Prop :=
  exists b rest, counters t = b :: rest /\ begins b /\
    (hasEndProbe t = true -> exists mid e, rest = mid ++ [e] /\ ends e).

Record BInv (l : Loader) : Prop := {
  b_inv : Inv l;
  b_waiting : waiting l = false;
  b_done : forall r, r ∈ (txns l).*2 -> exists t, get_txn l r = Some t /\ bounded t;
  b_cur : forall r, currentTxn l = Some r -> exists t, get_txn l r = Some t /\ opened t
}.

Lemma BInv_init : BInv BoundedTxnLoader_init.
Proof. split; [apply Inv_init|done|by intros r ?%elem_of_nil|done]. Qed.

Lemma opened_bounded t : opened t -> hasEndProbe t = true -> bounded t.
Proof.
  intros (b & rest & Hc & Hb & He) Hh. destruct (He Hh) as (mid & e & -> & ?).
  by exists b, mid, e.
Qed.

Lemma opened_add_mid c t : hasEndProbe t = false -> opened t -> opened (addCounter c false t).
Proof.
  intros Hh (b & rest & Hc & Hb & He). exists b, (rest ++ [c]). cbn. rewrite Hc Hh.
  split_and!; [done|done|done].
Qed.

Lemma opened_add_end c t : ends c -> opened t -> opened (addCounter c true t).
Proof.
  intros Hc' (b & rest & Hc & Hb & He). exists b, (rest ++ [c]). cbn. rewrite Hc.
  split_and!; [done|done|]. intros _. by exists rest, c.
Qed.

Lemma cur_not_done l r : Inv l -> currentTxn l = Some r -> r ∉ (txns l).*2.
Proof.
  intros Hi Hc Hin. pose proof (inv_nodup l Hi) as H. unfold roots in H. rewrite Hc in H.
  apply NoDup_cons in H as [H _]. apply H, elem_of_app. by left.
Qed.

(** Changing the open transaction only. *)
Lemma BInv_update_cur l l' r (t' : Transaction) : BInv l -> Inv l' ->
  currentTxn l = Some r -> currentTxn l' = Some r -> txns l' = txns l -> waiting l' = waiting l ->
  (forall r', r' <> r -> get_txn l' r' = get_txn l r') -> get_txn l' r = Some t' -> opened t' ->
  BInv l'.
Proof.
  intros [Hi Hw Hd Hc] Hi' Hcur Hcur' Ht Hw' Hother Hr Ho. split; [done|congruence| |].
  - rewrite Ht. intros r' Hr'. rewrite Hother; [|by apply Hd].
    intros ->. by apply (cur_not_done l r Hi Hcur).
  - intros r' E. rewrite Hcur' in E. injection E as <-. eauto.
Qed.

Lemma get_add_to l r c e r' :
  get_txn (add_to r c e l) r' =
  if decide (r = r') then addCounter c e <$> get_txn l r' else get_txn l r'.
Proof.
  destruct l as [[ts fs] ? ? ? ? ? ? ? ? ? ? ? ? ?]. unfold get_txn. cbn.
  case_decide as H; [subst; apply list_lookup_alter_eq|by apply list_lookup_alter_ne].
Qed.

Lemma add_to_same l r c e : txns (add_to r c e l) = txns l /\ waiting (add_to r c e l) = waiting l /\
  currentTxn (add_to r c e l) = currentTxn l.
Proof. by destruct l. Qed.

Lemma BInv_add_mid l r c : BInv l -> currentTxn l = Some r -> has_end l r = false ->
  BInv (add_to r c false l).
Proof.
  intros Hb Hc Hh. destruct (b_cur l Hb r Hc) as (t & Ht & Ho). pose proof (b_inv l Hb) as Hi.
  destruct (add_to_same l r c false) as (H1 & H2 & H3).
  assert (Hi' : Inv (add_to r c false l)) by (apply Inv_add_to; [done|by apply cur_lt]).
  assert (Hop : opened (addCounter c false t)).
  { apply opened_add_mid; [|done]. unfold has_end in Hh. by rewrite Ht in Hh. }
  refine (BInv_update_cur l _ r (addCounter c false t) Hb Hi' Hc _ H1 H2 _ _ Hop).
  - congruence.
  - intros r' Hne. rewrite get_add_to decide_False //. congruence.
  - by rewrite get_add_to decide_True // Ht.
Qed.

(** Adopting ephemeral counters and closing with an end probe. *)
Lemma get_add_all cs l r r' : get_txn (add_all r cs l) r' =
  if decide (r = r') then (fun t => fold_left (fun t c => addCounter c false t) cs t) <$> get_txn l r'
  else get_txn l r'.
Proof.
  revert l. induction cs as [|c cs IH]; intros l.
  - cbn. case_decide; [by destruct (get_txn l r')|done].
  - change (add_all r (c :: cs) l) with (add_all r cs (add_to r c false l)).
    rewrite IH get_add_to. case_decide; [|done]. by destruct (get_txn l r').
Qed.

Lemma add_all_same cs l r : txns (add_all r cs l) = txns l /\
  waiting (add_all r cs l) = waiting l /\ currentTxn (add_all r cs l) = currentTxn l.
Proof.
  revert l. induction cs as [|c cs IH]; intros l; [done|].
  change (add_all r (c :: cs) l) with (add_all r cs (add_to r c false l)).
  destruct (IH (add_to r c false l)) as (-> & -> & ->). apply add_to_same.
Qed.

Lemma fold_add_counters cs t :
  counters (fold_left (fun t c => addCounter c false t) cs t) = counters t ++ cs.
Proof.
  revert t. induction cs as [|c cs IH]; intros t; cbn; [by rewrite app_nil_r|].
  rewrite IH. cbn. by rewrite -app_assoc.
Qed.

Lemma adopt_same r l : txns (adopt_ephemeral r l) = txns l /\
  waiting (adopt_ephemeral r l) = waiting l /\ currentTxn (adopt_ephemeral r l) = currentTxn l /\
  forall r', get_txn (adopt_ephemeral r l) r' = if decide (r = r')
    then (fun t => fold_left (fun t c => addCounter c false t) (ephemeralCounters l) t) <$> get_txn l r'
    else get_txn l r'.
Proof.
  rewrite adopt_ephemeral_eq. pose proof (get_add_all (ephemeralCounters l) l r) as Hg.
  destruct (add_all_same (ephemeralCounters l) l r) as (<- & <- & <-).
  split_and!; [by destruct (add_all r _ l)..|]. intros r'. rewrite -Hg. by destruct (add_all r _ l).
Qed.

Lemma BInv_end l r c : BInv l -> currentTxn l = Some r -> ends c ->
  BInv (add_to r c true (adopt_ephemeral r l)).
Proof.
  intros Hb Hc He. destruct (b_cur l Hb r Hc) as (t & Ht & Ho). pose proof (b_inv l Hb) as Hi.
  destruct (Inv_adopt r l Hi (cur_lt l r Hi Hc)) as (Hi1 & _ & Hc1 & Hl1).
  set (t1 := fold_left (fun t c => addCounter c false t) (ephemeralCounters l) t).
  assert (Hopen : opened (addCounter c true t1)).
  { destruct Ho as (b & rest & Hcs & Hb' & _). exists b, (rest ++ ephemeralCounters l ++ [c]). cbn.
    unfold t1. rewrite fold_add_counters Hcs. split_and!; [by rewrite -app_assoc|done|].
    intros _. exists (rest ++ ephemeralCounters l), c. by rewrite -app_assoc. }
  assert (Hi2 : Inv (add_to r c true (adopt_ephemeral r l))).
  { apply Inv_add_to; [done|]. rewrite Hl1. by apply cur_lt. }
  destruct (add_to_same (adopt_ephemeral r l) r c true) as (H1 & H2 & H3).
  destruct (adopt_same r l) as (G1 & G2 & G3 & G4).
  refine (BInv_update_cur l _ r (addCounter c true t1) Hb Hi2 Hc _ _ _ _ _ Hopen).
  - congruence.
  - congruence.
  - congruence.
  - intros r' Hne. rewrite get_add_to decide_False; [congruence|].
    rewrite G4 decide_False //. congruence.
  - by rewrite get_add_to decide_True // G4 decide_True // Ht.
Qed.

Lemma get_txn_lt l r t : get_txn l r = Some t -> (r < length (txnStore (heap l)))%nat.
Proof. apply lookup_lt_Some. Qed.

(** Changes that touch neither the dict nor the transactions it holds. *)
Lemma BInv_same l l' : BInv l -> Inv l' -> waiting l' = false -> txns l' = txns l ->
  currentTxn l' = currentTxn l \/ currentTxn l' = None ->
  (forall r, (r < length (txnStore (heap l)))%nat -> get_txn l' r = get_txn l r) -> BInv l'.
Proof.
  intros [Hi Hw Hd Hc] Hi' Hw' Ht Hcu Hg. split; [done|done| |].
  - rewrite Ht. intros r Hr. destruct (Hd r Hr) as (t & Hgt & ?). exists t. rewrite Hg; [by apply (get_txn_lt _ _ t)|done].
  - intros r Hr. destruct Hcu as [Hcu|Hcu]; rewrite Hcu in Hr; [|done].
    destruct (Hc r Hr) as (t & Hgt & ?). exists t. rewrite Hg; [by apply (get_txn_lt _ _ t)|done].
Qed.

Lemma BInv_with_ephemeral l e : BInv l -> BInv (with_ephemeral l e).
Proof.
  intros Hb. apply (BInv_same l); [done|by apply Inv_with_ephemeral, b_inv| |by destruct l|left; by destruct l|by destruct l].
  pose proof (b_waiting l Hb). by destruct l.
Qed.

Lemma BInv_discard l : BInv l -> BInv (discard_ephemeral l).
Proof.
  intros Hb. destruct (Inv_discard l (b_inv l Hb)) as (Hi & _ & Hc). pose proof (b_waiting l Hb).
  unfold discard_ephemeral in *. destruct (ephemeralCounters l); [done|].
  apply (BInv_same l); [done|done|by destruct l|by destruct l|by left; destruct l|by destruct l].
Qed.

Lemma BInv_close l r : BInv l -> currentTxn l = Some r -> has_end l r = true ->
  BInv (with_current (appendTxn r l) None).
Proof.
  intros Hb Hc Hh. pose proof (b_inv l Hb) as Hi. pose proof (cur_lt l r Hi Hc) as Hr.
  destruct (Inv_close r l Hi Hc) as [Hi' _]. destruct (b_cur l Hb r Hc) as (t & Ht & Ho).
  pose proof (cur_not_done l r Hi Hc) as Hnd. pose proof (b_done l Hb) as Hd.
  pose proof (b_waiting l Hb) as Hw. unfold has_end in Hh. rewrite Ht in Hh.
  rewrite appendTxn_fresh // in Hi' |- *. clear Hb Hi.
  destruct l as [[ts fs] fr p tx cp n e c th tl i j rf s]. unfold get_txn in *. cbn in *.
  split; [done|done| |done]. unfold get_txn. cbn. intros r'. rewrite fmap_app elem_of_app. cbn.
  destruct (decide (r = r')) as [->|Hne].
  - intros _. rewrite list_lookup_alter_eq Ht. eexists. split; [done|]. by apply opened_bounded.
  - rewrite list_lookup_alter_ne //. intros [Hin| ->%list_elem_of_singleton]; [by apply Hd|done].
Qed.

(** A fresh transaction is open with a begin probe. *)
Lemma BInv_open l c r l' : BInv l -> currentTxn l = None -> begins c ->
  buildTxn c false l = (r, l') -> BInv (with_current l' (Some r)).
Proof.
  intros Hb Hc Hbeg Hbuild. pose proof (b_inv l Hb) as Hi.
  destruct (Inv_open _ _ _ _ _ Hi Hc Hbuild) as [Hi' _]. pose proof (b_done l Hb) as Hd.
  destruct l as [[ts fs] fr p tx cp n e cu th tl i j rf s]. cbn in *. injection Hbuild as <- <-.
  unfold get_txn in *. cbn in *. split; [done|done|..]; unfold get_txn; cbn.
  - intros r Hr. destruct (Hd r Hr) as (t & Ht & ?). exists t. split; [|done].
    by apply lookup_app_l_Some.
  - intros r [= <-]. rewrite list_lookup_middle //. eexists. split; [done|].
    exists c, []. done.
Qed.

Lemma BInv_load_open u c r l : BInv l -> currentTxn l = Some r ->
  user_probe c = u -> never_suspends c -> BInv (load_open u c r l).
Proof.
  intros Hb Hc Hu [Hs Hr]. rewrite Hu in Hs, Hr. unfold load_open. rewrite Hs Hr !orb_false_r.
  destruct (canBeginTxn u) eqn:Hbeg.
  - destruct (has_end l r) eqn:Hh; [|by apply BInv_add_mid].
    destruct (buildTxn c false (appendTxn r (discard_ephemeral l))) as [r' l'] eqn:Hbuild.
    pose proof (BInv_discard l Hb) as Hb1. assert (Hc1 : currentTxn (discard_ephemeral l) = Some r).
    { unfold discard_ephemeral. by destruct l as [? ? ? ? ? ? [] ? ? ? ? ? ? ?]. }
    pose proof (BInv_close (discard_ephemeral l) r Hb1 Hc1) as Hb2.
    rewrite -(with_current_twice l' None). 
    apply (BInv_open (with_current (appendTxn r (discard_ephemeral l)) None) c r'); [apply Hb2|..].
    + revert Hh. unfold has_end, get_txn, discard_ephemeral.
      by destruct l as [? ? ? ? ? ? [] ? ? ? ? ? ? ?].
    + by destruct (appendTxn r (discard_ephemeral l)).
    + unfold begins. by rewrite Hu.
    + by apply buildTxn_current.
  - destruct (canEndTxn u) eqn:He; [apply BInv_end; [done|done|unfold ends; by rewrite Hu]|].
    destruct (has_end l r) eqn:Hh; [by apply BInv_with_ephemeral|by apply BInv_add_mid].
Qed.

(** The compromised transaction of a stray end probe is a fresh object. *)
Lemma load_idle_stray l c : forall r l', buildTxn c false l = (r, l') ->
  let l2 := add_all r (ephemeralCounters l') l' in
  txns l2 = txns l /\ waiting l2 = false /\ currentTxn l2 = currentTxn l /\
  forall r', (r' < length (txnStore (heap l)))%nat -> get_txn l2 r' = get_txn l r'.
Proof.
  intros r l' Hb l2. destruct (add_all_same (ephemeralCounters l') l' r) as (H1 & H2 & H3).
  unfold l2. rewrite H1 H2 H3. clear H1 H2 H3 l2.
  split_and!; [..|intros r' Hr'; rewrite get_add_all; revert Hb];
    destruct l as [[ts fs] fr p tx cp n e cu th tl i j rf s]; cbn in *; try by injection Hb as <- <-.
  intros [= <- <-]. rewrite decide_False; [lia|]. unfold get_txn. cbn. by apply lookup_app_l.
Qed.

Lemma BInv_load_idle u c l : BInv l -> currentTxn l = None ->
  user_probe c = u -> never_suspends c -> BInv (load_idle u c l).
Proof.
  intros Hb Hc Hu [Hs Hr]. rewrite Hu in Hs, Hr.
  destruct (Inv_load_idle u c l (b_inv l Hb) Hc) as [Hi _]. revert Hi. unfold load_idle.
  rewrite Hs Hr !orb_false_r. intros Hi.
  destruct (buildTxn c false l) as [r' l'] eqn:Hbuild.
  destruct (canBeginTxn u) eqn:Hbeg.
  - apply BInv_discard, (BInv_open l c); [done|done| |done]. unfold begins. by rewrite Hu.
  - destruct (canEndTxn u) eqn:He; [|by apply BInv_with_ephemeral].
    destruct (load_idle_stray l c r' l' Hbuild) as (H1 & H2 & H3 & H4).
    revert H1 H2 H3 H4 Hi. cbn zeta. generalize (add_all r' (ephemeralCounters l') l').
    intros l2 H1 H2 H3 H4 Hi. apply (BInv_same l); [done|done|by destruct l2|by destruct l2| |].
    + left. by destruct l2.
    + intros r0 Hr0. rewrite -H4 //. by destruct l2.
Qed.

Lemma pm_get_user c u : pm_get pm (cprobe c) (cprobe c) = Some u -> user_probe c = u.
Proof. unfold user_probe. by intros ->. Qed.

Lemma BInv_loadCounter l c l' : BInv l -> never_suspends c -> loadCounter pm l c = Ok l' -> BInv l'.
Proof.
  intros Hb Hn. unfold loadCounter. destruct (Inv_processed l (processedCounterCount l + 1) (b_inv l Hb))
    as (Hi1 & _ & Hc1).
  assert (Hb1 : BInv (with_processed l (processedCounterCount l + 1))).
  { apply (BInv_same l); [done|done| |by destruct l|left; by destruct l|by destruct l]. pose proof (b_waiting l Hb). by destruct l. }
  revert Hb1. generalize (with_processed l (processedCounterCount l + 1)). clear -Hn. intros l Hb.
  destruct (pm_get pm _ _) as [u|] eqn:Hu; [|done]. intros [= <-]. apply pm_get_user in Hu.
  destruct (currentTxn l) eqn:Hc; [by apply BInv_load_open|by apply BInv_load_idle].
Qed.

Lemma BInv_endLoad l : BInv l -> BInv (endLoad l).
Proof.
  intros Hb. destruct (Inv_endLoad l (b_inv l Hb)) as (Hi & _). revert Hi. unfold endLoad.
  destruct (currentTxn l) as [r|] eqn:Hc; [destruct (has_end l r) eqn:Hh|]; intros Hi.
  - by apply BInv_close.
  - apply (BInv_same l); [done|done|..]; pose proof (b_waiting l Hb); destruct l; cbn in *; auto.
  - by rewrite -Hc with_current_id.
Qed.

Lemma BInv_load_thread l s l' : BInv l -> Forall never_suspends s.2 ->
  load_thread pm l s = Ok l' -> BInv l'.
Proof.
  destruct s as [[tid tls] cs]. intros Hb Hn H. unfold load_thread in H.
  apply bind_Ok in H as (l1 & H1 & [= <-]). cbn in *. apply BInv_endLoad.
  assert (Hb0 : BInv (beginLoad tid tls l)).
  { apply (BInv_same l); [done|..]; destruct Hb as [[] ? ? ?]; destruct l; cbn in *; auto. done. }
  revert Hb0 H1. generalize (beginLoad tid tls l). clear -Hn. induction Hn as [|c cs Hc Hcs IH];
    intros l Hb; cbn; [by intros [= <-]|].
  intros H. apply bind_Ok in H as (l2 & H2 & H). eauto using BInv_loadCounter.
Qed.

(** C5 (bounded transactions): in sessions without suspending or resuming probes, every
    transaction of the loaded collection begins with a counter of a begin probe and ends
    with a counter of an end probe, whatever stray, missing or repeated probes the
    threads' samples contain. *)
Theorem load_threads_bounded ss l :
  Forall (fun s => Forall never_suspends s.2) ss ->
  load_threads pm BoundedTxnLoader_init ss = Ok l ->
  forall id t, (id, t) ∈ loaded_txns l ->
    exists b mid e, counters t = b :: mid ++ [e] /\
      canBeginTxn (user_probe b) = true /\ canEndTxn (user_probe e) = true.
Proof.
  intros Hn H. assert (Hb : BInv l).
  { revert H. generalize BInv_init. generalize BoundedTxnLoader_init as l0. unfold load_threads.
    induction Hn as [|s ss Hs Hss IH]; intros l0 Hb; cbn; [by intros [= <-]|].
    intros H. apply bind_Ok in H as (l2 & H2 & H). eauto using BInv_load_thread. }
  intros id t Hin. unfold loaded_txns in Hin. apply list_elem_of_omap in Hin as ([id' r] & Hr & Ht).
  cbn in Ht. apply fmap_Some in Ht as (t' & Ht' & [= -> <-]).
  destruct (b_done l Hb r) as (t2 & Ht2 & Hbd).
  { apply list_elem_of_fmap. by exists (id', r). }
  change (get_txn l r = Some t) in Ht'. rewrite Ht2 in Ht'. injection Ht' as <-. exact Hbd.
Qed.
End Bounded.

Lemma load_threads_bounded_witness :
  Forall (fun s => Forall (never_suspends ex_probes) s.2) ex_session /\
  length (loaded_txns ex_loaded) = 2%nat /\
  forall id t, (id, t) ∈ loaded_txns ex_loaded -> exists b mid e, counters t = b :: mid ++ [e].
Proof.
  assert (H : Forall (fun s => Forall (never_suspends ex_probes) s.2) ex_session).
  { repeat (constructor; [repeat (constructor; [by split|])|]); constructor. }
  split; [exact H|]. split; [reflexivity|]. intros id t Hin.
  destruct (load_threads_bounded ex_probes ex_session ex_loaded H ex_loaded_Ok id t Hin)
    as (b & mid & e & Hc & _).
  exists b, mid, e. exact Hc.
Defined.
