(* ===== verification/Numbered.v ===== *)
(** * Loaded transactions have numbers

    A transaction that is resumed starts with the text of its link as its id
    ([Loader.buildTxn]).  Whatever a loader is fed with, the transactions it hands out in the
    end have integers as ids, which is what the tables of a report format. *)

From S2P Require Import Prelude PyStr Probe Route Txn Loader Join.

Definition int_id (t : Transaction) : Prop := exists z, txnId t = IdInt z.
Definition numbered (h : Heap) (r : nat) : Prop := exists t, txnStore h !! r = Some t /\ int_id t.
Abbreviation size h := (length (txnStore h)).

(** What the loader keeps: its fragments and roots point to objects, and the transactions of
    its dict have numbers. *)
Record NumInv (h : Heap) (fr : TxnFragments) (rs : list nat) : Prop := {
  ni_frags : Forall (fun f => f_txn f < size h)%nat (fragStore h);
  ni_roots : Forall (fun f => f < length (fragStore h))%nat (rootFragments fr);
  ni_refs : Forall (numbered h) rs
}.

Lemma numbered_lt h r : numbered h r -> (r < size h)%nat.
Proof. intros (t & Ht & _). exact (lookup_lt_Some _ _ _ Ht). Qed.

(** ** Primitive steps *)

Lemma size_update g r h : size (update_txn g r h) = size h.
Proof. apply length_alter. Qed.

Lemma numbered_update g r h r' : (forall t, int_id t -> int_id (g t)) -> numbered h r' -> numbered (update_txn g r h) r'.
Proof.
  intros Hg (t & Ht & Hid). destruct (decide (r = r')) as [->|Hne].
  - exists (g t). split; [|by apply Hg]. cbn. by rewrite list_lookup_alter_eq Ht.
  - exists t. split; [|done]. cbn. by rewrite list_lookup_alter_ne.
Qed.

Lemma numbered_set z r h : (r < size h)%nat -> numbered (update_txn (set_txnId (IdInt z)) r h) r.
Proof.
  intros Hr. destruct (lookup_lt_is_Some_2 _ _ Hr) as [t Ht]. exists (set_txnId (IdInt z) t). split; [|by exists z].
  cbn. by rewrite list_lookup_alter_eq Ht.
Qed.

Lemma numbered_alloc t h r : numbered h r -> numbered (alloc_txn t h).2 r.
Proof. intros (t' & Ht & Hid). exists t'. split; [by apply lookup_app_l_Some|done]. Qed.

Lemma NumInv_update g r h fr rs : (forall t, int_id t -> int_id (g t)) -> NumInv h fr rs -> NumInv (update_txn g r h) fr rs.
Proof.
  intros Hg [H1 H2 H3]. split; [by rewrite size_update|done|]. eapply Forall_impl; [exact H3|].
  intros r' Hr'. by apply numbered_update.
Qed.

Lemma NumInv_alloc t h fr rs : NumInv h fr rs -> NumInv (alloc_txn t h).2 fr rs.
Proof.
  intros [H1 H2 H3]. split; [|done|].
  - eapply Forall_impl; [exact H1|]. cbn. intros f Hf. rewrite length_app. lia.
  - eapply Forall_impl; [exact H3|]. intros r. apply numbered_alloc.
Qed.

Lemma NumInv_refs h fr rs rs' : NumInv h fr rs -> Forall (numbered h) rs' -> NumInv h fr rs'.
Proof. by intros [H1 H2 _]. Qed.

Lemma NumInv_next link f h fr rs : NumInv h fr rs -> NumInv (set_next link f h) fr rs.
Proof.
  intros [H1 H2 H3]. split; [|by rewrite /= length_alter|done]. cbn [set_next fragStore].
  apply Forall_alter; [done|]. by intros x _ Hx.
Qed.

Lemma NumInv_frag f h fr rs : (f_txn f < size h)%nat -> NumInv h fr rs -> NumInv (alloc_frag f h).2 fr rs.
Proof.
  intros Hf [H1 H2 H3]. split; [|eapply Forall_impl; [exact H2|]; cbn; intros x Hx; rewrite length_app; lia|done].
  cbn. apply Forall_app. split; [done|]. by apply Forall_singleton.
Qed.

Lemma NumInv_fragments h fr fr' rs : rootFragments fr' = rootFragments fr -> NumInv h fr rs -> NumInv h fr' rs.
Proof. intros E [H1 H2 H3]. split; [done|by rewrite E|done]. Qed.

#[local] Arguments alloc_frag : simpl never.
#[local] Arguments addResumeFragment : simpl never.
#[local] Arguments addSuspendFragment : simpl never.

Lemma NumInv_resume link r h fr rs f st : (r < size h)%nat -> NumInv h fr rs -> addResumeFragment link r (h, fr) = (f, st) ->
  NumInv st.1 st.2 rs /\ size st.1 = size h.
Proof.
  intros Hr H. unfold addResumeFragment. pose proof (NumInv_frag (mkFragment r (Some link) None None) h fr rs Hr H) as H1.
  destruct (alloc_frag _ h) as [f' h'] eqn:E. cbn [snd] in H1.
  assert (Es : size h' = size h) by (unfold alloc_frag in E; by injection E as _ <-).
  destruct (resume_list link fr) as [fs|]; [|destruct (suspendFrags fr !! link) as [sf|]]; intros [= <- <-]; cbn [fst snd];
    (split; [|done]); try (by apply (NumInv_fragments _ fr)). by apply (NumInv_fragments _ fr); [|apply NumInv_next].
Qed.

Lemma NumInv_suspend link r fragment h fr rs : (r < size h)%nat -> NumInv h fr rs ->
  let st := addSuspendFragment link r fragment (h, fr) in NumInv st.1 st.2 rs /\ size st.1 = size h.
Proof.
  intros Hr H. unfold addSuspendFragment. destruct fragment as [f|].
  - destruct (resume_list link fr) as [fs|]; cbn [fst snd]; (split; [|done]); apply (NumInv_fragments _ fr); try done. by apply NumInv_next.
  - pose proof (NumInv_frag (mkFragment r None (Some link) None) h fr rs Hr H) as H1.
    destruct (alloc_frag _ h) as [f h'] eqn:E. unfold alloc_frag in E. injection E as <- <-. cbn [snd] in H1.
    assert (H2 : NumInv (alloc_frag (mkFragment r None (Some link) None) h).2
      (mkFragments (resumeLists fr) (<[link:=length (fragStore h)]> (suspendFrags fr)) (rootFragments fr ++ [length (fragStore h)])) rs).
    { destruct H1 as [A1 A2 A3]. split; [done| |done]. cbn [rootFragments]. apply Forall_app. split; [done|].
      apply Forall_singleton. unfold alloc_frag. cbn. rewrite length_app /=. lia. }
    destruct (resume_list link fr) as [fs|]; cbn [fst snd]; (split; [|done]); [by apply NumInv_next|exact H2].
Qed.

(** ** Loading *)

Definition num_loader (l : Loader) : Prop := NumInv (heap l) (fragments l) (txns l).*2.
Definition in_heap (l : Loader) (r : nat) : Prop := (r < size (heap l))%nat.

Lemma od_set_refs k r (d : list (TxnId * nat)) h : Forall (numbered h) d.*2 -> numbered h r -> Forall (numbered h) (od_set txnid_eqb k r d).*2.
Proof.
  intros Hd Hr. induction d as [|[k' r'] d IH]; cbn [od_set]; [by apply Forall_singleton|].
  apply Forall_cons in Hd as [Hr' Hd]. destruct (txnid_eqb k k'); cbn [fmap list_fmap snd]; apply Forall_cons; [done|].
  split; [done|]. by apply IH.
Qed.

(** [l'] has the objects of [l], at least, and keeps the invariant. *)
Definition keeps (l l' : Loader) : Prop := (size (heap l) <= size (heap l'))%nat /\ (num_loader l -> num_loader l').

Lemma keeps_refl l : keeps l l.
Proof. by split. Qed.
Lemma keeps_trans l1 l2 l3 : keeps l1 l2 -> keeps l2 l3 -> keeps l1 l3.
Proof. intros [H1 H2] [H3 H4]. split; [lia|auto]. Qed.

Lemma keeps_fields l l' : heap l' = heap l -> fragments l' = fragments l -> txns l' = txns l -> keeps l l'.
Proof. unfold keeps, num_loader. by intros -> -> ->. Qed.

Lemma keeps_abstract_append r l : numbered (heap l) r -> keeps l (abstract_appendTxn r l).
Proof.
  intros Hr. unfold abstract_appendTxn. destruct (od_get _ _ _) as [r'|].
  - unfold join_ref. destruct (_ !! r) as [t|]; [|by destruct l]. destruct l. split; cbn; [by rewrite length_alter|].
    apply NumInv_update. by intros x.
  - destruct l. cbn in *. split; [done|]. unfold num_loader. cbn. intros H.
    apply (NumInv_refs _ _ _ _ H). apply od_set_refs; [exact (ni_refs _ _ _ H)|done].
Qed.

Lemma keeps_append r l : in_heap l r -> keeps l (appendTxn r l).
Proof.
  intros Hr. unfold appendTxn. destruct (_ || _)%bool; [apply keeps_refl|].
  set (l1 := with_nextTxnId l (nextTxnId l + 1)).
  assert (E : heap l1 = heap l /\ fragments l1 = fragments l /\ txns l1 = txns l) by by destruct l. destruct E as (E1 & E2 & E3).
  apply (keeps_trans _ (with_heap l1 (update_txn (set_txnId (IdInt (nextTxnId l1))) r (heap l1)))).
  - split; [rewrite -E1; destruct l1; cbn; by rewrite length_alter|]. unfold num_loader. rewrite -E1 -E2 -E3. destruct l1. cbn.
    apply NumInv_update. by intros t _; eexists.
  - apply keeps_abstract_append. assert (E : forall h, heap (with_heap l1 h) = h) by by destruct l1. rewrite E.
    apply numbered_set. by rewrite E1.
Qed.

Lemma keeps_add_to r c e l : keeps l (add_to r c e l).
Proof. destruct l. split; cbn; [by rewrite length_alter|]. apply NumInv_update. by intros t. Qed.

Lemma keeps_add_all r cs l : keeps l (add_all r cs l).
Proof.
  revert l. induction cs as [|c cs IH]; intros l; [apply keeps_refl|]. exact (keeps_trans _ _ _ (keeps_add_to r c false l) (IH _)).
Qed.

Lemma keeps_adopt r l : keeps l (adopt_ephemeral r l).
Proof.
  unfold adopt_ephemeral. destruct (ephemeralCounters l) as [|c cs]; [apply keeps_refl|].
  apply (keeps_trans _ _ _ (keeps_add_all r (c :: cs) l)). apply keeps_fields; by destruct (add_all _ _ _).
Qed.

Lemma keeps_discard l : keeps l (discard_ephemeral l).
Proof. unfold discard_ephemeral. destruct (ephemeralCounters l); [apply keeps_refl|]. apply keeps_fields; by destruct l. Qed.

Lemma keeps_build c b l r l' : buildTxn c b l = (r, l') -> keeps l l' /\ in_heap l' r.
Proof.
  destruct l as [h fr p t cp n e cu th tl i j rf s]. unfold buildTxn, keeps, num_loader, in_heap. destruct b; cbn.
  - destruct (addResumeFragment _ _ _) as [f st] eqn:E. destruct (addResume_spec _ _ _ _ _ _ E) as (Hs & _ & _).
    intros [= <- <-]. cbn in Hs |- *. rewrite Hs length_app /=. split; [|lia]. split; [lia|]. intros H.
    pose proof (NumInv_alloc (Transaction_init c (IdStr (data c))) h fr _ H) as Ha.
    refine (proj1 (NumInv_resume (data c) (size h) _ fr _ f st _ Ha E)). cbn. rewrite length_app /=. lia.
  - intros [= <- <-]. cbn. rewrite length_app /=. split; [|lia]. split; [lia|].
    exact (NumInv_alloc (Transaction_init c (IdInt (j + 1))) h fr _).
Qed.

Lemma keeps_suspend r c l : in_heap l r -> keeps l (suspend r c l).
Proof.
  destruct l as [h fr p t cp n e cu th tl i j rf s]. unfold suspend, keeps, num_loader, in_heap. cbn. intros Hr.
  destruct (addSuspend_spec (link_id c tl) r rf h fr) as (Hs & _ & _).
  cbn in Hs. rewrite Hs. split; [done|]. intros H. exact (proj1 (NumInv_suspend (link_id c tl) r rf h fr t.*2 Hr H)).
Qed.

(** The open transaction is an object of the loader. *)
Definition loader_ok (l : Loader) : Prop := num_loader l /\ forall r, currentTxn l = Some r -> in_heap l r.

Lemma in_heap_keeps l l' r : keeps l l' -> in_heap l r -> in_heap l' r.
Proof. unfold in_heap. intros [H _]. lia. Qed.

Lemma keeps_current l o : keeps l (with_current l o).
Proof. apply keeps_fields; by destruct l. Qed.

Lemma current_with l o : currentTxn (with_current l o) = o.
Proof. by destruct l. Qed.

Lemma ok_opened c b l : num_loader l -> loader_ok (let '(r, l') := buildTxn c b l in with_current l' (Some r)).
Proof.
  intros H. destruct (buildTxn c b l) as [r l'] eqn:E. destruct (keeps_build c b l r l' E) as [H1 H2].
  pose proof (keeps_current l' (Some r)) as H3. split; [apply H3, H1, H|]. intros r' Hr'. rewrite current_with in Hr'. injection Hr' as <-.
  exact (in_heap_keeps _ _ _ H3 H2).
Qed.

Lemma keeps_ok l l' : loader_ok l -> keeps l l' -> currentTxn l' = currentTxn l -> loader_ok l'.
Proof. intros [H1 H2] Hk E. split; [by apply Hk|]. rewrite E. intros r Hr. exact (in_heap_keeps _ _ _ Hk (H2 r Hr)). Qed.

Lemma ok_closed l : num_loader l -> currentTxn l = None -> loader_ok l.
Proof. intros H E. split; [done|]. by rewrite E. Qed.

Lemma current_add_to r c e l : currentTxn (add_to r c e l) = currentTxn l.
Proof. by destruct l. Qed.
Lemma current_add_all r cs l : currentTxn (add_all r cs l) = currentTxn l.
Proof. revert l. induction cs as [|c cs IH]; intros l; [done|]. unfold add_all in IH |- *. cbn. by rewrite IH current_add_to. Qed.
Lemma current_adopt r l : currentTxn (adopt_ephemeral r l) = currentTxn l.
Proof.
  unfold adopt_ephemeral. destruct (ephemeralCounters l) as [|c cs]; [done|]. rewrite -(current_add_all r (c :: cs) l).
  by destruct (add_all _ _ _).
Qed.
Lemma current_discard l : currentTxn (discard_ephemeral l) = currentTxn l.
Proof. unfold discard_ephemeral. destruct (ephemeralCounters l); by destruct l. Qed.
Lemma current_suspend r c l : currentTxn (suspend r c l) = currentTxn l.
Proof. by destruct l. Qed.

Lemma ok_load_open u c r l : loader_ok l -> currentTxn l = Some r -> loader_ok (load_open u c r l).
Proof.
  intros Hl Hc. pose proof (proj2 Hl r Hc) as Hr. unfold load_open. destruct (_ || _)%bool.
  - destruct (_ || _)%bool; [|apply (keeps_ok l); [done|apply keeps_add_to|apply current_add_to]].
    pose proof (keeps_discard l) as H1. pose proof (keeps_append r _ (in_heap_keeps _ _ _ H1 Hr)) as H2.
    apply ok_opened, H2, H1, Hl.
  - destruct (_ || _)%bool.
    + pose proof (keeps_trans _ _ _ (keeps_adopt r l) (keeps_add_to r c true _)) as H1.
      assert (Hc1 : currentTxn (add_to r c true (adopt_ephemeral r l)) = currentTxn l) by by rewrite current_add_to current_adopt.
      destruct (canSuspendTxn u); [|by apply (keeps_ok l)].
      apply (keeps_ok l); [done| |by rewrite current_suspend]. apply (keeps_trans _ _ _ H1). apply keeps_suspend.
      exact (in_heap_keeps _ _ _ H1 Hr).
    + destruct (has_end l r); (apply (keeps_ok l); [done| |]).
      * apply keeps_fields; by destruct l.
      * by destruct l.
      * apply keeps_add_to.
      * apply current_add_to.
Qed.

Lemma ok_load_idle u c l : loader_ok l -> currentTxn l = None -> loader_ok (load_idle u c l).
Proof.
  intros Hl Hc. unfold load_idle. destruct (_ || _)%bool.
  - pose proof (ok_opened c (canResumeTxn u) l (proj1 Hl)) as H. destruct (buildTxn _ _ _) as [r l'].
    apply (keeps_ok _ _ H (keeps_discard _)). apply current_discard.
  - destruct (_ || _)%bool; [|apply (keeps_ok l); [done|apply keeps_fields|]; by destruct l].
    destruct (buildTxn c false l) as [r l'] eqn:E. destruct (keeps_build _ _ _ _ _ E) as [H1 _].
    destruct (buildTxn_spec _ _ _ _ _ E) as (_ & _ & _ & _ & Hcu & _).
    pose proof (keeps_add_all r (ephemeralCounters l') l') as H2. pose proof (current_add_all r (ephemeralCounters l') l') as H3.
    pose proof (keeps_trans _ _ _ H1 H2) as H4. rewrite Hcu in H3. destruct (add_all _ _ l').
    apply (keeps_ok l); [done| |done]. apply (keeps_trans _ _ _ H4). by apply keeps_fields.
Qed.

Lemma ok_loadCounter pm l c l' : loader_ok l -> loadCounter pm l c = Ok l' -> loader_ok l'.
Proof.
  intros Hl. unfold loadCounter. set (l1 := with_processed l _).
  assert (H1 : loader_ok l1) by (apply (keeps_ok l); [done|apply keeps_fields|]; by destruct l).
  destruct (pm_get _ _ _) as [u|]; [|done]. intros [= <-].
  destruct (currentTxn l1) eqn:E; [by apply ok_load_open|by apply ok_load_idle].
Qed.

Lemma ok_beginLoad tid tls l : loader_ok l -> loader_ok (beginLoad tid tls l).
Proof. intros Hl. apply (keeps_ok l); [done|apply keeps_fields|]; by destruct l. Qed.

Lemma ok_endLoad l : loader_ok l -> loader_ok (endLoad l).
Proof.
  intros Hl. unfold endLoad. destruct (currentTxn l) as [r|] eqn:E.
  - apply ok_closed; [|by rewrite current_with]. apply keeps_current. destruct (has_end l r).
    + apply keeps_append; [by apply Hl|by apply Hl].
    + pose proof (proj1 Hl) as H. apply (keeps_fields l); by destruct l.
  - apply ok_closed; [|by rewrite current_with]. apply keeps_current, Hl.
Qed.

(** ** Joining *)

Section Joining.
Context (lists : gmap string (list nat)) (fr : TxnFragments) (refs : list nat).

(** The joined transactions have numbers too. *)
Definition join_ok (st : JoinState) : Prop := NumInv (jheap st) fr (refs ++ jtxns st).

Definition join_grows (st st' : JoinState) : Prop :=
  (size (jheap st) <= size (jheap st'))%nat /\ (join_ok st -> join_ok st').

Lemma join_grows_trans a b c : join_grows a b -> join_grows b c -> join_grows a c.
Proof. intros [H1 H2] [H3 H4]. split; [lia|auto]. Qed.

Lemma join_frag_grows txn f st : join_grows st (join_frag txn f st).
Proof.
  unfold join_grows, join_ok, join_frag, join_ref. destruct (_ !! _) as [other|]; [|by destruct st]. cbn [jheap jtxns].
  rewrite size_update. split; [done|]. apply NumInv_update. by intros t.
Qed.

Lemma clone_grows txn st c st' : clone_in txn st = (c, st') -> (txn < size (jheap st))%nat ->
  join_grows st st' /\ (c < size (jheap st'))%nat.
Proof.
  unfold clone_in, clone_txn. intros H Hlt. destruct (lookup_lt_is_Some_2 _ _ Hlt) as [t Ht]. rewrite Ht in H. injection H as <- <-.
  unfold join_grows, join_ok. cbn. rewrite length_app /=. split; [split; [lia|]|lia]. exact (NumInv_alloc t (jheap st) fr _).
Qed.

Definition rec_grows (rec : nat -> option string -> JoinState -> result JoinState) : Prop :=
  forall txn next st st', (txn < size (jheap st))%nat -> rec txn next st = Ok st' -> join_grows st st'.

Lemma join_loop_grows rec clone fs txn st st' : rec_grows rec -> (txn < size (jheap st))%nat -> (clone < size (jheap st))%nat ->
  join_loop rec clone txn fs st = Ok st' -> join_grows st st'.
Proof.
  intros Hrec. revert txn st. induction fs as [|f fs IH]; intros txn st Ht Hc H; cbn [join_loop] in H; [by injection H as <-|].
  apply bind_Ok in H as (st1 & H1 & H). pose proof (join_frag_grows txn f st) as G0.
  assert (G1 : join_grows st st1).
  { apply (join_grows_trans _ _ _ G0). refine (Hrec _ _ _ _ _ H1). destruct G0. lia. }
  destruct (1 <? length fs)%nat.
  - destruct (clone_in clone st1) as [txn' st2] eqn:E. destruct (clone_grows clone st1 txn' st2 E) as [G2 Hlt]; [destruct G1; lia|].
    apply (join_grows_trans _ _ _ G1), (join_grows_trans _ _ _ G2). apply (IH txn' st2); [done|destruct G1, G2; lia|done].
  - apply (join_grows_trans _ _ _ G1). apply (IH clone st1); [destruct G1; lia..|done].
Qed.

Lemma joinFragments_grows fuel : rec_grows (joinFragments fuel lists).
Proof.
  induction fuel as [|fuel IH]; intros txn next st st' Ht H; [done|]. cbn [joinFragments] in H.
  destruct (default [] _) as [|f [|f' fs]].
  - injection H as <-. unfold join_grows, join_ok. cbn [jheap jtxns]. rewrite size_update. split; [done|]. intros Hst.
    assert (Hu : NumInv (update_txn (set_txnId (IdInt (jnext st + 1))) txn (jheap st)) fr (refs ++ jtxns st))
      by (apply NumInv_update; [intros t _; by eexists|done]).
    apply (NumInv_refs _ _ _ _ Hu). rewrite app_assoc. apply Forall_app. split; [exact (ni_refs _ _ _ Hu)|].
    apply Forall_singleton. by apply numbered_set.
  - pose proof (join_frag_grows txn f st) as G0. apply (join_grows_trans _ _ _ G0). refine (IH _ _ _ _ _ H). destruct G0. lia.
  - destruct (clone_in txn st) as [c st1] eqn:E. destruct (clone_grows txn st c st1 E Ht) as [G1 Hc].
    apply (join_grows_trans _ _ _ G1). apply (join_loop_grows _ c (f :: f' :: fs) txn st1 st' IH); [destruct G1; lia|done|exact H].
Qed.
End Joining.

Lemma join_all_ok fuel fr refs n h st : NumInv h fr refs -> join_all fuel fr n h = Ok st -> NumInv (jheap st) fr (refs ++ jtxns st).
Proof.
  intros Hh. unfold join_all. apply (mfor_inv _ (join_ok fr refs)).
  - intros s f s' Hf Hs H. assert (Hlt : (frag_txn (jheap s) f < size (jheap s))%nat).
    { destruct Hs as [H1 H2 _]. rewrite Forall_forall in H2. destruct (lookup_lt_is_Some_2 _ _ (H2 f Hf)) as [x Hx].
      unfold frag_txn. rewrite Hx. cbn. rewrite Forall_lookup in H1. exact (H1 _ _ Hx). }
    exact (proj2 (joinFragments_grows (resumeLists fr) fr refs fuel _ _ _ _ Hlt H) Hs).
  - unfold join_ok. cbn. by rewrite app_nil_r.
Qed.

Lemma append_joined js l r : r ∈ js -> NumInv (heap l) (fragments l) ((txns l).*2 ++ js) ->
  NumInv (heap (abstract_appendTxn r l)) (fragments (abstract_appendTxn r l)) ((txns (abstract_appendTxn r l)).*2 ++ js).
Proof.
  intros Hr H. unfold abstract_appendTxn. destruct (od_get _ _ _) as [r'|].
  - unfold join_ref. destruct (_ !! r) as [t|]; [|by destruct l]. destruct l. cbn. apply NumInv_update; [by intros x|done].
  - destruct l. cbn in *. apply (NumInv_refs _ _ _ _ H). destruct H as [_ _ H]. apply Forall_app in H as [H1 H2].
    apply Forall_app. split; [|done]. apply od_set_refs; [done|]. rewrite Forall_forall in H2. by apply H2.
Qed.

Lemma num_endCollection fuel l l' : num_loader l -> endCollection fuel l = Ok l' -> num_loader l'.
Proof.
  intros Hl H. unfold endCollection in H. apply bind_Ok in H as (st & Hst & [= <-]).
  pose proof (join_all_ok fuel (fragments l) _ _ _ _ Hl Hst) as Hj.
  assert (H0 : NumInv (heap (with_heap l (jheap st))) (fragments (with_heap l (jheap st))) ((txns (with_heap l (jheap st))).*2 ++ jtxns st))
    by by destruct l.
  assert (G : forall rs l0, (forall r, r ∈ rs -> r ∈ jtxns st) -> NumInv (heap l0) (fragments l0) ((txns l0).*2 ++ jtxns st) ->
    num_loader (fold_left (fun l r => abstract_appendTxn r l) rs l0)).
  { induction rs as [|r rs IH]; intros l0 Hrs H; cbn [fold_left].
    - apply (NumInv_refs _ _ _ _ H). pose proof (ni_refs _ _ _ H) as Hr. by apply Forall_app in Hr as [Hr _].
    - apply IH; [intros x Hx; apply Hrs; by right|]. apply append_joined; [apply Hrs; left|done]. }
  by apply G.
Qed.

(** A loader hands out transactions with numbers only. *)
Lemma loaded_numbered l : num_loader l -> Forall (fun p => int_id p.2) (loaded_txns l).
Proof.
  intros [_ _ H]. apply Forall_forall. intros [id t] Hin. unfold loaded_txns in Hin. apply list_elem_of_omap in Hin as ([id' r] & Hr & E).
  apply fmap_Some in E as (t' & Ht & [= -> ->]). rewrite Forall_forall in H.
  destruct (H r) as (t'' & Ht'' & Hid); [exact (list_elem_of_fmap_2 snd _ _ Hr)|]. unfold get_txn in Ht. cbn [snd] in *. rewrite Ht in Ht''. by injection Ht'' as <-.
Qed.

Lemma loader_ok_init : loader_ok BoundedTxnLoader_init.
Proof. split; [split; constructor|done]. Qed.
