(* ===== verification/Trees.v ===== *)
(** * Tree collections

    Models analytics/treeCollections.py.  [buildTreeCollection] grows a tree of mutable
    nodes level by level; the nodes live in a store and refer to their children by place.
    [classify_tree] is the tree as a recursive value, and the refinement theorem says
    that the store represents it.  A composite tree merges several trees of the same
    shape; its nodes have one owner, so it is a plain value. *)

From S2P Require Import Prelude.

Section Trees.
Context {K C : Type} (keq : K -> K -> bool).

(** ** Nodes of a tree collection *)

Record TNode := mkTNode { collection : C; children : list (K * nat); ancestry : list K }.
Abbreviation Store := (list TNode).

Definition TNode_init (c : C) (anc : list K) : TNode := mkTNode c [] anc.

(** [Node.addChild]: the child's place and the store after it. *)
Definition addChild (n : nat) (name : K) (sub : C) (st : Store) : nat * Store :=
  let anc := match st !! n with Some nd => ancestry nd | None => [] end in
  (length st,
   alter (fun nd => mkTNode (collection nd) (od_set keq name (length st) (children nd)) (ancestry nd)) n
     (st ++ [TNode_init sub (anc ++ [name])])).

Definition follow (st : Store) (n : nat) (name : K) : option nat :=
  nd ← st !! n; od_get keq name (children nd).

Definition getNode (st : Store) (path : list K) : option nat :=
  fold_left (fun o name => n ← o; follow st n name) path (Some 0%nat).

Definition getCollection (st : Store) (path : list K) : option C :=
  n ← getNode st path; collection <$> st !! n.

Definition getChildren (st : Store) (path : list K) : option (list (K * nat)) :=
  n ← getNode st path; children <$> st !! n.

(** A classifier maps a collection and the names above it to named sub-collections. *)
Abbreviation Grouping := (C -> list K -> result (list (K * C))).

Definition add_children (n : nat) (m : list (K * C)) (s : list nat * Store) : list nat * Store :=
  fold_left (fun '(ch, st) '(name, sub) => let '(c, st) := addChild n name sub st in (ch ++ [c], st)) m s.

Definition makeChildNodes (classifier : Grouping) (nodes : list nat) (st : Store)
    : result (list nat * Store) :=
  mfor (fun '(ch, st) n =>
    nd ← or_raise IndexError_ (st !! n);
    m ← classifier (collection nd) (ancestry nd);
    Ok (add_children n m (ch, st))) ([], st) nodes.

Definition build_levels (classifiers : list Grouping) (s : list nat * Store) : result (list nat * Store) :=
  mfor (fun '(nodes, st) classifier => makeChildNodes classifier nodes st) s classifiers.

Definition buildTreeCollection (c : C) (classifiers : list Grouping) : result Store :=
  '(_, st) ← build_levels classifiers ([0%nat], [TNode_init c []]); Ok st.

(** ** The tree as a value *)

Inductive Tree := TNd (c : C) (ch : list (K * Tree)) (anc : list K).

Definition troot (t : Tree) : C := let 'TNd c _ _ := t in c.
Definition tchildren (t : Tree) : list (K * Tree) := let 'TNd _ ch _ := t in ch.

Fixpoint classify_tree (classifiers : list Grouping) (c : C) (anc : list K) : result Tree :=
  match classifiers with
  | [] => Ok (TNd c [] anc)
  | cl :: cls =>
      m ← cl c anc;
      ch ← mmap (fun p => t ← classify_tree cls p.2 (anc ++ [p.1]); Ok (p.1, t)) m;
      Ok (TNd c ch anc)
  end.

(** The value a node of a store stands for, to a depth. *)
Fixpoint read_tree (fuel : nat) (st : Store) (n : nat) : option Tree :=
  match fuel with
  | O => None
  | S fuel =>
      nd ← st !! n;
      ch ← mapM (fun p => t ← read_tree fuel st p.2; Some (p.1, t)) (children nd);
      Some (TNd (collection nd) ch (ancestry nd))
  end.

(** ** Composite trees *)

Inductive CompositeNode :=
  CNd (collectionMap : list (string * C)) (ch : list (K * CompositeNode)) (anc : list K).

Definition CompositeNode_init (anc : list K) : CompositeNode := CNd [] [] anc.
Definition collectionMap (n : CompositeNode) : list (string * C) := let 'CNd m _ _ := n in m.
Definition cchildren (n : CompositeNode) : list (K * CompositeNode) := let 'CNd _ ch _ := n in ch.
Definition cancestry (n : CompositeNode) : list K := let 'CNd _ _ anc := n in anc.

(** [CompositeNode.addNode]. *)
Fixpoint addNode (treeName : string) (node : Tree) (self : CompositeNode) : result CompositeNode :=
  let 'TNd c tch _ := node in
  let 'CNd m cch anc := self in
  if od_mem String.eqb treeName m then Raise Exception_
  else
    ch ← (fix go (tch : list (K * Tree)) (cch : list (K * CompositeNode)) :=
            match tch with
            | [] => Ok cch
            | (childName, child) :: tch =>
                let compositeChild :=
                  match od_get keq childName cch with
                  | Some c => c
                  | None => CompositeNode_init (anc ++ [childName])
                  end in
                compositeChild ← addNode treeName child compositeChild;
                go tch (od_set keq childName compositeChild cch)
            end) tch cch;
    Ok (CNd (od_set String.eqb treeName c m) ch anc).

Record CompositeTree := mkComposite { treeNames : list string; croot : CompositeNode }.

Definition CompositeTree_init : CompositeTree := mkComposite [] (CompositeNode_init []).

Definition addTree (name : string) (t : Tree) (ct : CompositeTree) : result CompositeTree :=
  if decide (name ∈ treeNames ct) then Raise Exception_
  else
    let names := treeNames ct ++ [name] in
    root ← addNode name t (croot ct);
    Ok (mkComposite names root).

Fixpoint walk (n : CompositeNode) (path : list K) : option CompositeNode :=
  match path with
  | [] => Some n
  | name :: path => match od_get keq name (cchildren n) with Some c => walk c path | None => None end
  end.

Definition getCollectionMap (ct : CompositeTree) (path : list K) : option (list (string * C)) :=
  collectionMap <$> walk (croot ct) path.

(** [buildCompositeTreeCollection]; a tree's depth is its number of classifiers. *)
Definition buildCompositeTreeCollection (collections : list (string * C)) (classifiers : list Grouping)
    : result CompositeTree :=
  mfor (fun ct '(name, c) =>
    st ← buildTreeCollection c classifiers;
    t ← or_raise RecursionError_ (read_tree (S (length classifiers)) st 0);
    addTree name t ct) CompositeTree_init collections.

(** ** Building a level *)

Definition grouping_ok (cl : Grouping) : Prop :=
  forall c anc m, cl c anc = Ok m -> distinct_keys keq m.

Lemma addChild_spec n name sub st nd : st !! n = Some nd -> od_get keq name (children nd) = None ->
  addChild n name sub st =
  (length st, <[n := mkTNode (collection nd) (children nd ++ [(name, length st)]) (ancestry nd)]> st
                ++ [TNode_init sub (ancestry nd ++ [name])]).
Proof.
  intros Hn Hk. unfold addChild. rewrite Hn. f_equal.
  pose proof (lookup_lt_Some _ _ _ Hn) as Hlt.
  rewrite -insert_app_l //. apply list_eq. intros i. destruct (decide (n = i)) as [<-|Hne].
  - rewrite list_lookup_alter_eq list_lookup_insert_eq.
    { rewrite length_app. lia. }
    by rewrite lookup_app_l // Hn /= od_set_fresh.
  - by rewrite list_lookup_alter_ne // list_lookup_insert_ne.
Qed.

Definition grown (n : nat) (st : Store) (nd : TNode) (m : list (K * C)) (old : list (K * nat)) : Store :=
  <[n := mkTNode (collection nd) (old ++ zip m.*1 (seq (length st) (length m))) (ancestry nd)]> st
    ++ ((fun p => TNode_init p.2 (ancestry nd ++ [p.1])) <$> m).

Lemma add_children_spec n m ch st nd : st !! n = Some nd -> distinct_keys keq m ->
  Forall (fun p => od_get keq p.1 (children nd) = None) m ->
  add_children n m (ch, st) = (ch ++ seq (length st) (length m), grown n st nd m (children nd)).
Proof.
  revert ch st nd. induction m as [|[k c] m IH]; intros ch st nd Hn Hd Hf.
  { cbn. unfold grown. cbn. rewrite !app_nil_r. f_equal. symmetry. apply list_insert_id.
    by destruct nd. }
  apply Forall_cons in Hf as [Hk Hf]. cbn in Hk. inversion Hd as [|? ? Hkm Hd']; subst.
  change (add_children n ((k, c) :: m) (ch, st)) with
    (add_children n m (let '(c0, st0) := addChild n k c st in (ch ++ [c0], st0))).
  rewrite (addChild_spec _ _ _ _ _ Hn Hk).
  pose proof (lookup_lt_Some _ _ _ Hn) as Hlt.
  set (nd' := mkTNode (collection nd) (children nd ++ [(k, length st)]) (ancestry nd)).
  rewrite (IH _ _ nd'); [..|].
  4: { unfold grown. rewrite !length_app length_insert /= -!app_assoc /=. rewrite Nat.add_1_r.
    f_equal. rewrite insert_app_l; [by rewrite length_insert|]. by rewrite -app_assoc list_insert_insert_eq. }
  - rewrite lookup_app_l; [by rewrite length_insert|]. by apply list_lookup_insert_eq.
  - done.
  - rewrite Forall_forall in Hkm. apply Forall_forall. intros p Hp. cbn.
    apply od_get_None. unfold od_keys. rewrite fmap_app. apply Forall_app. split.
    + rewrite Forall_forall in Hf. by apply od_get_None, Hf.
    + apply Forall_singleton. by apply (Hkm p).
Qed.

(** A node after its level: its children are fresh nodes for the groups of its
    collection. *)
Definition expanded (cl : Grouping) (new : list nat) (st : Store) (n : nat) (nd : TNode) : Prop :=
  exists m cs, cl (collection nd) (ancestry nd) = Ok m /\
    st !! n = Some (mkTNode (collection nd) (zip m.*1 cs) (ancestry nd)) /\
    Forall2 (fun p c => c ∈ new /\ st !! c = Some (TNode_init p.2 (ancestry nd ++ [p.1]))) m cs.

Definition frontier (st : Store) (nodes : list nat) : Prop :=
  NoDup nodes /\ Forall (fun n => exists nd, st !! n = Some nd /\ children nd = []) nodes.

Lemma expanded_mono cl new new' st st' n nd : expanded cl new st n nd ->
  (forall c, c ∈ new -> c ∈ new') -> st' !! n = st !! n ->
  (forall c, c ∈ new -> st' !! c = st !! c) -> expanded cl new' st' n nd.
Proof.
  intros (m & cs & Hcl & Hn & Hcs) Hnew Hst Hc. exists m, cs. split_and!; [done|congruence|].
  eapply Forall2_impl; [exact Hcs|]. intros p c [Hin Hl]. split; [auto|]. by rewrite Hc.
Qed.

Lemma grown_fresh n st nd m i p : (n < length st)%nat -> m !! i = Some p ->
  grown n st nd m [] !! (length st + i)%nat = Some (TNode_init p.2 (ancestry nd ++ [p.1])).
Proof.
  intros Hn Hi. unfold grown. rewrite lookup_app_r length_insert; [lia|].
  by rewrite Nat.add_comm Nat.add_sub list_lookup_fmap Hi.
Qed.

Lemma grown_old n st nd m r : (n < length st)%nat -> (r < length st)%nat -> r <> n ->
  grown n st nd m [] !! r = st !! r.
Proof.
  intros Hn Hr Hne. unfold grown. rewrite lookup_app_l ?length_insert //.
  apply list_lookup_insert_ne. congruence.
Qed.

Lemma grown_expanded cl n st nd m : st !! n = Some nd -> cl (collection nd) (ancestry nd) = Ok m ->
  expanded cl (seq (length st) (length m)) (grown n st nd m []) n nd.
Proof.
  intros Hn Hcl. pose proof (lookup_lt_Some _ _ _ Hn) as Hlt.
  exists m, (seq (length st) (length m)). split_and!; [done| |].
  - unfold grown. rewrite lookup_app_l ?length_insert //. by apply list_lookup_insert_eq.
  - apply Forall2_same_length_lookup_2; [by rewrite length_seq|]. intros i p c Hp Hc.
    apply lookup_seq in Hc as [-> Hi]. split; [apply elem_of_seq; lia|]. by apply grown_fresh.
Qed.

(** Where a fresh node of a level comes from. *)
Definition sprouted (cl : Grouping) (st : Store) (nodes : list nat) (st1 : Store) (c : nat) : Prop :=
  exists n nd m p, n ∈ nodes /\ st !! n = Some nd /\ cl (collection nd) (ancestry nd) = Ok m /\
    p ∈ m /\ st1 !! c = Some (TNode_init p.2 (ancestry nd ++ [p.1])).

Lemma level_spec cl nodes ch0 st ch1 st1 : grouping_ok cl -> frontier st nodes ->
  mfor (fun '(ch, st) n =>
    nd ← or_raise IndexError_ (st !! n);
    m ← cl (collection nd) (ancestry nd);
    Ok (add_children n m (ch, st))) (ch0, st) nodes = Ok (ch1, st1) ->
  (length st <= length st1)%nat /\
  (forall r, (r < length st)%nat -> r ∉ nodes -> st1 !! r = st !! r) /\
  exists new, ch1 = ch0 ++ new /\ frontier st1 new /\ Forall (fun c => length st <= c)%nat new /\
    Forall (fun n => exists nd, st !! n = Some nd /\ expanded cl new st1 n nd) nodes /\
    Forall (sprouted cl st nodes st1) new.
Proof.
  intros Hok. revert ch0 st. induction nodes as [|n nodes IH]; intros ch0 st [Hnd Hfr]; cbn [mfor].
  { intros [= <- <-]. split_and!; [done|done|]. exists []. rewrite app_nil_r.
    split_and!; [done|split; [apply NoDup_nil_2|constructor]|constructor..]. }
  apply NoDup_cons in Hnd as [Hnin Hnd]. apply Forall_cons in Hfr as [(nd & Hn & Hch) Hfr].
  rewrite Hn. cbn [or_raise mbind result_bind]. intros H. apply bind_Ok in H as ([ch' st'] & H1 & H).
  apply bind_Ok in H1 as (m & Hm & H1). pose proof (lookup_lt_Some _ _ _ Hn) as Hlt.
  rewrite (add_children_spec n m ch0 st nd) // in H1; [exact (Hok _ _ _ Hm)| |].
  { rewrite Hch. by apply Forall_true. }
  injection H1 as <- <-. rewrite Hch in H.
  assert (Hlen : length (grown n st nd m []) = (length st + length m)%nat).
  { unfold grown. by rewrite length_app length_insert length_fmap. }
  assert (Hfr1 : frontier (grown n st nd m []) nodes).
  { split; [done|]. rewrite Forall_forall in Hfr. apply Forall_forall. intros r Hr.
    destruct (Hfr r Hr) as (nd' & Hr' & Hc). exists nd'. split; [|done].
    rewrite grown_old; [done|exact (lookup_lt_Some _ _ _ Hr')|by intros ->|done]. }
  destruct (IH _ _ Hfr1 H) as (Hl & Hframe & new & -> & Hnew & Hge & Hexp & Hsp). clear IH H.
  assert (Hseq : forall c, c ∈ seq (length st) (length m) ->
    (length st <= c < length (grown n st nd m []))%nat /\ c ∉ nodes).
  { intros c [Hc1 Hc2]%elem_of_seq. split; [lia|]. intros Hc. rewrite Forall_forall in Hfr.
    destruct (Hfr c Hc) as (? & Hx%lookup_lt_Some & _). lia. }
  split_and!; [lia| |].
  - intros r Hr Hrn. apply not_elem_of_cons in Hrn as [Hne Hrn]. rewrite Hframe //; [lia|].
    by apply grown_old.
  - exists (seq (length st) (length m) ++ new). rewrite -app_assoc. split_and!; [done|split| | |].
    + apply NoDup_app. split_and!; [apply NoDup_seq| |apply Hnew]. intros c Hc Hc2.
      rewrite Forall_forall in Hge. specialize (Hge c Hc2). apply Hseq in Hc as [? _]. lia.
    + apply Forall_app. split; [|apply Hnew]. apply Forall_forall. intros c Hc.
      destruct (Hseq c Hc) as [Hcl Hcn]. apply elem_of_seq in Hc as [Hc1 Hc2].
      destruct (lookup_lt_is_Some_2 m (c - length st)) as [p Hp]; [lia|].
      rewrite (Hframe c); [lia|done|]. replace c with (length st + (c - length st))%nat by lia.
      rewrite (grown_fresh n st nd m _ p Hlt Hp). by eexists.
    + apply Forall_app. split; [|eapply Forall_impl; [exact Hge|]; cbn; lia].
      apply Forall_forall. intros c Hc. apply Hseq in Hc. lia.
    + constructor.
      * exists nd. split; [done|]. eapply expanded_mono; [apply (grown_expanded cl n st nd m Hn Hm)|set_solver| |].
        -- apply Hframe; [lia|done].
        -- intros c Hc. destruct (Hseq c Hc). apply Hframe; [lia|done].
      * rewrite Forall_forall in Hexp. apply Forall_forall. intros r Hr.
        destruct (Hexp r Hr) as (nd' & Hr' & He). exists nd'. split.
        -- rewrite -Hr'. symmetry. rewrite Forall_forall in Hfr.
           destruct (Hfr r Hr) as (? & Hx%lookup_lt_Some & _). apply grown_old; congruence.
        -- eapply expanded_mono; [exact He|set_solver|done|done].
    + apply Forall_app. split; [|eapply Forall_impl; [exact Hsp|]].
      * apply Forall_forall. intros c Hc. destruct (Hseq c Hc) as [Hcl Hcn].
        apply elem_of_seq in Hc as [Hc1 Hc2].
        destruct (lookup_lt_is_Some_2 m (c - length st)) as [p Hp]; [lia|].
        exists n, nd, m, p. split_and!; [left|done|done|exact (list_elem_of_lookup_2 _ _ _ Hp)|].
        rewrite (Hframe c); [lia|done|]. replace c with (length st + (c - length st))%nat by lia.
        by apply grown_fresh.
      * intros c (n' & nd' & m' & p & Hin & Hn' & ? & ? & ?). exists n', nd', m', p.
        split_and!; [by right| |done..]. rewrite -Hn'. symmetry. rewrite Forall_forall in Hfr.
        destruct (Hfr n' Hin) as (? & Hx%lookup_lt_Some & _). apply grown_old; congruence.
Qed.

Lemma level_total cl nodes ch0 st : grouping_ok cl -> frontier st nodes ->
  Forall (fun n => forall nd, st !! n = Some nd -> isOk (cl (collection nd) (ancestry nd))) nodes ->
  exists ch1 st1, mfor (fun '(ch, st) n =>
    nd ← or_raise IndexError_ (st !! n);
    m ← cl (collection nd) (ancestry nd);
    Ok (add_children n m (ch, st))) (ch0, st) nodes = Ok (ch1, st1).
Proof.
  intros Hok. revert ch0 st. induction nodes as [|n nodes IH]; intros ch0 st [Hnd Hfr] Hcl; cbn [mfor];
    [by eexists _, _|].
  apply NoDup_cons in Hnd as [Hnin Hnd]. apply Forall_cons in Hfr as [(nd & Hn & Hch) Hfr].
  apply Forall_cons in Hcl as [Hcln Hcl]. specialize (Hcln nd Hn). rewrite Hn. cbn [or_raise mbind result_bind].
  destruct (cl _ _) as [m|] eqn:Hm; [|done]. cbn [mbind result_bind].
  pose proof (lookup_lt_Some _ _ _ Hn) as Hlt.
  rewrite (add_children_spec n m ch0 st nd) //; [exact (Hok _ _ _ Hm)|rewrite Hch; by apply Forall_true|].
  rewrite Hch. rewrite Forall_forall in Hfr. pose proof (proj1 (Forall_forall _ _) Hcl) as Hcl'.
  assert (Hold : forall r, r ∈ nodes -> grown n st nd m [] !! r = st !! r).
  { intros r Hr. destruct (Hfr r Hr) as (nd' & Hr' & _).
    apply grown_old; [done|exact (lookup_lt_Some _ _ _ Hr')|by intros ->]. }
  apply IH; [split; [done|]|]; apply Forall_forall; intros r Hr; rewrite Hold //;
    [by apply Hfr|exact (Hcl' r Hr)].
Qed.

Lemma mapM_option_cons {A B} (f : A -> option B) x l :
  mapM f (x :: l) = (y ← f x; k ← mapM f l; Some (y :: k)).
Proof. done. Qed.

Lemma read_children fuel st cls anc (m : list (K * C)) cs :
  Forall2 (fun p c => exists t, classify_tree cls p.2 (anc ++ [p.1]) = Ok t /\ read_tree fuel st c = Some t) m cs ->
  exists ch, mmap (fun p => t ← classify_tree cls p.2 (anc ++ [p.1]); Ok (p.1, t)) m = Ok ch /\
    mapM (fun p => t ← read_tree fuel st p.2; Some (p.1, t)) (zip m.*1 cs) = Some ch.
Proof.
  induction 1 as [|p c m cs (t & Ht & Hr) _ (ch & Hm & Hc)]; [by exists []|].
  exists ((p.1, t) :: ch). cbn [mmap]. rewrite Ht Hm. split; [done|].
  etrans; [apply (mapM_option_cons _ (p.1, c))|]. cbn [snd fst]. rewrite Hr. cbn [mbind option_bind].
  etrans; [apply (f_equal (fun o => o ≫= _) Hc)|]. done.
Qed.

(** The frontier's nodes become the roots of their classification trees. *)
Lemma build_levels_spec cls nodes st nodes' st' : Forall grouping_ok cls -> frontier st nodes ->
  build_levels cls (nodes, st) = Ok (nodes', st') ->
  (forall r, (r < length st)%nat -> r ∉ nodes -> st' !! r = st !! r) /\
  Forall (fun n => exists nd t, st !! n = Some nd /\
    classify_tree cls (collection nd) (ancestry nd) = Ok t /\
    read_tree (S (length cls)) st' n = Some t) nodes.
Proof.
  intros Hok. revert nodes st. induction Hok as [|cl cls Hcl Hok IH]; intros nodes st Hfr.
  { intros [= <- <-]. split; [done|]. eapply Forall_impl; [apply Hfr|]. intros n (nd & Hn & Hch).
    exists nd. eexists. split_and!; [done|done|]. cbn [read_tree length]. rewrite Hn. cbn.
    by rewrite Hch. }
  cbn [build_levels mfor]. intros H. apply bind_Ok in H as ([new' st1] & H1 & H).
  destruct (level_spec cl nodes [] st new' st1 Hcl Hfr H1) as (Hl & Hframe & new & -> & Hnew & Hge & Hexp & _).
  cbn [app] in H. destruct (IH new st1 Hnew H) as [Hframe2 Htrees]. forall_elim Hge. forall_elim Hexp. forall_elim Htrees.
  split.
  - intros r Hr Hrn. rewrite Hframe2; [lia| |by apply Hframe]. intros Hin%Hge. lia.
  - apply Forall_forall. intros n Hn. destruct (Hexp n Hn) as (nd & Hst & m & cs & Hm & Hst1 & Hcs).
    pose proof (lookup_lt_Some _ _ _ Hst) as Hlt.
    destruct (read_children (S (length cls)) st' cls (ancestry nd) m cs) as (ch & Hmm & Hch).
    { eapply Forall2_impl; [exact Hcs|]. intros p c [Hin Hc].
      destruct (Htrees c Hin) as (ndc & t & Hndc & Ht & Hr). exists t.
      rewrite Hc in Hndc. injection Hndc as <-. done. }
    exists nd, (TNd (collection nd) ch (ancestry nd)). split; [done|]. cbn [classify_tree length].
    rewrite Hm. cbn [mbind result_bind]. rewrite Hmm. split; [done|].
    change (read_tree (S (S (length cls))) st' n) with
      (nd ← st' !! n;
       ch ← mapM (fun p => t ← read_tree (S (length cls)) st' p.2; Some (p.1, t)) (children nd);
       Some (TNd (collection nd) ch (ancestry nd))).
    rewrite Hframe2; [lia|intros Hin%Hge; lia|]. rewrite Hst1. cbn [mbind option_bind children].
    rewrite Hch. done.
Qed.

Lemma classify_child cl cls c anc t m p : classify_tree (cl :: cls) c anc = Ok t -> cl c anc = Ok m ->
  p ∈ m -> isOk (classify_tree cls p.2 (anc ++ [p.1])).
Proof.
  intros H Hm (i & Hi)%list_elem_of_lookup. cbn in H. rewrite Hm in H. cbn in H.
  apply bind_Ok in H as (ch & Hch & _). destruct (mmap_Ok_lookup _ _ _ _ _ Hch Hi) as (y & _ & Hy).
  apply bind_Ok in Hy as (t' & -> & _). done.
Qed.

Lemma build_levels_total cls nodes st : Forall grouping_ok cls -> frontier st nodes ->
  Forall (fun n => forall nd, st !! n = Some nd -> isOk (classify_tree cls (collection nd) (ancestry nd))) nodes ->
  exists s, build_levels cls (nodes, st) = Ok s.
Proof.
  intros Hok. revert nodes st. induction Hok as [|cl cls Hcl Hok IH]; intros nodes st Hfr Hts; [by eexists|].
  cbn [build_levels mfor].
  destruct (level_total cl nodes [] st Hcl Hfr) as (new' & st1 & H1).
  { eapply Forall_impl; [exact Hts|]. cbn. intros n H nd Hn. specialize (H nd Hn).
    by destruct (cl _ _). }
  destruct (level_spec cl nodes [] st new' st1 Hcl Hfr H1) as (_ & _ & new & -> & Hnew & _ & _ & Hsp).
  unfold makeChildNodes. rewrite H1. cbn [mbind result_bind app]. apply IH; [done|].
  eapply Forall_impl; [exact Hsp|]. intros c (n & nd & m & p & Hin & Hn & Hm & Hp & Hc) ndc Hndc.
  rewrite Hc in Hndc. injection Hndc as <-. cbn. rewrite Forall_forall in Hts.
  pose proof (Hts n Hin nd Hn) as Ht. destruct (classify_tree _ _ _) as [t|] eqn:E; [|done].
  exact (classify_child _ _ _ _ _ _ _ E Hm Hp).
Qed.

(** ** Composite trees collect, under every path, what the trees hold there *)

Fixpoint twalk (t : Tree) (path : list K) : option Tree :=
  match path with
  | [] => Some t
  | name :: path => match od_get keq name (tchildren t) with Some c => twalk c path | None => None end
  end.

(** The collection of a tree at a path, and the collections of a composite node. *)
Definition coll_at (t : Tree) (path : list K) : option C := troot <$> twalk t path.
Definition map_at (n : CompositeNode) (path : list K) : option (list (string * C)) :=
  collectionMap <$> walk n path.

Definition added (name : string) (o : option (list (string * C))) (c : option C) : option (list (string * C)) :=
  match c with Some c => Some (default [] o ++ [(name, c)]) | None => o end.

Inductive tree_ok : Tree -> Prop :=
  | tree_ok_node c ch anc : distinct_keys keq ch -> Forall (fun p => tree_ok p.2) ch -> tree_ok (TNd c ch anc).

Definition fresh_in (name : string) (n : CompositeNode) : Prop :=
  forall path m, map_at n path = Some m -> od_mem String.eqb name m = false.

Lemma Tree_nested_ind (P : Tree -> Prop) :
  (forall c ch anc, Forall (fun p => P p.2) ch -> P (TNd c ch anc)) -> forall t, P t.
Proof.
  intros Hstep. fix IH 1. intros [c ch anc]. apply Hstep.
  induction ch as [|[k t] ch IHch]; constructor; [apply IH|exact IHch].
Qed.

Definition addChildren (name : string) (anc : list K) :=
  fix go (tch : list (K * Tree)) (cch : list (K * CompositeNode)) : result (list (K * CompositeNode)) :=
    match tch with
    | [] => Ok cch
    | (childName, child) :: tch =>
        let compositeChild :=
          match od_get keq childName cch with
          | Some c => c
          | None => CompositeNode_init (anc ++ [childName])
          end in
        compositeChild ← addNode name child compositeChild;
        go tch (od_set keq childName compositeChild cch)
    end.

Lemma addNode_eq name c tch a m cch anc :
  addNode name (TNd c tch a) (CNd m cch anc) =
  if od_mem String.eqb name m then Raise Exception_
  else ch ← addChildren name anc tch cch; Ok (CNd (od_set String.eqb name c m) ch anc).
Proof. reflexivity. Qed.

Section Composite.
Context {HK : KeyEquiv keq}.

Definition below (cch : list (K * CompositeNode)) (k : K) (path : list K) :=
  n ← od_get keq k cch; map_at n path.
Definition tbelow (tch : list (K * Tree)) (k : K) (path : list K) :=
  t ← od_get keq k tch; coll_at t path.

Definition node_spec (name : string) (t : Tree) : Prop :=
  forall n, tree_ok t -> fresh_in name n ->
    exists n', addNode name t n = Ok n' /\
      forall path, map_at n' path = added name (map_at n path) (coll_at t path).

Lemma map_at_cons m cch anc k path : map_at (CNd m cch anc) (k :: path) = below cch k path.
Proof. unfold map_at, below. cbn. by destruct (od_get keq k cch). Qed.

Lemma coll_at_cons c tch anc k path : coll_at (TNd c tch anc) (k :: path) = tbelow tch k path.
Proof. unfold coll_at, tbelow. cbn. by destruct (od_get keq k tch). Qed.

Lemma distinct_tail_get k (t : Tree) tch k' : distinct_keys keq ((k, t) :: tch) -> keq k k' = true ->
  od_get keq k' tch = None.
Proof.
  intros Hd Hk. inversion Hd as [|? ? Hall _]; subst. apply od_get_None. unfold od_keys.
  apply Forall_fmap. eapply Forall_impl; [exact Hall|]. intros [k2 t2]. cbn. intros Hne.
  destruct (keq k' k2) eqn:E; [|done]. rewrite -Hne. symmetry.
  apply (keq_sym keq). exact (keq_trans keq _ _ _ Hk E).
Qed.

Lemma addChildren_spec name anc tch cch : distinct_keys keq tch ->
  Forall (fun p => tree_ok p.2) tch -> Forall (fun p => node_spec name p.2) tch ->
  Forall (fun p => forall n, od_get keq p.1 cch = Some n -> fresh_in name n) tch ->
  exists cch', addChildren name anc tch cch = Ok cch' /\
    forall k path, below cch' k path = added name (below cch k path) (tbelow tch k path).
Proof.
  intros Hd Hok Hspec. revert cch. induction tch as [|[k t] tch IH]; intros cch Hfr; [by exists cch|].
  apply Forall_cons in Hok as [Hokt Hok]. apply Forall_cons in Hspec as [Ht Hspec].
  apply Forall_cons in Hfr as [Hfrk Hfr].
  pose proof Hd as Hd0. inversion Hd as [|? ? Hne Hd']; subst. cbn [addChildren].
  set (child := match od_get keq k cch with Some c => c | None => _ end).
  assert (Hchild : fresh_in name child).
  { unfold child. cbn in Hfrk. destruct (od_get keq k cch) as [n|] eqn:E; [by apply Hfrk|].
    intros [|k' path] m; unfold map_at; cbn; [by intros [= <-]|done]. }
  destruct (Ht child Hokt Hchild) as (n1 & Hn1 & Hmap). cbn [snd] in *. rewrite Hn1.
  cbn [mbind result_bind].
  destruct (IH Hd' Hok Hspec (od_set keq k n1 cch)) as (cch' & Hcch' & Hb).
  { forall_elim Hne. forall_elim Hfr. apply Forall_forall. intros p Hp n. rewrite od_get_set.
    destruct (keq k p.1) eqn:E; [|by apply Hfr].
    apply (keq_sym keq) in E. by rewrite (Hne p Hp) in E. }
  exists cch'. split; [done|]. intros k' path. rewrite Hb. unfold below, tbelow. rewrite od_get_set.
  cbn [od_get]. destruct (keq k k') eqn:E.
  - rewrite (keq_sym keq _ _ E) (distinct_tail_get k t tch k' Hd0 E). cbn. rewrite Hmap. unfold child.
    rewrite (od_get_cong keq k k' _ E). destruct (od_get keq k' cch) as [n|]; [done|].
    destruct path as [|k2 path]; [done|]. cbn. by destruct (coll_at t (k2 :: path)).
  - destruct (keq k' k) eqn:E'; [|done]. apply (keq_sym keq) in E'. congruence.
Qed.

Lemma addNode_spec name t : node_spec name t.
Proof.
  induction t as [c tch a IH] using Tree_nested_ind. intros [m cch anc] Hok Hfr.
  inversion Hok as [? ? ? Hd Hoks]; subst. rewrite addNode_eq (Hfr [] m eq_refl).
  destruct (addChildren_spec name anc tch cch Hd Hoks IH) as (cch' & -> & Hb).
  { apply Forall_forall. intros [k t] _ n Hn path m'. cbn in Hn. intros Hm.
    apply (Hfr (k :: path)). rewrite map_at_cons. unfold below. by rewrite Hn. }
  eexists. split; [done|]. intros [|k path].
  - unfold map_at, coll_at. cbn. f_equal. apply od_set_fresh. apply od_mem_false.
    by apply (Hfr [] m).
  - rewrite !map_at_cons coll_at_cons. apply Hb.
Qed.

(** A composite tree holds the names of its trees only. *)
Definition names_in (names : list string) (n : CompositeNode) : Prop :=
  forall path m, map_at n path = Some m -> m.*1 ⊆ names.

Lemma names_fresh names n name : names_in names n -> name ∉ names -> fresh_in name n.
Proof.
  intros Hn Hin path m Hm. apply od_mem_false, od_get_None, Forall_forall. intros k Hk.
  apply String.eqb_neq. intros <-. by apply Hin, (Hn path m Hm).
Qed.

Lemma addTree_spec name t ct : tree_ok t -> names_in (treeNames ct) (croot ct) -> name ∉ treeNames ct ->
  exists ct', addTree name t ct = Ok ct' /\ treeNames ct' = treeNames ct ++ [name] /\
    names_in (treeNames ct') (croot ct') /\
    forall path, getCollectionMap ct' path = added name (getCollectionMap ct path) (coll_at t path).
Proof.
  intros Hok Hn Hin. unfold addTree. rewrite decide_False //.
  destruct (addNode_spec name t (croot ct) Hok (names_fresh _ _ _ Hn Hin)) as (n' & -> & Hm).
  eexists. split; [done|]. cbn. split_and!; [done| |done].
  intros path m Hm'. rewrite Hm in Hm'. specialize (Hn path). fold (map_at (croot ct) path) in *.
  destruct (coll_at t path); cbn in Hm'; [injection Hm' as <-|].
  - rewrite fmap_app. destruct (map_at (croot ct) path) as [m'|]; cbn; [|set_solver].
    specialize (Hn m' eq_refl). set_solver.
  - specialize (Hn m Hm'). set_solver.
Qed.

(** What the trees hold at a path. *)
Definition at_path (ts : list (string * Tree)) (path : list K) : list (string * C) :=
  omap (fun p => (fun c => (p.1, c)) <$> coll_at p.2 path) ts.

Lemma addTrees_spec ts ct : Forall (fun p => tree_ok p.2) ts ->
  names_in (treeNames ct) (croot ct) -> NoDup (treeNames ct ++ ts.*1) ->
  exists ct', mfor (fun ct p => addTree p.1 p.2 ct) ct ts = Ok ct' /\
    forall path, default [] (getCollectionMap ct' path) =
      default [] (getCollectionMap ct path) ++ at_path ts path.
Proof.
  intros Hok. revert ct. induction Hok as [|[name t] ts Ht Hok IH]; intros ct Hn Hnd.
  { exists ct. split; [done|]. intros path. by rewrite app_nil_r. }
  cbn [mfor fst snd]. destruct (addTree_spec name t ct Ht Hn) as (ct1 & -> & Hnames & Hn1 & Hm1).
  { intros Hin. apply NoDup_app in Hnd as (_ & Hnd & _). apply (Hnd name Hin). cbn. left. }
  cbn [mbind result_bind]. destruct (IH ct1 Hn1) as (ct' & -> & Hm).
  { rewrite Hnames -app_assoc. done. }
  exists ct'. split; [done|]. intros path. rewrite Hm Hm1. unfold at_path. cbn.
  destruct (coll_at t path); cbn; [by rewrite -app_assoc|done].
Qed.

Lemma classify_tree_ok cls c anc t : Forall grouping_ok cls -> classify_tree cls c anc = Ok t -> tree_ok t.
Proof.
  intros Hok. revert c anc t. induction Hok as [|cl cls Hcl Hok IH]; intros c anc t; cbn.
  { intros [= <-]. repeat constructor. }
  intros H. apply bind_Ok in H as (m & Hm & H). apply bind_Ok in H as (ch & Hch & [= <-]).
  assert (Hk : m.*1 = ch.*1 /\ Forall (fun p => tree_ok p.2) ch).
  { clear Hm. revert ch Hch. induction m as [|p m IHm]; intros ch; cbn; [by intros [= <-]|].
    intros H. apply bind_Ok in H as (y & Hy & H). apply bind_Ok in H as (ys & Hys & [= <-]).
    apply bind_Ok in Hy as (t & Ht & [= <-]). destruct (IHm ys Hys) as [-> Hf].
    split; [done|]. constructor; [eauto|done]. }
  destruct Hk as [Hk1 Hk2]. constructor; [|done].
  exact (distinct_keys_transfer keq _ _ Hk1 (Hcl _ _ _ Hm)).
Qed.
End Composite.
End Trees.

(** ** Properties *)

Section TreeProperties.
Context {K C : Type} (keq : K -> K -> bool).
Abbreviation Grouping := (C -> list K -> result (list (K * C))).

Lemma build_tree (classifiers : list Grouping) (c : C) :
  Forall (grouping_ok keq) classifiers ->
  match classify_tree classifiers c [] with
  | Ok t => exists st, buildTreeCollection keq c classifiers = Ok st /\
              read_tree (S (length classifiers)) st 0 = Some t
  | Raise _ => forall st, buildTreeCollection keq c classifiers <> Ok st
  end.
Proof.
  intros Hok. assert (Hfr : frontier [TNode_init c []] [0%nat] (K := K)).
  { split; [apply NoDup_singleton|]. by apply Forall_singleton; eexists. }
  assert (Hbuilt : forall st, buildTreeCollection keq c classifiers = Ok st ->
    exists t, classify_tree classifiers c [] = Ok t /\ read_tree (S (length classifiers)) st 0 = Some t).
  { intros st H. unfold buildTreeCollection in H. apply bind_Ok in H as ([nodes st'] & H & [= <-]).
    destruct (build_levels_spec keq classifiers _ _ _ _ Hok Hfr H) as [_ Ht].
    apply Forall_singleton in Ht as (nd & t & [= <-] & Ht & Hr). eauto. }
  destruct (classify_tree classifiers c []) as [t|e] eqn:E.
  - destruct (build_levels_total keq classifiers [0%nat] [TNode_init c []] Hok Hfr) as [[nodes st] Hs].
    { apply Forall_singleton. intros nd [= <-]. cbn. by rewrite E. }
    exists st. assert (Hst : buildTreeCollection keq c classifiers = Ok st).
    { unfold buildTreeCollection. by rewrite Hs. }
    split; [done|]. destruct (Hbuilt st Hst) as (t' & [= <-] & ?). done.
  - intros st H. by destruct (Hbuilt st H) as (t & ? & _).
Qed.

(** C9 (tree collection): growing the store of nodes level by level builds exactly the tree
    that classifies every collection and, recursively, each of its groups: whenever that
    tree exists the build returns, the store read from its root is that tree, and the
    build fails only if some classifier does. *)
Theorem buildTreeCollection_refines (classifiers : list Grouping) (c : C) :
  Forall (grouping_ok keq) classifiers ->
  match classify_tree classifiers c [] with
  | Ok t => exists st, buildTreeCollection keq c classifiers = Ok st /\
              read_tree (S (length classifiers)) st 0 = Some t
  | Raise _ => forall st, buildTreeCollection keq c classifiers <> Ok st
  end.
Proof. apply build_tree. Qed.

Lemma build_composite (HK : KeyEquiv keq) (classifiers : list Grouping)
    (collections : list (string * C)) (ts : list Tree) :
  Forall (grouping_ok keq) classifiers -> NoDup collections.*1 ->
  mmap (fun p => classify_tree classifiers p.2 []) collections = Ok ts ->
  exists ct, buildCompositeTreeCollection keq collections classifiers = Ok ct /\
    forall path, default [] (getCollectionMap keq ct path) = at_path keq (zip collections.*1 ts) path.
Proof.
  intros Hok Hnd Hts.
  assert (Hall : Forall (fun p => tree_ok keq p.2) (zip collections.*1 ts) /\
    (zip collections.*1 ts).*1 = collections.*1 /\
    forall ct, mfor (fun ct '(name, c) => st ← buildTreeCollection keq c classifiers;
        t ← or_raise RecursionError_ (read_tree (S (length classifiers)) st 0); addTree keq name t ct) ct collections =
      mfor (fun ct p => addTree keq p.1 p.2 ct) ct (zip collections.*1 ts)).
  { clear Hnd. revert ts Hts. induction collections as [|[name c] cs IH]; intros ts; cbn [mmap].
    { intros [= <-]. split_and!; [constructor|done|done]. }
    intros H. apply bind_Ok in H as (t & Ht & H). apply bind_Ok in H as (ts' & Hts' & [= <-]).
    destruct (IH ts' Hts') as (H1 & H2 & H3). cbn in Ht. split_and!.
    - constructor; [|exact H1]. exact (classify_tree_ok keq classifiers c [] t Hok Ht).
    - cbn. by f_equal.
    - intros ct. pose proof (build_tree classifiers c Hok) as Hb. rewrite Ht in Hb.
      destruct Hb as (st & Hst & Hr). cbn [mfor fmap list_fmap zip zip_with fst snd].
      rewrite Hst. cbn [mbind result_bind]. rewrite Hr. cbn [or_raise mbind result_bind].
      destruct (addTree keq name t ct) as [ct'|]; [|done]. apply H3. }
  destruct Hall as (Htok & Hnames & Heq). unfold buildCompositeTreeCollection. rewrite Heq.
  destruct (addTrees_spec keq (zip collections.*1 ts) CompositeTree_init Htok) as (ct & -> & Hm).
  - by intros [|k path] m; unfold map_at; cbn; [intros [= <-]|].
  - by rewrite Hnames.
  - exists ct. split; [done|]. intros path. rewrite Hm. by destruct path.
Qed.

(** When every collection can be classified, the composite tree of
    collections with distinct names is built, and a lookup along any path finds exactly
    the sub-collections the single trees hold at that path, in the order of the
    collections and under their names. *)
Theorem buildComposite_lookup (HK : KeyEquiv keq) (classifiers : list Grouping)
    (collections : list (string * C)) (ts : list Tree) :
  Forall (grouping_ok keq) classifiers -> NoDup collections.*1 ->
  mmap (fun p => classify_tree classifiers p.2 []) collections = Ok ts ->
  exists ct, buildCompositeTreeCollection keq collections classifiers = Ok ct /\
    forall path, default [] (getCollectionMap keq ct path) = at_path keq (zip collections.*1 ts) path.
Proof. exact (build_composite HK classifiers collections ts). Qed.
End TreeProperties.

(** Numbers grouped by parity, then by their remainder by three. *)
Definition ex_group (d : Z) : list Z -> list Z -> result (list (Z * list Z)) := fun l _ =>
  Ok (fold_left (fun m x => od_set Z.eqb (x mod d) (default [] (od_get Z.eqb (x mod d) m) ++ [x]) m) l []).

Lemma ex_group_ok d : grouping_ok Z.eqb (ex_group d).
Proof.
  intros l anc m [= <-]. assert (H : distinct_keys Z.eqb ([] : list (Z * list Z))) by constructor.
  revert H. generalize (@nil (Z * list Z)) as acc.
  induction l as [|x l IH]; intros acc H; [done|]. apply IH. by apply od_set_distinct.
Qed.

Definition ex_groups : list (list Z -> list Z -> result (list (Z * list Z))) := [ex_group 2; ex_group 3].

Lemma ex_groups_ok : Forall (grouping_ok Z.eqb) ex_groups.
Proof. repeat (constructor; [apply ex_group_ok|]). constructor. Qed.

Lemma buildTreeCollection_refines_witness :
  exists st, buildTreeCollection Z.eqb [1; 2; 3; 4; 6; 7] ex_groups = Ok st /\
    getCollection Z.eqb st [1; 1] = Some [1; 7].
Proof.
  destruct (buildTreeCollection_refines Z.eqb ex_groups [1; 2; 3; 4; 6; 7] ex_groups_ok) as (st & Hst & _).
  exists st. split; [exact Hst|]. vm_compute in Hst. injection Hst as <-. vm_compute. reflexivity.
Defined.

Lemma buildComposite_lookup_witness :
  exists ct, buildCompositeTreeCollection Z.eqb [("a", [1; 2; 7]); ("b", [4; 5])] ex_groups = Ok ct /\
    getCollectionMap Z.eqb ct [1; 1] = Some [("a", [1; 7])] /\
    getCollectionMap Z.eqb ct [0] = Some [("a", [2]); ("b", [4])].
Proof.
  destruct (buildComposite_lookup Z.eqb Z_eqb_equiv ex_groups [("a", [1; 2; 7]); ("b", [4; 5])]
    (match mmap (fun p => classify_tree ex_groups p.2 []) [("a", [1; 2; 7]); ("b", [4; 5])] with
     | Ok ts => ts | Raise _ => [] end) ex_groups_ok) as (ct & Hct & _).
  - repeat (apply NoDup_cons; split; [set_solver|]). apply NoDup_nil_2.
  - vm_compute. reflexivity.
  - exists ct. split; [exact Hct|]. vm_compute in Hct. injection Hct as <-. split; vm_compute; reflexivity.
Defined.
