(* ===== verification/Aggregate.v ===== *)
(** * Classifying and aggregating transactions

    Models txn/classifier.py, analytics/aggregator.py and the repository of
    txn/repo.py.  An aggregation is a loop that files every item under a key in an
    ordered dict; [filed] is that loop, and its functional specification (under a key
    lies exactly what has that key, in order) is shared by all the aggregations. *)

From S2P Require Import Prelude PyStr Probe Route Txn.

(** ** Filing items under keys *)

Section Filing.
Context {K A V : Type} (keq : K -> K -> bool) (mk : list A -> V) (append : A -> V -> V).

(** [if key in container: container[key].append(value) else: container.update(...)] *)
Definition file (k : K) (x : A) (m : list (K * V)) : list (K * V) :=
  if od_mem keq k m then od_alter keq (append x) k m else od_set keq k (mk [x]) m.

Definition filed (m : list (K * V)) (l : list (K * A)) : list (K * V) :=
  fold_left (fun m p => file p.1 p.2 m) l m.

Context {HK : KeyEquiv keq} (Happend : forall (x : A) (xs : list A), append x (mk xs) = mk (xs ++ [x])).

Definition under (k : K) (l : list (K * A)) : list A :=
  (filter (fun p : K * A => keq k p.1 = true) l : list (K * A)).*2.

Definition filed_inv (l : list (K * A)) (m : list (K * V)) : Prop :=
  distinct_keys keq m /\
  forall k, od_get keq k m = match under k l with [] => None | x :: xs => Some (mk (x :: xs)) end.

Lemma od_get_alter (f : V -> V) k (m : list (K * V)) k' : distinct_keys keq m ->
  od_get keq k' (od_alter keq f k m) = if keq k k' then f <$> od_get keq k' m else od_get keq k' m.
Proof.
  intros Hd. induction Hd as [|[k1 v1] m Hne Hd IH]; cbn; [by destruct (keq k k')|].
  destruct (keq k k1) eqn:E1; cbn.
  - destruct (keq k' k1) eqn:E2.
    + apply (keq_sym keq) in E2. by rewrite (keq_trans keq _ _ _ E1 E2).
    + destruct (keq k k') eqn:E3; [|done]. apply (keq_sym keq) in E3.
      by rewrite (keq_trans keq _ _ _ E3 E1) in E2.
  - destruct (keq k' k1) eqn:E2; [|by rewrite IH].
    destruct (keq k k') eqn:E3; [|done]. by rewrite (keq_trans keq _ _ _ E3 E2) in E1.
Qed.

Lemma under_snoc k l k1 x : under k (l ++ [(k1, x)]) = under k l ++ (if keq k k1 then [x] else []).
Proof.
  unfold under. rewrite filter_app fmap_app. f_equal. rewrite filter_cons. cbn.
  destruct (keq k k1); by rewrite ?decide_True ?decide_False.
Qed.

Lemma filed_inv_step l m k x : filed_inv l m -> filed_inv (l ++ [(k, x)]) (file k x m).
Proof.
  intros [Hd Hm]. unfold file. split.
  { destruct (od_mem keq k m); [by apply od_alter_distinct|by apply od_set_distinct]. }
  intros k'. rewrite under_snoc. destruct (od_mem keq k m) eqn:Emem.
  - apply od_mem_true in Emem as [v Hv]. rewrite od_get_alter // Hm.
    destruct (keq k k') eqn:E.
    + rewrite (keq_sym keq _ _ E). rewrite (od_get_cong keq k k' m E) Hm in Hv.
      destruct (under k' l) as [|y ys]; [done|]. cbn. by rewrite Happend.
    + assert (keq k' k = false) as ->; [|by rewrite app_nil_r].
      destruct (keq k' k) eqn:E'; [|done]. apply (keq_sym keq) in E'. congruence.
  - apply od_mem_false in Emem. rewrite od_get_set Hm. destruct (keq k k') eqn:E.
    + rewrite (keq_sym keq _ _ E). rewrite (od_get_cong keq k k' m E) Hm in Emem.
      by destruct (under k' l).
    + assert (keq k' k = false) as ->; [|by rewrite app_nil_r].
      destruct (keq k' k) eqn:E'; [|done]. apply (keq_sym keq) in E'. congruence.
Qed.

(** Under a key lies what has that key. *)
Lemma filed_spec l : filed_inv l (filed [] l).
Proof.
  induction l as [|[k x] l IH] using rev_ind; [split; [constructor|done]|].
  unfold filed in *. rewrite fold_left_app. by apply filed_inv_step.
Qed.
End Filing.

(** ** Classifiers *)

(** The type mapper of a [ProbeDataClassifier] is the user's callback. *)
Inductive Classifier :=
  | DefaultClassifier
  | ProbeDataClassifier (probe : Probe) (typeMapper : option string -> string).

Definition ProbeDataClassifier_init (probe : option Probe) (typeMapper : option (option string -> string))
    : result Classifier :=
  match probe, typeMapper with
  | Some p, Some f => Ok (ProbeDataClassifier p f)
  | _, _ => Raise Exception_
  end.

Definition classify (c : Classifier) (txn : Transaction) : result string :=
  match c with
  | DefaultClassifier => Ok "Transaction"
  | ProbeDataClassifier probe typeMapper =>
      counter ← getCounterForProbe txn probe 0;
      match counter with
      | Some c => Ok (typeMapper (Some (data c)))
      | None => Ok (typeMapper None)
      end
  end.

(** ** Aggregation *)

Section Aggregators.
Context {HH : RouteHash} {M : Type}.
Abbreviation SubCollection := (TxnSubCollection M).

(** A transaction that was not finalized has the route [None]. *)
Definition txn_route (t : Transaction) : option Route := iroute <$> tindex t.
Definition oroute_keq (a b : option Route) : bool :=
  match a, b with
  | Some a, Some b => route_keq a b
  | None, None => true
  | _, _ => false
  end.

Definition txnSubCollectionFactory (sc : SubCollection) (t : Transaction) : SubCollection :=
  sc_append (cloneMetaData sc) t.

Definition addTxn (routeMap : list (option Route * SubCollection)) (sc : SubCollection)
    (route : option Route) (t : Transaction) : list (option Route * SubCollection) :=
  if od_mem oroute_keq route routeMap
  then od_alter oroute_keq (fun c => sc_append c t) route routeMap
  else od_set oroute_keq route (txnSubCollectionFactory sc t) routeMap.

(** [RouteAggregator.aggregateTxnsByRoutes]. *)
Definition aggregateTxnsByRoutes (sc : SubCollection) : list (option Route * SubCollection) :=
  fold_left (fun m t => addTxn m sc (txn_route t) t) (transactions sc) [].

(** [if conflateRoutes(txn.route, dstRoute)] *)
Definition conflatable (t : Transaction) (dst : option Route) : result bool :=
  match txn_route t, dst with
  | Some src, Some dst => Ok (truthy_indices (conflateRoutes src dst))
  | _, _ => Raise AttributeError_
  end.

(** [RouteConflatingAggregator.aggregateTxnsByRoutes]; [routes] are the children of the
    source tree's node at the ancestry. *)
Definition conflateTxnsByRoutes (routes : list (option Route)) (sc : SubCollection)
    : result (list (option Route * SubCollection)) :=
  mfor (fun m t =>
    mfor (fun m dst => b ← conflatable t dst; Ok (if b : bool then addTxn m sc dst t else m)) m routes)
    [] (transactions sc).

(** [_addOrUpdateContainer]. *)
Definition addOrUpdateContainer {A V : Type} (mk : A -> V) (append : A -> V -> V) (c : Classifier)
    (container : list (string * V)) (txn : Transaction) (value : A) : result (list (string * V)) :=
  category ← classify c txn;
  Ok (if od_mem String.eqb category container
      then od_alter String.eqb (append value) category container
      else od_set String.eqb category (mk value) container).

Definition groupElapsedTscByScope (sc : SubCollection) (beginProbe endProbe : Probe) (c : Classifier)
    : result (list (string * list Z)) :=
  mfor (fun g t =>
    b ← hasProbes t [beginProbe; endProbe];
    if b : bool then
      beginCounter ← getCounterForProbe t beginProbe 0;
      endCounter ← getCounterForProbe t endProbe 0;
      match endCounter, beginCounter with
      | Some e, Some b => addOrUpdateContainer (fun v => [v]) (fun v l => l ++ [v]) c g t (tsc e - tsc b)
      | _, _ => Raise AttributeError_
      end
    else Ok g) [] (transactions sc).

(** [if txn:] is false for a transaction without counters. *)
Definition groupElapsedTime {F : Type} {HF : PyFloat F} (cpu : CpuInfo F) (sc : SubCollection)
    (c : Classifier) : result (list (string * list F)) :=
  mfor (fun g t =>
    match counters t with
    | [] => Ok g
    | _ =>
        elapsed ← getElapsedTsc t;
        time ← convertCyclesToTime cpu elapsed;
        addOrUpdateContainer (fun v => [v]) (fun v l => l ++ [v]) c g t time
    end) [] (transactions sc).

Definition groupTxns (sc : SubCollection) (c : Classifier) (mustHaveProbes : list Probe)
    : result (list (string * SubCollection)) :=
  mfor (fun g t =>
    b ← match mustHaveProbes with [] => Ok true | ps => hasProbes t ps end;
    if b : bool then addOrUpdateContainer (txnSubCollectionFactory sc) (fun t c => sc_append c t) c g t t
    else Ok g) [] (transactions sc).

(** *** What the aggregations compute *)

#[export] Instance oroute_keq_equiv : KeyEquiv oroute_keq.
Proof.
  assert (Hr : forall r r', route_keq r r' = true <-> Route_hash r = Route_hash r').
  { intros r r'. unfold route_keq, Route_eq. by rewrite bool_decide_eq_true_2 // andb_true_r Z.eqb_eq. }
  split; intros [a|]; try intros [b|]; try intros [d|]; cbn; rewrite ?Hr; congruence.
Qed.

Lemma addTxn_file sc m r t : addTxn m sc r t =
  file oroute_keq (mkSubCollection (sc_meta sc)) (fun t c => sc_append c t) r t m.
Proof. done. Qed.

Definition pairs_of {K A B} (key : A -> K) (val : A -> B) (l : list A) : list (K * B) :=
  (fun x => (key x, val x)) <$> l.

Lemma under_pairs {K A B} (keq : K -> K -> bool) (key : A -> K) (val : A -> B) l k :
  under keq k (pairs_of key val l) = val <$> filter (fun x => keq k (key x) = true) l.
Proof.
  unfold under, pairs_of. induction l as [|x l IH]; [done|]. cbn [fmap list_fmap].
  rewrite !filter_cons. cbn [fst]. destruct (decide _); cbn; by rewrite IH.
Qed.

(** A dict's values put together in order. *)
Lemma aggregate_filed sc : aggregateTxnsByRoutes sc =
  filed oroute_keq (mkSubCollection (sc_meta sc)) (fun t c => sc_append c t) []
    (pairs_of txn_route (fun t => t) (transactions sc)).
Proof.
  unfold aggregateTxnsByRoutes, filed, pairs_of. generalize (@nil (option Route * SubCollection)).
  induction (transactions sc) as [|t ts IH]; intros m; [done|]. cbn. apply IH.
Qed.

(** Classifying loops: the categories of the selected transactions. *)
Lemma group_filed {A V} (mk : list A -> V) (append : A -> V -> V) c (ts : list Transaction)
    (sel : Transaction -> result (option A)) g g' :
  mfor (fun g t => o ← sel t;
    match o with
    | Some v => addOrUpdateContainer (fun v => mk [v]) append c g t v
    | None => Ok g
    end) g ts = Ok g' ->
  exists l, mmap (fun t => o ← sel t; match o with Some v => k ← classify c t; Ok (Some (k, v)) | None => Ok None end) ts
      = Ok l /\ g' = filed String.eqb mk append g (omap (fun o => o) l).
Proof.
  revert g. induction ts as [|t ts IH]; intros g; cbn [mfor mmap]; [intros [= <-]; by exists []|].
  intros H. apply bind_Ok in H as (g1 & H1 & H). apply bind_Ok in H1 as (o & Ho & H1).
  rewrite Ho. cbn [mbind result_bind]. destruct o as [v|].
  - unfold addOrUpdateContainer in H1. apply bind_Ok in H1 as (k & Hk & [= <-]).
    rewrite Hk. cbn [mbind result_bind]. destruct (IH _ H) as (l & -> & ->). by exists (Some (k, v) :: l).
  - injection H1 as <-. destruct (IH _ H) as (l & -> & ->). by exists (None :: l).
Qed.
End Aggregators.

(** ** Nothing is lost *)

Section Conserve.
Context {K A V : Type} (keq : K -> K -> bool) (mk : list A -> V) (append : A -> V -> V) (items : V -> list A).
Context (Hmk : forall l, items (mk l) = l) (Happ : forall x v, items (append x v) = items v ++ [x]).

Lemma alter_items k x (m : list (K * V)) v : od_get keq k m = Some v ->
  (od_alter keq (append x) k m).*2 ≫= items ≡ₚ (m.*2 ≫= items) ++ [x].
Proof.
  induction m as [|[k1 v1] m IH]; cbn; [done|]. destruct (keq k k1); cbn.
  - intros _. rewrite Happ -!app_assoc. f_equiv. apply Permutation_app_comm.
  - intros E. by rewrite (IH E) app_assoc.
Qed.

Lemma file_items k x (m : list (K * V)) :
  (file keq mk append k x m).*2 ≫= items ≡ₚ (m.*2 ≫= items) ++ [x].
Proof.
  unfold file, od_mem. destruct (od_get keq k m) eqn:E.
  - by eapply alter_items, E.
  - rewrite od_set_fresh // fmap_app bind_app. cbn. by rewrite Hmk.
Qed.

Lemma filed_items l (m : list (K * V)) :
  (filed keq mk append m l).*2 ≫= items ≡ₚ (m.*2 ≫= items) ++ l.*2.
Proof.
  revert m. induction l as [|[k x] l IH]; intros m; cbn; [by rewrite app_nil_r|].
  change (filed keq mk append m ((k, x) :: l)) with (filed keq mk append (file keq mk append k x m) l).
  by rewrite IH file_items -app_assoc.
Qed.
End Conserve.

(** ** Properties *)

Section Properties.
Context {HH : RouteHash} {M : Type}.
Implicit Types sc : TxnSubCollection M.

(** The sub-collection of the transactions that pass a test. *)
Definition group_of (meta : M) (ts : list Transaction) : option (TxnSubCollection M) :=
  match ts with [] => None | t :: ts => Some (mkSubCollection meta (t :: ts)) end.

Definition flattened {K} (m : list (K * TxnSubCollection M)) : list Transaction :=
  m.*2 ≫= transactions.

Lemma aggregate_groups sc :
  (forall r, od_get oroute_keq r (aggregateTxnsByRoutes sc) =
    group_of (sc_meta sc) (filter (fun t => oroute_keq r (txn_route t) = true) (transactions sc))) /\
  flattened (aggregateTxnsByRoutes sc) ≡ₚ transactions sc.
Proof.
  rewrite aggregate_filed. split.
  - intros r. rewrite (proj2 (filed_spec oroute_keq _ (fun t c => sc_append c t) (fun _ _ => eq_refl) _) r).
    rewrite under_pairs list_fmap_id. by destruct (filter _ _).
  - unfold flattened. rewrite filed_items //. unfold pairs_of. cbn.
    by rewrite -list_fmap_compose list_fmap_id.
Qed.

(** Aggregating by route files every transaction under its own route: the
    group of a route holds exactly the transactions whose route is that key, in their
    original order and with the collection's metadata, and the groups together hold every
    transaction once. *)
Theorem aggregateTxnsByRoutes_partition sc :
  (forall r, od_get oroute_keq r (aggregateTxnsByRoutes sc) =
    group_of (sc_meta sc) (filter (fun t => oroute_keq r (txn_route t) = true) (transactions sc))) /\
  flattened (aggregateTxnsByRoutes sc) ≡ₚ transactions sc.
Proof. apply aggregate_groups. Qed.

Lemma groupTxns_filed sc c g : groupTxns sc c [] = Ok g ->
  exists ks, mmap (classify c) (transactions sc) = Ok ks /\
    g = filed String.eqb (mkSubCollection (sc_meta sc)) (fun t c => sc_append c t) [] (zip ks (transactions sc)).
Proof.
  unfold groupTxns, filed. generalize (@nil (string * TxnSubCollection M)).
  induction (transactions sc) as [|t ts IH]; intros m; cbn [mfor mmap]; [intros [= <-]; by exists []|].
  intros H. apply bind_Ok in H as (m1 & H1 & H). cbn in H1. unfold addOrUpdateContainer in H1.
  apply bind_Ok in H1 as (k & Hk & [= <-]). rewrite Hk. destruct (IH _ H) as (ks & -> & ->).
  by exists (k :: ks).
Qed.

Definition classified (c : Classifier) (k : string) (t : Transaction) : bool :=
  match classify c t with Ok k' => String.eqb k k' | Raise _ => false end.

Lemma under_classified c k ts ks : mmap (classify c) ts = Ok ks ->
  under String.eqb k (zip ks ts) = filter (fun t => classified c k t = true) ts.
Proof.
  revert ks. induction ts as [|t ts IH]; intros ks; cbn [mmap]; [by intros [= <-]|].
  intros H. apply bind_Ok in H as (k' & Hk' & H). apply bind_Ok in H as (ks' & Hks & [= <-]).
  specialize (IH ks' Hks). unfold under in *. cbn [zip zip_with].
  rewrite (filter_cons_bool (fun p => String.eqb k p.1)) (filter_cons_bool (classified c k)). cbn [fst].
  assert (Hc : classified c k t = String.eqb k k') by (unfold classified; by rewrite Hk').
  rewrite Hc. destruct (String.eqb k k'); by rewrite ?fmap_cons IH.
Qed.

Lemma group_groups sc c g : groupTxns sc c [] = Ok g ->
  (forall k, od_get String.eqb k g =
    group_of (sc_meta sc) (filter (fun t => classified c k t = true) (transactions sc))) /\
  flattened g ≡ₚ transactions sc.
Proof.
  intros H. destruct (groupTxns_filed sc c g H) as (ks & Hks & ->). split.
  - intros k. rewrite (proj2 (filed_spec String.eqb _ (fun t c => sc_append c t) (fun _ _ => eq_refl) _) k).
    rewrite (under_classified c k _ _ Hks). by destruct (filter _ _).
  - unfold flattened. rewrite filed_items //. cbn. rewrite snd_zip //.
    apply mmap_Ok_length in Hks. by rewrite Hks.
Qed.

(** Grouping by category files every transaction under the category its
    classifier gives it, in order and with the collection's metadata, and loses none. *)
Theorem groupTxns_partition sc c g : groupTxns sc c [] = Ok g ->
  (forall k, od_get String.eqb k g =
    group_of (sc_meta sc) (filter (fun t => classified c k t = true) (transactions sc))) /\
  flattened g ≡ₚ transactions sc.
Proof. apply group_groups. Qed.

(** *** Conflating aggregation *)

Definition is_conflatable (r : option Route) (t : Transaction) : bool :=
  match conflatable t r with Ok b => b | Raise _ => false end.

Definition conflated_pairs (routes : list (option Route)) (ts : list Transaction)
    : list (option Route * Transaction) :=
  ts ≫= fun t => (fun r => (r, t)) <$> filter (fun r => is_conflatable r t = true) routes.

Lemma conflate_inner (sc : TxnSubCollection M) t routes m m' :
  mfor (fun m dst => b ← conflatable t dst; Ok (if b : bool then addTxn m sc dst t else m)) m routes = Ok m' ->
  m' = filed oroute_keq (mkSubCollection (sc_meta sc)) (fun t c => sc_append c t) m
         ((fun r => (r, t)) <$> filter (fun r => is_conflatable r t = true) routes).
Proof.
  revert m. induction routes as [|r routes IH]; intros m; cbn [mfor]; [by intros [= <-]|].
  intros H. apply bind_Ok in H as (m1 & H1 & H). apply bind_Ok in H1 as (b & Hb & [= <-]).
  assert (Hc : is_conflatable r t = b) by (unfold is_conflatable; by rewrite Hb). clear Hb.
  rewrite (IH _ H) (filter_cons_bool (fun r => is_conflatable r t)). by rewrite Hc; destruct b.
Qed.

Lemma conflate_filed sc routes m : conflateTxnsByRoutes routes sc = Ok m ->
  m = filed oroute_keq (mkSubCollection (sc_meta sc)) (fun t c => sc_append c t) []
        (conflated_pairs routes (transactions sc)).
Proof.
  unfold conflateTxnsByRoutes, conflated_pairs. generalize (@nil (option Route * TxnSubCollection M)).
  induction (transactions sc) as [|t ts IH]; intros m0; cbn [mfor]; [by intros [= <-]|].
  intros H. apply bind_Ok in H as (m1 & H1 & H). rewrite (IH _ H) (conflate_inner sc t routes m0 m1 H1).
  cbn [mbind list_bind]. unfold filed. by rewrite fold_left_app.
Qed.

Lemma filter_keq_routes r (routes : list (option Route)) (P : option Route -> bool) :
  ForallOrdPairs (fun a b => oroute_keq b a = false) routes -> r ∈ routes ->
  filter (fun r' => oroute_keq r r' = true) (filter (fun r => P r = true) routes) =
  if P r then [r] else [].
Proof.
  intros Hd. induction Hd as [|a routes Hne Hd IH]; [by intros ?%elem_of_nil|].
  intros [-> | Hin]%elem_of_cons.
  - assert (Hnone : filter (fun r' => oroute_keq a r' = true) (filter (fun r => P r = true) routes) = []).
    { apply filter_none, Forall_forall. intros b Hb.
      apply list_elem_of_filter in Hb as [_ Hb]. forall_elim Hne. intros E.
      apply (keq_sym oroute_keq) in E. by rewrite (Hne b Hb) in E. }
    rewrite (filter_cons_bool P). destruct (P a); [|done].
    by rewrite (filter_cons_bool (oroute_keq a)) (keq_refl oroute_keq) Hnone.
  - forall_elim Hne. rewrite (filter_cons_bool P). destruct (P a); [|by apply IH].
    rewrite (filter_cons_bool (oroute_keq r)) (Hne r Hin). by apply IH.
Qed.

Lemma under_conflated routes ts r : ForallOrdPairs (fun a b => oroute_keq b a = false) routes ->
  r ∈ routes -> under oroute_keq r (conflated_pairs routes ts) = filter (fun t => is_conflatable r t = true) ts.
Proof.
  intros Hd Hr. unfold under, conflated_pairs. induction ts as [|t ts IH]; [done|].
  cbn [mbind list_bind]. rewrite filter_app fmap_app IH (filter_cons_bool (is_conflatable r)).
  pose proof (filter_keq_routes r routes (fun r => is_conflatable r t) Hd Hr) as Hf. cbn beta in Hf.
  assert (forall l : list (option Route),
    (filter (fun p : option Route * Transaction => oroute_keq r p.1 = true) ((fun r => (r, t)) <$> l)).*2 =
    (fun _ => t) <$> filter (fun r' => oroute_keq r r' = true) l) as ->.
  { clear. intros l. induction l as [|a l IH]; [done|]. cbn [fmap list_fmap].
    rewrite (filter_cons_bool (fun p => oroute_keq r p.1)) (filter_cons_bool (oroute_keq r)). cbn [fst].
    destruct (oroute_keq r a); cbn; by rewrite -IH. }
  rewrite Hf. by destruct (is_conflatable r t).
Qed.

Lemma conflate_groups sc (routes : list Route) m :
  ForallOrdPairs (fun a b => route_keq b a = false) routes ->
  conflateTxnsByRoutes (Some <$> routes) sc = Ok m ->
  forall r, r ∈ routes ->
    exists ts, od_get oroute_keq (Some r) m = group_of (sc_meta sc) ts /\
      ts `sublist_of` transactions sc /\
      forall t, t ∈ ts <-> t ∈ transactions sc /\
        exists src, txn_route t = Some src /\ rpoints r <> [] /\ rpoints r `sublist_of` rpoints src.
Proof.
  intros Hd H r Hr. rewrite (conflate_filed _ _ _ H).
  exists (filter (fun t => is_conflatable (Some r) t = true) (transactions sc)). split_and!.
  - rewrite (proj2 (filed_spec oroute_keq _ (fun t c => sc_append c t) (fun _ _ => eq_refl) _) (Some r)).
    rewrite under_conflated; [|by apply list_elem_of_fmap_2|by destruct (filter _ _)].
    clear -Hd. induction Hd as [|a routes Hne Hd IH]; cbn; constructor; [|done].
    by apply Forall_fmap.
  - clear. induction (transactions sc) as [|t ts IH]; [constructor|]. rewrite filter_cons.
    destruct (decide _); by constructor.
  - intros t. rewrite list_elem_of_filter. unfold is_conflatable, conflatable.
    destruct (txn_route t) as [src|]; [|naive_solver]. rewrite truthy_conflate. naive_solver.
Qed.

(** C11 (conflated routes): aggregating a benchmark by the routes of the current run files
    a transaction under exactly those routes that are not empty and whose points are a
    subsequence of the transaction's own, so a transaction can count for several routes;
    every group keeps the transactions' order. *)
Theorem conflateTxnsByRoutes_spec sc (routes : list Route) m :
  ForallOrdPairs (fun a b => route_keq b a = false) routes ->
  conflateTxnsByRoutes (Some <$> routes) sc = Ok m ->
  forall r, r ∈ routes ->
    exists ts, od_get oroute_keq (Some r) m = group_of (sc_meta sc) ts /\
      ts `sublist_of` transactions sc /\
      forall t, t ∈ ts <-> t ∈ transactions sc /\
        exists src, txn_route t = Some src /\ rpoints r <> [] /\ rpoints r `sublist_of` rpoints src.
Proof. apply conflate_groups. Qed.
End Properties.

(** ** Witnesses *)

#[local] Instance ex_agg_hash : RouteHash := fun ps => Z.of_nat (length ps).

(** Three transactions with routes a-b-a, a and a-b-a. *)
Definition ex_sub : TxnSubCollection unit :=
  let mk id cs := mkTransaction (IdInt id) cs None None None true in
  match finalize_all [] [(IdInt 1, mk 1 ex_hits); (IdInt 2, mk 2 (take 1 ex_hits)); (IdInt 3, mk 3 ex_hits)] with
  | Ok (l, _) => mkSubCollection tt l.*2
  | Raise _ => mkSubCollection tt []
  end.

(** Categorize by the data a probe's counter carries. *)
Definition ex_classifier : Classifier :=
  ProbeDataClassifier (ex_named "b") (fun o => match o with Some _ => "with b" | None => "without b" end).
Definition ex_groups : list (string * TxnSubCollection unit) :=
  match groupTxns ex_sub ex_classifier [] with Ok g => g | Raise _ => [] end.

Lemma groupTxns_partition_witness :
  groupTxns ex_sub ex_classifier [] = Ok ex_groups /\ flattened ex_groups ≡ₚ transactions ex_sub /\
  (fun p => (p.1, txnId <$> transactions p.2)) <$> ex_groups =
    [("with b", [IdInt 1; IdInt 3]); ("without b", [IdInt 2])].
Proof.
  assert (H : groupTxns ex_sub ex_classifier [] = Ok ex_groups) by (vm_compute; reflexivity).
  split; [exact H|]. split; [|vm_compute; reflexivity].
  exact (proj2 (groupTxns_partition ex_sub ex_classifier ex_groups H)).
Defined.

Definition ex_routes : list Route := [mkRoute [] [Some "a"; Some "b"]; mkRoute [] [Some "a"]].
Definition ex_conflated : list (option Route * TxnSubCollection unit) :=
  match conflateTxnsByRoutes (Some <$> ex_routes) ex_sub with Ok m => m | Raise _ => [] end.

Lemma conflateTxnsByRoutes_spec_witness :
  exists ts, od_get oroute_keq (Some (mkRoute [] [Some "a"])) ex_conflated = group_of tt ts /\
    txnId <$> ts = [IdInt 1; IdInt 2; IdInt 3].
Proof.
  assert (H : conflateTxnsByRoutes (Some <$> ex_routes) ex_sub = Ok ex_conflated) by (vm_compute; reflexivity).
  assert (Hd : ForallOrdPairs (fun a b => route_keq b a = false) ex_routes) by (repeat constructor).
  destruct (conflateTxnsByRoutes_spec ex_sub ex_routes ex_conflated Hd H (mkRoute [] [Some "a"]))
    as (ts & Hts & _); [right; left|].
  exists ts. split; [exact Hts|]. vm_compute in Hts. destruct ts as [|t ts]; [discriminate|].
  injection Hts as <- <-. reflexivity.
Defined.
