(* ===== verification/Timeline.v ===== *)
(** * Timelines and delta series

    Models analytics/timeline.py: the timelines of a route's transactions, and the
    repository of delta series (durations, pmu counter deltas, topdown values) that the
    reports read.

    Times are floats of the class [PyFloat]; the int 0 that marks the start and the last
    point's duration is promoted.  A pmu delta is an int, or NaN when the two samples
    come from different threads: [option Z], with [None] for NaN. *)

From S2P Require Import Prelude PyStr Probe Route Txn.

(** ** Events and topdown metrics *)

(** [pmu/event.py: Event]. *)
Record Event := mkEvent { ename : string; uarchName : string; euser : bool; ekernel : bool }.

(** The keys of [TopdownMetrics.topdownKeys]: nodes with the names of their children, and
    predefined metrics. *)
Inductive TopdownKey := NodeKey (name : string) (children : list string) | MetricKey (name : string).

(** [TopdownNode.visit] and [Metric.visit]. *)
Definition visit (k : TopdownKey) (metrics : list string) : list string :=
  match k with
  | NodeKey name [] => metrics ++ [name]
  | NodeKey _ children => metrics ++ children
  | MetricKey name => metrics ++ [name]
  end.

(** [CounterMap]: the index of an event's counter, and the counters. *)
Record CounterMap := mkCounterMap { eventsMap : list (string * nat); cm_counters : list (option Z) }.

Section Timeline.
Context {F : Type} {HF : PyFloat F}.

Record TopdownValue := mkTopdownValue { tv_name : string; tv_value : F; breached : bool }.

(** The operations of a [TopdownMetrics] object that the analytics call. *)
Record TopdownMetrics := mkTopdownMetrics {
  topdownKeys : list TopdownKey;
  compute : CounterMap -> result (list TopdownValue)
}.

(** [CounterMap.__getitem__]. *)
Definition cm_get (m : CounterMap) (eventName : string) : result F :=
  i ← or_raise KeyError_ (od_get String.eqb eventName (eventsMap m));
  c ← py_nth (cm_counters m) i;
  Ok (match c with Some z => f_of_Z z | None => f_nan end).

(** ** Time points and timelines *)

Record TimePoint := mkTimePoint {
  tp_name : string;
  tp_point : F;
  tp_duration : F;
  tp_pmcNames : option (list string);
  tp_deltaPmcs : option (list (option Z));
  tp_topdown : option (list TopdownValue);
  tp_data : option string
}.

Record Timeline := mkTimeline {
  tl_txn : Transaction;
  tl_tsc : Z;
  tl_txnId : TxnId;
  tl_points : list TimePoint;
  tl_endpoint : option TimePoint;
  tl_inception : option Z
}.

(** [Timeline.__init__]. *)
Definition Timeline_init (t : Transaction) : result Timeline :=
  c ← py_nth (counters t) 0; Ok (mkTimeline t (tsc c) (txnId t) [] None None).

Definition tl_duration (t : Timeline) : result F :=
  match tl_endpoint t with Some e => Ok (tp_duration e) | None => Raise AttributeError_ end.

(** ** Delta series *)

(** A value of a series: a time, a pmu counter delta, or a topdown value. *)
Inductive Delta := DFlt (x : F) | DPmc (o : option Z).

Record DeltaSeries := mkSeries { beginProbeName : string; endProbeName : string; series : list Delta }.
Record DeltaSeriesCollection := mkSeriesColl { eventName : string; deltaSeriesList : list DeltaSeries }.
Record DeltaSeriesRepo := mkRepo {
  seriesMap : list (string * DeltaSeriesCollection);
  revents : list Event;
  rtopdownKeys : list TopdownKey;
  eventNames : list string
}.

Definition TSC_EVENT_NAME : string := "wall time".

Definition addDelta (d : Delta) (s : DeltaSeries) : DeltaSeries :=
  mkSeries (beginProbeName s) (endProbeName s) (series s ++ [d]).
Definition addDeltaSeries (s : DeltaSeries) (c : DeltaSeriesCollection) : DeltaSeriesCollection :=
  mkSeriesColl (eventName c) (deltaSeriesList c ++ [s]).

Definition pmcNames (r : DeltaSeriesRepo) : list string := ename <$> revents r.

(** The series between consecutive probes and the one from the first to the last. *)
Definition probe_series (probes : list Probe) : list DeltaSeries :=
  zip_with (fun a b => mkSeries (pname a) (pname b) []) probes (tail probes) ++ [mkSeries "Begin" "End" []].

Definition DeltaSeriesRepo_init (events : list Event) (keys : list TopdownKey) (probes : list Probe)
    : DeltaSeriesRepo :=
  let topdownNames := fold_left (fun ns k => visit k ns) keys [] in
  let names := (ename <$> events) ++ topdownNames in
  let m := fold_left (fun m n => od_set String.eqb n (mkSeriesColl n []) m) names
             [(TSC_EVENT_NAME, mkSeriesColl TSC_EVENT_NAME [])] in
  let m := (fun p => (p.1, fold_left (fun c s => addDeltaSeries s c) (probe_series probes) p.2)) <$> m in
  mkRepo m events keys names.

(** [buildEventsMap]: event name to index; the last of equal names wins. *)
Definition buildEventsMap (r : DeltaSeriesRepo) : option (list (string * nat)) :=
  match revents r with
  | [] => None
  | es => Some (fold_left (fun m p => od_set String.eqb (uarchName p.2) p.1 m) (imap (fun i e => (i, e)) es) [])
  end.

(** [deltaSeriesRepo[name][i].addDelta(d)]. *)
Definition repo_add (name : string) (i : nat) (d : Delta) (r : DeltaSeriesRepo) : result DeltaSeriesRepo :=
  c ← or_raise KeyError_ (od_get String.eqb name (seriesMap r));
  s ← py_nth (deltaSeriesList c) i;
  let c := mkSeriesColl (eventName c) (<[i := addDelta d s]> (deltaSeriesList c)) in
  Ok (mkRepo (od_set String.eqb name c (seriesMap r)) (revents r) (rtopdownKeys r) (eventNames r)).

(** [deltaSeriesRepo[name][-1].addDelta(d)]. *)
Definition repo_add_last (name : string) (d : Delta) (r : DeltaSeriesRepo) : result DeltaSeriesRepo :=
  c ← or_raise KeyError_ (od_get String.eqb name (seriesMap r));
  match deltaSeriesList c with
  | [] => Raise IndexError_
  | l => repo_add name (length l - 1) d r
  end.

(** ** Statistics of a series

    [numpy] computes the statistics; the series caches them until its length changes. *)

Section Stats.
Context {S : Type} (numpy : list Delta -> S).

Record SeriesStats := mkSeriesStats { ss_series : list Delta; ss_count : nat; ss_stats : option S }.

Definition SeriesStats_init : SeriesStats := mkSeriesStats [] 0 None.
Definition ss_addDelta (d : Delta) (s : SeriesStats) : SeriesStats :=
  mkSeriesStats (ss_series s ++ [d]) (ss_count s) (ss_stats s).

(** [_computeStats]. *)
Definition computeStats (s : SeriesStats) : SeriesStats :=
  match ss_series s with
  | [] => s
  | l => if (ss_count s =? length l)%nat then s else mkSeriesStats l (length l) (Some (numpy l))
  end.

(** [getStats] and the other getters. *)
Definition getStats (s : SeriesStats) : option S * SeriesStats :=
  let s := computeStats s in (ss_stats s, s).
End Stats.

(** ** buildTimelineStats *)

(** The metadata of the sub-collection. *)
Record Meta := mkMeta {
  m_name : string;
  m_cpuInfo : CpuInfo F;
  m_probes : list Probe;
  m_topdown : option TopdownMetrics;
  m_events : list Event
}.

Record TimelineStats := mkTimelineStats {
  ts_name : string;
  ts_cpuInfo : CpuInfo F;
  ts_category : string;
  ts_route : Route;
  ts_reportProbes : list Probe;
  timelineCollection : list Timeline;
  deltaSeriesRepo : DeltaSeriesRepo
}.

(** The loop variables while one transaction is turned into a timeline. *)
Record Builder := mkBuilder {
  b_first : option Counter;
  b_prev : option Counter;
  b_maxTsc : Z;
  b_endPmcs : list Z;
  b_points : list TimePoint;
  b_repo : DeltaSeriesRepo
}.

Section Build.
Context (cpu : CpuInfo F) (topdown : option TopdownMetrics) (pmcCount : nat) (probes : list Probe)
  (emap : option (list (string * nat))).

(** The pmu deltas of one step: what the time point and the endpoint get. *)
Definition pmc_delta (c prev : Counter) (k : nat) : result (option Z) :=
  if String.eqb (threadId c) (threadId prev) then
    x ← py_nth (pmcs c) k; y ← py_nth (pmcs prev) k; Ok (Some (x - y))
  else Ok None.

Definition add_pmcs (c prev : Counter) (names : list string) (i : nat)
    (st : list Z * list (option Z) * DeltaSeriesRepo)
    : result (list Z * list (option Z) * DeltaSeriesRepo) :=
  mfor (fun '(ends, deltas, repo) k =>
    d ← pmc_delta c prev k;
    name ← py_nth names k;
    repo ← repo_add name i (DPmc d) repo;
    Ok (alter (fun e => e + default 0 d) k ends, deltas ++ [d], repo)) st (seq 0 pmcCount).

Definition add_topdown (add : string -> Delta -> DeltaSeriesRepo -> result DeltaSeriesRepo)
    (deltas : list (option Z)) (repo : DeltaSeriesRepo)
    : result (option (list TopdownValue) * DeltaSeriesRepo) :=
  match topdown with
  | None => Ok (None, repo)
  | Some tm =>
      m ← or_raise TypeError_ emap;
      vs ← compute tm (mkCounterMap m deltas);
      repo ← mfor (fun repo v => add (tv_name v) (DFlt (tv_value v)) repo) repo vs;
      Ok (Some vs, repo)
  end.

(** The body of the loop over the route's indices: [i] counts the points, [j] is the
    position of the counter in the transaction. *)
Definition tl_step (t : Transaction) (b : Builder) (ij : nat * nat) : result Builder :=
  let '(i, j) := ij in
  probe ← py_nth probes i;
  counter ← py_nth (counters t) j;
  same ← compareProbes probe (cprobe counter);
  if negb same then Raise InvariantViloation
  else
    let maxTsc := Z.max (b_maxTsc b) (tsc counter) in
    match b_first b, b_prev b with
    | Some first, Some prev =>
        if tsc counter =? 0 then Raise InvariantViloation
        else
          duration ← convertCyclesToTime cpu (tsc counter - tsc prev);
          point ← convertCyclesToTime cpu (tsc prev - tsc first);
          before ← py_nth probes (i - 1);
          if (length (pmcs counter) <? pmcCount)%nat then Raise InvariantViloation
          else
            '(ends, names, deltas, td, repo) ←
              (match pmcCount with
               | O => Ok (b_endPmcs b, None, None, None, b_repo b)
               | _ =>
                   '(ends, deltas, repo) ← add_pmcs counter prev (pmcNames (b_repo b)) (i - 1)
                                             (b_endPmcs b, [], b_repo b);
                   '(td, repo) ← add_topdown (fun n => repo_add n (i - 1)) deltas repo;
                   Ok (ends, Some (pmcNames (b_repo b)), Some deltas, td, repo)
               end);
            repo ← repo_add TSC_EVENT_NAME (i - 1) (DFlt duration) repo;
            Ok (mkBuilder (Some first) (Some counter) maxTsc ends
                  (b_points b ++ [mkTimePoint (pname before) point duration names deltas td (Some (data prev))])
                  repo)
    | _, _ => Ok (mkBuilder (Some counter) (Some counter) maxTsc (b_endPmcs b) (b_points b) (b_repo b))
    end.

(** The time points of one transaction, with its endpoint. *)
Definition buildTimeline (t : Transaction) (indices : list nat) (repo : DeltaSeriesRepo)
    : result (list TimePoint * TimePoint * Counter * DeltaSeriesRepo) :=
  b ← mfor (tl_step t) (mkBuilder None None 0 (replicate pmcCount 0) [] repo)
        (imap (fun i j => (i, j)) indices);
  match b_first b, b_prev b with
  | Some first, Some prev =>
      point ← convertCyclesToTime cpu (tsc prev - tsc first);
      final ← or_raise IndexError_ (last probes);
      let points := b_points b ++
        [mkTimePoint (pname final) point (f_of_Z 0) None None None (Some (data prev))] in
      duration ← convertCyclesToTime cpu (b_maxTsc b - tsc first);
      '(names, deltas, td, repo) ←
        (match pmcCount with
         | O => Ok (None, None, None, b_repo b)
         | _ =>
             let names := pmcNames (b_repo b) in
             repo ← mfor (fun repo k => name ← py_nth names k; d ← py_nth (b_endPmcs b) k;
                       repo_add_last name (DPmc (Some d)) repo) (b_repo b) (seq 0 (length (b_endPmcs b)));
             '(td, repo) ← add_topdown repo_add_last (Some <$> b_endPmcs b) repo;
             Ok (Some names, Some (Some <$> b_endPmcs b), td, repo)
         end);
      repo ← repo_add_last TSC_EVENT_NAME (DFlt duration) repo;
      Ok (points, mkTimePoint "end" (f_of_Z 0) duration names deltas td None, first, repo)
  | _, _ => Raise AttributeError_
  end.
End Build.

(** The state of the loop over transactions: timelines, repository, inception. *)
Definition build_txn (sc : TxnSubCollection Meta) (route : Route) (probes : list Probe)
    (st : list Timeline * DeltaSeriesRepo * option Z) (t : Transaction)
    : result (list Timeline * DeltaSeriesRepo * option Z) :=
  let '(tls, repo, inceptionTsc) := st in
  let meta := sc_meta sc in
  tl ← Timeline_init t;
  indices ← (if (route_len route <? length (counters t))%nat
             then ix ← or_raise AttributeError_ (tindex t);
                  or_raise TypeError_ (conflateRoutes (iroute ix) route)
             else Ok (seq 0 (route_len route)));
  '(points, endpoint, first, repo) ←
    buildTimeline (m_cpuInfo meta) (m_topdown meta) (length (m_events meta)) probes
      (buildEventsMap repo) t indices repo;
  let started := match inceptionTsc with Some z => negb (z =? 0) | None => false end in
  '(inception, inceptionTsc) ←
    (if started
     then x ← convertCyclesToTime (m_cpuInfo meta) (tsc first - default 0 inceptionTsc);
          Ok (f_trunc (f_div x (f_of_Z 1000)), inceptionTsc)
     else Ok (0, Some (tsc first)));
  Ok (tls ++ [mkTimeline t (tl_tsc tl) (tl_txnId tl) points (Some endpoint) (Some inception)], repo, inceptionTsc).

Definition buildTimelineStats (category : string) (route : Route) (probes : list Probe)
    (sc : TxnSubCollection Meta) : result TimelineStats :=
  let meta := sc_meta sc in
  let keys := match m_topdown meta with Some tm => topdownKeys tm | None => [] end in
  '(tls, repo, _) ← mfor (build_txn sc route probes)
                      ([], DeltaSeriesRepo_init (m_events meta) keys probes, None) (transactions sc);
  Ok (mkTimelineStats (m_name meta) (m_cpuInfo meta) category route probes tls repo).
End Timeline.

Arguments TopdownValue F : clear implicits.
Arguments TopdownMetrics F : clear implicits.
Arguments TimePoint F : clear implicits.
Arguments Timeline F : clear implicits.
Arguments Delta F : clear implicits.
Arguments DeltaSeries F : clear implicits.
Arguments DeltaSeriesRepo F : clear implicits.
Arguments Meta F : clear implicits.
Arguments TimelineStats F : clear implicits.
Arguments Builder F : clear implicits.

(** ** Statistics are never stale *)

Section Fresh.
Context {F S : Type} (numpy : list (Delta F) -> S).

(** What the users of a series do with it. *)
Inductive SeriesOp := OpAdd (d : Delta F) | OpGet.
Definition run_op (s : SeriesStats) (o : SeriesOp) : SeriesStats :=
  match o with OpAdd d => ss_addDelta d s | OpGet => (getStats numpy s).2 end.

Definition cache_inv (s : SeriesStats (F := F) (S := S)) : Prop :=
  (ss_count s <= length (ss_series s))%nat /\
  ((0 < ss_count s)%nat -> ss_stats s = Some (numpy (take (ss_count s) (ss_series s)))) /\
  (ss_count s = 0%nat -> ss_stats s = None).

Lemma run_op_inv s o : cache_inv s -> cache_inv (run_op s o).
Proof.
  intros (Hle & Hpos & Hz). destruct o as [d|]; cbn.
  - split_and!; cbn; [rewrite length_app; lia| |done]. intros H. rewrite take_app_le //. auto.
  - unfold computeStats. destruct (ss_series s) as [|x l] eqn:E; [by unfold cache_inv; rewrite E|].
    destruct (ss_count s =? length (x :: l))%nat; [by unfold cache_inv; rewrite E|].
    split_and!; cbn [ss_count ss_series ss_stats]; [done| |done]. intros _. by rewrite firstn_all.
Qed.

Lemma run_op_series s o : ss_series (run_op s o) = ss_series s ++ match o with OpAdd d => [d] | OpGet => [] end.
Proof.
  destruct o; cbn; [done|]. unfold computeStats. rewrite app_nil_r.
  destruct (ss_series s) eqn:E; [done|]. by destruct (_ =? _)%nat.
Qed.

Lemma getStats_fresh s : cache_inv s ->
  (getStats numpy s).1 = match ss_series s with [] => None | l => Some (numpy l) end.
Proof.
  intros (Hle & Hpos & Hz). unfold getStats, computeStats.
  destruct (ss_series s) as [|x l] eqn:E; cbn [fst].
  - apply Hz. cbn in Hle. lia.
  - destruct (ss_count s =? length (x :: l))%nat eqn:Ec; cbn [ss_stats]; [|done].
    apply Nat.eqb_eq in Ec. rewrite Hpos; [rewrite Ec; cbn; lia|]. by rewrite Ec firstn_all.
Qed.

(** Whatever additions and reads came before, reading a series'
    statistics gives the statistics of all the values added so far, and nothing while it
    is empty: the cache is never stale. *)
Theorem series_stats_fresh (ops : list SeriesOp) :
  let s := fold_left run_op ops SeriesStats_init in
  let l := omap (fun o => match o with OpAdd d => Some d | OpGet => None end) ops in
  (getStats numpy s).1 = match l with [] => None | _ => Some (numpy l) end.
Proof.
  cbn zeta. cut (cache_inv (fold_left run_op ops SeriesStats_init) /\
    ss_series (fold_left run_op ops SeriesStats_init) =
      omap (fun o => match o with OpAdd d => Some d | OpGet => None end) ops).
  { intros [Hi <-]. rewrite getStats_fresh //. by destruct (ss_series _). }
  induction ops as [|o ops IH] using rev_ind;
    [split; [split_and!; cbn; [lia|lia|done]|done]|].
  rewrite fold_left_app omap_app. destruct IH as [Hi Hs]. cbn [fold_left]. split; [by apply run_op_inv|].
  rewrite run_op_series Hs. by destruct o.
Qed.
End Fresh.

(** ** The shape of a timeline *)

Section Shape.
Context {F : Type} {HF : PyFloat F}.
Context (cpu : CpuInfo F) (topdown : option (TopdownMetrics F)) (pmcCount : nat) (probes : list Probe)
  (emap : option (list (string * nat))).

Definition same_thread (cs : list Counter) : Prop :=
  forall c c', c ∈ cs -> c' ∈ cs -> threadId c = threadId c'.

(** The pmu deltas of a step. *)
Lemma add_pmcs_spec c prev names i ends deltas (repo : DeltaSeriesRepo F) ends' deltas' repo' n0 n :
  mfor (fun '(ends, deltas, repo) k =>
    d ← pmc_delta c prev k;
    name ← py_nth names k;
    repo ← repo_add name i (DPmc d) repo;
    Ok (alter (fun e => e + default 0 d) k ends, deltas ++ [d], repo)) (ends, deltas, repo) (seq n0 n)
    = Ok (ends', deltas', repo') ->
  length ends' = length ends /\
  (forall k, (k < n0)%nat -> ends' !! k = ends !! k) /\
  exists ds, deltas' = deltas ++ ds /\ length ds = n /\
    forall k, (k < n)%nat -> exists d, ds !! k = Some d /\ pmc_delta c prev (n0 + k) = Ok d /\
      ends' !! (n0 + k)%nat = (fun e => e + default 0 d) <$> ends !! (n0 + k)%nat.
Proof.
  revert ends deltas repo n0. induction n as [|n IH]; intros ends deltas repo n0; cbn [seq mfor].
  { intros [= <- <- <-]. split_and!; [done|done|]. exists []. rewrite app_nil_r. split_and!; [done|done|]. lia. }
  intros H. apply bind_Ok in H as ([[e1 d1] r1] & H1 & H). apply bind_Ok in H1 as (d & Hd & H1).
  apply bind_Ok in H1 as (nm & Hnm & H1). apply bind_Ok in H1 as (r & Hr & [= <- <- <-]).
  destruct (IH _ _ _ _ H) as (Hlen & Hlow & ds & -> & Hds & Hk). clear IH H.
  rewrite length_alter in Hlen. split_and!; [done| |].
  - intros k Hkn. rewrite Hlow; [lia|]. rewrite list_lookup_alter_ne; [lia|done].
  - exists (d :: ds). rewrite -app_assoc. cbn [app length]. split_and!; [done|by f_equal|].
    intros [|k] Hkn.
    + exists d. rewrite Nat.add_0_r. split_and!; [done|done|]. rewrite Hlow; [lia|].
      by rewrite list_lookup_alter_eq.
    + destruct (Hk k) as (d' & H1 & H2 & H3); [lia|]. exists d'. cbn [lookup list_lookup].
      replace (n0 + S k)%nat with (S n0 + k)%nat by lia. split_and!; [done|done|].
      rewrite H3 list_lookup_alter_ne; [lia|done].
Qed.

(** What the loop has built after the counters [cs] of the route's first points. *)
Record built (cs : list Counter) (b : Builder F) : Prop := {
  bt_first : b_first b = head cs;
  bt_prev : b_prev b = last cs;
  bt_max : b_maxTsc b = foldr Z.max 0 (tsc <$> cs);
  bt_len : length (b_points b) = pred (length cs);
  bt_points : forall i c c' c0, head cs = Some c0 -> cs !! i = Some c -> cs !! S i = Some c' ->
    exists tp p, b_points b !! i = Some tp /\ probes !! i = Some p /\ tp_name tp = pname p /\
      tp_data tp = Some (data c) /\
      convertCyclesToTime cpu (tsc c' - tsc c) = Ok (tp_duration tp) /\
      convertCyclesToTime cpu (tsc c - tsc c0) = Ok (tp_point tp);
  bt_init : cs = [] -> b_endPmcs b = replicate pmcCount 0;
  bt_endlen : length (b_endPmcs b) = pmcCount;
  bt_end : forall k c c' x y, same_thread cs -> head cs = Some c -> last cs = Some c' ->
    (k < pmcCount)%nat -> pmcs c !! k = Some x -> pmcs c' !! k = Some y ->
    b_endPmcs b !! k = Some (y - x)
}.

Lemma foldr_max_snoc l x : foldr Z.max 0 (l ++ [x]) = Z.max (foldr Z.max 0 l) x.
Proof. induction l as [|y l IH]; cbn; [lia|]. rewrite IH. lia. Qed.

Lemma built_step t cs b i j b' : built cs b -> i = length cs ->
  tl_step cpu topdown pmcCount probes emap t b (i, j) = Ok b' ->
  exists c, counters t !! j = Some c /\ built (cs ++ [c]) b'.
Proof.
  intros Hb -> H. unfold tl_step in H.
  apply bind_Ok in H as (probe & Hprobe & H). apply bind_Ok in H as (c & Hc%py_nth_Ok & H).
  apply bind_Ok in H as (same & _ & H). destruct same; [|done]. cbn [negb] in H.
  exists c. split; [done|]. destruct Hb as [Hf Hp Hm Hl Hpts Hin Hel He].
  destruct cs as [|c0 cs].
  - rewrite Hf in H. cbn in H. injection H as <-. cbn in Hm, Hl.
    split; cbn; rewrite ?Hm ?Hl; try done.
    + lia.
    + intros k c1 c' x y _ [= <-] [= <-] Hk Hx Hy. rewrite Hx in Hy. injection Hy as <-.
      rewrite Hin // lookup_replicate_2 // Z.sub_diag. done.
  - destruct (last (c0 :: cs)) as [prev|] eqn:Hlast; [|by apply last_None in Hlast].
    rewrite Hf Hp in H. cbn [head] in H. destruct (tsc c =? 0); [done|].
    apply bind_Ok in H as (dur & Hdur & H). apply bind_Ok in H as (pt & Hpt & H).
    apply bind_Ok in H as (before & Hbef%py_nth_Ok & H).
    destruct (length (pmcs c) <? pmcCount)%nat; [done|].
    apply bind_Ok in H as ([[[[ends names] deltas] td] repo] & Hpmc & H).
    apply bind_Ok in H as (repo' & _ & [= <-]). cbn [length] in Hbef.
    assert (Hbef' : probes !! pred (length (c0 :: cs)) = Some before).
    { by replace (pred (length (c0 :: cs))) with (S (length cs) - 1)%nat by (cbn; lia). }
    assert (Hends : length ends = pmcCount /\ forall k, (k < pmcCount)%nat -> exists d,
      pmc_delta c prev k = Ok d /\ ends !! k = (fun e => e + default 0 d) <$> b_endPmcs b !! k).
    { clear -Hpmc Hel. destruct pmcCount as [|n].
      - injection Hpmc as <- _ _ _ _. split; [done|lia].
      - apply bind_Ok in Hpmc as ([[e1 d1] r1] & Hadd & Hpmc).
        apply bind_Ok in Hpmc as ([td1 r2] & _ & [= <- _ _ _ _]).
        apply add_pmcs_spec in Hadd as (Hlen & _ & ds & _ & Hds & Hk). split; [congruence|].
        intros k Hlt. destruct (Hk k Hlt) as (d & _ & Hd & He). exists d. done. }
    destruct Hends as [Hlen Hdelta].
    split; cbn [b_first b_prev b_maxTsc b_points b_endPmcs].
    + done.
    + by rewrite last_snoc.
    + by rewrite fmap_app foldr_max_snoc -Hm.
    + rewrite !length_app Hl. cbn. lia.
    + intros i c1 c' c0' [= <-] Hi Hsi. destruct (decide (S i < length (c0 :: cs))%nat) as [Hlt|Hge].
      * rewrite lookup_app_l in Hi; [lia|]. rewrite lookup_app_l in Hsi; [done|].
        destruct (Hpts i c1 c' c0 eq_refl Hi Hsi) as (tp & p & Htp & Hrest). exists tp, p.
        split; [by apply lookup_app_l_Some|done].
      * assert (i = pred (length (c0 :: cs))) as ->.
        { apply lookup_lt_Some in Hsi. rewrite length_app in Hsi. cbn in *. lia. }
        rewrite lookup_app_l in Hi; [cbn; lia|]. rewrite -last_lookup Hlast in Hi. injection Hi as <-.
        rewrite lookup_app_r in Hsi; [cbn; lia|].
        replace (S (pred (length (c0 :: cs))) - length (c0 :: cs))%nat with 0%nat in Hsi by (cbn; lia).
        injection Hsi as <-. eexists _, before. rewrite -Hl list_lookup_middle //.
        rewrite Hl. split_and!; try done.
    + intros E. by apply app_nil in E as [_ E].
    + done.
    + intros k c1 c' x y Hst [= <-]. rewrite last_snoc. intros [= <-] Hk Hx Hy.
      destruct (Hdelta k Hk) as (d & Hd & ->). unfold pmc_delta in Hd.
      assert (threadId c = threadId prev) as Htid.
      { apply Hst; [apply elem_of_app; right; left|]. apply elem_of_app. left.
        apply last_Some in Hlast as [l ->]. apply elem_of_app. right; left. }
      rewrite Htid String.eqb_refl in Hd. apply bind_Ok in Hd as (y' & Hy'%py_nth_Ok & Hd).
      apply bind_Ok in Hd as (z & Hz%py_nth_Ok & [= <-]). rewrite Hy in Hy'. injection Hy' as <-.
      rewrite (He k c0 prev x z) //.
      { intros a a' Ha Ha'. apply Hst; apply elem_of_app; by left. }
      cbn. f_equal. lia.
Qed.

Lemma built_loop t indices repo b :
  mfor (tl_step cpu topdown pmcCount probes emap t)
    (mkBuilder None None 0 (replicate pmcCount 0) [] repo) (imap (fun i j => (i, j)) indices) = Ok b ->
  exists cs, Forall2 (fun j c => counters t !! j = Some c) indices cs /\ built cs b.
Proof.
  intros H. assert (Hinit : built [] (mkBuilder None None 0 (replicate pmcCount 0) [] repo)).
  { split; cbn; try done; by rewrite length_replicate. }
  revert H. generalize Hinit. clear Hinit.
  generalize (mkBuilder None None 0 (replicate pmcCount 0) [] repo) as b0.
  assert (Hgen : forall cs0 b0, built cs0 b0 ->
    mfor (tl_step cpu topdown pmcCount probes emap t) b0 (imap (fun i j => (length cs0 + i, j)%nat) indices) = Ok b ->
    exists cs, Forall2 (fun j c => counters t !! j = Some c) indices cs /\ built (cs0 ++ cs) b).
  { induction indices as [|j js IH]; intros cs0 b0 Hb; cbn [imap mfor].
    { intros [= <-]. exists []. rewrite app_nil_r. split; [constructor|done]. }
    intros H. apply bind_Ok in H as (b1 & H1 & H).
    destruct (built_step t cs0 b0 _ j b1 Hb (Nat.add_0_r _) H1) as (c & Hc & Hb1).
    destruct (IH (cs0 ++ [c]) b1 Hb1) as (cs & Hcs & Hb2).
    { rewrite -H. f_equal. apply imap_ext. intros i x _. cbn. rewrite length_app. cbn. f_equal. lia. }
    exists (c :: cs). rewrite -app_assoc in Hb2. split; [by constructor|done]. }
  intros b0 Hb H. apply (Hgen [] b0 Hb H).
Qed.
End Shape.

Section Spec.
Context {F : Type} {HF : PyFloat F}.

(** The counters of a transaction that a route picks. *)
Definition picked (route : Route) (t : Transaction) (cs : list Counter) : Prop :=
  exists indices, Forall2 (fun j c => counters t !! j = Some c) indices cs /\
    if (route_len route <? length (counters t))%nat
    then exists ix, tindex t = Some ix /\ conflateRoutes (iroute ix) route = Some indices
    else indices = seq 0 (route_len route).

(** The timeline a transaction ought to have. *)
Definition timeline_of (meta : Meta F) (route : Route) (probes : list Probe)
    (t : Transaction) (tl : Timeline F) : Prop :=
  exists cs c0 cn e, picked route t cs /\ head cs = Some c0 /\ last cs = Some cn /\
    tl_txn tl = t /\ tl_txnId tl = txnId t /\ tl_tsc tl = tsc (default c0 (head (counters t))) /\
    length (tl_points tl) = length cs /\
    (forall i c c', cs !! i = Some c -> cs !! S i = Some c' ->
       exists tp p, tl_points tl !! i = Some tp /\ probes !! i = Some p /\ tp_name tp = pname p /\
         tp_data tp = Some (data c) /\
         convertCyclesToTime (m_cpuInfo meta) (tsc c' - tsc c) = Ok (tp_duration tp) /\
         convertCyclesToTime (m_cpuInfo meta) (tsc c - tsc c0) = Ok (tp_point tp)) /\
    tl_endpoint tl = Some e /\
    convertCyclesToTime (m_cpuInfo meta) (foldr Z.max 0 (tsc <$> cs) - tsc c0) = Ok (tp_duration e) /\
    (forall k x y, same_thread cs -> (k < length (m_events meta))%nat ->
       pmcs c0 !! k = Some x -> pmcs cn !! k = Some y ->
       exists ds, tp_deltaPmcs e = Some ds /\ ds !! k = Some (Some (y - x))).

Lemma build_txn_spec (sc : TxnSubCollection (Meta F)) route probes tls repo inc t st :
  build_txn sc route probes (tls, repo, inc) t = Ok st ->
  exists tl, st.1.1 = tls ++ [tl] /\ timeline_of (sc_meta sc) route probes t tl.
Proof.
  unfold build_txn. intros H. apply bind_Ok in H as (tl & Htl & H).
  apply bind_Ok in H as (indices & Hind & H).
  apply bind_Ok in H as ([[[points e] first] repo'] & Hb & H).
  apply bind_Ok in H as ([inception inc'] & _ & [= <-]). cbn [fst].
  unfold Timeline_init in Htl. apply bind_Ok in Htl as (c & Hc%py_nth_Ok & [= <-]).
  eexists. split; [done|]. unfold buildTimeline in Hb. apply bind_Ok in Hb as (b & Hloop & Hb).
  destruct (built_loop _ _ _ _ _ _ _ _ _ Hloop) as (cs & Hcs & [Hf Hp Hm Hl Hpts Hin Hel He]).
  rewrite Hf Hp in Hb. destruct (head cs) as [c0|] eqn:Eh; [|done]. destruct (last cs) as [cn|] eqn:El; [|done].
  apply bind_Ok in Hb as (point & Hpoint & Hb). apply bind_Ok in Hb as (final & Hfinal & Hb).
  apply bind_Ok in Hb as (dur & Hdur & Hb). apply bind_Ok in Hb as ([[[names deltas] td] r1] & Hend & Hb).
  apply bind_Ok in Hb as (r2 & _ & [= <- <- <- <-]).
  assert (Hlen : length cs = S (length (b_points b))) by (destruct cs; [done|]; cbn in *; lia).
  exists cs, c0, cn. eexists. cbn. split_and!; [|done|done|done|done| | | |done| |].
  - exists indices. split; [done|]. destruct (route_len route <? length (counters t))%nat.
    + apply bind_Ok in Hind as (ix & Hix%or_raise_Ok & Hind%or_raise_Ok). eauto.
    + by injection Hind.
  - destruct (counters t); [done|]. by injection Hc as ->.
  - rewrite length_app Hlen. cbn. lia.
  - intros i c1 c' Hi Hsi. destruct (Hpts i c1 c' c0 eq_refl Hi Hsi) as (tp & p & Htp & Hrest).
    exists tp, p. split; [by apply lookup_app_l_Some|done].
  - by rewrite -Hm.
  - intros k x y Hst Hk Hx Hy. pose proof (He k c0 cn x y Hst eq_refl eq_refl Hk Hx Hy) as Hek.
    destruct (length (m_events (sc_meta sc))) as [|n]; [lia|].
    apply bind_Ok in Hend as (r3 & _ & Hend). apply bind_Ok in Hend as ([td' r4] & _ & [= _ <- _ _]).
    eexists. split; [done|]. by rewrite list_lookup_fmap Hek.
Qed.

Lemma build_timelines category route probes (sc : TxnSubCollection (Meta F)) tls :
  buildTimelineStats category route probes sc = Ok tls ->
  Forall2 (timeline_of (sc_meta sc) route probes) (transactions sc) (timelineCollection tls).
Proof.
  unfold buildTimelineStats. intros H. apply bind_Ok in H as ([[l repo] inc] & H & [= <-]). cbn.
  change l with (l, repo, inc).1.1. revert H.
  apply (mfor_inv_prefix _ (fun pre st => Forall2 (timeline_of (sc_meta sc) route probes) pre st.1.1));
    [|by constructor].
  intros pre t post [[l0 r0] i0] st1 _ Hpre H. destruct (build_txn_spec _ _ _ _ _ _ _ _ H) as (tl & -> & Htl).
  apply Forall2_app; [done|]. by repeat constructor.
Qed.

End Spec.

(** *** Examples: integers as an exact model of time *)

#[local] Instance ex_float : PyFloat Z := {|
  f_of_Z z := z; f_add := Z.add; f_sub := Z.sub; f_mul := Z.mul; f_div := Z.div; f_lt := Z.ltb;
  f_is_zero z := z =? 0; f_nan := 0; f_is_nan z := false; f_trunc z := z |}.

Definition ex_event : Event := mkEvent "cycles" "CPU_CLK" true true.
Definition ex_meta : Meta Z := mkMeta "run" (mkCpuInfo "cpu" 2000000000 2) [ex_named "a"; ex_named "b"] None [ex_event].
Definition ex_hit (p : string) (t pmc : Z) : Counter := mkCounter "1" (ex_named p) "" t [pmc].
#[local] Instance ex_tl_hash : RouteHash := fun ps => Z.of_nat (length ps).

(** A transaction a-b-a-b seen through the route a-b. *)
Definition ex_tl_sub : TxnSubCollection (Meta Z) :=
  match finalize_all [] [(IdInt 7, mkTransaction (IdInt 7)
      [ex_hit "a" 100 1; ex_hit "b" 110 3; ex_hit "a" 120 4; ex_hit "b" 160 9] None None None true)] with
  | Ok (l, _) => mkSubCollection ex_meta l.*2
  | Raise _ => mkSubCollection ex_meta []
  end.
Definition ex_tl_route : Route := Route_init [ex_named "a"; ex_named "b"].
Definition ex_tls : TimelineStats Z :=
  match buildTimelineStats "Transaction" ex_tl_route [ex_named "a"; ex_named "b"] ex_tl_sub with
  | Ok tls => tls
  | Raise _ => mkTimelineStats "" (m_cpuInfo ex_meta) "" ex_tl_route [] [] (mkRepo [] [] [] [])
  end.

