(* ===== verification/Conflate.v ===== *)
(** * Conflating, rebuilding and filtering timelines

    Models analytics/conflator.py, analytics/timelineFilter.py and the profile containers
    of profiler/profile.py.  The topdown metrics of a cpu come from the events database
    on disk: they are the parameter [getTopdownMetrics]. *)

From S2P Require Import Prelude PyStr Probe Route Txn Timeline.

Section Conflate.
Context {F : Type} {HF : PyFloat F}.

Record Profile := mkProfile {
  p_name : string;
  p_current : TimelineStats F;
  p_benchmarks : list (string * TimelineStats F)
}.

(** [Profiles], with the repository of transactions as [R]. *)
Record Profiles (R : Type) := mkProfiles { ps_name : string; ps_repo : R; profiles : list Profile }.

(** ** Delta series from timelines *)

(** [deltaSeriesRepo[name][index]] where the index may be -1. *)
Definition repo_add_at (name : string) (index : Z) (d : Delta F) (r : DeltaSeriesRepo F)
    : result (DeltaSeriesRepo F) :=
  if index <? 0 then repo_add_last name d r else repo_add name (Z.to_nat index) d r.

Definition addTimepoint (index : Z) (tp : TimePoint F) (repo : DeltaSeriesRepo F)
    : result (DeltaSeriesRepo F) :=
  repo ← repo_add_at TSC_EVENT_NAME index (DFlt (tp_duration tp)) repo;
  repo ← match tp_pmcNames tp with
         | Some names =>
             mfor (fun repo '(j, name) =>
               deltas ← or_raise TypeError_ (tp_deltaPmcs tp);
               d ← py_nth deltas j;
               repo_add_at name index (DPmc d) repo) repo (imap (fun j n => (j, n)) names)
         | None => Ok repo
         end;
  match tp_topdown tp with
  | Some vs => mfor (fun repo v => repo_add_at (tv_name v) index (DFlt (tv_value v)) repo) repo vs
  | None => Ok repo
  end.

Definition addTimeline (repo : DeltaSeriesRepo F) (tl : Timeline F) : result (DeltaSeriesRepo F) :=
  let n := length (tl_points tl) in
  repo ← mfor (fun repo i => tp ← py_nth (tl_points tl) i; addTimepoint (Z.of_nat i) tp repo)
           repo (seq 0 (n - 1));
  match tl_endpoint tl with
  | Some e => addTimepoint (Z.of_nat n - 1) e repo
  | None => Raise AttributeError_
  end.

Definition buildDeltaSeriesRepo (tls : TimelineStats F) : result (DeltaSeriesRepo F) :=
  mfor addTimeline (deltaSeriesRepo tls) (timelineCollection tls).

Definition with_timelines (tls : TimelineStats F) (l : list (Timeline F)) : TimelineStats F :=
  mkTimelineStats (ts_name tls) (ts_cpuInfo tls) (ts_category tls) (ts_route tls) (ts_reportProbes tls) l
    (deltaSeriesRepo tls).
Definition with_repo (tls : TimelineStats F) (r : DeltaSeriesRepo F) : TimelineStats F :=
  mkTimelineStats (ts_name tls) (ts_cpuInfo tls) (ts_category tls) (ts_route tls) (ts_reportProbes tls)
    (timelineCollection tls) r.

(** [createTimelineStats]. *)
Definition createTimelineStats (src : TimelineStats F) (category : string) (route : Route) : TimelineStats F :=
  mkTimelineStats (ts_name src) (ts_cpuInfo src) category route (rprobes route) []
    (DeltaSeriesRepo_init (revents (deltaSeriesRepo src)) (rtopdownKeys (deltaSeriesRepo src)) (rprobes route)).

(** ** Conflation *)

(** [dstTp.deltaPmcs[k] += srcTp.deltaPmcs[k]] unless the source is NaN. *)
Definition add_delta (dst src : option Z) : option Z :=
  match src with
  | None => dst
  | Some y => (fun x => x + y) <$> dst
  end.

(** The pmu deltas of a later point added to those of the conflated one. *)
Definition merge_pmcs (dst : option (list (option Z))) (src : option (list (option Z)))
    : result (option (list (option Z))) :=
  match src with
  | None => Ok dst
  | Some ss =>
      mfor (fun dst '(k, s) =>
        match s with
        | None => Ok dst
        | Some _ =>
            l ← or_raise TypeError_ dst;
            x ← py_nth l k;
            Ok (Some (<[k := add_delta x s]> l))
        end) dst (imap (fun k s => (k, s)) ss)
  end.

Definition merge_point (dst src : TimePoint F) : result (TimePoint F) :=
  pm ← merge_pmcs (tp_deltaPmcs dst) (tp_deltaPmcs src);
  Ok (mkTimePoint (tp_name dst) (tp_point dst) (f_add (tp_duration dst) (tp_duration src))
        (tp_pmcNames dst) pm (tp_topdown dst) (tp_data dst)).

Section WithTopdown.
Context (emap : option (list (string * nat))) (topdown : option (TopdownMetrics F)).

(** [if topdownMetrics and dstTp.deltaPmcs] *)
Definition recompute (tp : TimePoint F) : result (TimePoint F) :=
  match topdown, tp_deltaPmcs tp with
  | Some tm, Some (d :: ds) =>
      m ← or_raise TypeError_ emap;
      vs ← compute tm (mkCounterMap m (d :: ds));
      Ok (mkTimePoint (tp_name tp) (tp_point tp) (tp_duration tp) (tp_pmcNames tp) (tp_deltaPmcs tp)
            (Some vs) (tp_data tp))
  | _, _ => Ok tp
  end.

(** The conflated point of the source points from [b] up to, not including, [e]. *)
Definition conflatePoint (src : list (TimePoint F)) (b e : nat) : result (TimePoint F) :=
  s ← py_nth src b;
  let dst := mkTimePoint (tp_name s) (tp_point s) (tp_duration s) (tp_pmcNames s)
               (match tp_deltaPmcs s with Some (d :: ds) => Some (d :: ds) | _ => None end) None None in
  dst ← mfor (fun dst j => sj ← py_nth src j; merge_point dst sj) dst (seq (S b) (e - S b));
  recompute dst.

Definition conflateTimepoints (src : list (TimePoint F)) (routeIndices : list nat) : result (list (TimePoint F)) :=
  mmap (fun '(i, b) => conflatePoint src b (default (S b) (routeIndices !! S i)))
    (imap (fun i b => (i, b)) routeIndices).

Definition conflateTimeline (srcTl : Timeline F) (routeIndices : list nat) : result (Timeline F) :=
  tl ← (Timeline_init (tl_txn srcTl) : result (Timeline F));
  points ← conflateTimepoints (tl_points srcTl) routeIndices;
  ends ← conflateTimepoints points [0%nat; (length points - 1)%nat];
  endpoint ← py_nth ends 0;
  Ok (mkTimeline (tl_txn srcTl) (tl_tsc tl) (tl_txnId tl) points (Some endpoint) (tl_inception srcTl)).

Definition conflateTimelineCollection (routeIndices : list nat) (src dst : list (Timeline F))
    : result (list (Timeline F)) :=
  mfor (fun dst tl => c ← conflateTimeline tl routeIndices; Ok (dst ++ [c])) dst src.
End WithTopdown.

Section Profiles.
Context (getTopdownMetrics : string -> list TopdownKey -> result (option (TopdownMetrics F))).

(** [conflateTimelineStats]: whether it conflated, and the destination after it. *)
Definition conflateTimelineStats (route : Route) (src dst : TimelineStats F)
    : result (bool * TimelineStats F) :=
  match conflateRoutes (ts_route src) route with
  | Some ((_ :: _) as indices) =>
      topdown ← getTopdownMetrics (cpuId (ts_cpuInfo src)) (rtopdownKeys (deltaSeriesRepo src));
      l ← conflateTimelineCollection (buildEventsMap (deltaSeriesRepo src)) topdown indices
            (timelineCollection src) (timelineCollection dst);
      Ok (true, with_timelines dst l)
  | _ => Ok (false, dst)
  end.

Definition copyProfileLayout (src : Profile) (category : string) (route : Route) : Profile :=
  mkProfile (p_name src) (createTimelineStats (p_current src) category route) [].

Definition finishStats (tls : TimelineStats F) : result (TimelineStats F) :=
  let tls := with_timelines tls (py_sort (key_leb tl_tsc) (timelineCollection tls)) in
  r ← buildDeltaSeriesRepo tls; Ok (with_repo tls r).

Definition conflateProfiles (srcs : list Profile) (route : Route) (category : string) : result Profile :=
  first ← or_raise IndexError_ (head srcs);
  dst ← mfor (fun dst src =>
      '(_, cur) ← conflateTimelineStats route (p_current src) (p_current dst);
      benchmarks ← mfor (fun bs '(name, tls) =>
          '(ok, tls') ← conflateTimelineStats route tls
            (match od_get String.eqb name bs with
             | Some t => t | None => createTimelineStats tls category route end);
          Ok (if ok : bool then od_set String.eqb name tls' bs else bs))
        (p_benchmarks dst) (p_benchmarks src);
      Ok (mkProfile (p_name dst) cur benchmarks))
    (copyProfileLayout first category route) srcs;
  cur ← finishStats (p_current dst);
  benchmarks ← mmap (fun '(name, tls) => tls ← finishStats tls; Ok (name, tls)) (p_benchmarks dst);
  Ok (mkProfile (p_name dst) cur benchmarks).
End Profiles.

(** ** Filtering *)

Section Filter.
Context (predicate : Timeline F -> bool).

Definition filterTimelines (l : list (Timeline F)) : list (Timeline F) :=
  filter (fun tl => predicate tl = true) l.

Definition filterTimelineStats (tls : TimelineStats F) : result (TimelineStats F) :=
  let f := with_timelines (createTimelineStats tls (ts_category tls) (ts_route tls))
             (filterTimelines (timelineCollection tls)) in
  r ← buildDeltaSeriesRepo f; Ok (with_repo f r).

(** Statistics without timelines are false: [TimelineStats] has a length. *)
Definition filterProfile (src : Profile) : result (option Profile) :=
  cur ← filterTimelineStats (p_current src);
  match timelineCollection cur with
  | [] => Ok None
  | _ =>
      bs ← mfor (fun bs '(name, tls) =>
               t ← filterTimelineStats tls;
               Ok (match timelineCollection t with [] => bs | _ => od_set String.eqb name t bs end))
             [] (p_benchmarks src);
      Ok (Some (mkProfile (p_name src) cur bs))
  end.

Definition apply {R : Type} (ps : Profiles R) : result (Profiles R) :=
  l ← mfor (fun l p => o ← filterProfile p; Ok (match o with Some p => l ++ [p] | None => l end))
        [] (profiles _ ps);
  Ok (mkProfiles R (ps_name _ ps) (ps_repo _ ps) l).
End Filter.

Definition locateTimeline {R : Type} (ps : Profiles R) (id : TxnId) : option (Timeline F) :=
  head (filter (fun tl => tl_txnId tl = id) (profiles _ ps ≫= fun p => timelineCollection (p_current p))).
End Conflate.
Arguments Profile F : clear implicits.
Arguments Profiles F R : clear implicits.

(** ** What a conflated point sums up *)

Section ConflateSpec.
Context {F : Type} {HF : PyFloat F}.
Context (emap : option (list (string * nat))) (topdown : option (TopdownMetrics F)).

(** The [k]-th pmu deltas of a list of points. *)
Definition deltas_at (k : nat) (l : list (TimePoint F)) : list (option Z) :=
  omap (fun tp => ds ← tp_deltaPmcs tp; ds !! k) l.

Lemma merge_pmcs_spec l src dst' : merge_pmcs (Some l) (Some src) = Ok dst' ->
  exists l', dst' = Some l' /\ length l' = length l /\
    forall k d, l !! k = Some d ->
      l' !! k = Some (match src !! k with Some s => add_delta d s | None => d end).
Proof.
  unfold merge_pmcs. assert (Hgen : forall k0 l dst',
    mfor (fun dst '(k, s) =>
        match s with
        | None => Ok dst
        | Some _ => l ← or_raise TypeError_ dst; x ← py_nth l k; Ok (Some (<[k := add_delta x s]> l))
        end) (Some l) (imap (fun k s => (k0 + k, s)%nat) src) = Ok dst' ->
    exists l', dst' = Some l' /\ length l' = length l /\
      forall k d, l !! k = Some d ->
        l' !! k = Some (if decide (k < k0)%nat then d else
                        match src !! (k - k0)%nat with Some s => add_delta d s | None => d end)).
  { clear l dst'. induction src as [|s src IH]; intros k0 l dst'; cbn [imap mfor].
    { intros [= <-]. exists l. split_and!; [done|done|]. intros k d Hk.
      by destruct (decide _). }
    intros H. apply bind_Ok in H as (d1 & H1 & H). rewrite Nat.add_0_r in H1.
    assert (H' : mfor (fun dst '(k, s) =>
        match s with
        | None => Ok dst
        | Some _ => l ← or_raise TypeError_ dst; x ← py_nth l k; Ok (Some (<[k := add_delta x s]> l))
        end) d1 (imap (fun k s => (S k0 + k, s)%nat) src) = Ok dst').
    { rewrite -H. f_equal. apply imap_ext. intros i x _. cbn. f_equal. lia. }
    clear H. assert (Hd1 : exists l1, d1 = Some l1 /\ length l1 = length l /\
      forall k d, l !! k = Some d -> l1 !! k = Some (if decide (k = k0) then add_delta d s else d)).
    { destruct s as [y|].
      - cbn in H1. apply bind_Ok in H1 as (x & Hx%py_nth_Ok & [= <-]). eexists. split; [done|].
        rewrite length_insert. split; [done|]. intros k d Hk. destruct (decide (k = k0)) as [->|Hne].
        + rewrite Hk in Hx. injection Hx as <-. apply list_lookup_insert_eq. by eapply lookup_lt_Some, Hk.
        + rewrite list_lookup_insert_ne; [congruence|done].
      - injection H1 as <-. exists l. split_and!; [done|done|]. intros k d ->. by destruct (decide _). }
    destruct Hd1 as (l1 & -> & Hl1 & Hk1). destruct (IH (S k0) l1 dst' H') as (l' & -> & Hl' & Hk').
    exists l'. split_and!; [done|congruence|]. intros k d Hk. rewrite (Hk' k _ (Hk1 k d Hk)).
    repeat case_decide; try lia; try done; subst; rewrite ?Nat.sub_diag //.
    replace (k - k0)%nat with (S (k - S k0)) by lia. done. }
  intros H. destruct (Hgen 0%nat l dst' H) as (l' & -> & Hl & Hk). exists l'. split_and!; [done|done|].
  intros k d Hd. rewrite (Hk k d Hd). case_decide; [lia|]. by rewrite Nat.sub_0_r.
Qed.

(** The loop over the later points of a segment. *)
Lemma merge_loop src b n dst dst' :
  mfor (fun dst j => sj ← py_nth src j; merge_point dst sj) dst (seq b n) = Ok dst' ->
  let seg := take n (drop b src) in
  length seg = n /\ tp_name dst' = tp_name dst /\ tp_point dst' = tp_point dst /\
  tp_pmcNames dst' = tp_pmcNames dst /\
  tp_duration dst' = fold_left f_add (tp_duration <$> seg) (tp_duration dst) /\
  (forall ds, tp_deltaPmcs dst = Some ds -> exists ds', tp_deltaPmcs dst' = Some ds' /\
     length ds' = length ds /\
     forall k d, ds !! k = Some d -> ds' !! k = Some (fold_left add_delta (deltas_at k seg) d)).
Proof.
  cbn zeta. revert b dst. induction n as [|n IH]; intros b dst; cbn [seq mfor].
  { intros [= <-]. rewrite take_0. split_and!; try done. intros ds Hds. exists ds. done. }
  intros H. apply bind_Ok in H as (d1 & H1 & H). apply bind_Ok in H1 as (sj & Hsj%py_nth_Ok & H1).
  unfold merge_point in H1. apply bind_Ok in H1 as (pm & Hpm & [= <-]).
  destruct (IH _ _ H) as (Hlen & Hn & Hp & Hpn & Hdur & Hds). clear IH H. cbn in Hn, Hp, Hpn, Hdur, Hds.
  rewrite (drop_S _ _ _ Hsj). cbn [take fmap list_fmap length fold_left].
  split_and!; [by rewrite Hlen|done|done|done|done|].
  intros ds E. rewrite E in Hpm. destruct (tp_deltaPmcs sj) as [ss|] eqn:Ess.
  - destruct (merge_pmcs_spec ds ss pm Hpm) as (l' & -> & Hl' & Hk).
    destruct (Hds l' eq_refl) as (ds' & -> & Hl & Hkk). exists ds'. split_and!; [done|congruence|].
    intros k d Hd. rewrite (Hkk k _ (Hk k d Hd)). unfold deltas_at. cbn. rewrite Ess. cbn.
    by destruct (ss !! k).
  - injection Hpm as <-. destruct (Hds ds eq_refl) as (ds' & -> & Hl & Hkk). exists ds'.
    split_and!; [done|done|]. intros k d Hd. rewrite (Hkk k d Hd). unfold deltas_at. cbn. by rewrite Ess.
Qed.

Lemma recompute_same tp tp' : recompute emap topdown tp = Ok tp' ->
  tp_name tp' = tp_name tp /\ tp_point tp' = tp_point tp /\ tp_duration tp' = tp_duration tp /\
  tp_deltaPmcs tp' = tp_deltaPmcs tp.
Proof.
  unfold recompute. destruct topdown as [tm|]; [|by intros [= <-]].
  destruct (tp_deltaPmcs tp) as [[|d ds]|] eqn:E; try by intros [= <-].
  intros H. apply bind_Ok in H as (m & _ & H). apply bind_Ok in H as (vs & _ & [= <-]). done.
Qed.

(** C13 (conflated points): conflating to route indices makes one point per index. It keeps
    the name and the place of the source point at its index, its duration is the sum of
    the source durations from that point up to the next index, and so is every pmu delta,
    with NaN samples of later points left out. *)
Theorem conflateTimepoints_spec (src : list (TimePoint F)) (indices : list nat) pts :
  conflateTimepoints emap topdown src indices = Ok pts ->
  length pts = length indices /\
  forall i b, indices !! i = Some b ->
    let seg := take (default (S b) (indices !! S i) - S b) (drop (S b) src) in
    exists p s, pts !! i = Some p /\ src !! b = Some s /\
      tp_name p = tp_name s /\ tp_point p = tp_point s /\
      tp_duration p = fold_left f_add (tp_duration <$> seg) (tp_duration s) /\
      forall d ds, tp_deltaPmcs s = Some (d :: ds) -> exists ds', tp_deltaPmcs p = Some ds' /\
        length ds' = length (d :: ds) /\
        forall k x, (d :: ds) !! k = Some x -> ds' !! k = Some (fold_left add_delta (deltas_at k seg) x).
Proof.
  unfold conflateTimepoints. intros H. split; [by rewrite (mmap_Ok_length _ _ _ H) length_imap|].
  intros i b Hi. cbn zeta.
  destruct (mmap_Ok_lookup _ _ _ i (i, b) H) as (p & Hp & Hc).
  { by rewrite list_lookup_imap Hi. }
  unfold conflatePoint in Hc. apply bind_Ok in Hc as (s & Hs%py_nth_Ok & Hc).
  apply bind_Ok in Hc as (dst & Hloop & Hc). apply recompute_same in Hc as (Hn' & Hpt' & Hdur' & Hpm').
  destruct (merge_loop _ _ _ _ _ Hloop) as (_ & Hn & Hpt & _ & Hdur & Hds).
  exists p, s. cbn in Hn, Hpt, Hdur, Hds. split_and!; [done|done|congruence..|].
  intros d ds E. rewrite Hpm'. apply Hds. by rewrite E.
Qed.
End ConflateSpec.

#[local] Existing Instance ex_float.

(** Three points conflated to the first and the third. *)
Definition ex_points : list (TimePoint Z) :=
  let mk n p d ds := mkTimePoint n p d (Some ["cycles"]) (Some ds) None None in
  [mk "a" 0 5 [Some 1]; mk "b" 5 7 [Some 2]; mk "c" 12 9 [None]; mk "d" 21 0 [Some 3]].
Definition ex_conflated_points : list (TimePoint Z) :=
  match conflateTimepoints None None ex_points [0; 3]%nat with Ok l => l | Raise _ => [] end.

Lemma conflateTimepoints_spec_witness :
  conflateTimepoints None None ex_points [0; 3]%nat = Ok ex_conflated_points /\
  length ex_conflated_points = 2%nat /\
  tp_duration <$> ex_conflated_points = [21; 0] /\ tp_deltaPmcs <$> ex_conflated_points = [Some [Some 3]; Some [Some 3]].
Proof.
  assert (H : conflateTimepoints None None ex_points [0; 3]%nat = Ok ex_conflated_points)
    by (vm_compute; reflexivity).
  split; [exact H|]. split; [exact (proj1 (conflateTimepoints_spec None None ex_points _ _ H))|].
  split; vm_compute; reflexivity.
Defined.
