(* ===== verification/Rebuild.v ===== *)
(** * Rebuilding delta series

    The delta series that [buildTimelineStats] fills while it walks the transactions
    (analytics/timeline.py) are the ones that [Conflator.buildDeltaSeriesRepo]
    (analytics/conflator.py) rebuilds from the finished timelines, so statistics that a
    filter or a conflation rebuilds agree with the original ones. *)

From S2P Require Import Prelude PyStr Probe Route Txn Timeline Conflate.

Section Adds.
Context {F : Type}.

(** An addition to a series: event, place, value. *)
Definition add_op : Type := string * nat * Delta F.
Definition run_add (r : DeltaSeriesRepo F) (a : add_op) : result (DeltaSeriesRepo F) :=
  repo_add a.1.1 a.1.2 a.2 r.
Definition run_adds (r : DeltaSeriesRepo F) (l : list add_op) : result (DeltaSeriesRepo F) := mfor run_add r l.

Lemma run_adds_app r l1 l2 : run_adds r (l1 ++ l2) = (r' ← run_adds r l1; run_adds r' l2).
Proof. apply mfor_app. Qed.

Lemma repo_add_Ok n i d (r r' : DeltaSeriesRepo F) : repo_add n i d r = Ok r' <->
  exists c s, od_get String.eqb n (seriesMap r) = Some c /\ deltaSeriesList c !! i = Some s /\
    r' = mkRepo (od_set String.eqb n (mkSeriesColl (eventName c) (<[i := addDelta d s]> (deltaSeriesList c)))
                   (seriesMap r)) (revents r) (rtopdownKeys r) (eventNames r).
Proof.
  unfold repo_add. split.
  - intros H. apply bind_Ok in H as (c & Hc%or_raise_Ok & H). apply bind_Ok in H as (s & Hs%py_nth_Ok & [= <-]).
    eauto.
  - intros (c & s & -> & Hs & ->). cbn. apply py_nth_Ok in Hs. by rewrite Hs.
Qed.

Lemma od_set_comm {V} k1 k2 v1 v2 (m : list (string * V)) : k1 <> k2 ->
  is_Some (od_get String.eqb k1 m) -> is_Some (od_get String.eqb k2 m) ->
  od_set String.eqb k1 v1 (od_set String.eqb k2 v2 m) = od_set String.eqb k2 v2 (od_set String.eqb k1 v1 m).
Proof.
  intros Hne. induction m as [|[k v] m IH]; cbn; [by intros [? ?]|].
  destruct (String.eqb_spec k1 k) as [->|H1], (String.eqb_spec k2 k) as [->|H2]; cbn; intros Hs1 Hs2;
    rewrite ?String.eqb_refl ?(proj2 (String.eqb_neq _ _) H1) ?(proj2 (String.eqb_neq _ _) H2) //.
  by rewrite IH.
Qed.

(** Additions for different events commute. *)
Lemma run_add_swap a b (r r' : DeltaSeriesRepo F) : a.1.1 <> b.1.1 ->
  (r1 ← run_add r a; run_add r1 b) = Ok r' -> (r1 ← run_add r b; run_add r1 a) = Ok r'.
Proof.
  destruct a as [[n1 i1] d1], b as [[n2 i2] d2]. unfold run_add. cbn. intros Hne H.
  apply bind_Ok in H as (r1 & H1 & H2). apply repo_add_Ok in H1 as (c1 & s1 & Hc1 & Hs1 & ->).
  apply repo_add_Ok in H2 as (c2 & s2 & Hc2 & Hs2 & ->). cbn in Hc2.
  assert (Hb : String.eqb n1 n2 = false) by by apply String.eqb_neq.
  assert (Hb' : String.eqb n2 n1 = false) by by apply String.eqb_neq; congruence.
  rewrite od_set_get_ne // in Hc2.
  apply bind_Ok. eexists. split;
    [apply repo_add_Ok; exists c2, s2; split; [exact Hc2|split; [exact Hs2|reflexivity]]|].
  apply repo_add_Ok. exists c1, s1. cbn. rewrite od_set_get_ne //. split_and!; [done|done|].
  f_equal. apply od_set_comm; [congruence|by rewrite Hc2|by rewrite Hc1].
Qed.

Lemma run_adds_front l a (r r' : DeltaSeriesRepo F) : Forall (fun b => b.1.1 <> a.1.1) l ->
  run_adds r (l ++ [a]) = Ok r' -> run_adds r (a :: l) = Ok r'.
Proof.
  intros Hl. revert r. induction Hl as [|b l Hb Hl IH]; intros r; [done|]. cbn [app run_adds mfor].
  intros H. apply bind_Ok in H as (r1 & H1 & H). apply IH in H. cbn [run_adds mfor] in H.
  apply bind_Ok in H as (r2 & H2 & H). destruct (proj1 (bind_Ok _ _ _)
    (run_add_swap b a r r2 Hb (proj2 (bind_Ok _ _ _) (ex_intro _ r1 (conj H1 H2))))) as (r3 & H3 & H4).
  rewrite H3. cbn. by rewrite H4.
Qed.

(** Groups of additions, each closed by one for another event: the closing one can come first. *)
Lemma run_adds_groups (L : list (list add_op * add_op)) (r r' : DeltaSeriesRepo F) :
  Forall (fun p => Forall (fun b => b.1.1 <> p.2.1.1) p.1) L ->
  run_adds r (L ≫= fun p => p.1 ++ [p.2]) = Ok r' -> run_adds r (L ≫= fun p => p.2 :: p.1) = Ok r'.
Proof.
  intros HL. revert r. induction HL as [|[l a] L Hl HL IH]; intros r; [done|].
  change (((l, a) :: L) ≫= fun p => p.1 ++ [p.2]) with ((l ++ [a]) ++ (L ≫= fun p => p.1 ++ [p.2])).
  change (((l, a) :: L) ≫= fun p => p.2 :: p.1) with ((a :: l) ++ (L ≫= fun p => p.2 :: p.1)).
  rewrite (run_adds_app r (l ++ [a])) (run_adds_app r (a :: l)). intros H.
  apply bind_Ok in H as (r1 & H1 & H).
  apply bind_Ok. exists r1. split; [exact (run_adds_front l a r r1 Hl H1)|by apply IH].
Qed.

(** *** Sizes *)

Definition sized (n : nat) (r : DeltaSeriesRepo F) : Prop :=
  forall name c, od_get String.eqb name (seriesMap r) = Some c -> length (deltaSeriesList c) = n.

Lemma run_add_keeps n a (r r' : DeltaSeriesRepo F) : run_add r a = Ok r' ->
  revents r' = revents r /\ (sized n r -> sized n r').
Proof.
  intros H. apply repo_add_Ok in H as (c & s & Hc & Hs & ->). split; [done|].
  intros Hn name c'. cbn. rewrite od_get_set. destruct (String.eqb _ name); [|apply Hn].
  intros [= <-]. cbn. rewrite length_insert. exact (Hn _ _ Hc).
Qed.

Lemma run_adds_keeps n l (r r' : DeltaSeriesRepo F) : run_adds r l = Ok r' ->
  revents r' = revents r /\ (sized n r -> sized n r').
Proof.
  revert r. induction l as [|a l IH]; intros r; cbn; [by intros [= <-]|].
  intros H. apply bind_Ok in H as (r1 & H1 & H). apply (run_add_keeps n) in H1 as [He1 Hs1].
  destruct (IH r1 H) as [He Hs]. split; [congruence|auto].
Qed.

Lemma run_adds_topdown l (r r' : DeltaSeriesRepo F) : run_adds r l = Ok r' -> rtopdownKeys r' = rtopdownKeys r.
Proof.
  revert r. induction l as [|a l IH]; intros r; cbn; [by intros [= <-]|].
  intros Hl. apply bind_Ok in Hl as (r1 & H1 & Hl). rewrite (IH r1 Hl). by apply repo_add_Ok in H1 as (? & ? & _ & _ & ->).
Qed.

Lemma repo_add_last_eq n name d (r : DeltaSeriesRepo F) : sized (S n) r ->
  repo_add_last name d r = repo_add name n d r.
Proof.
  intros Hn. unfold repo_add_last. destruct (od_get String.eqb name (seriesMap r)) as [c|] eqn:E.
  - pose proof (Hn name c E) as Hl. cbn.
    destruct (deltaSeriesList c) as [|s l] eqn:El; [done|]. cbn in Hl. injection Hl as ->. by rewrite Nat.sub_0_r.
  - unfold repo_add. by rewrite E.
Qed.
End Adds.

Section Chunks.
Context {F : Type} {HF : PyFloat F}.

(** The additions a time point stands for, those of its pmu counters and topdown values. *)
Definition chunk (i : nat) (tp : TimePoint F) : list (add_op (F := F)) :=
  (match tp_pmcNames tp, tp_deltaPmcs tp with
   | Some names, Some ds => zip_with (fun n d => (n, i, DPmc d)) names ds
   | _, _ => []
   end) ++
  (match tp_topdown tp with
   | Some vs => (fun v => (tv_name v, i, DFlt (tv_value v))) <$> vs
   | None => []
   end).

Definition wall (i : nat) (tp : TimePoint F) : add_op := (TSC_EVENT_NAME, i, DFlt (tp_duration tp)).

(** A step of a timeline with [n] pmu events and no topdown metrics. *)
Definition step_of (n : nat) (tp : TimePoint F) : Prop :=
  tp_topdown tp = None /\
  match n with O => tp_deltaPmcs tp = None | S _ => exists ds, tp_deltaPmcs tp = Some ds /\ length ds = n end.

(** Names and deltas match up, and no event is called wall time. *)
Definition point_ok (tp : TimePoint F) : Prop :=
  match tp_pmcNames tp, tp_deltaPmcs tp with
  | Some names, Some ds => length names = length ds /\ TSC_EVENT_NAME ∉ names
  | None, _ => True
  | Some _, None => False
  end /\
  match tp_topdown tp with
  | Some vs => Forall (fun v => tv_name v <> TSC_EVENT_NAME) vs
  | None => True
  end.

Lemma chunk_names i tp : point_ok tp -> Forall (fun b => b.1.1 <> TSC_EVENT_NAME) (chunk i tp).
Proof.
  intros [Hn Ht]. apply Forall_app. split.
  - destruct (tp_pmcNames tp) as [names|], (tp_deltaPmcs tp) as [ds|]; try by constructor.
    destruct Hn as [_ Hn]. apply Forall_forall. intros b Hb.
    apply list_elem_of_lookup in Hb as [k Hk]. apply lookup_zip_with_Some in Hk as (n & d & -> & Hx & _).
    cbn. intros ->. apply Hn. exact (list_elem_of_lookup_2 _ _ _ Hx).
  - destruct (tp_topdown tp) as [vs|]; [|constructor]. by apply Forall_fmap.
Qed.

Lemma mfor_fmap {A B S} (f : S -> B -> result S) (g : A -> B) s l :
  mfor f s (g <$> l) = mfor (fun s x => f s (g x)) s l.
Proof. revert s. induction l as [|x l IH]; intros s; cbn; [done|]. destruct (f s (g x)); cbn; auto. Qed.

Lemma repo_add_at_nat name i d (r : DeltaSeriesRepo F) : repo_add_at name (Z.of_nat i) d r = repo_add name i d r.
Proof. unfold repo_add_at. by rewrite (proj2 (Z.ltb_ge _ _)) ?Nat2Z.id; [lia|]. Qed.

Lemma addTimepoint_adds i tp (r : DeltaSeriesRepo F) : point_ok tp ->
  addTimepoint (Z.of_nat i) tp r = run_adds r (wall i tp :: chunk i tp).
Proof.
  intros [Hn _]. unfold addTimepoint, chunk. cbn [run_adds mfor]. rewrite repo_add_at_nat.
  change (repo_add TSC_EVENT_NAME i (DFlt (tp_duration tp)) r) with (run_add r (wall i tp)).
  destruct (run_add r (wall i tp)) as [r1|]; [|done]. cbn [mbind result_bind].
  change (mfor run_add r1) with (run_adds r1). rewrite run_adds_app.
  assert (Hp : (match tp_pmcNames tp with
      | Some names => mfor (fun repo '(j, name) => deltas ← or_raise TypeError_ (tp_deltaPmcs tp);
            d ← py_nth deltas j; repo_add_at name (Z.of_nat i) (DPmc d) repo) r1 (imap (fun j n => (j, n)) names)
      | None => Ok r1 end) =
    run_adds r1 (match tp_pmcNames tp, tp_deltaPmcs tp with
      | Some names, Some ds => zip_with (fun n d => (n, i, DPmc d)) names ds | _, _ => [] end)).
  { destruct (tp_pmcNames tp) as [names|], (tp_deltaPmcs tp) as [ds|]; try done.
    destruct Hn as [Hlen _]. cbn [or_raise mbind result_bind].
    assert (Hgen : forall pre (r : DeltaSeriesRepo F), mfor (fun repo '(j, name) => d ← py_nth (pre ++ ds) j;
        repo_add_at name (Z.of_nat i) (DPmc d) repo) r (imap (fun j n => (length pre + j, n)%nat) names) =
      run_adds r (zip_with (fun n d => (n, i, DPmc d)) names ds)).
    { clear r1. revert ds Hlen. induction names as [|n names IH]; intros [|d ds] Hlen pre r1; try done.
      cbn [imap mfor zip_with run_adds]. rewrite Nat.add_0_r.
      rewrite (proj2 (py_nth_Ok (pre ++ d :: ds) (length pre) d)); [by apply list_lookup_middle|].
      cbn [mbind result_bind]. rewrite repo_add_at_nat.
      change (run_add r1 (n, i, DPmc d)) with (repo_add n i (DPmc d) r1).
      destruct (repo_add n i (DPmc d) r1) as [r2|]; [|done]. cbn [mbind result_bind].
      injection Hlen as Hlen. change (mfor run_add r2) with (run_adds r2). rewrite -(IH ds Hlen (pre ++ [d]) r2) -app_assoc.
      f_equal. apply imap_ext. intros j x _. cbn. rewrite length_app. cbn. f_equal. lia. }
    apply (Hgen [] r1). }
  rewrite Hp. clear Hp. destruct (run_adds r1 _) as [r2|]; [|done]. cbn [mbind result_bind].
  destruct (tp_topdown tp) as [vs|]; [|done]. unfold run_adds. rewrite mfor_fmap.
  revert r2. induction vs as [|v vs IH]; intros r2; cbn [mfor]; [done|].
  rewrite repo_add_at_nat. change (run_add r2 (tv_name v, i, DFlt (tv_value v))) with
    (repo_add (tv_name v) i (DFlt (tv_value v)) r2).
  destruct (repo_add _ _ _ _); cbn; auto.
Qed.

Lemma add_pmcs_adds c prev names i (ends : list Z) deltas (repo : DeltaSeriesRepo F) ends' deltas' repo' n0 n :
  length names = (n0 + n)%nat ->
  mfor (fun '(ends, deltas, repo) k =>
    d ← pmc_delta c prev k;
    name ← py_nth names k;
    repo ← repo_add name i (DPmc d) repo;
    Ok (alter (fun e => e + default 0 d) k ends, deltas ++ [d], repo)) (ends, deltas, repo) (seq n0 n)
    = Ok (ends', deltas', repo') ->
  exists ds, deltas' = deltas ++ ds /\ length ds = n /\
    run_adds repo (zip_with (fun nm d => (nm, i, DPmc d)) (drop n0 names) ds) = Ok repo'.
Proof.
  revert ends deltas repo n0. induction n as [|n IH]; intros ends deltas repo n0 Hlen; cbn [seq mfor].
  { intros [= <- <- <-]. exists []. rewrite app_nil_r drop_ge; [lia|]. done. }
  intros H. apply bind_Ok in H as ([[e1 d1] r1] & H1 & H). apply bind_Ok in H1 as (d & Hd & H1).
  apply bind_Ok in H1 as (nm & Hnm%py_nth_Ok & H1). apply bind_Ok in H1 as (r & Hr & [= <- <- <-]).
  destruct (IH _ _ _ (S n0) ltac:(lia) H) as (ds & -> & Hds & Hadds). exists (d :: ds).
  rewrite -app_assoc. split_and!; [done|cbn; by f_equal|].
  rewrite (drop_S _ _ _ Hnm). cbn [zip_with run_adds mfor].
  change (run_add repo (nm, i, DPmc d)) with (repo_add nm i (DPmc d) repo). rewrite Hr. cbn. exact Hadds.
Qed.

(** The endpoint's additions go to the last series, which [sized] places. *)
Lemma run_adds_last n (l : list (string * Delta F)) (r : DeltaSeriesRepo F) : sized (S n) r ->
  mfor (fun repo p => repo_add_last p.1 p.2 repo) r l = run_adds r ((fun p => (p.1, n, p.2)) <$> l).
Proof.
  revert r. induction l as [|[name d] l IH]; intros r Hr; cbn; [done|].
  rewrite (repo_add_last_eq n) //. change (run_add r (name, n, d)) with (repo_add name n d r).
  destruct (repo_add name n d r) as [r1|] eqn:E; [|done]. cbn. apply IH.
  by apply (proj2 (run_add_keeps (S n) (name, n, d) r r1 E)).
Qed.

Lemma end_pmcs n names (ends : list Z) (r : DeltaSeriesRepo F) : sized (S n) r -> length names = length ends ->
  mfor (fun repo k => name ← py_nth names k; d ← py_nth ends k; repo_add_last name (DPmc (Some d)) repo) r
    (seq 0 (length ends)) =
  run_adds r (zip_with (fun nm d => (nm, n, DPmc d)) names (Some <$> ends)).
Proof.
  intros Hr Hlen. assert (Hgen : forall pn pe (r : DeltaSeriesRepo F), length pn = length pe ->
    mfor (fun repo k => name ← py_nth (pn ++ names) k; d ← py_nth (pe ++ ends) k;
      repo_add_last name (DPmc (Some d)) repo) r (seq (length pe) (length ends)) =
    mfor (fun repo p => repo_add_last p.1 p.2 repo) r (zip_with (fun nm d => (nm, DPmc (Some d))) names ends)).
  { clear r Hr. revert ends Hlen. induction names as [|nm names IH]; intros [|d ends] Hlen pn pe r Hp; try done.
    cbn [length seq mfor zip_with]. injection Hlen as Hlen.
    rewrite (proj2 (py_nth_Ok (pn ++ nm :: names) (length pe) nm)); [rewrite -Hp; by apply list_lookup_middle|].
    rewrite (proj2 (py_nth_Ok (pe ++ d :: ends) (length pe) d)); [by apply list_lookup_middle|].
    cbn [mbind result_bind fst snd]. destruct (repo_add_last nm _ r) as [r1|]; [|done]. cbn [mbind result_bind].
    rewrite -(IH ends Hlen (pn ++ [nm]) (pe ++ [d])); [rewrite !length_app; cbn; lia|].
    rewrite -!app_assoc length_app Nat.add_1_r. done. }
  etrans; [apply (Hgen [] [] r eq_refl)|]. rewrite (run_adds_last n) //. f_equal.
  clear. revert ends. induction names as [|nm names IH]; intros [|d ends]; cbn; try done. by rewrite IH.
Qed.

Lemma topdown_last topdown emap n deltas (r : DeltaSeriesRepo F) : sized (S n) r ->
  add_topdown topdown emap repo_add_last deltas r =
  add_topdown topdown emap (fun nm => repo_add nm n) deltas r.
Proof.
  intros Hr. unfold add_topdown. destruct topdown as [tm|]; [|done].
  destruct emap as [m|]; [|done]. cbn. destruct (compute tm _) as [vs|]; [|done]. cbn. f_equal.
  pose proof (run_adds_last n ((fun v => (tv_name v, DFlt (tv_value v))) <$> vs) r Hr) as H.
  unfold run_adds in H. rewrite !mfor_fmap in H. exact H.
Qed.

(** ** The additions of one transaction *)

Section Walk.
Context (cpu : CpuInfo F) (topdown : option (TopdownMetrics F)) (pmcCount : nat) (probes : list Probe)
  (emap : option (list (string * nat))) (events : list Event).
Context (Hcount : pmcCount = length events) (Hevents : TSC_EVENT_NAME ∉ ename <$> events).
Context (Htd : forall tm m vs, topdown = Some tm -> compute tm m = Ok vs ->
  Forall (fun v => tv_name v <> TSC_EVENT_NAME) vs).

Lemma topdown_adds i deltas (repo : DeltaSeriesRepo F) td repo' :
  add_topdown topdown emap (fun n => repo_add n i) deltas repo = Ok (td, repo') ->
  run_adds repo (match td with Some vs => (fun v => (tv_name v, i, DFlt (tv_value v))) <$> vs | None => [] end)
    = Ok repo' /\
  match td with Some vs => Forall (fun v => tv_name v <> TSC_EVENT_NAME) vs | None => True end.
Proof using Htd.
  unfold add_topdown. destruct topdown as [tm|] eqn:E; [|by intros [= <- <-]].
  intros H. apply bind_Ok in H as (m & _ & H). apply bind_Ok in H as (vs & Hvs & H).
  apply bind_Ok in H as (r & Hr & [= <- <-]). split; [|exact (Htd _ _ _ eq_refl Hvs)].
  unfold run_adds. by rewrite mfor_fmap.
Qed.

(** A point carries every event, and the values its topdown metrics compute. *)
Definition point_full (tp : TimePoint F) : Prop :=
  events <> [] -> tp_pmcNames tp = Some (ename <$> events) /\ (exists ds, tp_deltaPmcs tp = Some ds) /\
    match tp_topdown tp with
    | Some vs => exists tm m, topdown = Some tm /\ compute tm m = Ok vs
    | None => topdown = None
    end.

(** The pmu part of a step, in a session without topdown metrics. *)
Definition plain_step (tp : TimePoint F) : Prop := topdown = None -> step_of (length events) tp.

Lemma topdown_source add deltas (repo : DeltaSeriesRepo F) td repo' :
  add_topdown topdown emap add deltas repo = Ok (td, repo') ->
  match td with Some vs => exists tm m, topdown = Some tm /\ compute tm m = Ok vs | None => topdown = None end.
Proof using topdown emap.
  clear Htd. unfold add_topdown. destruct topdown as [tm|]; [|by intros [= <- _]].
  intros H. apply bind_Ok in H as (m & _ & H). apply bind_Ok in H as (vs & Hvs & H).
  apply bind_Ok in H as (r & _ & [= <- _]). by exists tm, (mkCounterMap m deltas).
Qed.

(** The first step starts the timeline; every other one adds a point and its chunk. *)
Lemma step_adds t b i j b' : revents (b_repo b) = events ->
  tl_step cpu topdown pmcCount probes emap t b (i, j) = Ok b' ->
  match b_first b, b_prev b with
  | Some _, Some _ => exists tp, b_points b' = b_points b ++ [tp] /\ point_ok tp /\ point_full tp /\ plain_step tp /\
      run_adds (b_repo b) (chunk (i - 1) tp ++ [wall (i - 1) tp]) = Ok (b_repo b')
  | _, _ => b_points b' = b_points b /\ b_repo b' = b_repo b
  end.
Proof.
  intros Hev H. unfold tl_step in H. apply bind_Ok in H as (probe & _ & H).
  apply bind_Ok in H as (c & _ & H). apply bind_Ok in H as (same & _ & H). destruct same; [|done].
  cbn [negb] in H. destruct (b_first b) as [first|]; [|by injection H as <-].
  destruct (b_prev b) as [prev|]; [|by injection H as <-]. destruct (tsc c =? 0); [done|].
  apply bind_Ok in H as (dur & _ & H). apply bind_Ok in H as (pt & _ & H).
  apply bind_Ok in H as (before & _ & H). destruct (length (pmcs c) <? pmcCount)%nat; [done|].
  apply bind_Ok in H as ([[[[ends names] deltas] td] repo] & Hpmc & H).
  apply bind_Ok in H as (repo' & Hwall & [= <-]). cbn [b_points b_repo].
  eexists. split; [done|]. revert Hpmc. rewrite Hcount. destruct events as [|ev evs] eqn:Eev; cbn [length].
  - intros [= <- <- <- <- <-]. split_and!; try done; [intros _; by rewrite /step_of Eev|]. cbn. unfold run_add, wall. cbn. by rewrite Hwall.
  - intros Hpmc. apply bind_Ok in Hpmc as ([[e1 d1] r1] & Hadd & Hpmc).
    apply bind_Ok in Hpmc as ([td1 r2] & Htds & [= <- <- <- <- <-]).
    unfold add_pmcs in Hadd. rewrite /pmcNames Hev in Hadd.
    destruct (add_pmcs_adds _ _ _ _ _ _ _ _ _ _ 0 _ (length_fmap _ _) Hadd) as (ds & -> & Hds & Hadds).
    pose proof (topdown_source _ _ _ _ _ Htds) as Hsrc.
    destruct (topdown_adds _ _ _ _ _ Htds) as [Htda Htdn]. rewrite drop_0 in Hadds.
    rewrite /pmcNames Hev. split_and!.
    + split; cbn; [|done]. split; [|done]. by rewrite length_fmap Hds.
    + intros _. rewrite Eev. split_and!; [done|by eexists|done].
    + intros Hno. rewrite Eev. split; cbn [tp_topdown tp_deltaPmcs length].
      * destruct td1; [|done]. destruct Hsrc as (tm & m & Htm & _). by rewrite Htm in Hno.
      * exists ds. by rewrite Hds.
    + unfold chunk. cbn [tp_pmcNames tp_deltaPmcs tp_topdown app]. rewrite !run_adds_app Hadds.
      cbn [mbind result_bind]. rewrite Htda. cbn [mbind result_bind run_adds mfor].
      change (run_add r2 _) with (repo_add TSC_EVENT_NAME (i - 1) (DFlt dur) r2). by rewrite Hwall.
Qed.

Definition groups (pts : list (TimePoint F)) : list (list (add_op (F := F)) * add_op (F := F)) :=
  imap (fun i tp => (chunk i tp, wall i tp)) pts.

Definition closed (L : list (list (add_op (F := F)) * add_op (F := F))) := L ≫= fun p => p.1 ++ [p.2].

Lemma groups_snoc pts tp : groups (pts ++ [tp]) = groups pts ++ [(chunk (length pts) tp, wall (length pts) tp)].
Proof. unfold groups. rewrite imap_app. cbn. by rewrite Nat.add_0_r. Qed.

Record walked (r0 : DeltaSeriesRepo F) (cs : list Counter) (b : Builder F) : Prop := {
  wk_built : built cpu pmcCount probes cs b;
  wk_events : revents (b_repo b) = events;
  wk_ok : Forall point_ok (b_points b);
  wk_full : Forall point_full (b_points b);
  wk_plain : Forall plain_step (b_points b);
  wk_adds : run_adds r0 (closed (groups (b_points b))) = Ok (b_repo b)
}.

Lemma walked_step t r0 cs b j b' : walked r0 cs b ->
  tl_step cpu topdown pmcCount probes emap t b (length cs, j) = Ok b' ->
  exists c, counters t !! j = Some c /\ walked r0 (cs ++ [c]) b'.
Proof.
  intros [Hb He Hok Hfl Hpl Ha] H. destruct (built_step _ _ _ _ _ _ _ _ _ _ _ Hb eq_refl H) as (c & Hc & Hb').
  exists c. split; [done|]. apply step_adds in H; [|done].
  destruct Hb as [Hf Hp _ Hl _ _ _ _]. rewrite Hf Hp in H. destruct cs as [|c0 cs].
  - destruct H as [Hpts Hr]. by split; rewrite ?Hpts ?Hr.
  - destruct (last (c0 :: cs)) eqn:El; [|by apply last_None in El]. cbn [head] in H.
    destruct H as (tp & Hpts & Hpok & Hpf & Hps & Hadds). split; rewrite ?Hpts.
    + done.
    + by rewrite (proj1 (run_adds_keeps 0 _ _ _ Hadds)).
    + apply Forall_app. split; [done|]. by apply Forall_singleton.
    + apply Forall_app. split; [done|]. by apply Forall_singleton.
    + apply Forall_app. split; [done|]. by apply Forall_singleton.
    + rewrite groups_snoc /closed bind_app run_adds_app. fold (closed (groups (b_points b))). rewrite Ha.
      cbn [mbind result_bind list_bind]. rewrite app_nil_r.
      replace (length (b_points b)) with (length (c0 :: cs) - 1)%nat by (rewrite Hl; cbn; lia). done.
Qed.

Lemma walked_loop t indices r0 b : revents r0 = events ->
  mfor (tl_step cpu topdown pmcCount probes emap t)
    (mkBuilder None None 0 (replicate pmcCount 0) [] r0) (imap (fun i j => (i, j)) indices) = Ok b ->
  exists cs, Forall2 (fun j c => counters t !! j = Some c) indices cs /\ walked r0 cs b.
Proof.
  intros He. assert (Hinit : walked r0 [] (mkBuilder None None 0 (replicate pmcCount 0) [] r0)).
  { split; [|done|constructor|constructor|constructor|done]. split; cbn; try done; by rewrite length_replicate. }
  assert (Hgen : forall cs0 b0, walked r0 cs0 b0 ->
    mfor (tl_step cpu topdown pmcCount probes emap t) b0 (imap (fun i j => (length cs0 + i, j)%nat) indices) = Ok b ->
    exists cs, Forall2 (fun j c => counters t !! j = Some c) indices cs /\ walked r0 (cs0 ++ cs) b).
  { clear Hinit. induction indices as [|j js IH]; intros cs0 b0 Hb; cbn [imap mfor].
    { intros [= <-]. exists []. rewrite app_nil_r. split; [constructor|done]. }
    intros H. apply bind_Ok in H as (b1 & H1 & H). rewrite Nat.add_0_r in H1.
    destruct (walked_step t r0 cs0 b0 j b1 Hb H1) as (c & Hc & Hb1).
    destruct (IH (cs0 ++ [c]) b1 Hb1) as (cs & Hcs & Hb2).
    { rewrite -H. f_equal. apply imap_ext. intros i x _. cbn. rewrite length_app. cbn. f_equal. lia. }
    exists (c :: cs). rewrite -app_assoc in Hb2. split; [by constructor|done]. }
  exact (Hgen [] _ Hinit).
Qed.

Lemma buildTimeline_adds t indices r0 points e first repo : revents r0 = events ->
  sized (length indices) r0 ->
  buildTimeline cpu topdown pmcCount probes emap t indices r0 = Ok (points, e, first, repo) ->
  exists pts final, points = pts ++ [final] /\ length points = length indices /\
    Forall point_ok pts /\ point_ok e /\ Forall point_full pts /\ point_full e /\ tp_pmcNames final = None /\ Forall plain_step pts /\
    run_adds r0 (closed (groups pts ++ [(chunk (length pts) e, wall (length pts) e)])) = Ok repo.
Proof.
  intros He Hsz H. unfold buildTimeline in H. apply bind_Ok in H as (b & Hloop & H).
  destruct (walked_loop t indices r0 b He Hloop) as (cs & Hcs & [Hb Hev Hok Hfl Hpl Ha]).
  destruct Hb as [Hf Hp _ Hl _ _ Hel _]. rewrite Hf Hp in H.
  destruct (head cs) as [c0|] eqn:Eh; [|done]. destruct (last cs) as [cn|] eqn:El; [|done].
  apply bind_Ok in H as (point & _ & H). apply bind_Ok in H as (final & _ & H).
  apply bind_Ok in H as (dur & _ & H). apply bind_Ok in H as ([[[names deltas] td] r1] & Hend & H).
  apply bind_Ok in H as (r2 & Hwall & [= <- <- <- <-]).
  assert (Hn : length indices = S (length (b_points b))).
  { rewrite (Forall2_length _ _ _ Hcs). destruct cs; [done|]. cbn in *. lia. }
  pose proof (proj2 (run_adds_keeps (length indices) _ _ _ Ha) Hsz) as Hszb. rewrite Hn in Hszb.
  eexists (b_points b), _. split_and!; [done|rewrite length_app Hn; cbn; lia|done| |exact Hfl| |done|exact Hpl|].
  all: revert Hend; rewrite Hcount in Hel |- *; destruct events as [|ev evs] eqn:Eev; cbn [length];
    [intros [= <- <- <- <-]|intros Hend].
  - done.
  - apply bind_Ok in Hend as (r3 & Hr3 & Hend). apply bind_Ok in Hend as ([td' r4] & Htds & [= <- <- <- <-]).
    rewrite (end_pmcs (length (b_points b))) in Hr3; [done|by rewrite /pmcNames length_fmap Hev Hel|].
    rewrite (topdown_last topdown emap (length (b_points b))) in Htds.
    { by apply (proj2 (run_adds_keeps _ _ _ _ Hr3)). }
    destruct (topdown_adds _ _ _ _ _ Htds) as [_ Htdn]. split; cbn; [|done].
    rewrite /pmcNames Hev. split; [|done]. by rewrite !length_fmap Hel.
  - intros Hne. by rewrite Eev in Hne.
  - apply bind_Ok in Hend as (r3 & _ & Hend). apply bind_Ok in Hend as ([td' r4] & Htds & [= <- <- <- <-]).
    intros _. rewrite /pmcNames Hev Eev. split_and!; [done|by eexists|exact (topdown_source _ _ _ _ _ Htds)].
  - rewrite /closed bind_app run_adds_app. fold (closed (groups (b_points b))). rewrite Ha. cbn.
    rewrite (repo_add_last_eq (length (b_points b))) // in Hwall. unfold run_add. cbn. by rewrite Hwall.
  - apply bind_Ok in Hend as (r3 & Hr3 & Hend). apply bind_Ok in Hend as ([td' r4] & Htds & [= <- <- <- <-]).
    rewrite (end_pmcs (length (b_points b))) in Hr3; [done|by rewrite /pmcNames length_fmap Hev Hel|].
    pose proof (proj2 (run_adds_keeps _ _ _ _ Hr3) Hszb) as Hsz3.
    rewrite (topdown_last topdown emap (length (b_points b))) // in Htds.
    destruct (topdown_adds _ _ _ _ _ Htds) as [Htda _].
    rewrite (repo_add_last_eq (length (b_points b))) in Hwall.
    { by apply (proj2 (run_adds_keeps _ _ _ _ Htda)). }
    rewrite /closed bind_app run_adds_app. fold (closed (groups (b_points b))). rewrite Ha.
    cbn [mbind result_bind list_bind fst snd]. rewrite app_nil_r run_adds_app /chunk.
    cbn [tp_pmcNames tp_deltaPmcs tp_topdown]. rewrite run_adds_app Hr3. cbn [mbind result_bind].
    rewrite Htda. cbn [mbind result_bind run_adds mfor].
    change (run_add r4 _) with (repo_add TSC_EVENT_NAME (length (b_points b)) (DFlt dur) r4).
    by rewrite Hwall.
Qed.
End Walk.
End Chunks.

(** ** From timelines back to series *)

Section RebuildTheorem.
Context {F : Type} {HF : PyFloat F}.
Implicit Types r : DeltaSeriesRepo F.

Lemma addTimepoints_groups (pts : list (TimePoint F)) final r : Forall point_ok pts ->
  mfor (fun repo i => tp ← py_nth (pts ++ [final]) i; addTimepoint (Z.of_nat i) tp repo) r
    (seq 0 (length pts)) = run_adds r (groups pts ≫= fun p => p.2 :: p.1).
Proof.
  intros Hok. assert (Hgen : forall pre r,
    mfor (fun repo i => tp ← py_nth (pre ++ pts ++ [final]) i; addTimepoint (Z.of_nat i) tp repo) r
      (seq (length pre) (length pts)) =
    run_adds r (imap (fun i tp => (chunk (length pre + i) tp, wall (length pre + i) tp)) pts ≫= fun p => p.2 :: p.1)).
  { clear r. induction Hok as [|tp pts Htp Hok IH]; intros pre r; [done|].
    cbn [length seq mfor imap mbind list_bind]. rewrite Nat.add_0_r.
    rewrite (proj2 (py_nth_Ok (pre ++ (tp :: pts) ++ [final]) (length pre) tp));
      [by apply list_lookup_middle|]. cbn [mbind result_bind fst snd].
    rewrite addTimepoint_adds // run_adds_app. destruct (run_adds r _) as [r1|]; [|done].
    cbn [mbind result_bind].
    specialize (IH (pre ++ [tp]) r1). rewrite length_app Nat.add_1_r -!app_assoc in IH. rewrite IH.
    f_equal. f_equal. apply imap_ext. intros i x _. cbn. by rewrite Nat.add_succ_r. }
  apply (Hgen [] r).
Qed.

Lemma groups_ok pts : Forall point_ok pts ->
  Forall (fun p : list (add_op (F := F)) * add_op (F := F) => Forall (fun b => b.1.1 <> p.2.1.1) p.1) (groups pts).
Proof.
  intros Hok. unfold groups. apply Forall_forall. intros p Hp. apply list_elem_of_lookup in Hp as [i Hi].
  rewrite list_lookup_imap in Hi. apply fmap_Some in Hi as (tp & Htp & ->). cbn.
  apply chunk_names. forall_elim Hok. apply Hok. exact (list_elem_of_lookup_2 _ _ _ Htp).
Qed.

(** One timeline, rebuilt. *)
Lemma addTimeline_rebuilds (pts : list (TimePoint F)) final e t tsc0 id inception r r' :
  Forall point_ok pts -> point_ok e ->
  run_adds r (closed (groups pts ++ [(chunk (length pts) e, wall (length pts) e)])) = Ok r' ->
  addTimeline r (mkTimeline t tsc0 id (pts ++ [final]) (Some e) inception) = Ok r'.
Proof.
  intros Hok He Ha. unfold closed in Ha. apply run_adds_groups in Ha.
  - rewrite bind_app run_adds_app in Ha. apply bind_Ok in Ha as (r1 & H1 & H2). unfold addTimeline.
    cbn [tl_points tl_endpoint]. rewrite length_app Nat.add_1_r /= Nat.sub_0_r addTimepoints_groups // H1.
    cbn [mbind result_bind].
    replace (Z.of_nat (S (length pts)) - 1) with (Z.of_nat (length pts)) by lia.
    rewrite addTimepoint_adds //. cbn [mbind list_bind fst snd] in H2. by rewrite app_nil_r in H2.
  - apply Forall_app. split; [by apply groups_ok|]. apply Forall_singleton. by apply chunk_names.
Qed.

(** The fresh repository has one series per probe in every collection. *)
Lemma init_sized events keys probes : probes <> [] ->
  sized (length probes) (DeltaSeriesRepo_init (F := F) events keys probes).
Proof.
  intros Hne name c. unfold DeltaSeriesRepo_init. cbn [seriesMap].
  assert (Hlen : length (probe_series (F := F) probes) = length probes).
  { unfold probe_series. rewrite length_app length_zip_with. destruct probes; [done|]. cbn [length tail]. lia. }
  set (m0 := fold_left _ _ _). assert (Hm0 : forall n c, (n, c) ∈ m0 -> deltaSeriesList c = []).
  { unfold m0. assert (Hinit : forall n c, (n, c) ∈ [(TSC_EVENT_NAME, mkSeriesColl (F := F) TSC_EVENT_NAME [])] ->
      deltaSeriesList c = []) by (intros n c' [= -> ->]%list_elem_of_singleton; done).
    revert Hinit. generalize [(TSC_EVENT_NAME, mkSeriesColl (F := F) TSC_EVENT_NAME [])].
    generalize ((ename <$> events) ++ fold_left (fun ns k => visit k ns) keys []).
    induction l as [|n l IH]; intros m Hm; [done|]. apply IH. intros n' c' Hin.
    assert (Hset : (n', c') ∈ m \/ c' = mkSeriesColl n []).
    { clear -Hin. induction m as [|[k v] m IHm]; cbn in Hin.
      - apply list_elem_of_singleton in Hin. right. congruence.
      - destruct (String.eqb n k).
        + apply elem_of_cons in Hin as [[= -> ->]|Hin]; [by right|left; by right].
        + apply elem_of_cons in Hin as [[= -> ->]|Hin]; [left; left|].
          destruct (IHm Hin) as [|]; [left; by right|by right]. }
    destruct Hset as [Hin'| ->]; [exact (Hm _ _ Hin')|done]. }
  intros Hg. apply od_get_elem_of in Hg as (n & Hin & _).
  apply list_elem_of_fmap in Hin as ([n' c'] & [= -> ->] & Hin). cbn. rewrite -Hlen.
  specialize (Hm0 n' c' Hin). revert Hm0. generalize c'. clear.
  assert (Hfold : forall (l : list (DeltaSeries F)) c, length (deltaSeriesList (fold_left (fun c s => addDeltaSeries s c) l c))
    = (length (deltaSeriesList c) + length l)%nat).
  { induction l as [|s l IH]; intros c; cbn; [lia|]. rewrite IH. cbn. rewrite length_app. cbn. lia. }
  intros c Hc. by rewrite Hfold Hc.
Qed.

End RebuildTheorem.

#[local] Existing Instance ex_float.
#[local] Existing Instance ex_tl_hash.

