(* ===== verification/Records.v ===== *)
(** * Sample and probe records

    Models txn/filter.py, txn/extractor.py, txn/collector.py, the probe factory of
    util/probeFactory.py and the process info of profiler/appInfo.py: the text records
    the profiled process writes, and how they reach a transaction loader.

    A counter filter and a transaction loader are interfaces; the filters of txn/filter.py
    and [Loader] are their instances. *)

From Stdlib Require Import Ascii.
From S2P Require Import Prelude PyStr Probe Route Txn Loader.

(** ** Counter filters *)

(** What an extractor asks of a filter. *)
Class CounterFilter (S : Type) := {
  canLoad : S -> Counter -> bool * S;
  report : S -> bool;             (* whether there is a report to log *)
  freset : S -> S
}.

(** [TrivialCounterFilter]. *)
Definition TrivialCounterFilter : CounterFilter unit := {|
  canLoad s _ := (true, s); report _ := false; freset s := s |}.
#[export] Existing Instance TrivialCounterFilter.

Record AnonymousCounterFilter := mkAnonFilter {
  probeSet : list Probe;
  warmupThreshold : Z;
  extraneousCounters : Z;
  nullIdCounters : Z;
  totalInspectedCounters : Z;
  warmupCounters : Z
}.

(** The hash set of probes tells probes of the two families apart. *)
Definition in_probeSet (p : Probe) (ps : list Probe) : bool :=
  existsb (fun q => if isAnchored p then isAnchored q && anchored_eqb p q
                    else negb (isAnchored q) && opt_str_eqb (sysName p) (sysName q))%bool ps.

Definition AnonymousCounterFilter_init (probes : list Probe) (warmup : Z) : AnonymousCounterFilter :=
  mkAnonFilter probes warmup 0 0 0 0.

Section AnonymousFilter.
(** The counter's [txnId] attribute: [Counter.__init__] leaves it [None]. *)
Context (counter_txnId : Counter -> option Z).

(** [isCounterInScope]. *)
Definition isCounterInScope (f : AnonymousCounterFilter) (c : Counter) : bool * AnonymousCounterFilter :=
  let 'mkAnonFilter ps w ex nu tot wa := f in
  if negb (in_probeSet (cprobe c) ps) then (false, mkAnonFilter ps w (ex + 1) nu tot wa)
  else match counter_txnId c with
       | None => (false, mkAnonFilter ps w ex (nu + 1) tot wa)
       | Some id =>
           if id =? 0 then (false, mkAnonFilter ps w ex (nu + 1) tot wa)
           else if id <=? w then (false, mkAnonFilter ps w ex nu tot (wa + 1))
           else (true, f)
       end.

Definition anon_canLoad (f : AnonymousCounterFilter) (c : Counter) : bool * AnonymousCounterFilter :=
  let 'mkAnonFilter ps w ex nu tot wa := f in isCounterInScope (mkAnonFilter ps w ex nu (tot + 1) wa) c.

(** [report] is [None] when only warmup counters were filtered. *)
Definition anon_report (f : AnonymousCounterFilter) : bool :=
  0 <? extraneousCounters f + nullIdCounters f + warmupCounters f - warmupCounters f.

Definition anon_reset (f : AnonymousCounterFilter) : AnonymousCounterFilter :=
  mkAnonFilter (probeSet f) (warmupThreshold f) 0 0 0 0.

Definition AnonymousFilter : CounterFilter AnonymousCounterFilter := {|
  canLoad := anon_canLoad; report := anon_report; freset := anon_reset |}.
End AnonymousFilter.

(** ** Loaders *)

(** What a collector asks of a transaction loader. *)
Class TxnLoader (L : Type) := {
  ld_begin : string -> string -> L -> L;
  ld_load : L -> Counter -> result L;
  ld_end : L -> L;
  ld_endCollection : L -> result L
}.

(** The bounded transaction loader, for a map of probes; [fuel] bounds the joining of
    fragments ([Join.join_all_terminates] says how much is enough). *)
Definition BoundedLoader (pm : ProbeMap Probe) (fuel : nat) : TxnLoader Loader :=
  {| ld_begin := beginLoad; ld_load := loadCounter pm; ld_end := endLoad;
     ld_endCollection := endCollection fuel |}.

(** ** Extractor and collector *)

Section Extractor.
Context {S L : Type} {HS : CounterFilter S} {HL : TxnLoader L}.

(** The extractor with the loader it feeds. *)
Record Extractor := mkExtractor { orphanedSamplesCount : Z; counterFilter : S; loader : L }.

Definition feed (c : Counter) (e : Extractor) : result Extractor :=
  let '(ok, f) := canLoad (counterFilter e) c in
  if ok then l ← ld_load (loader e) c; Ok (mkExtractor (orphanedSamplesCount e) f l)
  else Ok (mkExtractor (orphanedSamplesCount e) f (loader e)).

Definition orphan (e : Extractor) : Extractor :=
  mkExtractor (orphanedSamplesCount e + 1) (counterFilter e) (loader e).

(** A sample decoded by the native library. *)
Record Sample := mkSample { returnSite : Z; sdata : option string; stsc : Z; spmcs : list Z }.

Definition MIN_FIELD_COUNT : nat := 2.

(** [Extractor.loadCounter]: one csv record. *)
Definition parse_record (threadId : string) (probes : list (string * Probe)) (record : string)
    : result (option Counter) :=
  let fields := py_split "," record in
  if (length fields <? MIN_FIELD_COUNT)%nat then Raise Exception_
  else
    addr ← py_nth fields 1;
    match od_get String.eqb addr probes with
    | None => Ok None
    | Some p =>
        data ← py_nth fields 2;
        t ← (hex ← py_nth fields 0; py_int 16 hex);
        let c := Counter_init threadId p data t in
        c ← (if (MIN_FIELD_COUNT <? length fields)%nat
             then mfor (fun c pmc => v ← py_int 10 pmc; Ok (addPmc c v)) c (drop (MIN_FIELD_COUNT + 1) fields)
             else Ok c);
        Ok (Some c)
    end.

Definition loadCounter_record (threadId : string) (probes : list (string * Probe)) (e : Extractor)
    (record : string) : result Extractor :=
  o ← parse_record threadId probes record;
  match o with Some c => feed c e | None => Ok (orphan e) end.

(** [Extractor.loadSample]: one binary sample. *)
Definition loadSample (threadId : string) (probes : list (string * Probe)) (e : Extractor) (s : Sample)
    : result Extractor :=
  match od_get String.eqb (String.append "0x" (print_int 16 (returnSite s))) probes with
  | None => Ok (orphan e)
  | Some p =>
      feed (fold_left addPmc (spmcs s) (Counter_init threadId p (default "" (sdata s)) (stsc s))) e
  end.

(** A sample file: thread id, address of the thread's local storage, contents. *)
Record SampleFile (A : Type) := mkSampleFile { sf_threadId : string; sf_tlsAddr : string; sf_contents : A }.

(** [logCounterFilterReport]: the filter is reset whether or not it had a report. *)
Definition logCounterFilterReport (e : Extractor) : Extractor :=
  mkExtractor (orphanedSamplesCount e) (freset (counterFilter e)) (loader e).

(** [Collector.loadCounters]: the first line of a file is its header. *)
Definition loadCounters (threadId : string) (probes : list (string * Probe)) (lines : list string) (e : Extractor)
    : result (Extractor * nat) :=
  e ← mfor (loadCounter_record threadId probes) e (drop 1 lines); Ok (e, length lines).

(** [Collector.loadSamples]. *)
Definition loadSamples (probes : list (string * Probe)) (files : list (SampleFile (list string))) (e : Extractor)
    : result (Extractor * nat) :=
  '(e, n) ← mfor (fun '(e, n) f =>
      let e := mkExtractor (orphanedSamplesCount e) (counterFilter e)
                 (ld_begin (sf_threadId _ f) (sf_tlsAddr _ f) (loader e)) in
      '(e, k) ← loadCounters (sf_threadId _ f) probes (sf_contents _ f) e;
      Ok (mkExtractor (orphanedSamplesCount e) (counterFilter e) (ld_end (loader e)), (n + k)%nat))
    (e, 0%nat) files;
  Ok (logCounterFilterReport e, n).

Definition end_collection (e : Extractor) : result Extractor :=
  l ← ld_endCollection (loader e); Ok (mkExtractor (orphanedSamplesCount e) (counterFilter e) l).

(** [Extractor.gatherCounters] on the decoded samples of every file. *)
Definition gatherCounters (probes : list (string * Probe)) (files : list (SampleFile (list Sample))) (e : Extractor)
    : result Extractor :=
  e ← mfor (fun e f =>
      let e := mkExtractor (orphanedSamplesCount e) (counterFilter e)
                 (ld_begin (sf_threadId _ f) (sf_tlsAddr _ f) (loader e)) in
      e ← mfor (loadSample (sf_threadId _ f) probes) e (sf_contents _ f);
      Ok (logCounterFilterReport (mkExtractor (orphanedSamplesCount e) (counterFilter e) (ld_end (loader e)))))
    e files;
  end_collection e.

(** [Collector.formatPath]. *)
Definition formatPath (path : string) (maxChars : nat) : string :=
  if (String.length path <? maxChars)%nat then path else String.append "..." (slice_last maxChars path).
End Extractor.
Arguments Extractor S L : clear implicits.

(** ** Probe records *)

Definition FIELD_DELIMITER : string := " | ".

(** [ProbeFactory.trimWorkspace]. *)
Definition trimWorkspace (filePath : string) (workspace : option string) : string :=
  let p := match workspace with
           | Some w => if (nonempty w && starts_with (to_chars w) (to_chars filePath))%bool
                       then slice_from (String.length w) filePath else filePath
           | None => filePath
           end in
  if starts_with ["/"%char] (to_chars p) then slice_from 1 p else p.

(** [fields.update({field[:index]:field[index+1:]})] for the fields of a record. *)
Definition record_fields (record : string) : result (list (string * string)) :=
  mfor (fun fields field =>
    match find_sub ["="%char] (to_chars field) with
    | None => Raise InvariantViloation
    | Some i => Ok (od_set String.eqb (slice_to i field) (slice_from (i + 1) field) fields)
    end) [] (py_split FIELD_DELIMITER record).

(** A missing field becomes an invariant violation. *)
Definition field (fields : list (string * string)) (name : string) : result string :=
  or_raise InvariantViloation (od_get String.eqb name fields).

Definition probe_of_fields (workspace : option string) (fields : list (string * string))
    : result (string * Probe) :=
  file ← field fields "File";
  let file := trimWorkspace file workspace in
  site ← field fields "RecorderReturnSite";
  name ← field fields "Name";
  line ← field fields "Line";
  attrs ← field fields "Attributes";
  status ← field fields "Status";
  p ← AnchoredProbe_init name file (LStr line) attrs (Some (String.eqb status "enabled")) (Some name);
  Ok (site, p).

(** [ProbeFactory.buildFromRecords]. *)
Definition buildFromRecords (workspace : option string) (records : list string)
    : result (list (string * Probe)) :=
  mfor (fun probes record =>
    fields ← record_fields record;
    match fields with
    | [] => Ok probes
    | _ => '(site, p) ← probe_of_fields workspace fields; Ok (od_set String.eqb site p probes)
    end) [] records.

(** [ProbeFactory.buildProbe] passes the system name in the place of [isActive], which is
    kept by its truth value, and the attribute string "0". *)
Definition buildProbe (cache : list ((string * string * Z) * Probe)) (workspace : option string)
    (name filePath : string) (lineNo : Z) (sys : string) : result (Probe * list ((string * string * Z) * Probe)) :=
  let key := (sys, filePath, lineNo) in
  match od_get (fun a b => bool_decide (a = b)) key cache with
  | Some p => Ok (p, cache)
  | None =>
      p ← AnchoredProbe_init name (trimWorkspace filePath workspace) (LInt lineNo) "0" (Some (nonempty sys)) None;
      Ok (p, od_set (fun a b => bool_decide (a = b)) key p cache)
  end.

(** ** Process info *)

Record AppInfo := mkAppInfo {
  ai_pid : string; ai_port : string; ai_executablePath : string; ai_executableName : string;
  ai_tscHz : Z; ai_probes : list (string * Probe)
}.

(** The second word of an info line. *)
Definition info_word (line : string) : result string :=
  match py_words line with _ :: w :: _ => Ok w | _ => Raise Exception_ end.

(** [AppInfo.load] on the lines of the file. *)
Definition AppInfo_load (workspace : option string) (records : list string) : result AppInfo :=
  match records with
  | pidLine :: portLine :: pathLine :: hzLine :: rest =>
      pid ← info_word pidLine;
      port ← info_word portLine;
      path ← info_word pathLine;
      hz ← (w ← info_word hzLine; py_int 10 w);
      probes ← buildFromRecords workspace rest;
      Ok (mkAppInfo pid port path (basename path) hz probes)
  | _ => Raise Exception_
  end.

(** [Collector.loadDataSource]: a stored profile is its info file and its csv files. *)
Definition loadDataSource {S L} {HS : CounterFilter S} {HL : TxnLoader L} (appInfo : list string)
    (files : list (SampleFile (list string))) (e : Extractor S L) : result (Extractor S L) :=
  info ← AppInfo_load None appInfo;
  '(e, _) ← loadSamples (ai_probes info) files e;
  end_collection e.

(** ** Properties *)

(** *** Csv records *)

(** A line of [SamplesLoader::streamAsCsv] (lib/xpedite/framework/SamplesLoader.C). *)
Definition csv_record (t : Z) (addr data : string) (pmcs : list Z) : string :=
  of_chars (join_chars [","%char]
    ([to_chars (print_int 16 t); to_chars addr; to_chars data] ++ ((fun v => to_chars (print_int 10 v)) <$> pmcs))
    ++ ["010"%char]).

Lemma join_chars_last sep ls l x : join_chars sep (ls ++ [l]) ++ x = join_chars sep (ls ++ [l ++ x]).
Proof.
  induction ls as [|l0 ls IH]; [done|]. cbn [app join_chars].
  destruct ls as [|l1 ls]; cbn [app] in *; [by rewrite -!app_assoc|]. by rewrite -!app_assoc IH.
Qed.

Lemma digits_avoid x n base : 2 <= base <= 16 -> 0 <= n ->
  x ∉ to_chars "0123456789abcdef" -> x ∉ to_chars (print_int base n).
Proof.
  intros Hb Hn Hx. apply print_int_chars; [done|done|]. intros d Hd E. apply Hx. rewrite -E.
  by apply digit_char_in.
Qed.

Lemma comma_not_digit : ","%char ∉ to_chars "0123456789abcdef".
Proof. by vm_compute; set_solver. Qed.

(** The pmu values at the end of a record, the last of them with the line end. *)
Lemma load_pmcs c vs fs : Forall2 (fun v f => py_int 10 f = Ok v) vs fs ->
  mfor (fun c pmc => v ← py_int 10 pmc; Ok (addPmc c v)) c fs =
  Ok (mkCounter (threadId c) (cprobe c) (data c) (tsc c) (pmcs c ++ vs)).
Proof.
  intros H. revert c. induction H as [|v f vs fs Hf _ IH]; intros c; cbn [mfor].
  - rewrite app_nil_r. by destruct c.
  - rewrite Hf. cbn [mbind result_bind]. rewrite IH. cbn. by rewrite -app_assoc.
Qed.

(** C32 (csv records): the collector reads back what the sampler writes: from the line of a
    sample with a known return address it makes the counter with the probe at that
    address, the sample's time stamp, its data without surrounding blanks and all its pmu
    values; a line with an unknown address is an orphan. *)
Theorem csv_record_roundtrip tid probes t addr d vs :
  0 <= t -> Forall (fun v => 0 <= v) vs ->
  ","%char ∉ to_chars addr -> ","%char ∉ to_chars d ->
  parse_record tid probes (csv_record t addr d vs) =
  Ok ((fun p => mkCounter tid p (py_strip d) t vs) <$> od_get String.eqb addr probes).
Proof.
  intros Ht Hvs Haddr Hd. unfold parse_record.
  assert (Hfields : exists d' fs, py_split "," (csv_record t addr d vs) = print_int 16 t :: addr :: d' :: fs /\
    py_strip d' = py_strip d /\ Forall2 (fun v f => py_int 10 f = Ok v) vs fs).
  { unfold py_split, csv_record. rewrite to_of_chars.
    set (nums := (fun v => to_chars (print_int 10 v)) <$> vs).
    assert (Hnums : Forall (fun l => ","%char ∉ l) nums).
    { apply Forall_fmap. eapply Forall_impl; [exact Hvs|]. intros v Hv. cbn.
      apply digits_avoid; [lia|done|apply comma_not_digit]. }
    assert (Hhex : ","%char ∉ to_chars (print_int 16 t)) by (apply digits_avoid; [lia|done|apply comma_not_digit]).
    destruct vs as [|v vs _] using rev_ind.
    - change ([to_chars (print_int 16 t); to_chars addr; to_chars d] ++ nums) with
        ([to_chars (print_int 16 t); to_chars addr] ++ [to_chars d]).
      rewrite join_chars_last split_join_char //.
      { repeat constructor; [done|done|]. rewrite not_elem_of_app. split; [done|]. set_solver. }
      exists (of_chars (to_chars d ++ ["010"%char])), []. cbn. rewrite !of_to_chars.
      split_and!; [done| |constructor]. unfold py_strip. by rewrite to_of_chars strip_chars_trailing.
    - unfold nums in *. rewrite fmap_app in Hnums |- *. rewrite app_assoc join_chars_last split_join_char.
      + by destruct vs.
      + apply Forall_app in Hnums as [Hn1 Hn2]. apply Forall_app. split.
        * apply Forall_app. split; [by repeat constructor|done].
        * apply Forall_singleton. apply Forall_cons in Hn2 as [Hn2 _]. rewrite not_elem_of_app.
          split; [exact Hn2|]. set_solver.
      + exists d, (of_chars <$> (((fun v => to_chars (print_int 10 v)) <$> vs) ++
                     [to_chars (print_int 10 v) ++ ["010"%char]])).
        rewrite -!app_assoc !fmap_app. cbn. rewrite !of_to_chars. split_and!; [done|done|].
        apply Forall_app in Hvs as [Hvs1 Hvs2]. apply Forall2_app.
        * clear -Hvs1. induction Hvs1 as [|w ws Hw _ IH]; constructor; [|exact IH].
          rewrite of_to_chars. apply py_int_print; [lia|done].
        * constructor; [|constructor]. apply Forall_cons in Hvs2 as [Hvs2 _].
          apply (proj2 (py_int_print 10 v ltac:(lia) Hvs2)). done. }
  destruct Hfields as (d' & fs & -> & Hstrip & Hfs). cbn [length Nat.ltb Nat.leb MIN_FIELD_COUNT].
  cbn [py_nth lookup list_lookup or_raise mbind result_bind].
  destruct (od_get String.eqb addr probes) as [p|]; [|done]. cbn [fmap option_map].
  rewrite (proj1 (py_int_print 16 t ltac:(lia) Ht)). cbn [mbind result_bind Nat.add drop].
  rewrite (load_pmcs _ vs fs Hfs). cbn. by rewrite Hstrip.
Qed.

(** *** From files to transactions *)

Section Collect.
Context (pm : ProbeMap Probe) (fuel : nat) (probes : list (string * Probe)).

(** The counters of a file's records, without the orphans. *)
Definition file_counters (f : SampleFile (list string)) : result (list Counter * nat) :=
  os ← mmap (parse_record (sf_threadId _ f) probes) (drop 1 (sf_contents _ f));
  Ok (omap (fun o => o) os, length (filter (fun o => o = None) os)).

Abbreviation Collector := (Extractor unit Loader).

Lemma loadCounters_spec tid lines (e e' : Collector) :
  mfor (loadCounter_record (HL := BoundedLoader pm fuel) tid probes) e lines = Ok e' ->
  exists os, mmap (parse_record tid probes) lines = Ok os /\
    mfor (loadCounter pm) (loader e) (omap (fun o => o) os) = Ok (loader e') /\
    orphanedSamplesCount e' = orphanedSamplesCount e + Z.of_nat (length (filter (fun o => o = None) os)).
Proof.
  revert e. induction lines as [|line lines IH]; intros e; cbn [mfor mmap].
  { intros [= <-]. exists []. split_and!; [done|done|]. cbn. lia. }
  intros H. apply bind_Ok in H as (e1 & H1 & H). unfold loadCounter_record in H1.
  apply bind_Ok in H1 as (o & Ho & H1). rewrite Ho. cbn [mbind result_bind].
  destruct (IH e1 H) as (os & -> & Hload & Horph). exists (o :: os). cbn [mbind result_bind].
  split; [done|]. destruct o as [c|].
  - unfold feed in H1. cbn in H1. apply bind_Ok in H1 as (l & Hl & [= <-]).
    cbn [loader orphanedSamplesCount] in Hload, Horph. split; [|by rewrite filter_cons_False].
    cbn [omap list_omap mfor]. cbn in Hl. by rewrite Hl.
  - injection H1 as <-. cbn [loader orphanedSamplesCount orphan] in Hload, Horph. split; [done|].
    rewrite filter_cons_True // Horph. cbn [length]. lia.
Qed.

Definition session_of (f : SampleFile (list string)) (s : string * string * list Counter) (orphans : nat) : Prop :=
  s.1 = (sf_threadId _ f, sf_tlsAddr _ f) /\ file_counters f = Ok (s.2, orphans).

(** C31 (collector): collecting csv files is loading, thread by thread, the counters of
    their records: the loader ends up as [load_threads] leaves it on the parsed sessions,
    every record with an unknown address is counted as an orphan, and every other one is
    in the loader exactly once. *)
Theorem loadSamples_loads files (e : Collector) n :
  loadSamples (HL := BoundedLoader pm fuel) probes files (mkExtractor 0 tt BoundedTxnLoader_init) = Ok (e, n) ->
  exists ss orphans, Forall2 (fun f p => session_of f p.1 p.2) files (zip ss orphans) /\
    length ss = length files /\ length orphans = length files /\
    load_threads pm BoundedTxnLoader_init ss = Ok (loader e) /\
    orphanedSamplesCount e = Z.of_nat (sum_list orphans) /\
    all_counters (loader e) ≡ₚ (ss ≫= snd) /\
    n = sum_list ((fun f => length (sf_contents _ f)) <$> files).
Proof.
  unfold loadSamples. intros H. apply bind_Ok in H as ([e1 n1] & H & [= <- <-]). cbn [loader logCounterFilterReport].
  cut (exists ss orphans, Forall2 (fun f p => session_of f p.1 p.2) files (zip ss orphans) /\
    length ss = length files /\ length orphans = length files /\
    load_threads pm BoundedTxnLoader_init ss = Ok (loader e1) /\
    orphanedSamplesCount e1 = Z.of_nat (sum_list orphans) /\
    n1 = sum_list ((fun f => length (sf_contents _ f)) <$> files)).
  { intros (ss & os & H1 & H2 & H3 & H4 & H5 & H6). exists ss, os. split_and!; try done.
    exact (load_threads_counters _ _ _ H4). }
  revert H. apply (mfor_inv_prefix _ (fun files st =>
    exists ss orphans, Forall2 (fun f p => session_of f p.1 p.2) files (zip ss orphans) /\
      length ss = length files /\ length orphans = length files /\
      load_threads pm BoundedTxnLoader_init ss = Ok (loader st.1) /\
      orphanedSamplesCount st.1 = Z.of_nat (sum_list orphans) /\
      st.2 = sum_list ((fun f => length (sf_contents _ f)) <$> files)));
    [|by exists [], []; split_and!; [constructor|..]].
  clear e1 n1. intros pre f post [e0 n0] [e1 n1] _ (ss & os & Hf2 & Hls & Hlo & Hl & Ho & Hn) H.
  cbn in Hl, Ho, Hn |- *. apply bind_Ok in H as ([e2 k] & H & [= <- <-]).
  unfold loadCounters in H. apply bind_Ok in H as (e3 & H & [= <- <-]).
  destruct (loadCounters_spec _ _ _ _ H) as (parsed & Hp & Hload & Horph). cbn in Hload, Horph.
  exists (ss ++ [(sf_threadId _ f, sf_tlsAddr _ f, omap (fun o => o) parsed)]),
    (os ++ [length (filter (fun o => o = None) parsed)]).
  split_and!.
  - rewrite zip_with_app; [congruence|]. apply Forall2_app; [done|]. constructor; [|constructor].
    split; [done|]. unfold file_counters. by rewrite Hp.
  - rewrite !length_app Hls. done.
  - rewrite !length_app Hlo. done.
  - unfold load_threads in *. rewrite mfor_app Hl. cbn [mbind result_bind mfor]. unfold load_thread.
    cbn [fst snd]. by rewrite Hload.
  - cbn. rewrite Horph Ho sum_list_with_app /=. lia.
  - rewrite fmap_app Hn sum_list_with_app /=. lia.
Qed.
End Collect.

(** *** Counting filters *)

Section FilterCounts.
Context (counter_txnId : Counter -> option Z).

(** The counters the filter is there to keep. *)
Definition wanted (probes : list Probe) (warmup : Z) (c : Counter) : bool :=
  (in_probeSet (cprobe c) probes &&
   match counter_txnId c with Some id => negb (id =? 0) && (warmup <? id) | None => false end)%bool.

(** After inspecting any counters, the inspected ones are the loaded
    ones plus the extraneous, the anonymous and the warmup ones; a counter is loaded
    exactly when its probe is known and its id is above the warmup threshold and not 0. *)
Theorem anonymous_filter_counts probes warmup cs :
  let step '(n, f) c := let '(ok, f) := anon_canLoad counter_txnId f c in (if ok : bool then (n + 1, f) else (n, f)) in
  let '(loaded, f) := fold_left step cs (0, AnonymousCounterFilter_init probes warmup) in
  totalInspectedCounters f = Z.of_nat (length cs) /\
  totalInspectedCounters f = loaded + extraneousCounters f + nullIdCounters f + warmupCounters f /\
  loaded = Z.of_nat (length (filter (fun c => wanted probes warmup c = true) cs)).
Proof.
  cbn zeta. induction cs as [|c cs IH] using rev_ind; [done|].
  rewrite fold_left_app. cbn [fold_left]. rewrite filter_app !length_app.
  set (g := fold_left _ cs _) in *. assert (Hps : probeSet g.2 = probes /\ warmupThreshold g.2 = warmup).
  { unfold g. clear. induction cs as [|c cs IH] using rev_ind; [done|]. rewrite fold_left_app. cbn [fold_left].
    destruct (fold_left _ cs _) as [n [ps w ex nu tot wa]]. cbn in *. unfold anon_canLoad, isCounterInScope.
    destruct (in_probeSet _ _); cbn; [|done]. destruct (counter_txnId c) as [id|]; cbn; [|done].
    destruct (id =? 0); cbn; [done|]. by destruct (id <=? w). }
  destruct g as [n [ps w ex nu tot wa]]. cbn in Hps. destruct Hps as [-> ->].
  cbn in IH. destruct IH as (H1 & H2 & H3). rewrite (filter_cons_bool (wanted probes warmup)) filter_nil.
  unfold anon_canLoad, isCounterInScope, wanted in *. destruct (in_probeSet (cprobe c) probes) eqn:Ein; cbn [negb andb].
  - destruct (counter_txnId c) as [id|]; [|cbn; split_and!; lia].
    destruct (id =? 0) eqn:E0; [|destruct (id <=? warmup) eqn:Ew];
      [|rewrite (proj2 (Z.ltb_ge warmup id)); [by apply Z.leb_le|]
       |rewrite (proj2 (Z.ltb_lt warmup id)); [by apply Z.leb_gt|]];
      cbn; split_and!; lia.
  - cbn. split_and!; lia.
Qed.
End FilterCounts.

(** *** Probe records *)

(** What [log::logProbe] (lib/xpedite/log/Log.C) knows of a probe. *)
Record ProbeInfo := mkProbeInfo {
  r_id : string; r_probe : string; r_callSite : string; r_site : string; r_enabled : bool;
  r_name : string; r_file : string; r_line : Z; r_func : string; r_attrs : string
}.

Definition record_pairs (r : ProbeInfo) : list (string * string) :=
  [("Id", r_id r); ("Probe", r_probe r); ("CallSite", r_callSite r); ("RecorderReturnSite", r_site r);
   ("Status", if r_enabled r then "enabled" else "disabled"); ("Name", r_name r); ("File", r_file r);
   ("Line", print_int 10 (r_line r)); ("Function", r_func r); ("Attributes", r_attrs r)].

(** The line [log::logProbe] writes. *)
Definition probe_record (r : ProbeInfo) : string :=
  py_join FIELD_DELIMITER ((fun '(k, v) => of_chars (to_chars k ++ "="%char :: to_chars v)) <$> record_pairs r).

(** The probe the record stands for. *)
Definition probe_of (workspace : option string) (r : ProbeInfo) : Probe :=
  let file := trimWorkspace (r_file r) workspace in
  initAttributes (mkProbe CAnchoredProbe (r_name r) (Some (r_name r)) false false false false false
    (Some (r_enabled r)) file (dirname file) (basename file) (r_line r) (r_attrs r) []).

Definition clean (s : string) : Prop := "|"%char ∉ to_chars s.

(** A record that can be told apart: no field has the bar of the delimiter. *)
Definition clean_record (r : ProbeInfo) : Prop :=
  Forall (fun kv => clean kv.2) (record_pairs r) /\ 0 <= r_line r.

Lemma record_fields_pairs kvs : kvs <> [] ->
  Forall (fun kv => "="%char ∉ to_chars kv.1 /\ clean kv.1 /\ clean kv.2) kvs ->
  record_fields (py_join FIELD_DELIMITER ((fun '(k, v) => of_chars (to_chars k ++ "="%char :: to_chars v)) <$> kvs)) =
  Ok (fold_left (fun d kv => od_set String.eqb kv.1 kv.2 d) kvs []).
Proof.
  intros Hne H. unfold record_fields, py_split, py_join. rewrite to_of_chars.
  change (to_chars FIELD_DELIMITER) with [" "; "|"; " "]%char. rewrite split_join_sep.
  - done.
  - by destruct kvs.
  - rewrite -list_fmap_compose Forall_fmap. eapply Forall_impl; [exact H|]. intros [k v] (_ & Hk & Hv).
    cbn in *. rewrite to_of_chars not_elem_of_app not_elem_of_cons. done.
  - rewrite -list_fmap_compose. generalize (@nil (string * string)) as d.
    clear Hne. induction H as [|[k v] kvs (He & _ & _) _ IH]; intros d; [done|].
    cbn [fmap list_fmap mfor compose fold_left fst snd] in *. rewrite of_to_chars to_of_chars find_sub_char //.
    cbn [mbind result_bind]. rewrite -IH. do 3 f_equal.
    + unfold slice_to. by rewrite to_of_chars take_app_length of_to_chars.
    + unfold slice_from. rewrite to_of_chars. replace (length (to_chars k) + 1)%nat with (S (length (to_chars k))) by lia.
      rewrite -Nat.add_1_r -drop_drop drop_app_length. cbn. by rewrite of_to_chars.
Qed.

Lemma print_int_nonempty n : 0 <= n -> nonempty (print_int 10 n) = true.
Proof.
  intros Hn. destruct (print_nat_spec 10 n ltac:(lia) Hn) as (Hne & _). unfold print_int, nonempty.
  rewrite (proj2 (Z.ltb_ge _ _) Hn). by destruct (print_nat 10 n).
Qed.

Lemma probe_records_read workspace rs :
  Forall (fun r => clean_record r /\ trimWorkspace (r_file r) workspace <> "") rs ->
  buildFromRecords workspace (probe_record <$> rs) =
  Ok (fold_left (fun d r => od_set String.eqb (r_site r) (probe_of workspace r) d) rs []).
Proof.
  unfold buildFromRecords. generalize (@nil (string * Probe)) as d. intros d H. revert d.
  induction H as [|r rs [[Hc Hline] Hfile] _ IH]; intros d; [done|]. cbn [fmap list_fmap mfor fold_left].
  unfold probe_record at 1. rewrite record_fields_pairs; [done| |].
  { apply Forall_forall. intros [k v] Hin. rewrite Forall_forall in Hc. specialize (Hc _ Hin). cbn in *.
    split_and!; [| |done]; unfold record_pairs in Hin; rewrite !elem_of_cons in Hin;
      repeat destruct Hin as [[= -> _]|Hin]; try (by vm_compute; set_solver); by apply elem_of_nil in Hin. }
  cbn [mbind result_bind fold_left record_pairs fst snd od_set od_get String.eqb Ascii.eqb Bool.eqb].
  unfold probe_of_fields, field. cbn [od_get String.eqb Ascii.eqb Bool.eqb or_raise mbind result_bind].
  unfold AnchoredProbe_init. cbn [truthy_line line_int]. rewrite print_int_nonempty //.
  rewrite (proj1 (py_int_print 10 (r_line r) ltac:(lia) Hline)).
  assert (nonempty (trimWorkspace (r_file r) workspace) = true) as ->.
  { unfold nonempty. by destruct (String.eqb_spec (trimWorkspace (r_file r) workspace) ""). }
  cbn [andb mbind result_bind]. rewrite IH. do 2 f_equal. unfold probe_of. by destruct (r_enabled r).
Qed.

(** The list of probes the profiled process writes to its info file is
    read back whole: under the address of each of its recorders stands the probe with the
    name, trimmed path, line, status and attribute flags of its record (the last one, if
    the address repeats). *)
Theorem probe_records_roundtrip workspace rs :
  Forall (fun r => clean_record r /\ trimWorkspace (r_file r) workspace <> "") rs ->
  buildFromRecords workspace (probe_record <$> rs) =
  Ok (fold_left (fun d r => od_set String.eqb (r_site r) (probe_of workspace r) d) rs []).
Proof. apply probe_records_read. Qed.

(** A probe built for a user's location is active exactly when it has a
    name, but the name itself is dropped: the argument in its place is the activity flag. *)
Theorem buildProbe_drops_name cache workspace name file line sys p cache' :
  od_get (fun a b => bool_decide (a = b)) (sys, file, line) cache = None ->
  buildProbe cache workspace name file line sys = Ok (p, cache') ->
  sysName p = None /\ isActive p = Some (nonempty sys) /\ pname p = name /\ lineNo p = line /\
  filePath p = trimWorkspace file workspace /\
  buildProbe cache' workspace name file line sys = Ok (p, cache').
Proof.
  intros Hc. unfold buildProbe at 1. rewrite Hc. intros H. apply bind_Ok in H as (q & H & [= <- <-]).
  unfold AnchoredProbe_init in H. destruct (_ && _)%bool; [|done]. injection H as <-. split_and!; try done.
  unfold buildProbe. rewrite od_get_set_same //. by apply bool_decide_eq_true.
Qed.

(** *** Witnesses *)

Definition site_probe : Probe := AbstractProbe_init CAnonymousProbe "p" (Some "P").

Lemma csv_record_roundtrip_witness :
  parse_record "7" [("0x4a", site_probe)] (csv_record 255 "0x4a" "ab" [5; 160]) =
  Ok (Some (mkCounter "7" site_probe "ab" 255 [5; 160])).
Proof.
  rewrite (csv_record_roundtrip "7" [("0x4a", site_probe)] 255 "0x4a" "ab" [5; 160]).
  - lia.
  - repeat constructor; lia.
  - vm_compute. set_solver.
  - vm_compute. set_solver.
  - reflexivity.
Defined.

Definition sample_files : list (SampleFile (list string)) :=
  [mkSampleFile _ "7" "ff" ["Tsc,ReturnSite,Data"; "a,0x4a,"; "b,0x4b,"; "c,0x4a,"];
   mkSampleFile _ "8" "fe" ["Tsc,ReturnSite,Data"; "d,0x4a,x"]].

Definition collect_sample_files : result (Extractor unit Loader * nat) :=
  loadSamples (HL := BoundedLoader pm_empty 10) [("0x4a", site_probe)] sample_files
    (mkExtractor 0 tt BoundedTxnLoader_init).
Definition collected : Extractor unit Loader := Eval vm_compute in
  match collect_sample_files with Ok (e, _) => e | Raise _ => mkExtractor 0 tt BoundedTxnLoader_init end.

Lemma loadSamples_loads_witness : collect_sample_files = Ok (collected, 6%nat) /\
  orphanedSamplesCount collected = 1 /\
  exists ss, load_threads pm_empty BoundedTxnLoader_init ss = Ok (loader collected) /\ length ss = 2%nat.
Proof.
  assert (H : collect_sample_files = Ok (collected, 6%nat)) by (vm_compute; reflexivity).
  split; [exact H|]. split; [reflexivity|].
  destruct (loadSamples_loads pm_empty 10 [("0x4a", site_probe)] sample_files _ _ H)
    as (ss & os & _ & Hlen & _ & Hl & _).
  exists ss. split; [exact Hl|exact Hlen].
Defined.

Definition some_info : ProbeInfo :=
  mkProbeInfo "0001" "0x60" "0x40" "0x4a" true "Parse" "/ws/src/a.C" 42 "int f(int)" "canBeginTxn".

Lemma probe_records_roundtrip_witness :
  buildFromRecords (Some "/ws") [probe_record some_info] = Ok [("0x4a", probe_of (Some "/ws") some_info)].
Proof.
  apply (probe_records_roundtrip (Some "/ws") [some_info]).
  repeat constructor; vm_compute; try discriminate; set_solver.
Defined.

Lemma buildProbe_drops_name_witness : exists p c,
  buildProbe [] None "n" "a/b.C" 3 "N" = Ok (p, c) /\ sysName p = None /\ isActive p = Some true.
Proof.
  eexists _, _. split; [vm_compute; reflexivity|].
  destruct (buildProbe_drops_name [] None "n" "a/b.C" 3 "N" _ _ eq_refl eq_refl) as (H1 & H2 & _).
  split; [exact H1|exact H2].
Defined.
