(* ===== verification/Analyze.v ===== *)
(** * Repositories, profiles and time bundles

    Models txn/repo.py (the repository and the loader's probes and metrics of a
    benchmark) and analytics/__init__.py: the tree of categories and routes, the
    profiles generated from it, the filter on transactions and the bundles of elapsed
    times.

    A repository refers to its transaction collections by handle: [filterTxns] replaces
    the transactions of a collection in place, and [is] compares handles. *)

From S2P Require Import Prelude PyStr Probe Route Txn Trees Aggregate Timeline Conflate.

(** ** The repository *)

Section Repo.
Context {M : Type} (name_of : M -> string).
Abbreviation TxnColl := (TxnCollection M).

Record TxnRepo := mkTxnRepo {
  collections : list TxnColl;                  (* the objects, by handle *)
  benchmarkCollections : list (string * nat);
  currentCollection : option nat;
  owned : list nat                             (* the handles whose repo is this one *)
}.

Definition TxnRepo_init (objects : list TxnColl) : TxnRepo := mkTxnRepo objects [] None [].

Definition coll_at (r : TxnRepo) (h : nat) : result TxnColl := or_raise AttributeError_ (collections r !! h).

Definition addBenchmark (h : nat) (r : TxnRepo) : result TxnRepo :=
  if bool_decide (currentCollection r = Some h) then Raise InvariantViloation
  else
    c ← coll_at r h;
    Ok (mkTxnRepo (collections r)
          (od_set String.eqb (name_of (tc_meta c)) h (benchmarkCollections r))
          (currentCollection r) (h :: owned r)).

Definition addCurrent (h : nat) (r : TxnRepo) : result TxnRepo :=
  match currentCollection r with
  | Some _ => Raise Exception_
  | None => Ok (mkTxnRepo (collections r) (benchmarkCollections r) (Some h) (h :: owned r))
  end.

Definition getCurrent (r : TxnRepo) : result TxnColl :=
  h ← or_raise AttributeError_ (currentCollection r); coll_at r h.

Definition hasBenchmarks (r : TxnRepo) : bool := (0 <? length (benchmarkCollections r))%nat.

Definition getBenchmarks (r : TxnRepo) : result (list (string * TxnColl)) :=
  mmap (fun p => c ← coll_at r p.2; Ok (p.1, c)) (benchmarkCollections r).

(** [getTxnCollections]: the handles, current run first. *)
Definition getTxnCollections (r : TxnRepo) : list (option nat) :=
  currentCollection r :: (Some <$> od_values (benchmarkCollections r)).

(** [TxnCollection.isCurrent] *)
Definition isCurrent (r : TxnRepo) (h : nat) : bool :=
  bool_decide (h ∈ owned r) && bool_decide (currentCollection r = Some h).

(** ** Filtering *)

Definition with_txns (c : TxnColl) (txns : list (TxnId * Transaction)) : TxnColl := mkCollection (tc_meta c) txns.

Definition filter_collection (txnFilter : string -> Transaction -> bool) (c : TxnColl) : TxnColl :=
  with_txns c (filter (fun p => txnFilter (name_of (tc_meta c)) p.2 = true) (txnMap c)).

(** The loop body counts what is filtered and rebuilds the map. *)
Definition filter_loop (txnFilter : string -> Transaction -> bool) (c : TxnColl) : nat * list (TxnId * Transaction) :=
  fold_left (fun '(n, m) p =>
    if negb (txnFilter (name_of (tc_meta c)) p.2) then (S n, m)
    else (n, od_set txnid_eqb p.1 p.2 m)) (txnMap c) (0%nat, []).

Definition filterTxns (txnFilter : string -> Transaction -> bool) (r : TxnRepo) : result (nat * TxnRepo) :=
  mfor (fun '(total, r) o =>
    h ← or_raise AttributeError_ o;
    c ← coll_at r h;
    let '(n, m) := filter_loop txnFilter c in
    Ok ((total + n)%nat,
        mkTxnRepo (<[h := with_txns c m]> (collections r)) (benchmarkCollections r) (currentCollection r) (owned r)))
    (0%nat, r) (getTxnCollections r).
End Repo.
Arguments TxnRepo M : clear implicits.

(** ** The tree of categories and routes *)

Inductive Key := KCategory (s : string) | KRoute (r : option Route).

Inductive RouteConflation := On | Off.

#[export] Instance RouteConflation_eq_dec : EqDecision RouteConflation.
Proof. solve_decision. Defined.

Section Analytics.
Context {HH : RouteHash} {F : Type} {HF : PyFloat F}.
Abbreviation TxnColl := (TxnCollection (Meta F)).
Abbreviation SubColl := (TxnSubCollection (Meta F)).
Abbreviation Grouping := (SubColl -> list Key -> result (list (Key * SubColl))).

Definition key_keq (a b : Key) : bool :=
  match a, b with
  | KCategory a, KCategory b => String.eqb a b
  | KRoute a, KRoute b => oroute_keq a b
  | _, _ => false
  end.

Definition tagged {A : Type} (f : A -> Key) (m : list (A * SubColl)) : list (Key * SubColl) :=
  (fun p => (f p.1, p.2)) <$> m.

Definition byCategory (cl : Classifier) (sc : SubColl) (_ : list Key) : result (list (Key * SubColl)) :=
  tagged KCategory <$> groupTxns sc cl [].

Definition byRoute (sc : SubColl) (_ : list Key) : result (list (Key * SubColl)) :=
  Ok (tagged KRoute (aggregateTxnsByRoutes sc)).

(** The routes among the children of the source tree's node. *)
Definition child_routes (st : list (TNode (K := Key) (C := SubColl))) (anc : list Key) : list (option Route) :=
  omap (fun p => match p.1 with KRoute r => Some r | KCategory _ => None end) (default [] (getChildren key_keq st anc)).

Definition byConflatedRoute (st : list (TNode (K := Key) (C := SubColl)))
    (sc : SubColl) (anc : list Key) : result (list (Key * SubColl)) :=
  tagged KRoute <$> conflateTxnsByRoutes (child_routes st anc) sc.

Definition treeClassifiers (cl : Classifier) : list Grouping := [byCategory cl; byRoute].

Definition benchmarkClassifiers (cl : Classifier) (conf : RouteConflation)
    (st : list (TNode (K := Key) (C := SubColl))) : list Grouping :=
  [byCategory cl; match conf with On => byConflatedRoute st | Off => byRoute end].

(** [Analytics.buildTxnTree]. *)
Definition buildTxnTree (cur : TxnColl) (benchmarks : list (string * TxnColl)) (cl : Classifier)
    (conf : RouteConflation) : result (list (TNode (K := Key) (C := SubColl)) * CompositeTree) :=
  txnTree ← buildTreeCollection key_keq (getSubCollection cur) (treeClassifiers cl);
  composite ← buildCompositeTreeCollection key_keq
    ((fun p => (p.1, getSubCollection p.2)) <$> benchmarks) (benchmarkClassifiers cl conf txnTree);
  Ok (txnTree, composite).

(** [Analytics.mapReportProbes]. *)
Definition mapReportProbes (route : Route) (userProbes : list Probe) : result (list Probe) :=
  userProbeMap ← ProbeMap_init (fun p => p) userProbes [];
  mfor (fun ps probe =>
    if pm_contains userProbeMap probe
    then o ← pm_getitem userProbeMap probe; Ok (ps ++ [default probe o])
    else Ok (ps ++ [probe])) [] (rprobes route).

(** [Analytics.computeStats]: the benchmarks are keyed by the name of their collection. *)
Definition computeStats (category : string) (route : Route) (probes : list Probe) (sc : SubColl)
    (benchmarkTxnsMap : list (string * SubColl)) : result (TimelineStats F * list (string * TimelineStats F)) :=
  stats ← buildTimelineStats category route probes sc;
  benchs ← mfor (fun m p => s ← buildTimelineStats category route probes p.2;
                            Ok (od_set String.eqb (m_name (sc_meta p.2)) s m)) [] benchmarkTxnsMap;
  Ok (stats, benchs).

Definition profile_name (name category : string) (siblings i : nat) : string :=
  String.append name (String.append " - " (String.append category
    (if (1 <? siblings)%nat
     then String.append " [route - " (String.append (print_int 10 (Z.of_nat i)) "]") else ""))).

(** The body of the loop over a category's routes. *)
Definition route_profile (name : string) (probes : list Probe) (composite : CompositeTree)
    (category : Key) (siblings : nat) (i : nat) (route : Key) (sc : SubColl) : result (Profile F) :=
  match category, route with
  | KCategory c, KRoute o =>
      r ← or_raise AttributeError_ o;
      let benchmarkTxnsMap := default [] (getCollectionMap key_keq composite [category; route]) in
      reportProbes ← mapReportProbes r probes;
      '(stats, benchs) ← computeStats c r reportProbes sc benchmarkTxnsMap;
      Ok (mkProfile (profile_name name c siblings i) stats benchs)
  | _, _ => Raise TypeError_
  end.

(** [Analytics.generateProfiles]. *)
Definition generateProfiles (name : string) (cur : TxnColl) (benchmarks : list (string * TxnColl))
    (cl : Classifier) (conf : RouteConflation) : result (list (Profile F)) :=
  '(st, composite) ← buildTxnTree cur benchmarks cl conf;
  categories ← or_raise AttributeError_ (getChildren key_keq st []);
  mfor (fun ps '(category, n) =>
    node ← or_raise AttributeError_ (st !! n);
    mfor (fun ps '(i, (route, k)) =>
      txnNode ← or_raise AttributeError_ (st !! k);
      p ← route_profile name (m_probes (tc_meta cur)) composite category (length (children node)) (S i)
            route (collection txnNode);
      Ok (ps ++ [p])) ps (imap (fun i c => (i, c)) (children node))) [] categories.

(** ** Bundles of elapsed times *)

(** [Analytics.buildElapsedTimeBundles]: [i] is the collection's place, 0 for the current run. *)
Definition add_bundle (i : nat) (bundles : list (string * list (list F))) (p : string * list F)
    : list (string * list (list F)) :=
  let '(category, l) := p in
  if od_mem String.eqb category bundles then od_alter String.eqb (fun b => b ++ [l]) category bundles
  else if (i =? 0)%nat then od_set String.eqb category [l] bundles
  else bundles.

Definition buildElapsedTimeBundles (collections : list TxnColl) (cl : Classifier)
    : result (list (string * list (list F))) :=
  mfor (fun bundles '(i, c) =>
    m ← groupElapsedTime (m_cpuInfo (tc_meta c)) (getSubCollection c) cl;
    match m with
    | [] => if (i =? 0)%nat then Raise Exception_ else Ok bundles
    | _ => Ok (fold_left (add_bundle i) m bundles)
    end) [] (imap (fun i c => (i, c)) collections).
End Analytics.

(** ** Filtering keeps what passes *)

Section FilterProperties.
Context {M : Type} (name_of : M -> string) (f : string -> Transaction -> bool).
Abbreviation TxnColl := (TxnCollection M).

(** The transactions of a repository's collections, with the names of their collections. *)
Definition txns_at (objects : list TxnColl) (o : option nat) : list (string * Transaction) :=
  match o with
  | Some h => match objects !! h with
              | Some c => (fun p => (name_of (tc_meta c), p.2)) <$> txnMap c
              | None => []
              end
  | None => []
  end.
Definition all_txns (r : TxnRepo M) : list (string * Transaction) :=
  getTxnCollections r ≫= txns_at (collections r).

Definition kept (l : list (string * Transaction)) := filter (fun q => f q.1 q.2 = true) l.
Definition refused (l : list (string * Transaction)) := filter (fun q => f q.1 q.2 = false) l.

Lemma filter_loop_spec c : NoDup (txnMap c).*1 ->
  filter_loop name_of f c =
  (length (filter (fun p : TxnId * Transaction => f (name_of (tc_meta c)) p.2 = false) (txnMap c)),
   filter (fun p : TxnId * Transaction => f (name_of (tc_meta c)) p.2 = true) (txnMap c)).
Proof.
  intros Hnd. unfold filter_loop.
  cut (forall n d, NoDup (d.*1 ++ (txnMap c).*1) ->
    fold_left (fun '(n, m) p => if negb (f (name_of (tc_meta c)) p.2) then (S n, m)
      else (n, od_set txnid_eqb p.1 p.2 m)) (txnMap c) (n, d) =
    ((n + length (filter (fun p : TxnId * Transaction => f (name_of (tc_meta c)) p.2 = false) (txnMap c)))%nat,
     d ++ filter (fun p : TxnId * Transaction => f (name_of (tc_meta c)) p.2 = true) (txnMap c))).
  { intros H. by rewrite (H 0%nat []). }
  clear Hnd. induction (txnMap c) as [|[k t] l IH]; intros n d Hd.
  { cbn. by rewrite Nat.add_0_r app_nil_r. }
  cbn [fold_left fst snd]. rewrite !filter_cons. cbn [fst snd].
  destruct (f (name_of (tc_meta c)) t) eqn:E; cbn [negb].
  - rewrite od_set_fresh.
    { apply od_get_None, Forall_forall. intros k' Hk'. apply bool_decide_eq_false_2. intros <-.
      apply NoDup_app in Hd as (_ & Hd & _). apply (Hd k Hk'). cbn. left. }
    rewrite IH; [by rewrite fmap_app -app_assoc|]. by rewrite -app_assoc.
  - rewrite IH.
    + apply NoDup_app in Hd as (H1 & H2 & H3). apply NoDup_app.
      split_and!; [done| |by apply NoDup_cons in H3 as [_ H3]]. intros x Hx Hl. apply (H2 x Hx). by right.
    + f_equal. by rewrite /= Nat.add_succ_r.
Qed.

Lemma txns_at_filtered c : (fun p : TxnId * Transaction => (name_of (tc_meta c), p.2)) <$>
    filter (fun p : TxnId * Transaction => f (name_of (tc_meta c)) p.2 = true) (txnMap c) =
  kept ((fun p : TxnId * Transaction => (name_of (tc_meta c), p.2)) <$> txnMap c) /\
  length (filter (fun p : TxnId * Transaction => f (name_of (tc_meta c)) p.2 = false) (txnMap c)) =
  length (refused ((fun p : TxnId * Transaction => (name_of (tc_meta c), p.2)) <$> txnMap c)).
Proof.
  unfold kept, refused. induction (txnMap c) as [|[k t] l [IH1 IH2]]; [done|].
  rewrite !fmap_cons !filter_cons. cbn [fst snd].
  destruct (f (name_of (tc_meta c)) t); repeat case_decide; try done; by rewrite ?fmap_cons /= ?IH1 ?IH2.
Qed.

(** The same collection with some of its transactions. *)
Definition narrowed (c c' : TxnColl) : Prop := tc_meta c' = tc_meta c /\ (txnMap c').*2 ⊆ (txnMap c).*2.

Lemma filter_loop_subset c : (filter_loop name_of f c).2.*2 ⊆ (txnMap c).*2.
Proof.
  unfold filter_loop. cut (forall n d, d.*2 ⊆ (txnMap c).*2 -> forall l, l.*2 ⊆ (txnMap c).*2 ->
    (fold_left (fun '(n, m) p => if negb (f (name_of (tc_meta c)) p.2) then (S n, m)
      else (n, od_set txnid_eqb p.1 p.2 m)) l (n, d)).2.*2 ⊆ (txnMap c).*2).
  { intros H. by apply H; [set_solver|]. }
  intros n d Hd l. revert n d Hd. induction l as [|[k t] l IH]; intros n d Hd Hl; [done|]. cbn [fold_left fst snd].
  assert (Hl' : l.*2 ⊆ (txnMap c).*2) by (intros x Hx; apply Hl; by right).
  destruct (negb _); apply IH; try done. assert (Ht : t ∈ (txnMap c).*2) by (apply Hl; left). clear -Hd Ht.
  induction d as [|[k' t'] d IH]; cbn [od_set]; [set_solver|]. destruct (txnid_eqb k k'); cbn in *; set_solver.
Qed.

(** Filtering never fails on a repository whose handles stand for collections. *)
Lemma filterTxns_total r : (forall o, o ∈ getTxnCollections r -> exists h, o = Some h /\ (h < length (collections r))%nat) ->
  exists n objects, filterTxns name_of f r = Ok (n, mkTxnRepo objects (benchmarkCollections r) (currentCollection r) (owned r)) /\
    Forall2 narrowed (collections r) objects.
Proof.
  intros H. unfold filterTxns. destruct r as [objs d cu ow]. cbn [collections benchmarkCollections currentCollection owned] in *.
  assert (Hin : Forall2 narrowed objs objs) by (apply Forall_Forall2_diag, Forall_forall; by split).
  revert H Hin. generalize (getTxnCollections (mkTxnRepo objs d cu ow)). intros os. generalize objs at 3 4 as cur. generalize 0%nat.
  induction os as [|o os IH]; intros n cur H Hin; cbn [mfor]; [by exists n, cur|].
  destruct (H o ltac:(left)) as (h & -> & Hh). cbn [or_raise mbind result_bind]. unfold coll_at. cbn [collections].
  destruct (lookup_lt_is_Some_2 objs h Hh) as [c0 Hc0]. destruct (Forall2_lookup_l _ _ _ _ _ Hin Hc0) as (c & Hc & Hm & Hs).
  rewrite Hc. cbn [or_raise mbind result_bind]. pose proof (filter_loop_subset c) as Hsub. destruct (filter_loop name_of f c) as [k m].
  cbn [mbind result_bind]. apply IH; [intros o' Ho'; apply H; by right|].
  cbn [collections snd] in *. rewrite -(list_insert_id objs h c0 Hc0). apply Forall2_insert; [done|]. split; [done|].
  cbn. by transitivity (txnMap c).*2.
Qed.

(** After the collections [pre] were filtered. *)
Definition filtered_inv (r : TxnRepo M) (pre : list (option nat)) (st : nat * TxnRepo M) : Prop :=
  getTxnCollections st.2 = getTxnCollections r /\
  st.1 = length (refused (pre ≫= txns_at (collections r))) /\
  forall o, txns_at (collections st.2) o =
      (if decide (o ∈ pre) then kept (txns_at (collections r) o) else txns_at (collections r) o) /\
    (o ∉ pre -> forall h, o = Some h -> collections st.2 !! h = collections r !! h).

(** C15 (filter): filtering keeps exactly the transactions the user's callback accepts, in
    every collection of the repository and in order, counts the others, and leaves every
    other object as it was; what is left passes the same filter whole. *)
Theorem filterTxns_spec (r r' : TxnRepo M) n :
  NoDup (getTxnCollections r) -> Forall (fun c => NoDup (txnMap c).*1) (collections r) ->
  filterTxns name_of f r = Ok (n, r') ->
  all_txns r' = kept (all_txns r) /\ n = length (refused (all_txns r)) /\ refused (all_txns r') = [] /\
  getTxnCollections r' = getTxnCollections r /\
  (forall h, Some h ∉ getTxnCollections r -> collections r' !! h = collections r !! h).
Proof.
  intros Hnd Hids H.
  assert (Hinv : getTxnCollections r' = getTxnCollections r /\
    n = length (refused (getTxnCollections r ≫= txns_at (collections r))) /\
    (forall o, o ∈ getTxnCollections r -> txns_at (collections r') o = kept (txns_at (collections r) o)) /\
    (forall h, Some h ∉ getTxnCollections r -> collections r' !! h = collections r !! h)).
  { unfold filterTxns in H. remember (n, r') as st eqn:Est.
    assert (Hn : n = st.1) by (by rewrite Est). assert (Hr : r' = st.2) by (by rewrite Est).
    clear Est. subst n r'.
    cut (filtered_inv r (getTxnCollections r) st).
    { intros (H1 & H2 & H3). split_and!; [done|done| |].
      - intros o Ho. rewrite (proj1 (H3 o)). by rewrite decide_True.
      - intros h Hh. by apply (H3 (Some h)). }
    revert H.
    apply (mfor_inv_prefix _ (filtered_inv r)); [|by split_and!].
    clear st. intros pre o post [m s] st' Hl (H1 & H2 & H3) H. cbn in H1, H2, H3.
    apply bind_Ok in H as (h & Hh & H). apply or_raise_Ok in Hh as ->.
    apply bind_Ok in H as (c & Hc & H). unfold coll_at in Hc. apply or_raise_Ok in Hc.
    assert (Hpre : Some h ∉ pre) by (rewrite Hl in Hnd; apply NoDup_app in Hnd as (_ & Hd & _); set_solver).
    pose proof (proj2 (H3 (Some h)) Hpre h eq_refl) as Hc0. rewrite Hc0 in Hc.
    rewrite filter_loop_spec in H; [rewrite Forall_lookup in Hids; exact (Hids _ _ Hc)|].
    injection H as <-. cbn. split_and!.
    - done.
    - rewrite bind_app /= app_nil_r. unfold refused in *. rewrite filter_app length_app -H2 Hc.
      by rewrite (proj2 (txns_at_filtered c)).
    - intros o. assert (Hlt : (h < length (collections s))%nat) by (apply (lookup_lt_Some _ _ c); by rewrite Hc0).
      destruct (decide (o = Some h)) as [->|Hne].
      + assert (Hin : Some h ∈ pre ++ [Some h]) by (apply elem_of_app; right; left).
        rewrite decide_True //. split; [|by intros ?]. cbn. rewrite list_lookup_insert_eq // Hc /=.
        apply txns_at_filtered.
      + destruct (H3 o) as [H4 H5]. assert (Heq : o ∈ pre ++ [Some h] <-> o ∈ pre).
        { rewrite elem_of_app list_elem_of_singleton. naive_solver. }
        split.
        * rewrite (decide_ext _ _ _ _ Heq) -H4. destruct o as [h'|]; [|done]. cbn.
          rewrite list_lookup_insert_ne; [congruence|done].
        * intros Hn h' ->. rewrite list_lookup_insert_ne; [congruence|]. apply (H5 (fun Hx => Hn (proj2 Heq Hx)) h' eq_refl). }
  destruct Hinv as (H1 & H2 & H3 & H4).
  assert (Hall : all_txns r' = kept (all_txns r)).
  { unfold all_txns. rewrite H1. clear -H3. revert H3. induction (getTxnCollections r) as [|o os IH]; intros H3; [done|].
    cbn. unfold kept in *. rewrite filter_app. rewrite (H3 o); [left|]. f_equal. apply IH. intros o' Ho'. by apply H3; right. }
  split_and!; try done. rewrite Hall. unfold refused, kept. apply filter_none, Forall_forall.
  intros q Hq. apply list_elem_of_filter in Hq as [Hq _]. congruence.
Qed.
End FilterProperties.

(** *** Example *)

Definition ex_an_txn (id : Z) (d : string) : TxnId * Transaction :=
  (IdInt id, mkTransaction (IdInt id) [mkCounter "1" (ex_named "a") d id []] None None None true).
Definition ex_an_repo : TxnRepo string :=
  mkTxnRepo [mkCollection "bm" [ex_an_txn 1 "x"; ex_an_txn 2 "y"]; mkCollection "run" [ex_an_txn 3 "x"; ex_an_txn 4 "x"];
             mkCollection "other" [ex_an_txn 5 "y"]] [("bm", 0%nat)] (Some 1%nat) [0%nat; 1%nat].
(** Keep the transactions whose first sample carries x. *)
Definition ex_an_filter (_ : string) (t : Transaction) : bool :=
  match counters t with c :: _ => String.eqb (data c) "x" | [] => false end.
Definition ex_an_filtered : nat * TxnRepo string :=
  match filterTxns (fun n => n) ex_an_filter ex_an_repo with Ok r => r | Raise _ => (0%nat, ex_an_repo) end.

Lemma filterTxns_spec_witness :
  filterTxns (fun n => n) ex_an_filter ex_an_repo = Ok ex_an_filtered /\ ex_an_filtered.1 = 1%nat /\
  (fun q => txnId q.2) <$> all_txns (fun n => n) ex_an_filtered.2 = [IdInt 3; IdInt 4; IdInt 1].
Proof.
  assert (H : filterTxns (fun n => n) ex_an_filter ex_an_repo = Ok (ex_an_filtered.1, ex_an_filtered.2))
    by (vm_compute; reflexivity).
  assert (Hn : NoDup (getTxnCollections ex_an_repo)).
  { cbn. repeat (apply NoDup_cons; split; [set_solver|]). apply NoDup_nil_2. }
  assert (Hi : Forall (fun c => NoDup (txnMap c).*1) (collections ex_an_repo)).
  { repeat constructor; cbn; set_solver. }
  destruct (filterTxns_spec (fun n => n) ex_an_filter ex_an_repo _ _ Hn Hi H) as (H1 & _).
  split; [exact H|]. split; [vm_compute; reflexivity|]. rewrite H1. vm_compute. reflexivity.
Defined.
