(* ===== verification/Profiles.v ===== *)
(** * What the generated profiles hold

    The end of the pipeline: [Analyze.generateProfiles] grows the tree of categories and
    routes, looks benchmarks up in their composite tree and turns every leaf into a
    profile.  The theorems say which transactions every profile holds. *)

From S2P Require Import Prelude PyStr Probe Route Txn Trees Aggregate Timeline Conflate Analyze.

Lemma od_get_member {K V} (keq : K -> K -> bool) {HK : KeyEquiv keq} (d : list (K * V)) k v :
  distinct_keys keq d -> (k, v) ∈ d -> od_get keq k d = Some v.
Proof.
  intros Hd. induction Hd as [|[k1 v1] d Hne Hd IH]; [by intros ?%elem_of_nil|].
  intros [[= -> ->]|Hin]%elem_of_cons; cbn; [by rewrite (keq_refl keq)|].
  forall_elim Hne. specialize (Hne _ Hin). cbn in Hne. by rewrite Hne IH.
Qed.

Section Leaves.
Context {HH : RouteHash} {F : Type} {HF : PyFloat F}.
Abbreviation TxnColl := (TxnCollection (Meta F)).
Abbreviation SubColl := (TxnSubCollection (Meta F)).
Abbreviation ATree := (Tree (K := Key) (C := SubColl)).

#[export] Instance key_equiv : KeyEquiv key_keq.
Proof.
  split.
  - intros [s|r]; [apply (keq_refl String.eqb)|apply (keq_refl oroute_keq)].
  - intros [s|r] [s'|r']; [apply (keq_sym String.eqb)|done|done|apply (keq_sym oroute_keq)].
  - intros [s|r] [s'|r'] [s''|r'']; try done; [apply (keq_trans String.eqb)|apply (keq_trans oroute_keq)].
Qed.

(** *** From the store to its leaves *)

Lemma read_tree_node fuel (st : list (TNode (K := Key) (C := SubColl))) n t : read_tree (S fuel) st n = Some t ->
  exists nd, st !! n = Some nd /\ collection nd = troot t /\
    Forall2 (fun p q => p.1 = q.1 /\ read_tree fuel st p.2 = Some q.2) (children nd) (tchildren t).
Proof.
  cbn [read_tree]. intros H. apply bind_Some in H as (nd & Hnd & H). apply bind_Some in H as (ch & Hch & [= <-]).
  exists nd. split_and!; [done|done|]. cbn. apply mapM_Some in Hch. eapply Forall2_impl; [exact Hch|].
  intros [k i] [k' t'] H. cbn in H. apply bind_Some in H as (t & Ht & [= <- <-]). done.
Qed.

Record Leaf := mkLeaf { l_category : Key; l_siblings : nat; l_index : nat; l_route : Key; l_coll : SubColl }.

Definition route_leaves (category : Key) (l : list (Key * SubColl)) : list Leaf :=
  imap (fun i p => mkLeaf category (length l) (S i) p.1 p.2) l.

Definition leaves (t : ATree) : list Leaf :=
  tchildren t ≫= fun p => route_leaves p.1 ((fun q => (q.1, troot q.2)) <$> tchildren p.2).

Lemma imap_Forall2 {A B} (f : nat -> A -> B) (l : list A) : Forall2 (fun p b => f p.1 p.2 = b) (imap pair l) (imap f l).
Proof.
  apply Forall2_same_length_lookup_2; [by rewrite !length_imap|]. intros i [j a] b H1 H2.
  rewrite list_lookup_imap in H1. rewrite list_lookup_imap in H2.
  destruct (l !! i); cbn in *; [|done]. naive_solver.
Qed.

Lemma tagged_distinct {A} (keq : A -> A -> bool) (f : A -> Key) (m : list (A * SubColl)) :
  (forall a b, key_keq (f a) (f b) = keq a b) -> distinct_keys keq m -> distinct_keys key_keq (tagged f m).
Proof.
  intros Hf Hd. unfold tagged. induction Hd as [|p m Hne Hd IH]; [constructor|].
  rewrite fmap_cons. constructor; [|exact IH]. apply Forall_fmap. eapply Forall_impl; [exact Hne|].
  intros q Hq. cbn in *. by rewrite Hf.
Qed.

Lemma filed_distinct {K} (keq : K -> K -> bool) {HK : KeyEquiv keq} (meta : Meta F) (l : list (K * Transaction)) :
  distinct_keys keq (filed keq (mkSubCollection meta) (fun t c => sc_append c t) [] l).
Proof. apply (filed_spec keq (mkSubCollection meta) (fun t c => sc_append c t) (fun _ _ => eq_refl) l). Qed.

Lemma byCategory_ok cl : grouping_ok key_keq (byCategory (F := F) cl).
Proof.
  intros c anc m H. unfold byCategory in H. destruct (groupTxns c cl []) as [g|] eqn:E; [|done]. injection H as <-.
  apply (tagged_distinct String.eqb); [done|]. destruct (groupTxns_filed c cl g E) as (ks & _ & ->).
  apply (filed_distinct String.eqb).
Qed.

Lemma byRoute_ok : grouping_ok key_keq (byRoute (F := F)).
Proof.
  intros c anc m [= <-]. apply (tagged_distinct oroute_keq); [done|]. rewrite aggregate_filed. apply (filed_distinct oroute_keq).
Qed.

Lemma byConflatedRoute_ok st : grouping_ok key_keq (byConflatedRoute (F := F) st).
Proof.
  intros c anc m H. unfold byConflatedRoute in H.
  destruct (conflateTxnsByRoutes _ c) as [g|] eqn:E; [|done]. injection H as <-.
  apply (tagged_distinct oroute_keq); [done|]. rewrite (conflate_filed _ _ _ E). apply (filed_distinct oroute_keq).
Qed.

Lemma treeClassifiers_ok cl : Forall (grouping_ok key_keq) (treeClassifiers (F := F) cl).
Proof. repeat constructor; [apply byCategory_ok|apply byRoute_ok]. Qed.

Lemma benchmarkClassifiers_ok cl conf st : Forall (grouping_ok key_keq) (benchmarkClassifiers (F := F) cl conf st).
Proof.
  repeat constructor; [apply byCategory_ok|]. destruct conf; [apply byConflatedRoute_ok|apply byRoute_ok].
Qed.

(** The loops over the store's nodes are one loop over the leaves. *)
Lemma generate_leaves name cur benchs cl conf ps : generateProfiles name cur benchs cl conf = Ok ps ->
  exists st composite t, buildTxnTree cur benchs cl conf = Ok (st, composite) /\
    classify_tree (treeClassifiers cl) (getSubCollection cur) [] = Ok t /\ read_tree 3 st 0 = Some t /\
    Forall2 (fun l p => route_profile name (m_probes (tc_meta cur)) composite (l_category l) (l_siblings l)
      (l_index l) (l_route l) (l_coll l) = Ok p) (leaves t) ps.
Proof.
  unfold generateProfiles. intros H. apply bind_Ok in H as ([st composite] & Htree & H).
  exists st, composite. assert (Hst : buildTreeCollection key_keq (getSubCollection cur) (treeClassifiers cl) = Ok st).
  { unfold buildTxnTree in Htree. apply bind_Ok in Htree as (st' & Hst & Htree).
    by apply bind_Ok in Htree as (c & _ & [= <- _]). }
  pose proof (build_tree key_keq (treeClassifiers cl) (getSubCollection cur) (treeClassifiers_ok cl)) as Hb.
  destruct (classify_tree _ _ _) as [t|] eqn:Ht; [|by destruct (Hb st Hst)].
  destruct Hb as (st' & Hst' & Hread). rewrite Hst in Hst'. injection Hst' as <-. exists t. split_and!; [done|done|done|].
  apply bind_Ok in H as (categories & Hcats & H). apply or_raise_Ok in Hcats.
  destruct (read_tree_node 2 st 0 t Hread) as (root & Hroot & _ & Hcs).
  unfold getChildren, getNode in Hcats. cbn in Hcats. rewrite Hroot in Hcats. injection Hcats as <-.
  rewrite (mfor_Forall2 _ _ (fun ps (p : Key * ATree) => mfor (fun ps l => p ← route_profile name (m_probes (tc_meta cur))
      composite (l_category l) (l_siblings l) (l_index l) (l_route l) (l_coll l); Ok (ps ++ [p])) ps
      (route_leaves p.1 ((fun q => (q.1, troot q.2)) <$> tchildren p.2))) _ _ _ Hcs) in H.
  - intros acc [cat n] [cat' ct] [[= <-] Hn]. cbn in Hn.
    destruct (read_tree_node 1 st n ct Hn) as (node & Hnode & _ & Hrs). rewrite Hnode. cbn [or_raise mbind result_bind fst snd].
    unfold route_leaves. rewrite length_fmap.
    apply (mfor_Forall2 (fun a l => l_category l = cat /\ l_siblings l = length (children node) /\
      l_index l = S a.1 /\ l_route l = a.2.1 /\ exists nd, st !! a.2.2 = Some nd /\ collection nd = l_coll l)).
    + apply Forall2_same_length_lookup_2.
      { by rewrite !length_imap length_fmap (Forall2_length _ _ _ Hrs). }
      intros i [j [route k]] l H1 H2. rewrite list_lookup_imap in H1. rewrite list_lookup_imap list_lookup_fmap in H2.
      destruct (children node !! i) as [[r k']|] eqn:E1; [|done]. injection H1 as <- <- <-.
      destruct (tchildren ct !! i) as [[r' lt]|] eqn:E2; [|done]. injection H2 as <-. cbn.
      destruct (Forall2_lookup_lr _ _ _ _ _ _ Hrs E1 E2) as [Hk Hl]. cbn in Hk, Hl.
      destruct (read_tree_node 0 st k' lt Hl) as (nd & Hnd & Hc & _).
      rewrite (Forall2_length _ _ _ Hrs). split_and!; eauto.
    + intros ps' [i [route k]] l (H1 & H2 & H3 & H4 & nd & H5 & H6). cbn in *.
      by rewrite H5 H1 H2 H3 H4 /= H6.
  - rewrite mfor_nested in H. apply mfor_collect in H as (bs & -> & Hbs). exact Hbs.
Qed.

(** *** What the leaves hold *)

Lemma mmap_tagged {A B} (f : Key * A -> result B) (m : list (Key * A)) ch :
  mmap (fun p => t ← f p; Ok (p.1, t)) m = Ok ch ->
  Forall2 (fun p q => p.1 = q.1 /\ f p = Ok q.2) m ch.
Proof.
  revert ch. induction m as [|p m IH]; intros ch; cbn [mmap]; [by intros [= <-]; constructor|].
  intros H. apply bind_Ok in H as (y & Hy & H). apply bind_Ok in H as (ys & Hys & [= <-]).
  apply bind_Ok in Hy as (t & Ht & [= <-]). constructor; [done|by apply IH].
Qed.

Lemma classify_level (cl : SubColl -> list Key -> result (list (Key * SubColl))) cls c anc t :
  classify_tree (cl :: cls) c anc = Ok t ->
  exists m, cl c anc = Ok m /\
    Forall2 (fun p q => p.1 = q.1 /\ classify_tree cls p.2 (anc ++ [p.1]) = Ok q.2) m (tchildren t).
Proof.
  cbn [classify_tree]. intros H. apply bind_Ok in H as (m & Hm & H). apply bind_Ok in H as (ch & Hch & [= <-]).
  exists m. split; [done|]. exact (mmap_tagged (fun p => classify_tree cls p.2 (anc ++ [p.1])) m ch Hch).
Qed.

Lemma classify_last (cl : SubColl -> list Key -> result (list (Key * SubColl))) c anc t :
  classify_tree [cl] c anc = Ok t -> cl c anc = Ok ((fun q => (q.1, troot q.2)) <$> tchildren t).
Proof.
  intros H. destruct (classify_level _ _ _ _ _ H) as (m & Hm & Hch). rewrite Hm. f_equal. clear Hm H.
  induction Hch as [|[k c'] [k' t'] m ch [Hk Ht] _ IH]; [done|]. cbn in Hk, Ht. injection Ht as <-.
  rewrite fmap_cons /= Hk. by f_equal.
Qed.

Lemma leaves_spec cl sc (t : ATree) : classify_tree (treeClassifiers cl) sc [] = Ok t ->
  exists g, groupTxns sc cl [] = Ok g /\
    leaves t = g ≫= fun p => route_leaves (KCategory p.1) (tagged KRoute (aggregateTxnsByRoutes p.2)).
Proof.
  intros H. destruct (classify_level _ _ _ _ _ H) as (m & Hm & Hch). unfold byCategory in Hm.
  destruct (groupTxns sc cl []) as [g|] eqn:Hg; [|done]. injection Hm as <-. exists g. split; [done|].
  unfold leaves. clear Hg H. revert Hch. generalize (tchildren t). induction g as [|[k c] g IH]; intros ch Hch.
  { by inversion Hch. }
  apply Forall2_cons_inv_l in Hch as ([k' t'] & ch' & [Hk Ht] & Hch' & ->). cbn [fst snd] in Hk, Ht.
  cbn [mbind list_bind]. f_equal; [|by apply IH].
  apply classify_last in Ht. injection Ht as Ht. by rewrite -Ht -Hk.
Qed.

Lemma group_of_Some meta ts (c : SubColl) : group_of meta ts = Some c -> c = mkSubCollection meta ts /\ ts <> [].
Proof. destruct ts; cbn; [done|]. by intros [= <-]. Qed.

(** The transactions of a category, and of a route. *)
Definition in_category (cl : Classifier) (k : string) (ts : list Transaction) : list Transaction :=
  filter (fun t => classified cl k t = true) ts.
Definition on_route (r : option Route) (ts : list Transaction) : list Transaction :=
  filter (fun t => oroute_keq r (txn_route t) = true) ts.

Lemma leaf_coll cl sc (t : ATree) l : classify_tree (treeClassifiers cl) sc [] = Ok t -> l ∈ leaves t ->
  exists k r, l_category l = KCategory k /\ l_route l = KRoute r /\
    l_coll l = mkSubCollection (sc_meta sc) (on_route r (in_category cl k (transactions sc))).
Proof.
  intros Ht Hl. destruct (leaves_spec cl sc t Ht) as (g & Hg & Hls). rewrite Hls in Hl.
  apply list_elem_of_bind in Hl as ([k c] & Hl & Hin). unfold route_leaves, tagged in Hl.
  apply list_elem_of_lookup in Hl as [i Hl]. rewrite list_lookup_imap list_lookup_fmap in Hl. cbn [fst snd] in Hl.
  destruct (aggregateTxnsByRoutes c !! i) as [[r s]|] eqn:E; [|done]. injection Hl as <-. cbn.
  exists k, r. split_and!; [done|done|]. apply list_elem_of_lookup_2 in E.
  destruct (groupTxns_filed sc cl g Hg) as (ks & _ & Hgf).
  assert (Hc : od_get String.eqb k g = Some c).
  { apply od_get_member; [apply _|rewrite Hgf; apply (filed_distinct String.eqb)|done]. }
  rewrite (proj1 (group_groups sc cl g Hg) k) in Hc. apply group_of_Some in Hc as [-> _].
  assert (Hs : od_get oroute_keq r (aggregateTxnsByRoutes
    (mkSubCollection (sc_meta sc) (in_category cl k (transactions sc)))) = Some s).
  { apply od_get_member; [apply _|rewrite aggregate_filed; apply (filed_distinct oroute_keq)|exact E]. }
  rewrite (proj1 (aggregate_groups _) r) in Hs. by apply group_of_Some in Hs as [-> _].
Qed.

Lemma route_leaves_items k (l : list (option Route * SubColl)) :
  route_leaves k (tagged KRoute l) ≫= (fun l => transactions (l_coll l)) = l.*2 ≫= transactions.
Proof.
  unfold route_leaves. generalize (length (tagged KRoute l)) as n. intros n.
  cut (forall m, imap (fun i p => mkLeaf k n (S (m + i)) p.1 p.2) (tagged KRoute l) ≫=
      (fun l => transactions (l_coll l)) = l.*2 ≫= transactions); [intros H; exact (H 0%nat)|].
  induction l as [|[r s] l IH]; intros m; [done|]. unfold tagged in *.
  rewrite !fmap_cons imap_cons !bind_cons. cbn [l_coll snd]. f_equal. rewrite -(IH (S m)). f_equal.
  apply imap_ext. intros i x _. cbn. f_equal. lia.
Qed.

Lemma leaves_flattened cl sc (t : ATree) : classify_tree (treeClassifiers cl) sc [] = Ok t ->
  leaves t ≫= (fun l => transactions (l_coll l)) ≡ₚ transactions sc.
Proof.
  intros Ht. destruct (leaves_spec cl sc t Ht) as (g & Hg & ->).
  rewrite -(proj2 (group_groups sc cl g Hg)). unfold flattened. clear Hg Ht.
  induction g as [|[k c] g IH]; [done|]. rewrite bind_cons bind_app fmap_cons bind_cons IH. f_equiv.
  cbn [fst snd]. rewrite -(proj2 (aggregate_groups c)). unfold flattened.
  by rewrite route_leaves_items.
Qed.

(** *** The profiles *)

(** The transactions of a profile's timelines. *)
Definition stats_txns (s : TimelineStats F) : list Transaction := tl_txn <$> timelineCollection s.

Lemma stats_of category route probes (sc : SubColl) s : buildTimelineStats category route probes sc = Ok s ->
  stats_txns s = transactions sc /\ ts_category s = category /\ ts_route s = route /\
  ts_name s = m_name (sc_meta sc) /\ ts_reportProbes s = probes.
Proof.
  intros H. split.
  - apply build_timelines in H. unfold stats_txns. induction H as [|t tl ts tls Ht _ IH]; [done|].
    destruct Ht as (cs & c0 & cn & e & _ & _ & _ & Htl & _). by rewrite fmap_cons Htl IH.
  - unfold buildTimelineStats in H. by apply bind_Ok in H as ([[l repo] inc] & _ & [= <-]).
Qed.

Lemma leaf_profile name probes composite l p k r :
  l_category l = KCategory k -> l_route l = KRoute r ->
  route_profile (F := F) name probes composite (l_category l) (l_siblings l) (l_index l) (l_route l) (l_coll l) = Ok p ->
  exists route reportProbes, r = Some route /\ mapReportProbes route probes = Ok reportProbes /\
    buildTimelineStats k route reportProbes (l_coll l) = Ok (p_current p) /\
    mfor (fun m q => s ← buildTimelineStats k route reportProbes q.2;
                     Ok (od_set String.eqb (m_name (sc_meta q.2)) s m)) []
      (default [] (getCollectionMap key_keq composite [KCategory k; KRoute r])) = Ok (p_benchmarks p) /\
    p_name p = profile_name name k (l_siblings l) (l_index l).
Proof.
  intros -> ->. unfold route_profile. intros H. apply bind_Ok in H as (route & Hr & H).
  apply or_raise_Ok in Hr as ->. apply bind_Ok in H as (reportProbes & Hp & H).
  apply bind_Ok in H as ([stats benchs] & H & [= <-]). unfold computeStats in H.
  apply bind_Ok in H as (s & Hs & H). apply bind_Ok in H as (b & Hb & [= <- <-]).
  exists route, reportProbes. by split_and!.
Qed.

(** The profile a category and route of the current run ought to have. *)
Definition profile_holds (cl : Classifier) (txns : list Transaction) (p : Profile F) : Prop :=
  let s := p_current p in
  stats_txns s = on_route (Some (ts_route s)) (in_category cl (ts_category s) txns).

(** C1 (profiles): generating profiles loses no transaction and shows none twice: the
    timelines of all the profiles are a permutation of the transactions of the current
    run, and every profile holds exactly the transactions of its category that took its
    route, in order of begin time. *)
Theorem generateProfiles_partition name cur benchs cl conf ps :
  generateProfiles name cur benchs cl conf = Ok ps ->
  ps ≫= (fun p => stats_txns (p_current p)) ≡ₚ (txnMap cur).*2 /\
  Forall (profile_holds cl (txnMap cur).*2) ps.
Proof.
  intros H. destruct (generate_leaves _ _ _ _ _ _ H) as (st & composite & t & _ & Ht & _ & Hps).
  assert (Hls : Forall2 (fun l p => stats_txns (p_current p) = transactions (l_coll l) /\
      profile_holds cl (txnMap cur).*2 p) (leaves t) ps).
  { apply Forall2_same_length_lookup. split; [by apply Forall2_length in Hps|]. intros i l p Hl Hp.
    pose proof (Forall2_lookup_lr _ _ _ _ _ _ Hps Hl Hp) as Hlp. cbn beta in Hlp.
    destruct (leaf_coll cl _ t l Ht (list_elem_of_lookup_2 _ _ _ Hl)) as (k & r & Hk & Hr & Hc).
    destruct (leaf_profile _ _ _ l p k r Hk Hr Hlp) as (route & rps & -> & _ & Hs & _).
    destruct (stats_of _ _ _ _ _ Hs) as (Hs1 & Hs2 & Hs3 & _). split; [done|].
    unfold profile_holds. by rewrite Hs1 Hs2 Hs3 Hc. }
  split.
  - change (txnMap cur).*2 with (transactions (getSubCollection cur)).
    rewrite -(leaves_flattened cl (getSubCollection cur) t Ht). match goal with |- ?a ≡ₚ ?b => cut (a = b); [by intros ->|] end. clear -Hls.
    induction Hls as [|l p ls ps [Hp _] _ IH]; [done|]. by rewrite !bind_cons Hp IH.
  - clear -Hls. induction Hls as [|l p ls ps [_ Hp] _ IH]; by constructor.
Qed.

(** *** The benchmarks of a profile *)

(** The transactions of a benchmark that are compared with a route. *)
Definition comparable (conf : RouteConflation) (r : Route) (ts : list Transaction) : list Transaction :=
  match conf with
  | On => filter (fun t => is_conflatable (Some r) t = true) ts
  | Off => on_route (Some r) ts
  end.

Lemma od_get_tagged {A} (keq : A -> A -> bool) (f : A -> Key) k (m : list (A * SubColl)) :
  (forall a b, key_keq (f a) (f b) = keq a b) -> od_get key_keq (f k) (tagged f m) = od_get keq k m.
Proof. intros Hf. induction m as [|[k1 c] m IH]; [done|]. unfold tagged in *. cbn. by rewrite Hf IH. Qed.

Lemma level_get {A B} (P : A -> B -> Prop) k (m : list (Key * A)) (ch : list (Key * B)) :
  Forall2 (fun p q => p.1 = q.1 /\ P p.2 q.2) m ch ->
  match od_get key_keq k m, od_get key_keq k ch with
  | Some a, Some b => P a b
  | None, None => True
  | _, _ => False
  end.
Proof.
  intros H. induction H as [|[k1 a] [k2 b] m ch [Hk Hp] _ IH]; [done|]. cbn in *. subst k2.
  by destruct (key_keq k k1).
Qed.

Lemma level_get_key (P : Key -> SubColl -> ATree -> Prop) k (m : list (string * SubColl)) ch :
  Forall2 (fun p q => p.1 = q.1 /\ P p.1 p.2 q.2) (tagged KCategory m) ch ->
  match od_get String.eqb k m, od_get key_keq (KCategory k) ch with
  | Some c, Some t => P (KCategory k) c t
  | None, None => True
  | _, _ => False
  end.
Proof.
  revert ch. induction m as [|[k1 c] m IH]; intros ch H; unfold tagged in *.
  { by apply Forall2_nil_inv_l in H as ->. }
  rewrite fmap_cons in H. apply Forall2_cons_inv_l in H as ([k2 t] & ch' & [Hk Hp] & H & ->). cbn in Hk, Hp.
  subst k2. cbn [od_get key_keq]. destruct (String.eqb_spec k k1) as [->|Hne]; [exact Hp|by apply IH].
Qed.

(** The collection under a category and a route, when the second grouping is by route. *)
Lemma coll_at_route cl (second : SubColl -> list Key -> result (list (Key * SubColl))) sc (t : ATree) k r
    (select : list Transaction -> list Transaction) :
  classify_tree [byCategory cl; second] sc [] = Ok t -> select [] = [] ->
  (forall c m, sc_meta c = sc_meta sc -> second c [KCategory k] = Ok m ->
     od_get key_keq (KRoute r) m = group_of (sc_meta sc) (select (transactions c))) ->
  Trees.coll_at key_keq t [KCategory k; KRoute r] =
  group_of (sc_meta sc) (select (in_category cl k (transactions sc))).
Proof.
  intros Ht Hnil Hsel. destruct (classify_level _ _ _ _ _ Ht) as (m & Hm & Hch). unfold byCategory in Hm.
  destruct (groupTxns sc cl []) as [g|] eqn:Hg; [|done]. injection Hm as <-.
  apply (level_get_key (fun a c q => classify_tree [second] c ([] ++ [a]) = Ok q) k) in Hch.
  rewrite (proj1 (group_groups sc cl g Hg) k) in Hch. unfold Trees.coll_at. cbn [twalk].
  change (filter (fun t => classified cl k t = true) (transactions sc)) with (in_category cl k (transactions sc)) in Hch.
  destruct (in_category cl k (transactions sc)) as [|x xs] eqn:Hin; cbn [group_of] in Hch.
  { destruct (od_get key_keq (KCategory k) (tchildren t)); [done|]. by rewrite Hnil. }
  destruct (od_get key_keq (KCategory k) (tchildren t)) as [q|]; [|done]. apply classify_last in Hch.
  rewrite -(Hsel (mkSubCollection (sc_meta sc) (x :: xs)) _ eq_refl Hch). clear.
  induction (tchildren q) as [|[k1 q1] ch IH]; [done|].
  rewrite fmap_cons. cbn [od_get fst snd]. destruct (key_keq (KRoute r) k1); [done|exact IH].
Qed.

Lemma conflate_get (sc : SubColl) routes m r : ForallOrdPairs (fun a b => oroute_keq b a = false) routes ->
  r ∈ routes -> conflateTxnsByRoutes routes sc = Ok m ->
  od_get oroute_keq r m = group_of (sc_meta sc) (filter (fun t => is_conflatable r t = true) (transactions sc)).
Proof.
  intros Hd Hr H. rewrite (conflate_filed _ _ _ H).
  rewrite (proj2 (filed_spec oroute_keq _ (fun t c => sc_append c t) (fun _ _ => eq_refl) _) r).
  by rewrite under_conflated.
Qed.

(** The routes the conflating aggregator finds under a category of the current run. *)
Lemma child_routes_spec cl sc (t : ATree) st k g : read_tree 3 st 0 = Some t ->
  classify_tree (treeClassifiers cl) sc [] = Ok t -> groupTxns sc cl [] = Ok g ->
  child_routes st [KCategory k] =
  match od_get String.eqb k g with Some c => (aggregateTxnsByRoutes c).*1 | None => [] end.
Proof.
  intros Hread Ht Hg. destruct (classify_level _ _ _ _ _ Ht) as (m & Hm & Hch). unfold byCategory in Hm.
  rewrite Hg in Hm. injection Hm as <-.
  apply (level_get_key (fun a c q => classify_tree [byRoute] c ([] ++ [a]) = Ok q) k) in Hch.
  destruct (read_tree_node 2 st 0 t Hread) as (root & Hroot & _ & Hcs).
  unfold child_routes, getChildren, getNode. cbn. unfold follow. rewrite Hroot. cbn. apply (level_get (fun n q => read_tree 2 st n = Some q) (KCategory k)) in Hcs.
  destruct (od_get key_keq (KCategory k) (tchildren t)) as [q|].
  - destruct (od_get key_keq (KCategory k) (children root)) as [n|]; [|done].
    destruct (od_get String.eqb k g) as [c|]; [|done]. apply classify_last in Hch. injection Hch as Hch.
    destruct (read_tree_node 1 st n q Hcs) as (node & Hnode & _ & Hrs). cbn. rewrite Hnode. cbn.
    cut ((children node).*1 = KRoute <$> (aggregateTxnsByRoutes c).*1).
    { clear. generalize (children node). intros l. revert l. induction (aggregateTxnsByRoutes c) as [|[r s] a IH];
        intros [|[k1 n1] l] H; [done|done|done|]. rewrite !fmap_cons in H. injection H as -> H. cbn. f_equal. by apply IH. }
    transitivity (tchildren q).*1.
    { clear -Hrs. induction Hrs as [|p p' l l' [Hp _] _ IH]; [done|]. by rewrite !fmap_cons Hp IH. }
    transitivity (tagged KRoute (aggregateTxnsByRoutes c)).*1.
    { rewrite Hch. clear. induction (tchildren q); [done|]. by rewrite !fmap_cons IHl. }
    unfold tagged. clear. induction (aggregateTxnsByRoutes c); [done|]. by rewrite !fmap_cons IHl.
  - destruct (od_get key_keq (KCategory k) (children root)) as [n|]; [done|].
    by destruct (od_get String.eqb k g) as [c|].
Qed.

(** A leaf's route is one of them. *)
Lemma leaf_route cl sc (t : ATree) l k r g : classify_tree (treeClassifiers cl) sc [] = Ok t ->
  groupTxns sc cl [] = Ok g -> l ∈ leaves t -> l_category l = KCategory k -> l_route l = KRoute r ->
  exists c, od_get String.eqb k g = Some c /\ r ∈ (aggregateTxnsByRoutes c).*1.
Proof.
  intros Ht Hg Hl Hk Hr. destruct (leaves_spec cl sc t Ht) as (g' & Hg' & Hls). rewrite Hg in Hg'. injection Hg' as <-.
  rewrite Hls in Hl. apply list_elem_of_bind in Hl as ([k' c] & Hl & Hin). unfold route_leaves, tagged in Hl.
  apply list_elem_of_lookup in Hl as [i Hl]. rewrite list_lookup_imap list_lookup_fmap in Hl. cbn [fst snd] in Hl.
  destruct (aggregateTxnsByRoutes c !! i) as [[r' s]|] eqn:E; [|done]. injection Hl as <-. cbn in Hk, Hr.
  injection Hk as ->. injection Hr as ->. exists c. split.
  - destruct (groupTxns_filed sc cl g Hg) as (ks & _ & Hgf).
    apply od_get_member; [apply _|rewrite Hgf; apply (filed_distinct String.eqb)|done].
  - apply list_elem_of_fmap. exists (r, s). split; [done|]. by apply list_elem_of_lookup_2 in E.
Qed.

Lemma filed_keys {K A V} (keq : K -> K -> bool) (mk : list A -> V) (append : A -> V -> V) m l k :
  k ∈ (filed keq mk append m l).*1 -> k ∈ m.*1 \/ k ∈ l.*1.
Proof.
  revert m. induction l as [|[k0 x] l IH]; intros m H; [by left|].
  change (filed keq mk append m ((k0, x) :: l)) with (filed keq mk append (file keq mk append k0 x m) l) in H.
  rewrite fmap_cons elem_of_cons. destruct (IH _ H) as [Hk|Hk]; [|tauto]. revert Hk. unfold file.
  destruct (od_mem keq k0 m) eqn:E; fold (od_keys m).
  - intros Hk. left. by rewrite -(od_alter_keys keq (append x) k0 m).
  - intros Hk. fold (od_keys (od_set keq k0 (mk [x]) m)) in Hk. rewrite od_set_keys E elem_of_app list_elem_of_singleton in Hk. tauto.
Qed.

(** Some transaction took a leaf's route, and the leaf holds it. *)
Lemma leaf_taken cl sc (t : ATree) l k r : classify_tree (treeClassifiers cl) sc [] = Ok t -> l ∈ leaves t ->
  l_category l = KCategory k -> l_route l = KRoute r ->
  exists x, x ∈ transactions sc /\ txn_route x = r /\ x ∈ transactions (l_coll l).
Proof.
  intros Ht Hl Hk Hr. destruct (leaves_spec cl sc t Ht) as (g & Hg & _).
  destruct (leaf_route cl sc t l k r g Ht Hg Hl Hk Hr) as (c & Hc & Hin).
  destruct (leaf_coll cl sc t l Ht Hl) as (k' & r' & Hk' & Hr' & Hcoll). rewrite Hk in Hk'. injection Hk' as <-.
  rewrite Hr in Hr'. injection Hr' as <-. rewrite Hcoll. cbn [transactions].
  rewrite (proj1 (group_groups sc cl g Hg) k) in Hc. apply group_of_Some in Hc as [-> _].
  rewrite aggregate_filed in Hin. apply filed_keys in Hin as [[]%not_elem_of_nil|Hin].
  unfold pairs_of in Hin. rewrite -list_fmap_compose in Hin. apply list_elem_of_fmap in Hin as (x & -> & Hx). cbn [transactions] in Hx.
  exists x. split_and!; [by apply list_elem_of_filter in Hx as [_ Hx]|done|]. apply list_elem_of_filter. split; [|done].
  apply (keq_refl oroute_keq).
Qed.

Lemma aggregate_distinct (c : SubColl) :
  ForallOrdPairs (fun a b => oroute_keq b a = false) (aggregateTxnsByRoutes c).*1.
Proof.
  assert (Hd : distinct_keys oroute_keq (aggregateTxnsByRoutes c)).
  { rewrite aggregate_filed. apply (filed_distinct oroute_keq). }
  induction Hd as [|p l Hne Hd IH]; [constructor|]. rewrite fmap_cons. constructor; [|done]. by apply Forall_fmap.
Qed.

(** What the composite tree holds of one benchmark under a profile's category and route. *)
Lemma benchmark_coll cl conf cur st (t : ATree) l k r sc q :
  buildTreeCollection key_keq (getSubCollection cur) (treeClassifiers cl) = Ok st ->
  read_tree 3 st 0 = Some t -> classify_tree (treeClassifiers cl) (getSubCollection cur) [] = Ok t ->
  l ∈ leaves t -> l_category l = KCategory k -> l_route l = KRoute (Some r) ->
  classify_tree (benchmarkClassifiers cl conf st) sc [] = Ok q ->
  Trees.coll_at key_keq q [KCategory k; KRoute (Some r)] =
  group_of (sc_meta sc) (comparable conf r (in_category cl k (transactions sc))).
Proof.
  intros Hst Hread Ht Hl Hk Hr Hq. destruct (leaves_spec cl _ t Ht) as (g & Hg & _).
  destruct (leaf_route cl _ t l k (Some r) g Ht Hg Hl Hk Hr) as (c & Hc & Hin).
  destruct conf; refine (coll_at_route cl _ sc q k (Some r) _ Hq eq_refl _); intros c' m Hmeta Hm.
  - unfold byConflatedRoute in Hm. rewrite (child_routes_spec cl _ t st k g Hread Ht Hg) Hc in Hm.
    destruct (conflateTxnsByRoutes _ c') as [m'|] eqn:E; [|done]. injection Hm as <-.
    rewrite (od_get_tagged oroute_keq) // -Hmeta. exact (conflate_get c' _ m' (Some r) (aggregate_distinct c) Hin E).
  - injection Hm as <-. rewrite (od_get_tagged oroute_keq) // -Hmeta. apply aggregate_groups.
Qed.

Lemma composite_classified (colls : list (string * SubColl)) cls ct : Forall (grouping_ok key_keq) cls ->
  buildCompositeTreeCollection key_keq colls cls = Ok ct ->
  exists ts, mmap (fun p => classify_tree cls p.2 []) colls = Ok ts.
Proof.
  intros Hok. unfold buildCompositeTreeCollection. generalize (CompositeTree_init (K := Key) (C := SubColl)).
  induction colls as [|[name c] colls IH]; intros ct0 H; [by exists []|]. cbn [mfor] in H.
  apply bind_Ok in H as (ct1 & H1 & H). apply bind_Ok in H1 as (st & Hst & H1).
  pose proof (build_tree key_keq cls c Hok) as Hb. cbn [mmap snd].
  destruct (classify_tree cls c []) as [t|]; [|by destruct (Hb st)].
  destruct (IH ct1 H) as (ts & Hts). exists (t :: ts). by rewrite /= Hts.
Qed.

(** The sub-collections the benchmarks of a profile ought to be made from. *)
Definition benchmark_colls (cl : Classifier) (conf : RouteConflation) (k : string) (r : Route)
    (benchs : list (string * TxnColl)) : list (string * SubColl) :=
  omap (fun b => (fun c => (b.1, c)) <$>
          group_of (tc_meta b.2) (comparable conf r (in_category cl k (txnMap b.2).*2))) benchs.

Lemma benchmark_at_path cl conf cur st (t : ATree) l k r benchs ts :
  buildTreeCollection key_keq (getSubCollection cur) (treeClassifiers cl) = Ok st ->
  read_tree 3 st 0 = Some t -> classify_tree (treeClassifiers cl) (getSubCollection cur) [] = Ok t ->
  l ∈ leaves t -> l_category l = KCategory k -> l_route l = KRoute (Some r) ->
  mmap (fun p => classify_tree (benchmarkClassifiers cl conf st) p.2 [])
    ((fun p => (p.1, getSubCollection p.2)) <$> benchs) = Ok ts ->
  at_path key_keq (zip ((fun p => (p.1, getSubCollection p.2)) <$> benchs).*1 ts) [KCategory k; KRoute (Some r)] =
  benchmark_colls cl conf k r benchs.
Proof.
  intros Hst Hread Ht Hl Hk Hr. revert ts. unfold benchmark_colls, at_path.
  induction benchs as [|[n b] benchs IH]; intros ts H; [done|]. rewrite fmap_cons in H. cbn [mmap snd] in H.
  apply bind_Ok in H as (q & Hq & H). apply bind_Ok in H as (qs & Hqs & [= <-]).
  rewrite !fmap_cons. cbn [zip zip_with omap list_omap fst snd].
  rewrite (benchmark_coll cl conf cur st t l k r _ q Hst Hread Ht Hl Hk Hr Hq).
  change (transactions (getSubCollection b)) with (txnMap b).*2. change (sc_meta (getSubCollection b)) with (tc_meta b).
  pose proof (IH qs Hqs) as E. cbn [omap list_omap] in E. destruct (group_of _ _); cbn; by rewrite E.
Qed.

(** What a profile is made from. *)
Lemma profile_origin name cur benchs cl conf ps p : NoDup benchs.*1 -> generateProfiles (F := F) name cur benchs cl conf = Ok ps ->
  p ∈ ps -> exists k route rps,
    let own := on_route (Some route) (in_category cl k (txnMap cur).*2) in
    mapReportProbes route (m_probes (tc_meta cur)) = Ok rps /\
    (exists x, x ∈ own /\ txn_route x = Some route) /\
    buildTimelineStats k route rps (mkSubCollection (tc_meta cur) own) = Ok (p_current p) /\
    mfor (fun m q => s ← buildTimelineStats k route rps q.2;
                     Ok (od_set String.eqb (m_name (sc_meta q.2)) s m)) []
      (benchmark_colls cl conf k route benchs) = Ok (p_benchmarks p).
Proof.
  intros Hnd H Hp. destruct (generate_leaves _ _ _ _ _ _ H) as (st & composite & t & Htree & Ht & Hread & Hps).
  apply list_elem_of_lookup in Hp as [i Hp]. destruct (Forall2_lookup_r _ _ _ _ _ Hps Hp) as (l & Hl & Hlp).
  apply list_elem_of_lookup_2 in Hl. destruct (leaf_coll cl _ t l Ht Hl) as (k & r & Hk & Hr & Hcoll).
  destruct (leaf_profile _ _ _ l p k r Hk Hr Hlp) as (route & rps & -> & Hrps & Hs & Hb & _).
  destruct (leaf_taken cl _ t l k _ Ht Hl Hk Hr) as (x & _ & Hx & Hin). rewrite Hcoll in Hin Hs.
  unfold buildTxnTree in Htree. apply bind_Ok in Htree as (st' & Hst & Htree).
  apply bind_Ok in Htree as (c' & Hcomp & [= -> ->]).
  destruct (composite_classified _ _ _ (benchmarkClassifiers_ok cl conf st) Hcomp) as (qs & Hqs).
  assert (Hnd' : NoDup ((fun p => (p.1, getSubCollection p.2)) <$> benchs).*1) by (by rewrite -list_fmap_compose).
  destruct (build_composite key_keq key_equiv _ _ qs (benchmarkClassifiers_ok cl conf st) Hnd' Hqs) as (ct & Hct & Hmap).
  rewrite Hcomp in Hct. injection Hct as <-. rewrite Hmap in Hb.
  rewrite (benchmark_at_path cl conf cur st t l k route benchs qs Hst Hread Ht Hl Hk Hr Hqs) in Hb.
  exists k, route, rps. split_and!; [done|by exists x|exact Hs|exact Hb].
Qed.

Lemma od_get_app {V} n (l1 l2 : list (string * V)) :
  od_get String.eqb n (l1 ++ l2) = match od_get String.eqb n l1 with Some v => Some v | None => od_get String.eqb n l2 end.
Proof. induction l1 as [|[k v] l1 IH]; [done|]. cbn. by destruct (String.eqb n k). Qed.

(** The dict of benchmark statistics, for collections that are listed under their names. *)
Lemma benchmark_stats k route rps (l : list (string * SubColl)) m :
  NoDup l.*1 -> Forall (fun q => m_name (sc_meta q.2) = q.1) l ->
  mfor (fun m q => s ← buildTimelineStats k route rps q.2;
                   Ok (od_set String.eqb (m_name (sc_meta q.2)) s m)) [] l = Ok m ->
  forall n, stats_txns <$> od_get String.eqb n m = transactions <$> od_get String.eqb n l.
Proof.
  intros Hnd Hnames H. revert H.
  apply (mfor_inv_prefix _ (fun l m => forall n, stats_txns <$> od_get String.eqb n m = transactions <$> od_get String.eqb n l));
    [|done].
  clear m. intros pre [n c] post m m' Hl IH H n'. apply bind_Ok in H as (s & Hs & [= <-]). cbn [snd] in *.
  assert (Hn : m_name (sc_meta c) = n).
  { rewrite Forall_forall in Hnames. apply (Hnames (n, c)). rewrite Hl elem_of_app. right; left. }
  rewrite Hn od_get_set od_get_app. destruct (String.eqb_spec n n') as [<-|Hne].
  - assert (od_get String.eqb n pre = None) as ->.
    { apply od_get_None, Forall_forall. intros k' Hk'. apply String.eqb_neq. intros <-.
      rewrite Hl fmap_app in Hnd. apply NoDup_app in Hnd as (_ & Hnd & _). apply (Hnd n Hk'). rewrite fmap_cons. left. }
    cbn. rewrite String.eqb_refl /=. by rewrite (proj1 (stats_of _ _ _ _ _ Hs)).
  - rewrite IH. destruct (od_get String.eqb n' pre); [done|]. cbn.
    by rewrite (proj2 (String.eqb_neq n' n) (not_eq_sym Hne)).
Qed.

Lemma benchmark_colls_get cl conf k r benchs b : NoDup benchs.*1 -> b ∈ benchs ->
  od_get String.eqb b.1 (benchmark_colls cl conf k r benchs) =
  group_of (tc_meta b.2) (comparable conf r (in_category cl k (txnMap b.2).*2)).
Proof.
  unfold benchmark_colls. induction benchs as [|[n c] benchs IH]; [by intros _ ?%elem_of_nil|].
  intros Hnd Hb. rewrite fmap_cons in Hnd. apply NoDup_cons in Hnd as [Hn Hnd]. cbn [omap list_omap fst snd].
  assert (Hnone : forall l, n ∉ l.*1 -> od_get String.eqb n (benchmark_colls cl conf k r l) = None).
  { clear. unfold benchmark_colls. induction l as [|[n' c'] l IH]; intros Hn; [done|].
    rewrite fmap_cons in Hn. apply not_elem_of_cons in Hn as [Hne Hn]. cbn [omap list_omap fst snd].
    destruct (group_of _ _); cbn; [|by apply IH]. rewrite (proj2 (String.eqb_neq n n') Hne). by apply IH. }
  apply elem_of_cons in Hb as [->|Hb]; cbn [fst snd].
  - destruct (group_of _ _) as [s|]; cbn [fmap option_fmap option_map od_get]; [by rewrite String.eqb_refl|].
    exact (Hnone benchs Hn).
  - assert (b.1 <> n). { intros <-. apply Hn. exact (list_elem_of_fmap_2 fst _ _ Hb). }
    destruct (group_of (tc_meta c) _); cbn [fmap option_fmap option_map od_get]; [|exact (IH Hnd Hb)].
    rewrite (proj2 (String.eqb_neq b.1 n)) //. exact (IH Hnd Hb).
Qed.

Lemma benchmark_colls_names cl conf k r benchs : NoDup benchs.*1 ->
  Forall (fun b => m_name (tc_meta b.2) = b.1) benchs ->
  NoDup (benchmark_colls cl conf k r benchs).*1 /\
  Forall (fun q => m_name (sc_meta q.2) = q.1) (benchmark_colls cl conf k r benchs).
Proof.
  unfold benchmark_colls. induction benchs as [|[n c] benchs IH]; [by split; constructor|].
  intros Hnd Hf. rewrite fmap_cons in Hnd. apply NoDup_cons in Hnd as [Hn Hnd]. apply Forall_cons in Hf as [Hm Hf].
  destruct (IH Hnd Hf) as [H1 H2]. cbn [omap list_omap fst snd] in *.
  destruct (group_of _ _) as [s|] eqn:E; cbn; [|done]. split; constructor; try done.
  - intros Hin. apply Hn. apply list_elem_of_fmap in Hin as ([n' s'] & -> & Hin).
    apply list_elem_of_omap in Hin as ([n2 c2] & Hin & Heq). apply fmap_Some in Heq as (c0 & _ & [= -> _]). apply list_elem_of_fmap. by exists (n2, c2).
  - apply group_of_Some in E as [-> _]. done.
Qed.

(** C7 (benchmarks): in every profile, a benchmark that is listed under its own name has
    statistics exactly when it has transactions of the profile's category comparable with
    its route, and they are those transactions in order: the ones with that route, or,
    with route conflation, the ones whose route conflates to it. *)
Theorem generateProfiles_benchmarks name cur benchs cl conf ps :
  NoDup benchs.*1 -> Forall (fun b => m_name (tc_meta b.2) = b.1) benchs ->
  generateProfiles name cur benchs cl conf = Ok ps ->
  forall p b, p ∈ ps -> b ∈ benchs ->
    let ts := comparable conf (ts_route (p_current p)) (in_category cl (ts_category (p_current p)) (txnMap b.2).*2) in
    stats_txns <$> od_get String.eqb b.1 (p_benchmarks p) = match ts with [] => None | _ => Some ts end.
Proof.
  intros Hnd Hnames H p b Hp Hb ts.
  destruct (profile_origin _ _ _ _ _ _ p Hnd H Hp) as (k & route & rps & _ & _ & Hs & Hb').
  destruct (stats_of _ _ _ _ _ Hs) as (_ & Hs2 & Hs3 & _). subst ts. rewrite Hs2 Hs3.
  destruct (benchmark_colls_names cl conf k route benchs Hnd Hnames) as [Hn1 Hn2].
  rewrite (benchmark_stats _ _ _ _ _ Hn1 Hn2 Hb' b.1) benchmark_colls_get //.
  by destruct (comparable _ _ _).
Qed.
End Leaves.

(** *** Example: two routes in the current run, one of them in the benchmark *)

#[local] Instance ex_float : PyFloat Z := {|
  f_of_Z z := z; f_add := Z.add; f_sub := Z.sub; f_mul := Z.mul; f_div := Z.div; f_lt := Z.ltb;
  f_is_zero z := z =? 0; f_nan := 0; f_is_nan z := false; f_trunc z := z |}.
#[local] Instance ex_hash : RouteHash := fun ps => Z.of_nat (length ps).

Definition ex_pr_coll (name : string) (l : list (Z * list Counter)) : TxnCollection (Meta Z) :=
  match finalize_all [] ((fun p => (IdInt p.1, mkTransaction (IdInt p.1) p.2 None None None true)) <$> l) with
  | Ok (txns, _) => mkCollection (mkMeta name (mkCpuInfo "cpu" 2000000000 2) [ex_named "a"; ex_named "b"] None []) txns
  | Raise _ => mkCollection (mkMeta name (mkCpuInfo "cpu" 0 1) [] None []) []
  end.
Definition ex_pr_hit (p : string) (t : Z) : Counter := mkCounter "1" (ex_named p) "" t [].
Definition ex_pr_current : TxnCollection (Meta Z) :=
  ex_pr_coll "current run" [(1, [ex_pr_hit "a" 10; ex_pr_hit "b" 14]); (2, [ex_pr_hit "a" 20]);
                            (3, [ex_pr_hit "a" 30; ex_pr_hit "b" 40])].
Definition ex_pr_benchmarks : list (string * TxnCollection (Meta Z)) :=
  [("bm", ex_pr_coll "bm" [(7, [ex_pr_hit "a" 5; ex_pr_hit "b" 6]); (8, [ex_pr_hit "b" 7])])].
Definition ex_profiles : list (Profile Z) :=
  match generateProfiles "app" ex_pr_current ex_pr_benchmarks DefaultClassifier On with Ok ps => ps | Raise _ => [] end.

Lemma generateProfiles_partition_witness :
  generateProfiles "app" ex_pr_current ex_pr_benchmarks DefaultClassifier On = Ok ex_profiles /\
  Forall (profile_holds DefaultClassifier (txnMap ex_pr_current).*2) ex_profiles /\
  (fun p => (p_name p, txnId <$> stats_txns (p_current p))) <$> ex_profiles =
    [("app - Transaction [route - 1]", [IdInt 1; IdInt 3]); ("app - Transaction [route - 2]", [IdInt 2])].
Proof.
  assert (H : generateProfiles "app" ex_pr_current ex_pr_benchmarks DefaultClassifier On = Ok ex_profiles)
    by (vm_compute; reflexivity).
  split; [exact H|]. split; [|vm_compute; reflexivity].
  exact (proj2 (generateProfiles_partition _ _ _ _ _ _ H)).
Defined.

Lemma generateProfiles_benchmarks_witness : exists p b, p ∈ ex_profiles /\ b ∈ ex_pr_benchmarks /\
  (fun ts => txnId <$> ts) <$> (stats_txns <$> od_get String.eqb b.1 (p_benchmarks p)) = Some [IdInt 7].
Proof.
  assert (H : generateProfiles "app" ex_pr_current ex_pr_benchmarks DefaultClassifier On = Ok ex_profiles)
    by (vm_compute; reflexivity).
  exists (nth 0 ex_profiles (mkProfile "" (mkTimelineStats "" (mkCpuInfo "" 0 0) "" (mkRoute [] []) [] [] (mkRepo [] [] [] [])) [])).
  exists (nth 0 ex_pr_benchmarks ("", ex_pr_current)).
  assert (Hp : forall d, nth 0 ex_profiles d ∈ ex_profiles) by (intros d; vm_compute; left).
  assert (Hb : forall d, nth 0 ex_pr_benchmarks d ∈ ex_pr_benchmarks) by (intros d; vm_compute; left).
  split; [apply Hp|]. split; [apply Hb|].
  assert (Hn : NoDup ex_pr_benchmarks.*1) by apply NoDup_singleton.
  assert (Hm : Forall (fun b => m_name (tc_meta b.2) = b.1) ex_pr_benchmarks) by (repeat constructor).
  refine (eq_trans (f_equal (fmap (fun ts => txnId <$> ts))
    (generateProfiles_benchmarks _ _ _ _ _ _ Hn Hm H _ _ (Hp _) (Hb _))) _).
  vm_compute. reflexivity.
Defined.
