(* ===== verification/Histogram.v ===== *)
(** * Latency distributions

    Models the numeric part of report/histogram.py, the histograms of
    profiler/reportgenerator.py and the bundles of elapsed times they are made from
    (analytics/__init__.py).  The rendering options and the legend's numpy statistics are
    left out; a histogram is the list of its labelled series. *)

From S2P Require Import Prelude PyStr Probe Route Txn Aggregate Timeline Analyze.

Section Histogram.
Context {F : Type} {HF : PyFloat F}.

(** ** Buckets *)

Definition py_sum (l : list F) : F := fold_left f_add l (f_of_Z 0).

(** [while bucket <= upperBound]; running out of fuel stands for a loop that has not ended. *)
Fixpoint bucket_loop (fuel : nat) (bucket upperBound size : F) (buckets : list F) : result (list F) :=
  match fuel with
  | O => Raise RecursionError_
  | S fuel =>
      if f_le bucket upperBound
      then bucket_loop fuel (f_add bucket size) upperBound size (buckets ++ [bucket])
      else Ok buckets
  end.

(** [buildBuckets]; [None] when the confidence interval holds no value. *)
Definition buildBuckets (fuel : nat) (series : list F) (bucketCount : Z) : result (option (list F)) :=
  let series := py_sort (fun x y => negb (f_lt y x)) series in
  let confidence := take (Z.to_nat (f_trunc (f_mul (f_div (f_of_Z 95) (f_of_Z 100))
                                       (f_of_Z (Z.of_nat (length series)))))) series in
  match confidence with
  | [] => Ok None
  | _ =>
      mean ← py_div (py_sum confidence) (f_of_Z (Z.of_nat (length confidence)));
      lowerBound ← py_div mean (f_of_Z 2);
      let upperBound := f_mul mean (f_of_Z 2) in
      size ← py_div (f_sub upperBound lowerBound) (f_of_Z bucketCount);
      if f_is_zero size then Ok (Some [])
      else Some <$> bucket_loop fuel lowerBound upperBound size []
  end.

(** ** Distribution *)

(** [bisect.bisect_left]: the loop over [lo] and [hi], whose distance bounds the fuel. *)
Fixpoint bisect_loop (fuel : nat) (a : list F) (x : F) (lo hi : nat) : result nat :=
  if (lo <? hi)%nat then
    match fuel with
    | O => Raise RecursionError_
    | S fuel =>
        let mid := Nat.div2 (lo + hi) in
        y ← py_nth a mid;
        if f_lt y x then bisect_loop fuel a x (S mid) hi else bisect_loop fuel a x lo mid
    end
  else Ok lo.

Definition bisect_left (a : list F) (x : F) : result nat := bisect_loop (length a) a x 0 (length a).

Definition incr (i : nat) (l : list Z) : result (list Z) :=
  v ← py_nth l i; Ok (<[i := v + 1]> l).

(** [buildDistribution]. *)
Definition buildDistribution (buckets : list F) (valueSeries : list F) : result (list Z * Z) :=
  mfor (fun '(values, conflated) x =>
    index ← bisect_left buckets x;
    if (index <? length values)%nat then values ← incr index values; Ok (values, conflated)
    else match values with
         | [] => Raise IndexError_
         | _ => values ← incr (length values - 1) values; Ok (values, conflated + 1)
         end) (replicate (length buckets) 0, 0) valueSeries.

(** [ReportGenerator.generateHistograms], from the names of the collections and the bundles. *)
Definition build_series (names : list string) (buckets : list F) (bundle : list (list F))
    : result (list (string * list Z)) :=
  mfor (fun yaxis '(i, l) =>
    '(values, _) ← buildDistribution buckets l;
    title ← py_nth names i;
    Ok (yaxis ++ [(title, values)])) [] (imap (fun i l => (i, l)) bundle).

Definition generateHistograms (fuel : nat) (names : list string) (bundles : list (string * list (list F)))
    : result (list (string * list (string * list Z))) :=
  mfor (fun hs '(category, bundle) =>
    first ← py_nth bundle 0;
    o ← buildBuckets fuel first 35;
    match o with
    | None | Some [] => Ok hs
    | Some buckets =>
        yaxis ← build_series names buckets bundle;
        Ok (od_set String.eqb category yaxis hs)
    end) [] bundles.

(** ** Bisection *)

(** The first place whose bucket is not below [x]. *)
Fixpoint place (a : list F) (x : F) : nat :=
  match a with [] => 0%nat | y :: a => if f_lt y x then S (place a x) else 0%nat end.

(** Whatever is above a bucket is above the earlier ones. *)
Definition ordered (a : list F) : Prop :=
  forall x i j y z, (i <= j)%nat -> a !! i = Some y -> a !! j = Some z -> f_lt z x = true -> f_lt y x = true.

Lemma place_below a x i y : a !! i = Some y -> (i < place a x)%nat -> f_lt y x = true.
Proof.
  revert i. induction a as [|z a IH]; intros i; [done|]. cbn. destruct (f_lt z x) eqn:E; [|lia].
  destruct i as [|i]; cbn; [by intros [= <-]|]. intros H Hi. apply (IH i H). lia.
Qed.

Lemma place_at a x y : a !! place a x = Some y -> f_lt y x = false.
Proof.
  induction a as [|z a IH]; [done|]. cbn. destruct (f_lt z x) eqn:E; cbn; [exact IH|by intros [= <-]].
Qed.

Lemma place_le a x : (place a x <= length a)%nat.
Proof. induction a as [|y a IH]; cbn; [lia|]. destruct (f_lt y x); lia. Qed.

Lemma place_above a x i y : ordered a -> a !! i = Some y -> (place a x <= i)%nat -> f_lt y x = false.
Proof.
  intros Ho Hi Hle. destruct (f_lt y x) eqn:E; [|done].
  destruct (lookup_lt_is_Some_2 a (place a x)) as [z Hz]; [apply lookup_lt_Some in Hi; lia|].
  pose proof (Ho x _ _ _ _ Hle Hz Hi E) as Hc. by rewrite (place_at _ _ _ Hz) in Hc.
Qed.

Lemma bisect_loop_spec fuel a x lo hi : ordered a ->
  (lo <= place a x <= hi)%nat -> (hi <= length a)%nat -> (hi - lo <= fuel)%nat ->
  bisect_loop fuel a x lo hi = Ok (place a x).
Proof.
  intros Ho. revert lo hi. induction fuel as [|fuel IH]; intros lo hi Hp Hhi Hf; cbn [bisect_loop];
    destruct (Nat.ltb_spec lo hi) as [Hlt|Hge]; try lia; try (f_equal; lia).
  assert (Hmid : (lo <= Nat.div2 (lo + hi) < hi)%nat).
  { rewrite Nat.div2_div. split; [apply Nat.div_le_lower_bound|apply Nat.Div0.div_lt_upper_bound]; lia. }
  destruct (lookup_lt_is_Some_2 a (Nat.div2 (lo + hi))) as [y Hy]; [lia|].
  unfold py_nth. rewrite Hy. cbn [or_raise mbind result_bind]. destruct (f_lt y x) eqn:E.
  - apply IH; [|lia|lia]. split; [|lia]. destruct (decide (place a x <= Nat.div2 (lo + hi))%nat) as [Hle|]; [|lia].
    by rewrite (place_above a x _ y Ho Hy Hle) in E.
  - apply IH; [|lia|lia]. split; [lia|]. destruct (decide (Nat.div2 (lo + hi) < place a x)%nat) as [Hl|]; [|lia].
    by rewrite (place_below a x _ y Hy Hl) in E.
Qed.

Lemma bisect_left_spec a x : ordered a -> bisect_left a x = Ok (place a x).
Proof.
  intros Ho. apply bisect_loop_spec; [done| |lia|lia]. split; [lia|apply place_le].
Qed.

(** ** Properties *)

(** The bucket a value is counted in: values above all the buckets count for the last. *)
Definition bucket_of (buckets : list F) (x : F) : nat := Nat.min (place buckets x) (length buckets - 1).
Definition hits (buckets : list F) (i : nat) (l : list F) : Z :=
  Z.of_nat (length (filter (fun x => bucket_of buckets x = i) l)).

Lemma incr_spec i (l : list Z) v : l !! i = Some v ->
  incr i l = Ok (<[i := v + 1]> l) /\ Zsum (<[i := v + 1]> l) = Zsum l + 1.
Proof.
  intros H. split; [unfold incr, py_nth; by rewrite H|]. revert i H.
  unfold Zsum. induction l as [|w l IH]; intros [|i]; cbn; [done|done|intros [= ->]; lia|].
  intros H. etransitivity; [exact (f_equal (Z.add w) (IH i H))|]. lia.
Qed.

Lemma hits_snoc buckets i l x : hits buckets i (l ++ [x]) = hits buckets i l + (if decide (bucket_of buckets x = i) then 1 else 0).
Proof.
  unfold hits. rewrite filter_app length_app Nat2Z.inj_add. f_equal. rewrite filter_cons filter_nil.
  by destruct (decide _).
Qed.

(** Over ordered buckets, counting never fails, every value is counted
    once, in the first bucket it does not exceed or in the last one, and the values that
    exceed every bucket are counted a second time as conflated. *)
Theorem buildDistribution_spec buckets l : buckets <> [] -> ordered buckets ->
  exists values conflated, buildDistribution buckets l = Ok (values, conflated) /\
    length values = length buckets /\ Zsum values = Z.of_nat (length l) /\
    (forall i, (i < length buckets)%nat -> values !! i = Some (hits buckets i l)) /\
    conflated = Z.of_nat (length (filter (fun x => place buckets x = length buckets) l)).
Proof.
  intros Hne Ho. assert (Hlen : (0 < length buckets)%nat) by (destruct buckets; [done|cbn; lia]).
  induction l as [|x l (values & conflated & H & Hl & Hs & Hv & Hc)] using rev_ind.
  { exists (replicate (length buckets) 0), 0. rewrite length_replicate. split_and!; try done.
    - clear. unfold Zsum. cbn [length]. induction (length buckets); [done|]. cbn [replicate foldr]. lia.
    - intros i Hi. rewrite lookup_replicate. by split. }
  unfold buildDistribution in *. rewrite mfor_app H. cbn [mbind result_bind mfor].
  rewrite (bisect_left_spec _ _ Ho). cbn [mbind result_bind].
  assert (Hb : (bucket_of buckets x < length buckets)%nat) by (unfold bucket_of; lia).
  destruct (incr_spec (bucket_of buckets x) values _ (Hv _ Hb)) as [Hi1 Hi2].
  set (values' := <[bucket_of buckets x := hits buckets (bucket_of buckets x) l + 1]> values) in *.
  assert (Hres : length values' = length buckets /\ Zsum values' = Z.of_nat (length (l ++ [x])) /\
    forall i, (i < length buckets)%nat -> values' !! i = Some (hits buckets i (l ++ [x]))).
  { split_and!; [by rewrite length_insert|rewrite Hi2 Hs length_app /=; lia|]. intros i Hi. rewrite hits_snoc.
    destruct (decide (bucket_of buckets x = i)) as [<-|Hn]; subst values'.
    - rewrite list_lookup_insert_eq //. by rewrite Hl.
    - rewrite list_lookup_insert_ne //. by rewrite Hv // Z.add_0_r. }
  destruct Hres as (H1 & H2 & H3).
  assert (Hc' : Z.of_nat (length (filter (fun x => place buckets x = length buckets) (l ++ [x]))) =
    conflated + if decide (place buckets x = length buckets) then 1 else 0).
  { rewrite filter_app length_app Nat2Z.inj_add -Hc. f_equal. rewrite filter_cons filter_nil. by destruct (decide _). }
  pose proof (place_le buckets x) as Hle. unfold bucket_of in Hi1.
  destruct (Nat.ltb_spec (place buckets x) (length values)) as [Hlt|Hge].
  - rewrite (Nat.min_l (place buckets x)) in Hi1; [lia|]. rewrite Hi1. cbn [mbind result_bind].
    exists values', conflated. split_and!; try done. rewrite Hc' decide_False; lia.
  - rewrite (Nat.min_r (place buckets x)) in Hi1; [lia|].
    destruct values as [|v vs]; [cbn in *; lia|]. rewrite Hl Hi1. cbn [mbind result_bind].
    exists values', (conflated + 1). split_and!; try done. rewrite Hc' decide_True; [lia|done].
Qed.

(** *** Bundles *)

Lemma groupElapsedTime_distinct {M} (cpu : CpuInfo F) (sc : TxnSubCollection M) cl m :
  groupElapsedTime cpu sc cl = Ok m -> distinct_keys String.eqb m.
Proof.
  unfold groupElapsedTime. apply mfor_inv; [|constructor]. intros g t g' _ Hg H.
  destruct (counters t) as [|c cs]; [by injection H as <-|].
  apply bind_Ok in H as (e & _ & H). apply bind_Ok in H as (x & _ & H). unfold addOrUpdateContainer in H.
  apply bind_Ok in H as (k & _ & [= <-]).
  destruct (od_mem String.eqb k g); [by apply od_alter_distinct|by apply od_set_distinct].
Qed.

Lemma add_bundles_first (m : list (string * list F)) b : distinct_keys String.eqb (b ++ ((fun p => (p.1, [p.2])) <$> m)) ->
  fold_left (add_bundle 0) m b = b ++ ((fun p => (p.1, [p.2])) <$> m).
Proof.
  revert b. induction m as [|[k l] m IH]; intros b Hd; [by rewrite app_nil_r|]. cbn [fold_left].
  assert (Hn : od_get String.eqb k b = None).
  { clear -Hd. induction b as [|[k1 v] b IH]; [done|]. cbn in Hd |- *. inversion Hd as [|? ? Hne Hd']; subst.
    forall_elim Hne. specialize (Hne (k, [l])). cbn in Hne. rewrite Hne; [apply elem_of_app; right; left|by apply IH]. }
  assert (E : add_bundle 0 b (k, l) = b ++ [(k, [l])]).
  { unfold add_bundle. rewrite (proj2 (od_mem_false _ _ _) Hn) /=. by apply od_set_fresh. }
  rewrite E IH; rewrite -app_assoc; [exact Hd|done].
Qed.

Lemma add_bundle_later i (b : list (string * list (list F))) k l k' : distinct_keys String.eqb b ->
  od_get String.eqb k' (add_bundle (S i) b (k, l)) =
    (if String.eqb k k' then (fun x => x ++ [l]) <$> od_get String.eqb k' b else od_get String.eqb k' b) /\
  distinct_keys String.eqb (add_bundle (S i) b (k, l)).
Proof.
  intros Hd. unfold add_bundle. cbn [Nat.eqb]. destruct (od_mem String.eqb k b) eqn:E.
  - split; [by rewrite od_get_alter|by apply od_alter_distinct].
  - split; [|done]. apply od_mem_false in E. destruct (String.eqb_spec k k') as [<-|]; [by rewrite E|done].
Qed.

Lemma add_bundles_later i (m : list (string * list F)) b : distinct_keys String.eqb b -> distinct_keys String.eqb m ->
  distinct_keys String.eqb (fold_left (add_bundle (S i)) m b) /\
  forall k, od_get String.eqb k (fold_left (add_bundle (S i)) m b) =
    (fun x => x ++ option_list (od_get String.eqb k m)) <$> od_get String.eqb k b.
Proof.
  intros Hb Hm. revert b Hb. induction Hm as [|[k l] m Hne Hm IH]; intros b Hb.
  { split; [done|]. intros k. cbn. destruct (od_get String.eqb k b); cbn; by rewrite ?app_nil_r. }
  cbn [fold_left]. destruct (add_bundle_later i b k l k Hb) as [_ Hd]. destruct (IH _ Hd) as [H1 H2].
  split; [done|]. intros k'. rewrite H2 (proj1 (add_bundle_later i b k l k' Hb)). cbn [od_get].
  destruct (String.eqb_spec k k') as [<-|Hn].
  - rewrite String.eqb_refl. assert (od_get String.eqb k m = None) as ->.
    { apply od_get_None, Forall_forall. intros k1 Hk1. apply list_elem_of_fmap in Hk1 as (p & -> & Hp).
      forall_elim Hne. specialize (Hne p Hp). cbn in Hne. apply String.eqb_neq in Hne. apply String.eqb_neq. congruence. }
    destruct (od_get String.eqb k b); cbn; by rewrite ?app_nil_r.
  - by rewrite (proj2 (String.eqb_neq k' k) (not_eq_sym Hn)).
Qed.

Lemma bundles_rest {HH : RouteHash} cl (colls : list (TxnCollection (Meta F))) (f : nat -> nat) b bundles :
  (forall i, exists j, f i = S j) -> distinct_keys String.eqb b ->
  mfor (fun bundles '(i, c) =>
    m ← groupElapsedTime (m_cpuInfo (tc_meta c)) (getSubCollection c) cl;
    match m with
    | [] => if (i =? 0)%nat then Raise Exception_ else Ok bundles
    | _ => Ok (fold_left (add_bundle i) m bundles)
    end) b (imap (fun i c => (f i, c)) colls) = Ok bundles ->
  exists ms, mmap (fun c => groupElapsedTime (m_cpuInfo (tc_meta c)) (getSubCollection c) cl) colls = Ok ms /\
    forall k, od_get String.eqb k bundles = (fun x => x ++ omap (od_get String.eqb k) ms) <$> od_get String.eqb k b.
Proof.
  revert f b. induction colls as [|c colls IH]; intros f b Hf Hd.
  { intros [= <-]. exists []. split; [done|]. intros k. destruct (od_get String.eqb k b); cbn; by rewrite ?app_nil_r. }
  rewrite imap_cons. cbn [mfor mmap]. intros H. apply bind_Ok in H as (b1 & H1 & H).
  apply bind_Ok in H1 as (m & Hm & H1). rewrite Hm. cbn [mbind result_bind]. destruct (Hf 0%nat) as [j Hj]. rewrite Hj in H1.
  destruct (add_bundles_later j m b Hd (groupElapsedTime_distinct _ _ _ _ Hm)) as [Hd1 Hg].
  assert (Hb1 : b1 = fold_left (add_bundle (S j)) m b) by (destruct m; by injection H1 as <-).
  rewrite -Hb1 in Hd1 Hg. destruct (IH (fun i => f (S i)) b1 (fun i => Hf (S i)) Hd1 H) as (ms & -> & Hms).
  exists (m :: ms). split; [done|]. intros k. rewrite Hms Hg. destruct (od_get String.eqb k b); [|done]. cbn.
  rewrite -app_assoc. do 2 f_equal. by destruct (od_get String.eqb k m).
Qed.

(** The bundle of a category of the current run lists the elapsed times of
    every collection that has the category, in order; collections without it leave no
    gap, and categories of benchmarks alone are dropped. *)
Theorem buildElapsedTimeBundles_spec {HH : RouteHash} (colls : list (TxnCollection (Meta F))) cl bundles :
  buildElapsedTimeBundles colls cl = Ok bundles ->
  exists ms, mmap (fun c => groupElapsedTime (m_cpuInfo (tc_meta c)) (getSubCollection c) cl) colls = Ok ms /\
    forall k, od_get String.eqb k bundles =
      match ms with
      | [] => None
      | m :: _ => match od_get String.eqb k m with None => None | Some _ => Some (omap (od_get String.eqb k) ms) end
      end.
Proof.
  unfold buildElapsedTimeBundles. destruct colls as [|c colls]; [by intros [= <-]; exists []|].
  rewrite imap_cons. cbn [mfor mmap]. intros H. apply bind_Ok in H as (b0 & H0 & H).
  apply bind_Ok in H0 as (m0 & Hm0 & H0). rewrite Hm0. cbn [mbind result_bind].
  pose proof (groupElapsedTime_distinct _ _ _ _ Hm0) as Hd0.
  assert (Hd : distinct_keys String.eqb ((fun p : string * list F => (p.1, [p.2])) <$> m0)).
  { apply (distinct_keys_transfer String.eqb m0); [|exact Hd0]. by rewrite -list_fmap_compose. }
  assert (Hb0 : b0 = (fun p => (p.1, [p.2])) <$> m0).
  { destruct m0 as [|p m0]; [done|]. injection H0 as <-. exact (add_bundles_first (p :: m0) [] Hd). }
  clear H0. subst b0. destruct (bundles_rest cl colls S _ bundles (fun i => ex_intro _ i eq_refl) Hd H) as (ms & -> & Hms).
  exists (m0 :: ms). split; [done|]. intros k. rewrite Hms. clear.
  assert (E : od_get String.eqb k ((fun p : string * list F => (p.1, [p.2])) <$> m0) = (fun l => [l]) <$> od_get String.eqb k m0).
  { induction m0 as [|[k1 l] m0 IH]; [done|]. cbn. by destruct (String.eqb k k1). }
  rewrite E. cbn. by destruct (od_get String.eqb k m0).
Qed.
End Histogram.

(** *** Examples *)

(** Fixed-point numbers with three digits. *)
#[local] Instance ex_milli : PyFloat Z := {|
  f_of_Z z := 1000 * z; f_add := Z.add; f_sub := Z.sub; f_mul x y := x * y / 1000; f_div x y := x * 1000 / y;
  f_lt := Z.ltb; f_is_zero z := z =? 0; f_nan := 0; f_is_nan z := false; f_trunc z := z / 1000 |}.
#[local] Instance ex_hash : RouteHash := fun ps => Z.of_nat (length ps).

Lemma buildDistribution_spec_witness : exists values conflated,
  buildDistribution [10; 20; 30] [5; 10; 11; 99; 31] = Ok (values, conflated) /\ Zsum values = 5 /\ conflated = 2.
Proof.
  assert (Ho : ordered [10; 20; 30]).
  { intros x i j y z Hij Hi Hj. cbn. rewrite !Z.ltb_lt.
    destruct i as [|[|[|i]]]; try done; injection Hi as <-; destruct j as [|[|[|j]]]; try done; injection Hj as <-; lia. }
  destruct (buildDistribution_spec [10; 20; 30] [5; 10; 11; 99; 31]) as (v & c & H & _ & Hs & _ & Hc); [done|exact Ho|].
  exists v, c. split; [exact H|]. split; [exact Hs|]. rewrite Hc. vm_compute. reflexivity.
Defined.

(** Transactions of two probes, named by the data of the first. *)
Definition ex_h_coll (name : string) (l : list (Z * string * Z)) : TxnCollection (Meta Z) :=
  match finalize_all [] ((fun p => let '(id, d, t) := p in
      (IdInt id, mkTransaction (IdInt id) [mkCounter "1" (ex_named "a") d 0 []; mkCounter "1" (ex_named "b") "" t []]
        None None None true)) <$> l) with
  | Ok (txns, _) => mkCollection (mkMeta name (mkCpuInfo "cpu" 0 1000) [] None []) txns
  | Raise _ => mkCollection (mkMeta name (mkCpuInfo "cpu" 0 1000) [] None []) []
  end.
Definition ex_h_classifier : Classifier := ProbeDataClassifier (ex_named "a") (fun o => default "?" o).
Definition ex_h_colls : list (TxnCollection (Meta Z)) :=
  [ex_h_coll "current run" [(1, "buy", 10); (2, "sell", 20); (3, "buy", 12)]; ex_h_coll "monday" [(1, "sell", 21)];
   ex_h_coll "tuesday" [(1, "buy", 12); (2, "sell", 22)]].
Definition ex_bundles : list (string * list (list Z)) :=
  match buildElapsedTimeBundles ex_h_colls ex_h_classifier with Ok b => b | Raise _ => [] end.

Lemma buildElapsedTimeBundles_spec_witness : exists ms,
  mmap (fun c => groupElapsedTime (m_cpuInfo (tc_meta c)) (getSubCollection c) ex_h_classifier) ex_h_colls = Ok ms /\
  od_get String.eqb "buy" ex_bundles = Some [[10000; 12000]; [12000]] /\ length ms = 3%nat.
Proof.
  assert (H : buildElapsedTimeBundles ex_h_colls ex_h_classifier = Ok ex_bundles) by (vm_compute; reflexivity).
  destruct (buildElapsedTimeBundles_spec ex_h_colls ex_h_classifier ex_bundles H) as (ms & Hms & _).
  exists ms. split; [exact Hms|]. split; [vm_compute; reflexivity|]. vm_compute in Hms. by injection Hms as <-.
Defined.

(** The series of a histogram are labelled by the first collections of the
    report, not by the collections they come from: here monday has no transaction of the
    category, and the distribution of tuesday is shown under monday's name. *)
Theorem generateHistograms_mislabels : exists hs yaxis,
  generateHistograms 100 (m_name ∘ tc_meta <$> ex_h_colls) ex_bundles = Ok hs /\
  od_get String.eqb "buy" hs = Some yaxis /\ yaxis.*1 = ["current run"; "monday"] /\
  (fun c => (m_name (tc_meta c),
             od_get String.eqb "buy" <$> groupElapsedTime (m_cpuInfo (tc_meta c)) (getSubCollection c) ex_h_classifier))
    <$> ex_h_colls =
    [("current run", Ok (Some [10000; 12000])); ("monday", Ok None); ("tuesday", Ok (Some [12000]))].
Proof. eexists _, _. split; [vm_compute; reflexivity|]. split; [vm_compute; reflexivity|]. split; vm_compute; reflexivity. Qed.
