(* ===== verification/TimelineTree.v ===== *)
(** * Timeline trees

    Models analytics/timelineTree.py: the hierarchical view of a timeline.  The recursion
    descends into groups of points; [fuel] bounds its depth, and the length of the
    timeline is enough. *)

From S2P Require Import Prelude PyStr Probe Route Txn Timeline.

Section TimelineTree.
Context {F : Type} {HF : PyFloat F}.

Inductive TimelineNode :=
  | Node (name : string) (children : list TimelineNode)
  | Leaf (name : string) (value : F).

Definition range_name (a b : TimePoint F) : string := String.append (tp_name a) (String.append " - " (tp_name b)).

(** [not threshold] *)
Definition truthy_float (o : option F) : option F :=
  match o with Some x => if f_is_zero x then None else Some x | None => None end.

(** The loop variables: the children of [node], [groupBegin] and [duration]. *)
Record TreeState := mkTreeState { t_children : list TimelineNode; t_groupBegin : nat; t_duration : F }.

Section Build.
Context (points : list (TimePoint F)) (total : F) (childCount : nat).

(** The body of the loop; [group] is the recursive call. *)
Definition tree_step (group : F -> nat -> nat -> result (list TimelineNode)) (threshold : F) (end_ : nat)
    (s : TreeState) (i : nat) : result TreeState :=
  timepoint ← py_nth points i;
  let duration := f_add (t_duration s) (tp_duration timepoint) in
  let canGroup := (Z.of_nat childCount - Z.of_nat (length (t_children s)) <? Z.of_nat end_ - Z.of_nat i) in
  if (f_le threshold duration || negb canGroup)%bool then
    next ← py_nth points (S i);
    child ← (if canGroup
             then first ← py_nth points (t_groupBegin s);
                  share ← py_div duration (f_of_Z (Z.of_nat childCount));
                  children ← group share (t_groupBegin s) (S i);
                  Ok (Node (range_name first next) children)
             else Ok (Leaf (range_name timepoint next) (tp_duration timepoint)));
    Ok (mkTreeState (t_children s ++ [child]) (S i) (f_of_Z 0))
  else Ok (mkTreeState (t_children s) (t_groupBegin s) duration).

(** [buildTimelineTree] on a range; the children of the node it fills. *)
Fixpoint build_range (fuel : nat) (threshold : option F) (begin end_ : nat) : result (list TimelineNode) :=
  match fuel with
  | O => Raise RecursionError_
  | S fuel =>
      threshold ← (match truthy_float threshold with
                   | Some x => Ok x
                   | None => py_div total (f_of_Z (Z.of_nat childCount))
                   end);
      s ← mfor (tree_step (fun share b e => build_range fuel (Some share) b e) threshold end_)
            (mkTreeState [] begin (f_of_Z 0)) (seq begin (end_ - begin));
      Ok (t_children s)
  end.
End Build.

Definition buildTimelineTree (fuel childCount : nat) (timeline : Timeline F) : result TimelineNode :=
  total ← tl_duration timeline;
  let points := tl_points timeline in
  children ← build_range points total childCount fuel None 0 (length points - 1);
  Ok (Node "root" children).

(** ** Properties *)

(** The leaves of a tree, in order. *)
Fixpoint tree_leaves (t : TimelineNode) : list (string * F) :=
  match t with
  | Leaf name value => [(name, value)]
  | Node _ children => children ≫= tree_leaves
  end.

(** The steps of a timeline: each point with the name of the next one. *)
Definition steps (points : list (TimePoint F)) (begin n : nat) : list (string * F) :=
  omap (fun i => a ← points !! i; b ← points !! S i; Some (range_name a b, tp_duration a)) (seq begin n).

Lemma steps_app points b n m : steps points b (n + m) = steps points b n ++ steps points (b + n) m.
Proof. unfold steps. by rewrite seq_app omap_app. Qed.

Section Total.
Context (points : list (TimePoint F)) (total : F) (childCount : nat).
Context (Hpos : (0 < childCount)%nat).
Context (Hdiv : f_is_zero (f_of_Z (Z.of_nat childCount)) = false).

Lemma share_total (x : F) : exists y, py_div x (f_of_Z (Z.of_nat childCount)) = Ok y.
Proof. unfold py_div. rewrite Hdiv. by eexists. Qed.

(** What holds after the points before [i]: the leaves so far are steps of the prefix, and
    no group starts at [begin] any more once there are children. *)
Definition tree_inv (begin i : nat) (s : TreeState) : Prop :=
  (begin <= t_groupBegin s <= i)%nat /\
  (t_children s = [] -> t_groupBegin s = begin) /\ (t_children s <> [] -> (begin < t_groupBegin s)%nat) /\
  (t_children s ≫= tree_leaves) `sublist_of` steps points begin (t_groupBegin s - begin).

Lemma tree_step_total group threshold begin end_ s i :
  (S end_ <= length points)%nat -> (begin <= i < end_)%nat -> tree_inv begin i s ->
  (forall share b e, (begin <= b < e)%nat -> (e <= end_)%nat -> (e - b < end_ - begin)%nat ->
     exists cs, group share b e = Ok cs /\ (cs ≫= tree_leaves) `sublist_of` steps points b (e - b)) ->
  exists s', tree_step points childCount group threshold end_ s i = Ok s' /\ tree_inv begin (S i) s'.
Proof.
  intros Hend Hi (Hgb & Hnil & Hcons & Hsub) Hgroup. unfold tree_step, py_nth.
  destruct (lookup_lt_is_Some_2 points i) as [tp Htp]; [lia|].
  destruct (lookup_lt_is_Some_2 points (S i)) as [next Hnext]; [lia|].
  rewrite Htp Hnext. cbn [or_raise mbind result_bind].
  assert (Hstep : steps points i 1 = [(range_name tp next, tp_duration tp)]) by (unfold steps; cbn; by rewrite Htp Hnext).
  assert (Hall : steps points begin (S i - begin) = steps points begin (t_groupBegin s - begin) ++
    steps points (t_groupBegin s) (S i - t_groupBegin s)).
  { replace (S i - begin)%nat with ((t_groupBegin s - begin) + (S i - t_groupBegin s))%nat by lia.
    rewrite steps_app. do 2 f_equal. lia. }
  destruct (_ || _)%bool; [|eexists; split; [done|]; split_and!; cbn; [lia|lia|done|done|done]].
  destruct (_ <? _) eqn:Ecan; bool_facts.
  - destruct (lookup_lt_is_Some_2 points (t_groupBegin s)) as [first Hfirst]; [lia|]. rewrite Hfirst.
    cbn [or_raise mbind result_bind].
    destruct (share_total (f_add (t_duration s) (tp_duration tp))) as [share Hshare]. rewrite Hshare.
    cbn [mbind result_bind]. destruct (Hgroup share (t_groupBegin s) (S i)) as (cs & Hcs & Hsubs); [lia|lia| |].
    { destruct (t_children s) as [|c cs] eqn:Ec; [cbn in Ecan; lia|]. specialize (Hcons ltac:(done)). lia. }
    rewrite Hcs. cbn [mbind result_bind]. eexists. split; [done|]. split_and!; cbn [t_children t_groupBegin]; [lia|lia| | |].
    + intros H. by apply app_nil in H as [_ ?].
    + lia.
    + rewrite bind_app Hall. cbn [mbind list_bind tree_leaves]. rewrite app_nil_r. by apply sublist_app.
  - eexists. split; [done|]. split_and!; cbn [t_children t_groupBegin]; [lia|lia| | |].
    + intros H. by apply app_nil in H as [_ ?].
    + lia.
    + rewrite bind_app Hall. cbn [mbind list_bind tree_leaves]. apply sublist_app; [done|].
      replace (S i - t_groupBegin s)%nat with ((i - t_groupBegin s) + 1)%nat by lia. rewrite steps_app.
      replace (t_groupBegin s + (i - t_groupBegin s))%nat with i by lia. rewrite Hstep. by apply sublist_inserts_l.
Qed.

Lemma build_range_total fuel threshold begin end_ :
  (S end_ <= length points)%nat -> (begin <= end_)%nat -> (end_ - begin < fuel)%nat ->
  exists cs, build_range points total childCount fuel threshold begin end_ = Ok cs /\
    (cs ≫= tree_leaves) `sublist_of` steps points begin (end_ - begin).
Proof.
  revert threshold begin end_. induction fuel as [|fuel IH]; intros threshold begin end_ Hend Hb Hf; [lia|].
  cbn [build_range]. assert (exists x, match truthy_float threshold with Some x => Ok x
    | None => py_div total (f_of_Z (Z.of_nat childCount)) end = Ok x) as [x Hx].
  { destruct (truthy_float threshold); [by eexists|apply share_total]. }
  rewrite Hx. cbn [mbind result_bind].
  assert (Hloop : forall n b s, (begin <= b)%nat -> (b + n <= end_)%nat -> tree_inv begin b s ->
    exists s', mfor (tree_step points childCount (fun share b e =>
      build_range points total childCount fuel (Some share) b e) x end_) s (seq b n) = Ok s' /\ tree_inv begin (b + n) s').
  { induction n as [|n IHn]; intros b s Hbb Hn Hinv; cbn [seq mfor]; [exists s; split; [done|by rewrite Nat.add_0_r]|].
    destruct (tree_step_total (fun share b e => build_range points total childCount fuel (Some share) b e) x begin end_ s b)
      as (s1 & -> & Hinv1); [done|lia|done| |].
    { intros share b' e Hbe He Hlt. apply IH; lia. }
    cbn [mbind result_bind]. rewrite -Nat.add_succ_comm. apply IHn; [lia|lia|done]. }
  destruct (Hloop (end_ - begin)%nat begin (mkTreeState [] begin (f_of_Z 0))) as (s' & -> & Hgb & _ & _ & Hsub); [lia|lia| |].
  { split_and!; cbn; [lia|lia|done|done|]. apply sublist_nil_l. }
  exists (t_children s'). split; [done|]. etransitivity; [exact Hsub|].
  replace (end_ - begin)%nat with ((t_groupBegin s' - begin) + (end_ - t_groupBegin s'))%nat by lia.
  rewrite steps_app. by apply sublist_inserts_r.
Qed.
End Total.

(** Building the tree always ends, with as much fuel as the timeline
    has points, and its leaves are steps of the timeline, each shown at most once and in
    order. *)
Theorem buildTimelineTree_leaves childCount (timeline : Timeline F) e :
  (0 < childCount)%nat -> f_is_zero (f_of_Z (Z.of_nat childCount)) = false ->
  tl_endpoint timeline = Some e -> tl_points timeline <> [] ->
  exists t, buildTimelineTree (length (tl_points timeline)) childCount timeline = Ok t /\
    tree_leaves t `sublist_of` steps (tl_points timeline) 0 (length (tl_points timeline) - 1).
Proof.
  intros Hpos Hdiv He Hne. unfold buildTimelineTree, tl_duration. rewrite He. cbn [mbind result_bind].
  assert (0 < length (tl_points timeline))%nat by (destruct (tl_points timeline); [done|cbn; lia]).
  destruct (build_range_total (tl_points timeline) (tp_duration e) childCount Hpos Hdiv
    (length (tl_points timeline)) None 0 (length (tl_points timeline) - 1)) as (cs & -> & Hsub); [lia|lia|lia|].
  exists (Node "root" cs). split; [done|]. by rewrite Nat.sub_0_r in Hsub.
Qed.
End TimelineTree.

(** *** Examples *)

#[local] Instance ex_float : PyFloat Z := {|
  f_of_Z z := z; f_add := Z.add; f_sub := Z.sub; f_mul := Z.mul; f_div := Z.div; f_lt := Z.ltb;
  f_is_zero z := z =? 0; f_nan := 0; f_is_nan z := false; f_trunc z := z |}.

Definition ex_tree_point (p : string * Z) : TimePoint Z := mkTimePoint p.1 0 p.2 None None None None.
Definition ex_tree_timeline (l : list (string * Z)) : Timeline Z :=
  mkTimeline (mkTransaction (IdInt 1) [] None None None true) 0 (IdInt 1) (ex_tree_point <$> l)
    (Some (ex_tree_point ("end", Zsum l.*2))) None.
Definition ex_steps : list (string * Z) :=
  [("a", 40); ("b", 30); ("c", 25); ("d", 5); ("e", 60); ("f", 40); ("g", 0)].

Lemma buildTimelineTree_leaves_witness : exists t,
  buildTimelineTree 7 4 (ex_tree_timeline ex_steps) = Ok t /\
  tree_leaves t `sublist_of` steps (tl_points (ex_tree_timeline ex_steps)) 0 6.
Proof.
  apply (buildTimelineTree_leaves 4 (ex_tree_timeline ex_steps) (ex_tree_point ("end", Zsum ex_steps.*2)));
    [lia|reflexivity|reflexivity|discriminate].
Defined.

(** The leaves need not add up to the timeline: when short steps
    are pending and a leaf has to be made for lack of points, the leaf takes the name and
    the duration of the last step only and the pending ones are not shown at all. *)
Theorem buildTimelineTree_drops_steps : exists t,
  buildTimelineTree 7 4 (ex_tree_timeline [("a", 1); ("b", 1); ("c", 1); ("d", 1); ("e", 1); ("f", 10); ("g", 0)]) = Ok t /\
  tree_leaves t = [("c - d", 1); ("d - e", 1); ("e - f", 1); ("f - g", 10)].
Proof. eexists. split; vm_compute; reflexivity. Qed.
