(* ===== verification/Pmu.v ===== *)
(** * Pmu requests

    Models pmu/uarchEvent.py, pmu/request.py, pmu/allocator.py, the [EventSet] of
    pmu/event.py and the request building of pmu/pmuctrl.py: from the pmu events of a
    profile to the bytes written to the kernel module.

    A byte string is a list of integers; [struct.pack] with '=' packs little endian on
    the processors the program supports.  A set of counter indices is its ascending list,
    the order in which CPython iterates over a set of small integers. *)

From S2P Require Import Prelude PyStr Probe Route Txn Timeline.

(** ** Micro architectural events *)

Inductive EventType := GenericCore | FixedCore | OffCore.

#[export] Instance EventType_eq_dec : EqDecision EventType.
Proof. solve_decision. Defined.

(** The event select codes of an off core event form a list until a request picks one. *)
Inductive Select := SelCode (v : Z) | SelCodes (l : list Z).

(** A set of counters, or the index of a fixed counter. *)
Inductive PmcSpec := PmcSet (l : list Z) | PmcFixed (i : Z).

(** The attributes of [GenericCoreEvent] and its subclasses, all [None] at first. *)
Record UArchEvent := mkUArchEvent {
  eventType : EventType;
  u_name : option string;
  eventSelect : option Select;
  unitMask : option Z;
  counterMask : option Z;
  invert : option bool;
  briefDescription : option string;
  description : option string;
  validSmtPmc_ : option PmcSpec;
  validPmc_ : option PmcSpec;
  msrIndex : option string;
  msrValue : option Z;
  anyThread : option Z;
  edgeDetect : option bool;
  pebs : option bool;
  takenAlone : option bool;
  dataLA : option bool;
  l1HitIndication : option bool;
  errata : option string
}.

Definition UArchEvent_init (t : EventType) : UArchEvent :=
  mkUArchEvent t None None None None None None None None None None None None None None None None None None.

Definition truthy_pmc (o : option PmcSpec) : bool :=
  match o with
  | None | Some (PmcSet []) => false
  | Some (PmcSet _) => true
  | Some (PmcFixed i) => negb (i =? 0)
  end.

(** The property [validPmc]. *)
Definition validPmc (e : UArchEvent) : option PmcSpec :=
  if truthy_pmc (validPmc_ e) then validPmc_ e else validSmtPmc_ e.

Definition missing {A} (o : option A) : bool := match o with None => true | Some _ => false end.

Definition unInitialized (e : UArchEvent) : bool :=
  (missing (u_name e) || missing (eventSelect e) || missing (unitMask e) || missing (counterMask e)
   || missing (invert e) || missing (briefDescription e) || missing (description e) || missing (validPmc e)
   || missing (msrIndex e) || missing (msrValue e) || missing (anyThread e) || missing (edgeDetect e)
   || missing (pebs e))%bool.

Definition need {A} (o : option A) : result A := or_raise TypeError_ o.
Definition b2z (b : bool) : Z := if b then 1 else 0.

(** [rawValue] of an event with a single select code. *)
Definition rawValue (e : UArchEvent) : result Z :=
  sel ← need (eventSelect e);
  sel ← (match sel with SelCode v => Ok v | SelCodes _ => Raise TypeError_ end);
  um ← need (unitMask e);
  let val := Z.lor sel (Z.shiftl um 8) in
  ed ← need (edgeDetect e); let val := Z.lor val (Z.shiftl (b2z ed) 18) in
  at_ ← need (anyThread e); let val := Z.lor val (Z.shiftl at_ 21) in
  cm ← need (counterMask e); let val := Z.lor val (Z.shiftl cm 24) in
  inv ← need (invert e); Ok (Z.lor val (Z.shiftl (b2z inv) 23)).

(** [canUse]: membership in a fixed counter's index is a TypeError. *)
Definition canUse (e : UArchEvent) (counterIndex : Z) : result bool :=
  match validPmc e with
  | Some (PmcSet l) => Ok (bool_decide (counterIndex ∈ l))
  | _ => Raise TypeError_
  end.

(** ** Packing *)

Definition pack_B (v : Z) : result (list Z) :=
  if (0 <=? v) && (v <? 256) then Ok [v] else Raise StructError_.
Definition pack_opt_B (o : option Z) : result (list Z) :=
  match o with Some v => pack_B v | None => Raise StructError_ end.

Definition pack_Q (o : option Z) : result (list Z) :=
  match o with
  | Some v => if (0 <=? v) && (v <? 2 ^ 64) then Ok (le_bytes 8 v) else Raise StructError_
  | None => Raise StructError_
  end.

Definition concat_packs (l : list (result (list Z))) : result (list Z) :=
  mfor (fun acc r => b ← r; Ok (acc ++ b)) [] l.

(** ** Requests *)

Record GenericPmuRequest := mkGeneric { g_name : string; g_event : UArchEvent; g_user : bool; g_kernel : bool }.
Record OffcorePmuRequest := mkOffcore { o_name : string; o_event : UArchEvent }.
Record FixedPmuRequest := mkFixed { f_name : string; f_uarchName : option string; ctrIndex : option PmcSpec;
                                    f_user : bool; f_kernel : bool }.

Definition GenericPmuRequest_init (name : string) (e : UArchEvent) (user kernel : bool) : result GenericPmuRequest :=
  if negb (nonempty name) then Raise Exception_
  else if (negb user && negb kernel)%bool then Raise Exception_
  else Ok (mkGeneric name e user kernel).
Definition OffcorePmuRequest_init (name : string) (e : UArchEvent) : result OffcorePmuRequest :=
  if negb (nonempty name) then Raise Exception_ else Ok (mkOffcore name e).
Definition FixedPmuRequest_init (name : string) (e : UArchEvent) (user kernel : bool) : result FixedPmuRequest :=
  if (negb user && negb kernel)%bool then Raise Exception_
  else Ok (mkFixed name (u_name e) (validPmc e) user kernel).

Definition generic_mask (r : GenericPmuRequest) : result (list Z) :=
  let e := g_event r in
  concat_packs [pack_opt_B (match eventSelect e with Some (SelCode v) => Some v | _ => None end);
                pack_opt_B (unitMask e); pack_B (b2z (g_user r)); pack_B (b2z (g_kernel r));
                pack_opt_B (b2z <$> invert e); pack_opt_B (counterMask e); pack_opt_B (b2z <$> edgeDetect e);
                pack_opt_B (anyThread e)].
Definition generic_default : list Z := [0; 0; 0; 0; 0; 0; 0; 0].
Definition offcore_mask (r : OffcorePmuRequest) : result (list Z) := pack_Q (msrValue (o_event r)).
Definition offcore_default : list Z := [0; 0; 0; 0; 0; 0; 0; 0].
Definition fixed_mask (r : FixedPmuRequest) : result (list Z) :=
  concat_packs [pack_opt_B (match ctrIndex r with Some (PmcFixed i) => Some i | _ => None end);
                pack_B (b2z (f_user r)); pack_B (b2z (f_kernel r))].
Definition fixed_default : list Z := [0; 0; 0].

(** ** Event sets *)

Record EventSet := mkEventSet {
  cpuSet : list Z;
  genericRequests : list GenericPmuRequest;
  offcoreRequests : list OffcorePmuRequest;
  fixedRequests : list FixedPmuRequest
}.
Definition EventSet_init (cpus : list Z) : EventSet := mkEventSet cpus [] [] [].

(** The key of the sort; a fixed request has a fixed counter. *)
Definition fixed_key (r : FixedPmuRequest) : Z := match ctrIndex r with Some (PmcFixed i) => i | _ => 0 end.

Definition addFixedPmuRequest (r : FixedPmuRequest) (s : EventSet) : result EventSet :=
  if (3 <=? length (fixedRequests s))%nat then Raise Exception_
  else Ok (mkEventSet (cpuSet s) (genericRequests s) (offcoreRequests s)
             (py_sort (key_leb fixed_key) (fixedRequests s ++ [r]))).
Definition addGenericPmuRequest (r : GenericPmuRequest) (s : EventSet) : result EventSet :=
  if (8 <=? length (genericRequests s))%nat then Raise Exception_
  else Ok (mkEventSet (cpuSet s) (genericRequests s ++ [r]) (offcoreRequests s) (fixedRequests s)).
Definition addOffcorePmuRequest (r : OffcorePmuRequest) (s : EventSet) : result EventSet :=
  if (2 <=? length (offcoreRequests s))%nat then Raise Exception_
  else Ok (mkEventSet (cpuSet s) (genericRequests s) (offcoreRequests s ++ [r]) (fixedRequests s)).

Definition eventset_len (s : EventSet) : nat := (length (genericRequests s) + length (fixedRequests s))%nat.

(** ** The request factory *)

Inductive Request := RGeneric (r : GenericPmuRequest) | ROffcore (r : OffcorePmuRequest) | RFixed (r : FixedPmuRequest).

Definition OFFCORE_SELECTS : list Z := [183; 187].

(** The deep copy of an off core event with its select code. *)
Definition with_select (e : UArchEvent) (v : Z) : UArchEvent :=
  mkUArchEvent (eventType e) (u_name e) (Some (SelCode v)) (unitMask e) (counterMask e) (invert e)
    (briefDescription e) (description e) (validSmtPmc_ e) (validPmc_ e) (msrIndex e) (msrValue e)
    (anyThread e) (edgeDetect e) (pebs e) (takenAlone e) (dataLA e) (l1HitIndication e) (errata e).

(** [buildOffCoreRequests], with the count of off core events so far. *)
Definition buildOffCoreRequests (name : string) (e : UArchEvent) (user kernel : bool) (n : nat)
    : result (list Request * nat) :=
  if (length OFFCORE_SELECTS <=? n)%nat then Raise Exception_
  else
    sel ← py_nth OFFCORE_SELECTS n;
    let oe := with_select e sel in
    g ← GenericPmuRequest_init name oe user kernel;
    o ← OffcorePmuRequest_init name oe;
    Ok ([RGeneric g; ROffcore o], S n).

Section Factory.
(** The lookup of a (possibly qualified) event name in the events database. *)
Context (db_get : string -> option UArchEvent).

Definition buildRequests (event : Event) (n : nat) : result (list Request * nat) :=
  e ← or_raise Exception_ (db_get (uarchName event));
  match eventType e with
  | GenericCore => g ← GenericPmuRequest_init (ename event) e (euser event) (ekernel event); Ok ([RGeneric g], n)
  | FixedCore => f ← FixedPmuRequest_init (ename event) e (euser event) (ekernel event); Ok ([RFixed f], n)
  | OffCore => buildOffCoreRequests (ename event) e (euser event) (ekernel event) n
  end.

Definition addRequest (s : EventSet) (r : Request) : result EventSet :=
  match r with
  | RGeneric g => addGenericPmuRequest g s
  | ROffcore o => addOffcorePmuRequest o s
  | RFixed f => addFixedPmuRequest f s
  end.

(** [PMUCtrl.resolveEvents]. *)
Definition resolveEvents (cpus : list Z) (events : list Event) : result EventSet :=
  if (11 <? length events)%nat then Raise Exception_
  else
    '(s, _) ← mfor (fun '(s, n) e =>
       '(rs, n) ← buildRequests e n; s ← mfor addRequest s rs; Ok (s, n)) (EventSet_init cpus, 0%nat) events;
    Ok s.
End Factory.

(** ** Register allocation *)

Record Allocatable := mkAllocatable { a_index : Z; a_constraint : list Z }.
Record Allocator := mkAllocator { allocatables : list Allocatable; slots : list Z; allocation : list Z }.

Definition py_max (l : list Z) : result Z :=
  match l with [] => Raise ValueError_ | x :: l => Ok (fold_left Z.max l x) end.

Definition Allocator_init (constraints : list (list Z)) : result Allocator :=
  maxes ← mmap py_max constraints;
  maxIndex ← py_max maxes;
  Ok (mkAllocator (imap (fun i c => mkAllocatable (Z.of_nat i) c) constraints)
        (replicate (Z.to_nat (maxIndex + 1)) (-1)) (replicate (length constraints) (-1))).

Definition slotCount (a : Allocator) : nat := length (slots a).

(** [l[i] = v] for an index of either sign. *)
Definition py_set {A} (l : list A) (i : Z) (v : A) : result (list A) :=
  let n := Z.of_nat (length l) in
  if (0 <=? i) && (i <? n) then Ok (<[Z.to_nat i := v]> l)
  else if (- n <=? i) && (i <? 0) then Ok (<[Z.to_nat (i + n) := v]> l)
  else Raise IndexError_.

(** The first counter of a constraint whose slot is free. *)
Fixpoint free_slot (slots : list Z) (constraint : list Z) : result (option Z) :=
  match constraint with
  | [] => Ok None
  | cn :: constraint =>
      s ← py_index slots cn;
      if s =? -1 then Ok (Some cn) else free_slot slots constraint
  end.

Definition discard (cn : Z) (a : Allocatable) : Allocatable :=
  mkAllocatable (a_index a) (filter (fun c => c <> cn) (a_constraint a)).

(** [allocate]: the event with the fewest counters takes a free one; the counter is
    discarded from the first of the remaining events only, and there is no way back.  The
    number of events bounds the recursion. *)
Fixpoint allocate (fuel : nat) (a : Allocator) : result (option (list Z)) :=
  match fuel with
  | O => Raise RecursionError_
  | S fuel =>
      let l := py_sort (key_geb (fun x => Z.of_nat (length (a_constraint x)))) (allocatables a) in
      x ← or_raise IndexError_ (last l);
      let rest := take (length l - 1) l in
      o ← free_slot (slots a) (a_constraint x);
      match o with
      | None => Ok None
      | Some cn =>
          slots' ← py_set (slots a) cn (a_index x);
          allocation' ← py_set (allocation a) (a_index x) cn;
          match rest with
          | [] => Ok (Some allocation')
          | y :: ys => allocate fuel (mkAllocator (discard cn y :: ys) slots' allocation')
          end
      end
  end.

(** ** Sorting of requests *)

Definition isSorted (rs : list GenericPmuRequest) : result bool :=
  mfor (fun ok '(i, r) => if ok : bool then canUse (g_event r) (Z.of_nat i) else Ok false) true
    (imap (fun i r => (i, r)) rs).

Definition pmc_set (e : UArchEvent) : result (list Z) :=
  match validPmc e with Some (PmcSet l) => Ok l | _ => Raise TypeError_ end.

(** [RequestSorter.sort]; a place no request is moved to would stay [None] and break the
    first use of the list. *)
Definition sort_requests (rs : list GenericPmuRequest) : result (option (list GenericPmuRequest)) :=
  sorted ← isSorted rs;
  if sorted : bool then Ok (Some rs)
  else
    indexSets ← mmap (fun r => pmc_set (g_event r)) rs;
    allocator ← Allocator_init indexSets;
    if (slotCount allocator =? length indexSets)%nat then
      o ← allocate (length rs) allocator;
      match o with
      | None | Some [] => Ok None
      | Some alloc =>
          placed ← mfor (fun placed '(i, r) => c ← py_nth alloc i; py_set placed c (Some r))
                     (replicate (length rs) None) (imap (fun i r => (i, r)) rs);
          Some <$> or_raise AttributeError_ (mapM (fun o => o) placed)
      end
    else Ok None.

(** [PMUCtrl.allocateEvents]. *)
Definition allocateEvents (s : EventSet) : result EventSet :=
  match genericRequests s with
  | [] => Ok s
  | rs =>
      o ← sort_requests rs;
      match o with
      | Some (r :: sorted) =>
          if (length (r :: sorted) =? length rs)%nat
          then Ok (mkEventSet (cpuSet s) (r :: sorted) (offcoreRequests s) (fixedRequests s))
          else Raise Exception_
      | _ => Raise Exception_
      end
  end.

Definition buildEventSet (db_get : string -> option UArchEvent) (cpus : list Z) (events : list Event) : result EventSet :=
  s ← resolveEvents db_get cpus events; allocateEvents s.

(** ** The request group *)

(** [PMUCtrl.buildRequestGroup]. *)
Definition buildRequestGroup (cpu : Z) (s : EventSet) : result (list Z) :=
  hdr ← concat_packs [pack_B cpu; pack_B (Z.of_nat (length (fixedRequests s)));
                      pack_B (Z.of_nat (length (genericRequests s))); pack_B (Z.of_nat (length (offcoreRequests s)))];
  fixed ← concat_packs (fixed_mask <$> fixedRequests s);
  generic ← concat_packs (generic_mask <$> genericRequests s);
  offcore ← concat_packs (offcore_mask <$> offcoreRequests s);
  Ok (hdr ++ fixed ++ concat (replicate (3 - length (fixedRequests s)) fixed_default)
        ++ generic ++ concat (replicate (8 - length (genericRequests s)) generic_default)
        ++ offcore ++ concat (replicate (2 - length (offcoreRequests s)) offcore_default)).

(** [PMUCtrl.enable]: the bytes written to the device, cpu by cpu. *)
Definition enable (db_get : string -> option UArchEvent) (cpus : list Z) (events : list Event)
    : result (EventSet * list (list Z)) :=
  s ← buildEventSet db_get cpus events;
  groups ← mmap (fun cpu => buildRequestGroup cpu s) cpus;
  Ok (s, groups).

Definition hex2 (v : Z) : chars := [digit_char (v / 16); digit_char (v mod 16)].

(** [PMUCtrl.buildPerfEventsRequest]. *)
Definition buildPerfEventsRequest (db_get : string -> option UArchEvent) (events : list Event)
    : result (option (EventSet * string)) :=
  s ← buildEventSet db_get [] events;
  match offcoreRequests s with
  | [] => g ← buildRequestGroup 0 s; Ok (Some (s, of_chars (join_chars (to_chars ":") (hex2 <$> g))))
  | _ => Ok None
  end.

(** ** Properties *)

(** *** The raw event select value *)

Lemma lor_shiftl a b k : 0 <= k -> 0 <= a < 2 ^ k -> Z.lor a (Z.shiftl b k) = a + b * 2 ^ k.
Proof.
  intros Hk Ha. rewrite Z.shiftl_mul_pow2 //. pose proof (Z.add_lor_land (b * 2 ^ k) a) as Hadd.
  rewrite Z.lor_comm. cut (Z.land (b * 2 ^ k) a = 0); [lia|]. clear Hadd.
  apply Z.bits_inj'. intros n Hn. rewrite Z.land_spec Z.bits_0.
  destruct (Z.lt_ge_cases n k) as [Hlt|Hge]; [by rewrite Z.mul_pow2_bits_low|].
  destruct (decide (a = 0)) as [->|Hne]; [by rewrite Z.bits_0 andb_false_r|].
  rewrite (Z.bits_above_log2 a n) ?andb_false_r //; [lia|]. apply Z.log2_lt_pow2; [lia|].
  apply (Z.lt_le_trans _ (2 ^ k)); [lia|]. by apply Z.pow_le_mono_r.
Qed.

(** The fields of a raw value add up. *)
Lemma rawValue_sum e sel um ed at_ cm inv :
  eventSelect e = Some (SelCode sel) -> unitMask e = Some um -> edgeDetect e = Some ed ->
  anyThread e = Some (b2z at_) -> counterMask e = Some cm -> invert e = Some inv ->
  0 <= sel < 256 -> 0 <= um < 256 -> 0 <= cm ->
  rawValue e = Ok (sel + um * 2 ^ 8 + b2z ed * 2 ^ 18 + b2z at_ * 2 ^ 21 + b2z inv * 2 ^ 23 + cm * 2 ^ 24).
Proof.
  intros H1 H2 H3 H4 H5 H6 Hs Hu Hc. unfold rawValue. rewrite H1 H2 H3 H4 H5 H6. cbn [need or_raise mbind result_bind].
  assert (Hb : forall b, 0 <= b2z b <= 1) by (intros []; cbn; lia).
  pose proof (Hb ed). pose proof (Hb at_). pose proof (Hb inv). f_equal.
  rewrite -Z.lor_assoc (Z.lor_comm (Z.shiftl cm 24)) Z.lor_assoc.
  rewrite (lor_shiftl sel); [lia|lia|]. rewrite (lor_shiftl (sel + um * 2 ^ 8)); [lia|lia|].
  rewrite (lor_shiftl (sel + _ + b2z ed * 2 ^ 18)); [lia|lia|].
  rewrite (lor_shiftl (sel + _ + _ + b2z at_ * 2 ^ 21)); [lia|lia|].
  rewrite (lor_shiftl (sel + _ + _ + _ + b2z inv * 2 ^ 23)); lia.
Qed.

(** The raw select value of an event whose attributes fit their fields
    keeps them apart: the event select is its low byte, the unit mask its second byte,
    edge detection bit 18, any thread bit 21, inversion bit 23 and the counter mask its
    high byte, and the value fits 32 bits. *)
Theorem rawValue_fields e sel um ed at_ cm inv :
  eventSelect e = Some (SelCode sel) -> unitMask e = Some um -> edgeDetect e = Some ed ->
  anyThread e = Some (b2z at_) -> counterMask e = Some cm -> invert e = Some inv ->
  0 <= sel < 256 -> 0 <= um < 256 -> 0 <= cm < 256 ->
  exists v, rawValue e = Ok v /\ 0 <= v < 2 ^ 32 /\
    v mod 256 = sel /\ (v / 2 ^ 8) mod 256 = um /\ Z.testbit v 18 = ed /\ Z.testbit v 21 = at_ /\
    Z.testbit v 23 = inv /\ v / 2 ^ 24 = cm.
Proof.
  intros H1 H2 H3 H4 H5 H6 Hs Hu Hc.
  rewrite (rawValue_sum e sel um ed at_ cm inv H1 H2 H3 H4 H5 H6 Hs Hu ltac:(lia)).
  eexists. split; [reflexivity|]. clear -Hs Hu Hc. set (v := sel + _ + _ + _ + _ + _).
  assert (Hbit : forall n b, 0 <= n -> (v / 2 ^ n) mod 2 = b2z b -> Z.testbit v n = b).
  { intros n b Hn H. apply Z.b2z_inj. by rewrite Z.testbit_spec'. }
  assert (Hv : v = sel + um * 2 ^ 8 + b2z ed * 2 ^ 18 + b2z at_ * 2 ^ 21 + b2z inv * 2 ^ 23 + cm * 2 ^ 24) by done.
  clearbody v. destruct ed, at_, inv; cbn [b2z] in Hv; split_and!; try (apply Hbit; [lia|cbn [b2z]]);
    subst v; Z.to_euclidean_division_equations; lia.
Qed.

(** *** The bytes of a request group *)

Lemma concat_packs_Ok l b : concat_packs l = Ok b ->
  exists bs, Forall2 (fun r x => r = Ok x) l bs /\ b = concat bs.
Proof.
  unfold concat_packs. cut (forall acc, mfor (fun acc r => b ← r; Ok (acc ++ b)) acc l = Ok b ->
    exists bs, Forall2 (fun r x => r = Ok x) l bs /\ b = acc ++ concat bs); [intros H; exact (H [])|].
  induction l as [|r l IH]; intros acc; cbn [mfor].
  - intros [= <-]. exists []. by rewrite app_nil_r.
  - intros H. apply bind_Ok in H as (acc' & H1 & H). apply bind_Ok in H1 as (x & -> & [= <-]).
    destruct (IH _ H) as (bs & Hbs & ->). exists (x :: bs). cbn. rewrite app_assoc. by split; [constructor|].
Qed.

Definition byte (v : Z) : Prop := 0 <= v < 256.

(** A packed field: its size, and bytes only. *)
Definition sized (n : nat) (l : list Z) : Prop := length l = n /\ Forall byte l.

Lemma sized_app n m l k : sized n l -> sized m k -> sized (n + m) (l ++ k).
Proof. intros [<- H1] [<- H2]. split; [apply length_app|by apply Forall_app]. Qed.

Lemma pack_B_sized v b : pack_B v = Ok b -> b = [v] /\ sized 1 b.
Proof.
  unfold pack_B. destruct (_ && _) eqn:E; [|done]. intros [= <-]. bool_facts.
  split; [done|]. split; [done|]. apply Forall_singleton. done.
Qed.

Lemma pack_opt_B_sized o b : pack_opt_B o = Ok b -> sized 1 b.
Proof. destruct o; [|done]. intros H. by apply pack_B_sized in H as [_ H]. Qed.

Lemma le_bytes_sized n v : sized n (le_bytes n v).
Proof.
  revert v. induction n as [|n IH]; intros v; cbn; [by split|]. destruct (IH (v / 256)) as [H1 H2].
  split; [cbn; by rewrite H1|]. constructor; [apply Z.mod_pos_bound; lia|done].
Qed.

Lemma concat_sized n (bs : list (list Z)) : Forall (sized n) bs -> sized (n * length bs) (concat bs).
Proof.
  intros H. induction H as [|b bs Hb _ IH]; cbn [concat length]; [by rewrite Nat.mul_0_r; split|].
  rewrite Nat.mul_succ_r Nat.add_comm. by apply sized_app.
Qed.

Lemma concat_packs_sized n l b : Forall (fun r => forall x, r = Ok x -> sized n x) l ->
  concat_packs l = Ok b -> sized (n * length l) b.
Proof.
  intros Hl H. apply concat_packs_Ok in H as (bs & Hbs & ->). rewrite (Forall2_length _ _ _ Hbs).
  apply concat_sized. clear -Hl Hbs. induction Hbs as [|r x l bs -> _ IH]; [constructor|].
  apply Forall_cons in Hl as [H Hl]. constructor; [by apply H|by apply IH].
Qed.

Lemma generic_mask_sized r b : generic_mask r = Ok b -> sized 8 b.
Proof.
  intros H. refine (concat_packs_sized 1 _ b _ H).
  repeat apply Forall_cons_2; try apply Forall_nil_2; intros x Hx; first [exact (pack_opt_B_sized _ _ Hx)|exact (proj2 (pack_B_sized _ _ Hx))].
Qed.

Lemma fixed_mask_sized r b : fixed_mask r = Ok b -> sized 3 b.
Proof.
  intros H. refine (concat_packs_sized 1 _ b _ H).
  repeat apply Forall_cons_2; try apply Forall_nil_2; intros x Hx; first [exact (pack_opt_B_sized _ _ Hx)|exact (proj2 (pack_B_sized _ _ Hx))].
Qed.

Lemma offcore_mask_sized r b : offcore_mask r = Ok b -> sized 8 b.
Proof.
  unfold offcore_mask, pack_Q. destruct (msrValue _); [|done]. destruct (_ && _); [|done]. intros [= <-]. exact (le_bytes_sized 8 z).
Qed.

(** Bytes of a structure, by offset and size. *)
Definition bytes_at (g : list Z) (offset size : nat) : list Z := take size (drop offset g).

(** The [i]-th entry of an array of records that is padded with a default record. *)
Lemma array_entries n k (bs : list (list Z)) d pre post i :
  Forall (sized n) bs -> sized n d -> (length bs <= k)%nat -> (i < k)%nat ->
  bytes_at (pre ++ (concat bs ++ concat (replicate (k - length bs) d)) ++ post) (length pre + n * i) n =
  default d (bs !! i).
Proof.
  intros Hbs Hd Hk Hi. rewrite -concat_app. set (all := bs ++ replicate (k - length bs) d).
  assert (Hall : Forall (sized n) all) by (apply Forall_app; split; [done|by apply Forall_replicate]).
  assert (Hlen : length all = k) by (unfold all; rewrite length_app length_replicate; lia).
  assert (Hget : all !! i = Some (default d (bs !! i))).
  { unfold all. destruct (decide (i < length bs)%nat) as [Hlt|Hge].
    - rewrite lookup_app_l //. by destruct (lookup_lt_is_Some_2 bs i Hlt) as [x ->].
    - rewrite lookup_app_r; [lia|]. rewrite (lookup_ge_None_2 bs i); [lia|]. apply lookup_replicate_2. lia. }
  clearbody all. unfold bytes_at. rewrite -drop_drop drop_app_length. rewrite -Hlen in Hi. clear -Hall Hget Hi.
  revert Hget. generalize (default d (bs !! i)) as y. intros y Hget.
  revert i Hget Hi. induction Hall as [|x xs [Hx _] Hall IH]; intros i Hget Hi; [done|]. cbn [concat].
  destruct i as [|i]; cbn in Hget.
  - injection Hget as ->. by rewrite Nat.mul_0_r drop_0 -!app_assoc -Hx take_app_length.
  - rewrite Nat.mul_succ_r Nat.add_comm -drop_drop -app_assoc (drop_app_length' x _ n) //.
    apply IH; [done|cbn in Hi; lia].
Qed.

(** An array of packed requests, padded with defaults. *)
Lemma request_array {R} n k (mask : R -> result (list Z)) d (rs : list R) x :
  (forall r b, mask r = Ok b -> sized n b) -> sized n d -> (length rs <= k)%nat -> concat_packs (mask <$> rs) = Ok x ->
  sized (n * k) (x ++ concat (replicate (k - length rs) d)) /\
  forall i pre post, (i < k)%nat ->
    Ok (bytes_at (pre ++ (x ++ concat (replicate (k - length rs) d)) ++ post) (length pre + n * i) n) =
    match rs !! i with Some r => mask r | None => Ok d end.
Proof.
  intros Hm Hd Hk H. apply concat_packs_Ok in H as (bs & Hbs & ->). apply Forall2_fmap_l in Hbs.
  pose proof (Forall2_length _ _ _ Hbs) as Hlen. rewrite Hlen in Hk |- *.
  assert (Hsz : Forall (sized n) bs).
  { clear -Hbs Hm. induction Hbs as [|r b rs bs Hr _ IH]; constructor; [exact (Hm _ _ Hr)|done]. }
  split.
  - replace (n * k)%nat with (n * length bs + n * length (replicate (k - length bs) d))%nat
      by (rewrite length_replicate; nia).
    apply sized_app; apply concat_sized; [done|by apply Forall_replicate].
  - intros i pre post Hi. rewrite array_entries //. destruct (rs !! i) as [r|] eqn:E.
    + destruct (Forall2_lookup_l _ _ _ _ _ Hbs E) as (b & Hb & Hr). rewrite Hb /=. by cbn in Hr.
    + rewrite lookup_ge_None_2 //. rewrite -Hlen. by apply lookup_ge_None.
Qed.

(** The bytes of a request group are the [PMUCtlRequest] structure of
    the kernel module (include/xpedite/pmu/EventSet.h): 93 bytes; the cpu and the three
    counts first, then three fixed, eight generic and two off core entries, each the mask
    of its request or zero. *)
Theorem buildRequestGroup_layout cpu s g :
  (length (fixedRequests s) <= 3)%nat -> (length (genericRequests s) <= 8)%nat -> (length (offcoreRequests s) <= 2)%nat ->
  buildRequestGroup cpu s = Ok g ->
  length g = 93%nat /\ Forall byte g /\
  take 4 g = [cpu; Z.of_nat (length (fixedRequests s)); Z.of_nat (length (genericRequests s)); Z.of_nat (length (offcoreRequests s))] /\
  (forall i, (i < 3)%nat -> Ok (bytes_at g (4 + 3 * i) 3) = match fixedRequests s !! i with Some r => fixed_mask r | None => Ok fixed_default end) /\
  (forall i, (i < 8)%nat -> Ok (bytes_at g (13 + 8 * i) 8) = match genericRequests s !! i with Some r => generic_mask r | None => Ok generic_default end) /\
  (forall i, (i < 2)%nat -> Ok (bytes_at g (77 + 8 * i) 8) = match offcoreRequests s !! i with Some r => offcore_mask r | None => Ok offcore_default end).
Proof.
  intros Hf Hg Ho H. unfold buildRequestGroup in H. apply bind_Ok in H as (hdr & Hhdr & H).
  apply bind_Ok in H as (fx & Hfx & H). apply bind_Ok in H as (gx & Hgx & H). apply bind_Ok in H as (ox & Hox & [= <-]).
  destruct (request_array 3 3 fixed_mask fixed_default _ fx fixed_mask_sized ltac:(by repeat constructor) Hf Hfx) as [Hs1 He1].
  destruct (request_array 8 8 generic_mask generic_default _ gx generic_mask_sized ltac:(by repeat constructor) Hg Hgx) as [Hs2 He2].
  destruct (request_array 8 2 offcore_mask offcore_default _ ox offcore_mask_sized ltac:(by repeat constructor) Ho Hox) as [Hs3 He3].
  assert (Hh : hdr = [cpu; Z.of_nat (length (fixedRequests s)); Z.of_nat (length (genericRequests s));
    Z.of_nat (length (offcoreRequests s))] /\ sized 4 hdr).
  { apply concat_packs_Ok in Hhdr as (bs & Hbs & ->).
    repeat (apply Forall2_cons_inv_l in Hbs as (? & ? & ?%pack_B_sized & Hbs & ->)).
    apply Forall2_nil_inv_l in Hbs as ->. destruct_and!. subst. split; [done|].
    split; [done|]. repeat apply Forall_cons_2; try apply Forall_nil_2;
      match goal with H : sized 1 [?v] |- byte ?v => destruct H as [_ H]; by apply Forall_cons in H as [H _] end. }
  destruct Hh as [Htake Hs0]. clear Hhdr Hfx Hgx Hox.
  set (fs := fx ++ _) in *. set (gs := gx ++ _) in *. set (os := ox ++ _) in *.
  assert (Hall : hdr ++ fx ++ concat (replicate (3 - length (fixedRequests s)) fixed_default) ++
    gx ++ concat (replicate (8 - length (genericRequests s)) generic_default) ++
    ox ++ concat (replicate (2 - length (offcoreRequests s)) offcore_default) = hdr ++ fs ++ gs ++ os).
  { unfold fs, gs, os. by rewrite -!app_assoc. }
  rewrite Hall. clear Hall. clearbody fs gs os.
  destruct (sized_app _ _ _ _ Hs0 (sized_app _ _ _ _ Hs1 (sized_app _ _ _ _ Hs2 Hs3))) as [Hlen Hbytes].
  split; [exact Hlen|]. split; [exact Hbytes|]. destruct Hs0 as [H0 _]. destruct Hs1 as [H1 _]. destruct Hs2 as [H2 _].
  split; [by rewrite -Htake -H0 take_app_length|]. split_and!; intros i Hi.
  - rewrite -(He1 i hdr (gs ++ os) Hi). by rewrite H0.
  - rewrite -(He2 i (hdr ++ fs) os Hi). by rewrite length_app H0 H1 -!app_assoc.
  - rewrite -(He3 i (hdr ++ fs ++ gs) [] Hi). by rewrite !length_app H0 H1 H2 app_nil_r -!app_assoc.
Qed.

(** *** Resolving events *)

Section Resolve.
Context (db_get : string -> option UArchEvent).

Definition has_type (t : EventType) (e : Event) : bool :=
  match db_get (uarchName e) with Some u => bool_decide (eventType u = t) | None => false end.

Definition fixed_events (es : list Event) : list Event := filter (fun e => has_type FixedCore e = true) es.
Definition other_events (es : list Event) : list Event := filter (fun e => has_type FixedCore e = false) es.

Lemma fixed_events_snoc es e : fixed_events (es ++ [e]) = fixed_events es ++ if has_type FixedCore e then [e] else [].
Proof.
  unfold fixed_events. rewrite filter_app. f_equal. rewrite filter_cons filter_nil. by destruct (has_type FixedCore e).
Qed.
Lemma other_events_snoc es e : other_events (es ++ [e]) = other_events es ++ if has_type FixedCore e then [] else [e].
Proof.
  unfold other_events. rewrite filter_app. f_equal. rewrite filter_cons filter_nil. by destruct (has_type FixedCore e).
Qed.

(** What holds of the event set after some events, with the count of off core events. *)
Definition resolved (events : list Event) (st : EventSet * nat) : Prop :=
  let '(s, n) := st in
  (length (fixedRequests s) <= 3)%nat /\ (length (genericRequests s) <= 8)%nat /\
  length (offcoreRequests s) = n /\ (n <= 2)%nat /\
  (length (genericRequests s) + length (fixedRequests s))%nat = length events /\
  g_name <$> genericRequests s = ename <$> other_events events /\
  f_name <$> fixedRequests s ≡ₚ ename <$> fixed_events events /\
  StronglySorted (fun a b => key_leb fixed_key a b = true) (fixedRequests s) /\
  (fun o => eventSelect (o_event o)) <$> offcoreRequests s = (fun v => Some (SelCode v)) <$> take n OFFCORE_SELECTS.

Lemma add_generic g s s' : addGenericPmuRequest g s = Ok s' ->
  (length (genericRequests s) < 8)%nat /\ s' = mkEventSet (cpuSet s) (genericRequests s ++ [g]) (offcoreRequests s) (fixedRequests s).
Proof. unfold addGenericPmuRequest. destruct (Nat.leb_spec 8 (length (genericRequests s))); [done|]. by intros [= <-]. Qed.

Lemma generic_init name e user kernel g : GenericPmuRequest_init name e user kernel = Ok g ->
  g = mkGeneric name e user kernel.
Proof. unfold GenericPmuRequest_init. destruct (negb _); [done|]. destruct (_ && _)%bool; [done|]. by intros [= <-]. Qed.

Lemma resolve_step pre e st st' : resolved pre st ->
  (let '(s, n) := st in '(rs, n) ← buildRequests db_get e n; s ← mfor addRequest s rs; Ok (s, n)) = Ok st' ->
  resolved (pre ++ [e]) st'.
Proof.
  destruct st as [s n]. intros (H1 & H2 & H3 & H4 & H5 & H6 & H7 & H8 & H9) H.
  apply bind_Ok in H as ([rs n'] & Hrs & H). apply bind_Ok in H as (s' & Hs' & [= <-]).
  unfold buildRequests in Hrs. apply bind_Ok in Hrs as (u & Hu & Hrs). apply or_raise_Ok in Hu.
  assert (Htype : has_type FixedCore e = bool_decide (eventType u = FixedCore)) by (unfold has_type; by rewrite Hu).
  unfold resolved. rewrite fixed_events_snoc other_events_snoc Htype length_app !fmap_app.
  destruct (eventType u) eqn:Et; cbn [bool_decide decide] in *.
  - apply bind_Ok in Hrs as (g & Hg%generic_init & [= <- <-]). cbn [mfor addRequest] in Hs'.
    apply bind_Ok in Hs' as (s1 & (Hl & ->)%add_generic & [= <-]). subst g. cbn [genericRequests fixedRequests offcoreRequests].
    rewrite !length_app fmap_app H6 app_nil_r. cbn [length]. split_and!; try done; lia.
  - apply bind_Ok in Hrs as (f & Hf & [= <- <-]). unfold FixedPmuRequest_init in Hf.
    destruct (_ && _)%bool; [done|]. injection Hf as <-. cbn [mfor addRequest] in Hs'.
    apply bind_Ok in Hs' as (s1 & Hs1 & [= <-]). unfold addFixedPmuRequest in Hs1.
    destruct (Nat.leb_spec 3 (length (fixedRequests s))); [done|]. injection Hs1 as <-.
    cbn [genericRequests fixedRequests offcoreRequests]. rewrite py_sort_length length_app app_nil_r. cbn [length].
    split_and!; try done; [lia|lia| |].
    + rewrite py_sort_perm fmap_app H7. done.
    + apply py_sort_sorted; [apply key_leb_total|apply key_leb_trans].
  - unfold buildOffCoreRequests in Hrs. destruct (Nat.leb_spec (length OFFCORE_SELECTS) n) as [|Hn]; [done|].
    apply bind_Ok in Hrs as (sel & Hsel & Hrs). apply py_nth_Ok in Hsel. apply bind_Ok in Hrs as (g & Hg%generic_init & Hrs).
    apply bind_Ok in Hrs as (o & Ho & [= <- <-]). cbn [mfor addRequest] in Hs'.
    apply bind_Ok in Hs' as (s1 & (Hl & ->)%add_generic & Hs'). apply bind_Ok in Hs' as (s2 & Hs2 & [= <-]).
    unfold addOffcorePmuRequest in Hs2. cbn [genericRequests fixedRequests offcoreRequests] in Hs2.
    destruct (Nat.leb_spec 2 (length (offcoreRequests s))); [done|]. injection Hs2 as <-.
    unfold OffcorePmuRequest_init in Ho. destruct (negb _); [done|]. injection Ho as <-. subst g.
    cbn [genericRequests fixedRequests offcoreRequests].
    rewrite !length_app !fmap_app H6 H9 app_nil_r (take_S_r _ _ _ Hsel) fmap_app. cbn [length]. split_and!; try done; lia.
Qed.

(** C36 (resolving events): a set of resolved events never exceeds the registers of the
    processor; every event has one generic or fixed request, the generic ones in the order
    of the events, the fixed ones in the order of their counters, and the off core events
    get the two select codes in turn. *)
Theorem resolveEvents_spec cpus events s : resolveEvents db_get cpus events = Ok s ->
  (length events <= 11)%nat /\ resolved events (s, length (offcoreRequests s)).
Proof.
  unfold resolveEvents. destruct (Nat.ltb_spec 11 (length events)) as [|Hle]; [done|]. intros H.
  apply bind_Ok in H as ([s' n] & H & [= <-]). split; [done|].
  assert (Hr : resolved events (s', n)).
  { revert H. apply (mfor_inv_prefix _ resolved).
    - intros pre e post [s0 n0] st' _ Hst H. exact (resolve_step pre e (s0, n0) st' Hst H).
    - cbn. split_and!; try done; try lia. constructor. }
  assert (n = length (offcoreRequests s')) as <-; [|done]. by destruct Hr as (_ & _ & <- & _).
Qed.
End Resolve.

(** *** Register allocation *)

Section Allocation.
Context (constraints : list (list Z)) (slotsNeeded : nat).
Context (Hrange : Forall (Forall (fun c => 0 <= c < Z.of_nat slotsNeeded)) constraints).

(** An allocation of the first kind of [allocate]'s result: every event has a counter of its
    own that its constraint allows. *)
Definition valid_allocation (alloc : list Z) : Prop :=
  length alloc = length constraints /\ NoDup alloc /\
  forall i c, alloc !! i = Some c -> 0 <= c < Z.of_nat slotsNeeded /\
    exists cs, constraints !! i = Some cs /\ c ∈ cs.

(** The state after some events have been allocated. *)
Record alloc_inv (a : Allocator) : Prop := {
  ai_slots : length (slots a) = slotsNeeded;
  ai_len : length (allocation a) = length constraints;
  ai_nodup : NoDup (a_index <$> allocatables a);
  ai_left : Forall (fun x => exists i cs, a_index x = Z.of_nat i /\ constraints !! i = Some cs /\
                               a_constraint x ⊆ cs) (allocatables a);
  ai_done : forall i, (i < length constraints)%nat -> Z.of_nat i ∉ a_index <$> allocatables a ->
    exists c cs, allocation a !! i = Some c /\ 0 <= c < Z.of_nat slotsNeeded /\
      slots a !! Z.to_nat c = Some (Z.of_nat i) /\ constraints !! i = Some cs /\ c ∈ cs
}.

Lemma py_set_ok {A} (l : list A) i v : 0 <= i < Z.of_nat (length l) -> py_set l i v = Ok (<[Z.to_nat i := v]> l).
Proof.
  intros H. unfold py_set. destruct (Z.leb_spec 0 i); [|lia].
  destruct (Z.ltb_spec i (Z.of_nat (length l))); [done|lia].
Qed.

Lemma py_index_ok {A} (l : list A) i : 0 <= i -> py_index l i = py_nth l (Z.to_nat i).
Proof. intros H. unfold py_index. by rewrite (proj2 (Z.ltb_ge i 0) H) (proj2 (Z.ltb_ge i 0) H). Qed.

Lemma free_slot_spec sl cs : Forall (fun c => 0 <= c < Z.of_nat (length sl)) cs ->
  exists o, free_slot sl cs = Ok o /\
    forall cn, o = Some cn -> cn ∈ cs /\ sl !! Z.to_nat cn = Some (-1).
Proof.
  intros H. induction H as [|cn cs Hc _ (o & Ho & IH)]; cbn [free_slot]; [by exists None|].
  rewrite py_index_ok; [lia|]. unfold py_nth. destruct (lookup_lt_is_Some_2 sl (Z.to_nat cn)) as [v Hv]; [lia|].
  rewrite Hv. cbn [or_raise mbind result_bind]. destruct (Z.eqb_spec v (-1)) as [->|].
  - exists (Some cn). split; [done|]. intros ? [= <-]. split; [left|done].
  - exists o. split; [done|]. intros c Hc'. destruct (IH c Hc') as [? ?]. split; [by right|done].
Qed.

(** One allocation: the event [x] takes the counter [cn]. *)
Lemma alloc_step a x rest cn i cs : alloc_inv a -> allocatables a ≡ₚ x :: rest ->
  a_index x = Z.of_nat i -> constraints !! i = Some cs -> a_constraint x ⊆ cs -> cn ∈ a_constraint x ->
  slots a !! Z.to_nat cn = Some (-1) -> 0 <= cn < Z.of_nat slotsNeeded ->
  alloc_inv (mkAllocator rest (<[Z.to_nat cn := a_index x]> (slots a)) (<[i := cn]> (allocation a))).
Proof.
  intros [H1 H2 H3 H4 H5] Hp Hi Hcs Hsub Hcn Hfree Hrng. rewrite Hp in H3 H4. rewrite fmap_cons in H3.
  apply NoDup_cons in H3 as [Hx H3]. apply Forall_cons in H4 as [_ H4]. pose proof (lookup_lt_Some _ _ _ Hcs) as Hlt.
  constructor; cbn [slots allocation allocatables].
  - by rewrite length_insert.
  - by rewrite length_insert.
  - done.
  - done.
  - intros j Hj Hnot. destruct (decide (j = i)) as [->|Hne].
    + exists cn, cs. rewrite !list_lookup_insert_eq; [lia|lia|]. rewrite Hi. split_and!; try done; try lia. set_solver.
    + destruct (H5 j Hj) as (c & cs' & Hc & Hr & Hs & Hcs' & Hin).
      { rewrite Hp fmap_cons Hi not_elem_of_cons. split; [|done]. lia. }
      exists c, cs'. rewrite list_lookup_insert_ne; [congruence|]. rewrite list_lookup_insert_ne.
      { intros E. rewrite E in Hfree. rewrite Hfree in Hs. injection Hs as Hs. lia. }
      split_and!; try done; lia.
Qed.

(** Discarding a counter keeps the invariant. *)
Lemma discard_inv y ys sl al cn : alloc_inv (mkAllocator (y :: ys) sl al) ->
  alloc_inv (mkAllocator (discard cn y :: ys) sl al).
Proof.
  intros [H1 H2 H3 H4 H5]. constructor; try done. cbn [allocatables] in *. apply Forall_cons in H4 as [(i & cs & Hi & Hcs & Hsub) H4].
  constructor; [|done]. exists i, cs. split_and!; [done|done|]. cbn. intros c Hc. apply list_elem_of_filter in Hc as [_ Hc]. by apply Hsub.
Qed.

Lemma last_take {A} (l : list A) x : last l = Some x -> l = take (length l - 1) l ++ [x].
Proof.
  intros H. destruct l as [|y l _] using rev_ind; [done|]. rewrite last_snoc in H. injection H as ->.
  rewrite length_app /= Nat.add_sub take_app_length. done.
Qed.

Lemma allocate_spec fuel a : alloc_inv a -> (length (allocatables a) <= fuel)%nat -> allocatables a <> [] ->
  exists o, allocate fuel a = Ok o /\ forall alloc, o = Some alloc -> valid_allocation alloc.
Proof.
  revert a. induction fuel as [|fuel IH]; intros a Hinv Hf Hne;
    [by destruct (allocatables a); cbn in Hf; [done|lia]|].
  cbn [allocate]. set (l := py_sort _ _). assert (Hperm : l ≡ₚ allocatables a) by apply py_sort_perm.
  destruct (last l) as [x|] eqn:Hlast.
  2:{ apply last_None in Hlast. rewrite Hlast in Hperm. apply Permutation_nil_l in Hperm. congruence. }
  cbn [or_raise mbind result_bind]. set (rest := take (length l - 1) l).
  assert (Hl : allocatables a ≡ₚ x :: rest).
  { rewrite -Hperm. rewrite {1}(last_take l x Hlast). fold rest. by rewrite Permutation_app_comm. }
  clearbody rest. clear Hlast Hperm l. pose proof (ai_left a Hinv) as Hleft. rewrite Hl in Hleft.
  apply Forall_cons in Hleft as [(i & cs & Hi & Hcs & Hsub) _].
  assert (Hcr : Forall (fun c => 0 <= c < Z.of_nat slotsNeeded) cs) by exact (proj1 (Forall_lookup _ _) Hrange i cs Hcs).
  destruct (free_slot_spec (slots a) (a_constraint x)) as (o & -> & Ho).
  { rewrite (ai_slots a Hinv). rewrite !Forall_forall in Hcr |- *. eauto. }
  cbn [mbind result_bind]. destruct o as [cn|]; [|by exists None]. destruct (Ho cn eq_refl) as [Hcn Hfree].
  assert (Hr : 0 <= cn < Z.of_nat slotsNeeded) by (rewrite Forall_forall in Hcr; eauto).
  pose proof (lookup_lt_Some _ _ _ Hcs) as Hlt.
  rewrite (py_set_ok (slots a)); [by rewrite (ai_slots a Hinv)|]. cbn [mbind result_bind].
  rewrite (py_set_ok (allocation a)); [rewrite (ai_len a Hinv); lia|]. cbn [mbind result_bind].
  pose proof (alloc_step a x rest cn i cs Hinv Hl Hi Hcs Hsub Hcn Hfree Hr) as Hinv'.
  assert (Hidx : Z.to_nat (a_index x) = i) by lia. rewrite Hidx.
  destruct rest as [|y ys].
  - eexists. split; [done|]. intros alloc [= <-]. destruct Hinv' as [H1 H2 H3 H4 H5]. cbn [slots allocation allocatables] in *.
    split; [done|]. set (alloc := <[i := cn]> (allocation a)) in *.
    assert (Hall : forall j c, alloc !! j = Some c -> 0 <= c < Z.of_nat slotsNeeded /\
      <[Z.to_nat cn := a_index x]> (slots a) !! Z.to_nat c = Some (Z.of_nat j) /\ exists cs, constraints !! j = Some cs /\ c ∈ cs).
    { intros j c Hc. destruct (H5 j) as (c' & cs' & Hc' & Hrr & Hs & Hcs' & Hin);
        [rewrite -H2; exact (lookup_lt_Some _ _ _ Hc)|by apply not_elem_of_nil|]. rewrite Hc in Hc'. injection Hc' as <-. eauto. }
    split; [|naive_solver]. apply NoDup_alt. intros j k c Hj Hk. destruct (Hall j c Hj) as (_ & Hs & _).
    destruct (Hall k c Hk) as (_ & Hs' & _). rewrite Hs in Hs'. injection Hs' as Hs'. lia.
  - apply IH; [by apply discard_inv| |done]. rewrite Hl in Hf. cbn in Hf |- *. lia.
Qed.
End Allocation.

Lemma py_max_spec l : l <> [] -> exists m, py_max l = Ok m /\ m ∈ l /\ forall x, x ∈ l -> x <= m.
Proof.
  destruct l as [|x l]; [done|]. intros _. cbn [py_max]. eexists. split; [done|].
  revert x. induction l as [|y l IH]; intros x; cbn [fold_left].
  - split; [left|]. intros z Hz. apply list_elem_of_singleton in Hz as ->. lia.
  - destruct (IH (Z.max x y)) as [H1 H2]. split.
    + apply elem_of_cons in H1 as [H1|H1]; [|by right; right].
      destruct (Z.max_spec x y) as [[_ E]|[_ E]]; rewrite E in H1 |- *; rewrite H1; [right; left|left].
    + intros z Hz. assert (Hm : Z.max x y <= fold_left Z.max l (Z.max x y)) by (apply H2; left).
      apply elem_of_cons in Hz as [->|Hz]; [lia|]. apply elem_of_cons in Hz as [->|Hz]; [lia|]. apply H2. by right.
Qed.

Definition allocatable_constraints (constraints : list (list Z)) : Prop :=
  constraints <> [] /\ Forall (fun cs => cs <> [] /\ Forall (fun c => 0 <= c) cs) constraints.

Lemma maxes_spec constraints : Forall (fun cs : list Z => cs <> []) constraints ->
  exists ms, mmap py_max constraints = Ok ms /\ Forall2 (fun cs m => m ∈ cs /\ forall x, x ∈ cs -> x <= m) constraints ms.
Proof.
  intros H. induction H as [|cs constraints Hne _ (ms & Hms & IH)]; [by exists []|]. cbn [mmap].
  destruct (py_max_spec cs Hne) as (m & -> & Hm1 & Hm2). cbn [mbind result_bind]. rewrite Hms. exists (m :: ms).
  by repeat constructor.
Qed.

Lemma Allocator_init_spec constraints : allocatable_constraints constraints ->
  exists a, Allocator_init constraints = Ok a /\ length (allocatables a) = length constraints /\
    Forall (Forall (fun c => 0 <= c < Z.of_nat (slotCount a))) constraints /\
    alloc_inv constraints (slotCount a) a.
Proof.
  intros [Hne Hcs]. destruct (maxes_spec constraints) as (ms & Hms & Hf).
  { eapply Forall_impl; [exact Hcs|]. by intros cs [H _]. }
  destruct (py_max_spec ms) as (m & Hm & Hin & Hmax).
  { intros ->. by apply Forall2_nil_inv_r in Hf. }
  unfold Allocator_init. rewrite Hms. cbn [mbind result_bind]. rewrite Hm. cbn [mbind result_bind].
  eexists. split; [done|]. unfold slotCount. cbn [slots allocatables]. rewrite length_imap length_replicate.
  assert (Hr : Forall (Forall (fun c => 0 <= c < Z.of_nat (Z.to_nat (m + 1)))) constraints).
  { clear -Hcs Hf Hmax. induction Hf as [|cs m' constraints ms [Hi Hle] Hf IH]; [constructor|].
    apply Forall_cons in Hcs as [[_ Hpos] Hcs]. constructor.
    - rewrite Forall_forall in Hpos. apply Forall_forall. intros c Hc. specialize (Hpos c Hc). specialize (Hle c Hc).
      assert (m' <= m) by (apply Hmax; left). lia.
    - apply IH; [done|]. intros x Hx. apply Hmax. by right. }
  split; [done|]. split; [exact Hr|].
  assert (Hidx : a_index <$> imap (fun i c => mkAllocatable (Z.of_nat i) c) constraints = Z.of_nat <$> seq 0 (length constraints)).
  { rewrite fmap_imap. clear. generalize constraints as l. intros l. apply list_eq. intros i. rewrite list_lookup_imap list_lookup_fmap.
    destruct (decide (i < length l)%nat) as [Hlt|Hge].
    - destruct (lookup_lt_is_Some_2 l i Hlt) as [x Hx]. rewrite Hx lookup_seq_lt //.
    - rewrite lookup_ge_None_2; [lia|]. rewrite lookup_ge_None_2 // length_seq. lia. }
  constructor; cbn [slots allocation allocatables].
  - by rewrite length_replicate.
  - by rewrite length_replicate.
  - rewrite Hidx. apply NoDup_fmap_2; [apply _|apply NoDup_seq].
  - apply Forall_lookup. intros i x Hx. rewrite list_lookup_imap in Hx. destruct (constraints !! i) as [cs|] eqn:E; [|done].
    injection Hx as <-. by exists i, cs.
  - intros i Hi Hnot. exfalso. apply Hnot. rewrite Hidx. apply list_elem_of_fmap. exists i. split; [done|].
    apply elem_of_seq. lia.
Qed.

(** C35 (allocation): for events with at least one counter each, allocating registers
    always ends, and an allocation it finds gives every event a counter of its own that
    the event's constraint allows. *)
Theorem allocate_sound (constraints : list (list Z)) :
  allocatable_constraints constraints ->
  exists a o, Allocator_init constraints = Ok a /\ allocate (length constraints) a = Ok o /\
    forall alloc, o = Some alloc -> valid_allocation constraints (slotCount a) alloc.
Proof.
  intros Hc. destruct (Allocator_init_spec constraints Hc) as (a & Ha & Hlen & Hr & Hinv).
  destruct (allocate_spec constraints (slotCount a) Hr (length constraints) a Hinv) as (o & Ho & Hv).
  - by rewrite Hlen.
  - intros E. rewrite E in Hlen. by destruct Hc as [Hne _]; destruct constraints.
  - exists a, o. by split_and!.
Qed.

(** *** Sorting requests *)

Lemma placed_spec {R} (alloc : list Z) (rs : list R) :
  NoDup alloc -> length alloc = length rs ->
  (forall i c, alloc !! i = Some c -> 0 <= c < Z.of_nat (length rs)) ->
  exists placed, mfor (fun placed '(i, r) => c ← py_nth alloc i; py_set placed c (Some r))
      (replicate (length rs) None) (imap (fun i r => (i, r)) rs) = Ok placed /\ length placed = length rs /\
    forall i c r, alloc !! i = Some c -> rs !! i = Some r -> placed !! Z.to_nat c = Some (Some r).
Proof.
  intros Hnd Hlen Hr.
  cut (forall n, (n <= length rs)%nat -> exists placed,
    mfor (fun placed '(i, r) => c ← py_nth alloc i; py_set placed c (Some r))
      (replicate (length rs) None) (take n (imap (fun i r => (i, r)) rs)) = Ok placed /\ length placed = length rs /\
    forall i c r, (i < n)%nat -> alloc !! i = Some c -> rs !! i = Some r -> placed !! Z.to_nat c = Some (Some r)).
  { intros Hc. destruct (Hc (length rs) ltac:(lia)) as (placed & H1 & H2 & H3).
    rewrite take_ge in H1; [by rewrite length_imap|]. exists placed. split_and!; [done|done|].
    intros i c r Hi Hri. apply (H3 i); [exact (lookup_lt_Some _ _ _ Hri)|done|done]. }
  induction n as [|n IH]; intros Hn.
  { exists (replicate (length rs) None). split_and!; [done|apply length_replicate|lia]. }
  destruct (IH ltac:(lia)) as (placed & H1 & H2 & H3).
  destruct (lookup_lt_is_Some_2 rs n ltac:(lia)) as [r Hrn]. destruct (lookup_lt_is_Some_2 alloc n ltac:(lia)) as [c Hc].
  assert (Hi : imap (fun i r => (i, r)) rs !! n = Some (n, r)) by (by rewrite list_lookup_imap Hrn).
  rewrite (take_S_r _ _ _ Hi) mfor_app H1. cbn [mbind result_bind mfor]. unfold py_nth. rewrite Hc. cbn [or_raise mbind result_bind].
  pose proof (Hr n c Hc) as Hrc. rewrite py_set_ok; [lia|]. cbn [mbind result_bind].
  eexists. split; [done|]. split; [by rewrite length_insert|]. intros i c' r' Hi' Hci Hri.
  destruct (decide (i = n)) as [->|Hne].
  - rewrite Hc in Hci. injection Hci as <-. rewrite Hrn in Hri. injection Hri as <-. apply list_lookup_insert_eq. lia.
  - rewrite list_lookup_insert_ne; [|apply (H3 i); [lia|done|done]]. intros E. apply Hne.
    pose proof (Hr i c' Hci). assert (c = c') as -> by lia. exact (NoDup_lookup _ _ _ _ Hnd Hci Hc).
Qed.

(** A list of distinct indices below its length runs over all of them. *)
Lemma alloc_perm (alloc : list Z) : NoDup alloc -> Forall (fun c => 0 <= c < Z.of_nat (length alloc)) alloc ->
  Z.to_nat <$> alloc ≡ₚ seq 0 (length alloc).
Proof.
  intros Hnd Hr. apply submseteq_length_Permutation.
  - apply NoDup_submseteq.
    + apply NoDup_alt. intros i j n Hi Hj. rewrite list_lookup_fmap in Hi. rewrite list_lookup_fmap in Hj.
      destruct (alloc !! i) as [c|] eqn:Ei; [|done]. destruct (alloc !! j) as [c'|] eqn:Ej; [|done].
      injection Hi as Hi. injection Hj as Hj. rewrite Forall_forall in Hr.
      pose proof (Hr c (list_elem_of_lookup_2 _ _ _ Ei)). pose proof (Hr c' (list_elem_of_lookup_2 _ _ _ Ej)).
      assert (c = c') as -> by lia. exact (NoDup_lookup _ _ _ _ Hnd Ei Ej).
    + intros n Hn. apply list_elem_of_fmap in Hn as (c & -> & Hc). rewrite Forall_forall in Hr. specialize (Hr c Hc).
      apply elem_of_seq. lia.
  - by rewrite length_fmap length_seq.
Qed.

Definition sortable (rs : list GenericPmuRequest) : Prop :=
  Forall (fun r => exists l, validPmc (g_event r) = Some (PmcSet l) /\ l <> [] /\ Forall (fun c => 0 <= c) l) rs.

Definition usable (i : nat) (r : GenericPmuRequest) : Prop := canUse (g_event r) (Z.of_nat i) = Ok true.

Lemma isSorted_spec rs : sortable rs -> exists b, isSorted rs = Ok b /\
  (b = true -> forall i r, rs !! i = Some r -> usable i r).
Proof.
  intros H. unfold isSorted. induction rs as [|r rs IH] using rev_ind; [by exists true|].
  apply Forall_app in H as [H Hr]. apply Forall_cons in Hr as [(l & Hl & _) _]. destruct (IH H) as (b & Hb & Hs).
  rewrite imap_app mfor_app Hb. cbn [mbind result_bind imap mfor]. rewrite Nat.add_0_r. destruct b; [|by exists false].
  unfold canUse. rewrite Hl. cbn [mbind result_bind]. eexists. split; [done|]. intros Hin i r' Hi.
  destruct (decide (i < length rs)%nat) as [Hlt|Hge].
  - rewrite lookup_app_l // in Hi. by apply Hs.
  - assert (i = length rs) as ->. { apply lookup_lt_Some in Hi. rewrite length_app /= in Hi. lia. }
    rewrite lookup_app_r // Nat.sub_diag in Hi. injection Hi as <-. unfold usable, canUse. by rewrite Hl Hin.
Qed.

Lemma all_some {A} (l : list (option A)) : Forall is_Some l -> exists k, l = Some <$> k.
Proof.
  intros H. induction H as [|o l [x ->] _ [k ->]]; [by exists []|]. by exists (x :: k).
Qed.

Lemma mapM_Some_id {A} (l : list A) : mapM (fun o : option A => o) (Some <$> l) = Some l.
Proof. induction l as [|x l IH]; [done|]. cbn. cbn in IH. by rewrite IH. Qed.

Lemma lookup_seq_all {A} (l : list A) : (fun k => l !! k) <$> seq 0 (length l) = Some <$> l.
Proof.
  apply list_eq. intros i. rewrite !list_lookup_fmap. destruct (decide (i < length l)%nat) as [Hlt|Hge].
  - rewrite lookup_seq_lt //. cbn. by destruct (lookup_lt_is_Some_2 l i Hlt) as [x ->].
  - rewrite (lookup_ge_None_2 l); [lia|]. rewrite lookup_ge_None_2 // length_seq. lia.
Qed.

Lemma some_perm {A} (l k : list A) : Some <$> l ≡ₚ Some <$> k -> l ≡ₚ k.
Proof.
  intros H. assert (E : forall l : list A, omap (fun o => o) (Some <$> l) = l).
  { clear. induction l as [|x l IH]; [done|]. cbn. by f_equal. }
  rewrite -(E l) -(E k). by apply omap_Permutation.
Qed.

(** An order that is found is a permutation, each request at a counter its event can use. *)
Lemma sort_requests_perm rs : rs <> [] -> sortable rs ->
  exists o, sort_requests rs = Ok o /\
    forall sorted, o = Some sorted -> sorted ≡ₚ rs /\ forall i r, sorted !! i = Some r -> usable i r.
Proof.
  intros Hne Hs. destruct (isSorted_spec rs Hs) as (b & Hb & Hsorted). unfold sort_requests. rewrite Hb. cbn [mbind result_bind].
  destruct b; [exists (Some rs); split; [done|]; intros ? [= <-]; by split; [|apply Hsorted]|].
  assert (Hsets : exists sets, mmap (fun r => pmc_set (g_event r)) rs = Ok sets /\
    Forall2 (fun r l => validPmc (g_event r) = Some (PmcSet l) /\ l <> [] /\ Forall (fun c => 0 <= c) l) rs sets).
  { clear -Hs. induction Hs as [|r rs (l & Hl & Hne & Hpos) _ (sets & Hsets & IH)]; [by exists []|].
    cbn [mmap]. unfold pmc_set. rewrite Hl. cbn [mbind result_bind]. unfold pmc_set in Hsets. rewrite Hsets.
    exists (l :: sets). by repeat constructor. }
  destruct Hsets as (sets & -> & Hf). cbn [mbind result_bind]. pose proof (Forall2_length _ _ _ Hf) as Hlen.
  assert (Hac : allocatable_constraints sets).
  { split; [by intros ->; destruct rs|]. clear -Hf. induction Hf as [|r l rs sets (_ & H1 & H2) _ IH]; by constructor. }
  destruct (Allocator_init_spec sets Hac) as (a & -> & Hal & Hr & Hinv). cbn [mbind result_bind].
  destruct (Nat.eqb_spec (slotCount a) (length sets)) as [Hslots|]; [|by exists None].
  destruct (allocate_spec sets (slotCount a) Hr (length rs) a Hinv) as (o & -> & Hv).
  { by rewrite Hal Hlen. }
  { intros E. rewrite E in Hal. destruct rs; [done|]. cbn in Hlen, Hal. lia. }
  cbn [mbind result_bind]. destruct o as [[|c0 alloc']|]; [by exists None| |by exists None].
  destruct (Hv _ eq_refl) as (Hvl & Hnd & Hval). set (alloc := c0 :: alloc') in *. clearbody alloc. clear Hv c0 alloc'.
  rewrite Hslots in Hval.
  destruct (placed_spec alloc rs Hnd) as (placed & -> & Hpl & Hplaced); [congruence|rewrite Hlen; naive_solver|].
  cbn [mbind result_bind].
  assert (Hperm : Z.to_nat <$> alloc ≡ₚ seq 0 (length rs)).
  { rewrite Hlen -Hvl. apply alloc_perm; [done|]. apply Forall_lookup. intros i c Hc. rewrite Hvl. by apply (Hval i c). }
  assert (Hfull : forall k, (k < length rs)%nat -> exists i r, alloc !! i = Some (Z.of_nat k) /\ rs !! i = Some r /\
    placed !! k = Some (Some r)).
  { intros k Hk. assert (Hin : k ∈ Z.to_nat <$> alloc) by (rewrite Hperm; apply elem_of_seq; lia).
    apply list_elem_of_fmap in Hin as (c & -> & Hc). apply list_elem_of_lookup in Hc as [i Hc].
    destruct (Hval i c Hc) as [Hcr _]. destruct (lookup_lt_is_Some_2 rs i) as [r Hri].
    { apply lookup_lt_Some in Hc. lia. }
    exists i, r. rewrite Z2Nat.id; [lia|]. split_and!; [done|done|exact (Hplaced i c r Hc Hri)]. }
  assert (Hsome : exists sorted, placed = Some <$> sorted).
  { apply all_some. apply Forall_lookup. intros k o Hk. destruct (Hfull k) as (i & r & _ & _ & Hp).
    { rewrite -Hpl. exact (lookup_lt_Some _ _ _ Hk). } rewrite Hk in Hp. injection Hp as ->. by eexists. }
  destruct Hsome as [sorted ->]. rewrite mapM_Some_id. exists (Some sorted). split; [done|]. intros ? [= <-].
  rewrite length_fmap in Hpl.
  assert (Hget : forall k, (k < length rs)%nat -> exists i r, alloc !! i = Some (Z.of_nat k) /\ rs !! i = Some r /\ sorted !! k = Some r).
  { intros k Hk. destruct (Hfull k Hk) as (i & r & H1 & H2 & H3). exists i, r. split_and!; [done|done|].
    rewrite list_lookup_fmap in H3. destruct (sorted !! k); [|done]. by injection H3 as ->. }
  split.
  - apply some_perm. rewrite -(lookup_seq_all sorted) Hpl -Hperm -list_fmap_compose.
    match goal with |- ?x ≡ₚ ?y => cut (x = y); [by intros ->|] end. apply list_eq. intros i. rewrite !list_lookup_fmap.
    destruct (alloc !! i) as [c|] eqn:Hc.
    + destruct (lookup_lt_is_Some_2 rs i) as [r Hri]. { apply lookup_lt_Some in Hc. lia. }
      rewrite Hri. cbn. pose proof (Hplaced i c r Hc Hri) as Hp. rewrite list_lookup_fmap in Hp.
      destruct (sorted !! Z.to_nat c); [|done]. by injection Hp as ->.
    + apply lookup_ge_None in Hc. rewrite lookup_ge_None_2 //. lia.
  - intros k r Hk. destruct (Hget k) as (i & r' & Hi & Hri & Hk'); [rewrite -Hpl; exact (lookup_lt_Some _ _ _ Hk)|].
    rewrite Hk in Hk'. injection Hk' as <-. destruct (Hval i _ Hi) as (_ & cs & Hcs & Hin).
    destruct (Forall2_lookup_lr _ _ _ _ _ _ Hf Hri Hcs) as (Hv & _). unfold usable, canUse. rewrite Hv.
    f_equal. by apply bool_decide_eq_true.
Qed.

(** Ordering generic requests for their counters never fails with
    an exception, and an order it finds has exactly the given requests, each at a counter
    its event can use. *)
Theorem sort_requests_sound rs : rs <> [] -> sortable rs ->
  exists o, sort_requests rs = Ok o /\
    forall sorted, o = Some sorted -> sorted ≡ₚ rs /\ forall i r, sorted !! i = Some r -> usable i r.
Proof. apply sort_requests_perm. Qed.

(** The allocator gives up on events that can be allocated: here the
    counters 0, 1 and 2 suit the three events, but the last event takes counter 1 first. *)
Theorem allocate_incomplete :
  (a ← Allocator_init [[0; 1]; [0; 1]; [1; 2]]; allocate 3 a) = Ok None /\
  valid_allocation [[0; 1]; [0; 1]; [1; 2]] 3 [0; 1; 2].
Proof.
  split; [vm_compute; reflexivity|]. split; [done|]. split.
  - repeat (apply NoDup_cons; split; [set_solver|]). apply NoDup_nil_2.
  - intros [|[|[|i]]] c Hc; try done; injection Hc as <-; split; try lia; eexists; (split; [done|set_solver]).
Qed.

(** *** The processors of an event set *)

(** The requests of an event set do not depend on its processors. *)
Definition same_requests (s s' : EventSet) : Prop :=
  genericRequests s' = genericRequests s /\ offcoreRequests s' = offcoreRequests s /\ fixedRequests s' = fixedRequests s.

Lemma addRequest_same s s' r t : same_requests s s' -> addRequest s r = Ok t -> exists t', addRequest s' r = Ok t' /\ same_requests t t'.
Proof.
  intros (Hg & Ho & Hf). destruct r as [g|o|f]; cbn [addRequest]; unfold addGenericPmuRequest, addOffcorePmuRequest, addFixedPmuRequest;
    rewrite Hg Ho Hf; destruct (_ <=? _)%nat; try done; intros [= <-]; eexists; (split; [done|]); split_and!; cbn; by rewrite ?Hg ?Ho ?Hf.
Qed.

Lemma resolveEvents_cpus db_get cpus cpus' events s : resolveEvents db_get cpus events = Ok s ->
  exists s', resolveEvents db_get cpus' events = Ok s' /\ same_requests s s'.
Proof.
  unfold resolveEvents. destruct (_ <? _)%nat; [done|]. intros H. apply bind_Ok in H as ([s1 n] & H & [= <-]).
  apply (mfor_sim (fun a b : EventSet * nat => same_requests a.1 b.1 /\ a.2 = b.2) _
    (fun '(s, n) e => '(rs, n) ← buildRequests db_get e n; s ← mfor addRequest s rs; Ok (s, n)) _ _ (EventSet_init cpus', 0%nat)) in H
    as ([s2 n2] & -> & Hs & _); [by exists s2| |done].
  clear. intros e [s n] [s' n'] [t k] [Hs En] H. cbn in Hs, En. subst n'. apply bind_Ok in H as ([rs k'] & -> & H). cbn [mbind result_bind].
  apply bind_Ok in H as (t1 & H & [= <- <-]). destruct (mfor_sim same_requests addRequest addRequest rs s s' t1 (fun r s s' t => addRequest_same s s' r t) Hs H)
    as (t2 & -> & Ht). by exists (t2, k').
Qed.

(** *** Examples *)

Definition ex_uevent (t : EventType) (name : string) (sel : Select) (pmc : PmcSpec) : UArchEvent :=
  mkUArchEvent t (Some name) (Some sel) (Some 1) (Some 2) (Some true) (Some "") (Some "") (Some pmc) None
    (Some "0") (Some 258) (Some 1) (Some false) (Some false) None None None None.
Definition ex_pmu_db (name : string) : option UArchEvent :=
  od_get String.eqb name
    [("CYCLES", ex_uevent FixedCore "CYCLES" (SelCode 0) (PmcFixed 1));
     ("LOADS", ex_uevent GenericCore "LOADS" (SelCode 208) (PmcSet [0; 1]));
     ("STALLS", ex_uevent GenericCore "STALLS" (SelCode 163) (PmcSet [0]));
     ("REMOTE", ex_uevent OffCore "REMOTE" (SelCodes [183; 187]) (PmcSet [0; 1; 2]))].
Definition ex_pmu_events : list Event :=
  [mkEvent "loads" "LOADS" true false; mkEvent "stalls" "STALLS" true true; mkEvent "remote" "REMOTE" true true;
   mkEvent "cycles" "CYCLES" true true].
Definition ex_resolved : EventSet :=
  match resolveEvents ex_pmu_db [0] ex_pmu_events with Ok s => s | Raise _ => EventSet_init [] end.
Definition ex_allocated : EventSet :=
  match buildEventSet ex_pmu_db [0] ex_pmu_events with Ok s => s | Raise _ => EventSet_init [] end.
Definition ex_group : list Z := match buildRequestGroup 5 ex_allocated with Ok g => g | Raise _ => [] end.

Lemma rawValue_fields_witness : exists v,
  rawValue (ex_uevent GenericCore "LOADS" (SelCode 208) (PmcSet [0])) = Ok v /\ v mod 256 = 208 /\ v = 44040656.
Proof.
  destruct (rawValue_fields (ex_uevent GenericCore "LOADS" (SelCode 208) (PmcSet [0])) 208 1 false true 2 true)
    as (v & H & _ & Hs & _); [reflexivity..|lia|lia|lia|].
  exists v. split; [exact H|]. split; [exact Hs|]. vm_compute in H. by injection H as <-.
Defined.

Lemma resolveEvents_spec_witness :
  resolveEvents ex_pmu_db [0] ex_pmu_events = Ok ex_resolved /\ resolved ex_pmu_db ex_pmu_events (ex_resolved, 1%nat).
Proof.
  assert (H : resolveEvents ex_pmu_db [0] ex_pmu_events = Ok ex_resolved) by (vm_compute; reflexivity).
  split; [exact H|]. exact (proj2 (resolveEvents_spec ex_pmu_db [0] ex_pmu_events ex_resolved H)).
Defined.

Lemma buildRequestGroup_layout_witness :
  buildRequestGroup 5 ex_allocated = Ok ex_group /\ length ex_group = 93%nat /\ take 4 ex_group = [5; 1; 3; 1].
Proof.
  assert (H : buildRequestGroup 5 ex_allocated = Ok ex_group) by (vm_compute; reflexivity).
  destruct (buildRequestGroup_layout 5 ex_allocated ex_group) as (H1 & _ & H2 & _);
    [vm_compute; lia|vm_compute; lia|vm_compute; lia|exact H|].
  split; [exact H|]. split; [exact H1|exact H2].
Defined.

Lemma allocate_sound_witness : exists a alloc,
  Allocator_init [[0; 1]; [0]] = Ok a /\ allocate 2 a = Ok (Some alloc) /\ valid_allocation [[0; 1]; [0]] (slotCount a) alloc.
Proof.
  destruct (allocate_sound [[0; 1]; [0]]) as (a & o & Ha & Ho & Hv).
  - split; [discriminate|]. repeat constructor; try discriminate; lia.
  - assert (E : o = Some [1; 0]).
    { vm_compute in Ha. injection Ha as <-. vm_compute in Ho. by injection Ho as <-. }
    exists a, [1; 0]. rewrite -E. split; [exact Ha|]. split; [exact Ho|]. by apply Hv.
Defined.

Lemma sort_requests_sound_witness : exists sorted,
  sort_requests (genericRequests ex_resolved) = Ok (Some sorted) /\ sorted ≡ₚ genericRequests ex_resolved /\
  g_name <$> sorted = ["stalls"; "loads"; "remote"].
Proof.
  destruct (sort_requests_sound (genericRequests ex_resolved)) as (o & Ho & Hs).
  - discriminate.
  - repeat (apply Forall_cons_2; [eexists; split; [reflexivity|split; [discriminate|repeat (constructor; [lia|]); constructor]]|]).
    constructor.
  - assert (E : exists sorted, o = Some sorted /\ g_name <$> sorted = ["stalls"; "loads"; "remote"]).
    { vm_compute in Ho. injection Ho as <-. eexists. split; reflexivity. }
    destruct E as (sorted & -> & En). exists sorted. split; [exact Ho|]. split; [by apply Hs|exact En].
Defined.
