(* ===== verification/EventsDb.v ===== *)
(** * The database of pmu events

    Models pmu/eventsLoader.py (records of the event specifications to events),
    pmu/eventsDb.py (lookup with a counter mask qualifier) and the lookup of
    specifications by cpu model in pmu/uarchspec/__init__.py.

    The JSON parser is the caller's: a record is the association list of its fields.
    Event names have no line breaks. *)

From Stdlib Require Import Ascii.
From S2P Require Import Prelude PyStr Probe Route Txn Timeline Pmu.

(** ** Loading records *)

Abbreviation Rec := (list (string * string)).

Definition rec_field (r : Rec) (name : string) : result string := or_raise KeyError_ (od_get String.eqb name r).

Definition strip_char (c : ascii) (l : chars) : chars :=
  let fix drop_front l := match l with d :: l' => if Ascii.eqb c d then drop_front l' else l | [] => [] end in
  rev (drop_front (rev (drop_front l))).

(** [set(...)] of integers, as an ascending list. *)
Definition int_set (l : list Z) : list Z := py_sort Z.leb (remove_dups l).

(** [decodePmcList]. *)
Definition decodePmcList (v : string) : result PmcSpec :=
  l ← mmap (py_int 10) (py_split "," (of_chars (strip_char (ascii_of_nat 34) (to_chars v))));
  Ok (PmcSet (int_set l)).

Definition fixedCounterPrefix : string := "Fixed counter ".

Definition decodeFixed (v : string) : result PmcSpec :=
  w ← py_nth (py_split fixedCounterPrefix v) 1; i ← py_int 10 w; Ok (PmcFixed i).

Definition nonzero (v : string) : result bool := i ← py_int 10 v; Ok (negb (i =? 0)).
Definition or_unknown (v : string) : string := if nonempty v then v else "unknown".

(** The converters of the factory for a type of event, applied to one field. *)
Definition set_field (t : EventType) (e : UArchEvent) (fieldName v : string) : result UArchEvent :=
  let 'mkUArchEvent ty nm es um cm inv bd de smt pmc mi mv at_ ed pe ta dl l1 er := e in
  let pmcs := match t with FixedCore => decodeFixed | _ => decodePmcList end in
  if String.eqb fieldName "EventName" then Ok (mkUArchEvent ty (Some v) es um cm inv bd de smt pmc mi mv at_ ed pe ta dl l1 er)
  else if String.eqb fieldName "EventCode" then
    sel ← (match t with
           | OffCore => l ← mmap (py_int 16) (py_split "," v); Ok (SelCodes l)
           | _ => c ← py_int 16 v; Ok (SelCode c)
           end);
    Ok (mkUArchEvent ty nm (Some sel) um cm inv bd de smt pmc mi mv at_ ed pe ta dl l1 er)
  else if String.eqb fieldName "UMask" then
    i ← py_int 16 v; Ok (mkUArchEvent ty nm es (Some i) cm inv bd de smt pmc mi mv at_ ed pe ta dl l1 er)
  else if String.eqb fieldName "CounterMask" then
    i ← py_int 10 v; Ok (mkUArchEvent ty nm es um (Some i) inv bd de smt pmc mi mv at_ ed pe ta dl l1 er)
  else if String.eqb fieldName "Invert" then
    b ← nonzero v; Ok (mkUArchEvent ty nm es um cm (Some b) bd de smt pmc mi mv at_ ed pe ta dl l1 er)
  else if String.eqb fieldName "BriefDescription" then
    Ok (mkUArchEvent ty nm es um cm inv (Some (or_unknown v)) de smt pmc mi mv at_ ed pe ta dl l1 er)
  else if String.eqb fieldName "PublicDescription" then
    Ok (mkUArchEvent ty nm es um cm inv bd (Some (or_unknown v)) smt pmc mi mv at_ ed pe ta dl l1 er)
  else if String.eqb fieldName "Counter" then
    p ← pmcs v; Ok (mkUArchEvent ty nm es um cm inv bd de (Some p) pmc mi mv at_ ed pe ta dl l1 er)
  else if String.eqb fieldName "CounterHTOff" then
    p ← pmcs v; Ok (mkUArchEvent ty nm es um cm inv bd de smt (Some p) mi mv at_ ed pe ta dl l1 er)
  else if String.eqb fieldName "MSRIndex" then
    Ok (mkUArchEvent ty nm es um cm inv bd de smt pmc (Some v) mv at_ ed pe ta dl l1 er)
  else if String.eqb fieldName "MSRValue" then
    i ← py_int 16 v; Ok (mkUArchEvent ty nm es um cm inv bd de smt pmc mi (Some i) at_ ed pe ta dl l1 er)
  else if String.eqb fieldName "AnyThread" then
    i ← py_int 10 v; Ok (mkUArchEvent ty nm es um cm inv bd de smt pmc mi mv (Some i) ed pe ta dl l1 er)
  else if String.eqb fieldName "EdgeDetect" then
    b ← nonzero v; Ok (mkUArchEvent ty nm es um cm inv bd de smt pmc mi mv at_ (Some b) pe ta dl l1 er)
  else if String.eqb fieldName "PEBS" then
    b ← nonzero v; Ok (mkUArchEvent ty nm es um cm inv bd de smt pmc mi mv at_ ed (Some b) ta dl l1 er)
  else if String.eqb fieldName "TakenAlone" then
    b ← nonzero v; Ok (mkUArchEvent ty nm es um cm inv bd de smt pmc mi mv at_ ed pe (Some b) dl l1 er)
  else if String.eqb fieldName "Data_LA" then
    b ← nonzero v; Ok (mkUArchEvent ty nm es um cm inv bd de smt pmc mi mv at_ ed pe ta (Some b) l1 er)
  else if String.eqb fieldName "L1_Hit_Indication" then
    b ← nonzero v; Ok (mkUArchEvent ty nm es um cm inv bd de smt pmc mi mv at_ ed pe ta dl (Some b) er)
  else if String.eqb fieldName "Errata" then
    Ok (mkUArchEvent ty nm es um cm inv bd de smt pmc mi mv at_ ed pe ta dl l1 (Some v))
  else Ok e.

(** [ObjectFactory.build]. *)
Definition build_event (t : EventType) (r : Rec) : result UArchEvent :=
  mfor (fun e f => set_field t e f.1 f.2) (UArchEvent_init t) r.

(** [isOffcoreEventRecord], the test [jsonFactory] makes as well. *)
Definition isOffcoreEventRecord (r : Rec) : result bool :=
  flag ← (match od_get String.eqb "Offcore" r with Some v => py_int 10 v | None => Ok 0 end);
  if negb (flag =? 0) then Ok true
  else name ← rec_field r "EventName"; Ok (String.eqb name "OFFCORE_RESPONSE").

(** [jsonFactory]: the type of a record, and the event it builds. *)
Definition record_type (r : Rec) : result EventType :=
  off ← isOffcoreEventRecord r;
  if off : bool then Ok OffCore
  else counter ← rec_field r "Counter";
       if starts_with (to_chars fixedCounterPrefix) (to_chars counter) then Ok FixedCore else Ok GenericCore.

Definition load_record (r : Rec) : result UArchEvent := t ← record_type r; build_event t r.

Abbreviation EventsMap := (list (string * UArchEvent)).

(** [eventsDb.update({event.name : event})]. *)
Definition put (db : EventsMap) (e : UArchEvent) : EventsMap := od_set String.eqb (default "" (u_name e)) e db.

(** One pass of the loop of [loadJson]: the database, the number of uninitialized events
    and of incompatible records; an event without a name counts as uninitialized. *)
Definition load_step (s : EventsMap * nat * nat) (r : Rec) : EventsMap * nat * nat :=
  let '(db, u, i) := s in
  match load_record r with
  | Raise _ => (db, u, S i)
  | Ok e => if unInitialized e then (db, S u, i) else (put db e, u, i)
  end.

(** [loadJson]: failures are collected and reported at the end. *)
Definition loadJson (records : list Rec) : result EventsMap :=
  let '(db, uninitialized, incompatible) := fold_left load_step records ([], 0%nat, 0%nat) in
  if (0 <? uninitialized)%nat then Raise Exception_
  else if (0 <? incompatible)%nat then Raise Exception_
  else Ok db.

(** ** Qualified names *)

Definition is_hex_lower (c : ascii) : bool :=
  existsb (Ascii.eqb c) (to_chars "0123456789abcdef").

(** The group of the regular expression [c(?:mask=)?(0x[0-9a-f]+|[0-9]+)] at the start. *)
Definition cmask_group (q : string) : option string :=
  match to_chars q with
  | c :: rest =>
      if Ascii.eqb c "c" then
        let rest := if starts_with (to_chars "mask=") rest then drop 5 rest else rest in
        match (if starts_with (to_chars "0x") rest then take_while is_hex_lower (drop 2 rest) else []) with
        | (_ :: _) as hex => Some (of_chars (to_chars "0x" ++ hex))
        | [] => match take_while is_digit rest with [] => None | ds => Some (of_chars ds) end
        end
      else None
  | [] => None
  end.

(** [CmaskQualifier.match]; the group is read in base 16. *)
Definition cmask_match (q : string) : result (option Z) :=
  match cmask_group q with Some g => v ← py_int 16 g; Ok (Some v) | None => Ok None end.

(** [stripQualifier]. *)
Definition stripQualifier (eventName : string) : string * option string :=
  match find_sub [":"%char] (to_chars eventName) with
  | Some i => (slice_to i eventName, Some (slice_from (i + 1) eventName))
  | None => (eventName, None)
  end.

Definition match_opt (q : option string) : result (option Z) :=
  match q with Some q => cmask_match q | None => Raise TypeError_ end.

(** [EventsDb.__contains__]. *)
Definition db_contains (db : EventsMap) (eventName : string) : result bool :=
  if od_mem String.eqb eventName db then Ok true
  else let '(name, qualifiers) := stripQualifier eventName in
       if od_mem String.eqb name db then
         match match_opt qualifiers with Ok o => Ok (bool_decide (is_Some o)) | Raise x => Raise x end
       else Ok false.

(** The deep copy with its new name and counter mask. *)
Definition with_cmask (e : UArchEvent) (eventName : string) (mask : Z) : UArchEvent :=
  let 'mkUArchEvent ty nm es um cm inv bd de smt pmc mi mv at_ ed pe ta dl l1 er := e in
  mkUArchEvent ty (Some eventName) es um (Some mask) inv bd de smt pmc mi mv at_ ed pe ta dl l1 er.

(** [EventsDb.__getitem__]. *)
Definition db_getitem (db : EventsMap) (eventName : string) : result (option UArchEvent) :=
  match od_get String.eqb eventName db with
  | Some e => Ok (Some e)
  | None =>
      let '(name, qualifiers) := stripQualifier eventName in
      match od_get String.eqb name db with
      | None => Raise KeyError_
      | Some e =>
          match match_opt qualifiers with
          | Ok o => Ok (option_map (with_cmask e eventName) o)
          | Raise x => Raise x
          end
      end
  end.

(** The lookup the request factory makes: [in] first, then the item. *)
Definition db_lookup (db : EventsMap) (eventName : string) : option UArchEvent :=
  match db_contains db eventName with
  | Ok true => match db_getitem db eventName with Ok o => o | Raise _ => None end
  | _ => None
  end.

(** ** Specifications by cpu model *)

(** [fnmatch.fnmatch] on patterns with [*], [?] and bracketed sets of characters. *)
Fixpoint bracket_end (seen : chars) (l : chars) : option (chars * chars) :=
  match l with
  | [] => None
  | c :: l => if (Ascii.eqb c "]" && negb (bool_decide (seen = [])))%bool then Some (rev seen, l) else bracket_end (c :: seen) l
  end.

Fixpoint in_set (c : ascii) (s : chars) : bool :=
  match s with
  | a :: (m :: b :: s') as s0 =>
      if Ascii.eqb m "-" then ((nat_of_ascii a <=? nat_of_ascii c)%nat && (nat_of_ascii c <=? nat_of_ascii b)%nat) || in_set c s'
      else Ascii.eqb a c || in_set c s0
  | a :: s' => Ascii.eqb a c || in_set c s'
  | [] => false
  end.

Fixpoint glob (fuel : nat) (p l : chars) : bool :=
  match fuel with
  | O => false
  | S fuel =>
      match p with
      | [] => match l with [] => true | _ => false end
      | c :: p' =>
          if Ascii.eqb c "*" then glob fuel p' l || (match l with [] => false | _ :: l' => glob fuel p l' end)
          else if Ascii.eqb c "?" then match l with [] => false | _ :: l' => glob fuel p' l' end
          else
            match (if Ascii.eqb c "[" then bracket_end [] p' else None), l with
            | _, [] => false
            | Some ("!"%char :: s, rest), d :: l' => negb (in_set d s) && glob fuel rest l'
            | Some (s, rest), d :: l' => in_set d s && glob fuel rest l'
            | None, d :: l' => Ascii.eqb c d && glob fuel p' l'
            end
      end
  end.
Definition fnmatch (name pattern : string) : bool :=
  glob (S (String.length name + String.length pattern)) (to_chars pattern) (to_chars name).

Record UarchSpec := mkUarchSpec { s_cpuId : string; s_name : string; coreEventsDbFile : option string; uncoreEventsDbFile : option string }.

(** A row of the manifest. *)
Record MapRow := mkMapRow { row_family : string; row_file : string; row_type : string; row_role : string }.

(** [UarchSpecDb.__init__] for one row. *)
Definition add_row (dir : string) (m : list (string * UarchSpec)) (r : MapRow) : list (string * UarchSpec) :=
  let cpuId := py_strip (row_family r) in
  let file := py_strip (row_file r) in
  let role := py_strip (row_role r) in
  if (nonempty role && negb (String.eqb (py_lower role) "core"))%bool then m
  else
    let m := if od_mem String.eqb cpuId m then m
             else od_set String.eqb cpuId (mkUarchSpec cpuId (py_strip (basename (dirname file))) None None) m in
    let type := py_strip (row_type r) in
    let path := String.append dir file in
    od_alter String.eqb (fun s =>
      if (String.eqb type "core" || String.eqb type "hybridcore")%bool then mkUarchSpec (s_cpuId s) (s_name s) (Some path) (uncoreEventsDbFile s)
      else if String.eqb type "uncore" then mkUarchSpec (s_cpuId s) (s_name s) (coreEventsDbFile s) (Some path)
      else s) cpuId m.
Definition UarchSpecDb_init (dir : string) (rows : list MapRow) : list (string * UarchSpec) := fold_left (add_row dir) rows [].

Definition stripStepping (cpuId : string) : result string :=
  let words := py_split "-" cpuId in
  a ← py_nth words 0; b ← py_nth words 1; c ← py_nth words 2; Ok (py_join "-" [a; b; c]).

(** [UarchSpecDb.__getitem__]: the id, the id without its stepping, the last pattern. *)
Definition spec_getitem (m : list (string * UarchSpec)) (cpuId : string) : result (option UarchSpec) :=
  match od_get String.eqb cpuId m with
  | Some s => Ok (Some s)
  | None =>
      stripped ← stripStepping cpuId;
      match od_get String.eqb stripped m with
      | Some s => Ok (Some s)
      | None => Ok (fold_left (fun o p => if fnmatch cpuId p.1 then Some p.2 else o) m None)
      end
  end.

(** ** Loading the database *)

(** The last event of that name. *)
Definition last_named (n : string) (events : list UArchEvent) : option UArchEvent :=
  last (filter (fun e => String.eqb n (default "" (u_name e)) = true) events).

Lemma put_all_get n events db :
  od_get String.eqb n (fold_left put events db) =
  match last_named n events with Some e => Some e | None => od_get String.eqb n db end.
Proof.
  revert db. induction events as [|e events IH]; intros db; [done|]. cbn [fold_left]. rewrite IH.
  unfold last_named. rewrite (filter_cons_bool (fun e => String.eqb n (default "" (u_name e)))).
  unfold put at 1. rewrite od_get_set String.eqb_sym.
  destruct (String.eqb n (default "" (u_name e))); [|done].
  rewrite last_cons. by destruct (last _).
Qed.

Lemma load_steps_spec records db u i :
  exists events db' u' i', fold_left load_step records (db, u, i) = (db', u', i') /\ (u <= u')%nat /\ (i <= i')%nat /\
    ((u' = u /\ i' = i) <-> Forall (fun r => exists e, load_record r = Ok e /\ unInitialized e = false) records) /\
    (u' = u -> i' = i -> Forall2 (fun r e => load_record r = Ok e /\ unInitialized e = false) records events /\
       db' = fold_left put events db).
Proof.
  revert db u i. induction records as [|r records IH]; intros db u i.
  { exists [], db, u, i. split_and!; [done|lia|lia|by split|by split; [constructor|]]. }
  cbn [fold_left]. destruct (load_record r) as [e|x] eqn:E; cbn [load_step]; rewrite E; [destruct (unInitialized e) eqn:Eu|].
  2: { destruct (IH (put db e) u i) as (events & db' & u' & i' & -> & Hu & Hi & Hiff & Hf).
       exists (e :: events), db', u', i'. split_and!; [done|done|done| |].
       - rewrite Forall_cons -Hiff. split; [intros H; split; [by exists e|done]|by intros [_ H]].
       - intros -> ->. destruct Hf as [Hf ->]; [done..|]. by repeat constructor. }
  - destruct (IH db (S u) i) as (events & db' & u' & i' & -> & Hu & Hi & _ & _).
    exists events, db', u', i'. split_and!; [done|lia|lia| |lia].
    split; [lia|]. intros H. apply Forall_cons in H as [(e' & He & Hu') _]. congruence.
  - destruct (IH db u (S i)) as (events & db' & u' & i' & -> & Hu & Hi & _ & _).
    exists events, db', u', i'. split_and!; [done|lia|lia| |lia].
    split; [lia|]. intros H. apply Forall_cons in H as [(e' & He & Hu') _]. congruence.
Qed.

Lemma load_json records :
  match loadJson records with
  | Ok db => exists events,
      Forall2 (fun r e => load_record r = Ok e /\ unInitialized e = false) records events /\
      forall n, od_get String.eqb n db = last_named n events
  | Raise x => x = Exception_ /\
      ~ Forall (fun r => exists e, load_record r = Ok e /\ unInitialized e = false) records
  end.
Proof.
  unfold loadJson.
  destruct (load_steps_spec records [] 0 0) as (events & db & u & i & -> & _ & _ & Hiff & Hf).
  destruct (Nat.ltb_spec 0 u); [|destruct (Nat.ltb_spec 0 i)]; [split; [done|]; rewrite -Hiff; lia..|].
  destruct Hf as [Hf ->]; [lia..|]. exists events. split; [done|]. intros n. rewrite put_all_get. by destruct (last_named n events).
Qed.

(** The database loads exactly when every record builds an initialized
    event; every name then looks up the last event of that name. *)
Theorem loadJson_spec records :
  match loadJson records with
  | Ok db => exists events,
      Forall2 (fun r e => load_record r = Ok e /\ unInitialized e = false) records events /\
      forall n, od_get String.eqb n db = last_named n events
  | Raise x => x = Exception_ /\
      ~ Forall (fun r => exists e, load_record r = Ok e /\ unInitialized e = false) records
  end.
Proof. apply load_json. Qed.

(** ** Qualified lookup *)

Lemma stripQualifier_colon name q : ":"%char ∉ to_chars name ->
  stripQualifier (of_chars (to_chars name ++ ":"%char :: to_chars q)) = (name, Some q).
Proof.
  intros H. unfold stripQualifier. rewrite to_of_chars find_sub_char //. unfold slice_to, slice_from.
  rewrite to_of_chars take_app_length drop_app_ge; [lia|].
  replace (length (to_chars name) + 1 - length (to_chars name))%nat with 1%nat by lia. cbn. by rewrite !of_to_chars.
Qed.

(** An event is in the database exactly when looking it up gives one. *)
Lemma db_contains_getitem db n :
  db_contains db n = Ok true <-> exists e, db_getitem db n = Ok (Some e).
Proof.
  unfold db_contains, db_getitem, od_mem. destruct (od_get String.eqb n db); [naive_solver|].
  destruct (stripQualifier n) as [name q]. destruct (od_get String.eqb name db) as [e|]; [|naive_solver].
  destruct (match_opt q) as [[v|]|x]; cbn; naive_solver.
Qed.

Lemma take_while_all p l : Forall (fun c => p c = true) l -> take_while p l = l.
Proof. induction 1 as [|c l Hc _ IH]; [done|]. cbn. by rewrite Hc IH. Qed.

Lemma is_hex_lower_in c : c ∈ to_chars "0123456789abcdef" -> is_hex_lower c = true.
Proof. intros H. apply existsb_exists. exists c. split; [by apply list_elem_of_In|apply Ascii.eqb_refl]. Qed.

(** The qualifier that spells a mask in hexadecimal, with or without [mask=]. *)
Definition cmask_qualifier (long : bool) (m : Z) : string :=
  of_chars (to_chars (if long then "cmask=0x" else "c0x") ++ print_nat 16 m).

Lemma cmask_group_hex (long : bool) l : l <> [] -> Forall (fun c => is_hex_lower c = true) l ->
  cmask_group (of_chars (to_chars (if long then "cmask=0x" else "c0x") ++ l)) = Some (of_chars (to_chars "0x" ++ l)).
Proof.
  intros Hne H. unfold cmask_group. rewrite to_of_chars. destruct long; cbn -[is_hex_lower take_while].
  all: rewrite drop_0 (take_while_all _ _ H); by destruct l.
Qed.

Lemma parse_int_0x l n : l <> [] -> Forall (fun c => exists d, c = digit_char d /\ 0 <= d < 16) l ->
  fold_left (fun a c => a * 16 + digit_raw c) l 0 = n -> parse_int 16 (of_chars (to_chars "0x" ++ l)) = Some n.
Proof.
  intros Hne Hds Hv. unfold parse_int. rewrite to_of_chars strip_chars_id.
  { repeat apply Forall_cons_2; [done..|]. eapply Forall_impl; [exact Hds|].
    intros c (d & -> & Hd). apply digit_char_facts. lia. }
  destruct l as [|c l]; [done|].
  assert (exists d, c = digit_char d /\ 0 <= d < 16) as (d & -> & Hd) by (by apply Forall_cons in Hds as [? _]).
  destruct (digit_char_facts d) as (H0 & _); [lia|].
  change (to_chars "0x" ++ digit_char d :: l) with ("0"%char :: "x"%char :: digit_char d :: l).
  set (rest := digit_char d :: l). cbn [Ascii.eqb Bool.eqb].
  change (strip_0x 16 ("0"%char :: "x"%char :: rest)) with (true, rest). subst rest. cbv iota beta.
  rewrite (proj2 (Ascii.eqb_neq _ _) H0) andb_false_r.
  rewrite -(app_nil_r (digit_char d :: l)) digits_val_app; [lia|done|done|]. cbn. by rewrite -Hv.
Qed.

Lemma cmask_qualifier_match long m : 0 <= m -> cmask_match (cmask_qualifier long m) = Ok (Some m).
Proof.
  intros Hm. destruct (print_nat_spec 16 m) as (Hne & Hds & Hv); [lia|done|].
  unfold cmask_match, cmask_qualifier. rewrite cmask_group_hex //.
  { eapply Forall_impl; [exact Hds|]. intros c (d & -> & Hd). by apply is_hex_lower_in, digit_char_in. }
  unfold py_int. by rewrite (parse_int_0x _ m).
Qed.

Lemma take_while_Forall p l : Forall (fun c => p c = true) (take_while p l).
Proof. induction l as [|c l IH]; cbn; [constructor|]. destruct (p c) eqn:E; by constructor. Qed.

Lemma hex_digit c : existsb (Ascii.eqb c) (to_chars "0123456789abcdef") = true ->
  exists d, c = digit_char d /\ 0 <= d < 16.
Proof.
  intros H. exists (digit_raw c). cbn in H.
  repeat (apply orb_true_iff in H as [H|H]; [apply Ascii.eqb_eq in H as ->; by vm_compute|]). done.
Qed.

(** Matching a qualifier never raises: the group consists of hexadecimal digits. *)
Lemma cmask_match_total q : exists o, cmask_match q = Ok o.
Proof.
  unfold cmask_match. destruct (cmask_group q) as [g|] eqn:E; [|by eexists].
  cut (exists n, parse_int 16 g = Some n); [intros [n H]; exists (Some n); by rewrite /py_int H|].
  unfold cmask_group in E. destruct (to_chars q) as [|c l]; [done|]. destruct (Ascii.eqb c "c"); [|done].
  set (r := if starts_with _ l then _ else _) in E.
  set (h := if starts_with (to_chars "0x") r then _ else _) in E.
  assert (Hh : Forall (fun c => is_hex_lower c = true) h).
  { subst h. destruct (starts_with _ r); [apply take_while_Forall|constructor]. }
  clearbody h.
  destruct h as [|x h].
  - pose proof (take_while_Forall is_digit r) as Hd. destruct (take_while is_digit r) as [|y ds] eqn:Ed; [done|].
    injection E as <-. eexists. apply (parse_int_chars 16 (y :: ds)); [lia| |done|reflexivity].
    eapply Forall_impl; [exact Hd|]. intros a Ha. apply hex_digit. apply existsb_exists in Ha as (b & Hb & Hab).
    apply existsb_exists. exists b. split; [|done]. cbn in Hb |- *. tauto.
  - injection E as <-. eexists. apply (parse_int_0x (x :: h)); [done| |reflexivity].
    eapply Forall_impl; [exact Hh|]. intros a Ha. by apply hex_digit.
Qed.

(** The membership test decides whether a lookup gives an event, and raises nothing; the
    request factories can look events up through it. *)
Lemma db_lookup_contains db n :
  db_contains db n = Ok (bool_decide (is_Some (db_lookup db n))) /\
  forall e, db_lookup db n = Some e -> db_getitem db n = Ok (Some e).
Proof.
  assert (exists b, db_contains db n = Ok b) as [b Hb].
  { unfold db_contains. destruct (od_mem _ n _) eqn:Em; [by eexists|]. destruct (stripQualifier n) as [name [q|]] eqn:E.
    - destruct (od_mem String.eqb name db); [|by exists false]. cbn. destruct (cmask_match_total q) as [o ->]. by exists (bool_decide (is_Some o)).
    - unfold stripQualifier in E. destruct (find_sub _ _); [done|]. injection E as <-. rewrite Em. by eexists. }
  unfold db_lookup. rewrite Hb. destruct b.
  - apply db_contains_getitem in Hb as [e ->]. split; [by rewrite bool_decide_true|by intros ? [= <-]].
  - split; [|done]. rewrite bool_decide_false; [by intros []|done].
Qed.

(** Only the name and the counter mask of the copy differ. *)
Lemma with_cmask_fields e n m :
  let e' := with_cmask e n m in
  u_name e' = Some n /\ counterMask e' = Some m /\ eventType e' = eventType e /\ eventSelect e' = eventSelect e /\
  unitMask e' = unitMask e /\ edgeDetect e' = edgeDetect e /\ anyThread e' = anyThread e /\ invert e' = invert e /\
  validPmc e' = validPmc e /\ msrIndex e' = msrIndex e /\ msrValue e' = msrValue e.
Proof. by destruct e. Qed.

(** A loaded database hands an event out under the name it was asked for. *)
Lemma db_lookup_name records db n e : loadJson records = Ok db -> db_lookup db n = Some e -> u_name e = Some n.
Proof.
  intros Hdb H. apply db_lookup_contains in H. pose proof (load_json records) as Hl. rewrite Hdb in Hl.
  destruct Hl as (events & Hev & Hget). unfold db_getitem in H. destruct (od_get String.eqb n db) as [e0|] eqn:E.
  - injection H as ->. rewrite Hget in E. unfold last_named in E. apply last_Some_elem_of, list_elem_of_filter in E as [Hn Hin].
    apply list_elem_of_lookup in Hin as [i Hi]. destruct (Forall2_lookup_r _ _ _ _ _ Hev Hi) as (r & _ & _ & Hu).
    unfold unInitialized in Hu. destruct (u_name e) as [nm|]; [|done]. cbn in Hn. by apply String.eqb_eq in Hn as ->.
  - destruct (stripQualifier n) as [name q]. destruct (od_get String.eqb name db) as [e0|]; [|done].
    destruct (match_opt q) as [[v|]|]; try done. injection H as <-. apply (with_cmask_fields e0 n v).
Qed.

(** A name of the database qualified by [:cmask=0xM] (or
    [:c0xM]) is in the database; it looks up a copy of the event that can be placed in the
    same counters, and whose raw value differs from that of the event by its mask only. *)
Theorem qualified_lookup db name e long m sel um ed at_ cm inv :
  let full := of_chars (to_chars name ++ ":"%char :: to_chars (cmask_qualifier long m)) in
  ":"%char ∉ to_chars name -> od_get String.eqb name db = Some e -> od_get String.eqb full db = None ->
  eventSelect e = Some (SelCode sel) -> unitMask e = Some um -> edgeDetect e = Some ed ->
  anyThread e = Some (b2z at_) -> counterMask e = Some cm -> invert e = Some inv ->
  0 <= sel < 256 -> 0 <= um < 256 -> 0 <= cm -> 0 <= m ->
  db_contains db full = Ok true /\
  exists e' v, db_getitem db full = Ok (Some e') /\ u_name e' = Some full /\ validPmc e' = validPmc e /\
    rawValue e = Ok v /\ rawValue e' = Ok (v + (m - cm) * 2 ^ 24).
Proof.
  intros full Hc Hget Hfull H1 H2 H3 H4 H5 H6 Hs Hu Hcm Hm.
  assert (Hitem : db_getitem db full = Ok (Some (with_cmask e full m))).
  { unfold db_getitem. rewrite Hfull /full stripQualifier_colon // Hget. unfold match_opt.
    by rewrite cmask_qualifier_match. }
  split; [apply db_contains_getitem; exact (ex_intro _ _ Hitem)|].
  destruct (with_cmask_fields e full m) as (F1 & F2 & _ & F3 & F4 & F5 & F6 & F7 & F8 & _).
  exists (with_cmask e full m). eexists. split_and!; [done..| |].
  - by apply (rawValue_sum e sel um ed at_ cm inv).
  - rewrite (rawValue_sum _ sel um ed at_ m inv) //; try congruence. f_equal. lia.
Qed.

(** A decimal mask is read in base 16 as well. *)
Example decimal_mask : cmask_match "cmask=10" = Ok (Some 16).
Proof. reflexivity. Qed.

(** ** Specifications *)

(** The rows that describe the cores of a cpu model. *)
Definition core_row (cpuId : string) (r : MapRow) : bool :=
  (negb (nonempty (py_strip (row_role r)) && negb (String.eqb (py_lower (py_strip (row_role r))) "core"))
   && String.eqb cpuId (py_strip (row_family r)))%bool.

Definition row_spec_name (r : MapRow) : string := py_strip (basename (dirname (py_strip (row_file r)))).
Definition row_path (dir : string) (r : MapRow) : string := String.append dir (py_strip (row_file r)).
Definition is_core_type (r : MapRow) : bool :=
  (String.eqb (py_strip (row_type r)) "core" || String.eqb (py_strip (row_type r)) "hybridcore")%bool.
Definition is_uncore_type (r : MapRow) : bool :=
  (negb (is_core_type r) && String.eqb (py_strip (row_type r)) "uncore")%bool.

(** The specification a list of rows of one cpu model amounts to. *)
Definition rows_spec (dir cpuId : string) (rows : list MapRow) : option UarchSpec :=
  match rows with
  | [] => None
  | r :: _ => Some (mkUarchSpec cpuId (row_spec_name r)
                (last (row_path dir <$> filter (fun r => is_core_type r = true) rows))
                (last (row_path dir <$> filter (fun r => is_uncore_type r = true) rows)))
  end.

Lemma spec_get_alter {V} (f : V -> V) k k' (d : list (string * V)) :
  od_get String.eqb k' (od_alter String.eqb f k d) =
  if String.eqb k k' then option_map f (od_get String.eqb k d) else od_get String.eqb k' d.
Proof.
  induction d as [|[k2 v] d IH]; cbn; [by destruct (String.eqb k k')|].
  destruct (String.eqb_spec k k2) as [->|Hk]; cbn.
  - rewrite (String.eqb_sym k'). by destruct (String.eqb k2 k').
  - destruct (String.eqb_spec k' k2) as [->|Hk']; [|done]. by rewrite (proj2 (String.eqb_neq _ _) Hk).
Qed.

Lemma filter_snoc_bool {A} (f : A -> bool) (l : list A) x :
  filter (fun y => f y = true) (l ++ [x]) =
  filter (fun y => f y = true) l ++ (if f x then [x] else []).
Proof. by rewrite filter_app (filter_cons_bool f). Qed.

Lemma rows_spec_snoc dir c rows r : rows_spec dir c (rows ++ [r]) =
  let s := default (mkUarchSpec c (row_spec_name r) None None) (rows_spec dir c rows) in
  Some (if is_core_type r then mkUarchSpec (s_cpuId s) (s_name s) (Some (row_path dir r)) (uncoreEventsDbFile s)
        else if is_uncore_type r then mkUarchSpec (s_cpuId s) (s_name s) (coreEventsDbFile s) (Some (row_path dir r))
        else s).
Proof.
  assert (Hu : is_core_type r = true -> is_uncore_type r = false) by (unfold is_uncore_type; by intros ->).
  destruct rows as [|r0 rows].
  - cbn [app rows_spec default]. rewrite (filter_cons_bool is_core_type) (filter_cons_bool is_uncore_type).
    destruct (is_core_type r); [rewrite Hu //|destruct (is_uncore_type r)]; done.
  - cbn [rows_spec]. change ((r0 :: rows) ++ [r]) with (r0 :: rows ++ [r]). cbn [rows_spec default].
    change (r0 :: rows ++ [r]) with ((r0 :: rows) ++ [r]). rewrite (filter_snoc_bool is_core_type) (filter_snoc_bool is_uncore_type).
    rewrite !fmap_app. cbn [s_cpuId s_name coreEventsDbFile uncoreEventsDbFile].
    destruct (is_core_type r); [rewrite Hu //|destruct (is_uncore_type r)]; cbn [fmap list_fmap];
      by rewrite ?last_snoc ?app_nil_r.
Qed.

(** A cpu model has a specification exactly when a core row of the
    manifest names it: the directory of its first row is its name, and the files of its
    last core and uncore rows are its event files. *)
Theorem UarchSpecDb_init_spec dir rows cpuId :
  od_get String.eqb cpuId (UarchSpecDb_init dir rows) =
  rows_spec dir cpuId (filter (fun r => core_row cpuId r = true) rows).
Proof.
  unfold UarchSpecDb_init. induction rows as [|r rows IH] using rev_ind; [done|].
  rewrite fold_left_app (filter_snoc_bool (core_row cpuId)). cbn [fold_left]. revert IH.
  generalize (fold_left (add_row dir) rows []) as m. generalize (filter (fun r => core_row cpuId r = true) rows) as rs.
  intros rs m IH. unfold add_row, core_row.
  destruct (nonempty _ && negb _)%bool; cbn [negb andb]; [by rewrite app_nil_r|].
  rewrite spec_get_alter. rewrite (String.eqb_sym cpuId). set (c := py_strip (row_family r)).
  destruct (String.eqb_spec c cpuId) as [Ec|Ec].
  - rewrite Ec rows_spec_snoc. unfold od_mem. rewrite IH. unfold is_uncore_type. fold (is_core_type r).
    destruct (rows_spec dir cpuId rs) as [s|] eqn:Es.
    + rewrite IH. cbn [option_map default]. by destruct (is_core_type r).
    + rewrite od_get_set String.eqb_refl. cbn [option_map default]. by destruct (is_core_type r).
  - rewrite app_nil_r. destruct (od_mem _ _ _); [done|]. rewrite od_get_set. by rewrite (proj2 (String.eqb_neq _ _) Ec).
Qed.

(** ** Witnesses *)

Definition ex_record : Rec :=
  [("EventName", "LOADS"); ("EventCode", "0xD0"); ("UMask", "0x01"); ("CounterMask", "0"); ("Invert", "0");
   ("BriefDescription", ""); ("PublicDescription", "all loads"); ("Counter", "0,1,2,3"); ("CounterHTOff", "0,1,2,3,4,5,6,7");
   ("MSRIndex", "0x00"); ("MSRValue", "0x00"); ("AnyThread", "0"); ("EdgeDetect", "0"); ("PEBS", "1")].
Definition ex_db : EventsMap := match loadJson [ex_record] with Ok db => db | Raise _ => [] end.
Definition ex_loads : UArchEvent := default (UArchEvent_init GenericCore) (od_get String.eqb "LOADS" ex_db).

Lemma qualified_lookup_witness :
  db_contains ex_db "LOADS:cmask=0x2" = Ok true /\
  exists e', db_getitem ex_db "LOADS:cmask=0x2" = Ok (Some e') /\ rawValue ex_loads = Ok 464 /\
    rawValue e' = Ok (464 + (2 - 0) * 2 ^ 24).
Proof.
  destruct (qualified_lookup ex_db "LOADS" ex_loads true 2 208 1 false false 0 false) as (Hc & e' & v & H1 & _ & _ & H2 & H3);
    [vm_compute; set_solver|vm_compute; reflexivity|vm_compute; reflexivity|vm_compute; reflexivity..|lia|lia|lia|lia|].
  assert (v = 464) as -> by (vm_compute in H2; congruence).
  split; [exact Hc|]. exists e'. split; [exact H1|]. split; [exact H2|exact H3].
Defined.

Example ex_unloadable : loadJson [ex_record; [("EventName", "X")]] = Raise Exception_.
Proof. vm_compute. reflexivity. Qed.

Example ex_fnmatch : fnmatch "GenuineIntel-6-55-5" "GenuineIntel-6-55-[56789ABCDEF]" = true.
Proof. vm_compute. reflexivity. Qed.
