(* ===== verification/Topdown.v ===== *)
(** * Topdown hierarchies and metrics

    Models pmu/hierarchy.py, pmu/topdown.py, the topdown classes of pmu/event.py and the
    choice of a benchmark's metrics in txn/repo.py ([loaderFactory]).

    The formulas of a hierarchy come with the ratios module of a micro architecture, which
    is not part of the repository: a formula is any program that asks for events and ends
    with a value and a threshold flag, and that may look at the flags of other nodes.  A
    node object is its index in the store; index 0 is the root. *)

From Stdlib Require Import Ascii.
From S2P Require Import Prelude PyStr Probe Route Txn Timeline Pmu EventsDb.

Section Topdown.
Context {F : Type} {HF : PyFloat F}.
(** The lookup in the events database: [in], then the item. *)
Context (db_get : string -> option UArchEvent).

(** ** Formulas *)

Inductive Prog :=
  | Done (val : F) (thresh : bool)
  | Ask (event : string) (level : Z) (k : F -> Prog)
  | Throw (e : exn).

(** [compute] of a node, given the threshold flags of all nodes. *)
Definition Formula : Type := (nat -> bool) -> Prog.

(** A formula run with a delegate: a state and an answer per question. *)
Fixpoint run_prog {S} (delegate : S -> string -> result (F * S)) (p : Prog) (s : S) : result (F * bool * S) :=
  match p with
  | Done v b => Ok (v, b, s)
  | Ask e _ k => '(x, s) ← delegate s e; run_prog delegate (k x) s
  | Throw e => Raise e
  end.

(** [buildEventsCollector]: the events in the order of their first use. *)
Definition collector (events : list string) (event : string) : result (F * list string) :=
  Ok (f_of_Z 99, if existsb (String.eqb event) events then events else events ++ [event]).

(** [buildEventRetriever]. *)
Definition retriever (m : CounterMap) (_ : unit) (event : string) : result (F * unit) :=
  v ← cm_get m event; Ok (v, tt).

(** ** The hierarchy *)

(** An event of the database, or [UnknownEvent]. *)
Inductive HEvent := Known (e : UArchEvent) | Unknown (name : string).

Record Node := mkNode {
  n_name : string;
  n_level : Z;
  n_parent : option nat;
  n_children : list nat;
  n_compute : Formula;
  n_events : list HEvent;
  genericPmcCount : nat;
  fixedPmcCount : nat;
  offcorePmcCount : nat;
  uncorePmcCount : nat;
  n_supported : bool
}.

Record MetricNode := mkMetricNode { m_metricName : string; m_compute : Formula; metricEvents : list HEvent }.

Record Hierarchy := mkHierarchy {
  h_store : list Node;
  h_nodes : list (string * nat);
  maxLevel : Z;
  levels : list (Z * list nat);
  h_metrics : list (string * MetricNode);
  (** the attribute [thresh] of the nodes, by index *)
  h_thresh : list bool
}.

(** [formatName]. *)
Definition formatName (name : string) : string :=
  of_chars (List.filter (fun c => negb (Ascii.eqb c "_")) (to_chars name)).

Definition new_node (name : string) (level : Z) (parent : option nat) (c : Formula) : Node :=
  mkNode name level parent [] c [] 0 0 0 0 false.

(** [Root] and [Hierarchy.__init__]. *)
Definition Root : Node := new_node "Root" 0 None (fun _ => Throw Exception_).
Definition Hierarchy_init : Hierarchy := mkHierarchy [Root] [("Root", 0%nat)] 0 [] [] [false].

(** What [Setup] of a ratios module registers: node objects, in the order of their
    registration, that name their parents by index, and metrics. *)
Record NodeSpec := mkNodeSpec { sp_name : string; sp_level : Z; sp_parent : option nat; sp_compute : Formula }.
Record Ratios := mkRatios { r_nodes : list NodeSpec; r_metrics : list (string * Formula) }.

(** [Hierarchy.run]. *)
Definition run (h : Hierarchy) (s : NodeSpec) : Hierarchy :=
  let name := formatName (sp_name s) in
  mkHierarchy (h_store h ++ [new_node name (sp_level s) (sp_parent s) (sp_compute s)])
    (od_set String.eqb name (length (h_store h)) (h_nodes h))
    (Z.max (sp_level s) (maxLevel h)) (levels h) (h_metrics h) (h_thresh h ++ [false]).

(** [Hierarchy.metric]. *)
Definition add_metric (h : Hierarchy) (m : string * Formula) : Hierarchy :=
  let name := formatName m.1 in
  mkHierarchy (h_store h) (h_nodes h) (maxLevel h) (levels h)
    (od_set String.eqb name (mkMetricNode name m.2 []) (h_metrics h)) (h_thresh h).

Definition Setup (r : Ratios) (h : Hierarchy) : Hierarchy := fold_left add_metric (r_metrics r) (fold_left run (r_nodes r) h).

Definition get_node (st : list Node) (i : nat) : result Node := or_raise AttributeError_ (st !! i).

Definition with_children (n : Node) (c : list nat) : Node :=
  mkNode (n_name n) (n_level n) (n_parent n) c (n_compute n) (n_events n)
    (genericPmcCount n) (fixedPmcCount n) (offcorePmcCount n) (uncorePmcCount n) (n_supported n).
Definition with_parent (n : Node) (p : nat) : Node :=
  mkNode (n_name n) (n_level n) (Some p) (n_children n) (n_compute n) (n_events n)
    (genericPmcCount n) (fixedPmcCount n) (offcorePmcCount n) (uncorePmcCount n) (n_supported n).

(** [p.children.append(i)]: an object that was not registered has no children. *)
Definition append_child (p i : nat) (st : list Node) : result (list Node) :=
  n ← get_node st p; Ok (<[p := with_children n (n_children n ++ [i])]> st).

Definition add_level (l : Z) (i : nat) (ls : list (Z * list nat)) : list (Z * list nat) :=
  od_set Z.eqb l (default [] (od_get Z.eqb l ls) ++ [i]) ls.

(** The first loop of [buildHierarchy], for one node. *)
Definition attach (s : list Node * list (Z * list nat)) (i : nat) : result (list Node * list (Z * list nat)) :=
  let '(st, ls) := s in
  n ← get_node st i;
  st ← (match n_parent n with Some p => append_child p i st | None => Ok st end);
  st ← (if n_level n =? 1 then
          n ← get_node st i; append_child 0 i (<[i := with_parent n 0]> st)
        else Ok st);
  Ok (st, add_level (n_level n) i ls).

(** [resolveEvents]. *)
Definition resolve_event (name : string) : HEvent := match db_get name with Some e => Known e | None => Unknown name end.
Definition resolveEventNames (names : list string) : list HEvent := resolve_event <$> names.

Definition flags (th : list bool) (i : nat) : bool := default false (th !! i).

(** The formulas a node stands for: its children's, or its own. *)
Definition formula_nodes (n : Node) (i : nat) : list nat := match n_children n with [] => [i] | c => c end.

(** [child.compute(delegate)]: the value, and the flag the object keeps. *)
Definition compute_node {S} (delegate : S -> string -> result (F * S)) (st : list Node)
    (s : S * list bool) (j : nat) : result (F * bool * (S * list bool)) :=
  n ← get_node st j;
  '(v, b, s') ← run_prog delegate (n_compute n (flags s.2)) s.1;
  Ok (v, b, (s', <[j := b]> s.2)).

Definition collect_node (st : list Node) (s : list string * list bool) (j : nat) : result (list string * list bool) :=
  '(_, _, s') ← compute_node collector st s j; Ok s'.

(** [events]. *)
Definition collect_events (st : list Node) (th : list bool) (i : nat) : result (list string * list bool) :=
  n ← get_node st i; mfor (collect_node st) ([], th) (formula_nodes n i).

Definition h_type (t : EventType) (e : HEvent) : bool :=
  match e with Known u => bool_decide (eventType u = t) | Unknown _ => false end.
Definition is_unknown (e : HEvent) : bool := match e with Unknown _ => true | Known _ => false end.
Definition count {A} (p : A -> bool) (l : list A) : nat := length (List.filter p l).

(** The attributes the second loop sets, [isNodeSupported] included. *)
Definition with_events (n : Node) (es : list HEvent) : Node :=
  let g := count (h_type GenericCore) es in
  let o := count (h_type OffCore) es in
  let u := count is_unknown es in
  mkNode (n_name n) (n_level n) (n_parent n) (n_children n) (n_compute n) es
    g (count (h_type FixedCore) es) o u ((g <=? 8)%nat && (o <=? 2)%nat && (u <=? 0)%nat).

(** The second loop, for one node. *)
Definition resolve_node (s : list Node * list bool) (i : nat) : result (list Node * list bool) :=
  let '(st, th) := s in
  '(names, th) ← collect_events st th i;
  n ← get_node st i;
  Ok (<[i := with_events n (resolveEventNames names)]> st, th).

(** The third loop, for one metric. *)
Definition resolve_metric (st : list Node) (th : list bool) (m : string * MetricNode) : result (string * MetricNode) :=
  '(_, _, names) ← run_prog collector (m_compute m.2 (flags th)) [];
  Ok (m.1, mkMetricNode (m_metricName m.2) (m_compute m.2) (resolveEventNames names)).

(** [buildHierarchy]. *)
Definition buildHierarchy (h : Hierarchy) : result Hierarchy :=
  '(st, ls) ← mfor attach (h_store h, levels h) (od_values (h_nodes h));
  '(st, th) ← mfor resolve_node (st, h_thresh h) (od_values (h_nodes h));
  ms ← mmap (resolve_metric st th) (h_metrics h);
  Ok (mkHierarchy st (h_nodes h) (maxLevel h) ls ms th).

(** [Topdown.__init__], [Topdown.node] and [Topdown.metric]. *)
Definition Topdown_init (r : Ratios) : result Hierarchy := buildHierarchy (Setup r Hierarchy_init).
Definition topdown_node (h : Hierarchy) (name : string) : result nat := or_raise Exception_ (od_get String.eqb name (h_nodes h)).
Definition topdown_metric (h : Hierarchy) (name : string) : result MetricNode :=
  or_raise Exception_ (od_get String.eqb name (h_metrics h)).

(** ** Values *)

Definition hundred : F := f_of_Z 100.

(** [computeTopdownNodeMetrics]. *)
Definition node_step (m : CounterMap) (st : list Node) (s : list (TopdownValue F) * list bool) (j : nat)
    : result (list (TopdownValue F) * list bool) :=
  n ← get_node st j;
  '(v, b, (_, th)) ← compute_node (retriever m) st (tt, s.2) j;
  Ok (s.1 ++ [mkTopdownValue (n_name n) (f_mul v hundred) b], th).
Definition computeTopdownNodeMetrics (st : list Node) (m : CounterMap) (s : list (TopdownValue F) * list bool) (i : nat)
    : result (list (TopdownValue F) * list bool) :=
  n ← get_node st i; mfor (node_step m st) s (formula_nodes n i).

(** [computeTopdownMetric]. *)
Definition computeTopdownMetric (m : CounterMap) (th : list bool) (mt : MetricNode) : result (TopdownValue F) :=
  '(v, _, _) ← run_prog (retriever m) (m_compute mt (flags th)) tt;
  Ok (mkTopdownValue (m_metricName mt) v false).

(** ** [TopdownMetrics] *)

Record Metrics := mkMetrics { tm_nodes : list nat; tm_metrics : list MetricNode }.
Definition Metrics_init : Metrics := mkMetrics [] [].

(** A node or a metric, as the condition of [add] sees it. *)
Definition node_events (st : list Node) (i : nat) : list HEvent := match st !! i with Some n => n_events n | None => [] end.

(** [add], with a condition on the events of what is to be added. *)
Definition add (h : Hierarchy) (condition : list HEvent -> bool) (tm : Metrics) (key : TopdownKey) : result Metrics :=
  match key with
  | NodeKey name _ =>
      i ← topdown_node h name;
      Ok (if condition (node_events (h_store h) i) then mkMetrics (tm_nodes tm ++ [i]) (tm_metrics tm) else tm)
  | MetricKey name =>
      m ← topdown_metric h name;
      Ok (if condition (metricEvents m) then mkMetrics (tm_nodes tm) (tm_metrics tm ++ [m]) else tm)
  end.

Definition node_name (st : list Node) (i : nat) : string := match st !! i with Some n => n_name n | None => "" end.
Definition children_of (st : list Node) (i : nat) : list nat := match st !! i with Some n => n_children n | None => [] end.

(** [topdownKeys]. *)
Definition metrics_keys (st : list Node) (tm : Metrics) : list TopdownKey :=
  ((fun i => NodeKey (node_name st i) (node_name st <$> children_of st i)) <$> tm_nodes tm) ++
  ((fun m => MetricKey (m_metricName m)) <$> tm_metrics tm).

(** [names]. *)
Definition metrics_names (st : list Node) (tm : Metrics) : list string :=
  (tm_nodes tm ≫= fun i => match children_of st i with [] => [node_name st i] | c => node_name st <$> c end) ++
  (m_metricName <$> tm_metrics tm).

(** [TopdownMetrics.compute]: the values, and the flags the nodes are left with. *)
Definition metrics_compute (st : list Node) (tm : Metrics) (th : list bool) (m : CounterMap)
    : result (list (TopdownValue F) * list bool) :=
  '(vs, th) ← mfor (computeTopdownNodeMetrics st m) ([], th) (tm_nodes tm);
  ws ← mmap (computeTopdownMetric m th) (tm_metrics tm);
  Ok (vs ++ ws, th).

(** The metrics as the analytics see them, with the flags the nodes have at the time. *)
Definition as_TopdownMetrics (h : Hierarchy) (tm : Metrics) (th : list bool) : TopdownMetrics F :=
  mkTopdownMetrics (metrics_keys (h_store h) tm) (fun m => p ← metrics_compute (h_store h) tm th m; Ok p.1).

(** ** The metrics of a benchmark *)

Definition event_name (e : HEvent) : option string := match e with Known u => u_name u | Unknown n => Some n end.

(** [canAdd]. *)
Definition canAdd (eventSet : list string) (es : list HEvent) : bool :=
  forallb (fun e => match event_name e with Some n => existsb (String.eqb n) eventSet | None => false end) es.

(** The metrics [loaderFactory] gives a benchmark with the hierarchy of its processor. *)
Definition benchmark_metrics (h : Hierarchy) (events : list Event) (keys : list TopdownKey) : result Metrics :=
  mfor (add h (canAdd (uarchName <$> events))) Metrics_init keys.

(** What a benchmark's info file says that the factory uses; no events are [None] or []. *)
Record BenchmarkInfo := mkBenchmarkInfo { b_name : string; b_cpuInfo : CpuInfo F; b_events : list Event }.

(** The arguments of the loader [loaderFactory] makes: the probes are those given for the
    benchmark, if there are any; [cache] is the cache of hierarchies by processor. *)
Definition loaderFactory (cache : string -> result Hierarchy) (b : BenchmarkInfo) (probes : list Probe)
    (benchmarkProbes : list (string * list Probe)) (topdownKeys : option (list TopdownKey))
    : result (string * CpuInfo F * list Probe * option Metrics * list Event) :=
  let loaderProbes := default probes (od_get String.eqb (b_name b) benchmarkProbes) in
  tm ← (match topdownKeys, b_events b with
        | None, _ | _, [] => Ok None
        | Some keys, _ =>
            h ← cache (cpuId (b_cpuInfo b)); tm ← benchmark_metrics h (b_events b) keys; Ok (Some tm)
        end);
  Ok (b_name b, b_cpuInfo b, loaderProbes, tm, b_events b).

(** ** Formulas that use the events they ask for in a dry run *)

(** Every question of the formula is among the events, and it raises nothing itself. *)
Inductive reads (events : list string) : Prog -> Prop :=
  | reads_done v b : reads events (Done v b)
  | reads_ask e l k : e ∈ events -> (forall x, reads events (k x)) -> reads events (Ask e l k).

(** The ratios modules are written for a dry run to find their events: whatever the flags
    and the answers, a formula asks for nothing else and raises nothing. *)
Definition static (c : Formula) : Prop := forall th th' v b names,
  run_prog collector (c th) [] = Ok (v, b, names) -> reads names (c th').

Lemma reads_mono E E' p : E ⊆ E' -> reads E p -> reads E' p.
Proof. intros HE. induction 1 as [|e l k He _ IH]; constructor; auto. Qed.

Lemma run_reads m E p : (forall e, e ∈ E -> exists v, cm_get m e = Ok v) -> reads E p ->
  exists v b, run_prog (retriever m) p tt = Ok (v, b, tt).
Proof.
  intros HE. induction 1 as [v b|e l k He _ IH]; [by exists v, b|].
  cbn [run_prog]. destruct (HE e He) as [v Hv]. unfold retriever at 2. rewrite Hv. apply IH.
Qed.

Lemma collector_spec l e : exists l', collector l e = Ok (f_of_Z 99, l') /\ l ⊆ l' /\ e ∈ l' /\ forall k, l ⊆ k -> e ∈ k -> l' ⊆ k.
Proof.
  unfold collector. eexists. split; [done|]. destruct (existsb (String.eqb e) l) eqn:E.
  - apply existsb_exists in E as (x & Hx & E). apply String.eqb_eq in E as <-.
    apply list_elem_of_In in Hx. split_and!; [done|done|]. by intros k Hk _.
  - split_and!; [set_solver|set_solver|]. set_solver.
Qed.

(** A dry run on more events goes the same way and ends with more events. *)
Lemma collect_mono p l k v b l' : l ⊆ k -> run_prog collector p l = Ok (v, b, l') ->
  exists k', run_prog collector p k = Ok (v, b, k') /\ l' ⊆ k' /\ k ⊆ k'.
Proof.
  revert l k. induction p as [v0 b0|e lv c IH|x]; intros l k Hlk; cbn [run_prog].
  - intros [= -> -> ->]. by exists k.
  - destruct (collector_spec l e) as (l1 & -> & Hl1 & He & Hmin). destruct (collector_spec k e) as (k1 & -> & Hk1 & He' & _).
    cbn [mbind result_bind]. intros H. destruct (IH (f_of_Z 99) l1 k1) as (k' & -> & H1 & H2); [|done|].
    + apply Hmin; set_solver.
    + exists k'. split_and!; [done|done|set_solver].
  - done.
Qed.

Lemma collect_empty p k v b k' : run_prog collector p k = Ok (v, b, k') ->
  exists l, run_prog collector p [] = Ok (v, b, l) /\ l ⊆ k' /\ k ⊆ k'.
Proof.
  cut (forall l, l ⊆ k -> run_prog collector p k = Ok (v, b, k') ->
    exists l', run_prog collector p l = Ok (v, b, l') /\ l' ⊆ k' /\ k ⊆ k').
  { intros Hc. by apply Hc, list_subseteq_nil. }
  revert k. induction p as [v0 b0|e lv c IH|x]; intros k l Hlk; cbn [run_prog].
  - intros [= -> -> ->]. by exists l.
  - destruct (collector_spec l e) as (l1 & -> & Hl1 & He & Hmin). destruct (collector_spec k e) as (k1 & -> & Hk1 & He' & _).
    cbn [mbind result_bind]. intros H. destruct (IH (f_of_Z 99) k1 l1) as (l' & -> & H1 & H2); [apply Hmin; set_solver|done|].
    exists l'. split_and!; [done|done|set_solver].
  - done.
Qed.

(** ** Building a hierarchy *)

(** What the second loop leaves as it is. *)
Definition shape (n : Node) : string * list nat * Formula := (n_name n, n_children n, n_compute n).

Lemma shape_lookup (st st' : list Node) i n : shape <$> st = shape <$> st' -> st !! i = Some n ->
  exists n', st' !! i = Some n' /\ shape n' = shape n.
Proof.
  intros E H. pose proof (f_equal (fun l => l !! i) E) as Ei. cbn in Ei. rewrite !list_lookup_fmap H in Ei.
  destruct (st' !! i) as [n'|]; [|done]. exists n'. split; [done|]. cbn in Ei. congruence.
Qed.

Lemma get_node_Ok st i n : get_node st i = Ok n <-> st !! i = Some n.
Proof. apply or_raise_Ok. Qed.

Definition statics (st : list Node) : Prop := Forall (fun n => static (n_compute n)) st.

(** The events of a node cover the formulas it stands for, whatever the flags. *)
Definition covered (st : list Node) (i : nat) : Prop := exists n names,
  st !! i = Some n /\ n_events n = resolveEventNames names /\
  forall j, j ∈ formula_nodes n i -> exists nj, st !! j = Some nj /\ forall th, reads names (n_compute nj th).

Lemma collect_node_covers st s j s' : statics st -> collect_node st s j = Ok s' ->
  s.1 ⊆ s'.1 /\ exists nj, st !! j = Some nj /\ forall th, reads s'.1 (n_compute nj th).
Proof.
  intros Hst. unfold collect_node, compute_node. destruct (get_node st j) as [n|] eqn:En; [|done]. cbn [mbind result_bind].
  apply get_node_Ok in En. destruct (run_prog _ _ _) as [[[v b] ns]|] eqn:Er; [|done]. cbn. intros [= <-].
  apply collect_empty in Er as (l & Hl & Hsub & Hmono). split; [exact Hmono|]. exists n. split; [done|]. intros th.
  apply (reads_mono l); [exact Hsub|]. assert (Hn : static (n_compute n)) by exact (Forall_lookup_1 _ _ _ _ Hst En).
  exact (Hn _ _ _ _ _ Hl).
Qed.

Lemma collect_events_covers st th i names th' : statics st -> collect_events st th i = Ok (names, th') ->
  exists n, st !! i = Some n /\
    forall j, j ∈ formula_nodes n i -> exists nj, st !! j = Some nj /\ forall th, reads names (n_compute nj th).
Proof.
  intros Hst. unfold collect_events. destruct (get_node st i) as [n|] eqn:En; [|done]. cbn [mbind result_bind].
  apply get_node_Ok in En. intros H. exists n. split; [done|].
  change names with (names, th').1. revert H.
  apply (mfor_inv_prefix _ (fun pre s => forall j, j ∈ pre -> exists nj, st !! j = Some nj /\ forall th, reads s.1 (n_compute nj th))).
  - intros pre x post s s' _ Hpre Hx. apply (collect_node_covers _ _ _ _ Hst) in Hx as (Hsub & Hx).
    intros j Hj. apply elem_of_app in Hj as [Hj|Hj]; [|by apply list_elem_of_singleton in Hj as ->].
    destruct (Hpre j Hj) as (nj & H1 & H2). exists nj. split; [done|]. intros th0. by apply (reads_mono s.1).
  - intros j Hj. by apply not_elem_of_nil in Hj.
Qed.

Lemma formula_nodes_shape n n' i : shape n = shape n' -> formula_nodes n i = formula_nodes n' i.
Proof. unfold formula_nodes. by intros [= _ -> _]. Qed.

Lemma covered_shape (st st' : list Node) i : shape <$> st = shape <$> st' -> st !! i = st' !! i -> covered st i -> covered st' i.
Proof.
  intros E Ei (n & names & Hn & Hev & Hf). exists n, names. split; [by rewrite -Ei|]. split; [done|].
  intros j Hj. destruct (Hf j Hj) as (nj & Hnj & Hr). destruct (shape_lookup _ _ _ _ E Hnj) as (nj' & Hnj' & [= _ _ Hc]).
  exists nj'. split; [done|]. by rewrite Hc.
Qed.

(** The shape of the store and the nodes seen so far. *)
Definition resolved_nodes (st0 : list Node) (pre : list nat) (s : list Node * list bool) : Prop :=
  shape <$> s.1 = shape <$> st0 /\ forall i, i ∈ pre -> covered s.1 i.

Lemma statics_shape (st st' : list Node) : shape <$> st = shape <$> st' -> statics st' -> statics st.
Proof.
  intros E H. apply Forall_lookup_2. intros i n Hn. destruct (shape_lookup _ _ _ _ E Hn) as (n' & Hn' & [= _ _ Hc]).
  rewrite -Hc. exact (Forall_lookup_1 _ _ _ _ H Hn').
Qed.

Lemma resolve_nodes_covers st0 th0 ids s : statics st0 -> mfor resolve_node (st0, th0) ids = Ok s -> resolved_nodes st0 ids s.
Proof.
  intros Hst. apply (mfor_inv_prefix _ (resolved_nodes st0)); [|split; [done|intros i Hi; by apply not_elem_of_nil in Hi]].
  intros pre x post [st th] s' _ [Hsh Hcov] H. cbn [fst] in *. unfold resolve_node in H.
  destruct (collect_events st th x) as [[names th']|] eqn:Ec; [|done]. cbn [mbind result_bind] in H.
  destruct (get_node st x) as [n|] eqn:En; [|done]. injection H as <-. apply get_node_Ok in En.
  apply collect_events_covers in Ec as (n' & En' & Hf); [|exact (statics_shape _ _ Hsh Hst)]. assert (n' = n) as -> by congruence.
  set (st' := <[x := _]> st). assert (E : shape <$> st = shape <$> st').
  { unfold st'. rewrite list_fmap_insert. symmetry. apply list_insert_id. by rewrite list_lookup_fmap En. }
  split; [by rewrite -E|]. cbn [fst]. intros i Hi. destruct (decide (i = x)) as [->|Hne].
  - exists (with_events n (resolveEventNames names)), names. split.
    { apply list_lookup_insert_eq. by apply lookup_lt_Some in En. }
    split; [done|]. intros j Hj. destruct (Hf j Hj) as (nj & Hnj & Hr).
    destruct (shape_lookup _ _ _ _ E Hnj) as (nj' & Hnj' & [= _ _ Hc]). exists nj'. split; [done|]. by rewrite Hc.
  - apply elem_of_app in Hi as [Hi|Hi]; [|by apply list_elem_of_singleton in Hi].
    apply (covered_shape st); [done|unfold st'; rewrite list_lookup_insert_ne; congruence|by apply Hcov].
Qed.

(** The first loop and the registration leave the formulas as they are. *)
Lemma append_child_compute p i st st' : append_child p i st = Ok st' -> n_compute <$> st' = n_compute <$> st.
Proof.
  unfold append_child. destruct (get_node st p) as [n|] eqn:En; [|done]. apply get_node_Ok in En. intros [= <-].
  rewrite list_fmap_insert. apply list_insert_id. by rewrite list_lookup_fmap En.
Qed.

Lemma attach_compute s i s' : attach s i = Ok s' -> n_compute <$> s'.1 = n_compute <$> s.1.
Proof.
  destruct s as [st ls]. unfold attach. destruct (get_node st i) as [n|]; [|done]. cbn [mbind result_bind].
  intros H. apply bind_Ok in H as (st1 & H1 & H). apply bind_Ok in H as (st2 & H2 & [= <-]). cbn [fst].
  assert (n_compute <$> st1 = n_compute <$> st) as <-.
  { destruct (n_parent n); [exact (append_child_compute _ _ _ _ H1)|by injection H1 as ->]. }
  destruct (n_level n =? 1); [|by injection H2 as ->].
  destruct (get_node st1 i) as [n1|] eqn:En; [|done]. cbn [mbind result_bind] in H2. rewrite (append_child_compute _ _ _ _ H2).
  apply get_node_Ok in En. rewrite list_fmap_insert. apply list_insert_id. by rewrite list_lookup_fmap En.
Qed.

Lemma Setup_compute r h : n_compute <$> h_store (Setup r h) = (n_compute <$> h_store h) ++ (sp_compute <$> r_nodes r).
Proof.
  unfold Setup. transitivity (n_compute <$> h_store (fold_left run (r_nodes r) h)).
  - generalize (fold_left run (r_nodes r) h) as h'. induction (r_metrics r) as [|m ms IH]; intros h'; [done|].
    cbn [fold_left]. by rewrite IH.
  - revert h. induction (r_nodes r) as [|s l IH]; intros h; [by rewrite app_nil_r|]. cbn [fold_left]. rewrite IH.
    cbn [run h_store]. by rewrite fmap_app -app_assoc.
Qed.

Lemma od_set_values {V} (P : V -> Prop) k v (d : list (string * V)) :
  P v -> Forall P (od_values d) -> Forall P (od_values (od_set String.eqb k v d)).
Proof.
  intros Hv. unfold od_values. induction d as [|[k' v'] d IH]; cbn; [by constructor|].
  intros H. apply Forall_cons in H as [H1 H2]. destruct (String.eqb k k'); constructor; auto.
Qed.

Lemma Setup_metrics r : Forall (fun m => static m.2) (r_metrics r) ->
  Forall (fun mt => static (m_compute mt)) (od_values (h_metrics (Setup r Hierarchy_init))).
Proof.
  unfold Setup. assert (H0 : h_metrics (fold_left run (r_nodes r) Hierarchy_init) = []).
  { change [] with (h_metrics Hierarchy_init). generalize Hierarchy_init. induction (r_nodes r) as [|s l IH]; intros h; [done|].
    cbn [fold_left]. by rewrite IH. }
  revert H0. generalize (fold_left run (r_nodes r) Hierarchy_init) as h. intros h Hh Hms.
  assert (Hm : Forall (fun mt => static (m_compute mt)) (od_values (h_metrics h))) by (rewrite Hh; constructor).
  clear Hh. revert h Hm. induction Hms as [|m ms Hms _ IH]; intros h Hm; [done|]. cbn [fold_left]. apply IH.
  by apply od_set_values.
Qed.

(** The events of a metric cover its formula. *)
Definition metric_covered (mt : MetricNode) : Prop := exists names,
  metricEvents mt = resolveEventNames names /\ forall th, reads names (m_compute mt th).

Lemma resolve_metrics_covers st th ms ms' : Forall (fun mt => static (m_compute mt)) (od_values ms) ->
  mmap (resolve_metric st th) ms = Ok ms' -> Forall metric_covered (od_values ms').
Proof.
  revert ms'. induction ms as [|m ms IH]; intros ms' Hms; cbn [mmap]; [intros [= <-]; constructor|].
  apply Forall_cons in Hms as [Hm Hms]. intros H. apply bind_Ok in H as (m' & Hm' & H). apply bind_Ok in H as (l & Hl & [= <-]).
  constructor; [|by apply IH]. unfold resolve_metric in Hm'. destruct (run_prog _ _ _) as [[[v b] names]|] eqn:Er; [|done].
  injection Hm' as <-. exists names. split; [done|]. intros th'. exact (Hm _ _ _ _ _ Er).
Qed.

(** In a hierarchy, the events of every node and metric cover its formulas. *)
Lemma Topdown_init_covers r h :
  Forall (fun s => static (sp_compute s)) (r_nodes r) -> Forall (fun m => static m.2) (r_metrics r) ->
  Topdown_init r = Ok h ->
  (forall i, i ∈ od_values (h_nodes h) -> covered (h_store h) i) /\ Forall metric_covered (od_values (h_metrics h)).
Proof.
  intros Hn Hm H. unfold Topdown_init, buildHierarchy in H. set (h0 := Setup r Hierarchy_init) in *.
  destruct (mfor attach _ _) as [[st1 ls]|] eqn:E1; [|done]. cbn [mbind result_bind] in H.
  destruct (mfor resolve_node _ _) as [[st2 th]|] eqn:E2; [|done]. cbn [mbind result_bind] in H.
  apply bind_Ok in H as (ms & E3 & [= <-]). cbn [h_nodes h_store h_metrics].
  assert (Hst : statics st1).
  { assert (Ec : n_compute <$> st1 = n_compute <$> h_store h0).
    { change st1 with (st1, ls).1. revert E1. apply (mfor_inv _ (fun s => n_compute <$> s.1 = n_compute <$> h_store h0)); [|done].
      intros s i s' _ Hs Hs'. by rewrite (attach_compute _ _ _ Hs'). }
    cut (Forall static (n_compute <$> st1)); [intros Hc; exact (proj1 (Forall_fmap _ _ _) Hc)|].
    rewrite Ec Setup_compute. apply Forall_app. split.
    - apply Forall_singleton. intros th0 th' v b names. done.
    - by rewrite Forall_fmap. }
  split; [exact (proj2 (resolve_nodes_covers _ _ _ _ Hst E2))|].
  apply (resolve_metrics_covers st2 th (h_metrics h0)); [by apply Setup_metrics|done].
Qed.

(** ** The values of metrics *)

Definition node_names (st : list Node) (i : nat) : list string :=
  match children_of st i with [] => [node_name st i] | c => node_name st <$> c end.

Lemma node_steps_names st m js s s' : mfor (node_step m st) s js = Ok s' ->
  tv_name <$> s'.1 = (tv_name <$> s.1) ++ (node_name st <$> js).
Proof.
  revert s. induction js as [|j js IH]; intros s; cbn [mfor]; [intros [= <-]; by rewrite app_nil_r|].
  intros H. apply bind_Ok in H as (s1 & H1 & H). rewrite (IH _ H). unfold node_step in H1.
  destruct (get_node st j) as [n|] eqn:En; [|done]. cbn [mbind result_bind] in H1. apply get_node_Ok in En.
  destruct (compute_node _ _ _ _) as [[[v b] [u th]]|]; [|done]. injection H1 as <-. cbn [fst].
  rewrite fmap_app -app_assoc. unfold node_name at 2. cbn. by rewrite En.
Qed.

Lemma compute_node_names st m s i s' : computeTopdownNodeMetrics st m s i = Ok s' ->
  tv_name <$> s'.1 = (tv_name <$> s.1) ++ node_names st i.
Proof.
  unfold computeTopdownNodeMetrics, node_names, children_of. destruct (get_node st i) as [n|] eqn:En; [|done].
  cbn [mbind result_bind]. apply get_node_Ok in En. intros H. rewrite (node_steps_names _ _ _ _ _ H) En.
  unfold formula_nodes. by destruct (n_children n).
Qed.

Lemma compute_metric_name m th mt v : computeTopdownMetric m th mt = Ok v -> tv_name v = m_metricName mt.
Proof. unfold computeTopdownMetric. destruct (run_prog _ _ _) as [[[x b] u]|]; [|done]. by intros [= <-]. Qed.

Lemma metrics_compute_names st tm th m vs th' : metrics_compute st tm th m = Ok (vs, th') ->
  tv_name <$> vs = metrics_names st tm.
Proof.
  unfold metrics_compute. destruct (mfor _ _ _) as [[ns th1]|] eqn:E1; [|done]. cbn [mbind result_bind].
  intros H. apply bind_Ok in H as (ws & Hws & [= <- <-]). rewrite fmap_app. unfold metrics_names. f_equal.
  - change ns with (ns, th1).1. revert E1.
    apply (mfor_inv_prefix _ (fun pre s => tv_name <$> s.1 = pre ≫= node_names st)); [|done].
    intros pre x post s s' _ Hs Hx. rewrite (compute_node_names _ _ _ _ _ Hx) Hs bind_app. cbn. by rewrite app_nil_r.
  - revert ws Hws. induction (tm_metrics tm) as [|mt ms IH]; intros ws; cbn [mmap]; [by intros [= <-]|].
    intros H. apply bind_Ok in H as (w & Hw & H). apply bind_Ok in H as (ws' & Hws & [= <-]). cbn.
    by rewrite (compute_metric_name _ _ _ _ Hw) (IH _ Hws).
Qed.

Lemma visit_all_app ks acc : fold_left (fun ns k => visit k ns) ks acc = acc ++ fold_left (fun ns k => visit k ns) ks [].
Proof.
  revert acc. induction ks as [|k ks IH]; intros acc; cbn [fold_left]; [by rewrite app_nil_r|].
  rewrite IH (IH (visit k [])) app_assoc. f_equal. by destruct k as [name [|c cs]|name].
Qed.

Lemma visit_keys st tm : fold_left (fun ns k => visit k ns) (metrics_keys st tm) [] = metrics_names st tm.
Proof.
  unfold metrics_keys, metrics_names. rewrite fold_left_app visit_all_app. f_equal.
  - induction (tm_nodes tm) as [|i l IH]; [done|]. cbn [fmap list_fmap fold_left mbind list_bind].
    rewrite visit_all_app. cbn in IH. rewrite IH. f_equal. by destruct (children_of st i).
  - induction (tm_metrics tm) as [|mt l IH]; [done|]. cbn [fmap list_fmap fold_left]. rewrite visit_all_app. cbn in IH. by rewrite IH.
Qed.

(** The keys of the metrics, the names of the delta series made for
    them, and the names of the values computed for any counters are the same list, in the
    same order. *)
Theorem topdown_names st tm th m :
  fold_left (fun ns k => visit k ns) (metrics_keys st tm) [] = metrics_names st tm /\
  match metrics_compute st tm th m with Ok (vs, _) => tv_name <$> vs = metrics_names st tm | Raise _ => True end.
Proof.
  split; [apply visit_keys|]. destruct (metrics_compute st tm th m) as [[vs th']|] eqn:E; [|done].
  by apply (metrics_compute_names st tm th m vs th').
Qed.

(** ** Benchmarks *)

Lemma events_map_lookup (l : list (nat * Event)) n (d : list (string * nat)) :
  (forall i e, (i, e) ∈ l -> (i < n)%nat) -> (forall s i, od_get String.eqb s d = Some i -> (i < n)%nat) ->
  let d' := fold_left (fun m p => od_set String.eqb (uarchName p.2) p.1 m) l d in
  (forall s i, od_get String.eqb s d' = Some i -> (i < n)%nat) /\
  (forall s, (exists i e, (i, e) ∈ l /\ uarchName e = s) \/ is_Some (od_get String.eqb s d) -> is_Some (od_get String.eqb s d')).
Proof.
  revert d. induction l as [|[i e] l IH]; intros d Hl Hd; cbn [fold_left].
  { split; [done|]. intros s [(i & e & H & _)|H]; [by apply not_elem_of_nil in H|done]. }
  destruct (IH (od_set String.eqb (uarchName e) i d)) as [H1 H2].
  - intros i' e' H. apply (Hl i' e'). by right.
  - intros s i'. rewrite od_get_set. destruct (String.eqb _ _); [intros [= <-]; apply (Hl i e); left|apply Hd].
  - split; [exact H1|]. intros s Hs. apply H2. destruct Hs as [(i' & e' & H & He)|Hs].
    + apply elem_of_cons in H as [[= -> ->]|H]; [right|left; by exists i', e'].
      rewrite od_get_set He String.eqb_refl. by eexists.
    + right. rewrite od_get_set. destruct (String.eqb _ _); [by eexists|done].
Qed.

(** Every event of a repository has a counter in a full sample. *)
Lemma events_map_get (repo : DeltaSeriesRepo F) m e :
  buildEventsMap repo = Some (eventsMap m) -> length (cm_counters m) = length (revents repo) ->
  e ∈ revents repo -> exists v : F, cm_get m (uarchName e) = Ok v.
Proof.
  unfold buildEventsMap, cm_get. set (es := revents repo). intros H Hlen He.
  assert (H' : eventsMap m = fold_left (fun m p => od_set String.eqb (uarchName p.2) p.1 m) (imap (fun i e => (i, e)) es) []).
  { destruct es; [by apply not_elem_of_nil in He|congruence]. }
  clear H. destruct (events_map_lookup (imap (fun i e => (i, e)) es) (length es) []) as [H1 H2].
  - intros i e' Hin. apply elem_of_lookup_imap in Hin as (j & y & [= -> ->] & Hj). by apply lookup_lt_Some in Hj.
  - done.
  - rewrite -H' in H1 H2. destruct (H2 (uarchName e)) as [i Hi].
    { left. apply list_elem_of_lookup in He as [i Hi]. exists i, e. split; [|done].
      apply elem_of_lookup_imap. by exists i, e. }
    rewrite Hi. cbn. pose proof (H1 _ _ Hi) as Hlt. rewrite -Hlen in Hlt.
    destruct (lookup_lt_is_Some_2 _ _ Hlt) as [c Hc]. unfold py_nth. rewrite Hc. cbn. by eexists.
Qed.

(** The events database hands an event out under the name it was asked for. *)
Definition db_names : Prop := forall n e, db_get n = Some e -> u_name e = Some n.

Lemma canAdd_names evs names : db_names -> canAdd evs (resolveEventNames names) = true -> forall n, n ∈ names -> n ∈ evs.
Proof.
  intros Hdb. unfold canAdd. rewrite forallb_forall. intros H n Hn.
  specialize (H (resolve_event n)). assert (Hname : event_name (resolve_event n) = Some n).
  { unfold resolve_event. destruct (db_get n) as [e|] eqn:E; [by apply Hdb in E|done]. }
  rewrite Hname in H. apply existsb_exists in H as (x & Hx & E); [|by apply list_elem_of_In, list_elem_of_fmap_2].
  apply String.eqb_eq in E as <-. by apply list_elem_of_In.
Qed.

(** What a list of metrics chosen by [canAdd] holds. *)
Definition computable (h : Hierarchy) (evs : list string) (tm : Metrics) : Prop :=
  (forall i, i ∈ tm_nodes tm -> i ∈ od_values (h_nodes h) /\ canAdd evs (node_events (h_store h) i) = true) /\
  (forall mt, mt ∈ tm_metrics tm -> mt ∈ od_values (h_metrics h) /\ canAdd evs (metricEvents mt) = true).

Lemma od_get_value {V} k (d : list (string * V)) v : od_get String.eqb k d = Some v -> v ∈ od_values d.
Proof. intros H. apply od_get_elem_of in H as (k' & Hin & _). unfold od_values. apply list_elem_of_fmap. by exists (k', v). Qed.

Lemma add_computable h evs tm key tm' : computable h evs tm -> add h (canAdd evs) tm key = Ok tm' -> computable h evs tm'.
Proof.
  intros [Hn Hm]. destruct key as [name cs|name]; cbn [add]; unfold topdown_node, topdown_metric;
    destruct (od_get String.eqb name _) as [x|] eqn:E; try done; cbn [or_raise mbind result_bind]; apply od_get_value in E;
    intros [= <-]; destruct (canAdd evs _) eqn:Ec; try (by split); split; cbn [tm_nodes tm_metrics]; try done.
  - intros i Hi. apply elem_of_app in Hi as [Hi|Hi]; [by apply Hn|]. by apply list_elem_of_singleton in Hi as ->.
  - intros i Hi. apply elem_of_app in Hi as [Hi|Hi]; [by apply Hm|]. by apply list_elem_of_singleton in Hi as ->.
Qed.

Lemma covered_computes evs st m i : db_names -> (forall e, e ∈ evs -> exists v : F, cm_get m e = Ok v) ->
  covered st i -> canAdd evs (node_events st i) = true -> forall s, exists s', computeTopdownNodeMetrics st m s i = Ok s'.
Proof.
  intros Hdb Hm (n & names & Hn & Hev & Hf) Hcan s. unfold node_events in Hcan. rewrite Hn Hev in Hcan.
  pose proof (canAdd_names _ _ Hdb Hcan) as Hin. unfold computeTopdownNodeMetrics.
  rewrite (proj2 (get_node_Ok _ _ _) Hn). cbn [mbind result_bind]. apply mfor_total, Forall_forall.
  intros j Hj s0. destruct (Hf j Hj) as (nj & Hnj & Hr). unfold node_step, compute_node.
  rewrite (proj2 (get_node_Ok _ _ _) Hnj). cbn [mbind result_bind fst snd].
  destruct (run_reads m names (n_compute nj (flags s0.2))) as (v & b & Hrun); [|apply Hr|].
  - intros e He. by apply Hm, Hin.
  - rewrite Hrun. by eexists.
Qed.

(** Metrics whose events all have counters can be computed. *)
Lemma computable_computes r h (repo : DeltaSeriesRepo F) tm m th :
  db_names -> Forall (fun s => static (sp_compute s)) (r_nodes r) -> Forall (fun f => static f.2) (r_metrics r) ->
  Topdown_init r = Ok h -> computable h (uarchName <$> revents repo) tm ->
  buildEventsMap repo = Some (eventsMap m) -> length (cm_counters m) = length (revents repo) ->
  exists vs th', metrics_compute (h_store h) tm th m = Ok (vs, th') /\ tv_name <$> vs = metrics_names (h_store h) tm.
Proof.
  intros Hdb Hns Hms Hh [Hn Hm] Hem Hlen. destruct (Topdown_init_covers r h Hns Hms Hh) as [Hcov Hmcov].
  assert (Hget : forall e, e ∈ uarchName <$> revents repo -> exists v : F, cm_get m e = Ok v).
  { intros e He. apply list_elem_of_fmap in He as (ev & -> & He). exact (events_map_get repo m ev Hem Hlen He). }
  cut (exists p, metrics_compute (h_store h) tm th m = Ok p).
  { intros [[vs th'] E]. exists vs, th'. split; [exact E|]. exact (metrics_compute_names _ _ _ _ _ _ E). }
  unfold metrics_compute. destruct (mfor_total (computeTopdownNodeMetrics (h_store h) m) (tm_nodes tm) ([], th)) as [[vs th1] E].
  { apply Forall_forall. intros i Hi. destruct (Hn i Hi) as [Hin Hcan]. exact (covered_computes _ _ _ _ Hdb Hget (Hcov i Hin) Hcan). }
  rewrite E. cbn [mbind result_bind].
  assert (exists ws, mmap (computeTopdownMetric m th1) (tm_metrics tm) = Ok ws) as [ws ->]; [|by eexists].
  clear -Hdb Hget Hm Hmcov. induction (tm_metrics tm) as [|mt l IH]; [by eexists|]. cbn [mmap].
  destruct (Hm mt) as [Hin Hcan]; [left|]. rewrite Forall_forall in Hmcov.
  destruct (Hmcov mt Hin) as (names & Hev & Hr). rewrite Hev in Hcan. pose proof (canAdd_names _ _ Hdb Hcan) as Hsub.
  destruct (run_reads m names (m_compute mt (flags th1))) as (v & b & Hrun); [|apply Hr|].
  - intros e He. by apply Hget, Hsub.
  - assert (computeTopdownMetric m th1 mt = Ok (mkTopdownValue (m_metricName mt) v false)) as ->.
    { unfold computeTopdownMetric. by rewrite Hrun. }
    cbn [mbind result_bind]. destruct IH as [ws ->]; [intros mt' Hmt'; apply Hm; by right|].
    by eexists.
Qed.
(** For ratios modules whose formulas ask only for what they ask
    for in a dry run, the metrics a benchmark is given can be computed: on every sample
    with one counter per event of the benchmark, and whatever flags earlier computations
    left, the computation raises nothing and gives one value per name. *)
Theorem benchmark_metrics_computable r h (repo : DeltaSeriesRepo F) keys tm m th :
  db_names -> Forall (fun s => static (sp_compute s)) (r_nodes r) -> Forall (fun f => static f.2) (r_metrics r) ->
  Topdown_init r = Ok h -> benchmark_metrics h (revents repo) keys = Ok tm ->
  buildEventsMap repo = Some (eventsMap m) -> length (cm_counters m) = length (revents repo) ->
  exists vs th', metrics_compute (h_store h) tm th m = Ok (vs, th') /\ tv_name <$> vs = metrics_names (h_store h) tm.
Proof.
  intros Hdb Hns Hms Hh Htm. apply (computable_computes r); [done..|]. revert Htm.
  apply mfor_inv; [|split; intros ? Hx; by apply not_elem_of_nil in Hx].
  intros s x s' _ Hs Hx. exact (add_computable _ _ _ _ _ Hs Hx).
Qed.
End Topdown.

(** ** Witness: a small hierarchy on the events of the example database *)

#[local] Instance ex_td_float : PyFloat Z := Timeline.ex_float.

Definition ex_frontend : Formula (F := Z) := fun _ => Ask "LOADS" 1 (fun a => Ask "LOADS:cmask=0x2" 1 (fun b => Done (a - b) (bool_decide (5 < a - b)))).
Definition ex_latency : Formula (F := Z) := fun flag => Ask "LOADS:cmask=0x2" 2 (fun b => Done b (bool_decide (5 < b) && flag 1%nat)).
Definition ex_ratio : Formula (F := Z) := fun _ => Ask "LOADS" 0 (fun a => Done a false).
Definition ex_ratios : Ratios (F := Z) :=
  mkRatios [mkNodeSpec "Frontend_Bound" 1 None ex_frontend; mkNodeSpec "Fetch_Latency" 2 (Some 1%nat) ex_latency]
    [("Load_Ratio", ex_ratio)].
Definition ex_hierarchy : Hierarchy (F := Z) :=
  match Topdown_init (db_lookup ex_db) ex_ratios with Ok h => h | Raise _ => Hierarchy_init end.
Definition ex_td_events : list Event :=
  [mkEvent "loads" "LOADS" true true; mkEvent "two loads" "LOADS:cmask=0x2" true true].
Definition ex_td_keys : list TopdownKey := [NodeKey "Root" ["FrontendBound"]; NodeKey "FrontendBound" ["FetchLatency"]; MetricKey "LoadRatio"].
Definition ex_td_metrics : Metrics (F := Z) :=
  match benchmark_metrics ex_hierarchy ex_td_events ex_td_keys with Ok tm => tm | Raise _ => Metrics_init end.
Definition ex_td_repo : DeltaSeriesRepo Z := DeltaSeriesRepo_init ex_td_events ex_td_keys [].
Definition ex_td_sample : CounterMap := mkCounterMap [("LOADS", 0%nat); ("LOADS:cmask=0x2", 1%nat)] [Some 20; Some 8].

Lemma benchmark_metrics_computable_witness : exists vs th',
  metrics_compute (h_store ex_hierarchy) ex_td_metrics [] ex_td_sample = Ok (vs, th') /\
  tv_name <$> vs = ["FrontendBound"; "FetchLatency"; "LoadRatio"].
Proof.
  destruct (benchmark_metrics_computable (db_lookup ex_db) ex_ratios ex_hierarchy ex_td_repo ex_td_keys ex_td_metrics ex_td_sample [])
    as (vs & th' & H1 & H2).
  - intros n e H. apply (db_lookup_name [ex_record] ex_db n e); [vm_compute; reflexivity|exact H].
  - repeat apply Forall_cons_2; try apply Forall_nil_2; intros th th' v b names H; cbn in H; injection H as <- <- <-;
      repeat constructor; set_solver.
  - repeat apply Forall_cons_2; try apply Forall_nil_2. intros th th' v b names H. cbn in H. injection H as <- <- <-.
    repeat constructor.
  - vm_compute. reflexivity.
  - vm_compute. reflexivity.
  - vm_compute. reflexivity.
  - reflexivity.
  - exists vs, th'. split; [exact H1|]. rewrite H2. vm_compute. reflexivity.
Defined.
