(* ===== verification/Wire.v ===== *)
(** * Datagrams on a stream

    Models transport/__init__.py and transport/client.py: length prefixed messages, the
    accumulator of outgoing messages, and the reading of frames from a socket that hands
    out a stream in blocks of its own choice.

    Messages are ASCII texts, so that a character is a byte on the wire. *)

From Stdlib Require Import Ascii.
From S2P Require Import Prelude PyStr.

(** ** The socket *)

(** What the next [recv] finds: a block of the stream, or nothing within the time limit.
    An empty list of arrivals is a connection closed by the peer. *)
Inductive Arrival := Block (l : chars) | TimedOut.

(** [sendLimits] says how many bytes the operating system takes in the calls of [send] to
    come; an exhausted list takes all. *)
Record Socket := mkSocket { arrivals : list Arrival; sendLimits : list nat; outgoing : chars }.

(** [Client.receive]: at most [n] characters of the next block. *)
Definition receive (n : nat) (s : Socket) : result (chars * Socket) :=
  match arrivals s with
  | [] => Ok ([], s)
  | TimedOut :: _ => Raise SocketError_
  | Block l :: rest =>
      let rest := match drop n l with [] => rest | l' => Block l' :: rest end in
      Ok (take n l, mkSocket rest (sendLimits s) (outgoing s))
  end.

(** [Client.send]: one call of [socket.send]; the number of bytes taken is not looked at. *)
Definition client_send (msg : chars) (s : Socket) : Socket :=
  match sendLimits s with
  | [] => mkSocket (arrivals s) [] (outgoing s ++ msg)
  | k :: ks => mkSocket (arrivals s) ks (outgoing s ++ take k msg)
  end.

(** ** Messages *)

Definition HDR_LEN : nat := 8.

(** [{0:0>8}]: padded with zeros to eight characters. *)
Definition pad8 (l : chars) : chars := replicate (HDR_LEN - length l) "0"%char ++ l.

(** [encode]. *)
Definition encode (msg : string) : chars :=
  pad8 (print_nat 10 (Z.of_nat (length (to_chars msg)))) ++ to_chars msg.

(** [MsgAccumulator]. *)
Record MsgAccumulator := mkAccumulator { buffer : chars; msgCount : nat }.
Definition accumulator_reset : MsgAccumulator := mkAccumulator [] 0.
Definition accumulate (payload : chars) (a : MsgAccumulator) : MsgAccumulator :=
  mkAccumulator (buffer a ++ payload) (S (msgCount a)).

(** [DatagramClient]: a socket, with or without an accumulator. *)
Record DatagramClient := mkClient { socket : Socket; accumulator : option MsgAccumulator }.

Definition enableBuffering (c : DatagramClient) : DatagramClient := mkClient (socket c) (Some accumulator_reset).

Definition send (msg : string) (c : DatagramClient) : DatagramClient :=
  let payload := encode msg in
  match accumulator c with
  | Some a => mkClient (socket c) (Some (accumulate payload a))
  | None => mkClient (client_send payload (socket c)) None
  end.

Definition flush (c : DatagramClient) : result DatagramClient :=
  match accumulator c with
  | Some a => Ok (mkClient (client_send (buffer a) (socket c)) (Some accumulator_reset))
  | None => Raise Exception_
  end.

(** ** Reading frames *)

(** The loop of [readAtleast]; every block it accepts has at least one character, so
    [length] rounds are enough. *)
Fixpoint read_loop (fuel len : nat) (data : chars) (s : Socket) : result (chars * Socket) :=
  if (length data <? len)%nat then
    match fuel with
    | O => Raise RecursionError_
    | S fuel =>
        '(block, s) ← receive (len - length data) s;
        match block with
        | [] => Raise Exception_
        | _ => read_loop fuel len (data ++ block) s
        end
    end
  else Ok (data, s).
Definition readAtleast (len : nat) (s : Socket) : result (chars * Socket) := read_loop len len [] s.

(** [readFrame]. *)
Definition readFrame (c : DatagramClient) : result (string * DatagramClient) :=
  '(data, s) ← readAtleast HDR_LEN (socket c);
  if negb (Nat.eqb (length data) HDR_LEN) then Raise Exception_
  else
    frameLen ← py_int 10 (of_chars data);
    if 0 <? frameLen then
      '(data, s) ← readAtleast (Z.to_nat frameLen) s;
      Ok (of_chars data, mkClient s (accumulator c))
    else Ok (""%string, mkClient s (accumulator c)).

(** ** Lemmas: what is left to read *)

(** The blocks of a stream without time outs; no block is empty. *)
Definition streams (s : Socket) (l : chars) : Prop :=
  exists blocks, arrivals s = Block <$> blocks /\ Forall (fun b => b <> []) blocks /\ mjoin blocks = l.

Lemma receive_streams n s l : streams s l -> (0 < n)%nat -> exists b s',
  receive n s = Ok (b, s') /\ b ++ drop (length b) l = l /\ (length b <= n)%nat /\
  streams s' (drop (length b) l) /\ (b = [] -> l = []) /\ sendLimits s' = sendLimits s /\ outgoing s' = outgoing s.
Proof.
  intros (blocks & Ha & Hne & Hl) Hn. unfold receive. rewrite Ha.
  destruct blocks as [|b blocks]; cbn [fmap list_fmap].
  { exists [], s. cbn in Hl. subst l. split_and!; try done; [cbn; lia|]. exists []. by rewrite Ha. }
  apply Forall_cons in Hne as [Hb Hne]. cbn in Hl. subst l. eexists _, _. split; [done|].
  rewrite length_take. set (k := (n `min` length b)%nat).
  assert (Hk : drop k (b ++ mjoin blocks) = drop n b ++ mjoin blocks).
  { rewrite drop_app. destruct (Nat.le_ge_cases n (length b)) as [H|H].
    - assert (k = n) as -> by (unfold k; lia). by replace (n - length b)%nat with 0%nat by lia.
    - assert (k = length b) as -> by (unfold k; lia). by rewrite Nat.sub_diag (drop_ge b n) // drop_all. }
  rewrite Hk. split_and!; try done.
  - by rewrite app_assoc take_drop.
  - unfold k. lia.
  - destruct (drop n b) as [|x b'] eqn:E; [by exists blocks|].
    exists ((x :: b') :: blocks). split_and!; [done| |done]. constructor; [done|exact Hne].
  - intros E. exfalso. apply (f_equal length) in E. rewrite length_take in E. cbn in E.
    destruct b; [done|]. cbn in E. lia.
Qed.

(** Reading [len] characters takes them off the stream, or fails when it ends first. *)
Lemma read_loop_spec fuel len data s l : streams s l -> (length data <= len)%nat -> (len - length data <= fuel)%nat ->
  let missing := (len - length data)%nat in
  if (missing <=? length l)%nat then exists s', read_loop fuel len data s = Ok (data ++ take missing l, s') /\
    streams s' (drop missing l) /\ sendLimits s' = sendLimits s /\ outgoing s' = outgoing s
  else read_loop fuel len data s = Raise Exception_.
Proof.
  revert data s l. induction fuel as [|fuel IH]; intros data s l Hs Hd Hf; cbn zeta.
  { cbn [read_loop]. destruct (Nat.ltb_spec (length data) len); [lia|].
    replace (len - length data)%nat with 0%nat by lia. exists s. rewrite take_0 app_nil_r. by split_and!. }
  cbn [read_loop]. destruct (Nat.ltb_spec (length data) len) as [Hlt|Hge].
  2: { replace (len - length data)%nat with 0%nat by lia. exists s. rewrite take_0 app_nil_r. by split_and!. }
  destruct (receive_streams (len - length data) s l Hs) as (b & s' & Hr & Hb & Hlen & Hs' & Hnil & H1 & H2); [lia|].
  rewrite Hr. cbn [mbind result_bind]. destruct b as [|x b].
  { rewrite (Hnil eq_refl). cbn. destruct (Nat.leb_spec (len - length data) 0); [lia|done]. }
  set (bl := x :: b) in *. assert (Hpos : (0 < length bl)%nat) by (cbn; lia).
  specialize (IH (data ++ bl) s' (drop (length bl) l) Hs'). rewrite length_app length_drop in IH.
  specialize (IH ltac:(lia) ltac:(lia)). cbn zeta in IH.
  assert (Hll : length l = (length bl + (length l - length bl))%nat).
  { rewrite -{1}Hb length_app length_drop. done. }
  replace (len - (length data + length bl))%nat with (len - length data - length bl)%nat in IH by lia.
  destruct (Nat.leb_spec (len - length data) (length l)), (Nat.leb_spec (len - length data - length bl) (length l - length bl)); try lia.
  - destruct IH as (s2 & -> & Hs2 & H3 & H4). exists s2. split_and!; [|by rewrite drop_drop in Hs2; rewrite Nat.add_comm Nat.sub_add // in Hs2; lia|congruence|congruence].
    f_equal. f_equal. rewrite -app_assoc. f_equal. rewrite -{2}Hb take_app. f_equal.
    by rewrite take_ge; [lia|].
  - exact IH.
Qed.

(** ** Frames *)

Lemma digits_of_length fuel base v acc k : 2 <= base -> 0 <= v < base ^ Z.of_nat (S k) ->
  (length (digits_of fuel base v acc) <= length acc + S k)%nat.
Proof.
  intros Hb. revert v acc k. induction fuel as [|fuel IH]; intros v acc k Hv; cbn [digits_of]; [lia|].
  destruct (Z.ltb_spec v base) as [|Hge]; [cbn; lia|].
  destruct k as [|k]; [change (Z.of_nat 1) with 1 in Hv; lia|].
  specialize (IH (v / base) (digit_char (v mod base) :: acc) k). cbn [length] in IH. etransitivity; [apply IH|lia].
  replace (Z.of_nat (S (S k))) with (Z.succ (Z.of_nat (S k))) in Hv by lia. rewrite Z.pow_succ_r in Hv; [lia|].
  split; [apply Z.div_pos; lia|]. apply Z.div_lt_upper_bound; lia.
Qed.

(** A header has eight digits, whose value is the length it was made from. *)
Lemma pad8_digits n : 0 <= n < 10 ^ 8 ->
  length (pad8 (print_nat 10 n)) = HDR_LEN /\
  Forall (fun c => exists d, c = digit_char d /\ 0 <= d < 10) (pad8 (print_nat 10 n)) /\
  fold_left (fun a c => a * 10 + digit_raw c) (pad8 (print_nat 10 n)) 0 = n.
Proof.
  intros Hn. destruct (print_nat_spec 10 n) as (Hne & Hds & Hv); [lia|lia|].
  assert (Hlen : (length (print_nat 10 n) <= HDR_LEN)%nat).
  { pose proof (digits_of_length (digits_fuel n) 10 n [] 7 ltac:(lia) ltac:(cbn; lia)) as H. exact H. }
  split; [unfold pad8; rewrite length_app length_replicate; lia|].
  unfold pad8. generalize (HDR_LEN - length (print_nat 10 n))%nat as z. intros z. split.
  - apply Forall_app. split; [|exact Hds]. apply Forall_replicate. by exists 0.
  - rewrite fold_left_app. assert (E : fold_left (fun a c => a * 10 + digit_raw c) (replicate z "0"%char) 0 = 0).
    { induction z as [|z IH]; [done|exact IH]. }
    by rewrite E.
Qed.

Lemma pad8_spec n : 0 <= n < 10 ^ 8 ->
  length (pad8 (print_nat 10 n)) = HDR_LEN /\ py_int 10 (of_chars (pad8 (print_nat 10 n))) = Ok n.
Proof.
  intros Hn. destruct (pad8_digits n Hn) as (Hlen & Hds & Hv). split; [done|]. unfold py_int.
  destruct (parse_int_chars 10 (pad8 (print_nat 10 n)) n) as [-> _]; [lia|done| |done|done].
  intros E. rewrite E in Hlen. done.
Qed.

Lemma encode_length msg : Z.of_nat (length (to_chars msg)) < 10 ^ 8 ->
  encode msg = take HDR_LEN (encode msg) ++ to_chars msg /\ length (take HDR_LEN (encode msg)) = HDR_LEN /\
  py_int 10 (of_chars (take HDR_LEN (encode msg))) = Ok (Z.of_nat (length (to_chars msg))).
Proof.
  intros Hm. destruct (pad8_spec (Z.of_nat (length (to_chars msg)))) as [Hlen Hint]; [lia|].
  unfold encode. rewrite take_app_le; [lia|]. rewrite (take_ge (pad8 _)); [lia|]. by split_and!.
Qed.

(** What reading one frame comes to, for the text [l] that is left on the stream: the rest
    of the stream after the frame, or the exception. *)
Definition frame_of (l : chars) : result (string * chars) :=
  if (length l <? HDR_LEN)%nat then Raise Exception_
  else
    n ← py_int 10 (of_chars (take HDR_LEN l));
    let body := drop HDR_LEN l in
    if 0 <? n then
      if (length body <? Z.to_nat n)%nat then Raise Exception_
      else Ok (of_chars (take (Z.to_nat n) body), drop (Z.to_nat n) body)
    else Ok (""%string, body).

Lemma readAtleast_spec len s l : streams s l ->
  if (length l <? len)%nat then readAtleast len s = Raise Exception_
  else exists s', readAtleast len s = Ok (take len l, s') /\ streams s' (drop len l) /\
    sendLimits s' = sendLimits s /\ outgoing s' = outgoing s.
Proof.
  intros Hs. pose proof (read_loop_spec len len [] s l Hs) as H. cbn [length app] in H. rewrite Nat.sub_0_r in H.
  specialize (H ltac:(lia) ltac:(lia)). cbn zeta in H.
  destruct (Nat.leb_spec len (length l)), (Nat.ltb_spec (length l) len); try lia; exact H.
Qed.

Lemma read_frame_of c l : streams (socket c) l ->
  match frame_of l with
  | Ok (msg, rest) => exists c', readFrame c = Ok (msg, c') /\ streams (socket c') rest /\
      accumulator c' = accumulator c /\ sendLimits (socket c') = sendLimits (socket c) /\ outgoing (socket c') = outgoing (socket c)
  | Raise e => readFrame c = Raise e
  end.
Proof.
  intros Hs. unfold frame_of, readFrame. pose proof (readAtleast_spec HDR_LEN (socket c) l Hs) as Hh.
  destruct (Nat.ltb_spec (length l) HDR_LEN) as [|Hlen]; [by rewrite Hh|].
  destruct Hh as (s1 & -> & Hs1 & Hl1 & Ho1). cbn [mbind result_bind].
  assert (length (take HDR_LEN l) = HDR_LEN) as -> by (rewrite length_take; lia). rewrite Nat.eqb_refl. cbn [negb].
  destruct (py_int 10 _) as [n|e]; [|done]. cbn [mbind result_bind].
  destruct (0 <? n).
  - pose proof (readAtleast_spec (Z.to_nat n) s1 _ Hs1) as Hb.
    destruct (Nat.ltb_spec (length (drop HDR_LEN l)) (Z.to_nat n)) as [|_]; [by rewrite Hb|].
    destruct Hb as (s2 & -> & Hs2 & Hl2 & Ho2). eexists. split; [done|]. cbn [socket accumulator]. split_and!; congruence || done.
  - eexists. split; [done|]. by split_and!.
Qed.

(** However the network cuts the stream into blocks, reading a frame depends
    on the text alone: it gives the frame the header announces and leaves exactly what
    follows it, raises when the connection closes before the frame is complete, and
    always ends. *)
Theorem readFrame_spec c l : streams (socket c) l ->
  match frame_of l with
  | Ok (msg, rest) => exists c', readFrame c = Ok (msg, c') /\ streams (socket c') rest /\
      accumulator c' = accumulator c /\ sendLimits (socket c') = sendLimits (socket c) /\ outgoing (socket c') = outgoing (socket c)
  | Raise e => readFrame c = Raise e
  end.
Proof. apply read_frame_of. Qed.

Lemma encode_frame msg rest : Z.of_nat (length (to_chars msg)) < 10 ^ 8 ->
  frame_of (encode msg ++ rest) = Ok (msg, rest).
Proof.
  intros Hm. destruct (encode_length msg Hm) as (E & Hlen & Hint). unfold frame_of.
  set (h := take HDR_LEN (encode msg)) in *. rewrite E -app_assoc.
  assert (take HDR_LEN (h ++ to_chars msg ++ rest) = h) as -> by (rewrite -Hlen; apply take_app_length).
  assert (drop HDR_LEN (h ++ to_chars msg ++ rest) = to_chars msg ++ rest) as -> by (rewrite -Hlen; apply drop_app_length).
  rewrite Hint. cbn [mbind result_bind]. rewrite !length_app Hlen.
  destruct (Nat.ltb_spec (HDR_LEN + (length (to_chars msg) + length rest)) HDR_LEN); [lia|].
  rewrite Nat2Z.id. destruct (Z.ltb_spec 0 (Z.of_nat (length (to_chars msg)))) as [Hp|Hp].
  - destruct (Nat.ltb_spec (length (to_chars msg) + length rest) (length (to_chars msg))); [lia|].
    by rewrite take_app_length drop_app_length of_to_chars.
  - assert (Hnil : to_chars msg = []) by (destruct (to_chars msg); [done|cbn in Hp; lia]).
    rewrite Hnil. f_equal. f_equal. rewrite -(of_to_chars msg) Hnil. done.
Qed.

(** Successive frames. *)
Fixpoint read_frames (n : nat) (c : DatagramClient) : result (list string * DatagramClient) :=
  match n with
  | O => Ok ([], c)
  | S n => '(m, c) ← readFrame c; '(ms, c) ← read_frames n c; Ok (m :: ms, c)
  end.

Lemma read_encoded msgs c rest : Forall (fun m => Z.of_nat (length (to_chars m)) < 10 ^ 8) msgs ->
  streams (socket c) (mjoin (encode <$> msgs) ++ rest) ->
  exists c', read_frames (length msgs) c = Ok (msgs, c') /\ streams (socket c') rest.
Proof.
  revert c. induction msgs as [|m msgs IH]; intros c Hl Hs; [by exists c|].
  apply Forall_cons in Hl as [Hm Hl]. cbn [fmap list_fmap mjoin list_join] in Hs. rewrite -app_assoc in Hs.
  pose proof (read_frame_of c _ Hs) as H. rewrite encode_frame // in H. destruct H as (c1 & H1 & Hs1 & _).
  destruct (IH c1 Hl Hs1) as (c2 & H2 & Hs2). exists c2. cbn [length read_frames]. rewrite H1. cbn [mbind result_bind].
  rewrite H2. by split.
Qed.

Lemma buffered_send msgs c a : accumulator c = Some a ->
  fold_left (fun c m => send m c) msgs c =
  mkClient (socket c) (Some (mkAccumulator (buffer a ++ mjoin (encode <$> msgs)) (msgCount a + length msgs))).
Proof.
  revert c a. induction msgs as [|m msgs IH]; intros c a Ha; cbn [fold_left].
  - cbn. rewrite app_nil_r Nat.add_0_r. destruct c, a; cbn in *. by subst.
  - unfold send at 2. rewrite Ha. rewrite (IH _ (accumulate (encode m) a)) //. cbn.
    by rewrite -app_assoc Nat.add_succ_r.
Qed.

(** Messages that are accumulated and flushed in one shot leave the client as
    their frames, in order, and a peer that reads frames from that stream, however it is
    cut into blocks, gets exactly these messages back. *)
Theorem frames_roundtrip msgs c reader :
  Forall (fun m => Z.of_nat (length (to_chars m)) < 10 ^ 8) msgs -> sendLimits (socket c) = [] ->
  exists sent c', flush (fold_left (fun c m => send m c) msgs (enableBuffering c)) = Ok c' /\
    outgoing (socket c') = outgoing (socket c) ++ sent /\ accumulator c' = Some accumulator_reset /\
    (streams (socket reader) sent -> exists reader',
       read_frames (length msgs) reader = Ok (msgs, reader') /\ streams (socket reader') []).
Proof.
  intros Hl Hlim. exists (mjoin (encode <$> msgs)). rewrite (buffered_send msgs (enableBuffering c) accumulator_reset) //.
  eexists. split; [done|]. cbn [socket accumulator enableBuffering]. unfold client_send. rewrite Hlim. cbn.
  split_and!; [done..|]. intros Hs. apply read_encoded; [done|]. by rewrite app_nil_r.
Qed.

(** A call of [send] that takes only a part of a message loses the rest. *)
Example partial_send :
  outgoing (socket (send "Ping" (mkClient (mkSocket [] [9%nat] []) None))) = to_chars "00000004P".
Proof. reflexivity. Qed.

(** ** Witnesses *)

Definition ex_reader : DatagramClient :=
  mkClient (mkSocket [Block (to_chars "0000"); Block (to_chars "0004Pi"); Block (to_chars "ng0000000"); Block (to_chars "2ab")] [] []) None.

Lemma ex_reader_streams : streams (socket ex_reader) (to_chars "00000004Ping00000002ab").
Proof.
  exists [to_chars "0000"; to_chars "0004Pi"; to_chars "ng0000000"; to_chars "2ab"].
  split; [reflexivity|]. split; [|reflexivity]. repeat apply Forall_cons_2; try discriminate. apply Forall_nil_2.
Qed.

Lemma frames_roundtrip_witness : exists c' reader',
  flush (fold_left (fun c m => send m c) ["Ping"; "ab"] (enableBuffering (mkClient (mkSocket [] [] []) None))) = Ok c' /\
  read_frames 2 ex_reader = Ok (["Ping"; "ab"], reader').
Proof.
  destruct (frames_roundtrip ["Ping"; "ab"] (mkClient (mkSocket [] [] []) None) ex_reader) as (sent & c' & Hf & Ho & _ & Hr).
  - repeat apply Forall_cons_2; try apply Forall_nil_2; cbn; lia.
  - reflexivity.
  - assert (sent = to_chars "00000004Ping00000002ab") as ->.
    { vm_compute in Hf. injection Hf as <-. cbn in Ho. symmetry. exact Ho. }
    destruct (Hr ex_reader_streams) as (reader' & H & _). exists c', reader'. split; [exact Hf|exact H].
Defined.

Lemma readFrame_spec_witness : exists c', readFrame ex_reader = Ok ("Ping", c') /\ streams (socket c') (to_chars "00000002ab").
Proof.
  pose proof (readFrame_spec ex_reader _ ex_reader_streams) as H.
  assert (E : frame_of (to_chars "00000004Ping00000002ab") = Ok ("Ping", to_chars "00000002ab")) by (vm_compute; reflexivity).
  rewrite E in H. destruct H as (c' & H & Hs & _). exists c'. split; [exact H|exact Hs].
Defined.
