(* ===== verification/Target.v ===== *)
(** * The profiled process, and the admin commands sent to it

    Models [Environment.admin] of profiler/environment.py together with its peer, the
    remote session of the profiled process (C++: framework/session/RemoteSession.[CH],
    transport/Framer.C, framework/request/RequestParser.C and ProbeRequest.H,
    framework/Profile.H, probes/ProbeCtl.C and Probe.C): framing of requests and replies,
    parsing, and the requests that list, activate and deactivate probes.

    The network hands the reply out in blocks; how it cuts a text is a parameter. *)

From Stdlib Require Import Ascii.
From S2P Require Import Prelude PyStr Probe Route Txn Loader Records Wire.

(** ** The probes of the process *)

(** [ProbeKey]: an empty name stands for none. *)
Record ProbeKey := mkProbeKey { k_name : string; k_file : string; k_line : Z }.

#[export] Instance ProbeKey_eq_dec : EqDecision ProbeKey.
Proof. solve_decision. Defined.

(** The list of probes, and the keys to disable when the session ends. *)
Record Target := mkTarget { t_probes : list ProbeInfo; activeKeys : list ProbeKey }.

Definition strstr (haystack needle : string) : bool :=
  match find_sub (to_chars needle) (to_chars haystack) with Some _ => true | None => false end.

(** [Probe::match]. *)
Definition matchName (r : ProbeInfo) (name : option string) : bool :=
  match name with Some n => String.eqb (r_name r) n | None => false end.
Definition matchLocation (r : ProbeInfo) (file : string) (line : Z) : bool :=
  (nonempty file && strstr (r_file r) file && ((line =? 0) || (r_line r =? line)))%bool.
Definition probe_match (r : ProbeInfo) (file : string) (line : Z) (name : option string) : bool :=
  (matchName r name || matchLocation r file line)%bool.

Definition set_enabled (b : bool) (r : ProbeInfo) : ProbeInfo :=
  mkProbeInfo (r_id r) (r_probe r) (r_callSite r) (r_site r) b (r_name r) (r_file r) (r_line r) (r_func r) (r_attrs r).

(** [probeCtl]. *)
Definition probeCtl (enable : bool) (file : string) (line : Z) (name : option string) (ps : list ProbeInfo) : list ProbeInfo :=
  (fun r => if probe_match r file line name then set_enabled enable r else r) <$> ps.

Definition key_nameArg (k : ProbeKey) : option string := if nonempty (k_name k) then Some (k_name k) else None.

(** [Profile::activateProbe] and [deactivateProbe]. *)
Definition activateProbe (k : ProbeKey) (t : Target) : Target :=
  mkTarget (probeCtl true (k_file k) (k_line k) (key_nameArg k) (t_probes t))
    (if bool_decide (k ∈ activeKeys t) then activeKeys t else activeKeys t ++ [k]).
Definition deactivateProbe (k : ProbeKey) (t : Target) : Target :=
  mkTarget (probeCtl false (k_file k) (k_line k) (key_nameArg k) (t_probes t))
    (filter (fun k' => k' <> k) (activeKeys t)).

(** [log::logProbes]: a line per probe. *)
Definition listProbes (t : Target) : string :=
  of_chars (mjoin ((fun r => to_chars (probe_record r) ++ ["010"%char]) <$> t_probes t)).

(** ** Requests *)

Inductive Response := Value (s : string) | Errors (s : string).

(** [strtok_r] on blanks: maximal runs of other characters. *)
Fixpoint tokens_aux (cur l : chars) : list chars :=
  match l with
  | [] => match cur with [] => [] | _ => [rev cur] end
  | c :: l =>
      if Ascii.eqb c " " then match cur with [] => tokens_aux [] l | _ => rev cur :: tokens_aux [] l end
      else tokens_aux (c :: cur) l
  end.
Definition tokens (s : string) : list string := of_chars <$> tokens_aux [] (to_chars s).

(** [atoi], stored in 32 unsigned bits. *)
Definition c_digit (c : ascii) : bool := ((48 <=? nat_of_ascii c)%nat && (nat_of_ascii c <=? 57)%nat)%bool.
Fixpoint atoi_digits (acc : Z) (l : chars) : Z :=
  match l with c :: l => if c_digit c then atoi_digits (acc * 10 + digit_raw c) l else acc | [] => acc end.
Definition atoi32 (s : string) : Z :=
  (match to_chars s with
   | c :: l => if Ascii.eqb c "-" then - atoi_digits 0 l else if Ascii.eqb c "+" then atoi_digits 0 l else atoi_digits 0 (c :: l)
   | [] => 0
   end) mod 2 ^ 32.

(** [extractArguments]: pairs of an option and its value; a last option alone is dropped. *)
Fixpoint key_args (k : ProbeKey) (args : list string) : ProbeKey :=
  match args with
  | name :: value :: rest =>
      key_args (if String.eqb name "--file" then mkProbeKey (k_name k) value (k_line k)
                else if String.eqb name "--line" then mkProbeKey (k_name k) (k_file k) (atoi32 value)
                else if String.eqb name "--name" then mkProbeKey value (k_file k) (k_line k)
                else k) rest
  | _ => k
  end.

Inductive Request :=
  | PingRequest
  | ProbeListRequest
  | ProbeActivationRequest (k : ProbeKey)
  | ProbeDeactivationRequest (k : ProbeKey)
  | OtherRequest (req : string) (args : list string)
  | InvalidRequest (errors : string).

(** Requests about time stamps, pmu counters and sample collection are kept as their words;
    some need arguments. *)
Definition is_other (req : string) (args : list string) : bool :=
  (existsb (String.eqb req) ["TscHz"; "EndProfile"] ||
   negb (bool_decide (args = [])) && existsb (String.eqb req) ["ActivatePmu"; "ActivatePerfEvents"; "BeginProfile"])%bool.

(** [RequestParser::parse]. *)
Definition parse (s : string) : Request :=
  match tokens s with
  | [] => InvalidRequest "Empty request ..."
  | req :: args =>
      if String.eqb req "Ping" then PingRequest
      else if String.eqb req "ListProbes" then ProbeListRequest
      else
        let key := key_args (mkProbeKey "" "" 0) args in
        if (negb (bool_decide (args = [])) && String.eqb req "ActivateProbe")%bool then ProbeActivationRequest key
        else if (negb (bool_decide (args = [])) && String.eqb req "DeactivateProbe")%bool then ProbeDeactivationRequest key
        else if is_other req args then OtherRequest req args
        else InvalidRequest (String.append "Invalid Request: " req)
  end.

Section Peer.
(** What the process does for the requests that are not about probes. *)
Context (other : string -> list string -> Target -> Response * Target).
(** How the network cuts a text into blocks. *)
Context (segment : chars -> list chars).

(** [Request::execute]. *)
Definition execute (r : Request) (t : Target) : Response * Target :=
  match r with
  | PingRequest => (Value "hello", t)
  | ProbeListRequest => (Value (listProbes t), t)
  | ProbeActivationRequest k => (Value "", activateProbe k t)
  | ProbeDeactivationRequest k => (Value "", deactivateProbe k t)
  | OtherRequest req args => other req args t
  | InvalidRequest e => (Errors e, t)
  end.

(** The effect of a command, seen without the network. *)
Definition handle (cmd : string) (t : Target) : Response * Target := execute (parse cmd) t.

(** ** The remote session *)

Definition rc_char (r : Response) : ascii := match r with Value _ => "0"%char | Errors _ => "1"%char end.
Definition payload_of (r : Response) : string := match r with Value s | Errors s => s end.

(** [RemoteSession::encode]. *)
Definition reply (r : Response) : chars :=
  pad8 (print_nat 10 (Z.of_nat (length (to_chars (payload_of r)) + 5))) ++
  to_chars "rc=" ++ rc_char r :: "|"%char :: to_chars (payload_of r).

(** [Framer::parseFrameLen]: the low four bits of eight characters. *)
Definition parseFrameLen (l : chars) : nat :=
  Z.to_nat (fold_left (fun a c => a * 10 + Z.land (Z.of_nat (nat_of_ascii c)) 15) (take HDR_LEN l) 0).

(** [Framer::readFrame] on the bytes received so far. *)
Definition c_readFrame (buf : chars) : option (chars * chars) :=
  if (length buf <? HDR_LEN)%nat then None
  else
    let n := parseFrameLen buf in
    let body := drop HDR_LEN buf in
    if (length body <? n)%nat then None else Some (take n body, drop n body).

(** [RemoteSession::pollClient]: an empty frame ends the round. *)
Fixpoint pollClient (fuel : nat) (buf : chars) (t : Target) : chars * chars * Target :=
  match fuel with
  | O => ([], buf, t)
  | S fuel =>
      match c_readFrame buf with
      | None | Some ([], _) => ([], buf, t)
      | Some (frame, rest) =>
          let '(r, t) := handle (of_chars frame) t in
          let '(out, buf, t) := pollClient fuel rest t in (reply r ++ out, buf, t)
      end
  end.

(** A connection: the client, the bytes the process has not used yet, the process. *)
Record Connection := mkConnection { client : DatagramClient; inbox : chars; target : Target }.

(** The bytes the client sent reach the process, and its replies the client; a frame has at
    least eight bytes, which bounds the frames in the buffer. *)
Definition deliver (w : Connection) : Connection :=
  let s := socket (client w) in
  let buf := inbox w ++ outgoing s in
  let '(out, buf, t) := pollClient (length buf) buf (target w) in
  mkConnection (mkClient (mkSocket (arrivals s ++ (Block <$> segment out)) (sendLimits s) []) (accumulator (client w))) buf t.

(** The status and the result of a reply. *)
Definition pdu_result (pdu : string) : result string :=
  let l := to_chars pdu in
  match l !! 3%nat, l !! 4%nat with
  | Some status, Some bar =>
      if negb (Ascii.eqb bar "|") then Raise InvariantViloation
      else if negb (c_digit status) then Raise InvariantViloation
      else if digit_raw status =? 0 then Ok (of_chars (drop 5 l)) else Raise Exception_
  | _, _ => Raise InvariantViloation
  end.

(** [Environment.admin]. *)
Definition env_admin (cmd : string) (w : Connection) : result (string * Connection) :=
  let w := deliver (mkConnection (send cmd (client w)) (inbox w) (target w)) in
  '(pdu, c) ← readFrame (client w);
  v ← pdu_result pdu;
  Ok (v, mkConnection c (inbox w) (target w)).

(** ** A command is a remote call *)

(** The network delivers every character once, in order. *)
Hypothesis segment_text : forall l, mjoin (segment l) = l.
Hypothesis segment_blocks : forall l, Forall (fun b => b <> []) (segment l).

(** A connection at rest: nothing is in flight, and the client sends at once. *)
Definition at_rest (w : Connection) : Prop :=
  arrivals (socket (client w)) = [] /\ sendLimits (socket (client w)) = [] /\ outgoing (socket (client w)) = [] /\
  accumulator (client w) = None /\ inbox w = [].

Lemma frame_len_digits l rest : Forall (fun c => exists d, c = digit_char d /\ 0 <= d < 10) l -> length l = HDR_LEN ->
  parseFrameLen (l ++ rest) = Z.to_nat (fold_left (fun a c => a * 10 + digit_raw c) l 0).
Proof.
  intros Hl Hlen. unfold parseFrameLen. rewrite -Hlen take_app_length. f_equal. clear Hlen. generalize 0 as a.
  induction Hl as [|c l (d & -> & Hd) _ IH]; intros a; [done|]. cbn [fold_left]. rewrite IH. f_equal. f_equal.
  rewrite digit_raw_char; [lia|].
  assert (d = 0 \/ d = 1 \/ d = 2 \/ d = 3 \/ d = 4 \/ d = 5 \/ d = 6 \/ d = 7 \/ d = 8 \/ d = 9) as H by lia.
  repeat destruct H as [->|H]; try reflexivity. by subst.
Qed.

(** The process reads the frames of the client. *)
Lemma c_readFrame_encode msg rest : Z.of_nat (length (to_chars msg)) < 10 ^ 8 ->
  c_readFrame (encode msg ++ rest) = Some (to_chars msg, rest).
Proof.
  intros Hm. destruct (pad8_digits (Z.of_nat (length (to_chars msg)))) as (Hlen & Hds & Hv); [lia|].
  unfold c_readFrame, encode. set (h := pad8 _) in *. clearbody h. rewrite -app_assoc.
  assert (parseFrameLen (h ++ to_chars msg ++ rest) = length (to_chars msg)) as ->.
  { rewrite frame_len_digits // Hv. lia. }
  assert (drop HDR_LEN (h ++ to_chars msg ++ rest) = to_chars msg ++ rest) as -> by (rewrite -Hlen; apply drop_app_length).
  rewrite !length_app Hlen. destruct (Nat.ltb_spec (HDR_LEN + (length (to_chars msg) + length rest)) HDR_LEN); [lia|].
  destruct (Nat.ltb_spec (length (to_chars msg) + length rest) (length (to_chars msg))); [lia|].
  by rewrite take_app_length drop_app_length.
Qed.

(** A reply is the frame of its status and payload. *)
Lemma reply_encode r : reply r = encode (of_chars (to_chars "rc=" ++ rc_char r :: "|"%char :: to_chars (payload_of r))).
Proof.
  unfold reply, encode. rewrite to_of_chars. f_equal. f_equal. f_equal. rewrite length_app. cbn [length]. 
  change (length (to_chars "rc=")) with 3%nat. lia.
Qed.

Lemma pdu_result_reply r :
  pdu_result (of_chars (to_chars "rc=" ++ rc_char r :: "|"%char :: to_chars (payload_of r))) =
  match r with Value v => Ok v | Errors _ => Raise Exception_ end.
Proof. unfold pdu_result. rewrite to_of_chars. destruct r as [v|e]; cbn; [by rewrite drop_0 of_to_chars|done]. Qed.

Lemma pollClient_one cmd t r t' fuel : cmd <> ""%string -> Z.of_nat (length (to_chars cmd)) < 10 ^ 8 ->
  handle cmd t = (r, t') -> pollClient (S (S fuel)) (encode cmd) t = (reply r, [], t').
Proof.
  intros Hne Hlen Hh. cbn [pollClient]. rewrite -{1}(app_nil_r (encode cmd)) c_readFrame_encode //.
  destruct (to_chars cmd) as [|c l] eqn:E; [by rewrite -(of_to_chars cmd) E in Hne|].
  rewrite -E of_to_chars Hh. cbn. by rewrite app_nil_r.
Qed.

Lemma env_admin_refines_handle cmd w r t' :
  at_rest w -> cmd <> ""%string -> Z.of_nat (length (to_chars cmd)) < 10 ^ 8 ->
  handle cmd (target w) = (r, t') -> Z.of_nat (length (to_chars (payload_of r)) + 5) < 10 ^ 8 ->
  match r with
  | Value v => exists w', env_admin cmd w = Ok (v, w') /\ at_rest w' /\ target w' = t'
  | Errors _ => env_admin cmd w = Raise Exception_
  end.
Proof.
  intros (Ha & Hl & Ho & Hacc & Hin) Hne Hlen Hh Hr. unfold env_admin, deliver, send. rewrite Hacc. unfold client_send. rewrite Hl.
  cbn [client socket inbox outgoing sendLimits arrivals accumulator target]. rewrite Hin Ho Ha. cbn [app].
  assert (Hlen2 : exists f, length (encode cmd) = S (S f)).
  { destruct (encode_length cmd Hlen) as (E & H8 & _). rewrite E length_app H8. by eexists. }
  destruct Hlen2 as [f ->]. rewrite (pollClient_one cmd _ r t') //. cbn [client socket].
  set (c := mkClient _ _). set (text := of_chars (to_chars "rc=" ++ rc_char r :: "|"%char :: to_chars (payload_of r))).
  assert (Hs : streams (socket c) (encode text)).
  { exists (segment (reply r)). split; [done|]. split; [apply segment_blocks|]. by rewrite segment_text reply_encode. }
  assert (Hf : frame_of (encode text) = Ok (text, [])).
  { rewrite -(app_nil_r (encode text)). apply encode_frame. unfold text. rewrite to_of_chars length_app. cbn [length].
    change (length (to_chars "rc=")) with 3%nat. lia. }
  pose proof (read_frame_of c _ Hs) as H. rewrite Hf in H. destruct H as (c' & -> & Hs' & H1 & H2 & H3).
  cbn [mbind result_bind]. unfold text. rewrite pdu_result_reply. destruct r as [v|e]; [|done]. cbn [mbind result_bind].
  eexists. split; [done|]. split; [|done]. unfold at_rest. cbn [client inbox socket]. rewrite H1 H2 H3.
  destruct Hs' as (blocks & -> & Hb & Hnil). split_and!; try done.
  destruct blocks as [|b blocks]; [done|]. apply Forall_cons in Hb as [Hb _]. by destruct b.
Qed.

(** C38 (remote call): over a connection at rest, however the network cuts the reply, an
    admin command does in the process exactly what handling the command does: its value
    comes back and the connection is at rest again, and an error is an exception. *)
Theorem env_admin_refines cmd w r t' :
  at_rest w -> cmd <> ""%string -> Z.of_nat (length (to_chars cmd)) < 10 ^ 8 ->
  handle cmd (target w) = (r, t') -> Z.of_nat (length (to_chars (payload_of r)) + 5) < 10 ^ 8 ->
  match r with
  | Value v => exists w', env_admin cmd w = Ok (v, w') /\ at_rest w' /\ target w' = t'
  | Errors _ => env_admin cmd w = Raise Exception_
  end.
Proof. apply env_admin_refines_handle. Qed.
End Peer.
