(* ===== verification/Admin.v ===== *)
(** * Administration of probes

    Models profiler/probeAdmin.py, profiler/resolver.py, the commands of profiler/app.py and
    the start of a session in profiler/runtime.py: the commands a profile session sends,
    in their order, and what it makes of the replies.

    A port is whatever executes admin commands; the connection of [Target] is one, and so
    is the process itself, as if it were called directly. *)

From Stdlib Require Import Ascii.
From S2P Require Import Prelude PyStr Probe Route Txn Loader Records Timeline Pmu Wire Target.

(** ** Ports *)

Class AdminPort (W : Type) := { admin : string -> W -> result (string * W) }.

Definition DirectPort (other : string -> list string -> Target -> Response * Target) : AdminPort Target := {|
  admin cmd t := match handle other cmd t with (Value v, t') => Ok (v, t') | (Errors _, _) => Raise Exception_ end |}.
Definition WirePort (other : string -> list string -> Target -> Response * Target) (segment : chars -> list chars)
    : AdminPort Connection := {| admin := env_admin other segment |}.

Definition cat (l : list string) : string := of_chars (mjoin (to_chars <$> l)).
Definition newline : string := of_chars ["010"%char].

Section Admin.
Context {W : Type} {HW : AdminPort W}.

(** ** [ProbeAdmin] *)

Definition getProbes (workspace : option string) (w : W) : result (list Probe * W) :=
  '(res, w) ← admin "ListProbes" w;
  if nonempty res then
    probes ← buildFromRecords workspace (py_split newline (py_strip res));
    Ok (od_values probes, w)
  else Raise Exception_.

Definition update_cmd (p : Probe) (targetState : bool) : string :=
  cat [if targetState then "ActivateProbe" else "DeactivateProbe"; " --file "; basename (filePath p);
       " --line "; print_int 10 (lineNo p)].

Definition updateProbe (targetState : bool) (w : W) (p : Probe) : result W :=
  '(_, w) ← admin (update_cmd p targetState) w; Ok w.

(** The errors [updateProbes] counts: probes in the wrong state, and probes that are not in
    the map of live probes. *)
Definition update_errors (probeMap : list (Probe * option bool)) (ps : list Probe) (targetState : bool) : nat :=
  fold_left (fun n p => match od_get anchored_eqb p probeMap with
                        | Some active => if bool_decide (active = Some targetState) then n else S n
                        | None => S n
                        end) ps 0%nat.

Definition live_map (probes : list Probe) : list (Probe * option bool) :=
  fold_left (fun m p => od_set anchored_eqb p (isActive p) m) probes [].

(** [updateProbes]: the number of errors. *)
Definition updateProbes (workspace : option string) (ps : list Probe) (targetState : bool) (w : W) : result (nat * W) :=
  w ← mfor (updateProbe targetState) w ps;
  '(probes, w) ← getProbes workspace w;
  Ok (match probes with [] => 0%nat | _ => update_errors (live_map probes) ps targetState end, w).

(** [str(event.ctrIndex)]; a fixed request has the index of its counter. *)
Definition pmc_str (o : option PmcSpec) : string :=
  match o with Some (PmcFixed i) => print_int 10 i | _ => "" end.

(** [enablePMU]. *)
Definition pmu_cmd (s : EventSet) : string :=
  let gp := match genericRequests s with [] => "" | l => cat ["--gpCtrCount "; print_int 10 (Z.of_nat (length l))] end in
  let fixed := match fixedRequests s with
               | [] => "" | l => cat ["--fixedCtrList "; py_join "," ((fun r => pmc_str (ctrIndex r)) <$> l)] end in
  cat ["ActivatePmu "; gp; " "; fixed].
Definition enablePMU (s : EventSet) (w : W) : result (string * W) := admin (pmu_cmd s) w.

(** [loadProbes]. *)
Definition loadProbes (workspace : option string) (w : W) : result (list Probe * W) :=
  '(probes, w) ← getProbes workspace w;
  m ← ProbeMap_init (fun p => p) probes probes; Ok (od_values (namedProbeMap m), w).

(** ** [ProbeResolver] *)

Abbreviation ResolverCache := (option (list (string * list Probe))).

Definition add_live (m : list (string * list Probe)) (p : Probe) : list (string * list Probe) :=
  match sysName p with
  | Some n => if nonempty n then od_set String.eqb n (default [] (od_get String.eqb n m) ++ [p]) m else m
  | None => m
  end.

(** [resolveAnchoredProbe]: the live probes are fetched once. *)
Definition resolveAnchoredProbe (workspace : option string) (p : Probe) (s : ResolverCache * W)
    : result (option (list Probe) * (ResolverCache * W)) :=
  '(m, w) ← (match s.1 with
             | Some m => Ok (m, s.2)
             | None => '(probes, w) ← getProbes workspace s.2; Ok (fold_left add_live probes [], w)
             end);
  Ok (match sysName p with Some n => od_get String.eqb n m | None => None end, (Some m, w)).

(** ** The runtime *)

(** [resolveProbes], for one probe. *)
Definition resolve_probe (workspace : option string) (s : list Probe * (ResolverCache * W)) (p : Probe)
    : result (list Probe * (ResolverCache * W)) :=
  if isAnchored p then Ok (s.1 ++ [p], s.2)
  else
    '(rps, c) ← resolveAnchoredProbe workspace p s.2;
    match rps with
    | Some (_ :: _ as rps) =>
        aps ← mmap (fun rp => AnchoredProbe_init (pname p) (filePath rp) (LInt (lineNo rp)) (attributes rp) (isActive rp) (sysName rp)) rps;
        Ok (s.1 ++ aps, c)
    | _ => Raise Exception_
    end.

Definition resolveProbes (workspace : option string) (ps : list Probe) (w : W) : result (list Probe * W) :=
  '(aps, (_, w)) ← mfor (resolve_probe workspace) ([], (None, w)) ps; Ok (aps, w).

(** [enableProbes]: without probes it only warns. *)
Definition enableProbes (workspace : option string) (eventSet : option EventSet) (ps : list Probe) (w : W) : result W :=
  match ps with
  | [] => Ok w
  | _ =>
      w ← (match eventSet with
           | Some s => if (eventset_len s =? 0)%nat then Ok w
                       else '(err, w) ← enablePMU s w; if nonempty err then Raise Exception_ else Ok w
           | None => Ok w
           end);
      '(errCount, w) ← updateProbes workspace ps true w;
      if (0 <? errCount)%nat then Raise Exception_ else Ok w
  end.

(** ** The commands of [XpediteApp] *)

Definition begin_cmd (name : string) (runId pollInterval : Z) (samplesFileSize : option Z) : string :=
  let pattern := cat ["/dev/shm/xpedite-"; name; "-"; print_int 10 runId; "-*.data"] in
  cat ["BeginProfile --samplesFilePattern "; pattern; " --pollInterval "; print_int 10 pollInterval;
       " --samplesDataCapacity "; print_int 10 (default 0 samplesFileSize)].
Definition beginProfile (name : string) (runId pollInterval : Z) (samplesFileSize : option Z) (w : W) : result W :=
  '(rc, w) ← admin (begin_cmd name runId pollInterval samplesFileSize) w;
  if nonempty rc then Raise Exception_ else Ok w.

Definition endProfile (w : W) : result (bool * W) := '(res, w) ← admin "EndProfile" w; Ok (negb (nonempty res), w).
Definition ping (w : W) : result (bool * W) := '(res, w) ← admin "Ping" w; Ok (String.eqb res "hello", w).

(** [pingApp]: a ping that times out, or has another answer, is tried once more after a
    restart; the answer to the second one is not looked at. *)
Definition pingApp (restart : W -> result W) (w : W) : result W :=
  let again := w ← restart w; match ping w with Ok (_, w) => Ok w | Raise _ => Raise Exception_ end in
  match ping w with
  | Ok (true, w) => Ok w
  | Ok (false, w) => w ← restart w; match ping w with Ok (_, w) => Ok w | Raise _ => Raise Exception_ end
  | Raise SocketError_ => again
  | Raise e => Raise e
  end.

End Admin.

(** ** What the process makes of the commands *)

(** Probes whose commands survive the splitting at blanks. *)
Definition sendable (p : Probe) : Prop :=
  basename (filePath p) <> ""%string /\ " "%char ∉ to_chars (basename (filePath p)) /\ 0 <= lineNo p < 2 ^ 32.

Lemma tokens_word cur w rest : " "%char ∉ w -> tokens_aux cur (w ++ rest) = tokens_aux (rev w ++ cur) rest.
Proof.
  revert cur. induction w as [|c w IH]; intros cur H; [done|]. apply not_elem_of_cons in H as [Hc H].
  cbn [app tokens_aux]. rewrite (proj2 (Ascii.eqb_neq c " ")); [congruence|]. rewrite IH //. cbn. by rewrite -app_assoc.
Qed.

Lemma tokens_blank c cur rest : tokens_aux (c :: cur) (" "%char :: rest) = rev (c :: cur) :: tokens_aux [] rest.
Proof. done. Qed.

Lemma tokens_step w rest : w <> [] -> " "%char ∉ w ->
  tokens_aux [] (w ++ " "%char :: rest) = w :: tokens_aux [] rest.
Proof.
  intros Hne H. rewrite tokens_word // app_nil_r. destruct (rev w) as [|c l] eqn:E.
  - apply (f_equal (@rev ascii)) in E. rewrite rev_involutive in E. done.
  - rewrite tokens_blank -E rev_involutive. done.
Qed.

Lemma tokens_end w : w <> [] -> " "%char ∉ w -> tokens_aux [] w = [w].
Proof.
  intros Hne H. rewrite -(app_nil_r w) tokens_word // app_nil_r. cbn [tokens_aux].
  destruct (rev w) as [|c l] eqn:E; rewrite -?E ?rev_involutive ?app_nil_r //.
  apply (f_equal (@rev ascii)) in E. rewrite rev_involutive in E. done.
Qed.

Lemma atoi_digits_value l a : Forall (fun c => exists d, c = digit_char d /\ 0 <= d < 10) l ->
  atoi_digits a l = fold_left (fun a c => a * 10 + digit_raw c) l a.
Proof.
  intros H. revert a. induction H as [|c l (d & -> & Hd) _ IH]; intros a; [done|]. cbn [atoi_digits fold_left].
  assert (c_digit (digit_char d) = true) as ->; [|apply IH].
  assert (d = 0 \/ d = 1 \/ d = 2 \/ d = 3 \/ d = 4 \/ d = 5 \/ d = 6 \/ d = 7 \/ d = 8 \/ d = 9) as H by lia.
  repeat destruct H as [->|H]; try reflexivity. by subst.
Qed.

Lemma atoi32_print n : 0 <= n < 2 ^ 32 -> atoi32 (print_int 10 n) = n.
Proof.
  intros Hn. destruct (print_nat_spec 10 n) as (Hne & Hds & Hv); [lia|lia|].
  unfold atoi32, print_int. rewrite (proj2 (Z.ltb_ge _ _)); [lia|]. rewrite to_of_chars.
  destruct (print_nat 10 n) as [|c l] eqn:E; [done|].
  assert (exists d, c = digit_char d /\ 0 <= d < 10) as (d & -> & Hd) by (by apply Forall_cons in Hds as [? _]).
  destruct (digit_char_facts d) as (_ & H1 & H2 & _); [lia|].
  rewrite (proj2 (Ascii.eqb_neq _ _) H1) (proj2 (Ascii.eqb_neq _ _) H2).
  rewrite atoi_digits_value // Hv. by rewrite Z.mod_small.
Qed.

Lemma update_cmd_tokens p st : sendable p ->
  tokens (update_cmd p st) =
  [if st then "ActivateProbe" else "DeactivateProbe"; "--file"; basename (filePath p); "--line"; print_int 10 (lineNo p)].
Proof.
  intros (Hne & Hb & Hl). unfold tokens, update_cmd, cat. rewrite to_of_chars.
  assert (Hb' : to_chars (basename (filePath p)) <> []).
  { intros E. apply Hne. by rewrite -(of_to_chars (basename (filePath p))) E. }
  assert (Hnum : print_nat 10 (lineNo p) <> [] /\ " "%char ∉ print_nat 10 (lineNo p)).
  { destruct (print_nat_spec 10 (lineNo p)) as (H & Hds & _); [lia|lia|]. split; [done|]. rewrite Forall_forall in Hds.
    intros Hin. destruct (Hds _ Hin) as (d & E & Hd).
    destruct (digit_char_facts d) as (_ & _ & _ & Hs); [lia|]. by rewrite -E in Hs. }
  assert (Hpr : to_chars (print_int 10 (lineNo p)) = print_nat 10 (lineNo p)).
  { unfold print_int. rewrite (proj2 (Z.ltb_ge _ _)); [lia|]. by rewrite to_of_chars. }
  destruct Hnum as [Hn1 Hn2]. set (b := to_chars (basename (filePath p))) in *.
  set (cmd := to_chars (if st then "ActivateProbe" else "DeactivateProbe")).
  assert (E : mjoin (to_chars <$> [if st then "ActivateProbe" else "DeactivateProbe"; " --file "; basename (filePath p);
       " --line "; print_int 10 (lineNo p)]) =
    cmd ++ " "%char :: to_chars "--file" ++ " "%char :: b ++ " "%char :: to_chars "--line" ++ " "%char :: print_nat 10 (lineNo p)).
  { cbn [fmap list_fmap mjoin list_join]. rewrite Hpr app_nil_r. done. }
  rewrite E. rewrite tokens_step; [by destruct st|by destruct st; vm_compute; set_solver|].
  rewrite tokens_step; [done|by vm_compute; set_solver|]. rewrite tokens_step //.
  rewrite tokens_step; [done|by vm_compute; set_solver|]. rewrite tokens_end //.
  cbn [fmap list_fmap]. rewrite -Hpr. unfold cmd, b. by rewrite !of_to_chars.
Qed.

(** The key of a request for a probe. *)
Definition key_of (p : Probe) : ProbeKey := mkProbeKey "" (basename (filePath p)) (lineNo p).

Lemma parse_update p st : sendable p ->
  parse (update_cmd p st) = (if st then ProbeActivationRequest else ProbeDeactivationRequest) (key_of p).
Proof.
  intros Hp. unfold parse. rewrite update_cmd_tokens //. destruct Hp as (_ & _ & Hl).
  destruct st; cbn [String.eqb Ascii.eqb Bool.eqb key_args k_name k_file k_line]; rewrite bool_decide_false //; cbn [negb andb];
    by rewrite atoi32_print.
Qed.

(** Whether a command for one of the probes is about a probe of the process. *)
Definition wanted (ps : list Probe) (r : ProbeInfo) : bool :=
  existsb (fun p => probe_match r (basename (filePath p)) (lineNo p) None) ps.

Definition switched (ps : list Probe) (st : bool) (rs : list ProbeInfo) : list ProbeInfo :=
  (fun r => if wanted ps r then set_enabled st r else r) <$> rs.

Lemma handle_update other p st t : sendable p -> exists t',
  handle other (update_cmd p st) t = (Value "", t') /\ t_probes t' = switched [p] st (t_probes t).
Proof.
  intros Hp. unfold handle. rewrite parse_update //.
  assert (E : forall r, wanted [p] r = probe_match r (basename (filePath p)) (lineNo p) None) by (intros r; cbn; by rewrite orb_false_r).
  destruct st; eexists; (split; [reflexivity|]); cbn [t_probes activateProbe deactivateProbe]; unfold probeCtl, switched;
    apply list_fmap_ext; intros i r _; by rewrite E.
Qed.

Lemma match_set_enabled b r f l n : probe_match (set_enabled b r) f l n = probe_match r f l n.
Proof. done. Qed.

Lemma wanted_set_enabled ps b r : wanted ps (set_enabled b r) = wanted ps r.
Proof. done. Qed.

Lemma switched_cons p ps st rs : switched ps st (switched [p] st rs) = switched (p :: ps) st rs.
Proof.
  unfold switched. rewrite -list_fmap_compose. apply list_fmap_ext. intros i r _. unfold compose.
  change (wanted (p :: ps) r) with (probe_match r (basename (filePath p)) (lineNo p) None || wanted ps r)%bool.
  assert (wanted [p] r = probe_match r (basename (filePath p)) (lineNo p) None) as -> by (cbn; by rewrite orb_false_r).
  destruct (probe_match r (basename (filePath p)) (lineNo p) None); cbn [orb]; [|done].
  rewrite wanted_set_enabled. by destruct (wanted ps r).
Qed.

(** ** The list of probes, read back *)

(** A probe whose record is a line of its own: no line ends in its fields, no blank at the
    end of its attributes, and attributes that do not overwrite its status. *)
Definition plain_record (workspace : option string) (r : ProbeInfo) : Prop :=
  clean_record r /\ trimWorkspace (r_file r) workspace <> ""%string /\
  Forall (fun kv => "010"%char ∉ to_chars kv.2) (record_pairs r) /\
  (forall c, last (to_chars (r_attrs r)) = Some c -> is_space c = false) /\
  "isActive"%string ∉ py_split "," (r_attrs r).

Lemma join_chars_notin c sep ls : c ∉ sep -> Forall (fun l => c ∉ l) ls -> c ∉ join_chars sep ls.
Proof.
  intros Hs H. induction H as [|l ls Hl _ IH]; [apply not_elem_of_nil|]. destruct ls as [|l' ls]; [done|].
  cbn [join_chars] in *. rewrite !not_elem_of_app. done.
Qed.

Lemma plain_record_line ws r : plain_record ws r -> "010"%char ∉ to_chars (probe_record r).
Proof.
  intros (_ & _ & H & _). unfold probe_record, py_join. rewrite to_of_chars. apply join_chars_notin; [by vm_compute; set_solver|].
  rewrite -list_fmap_compose Forall_fmap. rewrite Forall_forall in H. apply Forall_forall. intros [k v] Hin. unfold compose.
  specialize (H _ Hin). cbn in H |- *. rewrite to_of_chars not_elem_of_app not_elem_of_cons. split; [|split; [done|exact H]].
  unfold record_pairs in Hin. rewrite !elem_of_cons in Hin. repeat destruct Hin as [[= -> _]|Hin]; try (by vm_compute; set_solver).
Qed.

Lemma plain_set_enabled ws b r : plain_record ws r -> plain_record ws (set_enabled b r).
Proof.
  intros ((Hc & Hl) & Hf & Hn & Ha & Hi). unfold record_pairs in *.
  assert (Hb : forall P : string * string -> Prop, P ("Status", "enabled") -> P ("Status", "disabled") ->
    Forall P (record_pairs r) -> Forall P (record_pairs (set_enabled b r))).
  { intros P H1 H2. unfold record_pairs. rewrite !Forall_cons. cbn [set_enabled r_enabled]. intros (?&?&?&?&_&?).
    destruct b; tauto. }
  split; [split; [|exact Hl]|split; [done|split; [|done]]]; apply Hb; try done; vm_compute; set_solver.
Qed.

Lemma set_flag_active a p : a <> "isActive"%string -> isActive (set_flag a p) = isActive p /\ attributes (set_flag a p) = attributes p.
Proof. intros Ha. destruct p. unfold set_flag. rewrite (proj2 (String.eqb_neq a "isActive") Ha). by repeat case_match. Qed.

Lemma plain_record_active ws r : plain_record ws r -> isActive (probe_of ws r) = Some (r_enabled r).
Proof.
  intros (_ & _ & _ & _ & Hi). unfold probe_of. cbn zeta. set (p := mkProbe _ _ _ _ _ _ _ _ _ _ _ _ _ _ _).
  unfold initAttributes. change (attributes p) with (r_attrs r). change (Some (r_enabled r)) with (isActive p). clearbody p.
  induction (py_split "," (r_attrs r)) as [|a l IH] in p, Hi |- *; [done|]. apply not_elem_of_cons in Hi as [Ha Hi].
  cbn [fold_left]. destruct (set_flag_active a p (not_eq_sym Ha)) as [<- _]. by apply IH.
Qed.

Lemma join_chars_suffix sep ls l : exists pre, join_chars sep (ls ++ [l]) = pre ++ l.
Proof.
  induction ls as [|l0 ls [pre IH]]; [by exists []|]. destruct ls as [|l1 ls].
  - exists (l0 ++ sep). cbn. by rewrite app_assoc.
  - exists (l0 ++ sep ++ pre). cbn [app join_chars] in *. by rewrite IH !app_assoc.
Qed.

Lemma plain_record_ends ws r : plain_record ws r ->
  to_chars (probe_record r) <> [] /\
  (forall c, head (to_chars (probe_record r)) = Some c -> is_space c = false) /\
  (forall c, last (to_chars (probe_record r)) = Some c -> is_space c = false).
Proof.
  intros (_ & _ & _ & Hl & _). unfold probe_record, py_join. rewrite to_of_chars.
  assert (Hhead : exists l, join_chars (to_chars FIELD_DELIMITER)
    (to_chars <$> ((fun '(k, v) => of_chars (to_chars k ++ "="%char :: to_chars v)) <$> record_pairs r)) = "I"%char :: l).
  { cbn [record_pairs fmap list_fmap]. rewrite !to_of_chars. eexists. reflexivity. }
  split_and!.
  - destruct Hhead as [l ->]. discriminate.
  - destruct Hhead as [l ->]. by intros c [= <-].
  - set (ls := take 9 (to_chars <$> ((fun '(k, v) => of_chars (to_chars k ++ "="%char :: to_chars v)) <$> record_pairs r))).
    destruct (join_chars_suffix (to_chars FIELD_DELIMITER) ls (to_chars "Attributes=" ++ to_chars (r_attrs r))) as [pre E].
    assert (Hls : to_chars <$> ((fun '(k, v) => of_chars (to_chars k ++ "="%char :: to_chars v)) <$> record_pairs r) =
      ls ++ [to_chars "Attributes=" ++ to_chars (r_attrs r)]).
    { unfold ls. cbn [record_pairs fmap list_fmap take app]. by rewrite !to_of_chars. }
    rewrite Hls E. intros c. rewrite app_assoc last_app. destruct (last (to_chars (r_attrs r))) as [d|] eqn:El.
    + intros [= <-]. by apply Hl.
    + rewrite last_app. cbn. by intros [= <-].
Qed.

Lemma mjoin_lines (ls : list chars) c : ls <> [] -> mjoin ((fun l => l ++ [c]) <$> ls) = join_chars [c] ls ++ [c].
Proof.
  induction ls as [|l ls IH]; [done|]. intros _. cbn [fmap list_fmap mjoin list_join]. destruct ls as [|l' ls].
  - cbn. by rewrite app_nil_r.
  - rewrite IH //. cbn [join_chars]. by rewrite -!app_assoc.
Qed.

Lemma join_chars_head sep l ls : l <> [] -> head (join_chars sep (l :: ls)) = head l.
Proof. intros Hl. destruct l; [done|]. by destruct ls. Qed.

(** The lines of the reply are the records. *)
Lemma listProbes_lines ws t : t_probes t <> [] -> Forall (plain_record ws) (t_probes t) ->
  py_split newline (py_strip (listProbes t)) = probe_record <$> t_probes t.
Proof.
  intros Hne Hp. unfold listProbes, py_strip, py_split, newline. rewrite !to_of_chars.
  set (ls := (fun r => to_chars (probe_record r)) <$> t_probes t).
  assert (E : (fun r => to_chars (probe_record r) ++ ["010"%char]) <$> t_probes t = (fun l => l ++ ["010"%char]) <$> ls).
  { unfold ls. by rewrite -list_fmap_compose. }
  assert (Hls : ls <> []) by (unfold ls; by destruct (t_probes t)).
  rewrite E mjoin_lines // strip_chars_trailing //. rewrite strip_ends.
  - unfold ls. destruct (t_probes t) as [|r rs]; [done|]. apply Forall_cons in Hp as [Hr _].
    destruct (plain_record_ends ws r Hr) as (H1 & H2 & _). cbn [fmap list_fmap]. rewrite join_chars_head //.
  - unfold ls. destruct (t_probes t) as [|r rs _] using rev_ind; [done|]. apply Forall_app in Hp as [_ Hr].
    apply Forall_cons in Hr as [Hr _]. destruct (plain_record_ends ws r Hr) as (H1 & _ & H2). rewrite fmap_app. cbn [fmap list_fmap].
    destruct (join_chars_suffix ["010"%char] ((fun r => to_chars (probe_record r)) <$> rs) (to_chars (probe_record r))) as [pre ->].
    intros c. rewrite last_app. destruct (last (to_chars (probe_record r))) as [d|] eqn:El; [intros [= <-]; by apply H2|].
    by apply last_None in El.
  - rewrite split_join_char //.
    + unfold ls. rewrite Forall_fmap. refine (Forall_impl _ _ _ Hp _). exact (plain_record_line ws).
    + unfold ls. rewrite -list_fmap_compose. apply list_fmap_ext. intros i r _. unfold compose. apply of_to_chars.
Qed.

(** Under distinct addresses no probe of the list replaces another. *)
Lemma read_probes_values ws rs d : NoDup (r_site <$> rs) -> (forall r, r ∈ rs -> od_get String.eqb (r_site r) d = None) ->
  od_values (fold_left (fun d r => od_set String.eqb (r_site r) (probe_of ws r) d) rs d) = od_values d ++ (probe_of ws <$> rs).
Proof.
  revert d. induction rs as [|r rs IH]; intros d Hnd Hd; cbn [fold_left]; [by rewrite app_nil_r|].
  apply NoDup_cons in Hnd as [Hr Hnd]. rewrite IH //.
  - intros r' Hr'. rewrite od_get_set. destruct (String.eqb_spec (r_site r) (r_site r')) as [E|_]; [|apply Hd; by right].
    exfalso. apply Hr. rewrite E. by apply list_elem_of_fmap_2.
  - rewrite od_set_fresh; [apply Hd; left|]. unfold od_values. by rewrite fmap_app -app_assoc.
Qed.

(** *** Live probes as keys *)

(** All [AnchoredProbe.__eq__] looks at. *)
Definition place (p : Probe) : Z * string * string := (lineNo p, fileName p, ppath p).

Lemma anchored_eqb_place p q q' : place q = place q' -> anchored_eqb p q = anchored_eqb p q'.
Proof. unfold place. intros [= H1 H2 H3]. unfold anchored_eqb. by rewrite H1 H2 H3. Qed.

Lemma anchored_eqb_where p q : anchored_eqb p q = true -> lineNo p = lineNo q /\ fileName p = fileName q.
Proof.
  unfold anchored_eqb. destruct (Z.eqb_spec (lineNo p) (lineNo q)), (String.eqb_spec (fileName p) (fileName q)); done.
Qed.

(** Probes at one line of files of one name are at one place. *)
Definition coherent (qs : list Probe) : Prop :=
  forall q q', q ∈ qs -> q' ∈ qs -> lineNo q = lineNo q' -> fileName q = fileName q' -> ppath q = ppath q'.

(** The map of live probes has the places of the live probes, and their status. *)
Lemma live_map_spec qs : coherent qs ->
  (forall k v, (k, v) ∈ live_map qs -> exists q, q ∈ qs /\ place q = place k /\ v = isActive q) /\
  (forall q, q ∈ qs -> exists k, k ∈ od_keys (live_map qs) /\ place k = place q).
Proof.
  intros Hc. unfold live_map.
  cut (forall qs', (forall q, q ∈ qs' -> q ∈ qs) -> 
    (forall k v, (k, v) ∈ fold_left (fun m p => od_set anchored_eqb p (isActive p) m) qs' [] ->
       exists q, q ∈ qs' /\ place q = place k /\ v = isActive q) /\
    (forall q, q ∈ qs' -> exists k, k ∈ od_keys (fold_left (fun m p => od_set anchored_eqb p (isActive p) m) qs' []) /\
       place k = place q)); [intros H; by apply H|].
  induction qs' as [|q qs' IH] using rev_ind; intros Hsub; [split; [intros k v H; by apply elem_of_nil in H|
    intros q H; by apply elem_of_nil in H]|].
  rewrite fold_left_app. cbn [fold_left]. destruct IH as [IH1 IH2]; [intros q' Hq'; apply Hsub, elem_of_app; by left|].
  set (m := fold_left _ qs' []) in *. clearbody m.
  assert (Hq : q ∈ qs) by (apply Hsub, elem_of_app; right; left).
  assert (Hkeys : forall k, k ∈ od_keys m -> exists q', q' ∈ qs /\ place q' = place k).
  { intros k Hk. apply list_elem_of_fmap in Hk as ([k' v] & -> & Hk). destruct (IH1 _ _ Hk) as (q' & Hin & E & _).
    exists q'. split; [apply Hsub, elem_of_app; by left|done]. }
  assert (Hplace : forall k, k ∈ od_keys m -> anchored_eqb q k = true -> place k = place q).
  { intros k Hk E. destruct (Hkeys k Hk) as (q' & Hq' & E'). rewrite -E'. apply anchored_eqb_where in E as [E1 E2].
    unfold place in E' |- *. injection E' as F1 F2 F3. rewrite (Hc q' q) //; congruence. }
  split.
  - intros k v Hin. assert (Hcase : (k, v) ∈ m \/ (v = isActive q /\ place k = place q)).
    { clear IH1 IH2 Hkeys. induction m as [|[k' v'] m IHm]; cbn [od_set] in Hin.
      - apply list_elem_of_singleton in Hin as [= -> ->]. by right.
      - destruct (anchored_eqb q k') eqn:E.
        + apply elem_of_cons in Hin as [[= -> ->]|Hin]; [right; split; [done|apply Hplace; [left|done]]|left; by right].
        + apply elem_of_cons in Hin as [[= -> ->]|Hin]; [left; left|].
          destruct IHm as [H|H]; [intros k'' Hk''; apply Hplace; by right|done|left; by right|by right]. }
    destruct Hcase as [H|[-> H]].
    + destruct (IH1 _ _ H) as (q' & Hq' & E). exists q'. split; [apply elem_of_app; by left|done].
    + exists q. split; [apply elem_of_app; right; left|done].
  - intros q' Hq'. rewrite od_set_keys. apply elem_of_app in Hq' as [Hq'|Hq'].
    + destruct (IH2 q' Hq') as (k & Hk & E). exists k. split; [|done]. destruct (od_mem _ _ _); [done|apply elem_of_app; by left].
    + apply list_elem_of_singleton in Hq' as ->. destruct (od_mem anchored_eqb q m) eqn:E.
      * apply od_mem_true in E as [v E]. apply od_get_elem_of in E as (k & Hk & E). exists k.
        assert (Hk' : k ∈ od_keys m) by exact (list_elem_of_fmap_2 fst _ _ Hk). split; [done|by apply Hplace].
      * exists q. split; [apply elem_of_app; right; left|done].
Qed.

(** What a lookup in the map of live probes finds. *)
Lemma live_map_get qs p : coherent qs ->
  match od_get anchored_eqb p (live_map qs) with
  | Some v => exists q, q ∈ qs /\ anchored_eqb p q = true /\ v = isActive q
  | None => existsb (anchored_eqb p) qs = false
  end.
Proof.
  intros Hc. destruct (live_map_spec qs Hc) as [H1 H2]. destruct (od_get anchored_eqb p (live_map qs)) as [v|] eqn:E.
  - apply od_get_elem_of in E as (k & Hk & E). destruct (H1 _ _ Hk) as (q & Hq & Hp & Hv). exists q. split_and!; [done| |done].
    by rewrite (anchored_eqb_place p q k Hp).
  - apply not_true_iff_false. intros Hex. apply existsb_exists in Hex as (q & Hq & Heq).
    destruct (H2 q) as (k & Hk & Hp); [by apply list_elem_of_In|]. rewrite od_get_None in E. rewrite Forall_forall in E.
    specialize (E k Hk). by rewrite (anchored_eqb_place p k q Hp) Heq in E.
Qed.

(** *** A probe that is found is one that was asked for *)

Lemma find_sub_infix pre l : exists i, find_sub l (pre ++ l) = Some i.
Proof. pose proof (find_sub_app l pre []) as H. by rewrite app_nil_r in H.
Qed.

Lemma strstr_suffix s t pre : to_chars s = pre ++ to_chars t -> strstr s t = true.
Proof. intros E. unfold strstr. rewrite E. by destruct (find_sub_infix pre (to_chars t)) as [i ->]. Qed.

Lemma basename_suffix f : exists pre, to_chars f = pre ++ to_chars (basename f).
Proof. unfold basename. rewrite to_of_chars. eexists. symmetry. apply take_drop. Qed.

Lemma slice_from_suffix n s : exists pre, to_chars s = pre ++ to_chars (slice_from n s).
Proof. unfold slice_from. rewrite to_of_chars. eexists. symmetry. apply take_drop. Qed.

Lemma trimWorkspace_suffix f ws : exists pre, to_chars f = pre ++ to_chars (trimWorkspace f ws).
Proof.
  unfold trimWorkspace. set (p := match ws with Some w => _ | None => _ end).
  assert (exists pre, to_chars f = pre ++ to_chars p) as [pre E].
  { unfold p. destruct ws as [w|]; [|by exists []]. destruct (_ && _)%bool; [apply slice_from_suffix|by exists []]. }
  destruct (starts_with ["/"%char] (to_chars p)); [|by exists pre].
  destruct (slice_from_suffix 1 p) as [pre' E']. exists (pre ++ pre'). by rewrite E E' app_assoc.
Qed.

Lemma initAttributes_keeps p : let q := initAttributes p in
  lineNo q = lineNo p /\ fileName q = fileName p /\ filePath q = filePath p /\ ppath q = ppath p.
Proof.
  cbn zeta. unfold initAttributes. generalize (py_split "," (attributes p)) as l. intros l. revert p.
  induction l as [|a l IH]; intros p; [done|]. cbn [fold_left]. destruct (IH (set_flag a p)) as (-> & -> & -> & ->).
  destruct p. unfold set_flag. repeat case_match; done.
Qed.

Lemma probe_of_place ws r : place (probe_of ws r) =
  (r_line r, basename (trimWorkspace (r_file r) ws), dirname (trimWorkspace (r_file r) ws)).
Proof.
  unfold place, probe_of. cbn zeta. set (p := mkProbe _ _ _ _ _ _ _ _ _ _ _ _ _ _ _).
  destruct (initAttributes_keeps p) as (-> & -> & _ & ->). done.
Qed.

(** A location to ask for: what [AnchoredProbe] makes of its file, and a command in bounds. *)
Definition requestable (p : Probe) : Prop :=
  sendable p /\ fileName p = basename (filePath p) /\
  (forall st, Z.of_nat (length (to_chars (update_cmd p st))) < 10 ^ 8).

Lemma found_wanted ws p r : requestable p -> anchored_eqb p (probe_of ws r) = true ->
  probe_match r (basename (filePath p)) (lineNo p) None = true.
Proof.
  intros ((Hne & _) & Hf & _) E. apply anchored_eqb_where in E as [E1 E2].
  pose proof (probe_of_place ws r) as Hp. unfold place in Hp. injection Hp as P1 P2 _. rewrite P1 in E1. rewrite P2 Hf in E2.
  unfold probe_match, matchName, matchLocation. cbn [orb]. apply andb_true_iff. split; [apply andb_true_iff; split|].
  - unfold nonempty. by destruct (String.eqb_spec (basename (filePath p)) "").
  - rewrite E2. destruct (trimWorkspace_suffix (r_file r) ws) as [a Ea]. destruct (basename_suffix (trimWorkspace (r_file r) ws)) as [b Eb].
    apply (strstr_suffix _ _ (a ++ b)). by rewrite Ea Eb app_assoc.
  - rewrite E1 Z.eqb_refl. apply orb_true_r.
Qed.

Lemma found_switched ws ps st rs p r : p ∈ ps -> requestable p -> r ∈ switched ps st rs ->
  anchored_eqb p (probe_of ws r) = true -> r_enabled r = st.
Proof.
  intros Hp Hreq Hr E. apply list_elem_of_fmap in Hr as (r0 & -> & Hr0).
  destruct (wanted ps r0) eqn:Ew; [done|].
  apply (found_wanted ws p r0) in E; [|done].
  assert (wanted ps r0 = true); [|congruence]. apply existsb_exists. exists p. split; [by apply list_elem_of_In|done].
Qed.

(** The status text is the only part of a record that a switch changes. *)
Lemma switched_places ws ps st rs : (fun r => place (probe_of ws r)) <$> switched ps st rs = (fun r => place (probe_of ws r)) <$> rs.
Proof.
  unfold switched. rewrite -list_fmap_compose. apply list_fmap_ext. intros i r _. unfold compose.
  by destruct (wanted ps r); rewrite !probe_of_place.
Qed.

Lemma existsb_fmap {A B} (f : A -> B) P (l : list A) : existsb P (f <$> l) = existsb (fun x => P (f x)) l.
Proof. induction l as [|x l IH]; [done|]. cbn. by rewrite IH. Qed.

Lemma switched_found ws ps st rs p :
  existsb (fun r => anchored_eqb p (probe_of ws r)) (switched ps st rs) = existsb (fun r => anchored_eqb p (probe_of ws r)) rs.
Proof.
  unfold switched. rewrite existsb_fmap. induction rs as [|r rs IH]; [done|]. cbn [existsb]. rewrite IH. f_equal.
  apply anchored_eqb_place. by destruct (wanted ps r); rewrite !probe_of_place.
Qed.

(** ** What a port promises *)

(** A reply, and a command, that fit a frame. *)
Definition fits (r : string) : Prop := Z.of_nat (length (to_chars r) + 5) < 10 ^ 8.
Definition fitting (cmd : string) : Prop := cmd <> ""%string /\ Z.of_nat (length (to_chars cmd)) < 10 ^ 8.

(** A port that stands for a process: every command it takes is handled there. *)
Class PortSpec (other : string -> list string -> Target -> Response * Target) (W : Type) {HW : AdminPort W} := {
  serves : W -> Target -> Prop;
  serves_admin : forall cmd w t v t', serves w t -> fitting cmd -> handle other cmd t = (Value v, t') -> fits v ->
    exists w', admin cmd w = Ok (v, w') /\ serves w' t'
}.

#[export] Instance DirectPort_spec other : @PortSpec other Target (DirectPort other).
Proof.
  refine (@Build_PortSpec other Target (DirectPort other) (fun w t => w = t) _).
  intros cmd w t v t' -> _ H _. exists t'. split; [|done]. cbn. by rewrite H.
Defined.

Lemma WirePort_serves other segment (Ht : forall l, mjoin (segment l) = l) (Hb : forall l, Forall (fun b => b <> []) (segment l))
  cmd w t v t' : at_rest w /\ target w = t -> fitting cmd -> handle other cmd t = (Value v, t') -> fits v ->
  exists w', env_admin other segment cmd w = Ok (v, w') /\ (at_rest w' /\ target w' = t').
Proof. intros [Hw <-] [Hne Hlen] Hh Hf. exact (env_admin_refines_handle other segment Ht Hb cmd w _ t' Hw Hne Hlen Hh Hf). Qed.

Definition WirePort_spec other segment (Ht : forall l, mjoin (segment l) = l) (Hb : forall l, Forall (fun b => b <> []) (segment l))
    : @PortSpec other Connection (WirePort other segment) :=
  @Build_PortSpec other Connection (WirePort other segment) (fun w t => at_rest w /\ target w = t) (WirePort_serves other segment Ht Hb).

Section Served.
Context {W : Type} {HW : AdminPort W} (other : string -> list string -> Target -> Response * Target).
Context {HS : PortSpec other W}.

Lemma update_cmd_fitting p st : requestable p -> fitting (update_cmd p st).
Proof.
  intros (_ & _ & Hlen). split; [|apply Hlen]. intros E. apply (f_equal to_chars) in E. unfold update_cmd, cat in E.
  rewrite to_of_chars in E. by destruct st.
Qed.

Lemma switched_nil st rs : switched [] st rs = rs.
Proof. unfold switched. cbn. apply list_fmap_id. Qed.

Lemma updateProbe_all ps st w t : Forall requestable ps -> serves w t ->
  exists w' t', mfor (updateProbe st) w ps = Ok w' /\ serves w' t' /\ t_probes t' = switched ps st (t_probes t).
Proof.
  intros Hps. revert w t. induction Hps as [|p ps Hp _ IH]; intros w t Hs.
  - exists w, t. by rewrite switched_nil.
  - destruct (handle_update other p st t (proj1 Hp)) as (t1 & H1 & E1).
    destruct (serves_admin (update_cmd p st) w t "" t1 Hs (update_cmd_fitting p st Hp) H1) as (w1 & Ha & Hs1); [done|].
    destruct (IH w1 t1 Hs1) as (w' & t' & H & Hs' & E). exists w', t'. split_and!; [|done|by rewrite E E1 switched_cons].
    cbn [mfor]. assert (updateProbe st w p = Ok w1) as -> by (unfold updateProbe; by rewrite Ha). exact H.
Qed.

(** The list of probes is the process's. *)
Lemma getProbes_served ws w t : serves w t -> t_probes t <> [] -> NoDup (r_site <$> t_probes t) ->
  Forall (plain_record ws) (t_probes t) -> fits (listProbes t) ->
  exists w', getProbes ws w = Ok (probe_of ws <$> t_probes t, w') /\ serves w' t.
Proof.
  intros Hs Hne Hnd Hp Hf.
  destruct (serves_admin "ListProbes" w t (listProbes t) t Hs) as (w' & Ha & Hs'); [done|done|done|].
  exists w'. split; [|done]. unfold getProbes. rewrite Ha. cbn [mbind result_bind].
  assert (nonempty (listProbes t) = true) as ->.
  { unfold nonempty, listProbes. destruct (t_probes t) as [|r rs]; [done|]. apply Forall_cons in Hp as [Hr _].
    destruct (plain_record_ends ws r Hr) as (H1 & _). cbn [fmap list_fmap mjoin list_join]. by destruct (to_chars (probe_record r)). }
  rewrite (listProbes_lines ws) // probe_records_read.
  { refine (Forall_impl _ _ _ Hp _). by intros r (H1 & H2 & _). }
  cbn [mbind result_bind]. by rewrite read_probes_values.
Qed.
End Served.

Lemma update_errors_spec m ps st (found : Probe -> bool) :
  (forall p, p ∈ ps -> match od_get anchored_eqb p m with Some v => v = Some st /\ found p = true | None => found p = false end) ->
  update_errors m ps st = length (filter (fun p => found p = false) ps).
Proof.
  unfold update_errors. induction ps as [|p ps IH] using rev_ind; intros H; [done|].
  rewrite fold_left_app filter_app length_app -IH; [intros q Hq; apply H, elem_of_app; by left|]. cbn [fold_left].
  specialize (H p). destruct (od_get anchored_eqb p m) as [v|].
  - destruct H as [-> E]; [apply elem_of_app; right; left|]. rewrite bool_decide_true // filter_cons_False; [by rewrite E|].
    rewrite filter_nil /=. lia.
  - rewrite filter_cons_True ?filter_nil /=; [apply H, elem_of_app; right; left|]. lia.
Qed.

(** A location asked for that is in the process. *)
Definition located (ws : option string) (t : Target) (p : Probe) : bool :=
  existsb (fun r => anchored_eqb p (probe_of ws r)) (t_probes t).

(** A process whose listing can be read: some probe, distinct recorder addresses, records that
    are lines of their own, one path for the probes at a line of a file name, and a
    listing that fits a frame however the probes are switched. *)
Record listable (ws : option string) (t : Target) : Prop := {
  l_some : t_probes t <> [];
  l_sites : NoDup (r_site <$> t_probes t);
  l_plain : Forall (plain_record ws) (t_probes t);
  l_places : coherent (probe_of ws <$> t_probes t);
  l_fits : forall ps st, fits (listProbes (mkTarget (switched ps st (t_probes t)) []))
}.

Lemma switched_sites ps st rs : r_site <$> switched ps st rs = r_site <$> rs.
Proof.
  unfold switched. rewrite -list_fmap_compose. apply list_fmap_ext. intros i r _. unfold compose. by destruct (wanted ps r).
Qed.

Lemma coherent_switched ws ps st rs : coherent (probe_of ws <$> rs) -> coherent (probe_of ws <$> switched ps st rs).
Proof.
  intros H. assert (Hs : forall q, q ∈ probe_of ws <$> switched ps st rs -> exists q0, q0 ∈ probe_of ws <$> rs /\ place q0 = place q).
  { intros q Hq. apply list_elem_of_fmap in Hq as (r & -> & Hr). apply list_elem_of_fmap in Hr as (r0 & -> & Hr0).
    exists (probe_of ws r0). split; [by apply list_elem_of_fmap_2|]. by destruct (wanted ps r0); rewrite !probe_of_place. }
  intros q q' Hq Hq' E1 E2. destruct (Hs _ Hq) as (q0 & H0 & P0). destruct (Hs _ Hq') as (q0' & H0' & P0').
  unfold place in P0, P0'. injection P0 as A1 A2 A3. injection P0' as B1 B2 B3. rewrite -A3 -B3.
  apply H; congruence.
Qed.

Section Switch.
Context {W : Type} {HW : AdminPort W} (other : string -> list string -> Target -> Response * Target).
Context {HS : PortSpec other W}.

Lemma switch_probes ws ps st w t : serves w t -> Forall requestable ps -> listable ws t ->
  exists w' t', updateProbes ws ps st w = Ok (length (filter (fun p => located ws t p = false) ps), w') /\
    serves w' t' /\ t_probes t' = switched ps st (t_probes t).
Proof.
  intros Hs Hps Ht. destruct (updateProbe_all other ps st w t Hps Hs) as (w1 & t1 & H1 & Hs1 & E).
  destruct Ht as [Hne Hnd Hp Hc Hf]. set (rs := switched ps st (t_probes t)) in *.
  assert (Hne' : t_probes t1 <> []) by (rewrite E; unfold rs, switched; by destruct (t_probes t)).
  assert (Hp' : Forall (plain_record ws) rs).
  { apply Forall_fmap. refine (Forall_impl _ _ _ Hp _). intros r Hr. unfold compose.
    destruct (wanted ps r); [by apply plain_set_enabled|done]. }
  destruct (getProbes_served other ws w1 t1 Hs1 Hne') as (w2 & H2 & Hs2); rewrite ?E //.
  { unfold rs. by rewrite switched_sites. }
  { replace (listProbes t1) with (listProbes (mkTarget rs [])); [apply Hf|]. unfold listProbes. by rewrite E. }
  exists w2, t1. split_and!; [|done|done]. unfold updateProbes. rewrite H1. cbn [mbind result_bind]. rewrite H2 E.
  cbn [mbind result_bind]. f_equal. f_equal.
  assert (update_errors (live_map (probe_of ws <$> rs)) ps st = length (filter (fun p => located ws t p = false) ps)) as <-.
  { apply update_errors_spec. intros p Hin. pose proof (live_map_get (probe_of ws <$> rs) p) as Hg.
    rewrite existsb_fmap (switched_found ws ps st (t_probes t) p) in Hg. fold rs in Hg.
    specialize (Hg (coherent_switched ws ps st _ Hc)). destruct (od_get _ _ _) as [v|]; [|done].
    destruct Hg as (q & Hq & Hqp & ->). apply list_elem_of_fmap in Hq as (r & -> & Hr).
    rewrite Forall_forall in Hps. rewrite Forall_forall in Hp'. rewrite (plain_record_active ws r (Hp' r Hr)).
    rewrite (found_switched ws ps st _ p r Hin (Hps p Hin) Hr Hqp). split; [done|].
    unfold located. rewrite -(switched_found ws ps st (t_probes t) p). apply existsb_exists. exists r.
    split; [by apply list_elem_of_In|done]. }
  rewrite -E. destruct (t_probes t1); [done|]. done.
Qed.

(** C37 (probe control): switching a list of locations on or off, over any port that stands
    for a process, leaves exactly the probes wanted by some location in the target state,
    and every other one as it was; the number of errors is the number of locations that are
    not probes of the process: a location that is one never counts as an error. *)
Theorem updateProbes_spec ws ps st w t : serves w t -> Forall requestable ps -> listable ws t ->
  exists w' t', updateProbes ws ps st w = Ok (length (filter (fun p => located ws t p = false) ps), w') /\
    serves w' t' /\ t_probes t' = switched ps st (t_probes t).
Proof. apply switch_probes. Qed.

(** Enabling probes succeeds exactly when every location is a probe of the
    process, and then they are all switched on. *)
Theorem enableProbes_spec ws ps w t : serves w t -> Forall requestable ps -> listable ws t -> ps <> [] ->
  if forallb (located ws t) ps then
    exists w' t', enableProbes ws None ps w = Ok w' /\ serves w' t' /\ t_probes t' = switched ps true (t_probes t)
  else enableProbes ws None ps w = Raise Exception_.
Proof.
  intros Hs Hps Ht Hne. destruct (switch_probes ws ps true w t Hs Hps Ht) as (w' & t' & H & Hs' & E).
  assert (Hall : forallb (located ws t) ps = (length (filter (fun p => located ws t p = false) ps) =? 0)%nat).
  { clear. induction ps as [|p ps IH]; [done|]. cbn [forallb]. rewrite IH filter_cons. destruct (located ws t p); done. }
  unfold enableProbes. destruct ps as [|p0 ps0] eqn:Eps; [done|]. rewrite -Eps in H E Hall |- *. cbn [mbind result_bind]. rewrite H.
  cbn [mbind result_bind]. rewrite Hall. destruct (length _) as [|n]; cbn [Nat.eqb Nat.ltb Nat.leb]; [|done].
  exists w', t'. done.
Qed.
End Switch.

(** *** Witnesses *)

Definition no_other (req : string) (args : list string) (t : Target) : Response * Target := (Value "", t).
Definition by_char (l : chars) : list chars := (fun c => [c]) <$> l.

Lemma by_char_text l : mjoin (by_char l) = l.
Proof. induction l as [|c l IH]; [done|]. change (c :: mjoin (by_char l) = c :: l). by rewrite IH. Qed.
Lemma by_char_blocks l : Forall (fun b => b <> []) (by_char l).
Proof. apply Forall_fmap, Forall_true. by intros c. Qed.

Definition two_probes : Target := mkTarget
  [mkProbeInfo "1" "0x60" "0x40" "0x4a" false "Parse" "/ws/src/a.C" 42 "int f(int)" "canBeginTxn";
   mkProbeInfo "2" "0x61" "0x50" "0x5a" false "Send" "/ws/src/b.C" 7 "int g(int)" "canEndTxn"] [].
Definition fresh_connection : Connection := mkConnection (mkClient (mkSocket [] [] []) None) [] two_probes.
Definition asked (f : string) (line : Z) : Probe :=
  mkProbe CAnchoredProbe "n" None false false false false false None f (dirname f) (basename f) line "0" [].

Lemma env_admin_refines_witness : exists w',
  env_admin no_other by_char "ActivateProbe --file a.C --line 42" fresh_connection = Ok (""%string, w') /\ at_rest w' /\
  target w' = activateProbe (mkProbeKey "" "a.C" 42) two_probes.
Proof.
  apply (env_admin_refines no_other by_char by_char_text by_char_blocks "ActivateProbe --file a.C --line 42" fresh_connection (Value "")
    (activateProbe (mkProbeKey "" "a.C" 42) two_probes)); vm_compute; try done; split_and!; done.
Defined.

Definition wire_spec := WirePort_spec no_other by_char by_char_text by_char_blocks.

Lemma two_probes_listable : listable (Some "/ws") two_probes.
Proof.
  split.
  - done.
  - apply (bool_decide_eq_true_1 _). vm_compute. reflexivity.
  - repeat apply Forall_cons_2; try apply Forall_nil_2; (split; [split; [|vm_compute; done]|split; [vm_compute; done|split]]).
    1, 4: by repeat apply Forall_cons_2; try apply Forall_nil_2; vm_compute; set_solver.
    1, 3: by repeat apply Forall_cons_2; try apply Forall_nil_2; vm_compute; set_solver.
    1, 2: split; [by vm_compute; intros c [= <-]|by vm_compute; set_solver].
  - intros q q' Hq Hq'. apply list_elem_of_fmap in Hq as (r & -> & Hr). apply list_elem_of_fmap in Hq' as (r' & -> & Hr').
    cbn [t_probes two_probes] in Hr, Hr'. rewrite !elem_of_cons in Hr, Hr'.
    destruct Hr as [->|[->|Hr]]; [| |by apply elem_of_nil in Hr]; (destruct Hr' as [->|[->|Hr']]; [| |by apply elem_of_nil in Hr']);
      vm_compute; congruence.
  - intros ps st. unfold switched. cbn [fmap list_fmap t_probes two_probes].
    destruct (wanted ps _), (wanted ps _), st; vm_compute; reflexivity.
Qed.

Lemma asked_requestable : Forall requestable [asked "src/a.C" 42; asked "src/c.C" 5].
Proof.
  repeat apply Forall_cons_2; try apply Forall_nil_2; (split; [split; [done|split; [by vm_compute; set_solver|vm_compute; split; done]]|split; [done|]]);
    intros []; vm_compute; reflexivity.
Qed.

Lemma updateProbes_spec_witness : exists w' t',
  updateProbes (HW := WirePort no_other by_char) (Some "/ws") [asked "src/a.C" 42; asked "src/c.C" 5] true fresh_connection = Ok (1%nat, w') /\
  at_rest w' /\ target w' = t' /\ (r_enabled <$> t_probes t') = [true; false].
Proof.
  destruct (@updateProbes_spec Connection (WirePort no_other by_char) no_other wire_spec (Some "/ws")
    [asked "src/a.C" 42; asked "src/c.C" 5] true fresh_connection two_probes) as (w' & t' & H & [Hr Ht] & E).
  - split; [vm_compute; split_and!; done|done].
  - exact asked_requestable.
  - exact two_probes_listable.
  - exists w', t'. split; [exact H|]. split; [exact Hr|]. split; [exact Ht|]. rewrite E. vm_compute. reflexivity.
Defined.

Lemma enableProbes_spec_witness :
  (exists t', enableProbes (HW := DirectPort no_other) (Some "/ws") None [asked "src/a.C" 42] two_probes = Ok t') /\
  enableProbes (HW := DirectPort no_other) (Some "/ws") None [asked "src/a.C" 42; asked "src/c.C" 5] two_probes = Raise Exception_.
Proof.
  split.
  - destruct (@enableProbes_spec Target (DirectPort no_other) no_other (DirectPort_spec no_other) (Some "/ws")
      [asked "src/a.C" 42] two_probes two_probes) as (w' & t' & H & _); [done| |exact two_probes_listable|done|exists w'; exact H].
    apply Forall_cons_2; [|apply Forall_nil_2]. exact (proj1 (proj1 (Forall_cons _ _ _) asked_requestable)).
  - exact (@enableProbes_spec Target (DirectPort no_other) no_other (DirectPort_spec no_other) (Some "/ws")
      [asked "src/a.C" 42; asked "src/c.C" 5] two_probes two_probes eq_refl asked_requestable two_probes_listable ltac:(done)).
Defined.
