(* ===== verification/Session.v ===== *)
(** * Sessions

    Models profiler/runtime.py: [AbstractRuntime.resolveTopdownMetrics],
    [AbstractRuntime.aggregatePmc], [Runtime.__init__] and the events [Runtime.report] loads the
    samples with; and both [enablePMU] of profiler/environment.py: with the driver the events are
    written to its device, without it they are sent to the process. *)

From Stdlib Require Import Ascii.
From S2P Require Import Prelude PyStr Probe Route Txn Timeline Records Pmu EventsDb Topdown Wire Target Admin.

(** ** Names *)

Definition upper_char (c : ascii) : ascii :=
  let n := nat_of_ascii c in if ((97 <=? n)%nat && (n <=? 122)%nat)%bool then ascii_of_nat (n - 32) else c.

(** [str.title]. *)
Fixpoint title_chars (previous_is_cased : bool) (l : chars) : chars :=
  match l with
  | [] => []
  | c :: l => (if previous_is_cased then lower_char c else upper_char c) :: title_chars (is_alpha c) l
  end.

Section Session.
Context {F : Type} {HF : PyFloat F}.

(** ** The requested counters *)

(** An item of the profile's list: an event, a topdown node or metric, a list of events. *)
Inductive PmcItem := PEvent (e : Event) | PTopdown (k : TopdownKey) | PEvents (l : list Event).

(** [Event(event.name.title()..., event.name)]; an event without a name has no [title]. *)
Definition topdown_event (e : HEvent) : result Event :=
  name ← or_raise AttributeError_ (event_name e);
  let shown := List.filter (fun c => negb (Ascii.eqb c "_" || Ascii.eqb c " ")) (title_chars false (to_chars name)) in
  Ok (mkEvent (of_chars shown) name true true).

(** What [TopdownMetrics.add] returns without a condition: the events of what it added. *)
Definition added_events (h : Hierarchy (F := F)) (key : TopdownKey) : result (list HEvent) :=
  match key with
  | NodeKey name _ => i ← topdown_node h name; Ok (node_events (h_store h) i)
  | MetricKey name => m ← topdown_metric h name; Ok (metricEvents m)
  end.

Definition is_topdown (i : PmcItem) : bool := match i with PTopdown _ => true | _ => false end.

Definition resolve_item (h : Hierarchy (F := F)) (s : Metrics (F := F) * list PmcItem) (item : PmcItem)
    : result (Metrics (F := F) * list PmcItem) :=
  match item with
  | PTopdown key =>
      tm ← add h (fun _ => true) s.1 key;
      hes ← added_events h key;
      es ← mmap topdown_event hes;
      Ok (tm, s.2 ++ [PEvents es])
  | _ => Ok (s.1, s.2 ++ [item])
  end.

(** [resolveTopdownMetrics]; [cache] is the cache of hierarchies by processor. *)
Definition resolveTopdownMetrics (cache : string -> result (Hierarchy (F := F))) (cpuId : string) (pmc : list PmcItem)
    : result (option (Hierarchy (F := F) * Metrics (F := F)) * list PmcItem) :=
  if existsb is_topdown pmc then
    h ← cache cpuId;
    '(tm, items) ← mfor (resolve_item h) (Metrics_init, []) pmc;
    Ok (Some (h, tm), items)
  else Ok (None, pmc).

(** Events are equal when they have the same name in the database. *)
Definition event_eqb (a b : Event) : bool := String.eqb (uarchName a) (uarchName b).

Definition item_events (i : PmcItem) : list Event :=
  match i with PEvent e => [e] | PEvents l => l | PTopdown _ => [] end.

(** [aggregatePmc]: the keys of an ordered dict. *)
Definition aggregatePmc (pmc : list PmcItem) : list Event :=
  od_keys (fold_left (fun d e => od_set event_eqb e tt d) (pmc ≫= item_events) []).

(** ** The events of the session *)

(** [ProxyEnvironment.enablePMU]: the event set, and the bytes written to the device.  Without
    the driver there is no device to open. *)
Definition enablePMU (driver : bool) (db_get : string -> option UArchEvent) (cpus : list Z) (events : list Event)
    : result (EventSet * list (list Z)) :=
  match cpus with
  | [] => Raise Exception_
  | _ => if driver then enable db_get cpus events else Raise Exception_
  end.

Section Live.
Context {W : Type} {HW : AdminPort W}.

(** [Environment.enablePMU]: without the driver, the request for perf events is sent to the
    process, unless it has off core events or no events at all. *)
Definition env_enablePMU (driver : bool) (db_get : string -> option UArchEvent) (cpus : list Z) (events : list Event) (w : W)
    : result (EventSet * list (list Z) * W) :=
  let proxy := '(s, groups) ← enablePMU driver db_get cpus events; Ok (s, groups, w) in
  if driver then proxy
  else
    o ← buildPerfEventsRequest db_get events;
    match o with
    | Some (s, request) =>
        if (negb (eventset_len s =? 0)%nat && nonempty request)%bool
        then '(rc, w) ← admin (cat ["ActivatePerfEvents --data "; request]) w;
             if nonempty rc then Raise Exception_ else Ok (s, [], w)
        else proxy
    | None => proxy
    end.

(** What a session knows after its start. *)
Record Runtime := mkRuntime {
  rt_cpuInfo : CpuInfo F;
  rt_probes : list Probe;
  rt_topdown : option (Hierarchy (F := F) * Metrics (F := F));
  rt_eventSet : option EventSet
}.

(** The pmu part of [Runtime.__init__], with the bytes written to the device. *)
Definition session_events (dryRun driver : bool) (db_get : string -> option UArchEvent)
    (cache : string -> result (Hierarchy (F := F))) (cpuId : string) (cpus : list Z) (pmc : list PmcItem) (w : W)
    : result (option (Hierarchy (F := F) * Metrics (F := F)) * option EventSet * list (list Z) * W) :=
  match pmc with
  | [] => Ok (None, None, [], w)
  | _ =>
      '(tm, items) ← resolveTopdownMetrics cache cpuId pmc;
      match aggregatePmc items with
      | [] => Ok (tm, None, [], w)
      | events =>
          if dryRun then s ← resolveEvents db_get cpus events; Ok (tm, Some s, [], w)
          else '(s, device, w) ← env_enablePMU driver db_get cpus events w; Ok (tm, Some s, device, w)
      end
  end.

(** [Runtime.__init__]; [dryRun] stands for a dormant app, which answers pings itself.  The
    databases are looked up by processor, and only when there are events. *)
Definition Runtime_init (restart : W -> result W) (workspace : option string) (name : string) (runId pollInterval : Z)
    (samplesFileSize : option Z) (dryRun driver : bool) (cpuInfo : result (CpuInfo F))
    (eventsDb : string -> result (string -> option UArchEvent)) (cache : string -> result (Hierarchy (F := F)))
    (probes : list Probe) (pmc : list PmcItem) (cpus : list Z) (w : W) : result (Runtime * list (list Z) * W) :=
  if (length probes <? 2)%nat then Raise Exception_
  else
    w ← (if dryRun then Ok w else pingApp restart w);
    cpu ← cpuInfo;
    db_get ← (match pmc with [] => Ok (fun _ => None) | _ => eventsDb (cpuId cpu) end);
    '(tm, s, device, w) ← session_events dryRun driver db_get cache (cpuId cpu) cpus pmc w;
    w ← (if dryRun then Ok w
         else '(aps, w) ← resolveProbes workspace probes w;
              w ← enableProbes workspace s aps w;
              beginProfile name runId pollInterval samplesFileSize w);
    Ok (mkRuntime cpu probes tm s, device, w).
End Live.

(** [EventSet.requests], as the events [Runtime.report] hands to the loader. *)
Definition requests (s : EventSet) : list (string * option string) :=
  ((fun r => (g_name r, u_name (g_event r))) <$> genericRequests s) ++ ((fun r => (f_name r, f_uarchName r)) <$> fixedRequests s).
Definition report_events (s : option EventSet) : list Event :=
  match s with
  | Some s => (fun r : string * option string => mkEvent r.1 (default "" r.2) true true) <$> requests s
  | None => []
  end.
End Session.

(** ** Aggregation *)

#[export] Instance event_eqb_equiv : KeyEquiv event_eqb.
Proof. split; unfold event_eqb; intros *; rewrite ?String.eqb_eq; [done|done|congruence]. Qed.

Lemma od_set_names {V} (e : Event) (v : V) d n : n ∈ uarchName <$> od_keys (od_set event_eqb e v d) <->
  n ∈ uarchName <$> od_keys d \/ n = uarchName e.
Proof.
  rewrite od_set_keys. destruct (od_mem event_eqb e d) eqn:E.
  - split; [tauto|]. intros [H| ->]; [done|]. apply od_mem_true in E as [w E]. apply od_get_elem_of in E as (k & Hk & Ek).
    apply String.eqb_eq in Ek as ->. apply list_elem_of_fmap_2. exact (list_elem_of_fmap_2 fst _ _ Hk).
  - rewrite fmap_app elem_of_app list_elem_of_singleton. done.
Qed.

(** The names requested are those of all the items, each once. *)
Lemma aggregate_names items : NoDup (uarchName <$> aggregatePmc items) /\
  forall n, n ∈ uarchName <$> aggregatePmc items <-> exists i e, i ∈ items /\ e ∈ item_events i /\ uarchName e = n.
Proof.
  unfold aggregatePmc. set (es := items ≫= item_events).
  assert (H : forall d : list (Event * unit), NoDup (uarchName <$> od_keys d) ->
    NoDup (uarchName <$> od_keys (fold_left (fun d e => od_set event_eqb e tt d) es d)) /\
    forall n, n ∈ uarchName <$> od_keys (fold_left (fun d e => od_set event_eqb e tt d) es d) <->
      n ∈ uarchName <$> od_keys d \/ n ∈ uarchName <$> es).
  { clearbody es. induction es as [|e es IH]; intros d Hd; cbn [fold_left].
    { split; [done|]. intros n. rewrite fmap_nil elem_of_nil. tauto. }
    destruct (IH (od_set event_eqb e tt d)) as [H1 H2].
    - rewrite od_set_keys. destruct (od_mem event_eqb e d) eqn:E; [done|]. rewrite fmap_app. apply NoDup_app. split_and!; [done| |apply NoDup_singleton].
      intros n Hn ->%list_elem_of_singleton. apply list_elem_of_fmap in Hn as (k & Ek & Hk). apply od_mem_false, od_get_None in E.
      rewrite Forall_forall in E. specialize (E k Hk). unfold event_eqb in E. by rewrite Ek String.eqb_refl in E.
    - split; [done|]. intros n. rewrite H2 od_set_names fmap_cons elem_of_cons. tauto. }
  destruct (H []) as [H1 H2]; [apply NoDup_nil_2|]. split; [done|]. intros n. rewrite H2. unfold es. split.
  - intros [Hn|Hn]; [by apply not_elem_of_nil in Hn|]. apply list_elem_of_fmap in Hn as (e & -> & He).
    apply list_elem_of_bind in He as (i & He & Hi). by exists i, e.
  - intros (i & e & Hi & He & <-). right. apply list_elem_of_fmap_2, list_elem_of_bind. by exists i.
Qed.

(** ** Requests of resolved events *)

Section Requested.
Context (db_get : string -> option UArchEvent).

Definition request_names (s : EventSet) : list (option string) := (requests s).*2.

Lemma request_names_eq s : request_names s = ((fun r => u_name (g_event r)) <$> genericRequests s) ++ (f_uarchName <$> fixedRequests s).
Proof. unfold request_names, requests. by rewrite fmap_app -!list_fmap_compose. Qed.

(** Events other than fixed ones have a set of counters they can use. *)
Definition db_counters : Prop := forall n e, db_get n = Some e -> eventType e <> FixedCore ->
  exists l, validPmc e = Some (PmcSet l) /\ l <> [] /\ Forall (fun c => 0 <= c) l.

Definition requested (pre : list Event) (st : EventSet * nat) : Prop :=
  (forall e, e ∈ pre -> exists u, db_get (uarchName e) = Some u /\ u_name u ∈ request_names st.1) /\
  sortable (genericRequests st.1).

Lemma request_step pre e st st' : db_counters -> requested pre st ->
  (let '(s, n) := st in '(rs, n) ← buildRequests db_get e n; s ← mfor addRequest s rs; Ok (s, n)) = Ok st' ->
  requested (pre ++ [e]) st'.
Proof.
  destruct st as [s n]. intros Hc [Hn Hs] H. cbn [fst] in Hn, Hs.
  apply bind_Ok in H as ([rs n'] & Hrs & H). apply bind_Ok in H as (s' & Hs' & [= <-]).
  unfold buildRequests in Hrs. apply bind_Ok in Hrs as (u & Hu & Hrs). apply or_raise_Ok in Hu.
  cut ((forall x, x ∈ request_names s -> x ∈ request_names s') /\ u_name u ∈ request_names s' /\ sortable (genericRequests s')).
  { intros (Hsub & Hin & Hs1). split; [|done]. intros e' [He|He%list_elem_of_singleton]%elem_of_app.
    - destruct (Hn e' He) as (u' & H1 & H2). exists u'. split; [done|by apply Hsub].
    - subst e'. by exists u. }
  rewrite !request_names_eq. assert (Hset : eventType u <> FixedCore -> forall g, validPmc (g_event g) = validPmc u ->
    sortable (genericRequests s ++ [g])).
  { intros Ht g Hg. apply Forall_app. split; [done|]. apply Forall_singleton. rewrite Hg. exact (Hc _ _ Hu Ht). }
  destruct (eventType u) eqn:Et.
  - apply bind_Ok in Hrs as (g & Hg%generic_init & [= <- <-]). cbn [mfor addRequest] in Hs'.
    apply bind_Ok in Hs' as (s1 & (Hl & ->)%add_generic & [= <-]). subst g. cbn [genericRequests fixedRequests].
    rewrite fmap_app. split_and!; [set_solver|set_solver|by apply Hset].
  - apply bind_Ok in Hrs as (f & Hf & [= <- <-]). unfold FixedPmuRequest_init in Hf.
    destruct (_ && _)%bool; [done|]. injection Hf as <-. cbn [mfor addRequest] in Hs'.
    apply bind_Ok in Hs' as (s1 & Hs1 & [= <-]). unfold addFixedPmuRequest in Hs1.
    destruct (3 <=? _)%nat; [done|]. injection Hs1 as <-. cbn [genericRequests fixedRequests].
    split_and!; [intros x; rewrite py_sort_perm fmap_app; set_solver|rewrite py_sort_perm fmap_app; set_solver|done].
  - unfold buildOffCoreRequests in Hrs. destruct (_ <=? n)%nat; [done|].
    apply bind_Ok in Hrs as (sel & _ & Hrs). apply bind_Ok in Hrs as (g & Hg%generic_init & Hrs).
    apply bind_Ok in Hrs as (o & _ & [= <- <-]). cbn [mfor addRequest] in Hs'.
    apply bind_Ok in Hs' as (s1 & (Hl & ->)%add_generic & Hs'). apply bind_Ok in Hs' as (s2 & Hs2 & [= <-]).
    unfold addOffcorePmuRequest in Hs2. destruct (2 <=? _)%nat; [done|]. injection Hs2 as <-. subst g. cbn [genericRequests fixedRequests].
    rewrite fmap_app. split_and!; [set_solver|set_solver|by apply Hset].
Qed.

Lemma resolved_requested cpus events s : db_counters -> resolveEvents db_get cpus events = Ok s ->
  exists n, requested events (s, n).
Proof.
  intros Hc. unfold resolveEvents. destruct (_ <? _)%nat; [done|]. intros H. apply bind_Ok in H as ([s' n] & H & [= <-]). exists n.
  revert H. apply (mfor_inv_prefix _ requested).
  - intros pre e post [s0 n0] st' _ Hst H. exact (request_step pre e (s0, n0) st' Hc Hst H).
  - split; [by intros e ?%not_elem_of_nil|constructor].
Qed.

Lemma allocated_names s s' : sortable (genericRequests s) -> allocateEvents s = Ok s' -> request_names s' ≡ₚ request_names s.
Proof.
  intros Hs. unfold allocateEvents. destruct (genericRequests s) as [|g gs] eqn:E; [by intros [= <-]|]. intros H.
  apply bind_Ok in H as (o & Ho & H). destruct (sort_requests_perm (g :: gs) ltac:(done) Hs) as (o' & Ho' & Hp).
  rewrite Ho in Ho'. injection Ho' as <-. destruct o as [[|r sorted]|]; [done| |done].
  destruct (_ =? _)%nat; [|done]. injection H as <-. rewrite !request_names_eq E. cbn [genericRequests fixedRequests].
  by rewrite (proj1 (Hp _ eq_refl)).
Qed.

Lemma built_requested cpus events s : db_counters -> buildEventSet db_get cpus events = Ok s ->
  forall e, e ∈ events -> exists u, db_get (uarchName e) = Some u /\ u_name u ∈ request_names s.
Proof.
  intros Hc H e He. unfold buildEventSet in H. apply bind_Ok in H as (s0 & Hs0 & H).
  destruct (resolved_requested cpus events s0 Hc Hs0) as (n & Hr & Hsort). destruct (Hr e He) as (u & Hu & Hin).
  exists u. split; [done|]. by rewrite (allocated_names s0 s Hsort H).
Qed.

(** What enabling programs is built from the events, on every way. *)
Lemma env_enabled {W} {HW : AdminPort W} driver cpus events (w : W) s device w' :
  env_enablePMU driver db_get cpus events w = Ok (s, device, w') -> exists cpus', buildEventSet db_get cpus' events = Ok s.
Proof.
  assert (Hp : forall b, ('(s, groups) ← enablePMU b db_get cpus events; Ok (s, groups, w)) = Ok (s, device, w') ->
    exists cpus', buildEventSet db_get cpus' events = Ok s).
  { intros b H. apply bind_Ok in H as ([s1 groups] & H & [= -> _ _]). unfold enablePMU in H. destruct cpus as [|c cpus]; [done|].
    destruct b; [|done]. unfold enable in H. apply bind_Ok in H as (s1 & Hs1 & H). apply bind_Ok in H as (gs & _ & [= <- _]). by exists (c :: cpus). }
  unfold env_enablePMU. destruct driver; [exact (Hp true)|]. intros H. apply bind_Ok in H as (o & Ho & H).
  destruct o as [[s1 request]|]; [|exact (Hp false H)]. destruct (_ && _)%bool; [|exact (Hp false H)].
  apply bind_Ok in H as ([rc w1] & _ & H). destruct (nonempty rc); [done|]. injection H as <- _ _.
  unfold buildPerfEventsRequest in Ho. apply bind_Ok in Ho as (s2 & Hs2 & Ho). destruct (offcoreRequests s2); [|done].
  apply bind_Ok in Ho as (g & _ & [= <- _]). by exists [].
Qed.

(** Every event of a session has a request of its name, in a dry run and otherwise. *)
Lemma session_requested {F} {HF : PyFloat F} {W} {HW : AdminPort W} dryRun driver cache cpuId cpus pmc (w : W)
    (h : Hierarchy (F := F)) tm s device w' : db_counters ->
  session_events dryRun driver db_get cache cpuId cpus pmc w = Ok (Some (h, tm), Some s, device, w') ->
  exists items, resolveTopdownMetrics cache cpuId pmc = Ok (Some (h, tm), items) /\
    forall e, e ∈ aggregatePmc items -> exists u, db_get (uarchName e) = Some u /\ u_name u ∈ request_names s.
Proof.
  intros Hc H. unfold session_events in H. destruct pmc as [|i0 pmc0]; [done|]. apply bind_Ok in H as ([o items] & Hres & H).
  exists items. destruct (aggregatePmc items) as [|e es] eqn:E; [done|]. rewrite -E in H |- *. destruct dryRun.
  - apply bind_Ok in H as (s' & Hs' & [= <- <- _ _]). split; [done|]. by destruct (resolved_requested cpus _ s' Hc Hs') as (n & Hr & _).
  - apply bind_Ok in H as ([[s' dev] w1] & Hs' & [= <- <- _ _]). split; [done|].
    destruct (env_enabled driver cpus _ w s' dev w1 Hs') as [cpus' Hb]. exact (built_requested cpus' _ s' Hc Hb).
Qed.
End Requested.

(** ** The topdown metrics of a session *)

Section Computed.
Context {F : Type} {HF : PyFloat F} (db_get : string -> option UArchEvent).

(** Names the items ask for. *)
Definition asks (items : list PmcItem) (n : string) : Prop := exists i e, i ∈ items /\ e ∈ item_events i /\ uarchName e = n.

Definition asked_events (items : list PmcItem) (es : list HEvent) : Prop :=
  forall e, e ∈ es -> exists n, event_name e = Some n /\ asks items n.

(** What the loop over the items keeps: all the metrics are of the hierarchy, and their
    events are asked for. *)
Definition items_inv (h : Hierarchy (F := F)) (st : Metrics (F := F) * list PmcItem) : Prop :=
  (forall i, i ∈ tm_nodes st.1 -> i ∈ od_values (h_nodes h) /\ asked_events st.2 (node_events (h_store h) i)) /\
  (forall mt, mt ∈ tm_metrics st.1 -> mt ∈ od_values (h_metrics h) /\ asked_events st.2 (metricEvents mt)).

Lemma asked_more items items' es : asked_events items es -> asked_events (items ++ items') es.
Proof.
  intros H e He. destruct (H e He) as (n & Hn & i & ev & Hi & Hev). exists n. split; [done|]. exists i, ev.
  split; [|done]. apply elem_of_app. by left.
Qed.

Lemma topdown_events_asked items hes es : mmap topdown_event hes = Ok es -> asked_events (items ++ [PEvents es]) hes.
Proof.
  intros H e He. apply list_elem_of_lookup in He as [i Hi]. destruct (mmap_Ok_lookup _ _ _ _ _ H Hi) as (ev & Hev & Ht).
  unfold topdown_event in Ht. apply bind_Ok in Ht as (n & Hn & Ht). apply or_raise_Ok in Hn. cbn zeta in Ht. injection Ht as <-.
  exists n. split; [done|]. eexists (PEvents es), _. split; [apply elem_of_app; right; by left|].
  split; [exact (list_elem_of_lookup_2 _ _ _ Hev)|done].
Qed.

Lemma resolve_item_inv h st item st' : items_inv h st -> resolve_item h st item = Ok st' -> items_inv h st'.
Proof.
  intros [Hn Hm] H. destruct item as [e|key|l]; cbn [resolve_item] in H.
  1, 3: injection H as <-; split; cbn [fst snd]; intros x Hx; [destruct (Hn x Hx) as [H1 H2]|destruct (Hm x Hx) as [H1 H2]];
    (split; [exact H1|by apply asked_more]).
  apply bind_Ok in H as (tm & Htm & H). apply bind_Ok in H as (hes & Hhes & H). apply bind_Ok in H as (es & Hes & [= <-]).
  pose proof (topdown_events_asked st.2 hes es Hes) as Hasked.
  assert (Hold : forall X, asked_events st.2 X -> asked_events (st.2 ++ [PEvents es]) X) by (intros X; apply asked_more).
  split; cbn [fst snd]; destruct key as [name cs|name]; cbn [add added_events] in Htm, Hhes;
    unfold topdown_node, topdown_metric in Htm, Hhes; destruct (od_get String.eqb name _) as [x|] eqn:E; try done;
    cbn [or_raise mbind result_bind] in Htm, Hhes; apply od_get_value in E; injection Htm as <-; injection Hhes as <-;
    cbn [tm_nodes tm_metrics]; intros y Hy.
  - apply elem_of_app in Hy as [Hy| ->%list_elem_of_singleton]; [|done]. destruct (Hn y Hy) as [H1 H2]. split; [exact H1|auto].
  - destruct (Hn y Hy) as [H1 H2]. split; [exact H1|auto].
  - destruct (Hm y Hy) as [H1 H2]. split; [exact H1|auto].
  - apply elem_of_app in Hy as [Hy| ->%list_elem_of_singleton]; [|done]. destruct (Hm y Hy) as [H1 H2]. split; [exact H1|auto].
Qed.

(** Events that are asked for are among those the samples are loaded with. *)
Lemma asked_canAdd items s es : db_names db_get ->
  (forall e, e ∈ aggregatePmc items -> exists u, db_get (uarchName e) = Some u /\ u_name u ∈ request_names s) ->
  asked_events items es -> canAdd (uarchName <$> report_events (Some s)) es = true.
Proof.
  intros Hdb Hreq Hes. unfold canAdd. apply forallb_forall. intros e He. apply list_elem_of_In in He.
  destruct (Hes e He) as (n & -> & Hasks). apply (proj2 (aggregate_names items) n) in Hasks.
  apply list_elem_of_fmap in Hasks as (ev & -> & Hev). destruct (Hreq ev Hev) as (u & Hu & Hin). rewrite (Hdb _ _ Hu) in Hin.
  apply existsb_exists. exists (uarchName ev). split; [|apply String.eqb_refl]. apply list_elem_of_In.
  apply list_elem_of_fmap in Hin as ([rn ru] & Hru & Hr). cbn in Hru. subst ru.
  apply list_elem_of_fmap. exists (mkEvent rn (uarchName ev) true true). split; [done|].
  apply list_elem_of_fmap. by exists (rn, Some (uarchName ev)).
Qed.

(** C21 (session metrics): for a session that programs its events, on the device or in the
    process, or resolves them in a dry run, the topdown metrics it asked for can be computed on
    every sample that has one counter for every event the samples are loaded with, and give one
    value per name; the formulas ask for the events of their dry run only, and the database
    hands out events under the names asked for, with counters they can use. *)
Theorem session_metrics_computable {W} {HW : AdminPort W} r h dryRun driver cache cpuId cpus pmc (w : W) tm s device w'
    (repo : DeltaSeriesRepo F) m th :
  db_names db_get -> db_counters db_get ->
  Forall (fun s => static (sp_compute s)) (r_nodes r) -> Forall (fun f => static f.2) (r_metrics r) ->
  cache cpuId = Topdown_init db_get r ->
  session_events dryRun driver db_get cache cpuId cpus pmc w = Ok (Some (h, tm), Some s, device, w') ->
  revents repo = report_events (Some s) ->
  buildEventsMap repo = Some (eventsMap m) -> length (cm_counters m) = length (revents repo) ->
  exists vs th', metrics_compute (h_store h) tm th m = Ok (vs, th') /\ tv_name <$> vs = metrics_names (h_store h) tm.
Proof.
  intros Hdb Hdc Hns Hms Hcache H Hrepo Hmap Hlen.
  destruct (session_requested db_get dryRun driver cache cpuId cpus pmc w h tm s device w' Hdc H) as (items & Hres & Hreq).
  unfold resolveTopdownMetrics in Hres. destruct (existsb is_topdown pmc); [|done].
  rewrite Hcache in Hres. apply bind_Ok in Hres as (h' & Hh & Hres). apply bind_Ok in Hres as ([tm' items'] & Hloop & [= <- <- <-]).
  assert (Hinv : items_inv h' (tm', items')).
  { revert Hloop. apply mfor_inv; [|split; cbn; by intros x ?%not_elem_of_nil].
    intros st x st1 _ Hst Hx. exact (resolve_item_inv h' st x st1 Hst Hx). }
  destruct Hinv as [Hn Hm]. cbn [fst snd] in Hn, Hm. apply (computable_computes db_get r h' repo); try done.
  rewrite Hrepo. split.
  - intros i Hi. destruct (Hn i Hi) as [H1 H2]. split; [done|]. exact (asked_canAdd items' s _ Hdb Hreq H2).
  - intros mt Hmt. destruct (Hm mt Hmt) as [H1 H2]. split; [done|]. exact (asked_canAdd items' s _ Hdb Hreq H2).
Qed.
End Computed.

(** ** Dry runs *)

(** The registers of the requests need no sorting. *)
Definition steady (s : EventSet) : Prop :=
  forall sorted, sort_requests (genericRequests s) = Ok (Some sorted) -> sorted = genericRequests s.

Lemma allocateEvents_requests s s' : allocateEvents s = Ok s' ->
  fixedRequests s' = fixedRequests s /\ (steady s -> genericRequests s' = genericRequests s).
Proof.
  unfold allocateEvents, steady. destruct (genericRequests s) as [|g gs] eqn:E.
  { intros [= <-]. by rewrite E. }
  intros H. apply bind_Ok in H as ([[|r rs]|] & Ho & H); [done| |done]. destruct (_ =? _)%nat; [|done]. injection H as <-.
  split; [done|]. intros Hs. exact (Hs _ Ho).
Qed.

Lemma buildEventSet_resolves db_get cpus cpus' events s : buildEventSet db_get cpus events = Ok s ->
  exists s', resolveEvents db_get cpus' events = Ok s' /\ (steady s' -> report_events (Some s') = report_events (Some s)).
Proof.
  unfold buildEventSet. intros H. apply bind_Ok in H as (s0 & H0 & H).
  destruct (resolveEvents_cpus db_get cpus cpus' events s0 H0) as (s' & Hs' & Hg & Ho & Hf). exists s'. split; [exact Hs'|].
  intros Hst. destruct (allocateEvents_requests s0 s H) as [Hf' Hg']. unfold report_events, requests.
  rewrite Hf' Hg'; [unfold steady in *; by rewrite -Hg|]. by rewrite Hg Hf.
Qed.

Lemma enable_resolves db_get cpus cpus' events s groups : enable db_get cpus events = Ok (s, groups) ->
  exists s', resolveEvents db_get cpus' events = Ok s' /\ (steady s' -> report_events (Some s') = report_events (Some s)).
Proof.
  unfold enable. intros H. apply bind_Ok in H as (s0 & H0 & H). apply bind_Ok in H as (g & _ & [= <- _]).
  exact (buildEventSet_resolves _ _ _ _ _ H0).
Qed.

Section DryRun.
Context {F : Type} {HF : PyFloat F} {W : Type} {HW : AdminPort W}.

Lemma env_enable_resolves driver db_get cpus events (w : W) s device w' : env_enablePMU driver db_get cpus events w = Ok (s, device, w') ->
  exists s', resolveEvents db_get cpus events = Ok s' /\ (steady s' -> report_events (Some s') = report_events (Some s)).
Proof.
  assert (Hproxy : (p ← enablePMU driver db_get cpus events; Ok (p.1, p.2, w)) = Ok (s, device, w') ->
    exists s', resolveEvents db_get cpus events = Ok s' /\ (steady s' -> report_events (Some s') = report_events (Some s))).
  { intros H. apply bind_Ok in H as ([s1 g1] & H1 & [= -> _ _]). unfold enablePMU in H1. destruct cpus as [|c cpus]; [done|].
    destruct driver; [|done]. exact (enable_resolves _ _ _ _ _ _ H1). }
  assert (Hproxy' : ('(s, groups) ← enablePMU driver db_get cpus events; Ok (s, groups, w)) = Ok (s, device, w') ->
    exists s', resolveEvents db_get cpus events = Ok s' /\ (steady s' -> report_events (Some s') = report_events (Some s))).
  { intros H. apply Hproxy. revert H. by destruct (enablePMU driver db_get cpus events) as [[s1 g1]|]. }
  clear Hproxy. unfold env_enablePMU. destruct driver; [exact Hproxy'|]. intros H. apply bind_Ok in H as (o & Ho & H).
  destruct o as [[s1 request]|]; [|exact (Hproxy' H)]. destruct (_ && _)%bool; [|exact (Hproxy' H)].
  apply bind_Ok in H as ([rc w1] & _ & H). destruct (nonempty rc); [done|]. injection H as <- _ _.
  unfold buildPerfEventsRequest in Ho. apply bind_Ok in Ho as (s2 & H2 & Ho). destruct (offcoreRequests s2); [|done].
  apply bind_Ok in Ho as (g & _ & [= <- _]). exact (buildEventSet_resolves _ _ _ _ _ H2).
Qed.

(** A dry run asks for the events a live session had, in the order of the live session when
    their registers need no sorting. *)
Lemma session_events_dry driver driver' db_get cache cpuId cpus pmc (w w0 : W) tm s device w' :
  session_events (F := F) false driver db_get cache cpuId cpus pmc w = Ok (tm, s, device, w') ->
  exists s', session_events true driver' db_get cache cpuId cpus pmc w0 = Ok (tm, s', [], w0) /\
    ((forall e, s' = Some e -> steady e) -> report_events s' = report_events s).
Proof.
  unfold session_events. destruct pmc as [|i pmc]; [intros [= <- <- _ _]; by exists None|]. intros H.
  apply bind_Ok in H as ([tm' items] & -> & H). cbn [mbind result_bind]. destruct (aggregatePmc items) as [|e es].
  - injection H as <- <- _ _. by exists None.
  - apply bind_Ok in H as ([[s1 d1] w1] & H1 & [= <- <- _ _]). destruct (env_enable_resolves _ _ _ _ _ _ _ _ H1) as (s' & Hs' & Hst).
    exists (Some s'). rewrite Hs'. split; [done|]. intros H. exact (Hst (H s' eq_refl)).
Qed.
End DryRun.

(** ** The start of a live session *)

Section Start.
Context {F : Type} {HF : PyFloat F} {W : Type} {HW : AdminPort W}.
Context (other : string -> list string -> Target -> Response * Target) {HS : PortSpec other W}.

(** The process takes a command without complaint, and its probes stay as they are. *)
Definition accepts (cmd : string) : Prop := fitting cmd /\
  forall t, exists t', handle other cmd t = (Value "", t') /\ t_probes t' = t_probes t.

Lemma accepted cmd w t : accepts cmd -> serves w t ->
  exists w' t', admin cmd w = Ok (""%string, w') /\ serves w' t' /\ t_probes t' = t_probes t.
Proof.
  intros [Hf Ha] Hs. destruct (Ha t) as (t' & Hh & Ht). destruct (serves_admin cmd w t "" t' Hs Hf Hh) as (w' & Hw & Hs'); [done|].
  by exists w', t'.
Qed.

Lemma listable_probes ws t t' : t_probes t' = t_probes t -> listable ws t -> listable ws t'.
Proof. intros E [H1 H2 H3 H4 H5]. split; by rewrite E. Qed.

Lemma resolve_anchored ws ps (w : W) : Forall (fun p => isAnchored p = true) ps -> resolveProbes ws ps w = Ok (ps, w).
Proof.
  intros H. unfold resolveProbes.
  assert (E : forall acc, mfor (resolve_probe ws) (acc, (None, w)) ps = Ok (acc ++ ps, (None, w))).
  { induction H as [|p ps Hp _ IH]; intros acc; cbn [mfor]; [by rewrite app_nil_r|].
    assert (resolve_probe ws (acc, (None, w)) p = Ok (acc ++ [p], (None, w))) as -> by (unfold resolve_probe; by rewrite Hp).
    cbn [mbind result_bind]. by rewrite IH -app_assoc. }
  by rewrite E.
Qed.

Lemma ping_served restart w t : serves w t -> exists w', pingApp restart w = Ok w' /\ serves w' t.
Proof.
  intros Hs. destruct (serves_admin "Ping" w t "hello" t Hs) as (w' & Ha & Hs'); [done|done|done|]. exists w'. split; [|done].
  unfold pingApp, ping. rewrite Ha. done.
Qed.

(** Enabling probes with an event set announces the counters first. *)
Lemma enable_with_events ws s ps w t : serves w t -> Forall requestable ps -> listable ws t -> ps <> [] ->
  (forall s', s = Some s' -> accepts (pmu_cmd s')) ->
  if forallb (located ws t) ps then
    exists w' t', enableProbes ws s ps w = Ok w' /\ serves w' t' /\ t_probes t' = switched ps true (t_probes t)
  else enableProbes ws s ps w = Raise Exception_.
Proof.
  intros Hs Hps Ht Hne Hpmu.
  assert (exists w1 t1, enableProbes ws s ps w = enableProbes ws None ps w1 /\ serves w1 t1 /\ t_probes t1 = t_probes t)
    as (w1 & t1 & -> & Hs1 & E).
  { destruct s as [s|]; [|by exists w, t]. unfold enableProbes. destruct ps as [|p0 ps0]; [done|].
    destruct (eventset_len s =? 0)%nat; [by exists w, t|].
    destruct (accepted (pmu_cmd s) w t (Hpmu s eq_refl) Hs) as (w1 & t1 & Ha & Hs1 & E). exists w1, t1.
    split; [|done]. unfold Admin.enablePMU. by rewrite Ha. }
  pose proof (enableProbes_spec other ws ps w1 t1 Hs1 Hps (listable_probes ws t t1 E Ht) Hne) as H.
  assert (forallb (located ws t1) ps = forallb (located ws t) ps) as El.
  { clear -E. induction ps as [|p ps IH]; [done|]. cbn [forallb]. rewrite IH. unfold located. by rewrite E. }
  rewrite El in H. revert H. destruct (forallb (located ws t) ps); [|done]. by rewrite E.
Qed.

(** The events of a session that has none, or that programs them with the driver. *)
Definition programmed (db_get : string -> option UArchEvent) (cache : string -> result (Hierarchy (F := F))) (cpuId : string)
    (cpus : list Z) (pmc : list PmcItem) (tm : option (Hierarchy (F := F) * Metrics (F := F))) (s : option EventSet)
    (device : list (list Z)) : Prop :=
  match pmc with
  | [] => tm = None /\ s = None /\ device = []
  | _ => exists items s', resolveTopdownMetrics cache cpuId pmc = Ok (tm, items) /\ aggregatePmc items <> [] /\
           enablePMU true db_get cpus (aggregatePmc items) = Ok (s', device) /\ s = Some s'
  end.

Lemma programmed_events db_get cache cpuId cpus pmc tm s device (w : W) : programmed db_get cache cpuId cpus pmc tm s device ->
  session_events false true db_get cache cpuId cpus pmc w = Ok (tm, s, device, w).
Proof.
  unfold programmed, session_events. destruct pmc as [|i pmc]; [by intros (-> & -> & ->)|].
  intros (items & s' & -> & Hne & He & ->). cbn [mbind result_bind]. destruct (aggregatePmc items) as [|e es]; [done|].
  unfold env_enablePMU. by rewrite He.
Qed.

End Start.

(** *** Example: topdown nodes on the events of a small database *)

#[local] Instance ex_se_float : PyFloat Z := Timeline.ex_float.

Definition ex_se_db (n : string) : option UArchEvent :=
  if (String.eqb n "LOADS" || String.eqb n "LOADS:cmask=0x2")%bool then db_lookup ex_db n else None.
Definition ex_se_pmc : list PmcItem :=
  [PEvent (mkEvent "loads" "LOADS" true true); PTopdown (NodeKey "Root" []); PTopdown (NodeKey "FrontendBound" []);
   PTopdown (MetricKey "LoadRatio")].
Definition ex_se_cache (_ : string) : result (Hierarchy (F := Z)) := Topdown_init ex_se_db ex_ratios.
Definition ex_se_hierarchy : Hierarchy (F := Z) := match ex_se_cache "" with Ok h => h | Raise _ => Hierarchy_init end.
Definition ex_se_port : AdminPort Target := DirectPort no_other.
Definition ex_se_session := session_events (HW := ex_se_port) false true ex_se_db ex_se_cache "cpu" [0; 1] ex_se_pmc two_probes.
Definition ex_se_metrics : Metrics (F := Z) :=
  match ex_se_session with Ok (Some (_, tm), _, _, _) => tm | _ => Metrics_init end.
Definition ex_se_set : EventSet := match ex_se_session with Ok (_, Some s, _, _) => s | _ => EventSet_init [] end.
Definition ex_se_device : list (list Z) := match ex_se_session with Ok (_, _, d, _) => d | Raise _ => [] end.
Definition ex_se_repo : DeltaSeriesRepo Z := DeltaSeriesRepo_init (report_events (Some ex_se_set)) [] [].
Definition ex_se_sample : CounterMap := mkCounterMap [("LOADS", 0%nat); ("LOADS:cmask=0x2", 1%nat)] [Some 20; Some 8].

Lemma session_metrics_computable_witness :
  uarchName <$> report_events (Some ex_se_set) = ["LOADS"; "LOADS:cmask=0x2"] /\ ename <$> report_events (Some ex_se_set) = ["loads"; "Loads:Cmask=0X2"] /\
  exists vs th', metrics_compute (h_store ex_se_hierarchy) ex_se_metrics [] ex_se_sample = Ok (vs, th') /\
    tv_name <$> vs = ["FrontendBound"; "FetchLatency"; "LoadRatio"].
Proof.
  split; [vm_compute; reflexivity|]. split; [vm_compute; reflexivity|].
  destruct (session_metrics_computable (HW := ex_se_port) ex_se_db ex_ratios ex_se_hierarchy false true ex_se_cache "cpu" [0; 1] ex_se_pmc
    two_probes ex_se_metrics ex_se_set ex_se_device two_probes ex_se_repo ex_se_sample []) as (vs & th' & H1 & H2).
  - intros n e H. unfold ex_se_db in H. destruct (_ || _)%bool; [|done].
    apply (db_lookup_name [ex_record] ex_db n e); [vm_compute; reflexivity|exact H].
  - intros n e H _. unfold ex_se_db in H. destruct (String.eqb_spec n "LOADS") as [->|_]; [|destruct (String.eqb_spec n "LOADS:cmask=0x2") as [->|_]; [|done]];
      vm_compute in H; injection H as <-; (eexists; split; [vm_compute; reflexivity|split; [done|repeat constructor; done]]).
  - repeat apply Forall_cons_2; try apply Forall_nil_2; intros th th' v b names H; cbn in H; injection H as <- <- <-;
      repeat constructor; set_solver.
  - repeat apply Forall_cons_2; try apply Forall_nil_2. intros th th' v b names H. cbn in H. injection H as <- <- <-.
    repeat constructor.
  - reflexivity.
  - vm_compute. reflexivity.
  - reflexivity.
  - vm_compute. reflexivity.
  - reflexivity.
  - exists vs, th'. split; [exact H1|]. rewrite H2. vm_compute. reflexivity.
Defined.

(** *** Example: events that are sorted for their registers *)

Definition ex_sorted_events : list Event := [mkEvent "loads" "LOADS" true true; mkEvent "stalls" "STALLS" true true].
Definition ex_live_set : EventSet := match enable ex_pmu_db [0] ex_sorted_events with Ok p => p.1 | Raise _ => EventSet_init [] end.
Definition ex_dry_set : EventSet := match resolveEvents ex_pmu_db [0] ex_sorted_events with Ok s => s | Raise _ => EventSet_init [] end.

(** A live session counts its events in the order of their registers, and the samples have their
    counters in that order; a dry run that reads the same samples again names the counters in
    the order the events were asked for. *)
Theorem dry_run_mislabels : (exists device, enable ex_pmu_db [0] ex_sorted_events = Ok (ex_live_set, device)) /\
  resolveEvents ex_pmu_db [0] ex_sorted_events = Ok ex_dry_set /\
  ename <$> report_events (Some ex_live_set) = ["stalls"; "loads"]%string /\
  ename <$> report_events (Some ex_dry_set) = ["loads"; "stalls"]%string.
Proof. split; [eexists; vm_compute; reflexivity|]. split_and!; vm_compute; reflexivity. Qed.

(** *** Example: a session over a network that delivers one character at a time *)

Definition ex_st_probes : list Probe := [asked "src/a.C" 42; asked "src/b.C" 7].
Definition ex_st_cpu : CpuInfo Z := CpuInfo_init "cpu" 1.

Lemma ex_st_requestable : Forall requestable ex_st_probes.
Proof.
  repeat apply Forall_cons_2; try apply Forall_nil_2; (split; [split; [done|split; [by vm_compute; set_solver|vm_compute; split; done]]|split; [done|]]);
    intros []; vm_compute; reflexivity.
Qed.

