(* ===== verification/Source.v ===== *)
(** * Binary data sources

    Models [BinaryDataSourceFactory] of types/dataSource.py, the file patterns of
    [XpediteApp] and [XpediteDormantApp] in profiler/app.py, [ProxyEnvironment.gatherFiles] of
    profiler/environment.py, and the names the process gives its sample files
    (src/include/xpedite/framework/SamplesBuffer.H).  A file path is a text here, as the
    code matches it with a regular expression. *)

From Stdlib Require Import Ascii.
From S2P Require Import Prelude PyStr EventsDb Records.

(** ** Names of sample files *)

Definition SAMPLES_DIR : string := "/dev/shm/".

Definition is_hex (c : ascii) : bool := existsb (Ascii.eqb c) (to_chars "0123456789abcdefABCDEF").

(** A group of one character class or more, and the rest of the text after [sep].  The
    classes before a separator do not contain its first character, so the regular expression
    has one way to match at a position. *)
Definition match_group (p : ascii -> bool) (sep : string) (l : chars) : option (chars * chars) :=
  let rest := drop_while p l in
  if (negb (bool_decide (take_while p l = [])) && starts_with (to_chars sep) rest)%bool
  then Some (take_while p l, drop (length (to_chars sep)) rest) else None.

(** [BINARY_FILE_PATTERN] at the start of a text. *)
Definition match_info (l : chars) : option (chars * chars * chars) :=
  match match_group is_digit "-" (drop_while (fun c => negb (is_digit c)) l) with
  | Some (runId, l) =>
      match match_group is_digit "-" l with
      | Some (tid, l) =>
          match match_group is_hex ".data" l with Some (tls, _) => Some (runId, tid, tls) | None => None end
      | None => None
      end
  | None => None
  end.

(** The first of [findall]. *)
Fixpoint find_info (l : chars) : option (chars * chars * chars) :=
  match match_info l with
  | Some m => Some m
  | None => match l with [] => None | _ :: l => find_info l end
  end.

Definition extractThreadInfo (samplesFile : string) : option string * option string :=
  match find_info (to_chars samplesFile) with
  | Some (_, tid, tls) => (Some (of_chars tid), Some (of_chars tls))
  | None => (None, None)
  end.

(** ** Gathering *)

Section Gather.
(** The names in a directory, in its order. *)
Context (ls : string -> list string).

Definition hidden (n : string) : bool := starts_with (to_chars ".") (to_chars n).

(** [gatherFiles]: [glob.iglob], for a pattern with wildcards in its last part only. *)
Definition gatherFiles (pattern : string) : list string :=
  path_join (dirname pattern) <$>
    filter (fun n => negb (hidden n) && fnmatch n (basename pattern) = true) (ls (dirname pattern)).

Definition sample_file (filePath : string) : result (SampleFile string) :=
  match extractThreadInfo filePath with
  | (Some tid, Some tls) =>
      if (nonempty tid && nonempty tls)%bool then Ok (mkSampleFile _ tid tls filePath) else Raise Exception_
  | _ => Raise Exception_
  end.

(** [BinaryDataSourceFactory.gather], with the pattern of the app. *)
Definition gather_binary (pattern : string) : result (list (SampleFile string)) :=
  mmap sample_file (gatherFiles pattern).
End Gather.

(** [sampleFilePath] as [beginProfile] sets it, and the pattern of a dormant app. *)
Definition live_pattern (name : string) (runId : Z) : string :=
  of_chars (to_chars "/dev/shm/xpedite-" ++ to_chars name ++ to_chars "-" ++ to_chars (print_int 10 runId) ++ to_chars "-*.data").
Definition dormant_pattern (runId : Z) : string :=
  of_chars (to_chars "/dev/shm/xpedite-*-" ++ to_chars (print_int 10 runId) ++ to_chars "-[0-9]*.data").

(** [buildTidStr] and [buildSampledFilePath] of the process. *)
Definition tid_str (tid tls : Z) : chars :=
  let hex := print_nat 16 tls in to_chars (print_int 10 tid) ++ "-"%char :: replicate (16 - length hex) "0"%char ++ hex.
Definition sampled_path (pattern : string) (tid tls : Z) : string :=
  let l := to_chars pattern in
  match find_sub ["*"%char] l with
  | Some i => of_chars (take i l ++ tid_str tid tls ++ drop (S i) l)
  | None => pattern
  end.

(** ** Properties *)

Lemma drop_while_split p l : l = take_while p l ++ drop_while p l.
Proof.
  unfold drop_while. induction l as [|c l IH]; [done|]. cbn [take_while]. destruct (p c); [|done].
  cbn [length drop app]. by f_equal.
Qed.

Lemma drop_while_head p l c : head (drop_while p l) = Some c -> p c = false.
Proof.
  unfold drop_while. induction l as [|d l IH]; [done|]. cbn [take_while]. destruct (p d) eqn:E; [exact IH|]. cbn. by intros [= <-].
Qed.

(** Taking a class stops where it ends. *)
Lemma take_while_stop p l c r : Forall (fun c => p c = true) l -> p c = false -> take_while p (l ++ c :: r) = l.
Proof. intros Hl Hc. induction Hl as [|d l Hd _ IH]; cbn [app take_while]; [by rewrite Hc|]. by rewrite Hd IH. Qed.

Lemma drop_while_stop p l c r : Forall (fun c => p c = true) l -> p c = false -> drop_while p (l ++ c :: r) = c :: r.
Proof. intros Hl Hc. unfold drop_while. by rewrite take_while_stop // drop_app_length. Qed.

Lemma match_group_Some p sep l g rest : match_group p sep l = Some (g, rest) ->
  l = g ++ to_chars sep ++ rest /\ g <> [] /\ Forall (fun c => p c = true) g.
Proof.
  unfold match_group. intros H. destruct (negb _) eqn:E1; [|done]. destruct (starts_with _ _) eqn:E2; [|done].
  injection H as <- <-. apply negb_true_iff, bool_decide_eq_false in E1. apply starts_with_true in E2 as [r Hr].
  split_and!; [|done|apply take_while_Forall]. rewrite {1}(drop_while_split p l) Hr. f_equal. f_equal.
  by rewrite drop_app_length.
Qed.

Lemma match_group_at p sep g rest c : head (to_chars sep) = Some c -> p c = false -> g <> [] -> Forall (fun c => p c = true) g ->
  match_group p sep (g ++ to_chars sep ++ rest) = Some (g, rest).
Proof.
  intros Hs Hc Hne Hg. unfold match_group. destruct (to_chars sep) as [|c' s] eqn:E; [done|]. injection Hs as ->.
  change ((c :: s) ++ rest) with (c :: (s ++ rest)). rewrite take_while_stop // drop_while_stop //.
  rewrite bool_decide_false //. change (c :: s ++ rest) with ((c :: s) ++ rest). rewrite starts_with_app. cbn [negb andb].
  f_equal. f_equal. apply drop_app_length.
Qed.

(** A match is three groups and their separators, after characters that are no digits. *)
Lemma match_info_Some l r t a : match_info l = Some (r, t, a) ->
  exists n rest, l = n ++ (r ++ "-"%char :: t ++ "-"%char :: a) ++ to_chars ".data" ++ rest /\
    Forall (fun c => is_digit c = false) n /\ r <> [] /\ Forall (fun c => is_digit c = true) r /\
    Forall (fun c => is_digit c = true) t /\ Forall (fun c => is_hex c = true) a.
Proof.
  unfold match_info. intros H. destruct (match_group is_digit "-" _) as [[r' l1]|] eqn:E1; [|done].
  destruct (match_group is_digit "-" l1) as [[t' l2]|] eqn:E2; [|done].
  destruct (match_group is_hex ".data" l2) as [[a' l3]|] eqn:E3; [|done]. injection H as -> -> ->.
  apply match_group_Some in E1 as (E1 & H1 & H1'), E2 as (E2 & H2 & H2'), E3 as (E3 & H3 & H3').
  exists (take_while (fun c => negb (is_digit c)) l), l3. split_and!; try done.
  - rewrite {1}(drop_while_split (fun c => negb (is_digit c)) l) E1 E2 E3. f_equal. repeat (rewrite -app_assoc; cbn [app]). done.
  - eapply Forall_impl; [apply take_while_Forall|]. intros c Hc. by apply negb_true_iff.
Qed.

Lemma digit_facts c : is_digit c = true -> c <> "-"%char /\ c <> "."%char /\ is_hex c = true /\ c ∉ to_chars "data".
Proof.
  unfold is_digit. intros (d & Hd & ->%Ascii.eqb_eq)%existsb_exists. apply list_elem_of_In in Hd.
  revert d Hd. apply Forall_forall. repeat constructor; try done; by vm_compute; set_solver.
Qed.

Lemma hex_facts c : is_hex c = true -> c <> "-"%char /\ c <> "."%char.
Proof.
  unfold is_hex. intros (d & Hd & ->%Ascii.eqb_eq)%existsb_exists. apply list_elem_of_In in Hd.
  revert d Hd. apply Forall_forall. repeat constructor; done.
Qed.

Lemma notin_class (p : ascii -> bool) c l : (p c = true -> False) -> Forall (fun c => p c = true) l -> c ∉ l.
Proof. intros Hc Hl Hin. rewrite Forall_forall in Hl. exact (Hc (Hl c Hin)). Qed.

(** The parts around the last separator are determined. *)
Lemma last_sep {A} (x : A) l1 r1 l2 r2 : l1 ++ x :: r1 = l2 ++ x :: r2 -> x ∉ r1 -> x ∉ r2 -> l1 = l2 /\ r1 = r2.
Proof.
  intros H H1 H2. apply app_eq_inv in H as [(k & -> & E)|(k & -> & E)]; destruct k as [|y k]; cbn in E.
  - injection E as <-. by rewrite app_nil_r.
  - injection E as <- ->. exfalso. apply H2. apply elem_of_app. right. left.
  - injection E as <-. by rewrite app_nil_r.
  - injection E as <- ->. exfalso. apply H1. apply elem_of_app. right. left.
Qed.

(** *** The ids of a file *)

Section Info.
Context (r t a rest : chars).
Hypothesis (Hr : r <> []) (Ht : t <> []) (Ha : a <> []).
Hypothesis (Hrd : Forall (fun c => is_digit c = true) r) (Htd : Forall (fun c => is_digit c = true) t)
  (Had : Forall (fun c => is_hex c = true) a).

Definition core : chars := r ++ "-"%char :: t ++ "-"%char :: a.
Definition no_data (l : chars) : Prop := forall x y, l <> x ++ to_chars ".data" ++ y.

Lemma core_dot r' t' a' : Forall (fun c => is_digit c = true) r' -> Forall (fun c => is_digit c = true) t' ->
  Forall (fun c => is_hex c = true) a' -> "."%char ∉ r' ++ "-"%char :: t' ++ "-"%char :: a'.
Proof.
  intros H1 H2 H3. rewrite elem_of_app elem_of_cons elem_of_app elem_of_cons.
  intros [H|[H|[H|[H|H]]]]; try done; revert H; [apply (notin_class is_digit)|apply (notin_class is_digit)|apply (notin_class is_hex)]; done.
Qed.

Lemma core_groups r' t' a' n pre : Forall (fun c => is_digit c = true) t' -> Forall (fun c => is_hex c = true) a' ->
  n ++ r' ++ "-"%char :: t' ++ "-"%char :: a' = pre ++ core -> t' = t /\ a' = a.
Proof.
  intros Ht' Ha' H. unfold core in H.
  assert (H1 : (n ++ r' ++ "-"%char :: t') ++ "-"%char :: a' = (pre ++ r ++ "-"%char :: t) ++ "-"%char :: a).
  { repeat (rewrite -app_assoc; cbn [app]). exact H. }
  apply last_sep in H1 as [H1 ->]; [|by apply (notin_class is_hex)|by apply (notin_class is_hex)]. split; [|done].
  assert (H2 : (n ++ r') ++ "-"%char :: t' = (pre ++ r) ++ "-"%char :: t) by (rewrite -!app_assoc; exact H1).
  apply last_sep in H2 as [_ H2]; [done|by apply (notin_class is_digit)|by apply (notin_class is_digit)].
Qed.

(** Wherever a match starts, its thread is that of the first [.data]. *)
Lemma match_info_core pre r' t' a' : no_data pre -> match_info (pre ++ core ++ to_chars ".data" ++ rest) = Some (r', t', a') ->
  t' = t /\ a' = a.
Proof.
  intros Hpre H. apply match_info_Some in H as (n & r2 & H & Hn & Hr' & Hrd' & Htd' & Had').
  pose proof (core_dot r' t' a' Hrd' Htd' Had') as Hdot'. pose proof (core_dot r t a Hrd Htd Had : "."%char ∉ core) as Hdot.
  set (core' := r' ++ "-"%char :: t' ++ "-"%char :: a') in *.
  assert (H' : (pre ++ core) ++ to_chars ".data" ++ rest = (n ++ core') ++ to_chars ".data" ++ r2) by (rewrite -(app_assoc pre) -(app_assoc n); exact H).
  assert (Hend : n ++ core' = pre ++ core -> t' = t /\ a' = a) by (apply core_groups; done).
  apply app_eq_inv in H' as [(k & E & Hk)|(k & E & Hk)]; (destruct k as [|c k]; [rewrite app_nil_r in E; by apply Hend|]);
    cbn in Hk; injection Hk as <- Hk; exfalso; apply app_eq_inv in E as [(j & E & Ej)|(j & _ & Ej)].
  - (* the first [.data] would be in front *)
    destruct j as [|d j]; cbn in Ej; [apply Hdot; rewrite -Ej; left|]. injection Ej as <- ->. rewrite -app_assoc in Hk.
    change (to_chars "data" ++ r2 = j ++ core ++ to_chars ".data" ++ rest) in Hk.
    apply app_eq_inv in Hk as [(i & Ei & Hi)|(i & -> & _)]; [|by apply (Hpre (n ++ core') i); rewrite E].
    destruct i as [|d i]; [rewrite app_nil_r in Ei; subst j; by apply (Hpre (n ++ core') []); rewrite E|].
    unfold core in Hi. destruct r as [|d' r0]; [done|]. injection Hi as -> _. apply Forall_cons in Hrd as [Hd _].
    apply digit_facts in Hd as (_ & _ & _ & Hd). apply Hd. rewrite Ei. apply elem_of_app. right. left.
  - apply Hdot. rewrite Ej. apply elem_of_app. right. left.
  - destruct j as [|d j]; cbn in Ej; [apply Hdot'; rewrite -Ej; left|]. subst n. unfold core in Hn.
    destruct r as [|d' r0]; [done|]. apply Forall_cons in Hrd as [Hd _]. rewrite Forall_forall in Hn.
    rewrite (Hn d') in Hd; [|done]. repeat (apply elem_of_app; (left; apply elem_of_app; right; left) || left).
  - apply Hdot'. rewrite Ej. apply elem_of_app. right. left.
Qed.

Lemma find_info_core pre : no_data pre -> exists r', find_info (pre ++ core ++ to_chars ".data" ++ rest) = Some (r', t, a).
Proof.
  induction pre as [|c pre IH]; intros Hpre.
  - exists r. assert (E : match_info (core ++ to_chars ".data" ++ rest) = Some (r, t, a)).
    { unfold match_info, core. assert (exists d r0, r = d :: r0 /\ is_digit d = true) as (d & r0 & Er & Hd).
      { destruct r as [|d r0]; [done|]. exists d, r0. by apply Forall_cons in Hrd as [? _]. }
      assert (E0 : forall l, drop_while (fun c => negb (is_digit c)) (r ++ l) = r ++ l).
      { intros l. rewrite Er. unfold drop_while. cbn [app take_while]. by rewrite Hd. }
      repeat (rewrite -app_assoc; cbn [app]). rewrite E0.
      change (r ++ "-"%char :: t ++ "-"%char :: a ++ to_chars ".data" ++ rest)
        with (r ++ to_chars "-" ++ (t ++ to_chars "-" ++ (a ++ to_chars ".data" ++ rest))).
      rewrite (match_group_at is_digit "-" r _ "-"%char) // (match_group_at is_digit "-" t _ "-"%char) //.
      by rewrite (match_group_at is_hex ".data" a _ "."%char). }
    cbn [app]. by destruct (core ++ to_chars ".data" ++ rest); cbn [find_info]; rewrite E.
  - cbn [app find_info]. destruct (match_info (c :: _)) as [[[r' t'] a']|] eqn:E.
    + exists r'. by apply (match_info_core (c :: pre)) in E as [-> ->].
    + apply IH. intros x y Exy. apply (Hpre (c :: x) y). by rewrite Exy.
Qed.
End Info.

(** Whatever is in front of and behind the first sample file named in a path, without a
    [.data] in front, its thread and storage are found; a file copied from a remote host lies
    in a directory of its own name. *)
Lemma extractThreadInfo_first pre r t a rest : no_data pre -> r <> [] -> t <> [] -> a <> [] ->
  Forall (fun c => is_digit c = true) r -> Forall (fun c => is_digit c = true) t -> Forall (fun c => is_hex c = true) a ->
  extractThreadInfo (of_chars (pre ++ core r t a ++ to_chars ".data" ++ rest)) = (Some (of_chars t), Some (of_chars a)).
Proof.
  intros Hpre Hr Ht Ha Hrd Htd Had. unfold extractThreadInfo. rewrite to_of_chars.
  by destruct (find_info_core r t a rest Hr Ht Ha Hrd Htd Had pre Hpre) as [r' ->].
Qed.

(** *** Wildcards *)

Definition literal (c : ascii) : Prop := c ∉ to_chars "*?[".

Lemma glob_literal p q l f : Forall literal p -> glob (length p + f) (p ++ q) (p ++ l) = glob f q l.
Proof.
  induction 1 as [|c p Hc _ IH]; [done|]. cbn [length Nat.add app glob].
  assert (c <> "*"%char /\ c <> "?"%char /\ c <> "["%char) as (H1 & H2 & H3) by (revert Hc; unfold literal; cbn; set_solver).
  rewrite (proj2 (Ascii.eqb_neq _ _) H1) (proj2 (Ascii.eqb_neq _ _) H2) (proj2 (Ascii.eqb_neq _ _) H3) Ascii.eqb_refl. exact IH.
Qed.

Lemma glob_star x q l f : glob f q l = true -> glob (S (length x) + f) ("*"%char :: q) (x ++ l) = true.
Proof.
  intros H. induction x as [|c x IH]; cbn [length Nat.add app glob Ascii.eqb Bool.eqb]; [by rewrite H|].
  apply orb_true_iff. right. exact IH.
Qed.

Lemma glob_digit q c l f : is_digit c = true -> glob (S f) (to_chars "[0-9]" ++ q) (c :: l) = glob f q l.
Proof.
  intros Hc. cbn [to_chars String.list_ascii_of_string app glob Ascii.eqb Bool.eqb bracket_end bool_decide decide_rel andb negb rev].
  enough (in_set c (to_chars "0-9") = true) as E by (cbn in E |- *; by rewrite E).
  revert c Hc. unfold is_digit. intros c (d & Hd & ->%Ascii.eqb_eq)%existsb_exists. apply list_elem_of_In in Hd.
  revert d Hd. apply Forall_forall. repeat constructor.
Qed.

Lemma glob_exact p f : Forall literal p -> glob (length p + S f) p p = true.
Proof. intros Hp. by rewrite -{2 3}(app_nil_r p) glob_literal. Qed.

Lemma data_literal : Forall literal (to_chars ".data").
Proof. repeat constructor; unfold literal; by vm_compute; set_solver. Qed.

Lemma glob_live p x : Forall literal p ->
  glob (S (length (p ++ x ++ to_chars ".data") + length (p ++ to_chars "*.data"))) (p ++ to_chars "*.data") (p ++ x ++ to_chars ".data") = true.
Proof.
  intros Hp. rewrite !length_app. cbn [length to_chars String.list_ascii_of_string].
  replace (S _) with (length p + (S (length x) + (5 + S (length p + 5))))%nat by lia. rewrite glob_literal //.
  apply (glob_star x). apply (glob_exact (to_chars ".data")), data_literal.
Qed.

Lemma glob_dormant nm mid d post : Forall literal mid -> is_digit d = true ->
  let l := to_chars "xpedite-" ++ nm ++ mid ++ d :: post ++ to_chars ".data" in
  let p := to_chars "xpedite-" ++ "*"%char :: mid ++ to_chars "[0-9]" ++ "*"%char :: to_chars ".data" in
  glob (S (length l + length p)) p l = true.
Proof.
  intros Hmid Hd. cbv zeta. rewrite !(length_app, length_cons). cbn [length to_chars String.list_ascii_of_string].
  replace (S _) with (8 + (S (length nm) + (length mid + S (S (length post) + (5 + S (length mid + 18))))))%nat by lia.
  etransitivity; [apply (glob_literal (to_chars "xpedite-")); repeat constructor; unfold literal; by vm_compute; set_solver|].
  apply (glob_star nm). rewrite glob_literal //. etransitivity; [by apply glob_digit|]. apply (glob_star post).
  apply (glob_exact (to_chars ".data")), data_literal.
Qed.

(** *** Texts without [.data] *)

Lemma no_data_front a l : "."%char ∉ a -> no_data l -> no_data (a ++ l).
Proof.
  intros Ha Hl x y E. apply app_eq_inv in E as [(k & -> & E)|(k & -> & E)]; [|by apply (Hl k y)].
  destruct k as [|c k]; [by apply (Hl [] y)|]. injection E as <- _. apply Ha. apply elem_of_app. right. left.
Qed.

Lemma no_data_back l c : c <> "a"%char -> no_data l -> no_data (l ++ [c]).
Proof.
  intros Hc Hl x y E. destruct y as [|d y _] using rev_ind.
  - change (to_chars ".data" ++ []) with (to_chars ".dat" ++ ["a"%char]) in E. rewrite app_assoc in E.
    by apply app_inj_tail in E as [_ ->].
  - rewrite !app_assoc in E. apply app_inj_tail in E as [-> _]. apply (Hl x y). by rewrite -app_assoc.
Qed.

(** *** The files of a session *)

Lemma print_is_digits n : 0 <= n -> to_chars (print_int 10 n) <> [] /\ Forall (fun c => is_digit c = true) (to_chars (print_int 10 n)).
Proof.
  intros Hn. split; [by destruct (print_digits n Hn) as (-> & H & _)|].
  apply digit_forall; [done|]. apply (ten_digits (fun c => is_digit c = true)). by repeat constructor.
Qed.

Definition tls_str (tls : Z) : chars := let hex := print_nat 16 tls in replicate (16 - length hex) "0"%char ++ hex.

Lemma tls_hex tls : 0 <= tls -> tls_str tls <> [] /\ Forall (fun c => is_hex c = true) (tls_str tls).
Proof.
  intros Ht. destruct (print_nat_spec 16 tls) as (Hne & Hds & _); [lia|done|]. unfold tls_str. split.
  - by intros [_ ?]%app_eq_nil.
  - apply Forall_app. split; [by apply Forall_replicate|]. eapply Forall_impl; [exact Hds|]. intros c (d & -> & Hd).
    pose proof (digit_char_in d Hd) as Hin. unfold is_hex. apply existsb_exists. exists (digit_char d). split; [|apply Ascii.eqb_refl].
    apply list_elem_of_In. change (to_chars "0123456789abcdefABCDEF") with (to_chars "0123456789abcdef" ++ to_chars "ABCDEF").
    apply elem_of_app. by left.
Qed.

Lemma fnmatch_chars l p : fnmatch (of_chars l) (of_chars p) = glob (S (length l + length p)) p l.
Proof. unfold fnmatch. by rewrite !length_of_chars !to_of_chars. Qed.

Lemma shm_split b : "/"%char ∉ b -> dirname (of_chars (to_chars SAMPLES_DIR ++ b)) = "/dev/shm"%string /\
  basename (of_chars (to_chars SAMPLES_DIR ++ b)) = of_chars b.
Proof.
  intros Hb. change (to_chars SAMPLES_DIR ++ b) with (to_chars "/dev/shm" ++ "/"%char :: b). split; [|by apply basename_app].
  unfold dirname. rewrite to_of_chars last_slash_app //.
Qed.

(** Names of applications without wildcards, slashes and [.data]. *)
Definition plain_name (name : string) : Prop :=
  Forall literal (to_chars name) /\ "/"%char ∉ to_chars name /\ no_data (to_chars name).

Section Files.
Context (name : string) (runId : Z).
Hypothesis (Hname : plain_name name) (Hrun : 0 <= runId).

Definition session_prefix : chars := to_chars "xpedite-" ++ to_chars name ++ to_chars "-" ++ to_chars (print_int 10 runId) ++ to_chars "-".
Definition sample_name (x : Z * Z) : chars := session_prefix ++ tid_str x.1 x.2 ++ to_chars ".data".

Lemma digit_literal c : is_digit c = true -> literal c /\ c <> "/"%char.
Proof.
  unfold is_digit. intros (d & Hd & ->%Ascii.eqb_eq)%existsb_exists. apply list_elem_of_In in Hd.
  revert d Hd. apply Forall_forall. repeat constructor; try done; unfold literal; by vm_compute; set_solver.
Qed.

Lemma prefix_literal : Forall literal session_prefix.
Proof.
  destruct Hname as (Hl & _ & _). destruct (print_is_digits runId Hrun) as [_ Hd]. unfold session_prefix.
  repeat (apply Forall_app; split); try done; try (repeat constructor; unfold literal; by vm_compute; set_solver).
  eapply Forall_impl; [exact Hd|]. intros c Hc. by apply digit_literal.
Qed.

Lemma prefix_slash : "/"%char ∉ session_prefix.
Proof.
  destruct Hname as (_ & Hs & _). destruct (print_is_digits runId Hrun) as [_ Hd]. unfold session_prefix. rewrite !elem_of_app.
  intros [H|[H|[H|[H|H]]]]; try done; try (vm_compute in H; set_solver). by apply (notin_class is_digit) in H.
Qed.

Lemma live_pattern_eq : live_pattern name runId = of_chars (to_chars SAMPLES_DIR ++ session_prefix ++ to_chars "*.data").
Proof.
  unfold live_pattern, session_prefix. f_equal. rewrite -!app_assoc. done.
Qed.

Lemma sampled_path_eq tid tls :
  sampled_path (live_pattern name runId) tid tls = of_chars (to_chars SAMPLES_DIR ++ sample_name (tid, tls)).
Proof.
  rewrite live_pattern_eq. unfold sampled_path. rewrite to_of_chars app_assoc.
  change (to_chars "*.data") with ("*"%char :: to_chars ".data"). rewrite find_sub_char.
  - intros [H|H]%elem_of_app; [vm_compute in H; set_solver|]. pose proof prefix_literal as Hl. rewrite Forall_forall in Hl.
    apply (Hl _ H). left.
  - f_equal. rewrite take_app_length drop_past.
    unfold sample_name. by rewrite -!app_assoc.
Qed.

Lemma sample_name_slash x : 0 <= x.1 -> 0 <= x.2 -> "/"%char ∉ sample_name x.
Proof.
  intros H1 H2. unfold sample_name, tid_str. destruct (print_is_digits x.1 H1) as [_ Ht]. destruct (tls_hex x.2 H2) as [_ Ha].
  intros [H|[[H|[H|H]%elem_of_cons]%elem_of_app|H]%elem_of_app]%elem_of_app.
  - by apply prefix_slash.
  - by apply (notin_class is_digit) in H.
  - done.
  - by apply (notin_class is_hex) in H.
  - vm_compute in H. set_solver.
Qed.

Lemma prefix_no_data : no_data ((to_chars SAMPLES_DIR ++ to_chars "xpedite-") ++ to_chars name ++ ["-"%char]).
Proof. destruct Hname as (_ & _ & Hn). apply no_data_front; [vm_compute; set_solver|]. by apply no_data_back. Qed.

Lemma sampled_info tid tls : 0 <= tid -> 0 <= tls ->
  extractThreadInfo (sampled_path (live_pattern name runId) tid tls) = (Some (print_int 10 tid), Some (of_chars (tls_str tls))).
Proof.
  intros H1 H2. rewrite sampled_path_eq. destruct (print_is_digits runId Hrun) as [Hr Hrd]. destruct (print_is_digits tid H1) as [Ht Htd].
  destruct (tls_hex tls H2) as [Ha Had].
  pose proof (extractThreadInfo_first _ _ _ _ [] prefix_no_data Hr Ht Ha Hrd Htd Had) as E. rewrite of_to_chars in E. rewrite -E.
  f_equal. f_equal. unfold sample_name, session_prefix, core, tid_str, tls_str. cbn [fst snd].
  rewrite app_nil_r. repeat (rewrite -app_assoc; cbn [app]). done.
Qed.

Lemma live_split : dirname (live_pattern name runId) = "/dev/shm"%string /\
  basename (live_pattern name runId) = of_chars (session_prefix ++ to_chars "*.data").
Proof.
  rewrite live_pattern_eq. apply shm_split. intros [H|H]%elem_of_app; [by apply prefix_slash|]. vm_compute in H. set_solver.
Qed.

Lemma live_matches x : fnmatch (of_chars (sample_name x)) (basename (live_pattern name runId)) = true.
Proof.
  rewrite (proj2 live_split). rewrite fnmatch_chars. apply glob_live. exact prefix_literal.
Qed.

Lemma dormant_split : dirname (dormant_pattern runId) = "/dev/shm"%string /\
  basename (dormant_pattern runId) =
    of_chars (to_chars "xpedite-*-" ++ to_chars (print_int 10 runId) ++ to_chars "-[0-9]*.data").
Proof.
  apply (shm_split (to_chars "xpedite-*-" ++ to_chars (print_int 10 runId) ++ to_chars "-[0-9]*.data")).
  destruct (print_is_digits runId Hrun) as [_ Hd]. intros [H|[H|H]%elem_of_app]%elem_of_app; [vm_compute in H; set_solver| |vm_compute in H; set_solver].
  by apply (notin_class is_digit) in H.
Qed.

Lemma dormant_matches x : 0 <= x.1 -> fnmatch (of_chars (sample_name x)) (basename (dormant_pattern runId)) = true.
Proof.
  intros Hx. rewrite (proj2 dormant_split). rewrite fnmatch_chars.
  set (run := to_chars (print_int 10 runId)). set (nm := to_chars name).
  destruct (print_is_digits x.1 Hx) as [Hne Hd]. destruct (to_chars (print_int 10 x.1)) as [|d ds] eqn:Et; [done|].
  apply Forall_cons in Hd as [Hd _]. set (post := ds ++ "-"%char :: tls_str x.2).
  assert (E : sample_name x = to_chars "xpedite-" ++ nm ++ (to_chars "-" ++ run ++ to_chars "-") ++ d :: post ++ to_chars ".data").
  { unfold sample_name, session_prefix, tid_str. rewrite Et. repeat (rewrite -app_assoc; cbn [app]). done. }
  assert (Hmid : Forall literal (to_chars "-" ++ run ++ to_chars "-")).
  { destruct (print_is_digits runId Hrun) as [_ Hr]. apply Forall_app. split; [|apply Forall_app; split];
      try (repeat constructor; unfold literal; by vm_compute; set_solver).
    eapply Forall_impl; [exact Hr|]. intros c Hc. by apply digit_literal. }
  assert (Ep : to_chars "xpedite-*-" ++ run ++ to_chars "-[0-9]*.data" =
    to_chars "xpedite-" ++ "*"%char :: (to_chars "-" ++ run ++ to_chars "-") ++ to_chars "[0-9]" ++ "*"%char :: to_chars ".data").
  { repeat (rewrite -app_assoc; cbn [app]). done. }
  rewrite E Ep. exact (glob_dormant nm _ d post Hmid Hd).
Qed.
End Files.

Lemma nonempty_chars s : to_chars s <> [] -> nonempty s = true.
Proof. by destruct s. Qed.

(** What the process leaves of its threads, by their ids. *)
Definition session_file (name : string) (runId : Z) (x : Z * Z) : SampleFile string :=
  mkSampleFile _ (print_int 10 x.1) (of_chars (tls_str x.2)) (sampled_path (live_pattern name runId) x.1 x.2).

(** C40 (binary data sources): the profiler of a session, and a later one that knows the
    session's run id only, gather exactly the files the process wrote for its threads, each
    under the thread and storage it belongs to, from among other files of the directory. *)
Theorem binary_sources_roundtrip name runId (ls : string -> list string) threads others pattern :
  plain_name name -> 0 <= runId -> Forall (fun x : Z * Z => 0 <= x.1 /\ 0 <= x.2) threads ->
  pattern = live_pattern name runId \/ pattern = dormant_pattern runId ->
  ls "/dev/shm"%string ≡ₚ ((fun x => basename (sampled_path (live_pattern name runId) x.1 x.2)) <$> threads) ++ others ->
  Forall (fun n => hidden n = true \/ fnmatch n (basename pattern) = false) others ->
  exists files, gather_binary ls pattern = Ok files /\ files ≡ₚ session_file name runId <$> threads.
Proof.
  intros Hname Hrun Hth Hpat Hls Hoth.
  assert (Hdir : dirname pattern = "/dev/shm"%string).
  { destruct Hpat as [->| ->]; [exact (proj1 (live_split name runId Hname Hrun))|exact (proj1 (dormant_split name runId Hname Hrun))]. }
  rewrite Forall_forall in Hth.
  assert (Hpath : forall x, x ∈ threads ->
    let n := basename (sampled_path (live_pattern name runId) x.1 x.2) in
    n = of_chars (sample_name name runId x) /\ path_join "/dev/shm" n = sampled_path (live_pattern name runId) x.1 x.2).
  { intros x Hx. destruct (Hth x Hx) as [H1 H2]. rewrite sampled_path_eq //. cbv zeta.
    destruct x as [tid tls]. rewrite (proj2 (shm_split _ (sample_name_slash name runId Hname Hrun (tid, tls) H1 H2))). split; [done|].
    unfold path_join. rewrite to_of_chars. done. }
  set (wrote := fun x : Z * Z => basename (sampled_path (live_pattern name runId) x.1 x.2)) in *.
  set (keep := fun n => negb (hidden n) && fnmatch n (basename pattern) = true).
  assert (Hkeep : filter keep (ls (dirname pattern)) ≡ₚ wrote <$> threads).
  { rewrite Hdir Hls filter_app (filter_none keep others).
    { eapply Forall_impl; [exact Hoth|]. unfold keep. intros n [-> | ->]; [done|]. by rewrite andb_false_r. }
    rewrite app_nil_r filter_all //. apply Forall_fmap, Forall_forall. intros x Hx. destruct (Hth x Hx) as [H1 H2].
    unfold keep, compose, wrote. rewrite (proj1 (Hpath x Hx)) andb_true_iff. split; [reflexivity|].
    destruct Hpat as [->| ->]; [by apply live_matches|by apply (dormant_matches name)]. }
  destruct (Permutation_map_inv _ _ Hkeep) as (threads' & Hnames & Hperm).
  exists (session_file name runId <$> threads'). split; [|by rewrite Hperm].
  unfold gather_binary, gatherFiles. fold keep. rewrite Hnames Hdir -list_fmap_compose.
  replace (session_file name runId <$> threads') with
    ((fun p => match extractThreadInfo p with (Some a, Some b) => mkSampleFile _ a b p | _ => mkSampleFile _ "" "" p end) <$>
       ((path_join "/dev/shm" ∘ wrote) <$> threads')).
  - apply mmap_Ok_fmap, Forall_fmap, Forall_forall. intros x Hx%(elem_of_Permutation_proper _ _ _ Hperm).
    destruct (Hth x Hx) as [H1 H2]. unfold compose, wrote, sample_file. rewrite (proj2 (Hpath x Hx)) sampled_info //.
    destruct (print_is_digits x.1 H1) as [Hd _]. destruct (tls_hex x.2 H2) as [Ha _].
    rewrite (nonempty_chars _ Hd) nonempty_chars //. by rewrite to_of_chars.
  - rewrite -list_fmap_compose. apply list_fmap_ext. intros i x Hi%list_elem_of_lookup_2.
    apply (elem_of_Permutation_proper _ _ _ Hperm) in Hi. destruct (Hth x Hi) as [H1 H2].
    unfold compose, wrote, session_file. by rewrite (proj2 (Hpath x Hi)) sampled_info.
Qed.

(** *** Example: two threads, and files of others *)

Definition ex_src_threads : list (Z * Z) := [(4711, 139872); (4712, 255)].
Definition ex_src_ls (dir : string) : list string :=
  if String.eqb dir "/dev/shm" then
    [basename (sampled_path (live_pattern "app-2.1" 1637000000) 4712 255); "xpedite-app-2.1-1636999999-4711-0000000000022260.data";
     basename (sampled_path (live_pattern "app-2.1" 1637000000) 4711 139872); ".hidden"; "sem.x"]
  else [].

Lemma binary_sources_roundtrip_witness :
  gather_binary ex_src_ls (dormant_pattern 1637000000) =
    Ok [mkSampleFile _ "4712" "00000000000000ff" "/dev/shm/xpedite-app-2.1-1637000000-4712-00000000000000ff.data";
        mkSampleFile _ "4711" "0000000000022260" "/dev/shm/xpedite-app-2.1-1637000000-4711-0000000000022260.data"] /\
  exists files, gather_binary ex_src_ls (dormant_pattern 1637000000) = Ok files /\
    files ≡ₚ session_file "app-2.1" 1637000000 <$> ex_src_threads.
Proof.
  split; [vm_compute; reflexivity|].
  apply (binary_sources_roundtrip "app-2.1" 1637000000 ex_src_ls ex_src_threads
    ["xpedite-app-2.1-1636999999-4711-0000000000022260.data"; ".hidden"; "sem.x"] (dormant_pattern 1637000000)).
  - split_and!; [repeat constructor; unfold literal; by vm_compute; set_solver|by vm_compute; set_solver|].
    intros x y E. assert (H : find_sub (to_chars ".data") (to_chars "app-2.1") = None) by (vm_compute; reflexivity).
    apply (f_equal (find_sub (to_chars ".data"))) in E. destruct (find_sub_app (to_chars ".data") x y) as [i Hi].
    by rewrite H Hi in E.
  - lia.
  - repeat constructor; cbn; lia.
  - by right.
  - vm_compute. solve_Permutation.
  - repeat constructor; vm_compute; intuition congruence.
Defined.
