(* ===== verification/Storage.v ===== *)
(** * Benchmarks and data sources

    Models benchmark/info.py, benchmark/__init__.py, the csv data sources of
    types/dataSource.py and the repository factory of txn/repo.py: how a profile is stored
    as a benchmark, found again, and loaded for comparison.

    The file system is a tree; a path is the list of the names on it, and a text file the
    list of its lines.  The order of a directory's entries is arbitrary. *)

From Stdlib Require Import Ascii.
From S2P Require Import Prelude PyStr Ini Probe Route Txn Loader Records Timeline Analyze Pmu EventsDb Topdown.

(** ** The file system *)

Inductive FsNode := File (lines : list string) | Dir (entries : list (string * FsNode)).
Definition Path := list string.

Fixpoint at_path (t : FsNode) (p : Path) : option FsNode :=
  match p with
  | [] => Some t
  | n :: p => match t with Dir es => od_get String.eqb n es ≫= fun t => at_path t p | File _ => None end
  end.

(** The tree with a node at a path; missing directories are made. *)
Fixpoint put_path (p : Path) (x t : FsNode) : result FsNode :=
  match p with
  | [] => Ok x
  | n :: p =>
      match t with
      | File _ => Raise OSError_
      | Dir es => c ← put_path p x (default (Dir []) (od_get String.eqb n es)); Ok (Dir (od_set String.eqb n c es))
      end
  end.

Definition isdir (t : FsNode) (p : Path) : bool := match at_path t p with Some (Dir _) => true | _ => false end.
Definition isfile (t : FsNode) (p : Path) : bool := match at_path t p with Some (File _) => true | _ => false end.
Definition exists_path (t : FsNode) (p : Path) : bool := match at_path t p with Some _ => true | None => false end.
Definition listdir (t : FsNode) (p : Path) : result (list string) :=
  match at_path t p with Some (Dir es) => Ok (od_keys es) | _ => Raise OSError_ end.
Definition read_lines (t : FsNode) (p : Path) : result (list string) :=
  match at_path t p with Some (File ls) => Ok ls | _ => Raise OSError_ end.

(** Writing a text file: its directory exists. *)
Definition write_lines (p : Path) (lines : list string) (t : FsNode) : result FsNode :=
  if (isdir t (take (length p - 1) p) && negb (isdir t p))%bool then put_path p (File lines) t else Raise OSError_.

(** [util.mkdir] *)
Definition mkdir (p : Path) (t : FsNode) : result FsNode :=
  match at_path t p with
  | Some (Dir _) => Ok t
  | Some (File _) => Raise Exception_
  | None => put_path p (Dir []) t
  end.

(** The directories [next(os.walk(path))[1]]. *)
Definition subdirs (t : FsNode) (p : Path) : result (list string) :=
  match at_path t p with
  | Some (Dir es) => Ok (omap (fun e : string * FsNode => match e.2 with Dir _ => Some e.1 | File _ => None end) es)
  | _ => Raise OSError_
  end.

(** ** Data sources *)

Definition APPINFO_FILE_NAME : string := "appinfo.txt".
Definition CSV_FILE_WILDCARD : string := "samples-[0-9]*.csv".

Record DataSource := mkDataSource { appInfoPath : Path; files : list (SampleFile Path) }.

(** The group of the first match of [samples-(\d+)\.csv]. *)
Fixpoint csv_sequence (l : chars) : option chars :=
  let rest := drop 8 l in
  let digits := take_while is_digit rest in
  if (starts_with (to_chars "samples-") l && negb (bool_decide (digits = [])) &&
      starts_with (to_chars ".csv") (drop (length digits) rest))%bool then Some digits
  else match l with [] => None | _ :: l => csv_sequence l end.

Definition orderByName (fileName : string) : result Z :=
  match csv_sequence (to_chars fileName) with Some ds => py_int 10 (of_chars ds) | None => Raise RuntimeError_ end.

(** The sample files of a thread's directory, in order. *)
Definition thread_files (dirPath : Path) (tid tls : string) (es : list (string * FsNode)) : result (list (SampleFile Path)) :=
  keyed ← mmap (fun n => k ← orderByName n; Ok (k, n))
            (filter (fun n => fnmatch n CSV_FILE_WILDCARD = true) (od_keys es));
  Ok ((fun kn : Z * string => mkSampleFile Path tid tls (dirPath ++ [kn.2])) <$> py_sort (key_leb fst) keyed).

Definition gather_thread (t : FsNode) (path : Path) (acc : list (SampleFile Path)) (threadInfo : string)
    : result (list (SampleFile Path)) :=
  match py_split "-" threadInfo with
  | tid :: tls :: _ =>
      match at_path t (path ++ [threadInfo]) with
      | Some (Dir es) => fs ← thread_files (path ++ [threadInfo]) tid tls es; Ok (acc ++ fs)
      | _ => Ok acc
      end
  | _ => Raise Exception_
  end.

(** [CsvDataSourceFactory._gatherSampleFiles]. *)
Definition gatherSampleFiles (t : FsNode) (path : Path) : result (list (SampleFile Path)) :=
  names ← listdir t path;
  mfor (gather_thread t path) [] (py_sort str_leb names).

(** [CsvDataSourceFactory.gather]: no data source without an info file, or with several
    directories. *)
Definition gather (t : FsNode) (path : Path) : result (option DataSource) :=
  if isfile t (path ++ [APPINFO_FILE_NAME]) then
    directories ← subdirs t path;
    match directories with
    | _ :: _ :: _ => Ok None
    | _ =>
        d ← py_nth directories 0;
        fs ← gatherSampleFiles t (path ++ [d]);
        Ok (Some (mkDataSource (path ++ [APPINFO_FILE_NAME]) fs))
    end
  else Ok None.

(** ** The info file of a benchmark *)

Definition BENCHMARK_FILE_NAME : string := ".benchmark".
Definition BENCHMARK_SECTION : string := "info".
Definition BENCHMARK_NAME_KEY : string := "name".
Definition BENCHMARK_LEGEND_KEY : string := "legend".
Definition BENCHMARK_CPU_INFO_SECTION : string := "cpuInfo".
Definition BENCHMARK_CPU_ID_KEY : string := "id".
Definition BENCHMARK_CPU_FREQUENCY_KEY : string := "frequency".
Definition BENCHMARK_PMC_SECTION : string := "pmc".
Definition BENCHMARK_PMC_COUNTER_COUNT : string := "counterCount".
Definition BENCHMARK_PMC_COUNTER (i : nat) : string := String.append "counter#" (print_int 10 (Z.of_nat i)).

Definition py_bool_str (b : bool) : string := if b then "True" else "False".
Definition event_text (e : Event) : string :=
  py_join "," [ename e; uarchName e; py_bool_str (euser e); py_bool_str (ekernel e)].

Section Benchmarks.
Context {F : Type} {HF : PyFloat F}.

(** The options of the events. *)
Definition set_counters (events : list Event) (c : Ini) : result Ini :=
  mfor (fun c (ie : nat * Event) => set_option BENCHMARK_PMC_SECTION (BENCHMARK_PMC_COUNTER ie.1) (event_text ie.2) c)
    c (zip (seq 0 (length events)) events).

(** The text [makeBenchmarkInfo] writes; [today] is the date. *)
Definition benchmark_ini (benchmarkName today : string) (cpu : CpuInfo F) (events : list Event) : result Ini :=
  c ← add_section BENCHMARK_SECTION [];
  c ← set_option BENCHMARK_SECTION BENCHMARK_NAME_KEY benchmarkName c;
  c ← set_option BENCHMARK_SECTION BENCHMARK_LEGEND_KEY
        (String.append benchmarkName (String.append " run at " today)) c;
  c ← add_section BENCHMARK_CPU_INFO_SECTION c;
  c ← set_option BENCHMARK_CPU_INFO_SECTION BENCHMARK_CPU_ID_KEY (cpuId cpu) c;
  c ← set_option BENCHMARK_CPU_INFO_SECTION BENCHMARK_CPU_FREQUENCY_KEY (print_int 10 (frequency cpu)) c;
  match events with
  | [] => Ok c
  | _ =>
      c ← add_section BENCHMARK_PMC_SECTION c;
      c ← set_option BENCHMARK_PMC_SECTION BENCHMARK_PMC_COUNTER_COUNT (print_int 10 (Z.of_nat (length events))) c;
      set_counters events c
  end.

Definition makeBenchmarkInfo (benchmarkName today : string) (path : Path) (cpu : CpuInfo F) (events : list Event)
    (t : FsNode) : result FsNode :=
  c ← benchmark_ini benchmarkName today cpu events;
  write_lines (path ++ [BENCHMARK_FILE_NAME]) (write_ini c) t.

(** A stored event: [bool] of a text is whether it is empty. *)
Definition load_event (c : Ini) (i : nat) : result Event :=
  eventStr ← get_option BENCHMARK_PMC_SECTION (BENCHMARK_PMC_COUNTER i) c;
  let eventFields := py_split "," eventStr in
  n ← py_nth eventFields 0; u ← py_nth eventFields 1; us ← py_nth eventFields 2; k ← py_nth eventFields 3;
  Ok (mkEvent n u (nonempty us) (nonempty k)).

Record Benchmark := mkBenchmark {
  bm_name : string; bm_cpuInfo : CpuInfo F; bm_path : Path; bm_legend : string;
  bm_events : option (list Event); bm_dataSource : option DataSource
}.

Definition parse_benchmark (path : Path) (c : Ini) : result (option Benchmark) :=
  benchmarkName ← get_option BENCHMARK_SECTION BENCHMARK_NAME_KEY c;
  legend ← get_option BENCHMARK_SECTION BENCHMARK_LEGEND_KEY c;
  if negb (has_section BENCHMARK_CPU_INFO_SECTION c) then Ok None
  else
    id ← get_option BENCHMARK_CPU_INFO_SECTION BENCHMARK_CPU_ID_KEY c;
    cpuFrequency ← get_option BENCHMARK_CPU_INFO_SECTION BENCHMARK_CPU_FREQUENCY_KEY c;
    freq ← py_int 10 cpuFrequency;
    events ← (if has_option BENCHMARK_PMC_SECTION BENCHMARK_PMC_COUNTER_COUNT c then
                n ← (s ← get_option BENCHMARK_PMC_SECTION BENCHMARK_PMC_COUNTER_COUNT c; py_int 10 s);
                es ← mmap (load_event c) (seq 0 (Z.to_nat n)); Ok (Some es)
              else Ok None);
    Ok (Some (mkBenchmark benchmarkName (CpuInfo_init id freq) path legend events None)).

(** [loadBenchmarkInfo]. *)
Definition loadBenchmarkInfo (t : FsNode) (path : Path) : result (option Benchmark) :=
  match at_path t (path ++ [BENCHMARK_FILE_NAME]) with
  | None => Ok None
  | Some (File lines) => c ← read_ini lines; parse_benchmark path c
  | Some (Dir _) => parse_benchmark path []
  end.

(** ** Making a benchmark *)

Definition BENCHMARK_DIR_NAME : string := "benchmark".

Definition makeSampleFilePath (path : Path) (tid tls : string) (t : FsNode) : result (Path * FsNode) :=
  let p := path ++ [String.append tid (String.append "-" tls)] in
  t ← mkdir p t; Ok (p ++ ["samples-0000.csv"%string], t).

(** What the native library makes of a binary sample file. *)
Context (saveAsCsv : Path -> FsNode -> result (list string)).

Definition store_samples (path : Path) (t : FsNode) (f : SampleFile Path) : result FsNode :=
  '(p, t) ← makeSampleFilePath path (sf_threadId _ f) (sf_tlsAddr _ f) t;
  lines ← saveAsCsv (sf_contents _ f) t;
  write_lines p lines t.

(** [makeBenchmark]: the parts of the profiles it uses are arguments. *)
Definition makeBenchmark (today : string) (current : DataSource) (cpu : option (CpuInfo F)) (events : list Event)
    (path : Path) (t : FsNode) : result FsNode :=
  let benchmarkName := default "" (last path) in
  let path := path ++ [BENCHMARK_DIR_NAME] in
  if exists_path t path then Raise Exception_
  else
    t ← mfor (store_samples path) t (files current);
    info ← read_lines t (appInfoPath current);
    t ← write_lines (path ++ [APPINFO_FILE_NAME]) info t;
    cpu ← or_raise AttributeError_ cpu;
    makeBenchmarkInfo benchmarkName today path cpu events t.

(** ** Finding benchmarks *)

(** One path of [gatherBenchmarks]. *)
Definition gather_one (t : FsNode) (path : Path) : result (option Benchmark) :=
  let benchmarkPath := path ++ [BENCHMARK_DIR_NAME] in
  info ← loadBenchmarkInfo t benchmarkPath;
  match info with
  | None => Ok None
  | Some b =>
      ds ← gather t benchmarkPath;
      Ok (match ds with
          | Some d => Some (mkBenchmark (bm_name b) (bm_cpuInfo b) (bm_path b) (bm_legend b) (bm_events b) (Some d))
          | None => None
          end)
  end.

Fixpoint gather_loop (t : FsNode) (count : nat) (benchmarks : list Benchmark) (paths : list Path) : result (list Benchmark) :=
  match paths with
  | [] => Ok benchmarks
  | path :: paths =>
      if isdir t (path ++ [BENCHMARK_DIR_NAME]) then
        o ← gather_one t path;
        let benchmarks := match o with Some b => benchmarks ++ [b] | None => benchmarks end in
        if (count <=? length benchmarks)%nat then Ok benchmarks else gather_loop t count benchmarks paths
      else gather_loop t count benchmarks paths
  end.
Definition gatherBenchmarks (t : FsNode) (benchmarkPaths : list Path) (count : nat) : result (list Benchmark) :=
  gather_loop t count [] benchmarkPaths.
End Benchmarks.

(** ** Paths *)

Lemma put_path_get p x t t' : put_path p x t = Ok t' -> at_path t' p = Some x.
Proof.
  revert t t'. induction p as [|n p IH]; intros t t' H; cbn in H; [by injection H as <-|].
  destruct t as [|es]; [done|]. apply bind_Ok in H as (c & H & [= <-]). cbn [at_path].
  rewrite od_get_set_same ?String.eqb_refl //. cbn. exact (IH _ _ H).
Qed.

(** Putting below a path replaces the node there. *)
Lemma put_path_app p q x t t' : put_path (p ++ q) x t = Ok t' ->
  exists c, put_path q x (default (Dir []) (at_path t p)) = Ok c /\ put_path p c t = Ok t'.
Proof.
  revert t t'. induction p as [|n p IH]; intros t t' H; cbn [app] in H; [by exists t'|].
  cbn [put_path] in H. destruct t as [|es]; [done|]. apply bind_Ok in H as (c & H & [= <-]).
  destruct (IH _ _ H) as (c' & H1 & H2). exists c'. cbn [at_path put_path]. rewrite H2. cbn [mbind result_bind]. split; [|done].
  destruct (od_get String.eqb n es) as [u|]; [done|]. cbn [default option_bind mbind]. by destruct p.
Qed.

Lemma put_path_at p q x t t' : put_path (p ++ q) x t = Ok t' ->
  exists c, put_path q x (default (Dir []) (at_path t p)) = Ok c /\ at_path t' p = Some c.
Proof. intros H. destruct (put_path_app p q x t t' H) as (c & H1 & H2). exists c. split; [done|exact (put_path_get _ _ _ _ H2)]. Qed.

Lemma at_path_app t p q : at_path t (p ++ q) = at_path t p ≫= fun u => at_path u q.
Proof.
  revert t. induction p as [|n p IH]; intros t; [done|]. cbn [app at_path]. destruct t as [|es]; [done|].
  destruct (od_get String.eqb n es); [apply IH|done].
Qed.

Lemma write_lines_at p q ls t t' : q <> [] -> write_lines (p ++ q) ls t = Ok t' ->
  exists c, put_path q (File ls) (default (Dir []) (at_path t p)) = Ok c /\ at_path t' p = Some c /\ 
    isdir t (p ++ take (length q - 1) q) = true.
Proof.
  intros Hq. unfold write_lines. rewrite length_app. destruct (_ && _)%bool eqn:E; [|done]. apply andb_true_iff in E as [E _].
  intros H. destruct (put_path_at p q _ t t' H) as (c & H1 & H2). exists c. split_and!; [done|done|].
  rewrite take_app_ge in E; [destruct q; [done|]; cbn; lia|].
  replace (length p + length q - 1 - length p)%nat with (length q - 1)%nat in E by lia. exact E.
Qed.

(** ** Round trip of the info file *)

Lemma lower_digit d : 0 <= d < 10 -> lower_char (digit_char d) = digit_char d.
Proof.
  intros Hd. assert (d = 0 \/ d = 1 \/ d = 2 \/ d = 3 \/ d = 4 \/ d = 5 \/ d = 6 \/ d = 7 \/ d = 8 \/ d = 9) as H by lia.
  repeat destruct H as [->|H]; try reflexivity. by subst.
Qed.

Lemma counter_key i : py_lower (BENCHMARK_PMC_COUNTER i) = BENCHMARK_PMC_COUNTER i /\ plain_key (BENCHMARK_PMC_COUNTER i).
Proof.
  unfold BENCHMARK_PMC_COUNTER. set (n := Z.of_nat i). assert (Hn : 0 <= n) by lia. clearbody n.
  assert (Hlow : py_lower (String.append "counter#" (print_int 10 n)) = String.append "counter#" (print_int 10 n)).
  { unfold py_lower. rewrite -{2}(of_to_chars (String.append "counter#" (print_int 10 n))). f_equal.
    rewrite chars_append fmap_app. f_equal. rewrite -{2}(list_fmap_id (to_chars (print_int 10 n))).
    apply Forall_fmap_ext, (digit_forall (fun c => lower_char c = id c)); [done|]. intros d Hd. by apply lower_digit. }
  split; [done|]. split; [done|]. rewrite chars_append. split_and!; [split|done| | |done].
  - by intros c [= <-].
  - intros c. rewrite last_app. destruct (last (to_chars (print_int 10 n))) as [x|] eqn:E; [|by intros [= <-]].
    intros [= <-]. assert (HF' : Forall (fun c => is_space c = false) (to_chars (print_int 10 n))).
    { apply digit_forall; [done|]. apply (ten_digits (fun c => is_space c = false)). by vm_compute; repeat constructor. }
    rewrite Forall_forall in HF'. apply HF'. apply last_Some in E as [l ->]. apply elem_of_app. right. left.
  - apply Forall_app. split; [by repeat constructor|]. apply digit_forall; [done|].
    apply (ten_digits (fun c => c <> "="%char /\ c <> ":"%char)). by vm_compute; repeat constructor.
  - done.
Qed.

(** The options of the counters, from index [k] on. *)
Definition counter_options (k : nat) (events : list Event) : list (string * string) :=
  (fun ie : nat * Event => (BENCHMARK_PMC_COUNTER ie.1, event_text ie.2)) <$> zip (seq k (length events)) events.

Lemma counter_key_inj i j : BENCHMARK_PMC_COUNTER i = BENCHMARK_PMC_COUNTER j -> i = j.
Proof.
  unfold BENCHMARK_PMC_COUNTER. intros E. apply (f_equal to_chars) in E. rewrite !chars_append in E. apply app_inv_head in E.
  assert (print_int 10 (Z.of_nat i) = print_int 10 (Z.of_nat j)) as E'
    by (by rewrite -(of_to_chars (print_int 10 (Z.of_nat i))) E of_to_chars).
  apply print_int_inj in E'; lia.
Qed.

Lemma counter_key_count i : BENCHMARK_PMC_COUNTER i <> "countercount"%string.
Proof. unfold BENCHMARK_PMC_COUNTER. intros E. apply (f_equal to_chars) in E. by rewrite chars_append in E. Qed.

Lemma counter_options_get k events i : od_get String.eqb (BENCHMARK_PMC_COUNTER (k + i)) (counter_options k events) = event_text <$> events !! i.
Proof.
  revert k i. induction events as [|e events IH]; intros k i; [done|]. unfold counter_options in *. cbn [length seq zip zip_with fmap list_fmap od_get fst snd].
  destruct (String.eqb_spec (BENCHMARK_PMC_COUNTER (k + i)) (BENCHMARK_PMC_COUNTER k)) as [E|Hne].
  - apply counter_key_inj in E. assert (i = 0%nat) as -> by lia. done.
  - destruct i as [|i]; [by rewrite Nat.add_0_r in Hne|]. specialize (IH (S k) i). by rewrite -Nat.add_succ_comm IH.
Qed.

Lemma counter_options_keys k events : (counter_options k events).*1 = BENCHMARK_PMC_COUNTER <$> seq k (length events).
Proof.
  unfold counter_options. revert k. induction events as [|e events IH]; intros k; [done|]. cbn. by rewrite IH.
Qed.

Lemma put_counters (a b : list (string * string)) opts k events :
  (forall i, (k <= i)%nat -> BENCHMARK_PMC_COUNTER i ∉ opts.*1) ->
  mfor (fun c (ie : nat * Event) => set_option BENCHMARK_PMC_SECTION (BENCHMARK_PMC_COUNTER ie.1) (event_text ie.2) c)
    [(BENCHMARK_SECTION, a); (BENCHMARK_CPU_INFO_SECTION, b); (BENCHMARK_PMC_SECTION, opts)] (zip (seq k (length events)) events) =
  Ok [(BENCHMARK_SECTION, a); (BENCHMARK_CPU_INFO_SECTION, b); (BENCHMARK_PMC_SECTION, opts ++ counter_options k events)].
Proof.
  revert opts k. induction events as [|e events IH]; intros opts k Hk; [by rewrite app_nil_r|].
  cbn [length seq zip zip_with mfor fst snd].
  assert (set_option BENCHMARK_PMC_SECTION (BENCHMARK_PMC_COUNTER k) (event_text e)
    [(BENCHMARK_SECTION, a); (BENCHMARK_CPU_INFO_SECTION, b); (BENCHMARK_PMC_SECTION, opts)] =
    Ok [(BENCHMARK_SECTION, a); (BENCHMARK_CPU_INFO_SECTION, b); (BENCHMARK_PMC_SECTION, opts ++ [(BENCHMARK_PMC_COUNTER k, event_text e)])]) as ->.
  { unfold set_option. rewrite (proj1 (counter_key k)). cbn [od_mem od_get String.eqb Ascii.eqb Bool.eqb od_alter]. do 4 f_equal.
    cbn. do 4 f_equal. rewrite od_set_fresh; [|done]. apply od_get_None. apply Forall_forall. intros k' Hk'. apply String.eqb_neq.
    intros <-. exact (Hk k (le_n k) Hk'). }
  cbn [mbind result_bind]. rewrite IH.
  - intros i Hi. rewrite fmap_app elem_of_app. intros [H|H]; [exact (Hk i ltac:(lia) H)|]. apply list_elem_of_singleton in H. apply counter_key_inj in H. lia.
  - by rewrite -app_assoc.
Qed.

(** A word of the info file: no blank at its ends, no line end. *)
Definition word (s : string) : Prop := s <> ""%string /\ plain_value s.

(** An event whose names can be told apart in the list of its fields. *)
Definition storable_event (e : Event) : Prop :=
  "010"%char ∉ to_chars (ename e) /\ "010"%char ∉ to_chars (uarchName e) /\
  ","%char ∉ to_chars (ename e) /\ ","%char ∉ to_chars (uarchName e) /\
  (forall c, head (to_chars (ename e)) = Some c -> is_space c = false).

Lemma word_append s mid t : word s -> "010"%char ∉ to_chars mid -> word t -> plain_value (String.append s (String.append mid t)).
Proof.
  intros [Hs [[Hsh _] Hsn]] Hm [Ht [[_ Htl] Htn]]. unfold plain_value. rewrite !chars_append. split; [split|].
  - destruct (to_chars s) as [|c l] eqn:E; [by apply chars_nil in E|]. exact Hsh.
  - intros c. rewrite !last_app. destruct (last (to_chars t)) as [d|] eqn:E; [intros [= <-]; by apply Htl|].
    apply last_None in E. by apply chars_nil in E.
  - by rewrite !not_elem_of_app.
Qed.

Lemma digits_plain n : 0 <= n -> plain_value (print_int 10 n).
Proof.
  intros Hn.
  assert (HF : Forall (fun c => is_space c = false /\ "010"%char <> c) (to_chars (print_int 10 n))).
  { apply digit_forall; [done|]. apply (ten_digits (fun c => is_space c = false /\ "010"%char <> c)). by repeat constructor. }
  rewrite Forall_forall in HF. split; [split|].
  - intros c Hc. apply HF. destruct (to_chars (print_int 10 n)); [done|]. injection Hc as ->. left.
  - intros c Hc. apply HF. apply last_Some in Hc as [l ->]. apply elem_of_app. right. left.
  - intros Hin. by destruct (HF _ Hin) as [_ []].
Qed.

Lemma event_text_chars e : to_chars (event_text e) =
  to_chars (ename e) ++ ","%char :: to_chars (uarchName e) ++ ","%char :: to_chars (py_bool_str (euser e)) ++
  ","%char :: to_chars (py_bool_str (ekernel e)).
Proof. unfold event_text, py_join. rewrite to_of_chars. reflexivity. Qed.

Lemma event_text_plain e : storable_event e -> plain_value (event_text e).
Proof.
  intros (H1 & H2 & _ & _ & Hh). unfold plain_value. rewrite event_text_chars. split; [split|].
  - destruct (to_chars (ename e)) as [|c l]; [by intros c [= <-]|exact Hh].
  - intros c. rewrite last_app last_cons last_app last_cons last_app last_cons. destruct (ekernel e); cbn; by intros [= <-].
  - rewrite !not_elem_of_app !not_elem_of_cons !not_elem_of_app !not_elem_of_cons !not_elem_of_app !not_elem_of_cons.
    destruct (euser e), (ekernel e); split_and!; try done; by vm_compute; set_solver.
Qed.

Lemma event_text_fields e : storable_event e ->
  py_split "," (event_text e) = [ename e; uarchName e; py_bool_str (euser e); py_bool_str (ekernel e)].
Proof.
  intros (_ & _ & H1 & H2 & _). unfold py_split, event_text, py_join. rewrite to_of_chars.
  change (to_chars ",") with [","%char]. rewrite split_join_char; [done| |].
  - cbn [fmap list_fmap]. repeat apply Forall_cons_2; try apply Forall_nil_2; try done; [destruct (euser e)|destruct (ekernel e)]; by vm_compute; set_solver.
  - cbn [fmap list_fmap]. by rewrite !of_to_chars.
Qed.

Section InfoFile.
Context {F : Type} {HF : PyFloat F}.

Definition legend_of (name today : string) : string := String.append name (String.append " run at " today).

(** The options of the info file. *)
Definition info_sections (name today : string) (cpu : CpuInfo F) (events : list Event) : Ini :=
  [(BENCHMARK_SECTION, [("name"%string, name); ("legend"%string, legend_of name today)]);
   (BENCHMARK_CPU_INFO_SECTION, [("id"%string, cpuId cpu); ("frequency"%string, print_int 10 (frequency cpu))])] ++
  match events with
  | [] => []
  | _ => [(BENCHMARK_PMC_SECTION, ("countercount"%string, print_int 10 (Z.of_nat (length events))) :: counter_options 0 events)]
  end.

Lemma benchmark_ini_value name today cpu events : benchmark_ini name today cpu events = Ok (info_sections name today cpu events).
Proof.
  destruct events as [|e events]; [reflexivity|]. set (es := e :: events).
  transitivity (set_counters es
    [(BENCHMARK_SECTION, [("name"%string, name); ("legend"%string, legend_of name today)]);
     (BENCHMARK_CPU_INFO_SECTION, [("id"%string, cpuId cpu); ("frequency"%string, print_int 10 (frequency cpu))]);
     (BENCHMARK_PMC_SECTION, [("countercount"%string, print_int 10 (Z.of_nat (length es)))])]); [reflexivity|].
  unfold set_counters, info_sections.
  rewrite put_counters; [|done]. intros i _ H. apply list_elem_of_singleton in H. by apply counter_key_count in H.
Qed.

Lemma info_sections_plain name today (cpu : CpuInfo F) events : word name -> word today -> plain_value (cpuId cpu) -> 0 <= frequency cpu ->
  Forall storable_event events -> Forall plain_section (info_sections name today cpu events) /\ NoDup (info_sections name today cpu events).*1.
Proof.
  intros Hn Ht Hid Hf Hev. unfold info_sections.
  assert (Hk : forall k, k ∈ ["name"; "legend"; "id"; "frequency"; "countercount"]%string -> plain_key k).
  { intros k Hk. rewrite !elem_of_cons in Hk. repeat destruct Hk as [->|Hk]; [..|by apply elem_of_nil in Hk];
      (split; [reflexivity|split; [split; by intros c [= <-]|split; [done|split; [by repeat constructor|done]]]]). }
  split.
  - apply Forall_app. split; [apply Forall_cons_2; [|apply Forall_cons_2; [|apply Forall_nil_2]]|].
    + split; [done|]. split; [by vm_compute; set_solver|]. split; [by apply (bool_decide_unpack _); vm_compute|].
      repeat apply Forall_cons_2; try apply Forall_nil_2; (split; [apply Hk; set_solver|]); cbn [fst snd].
      * apply Hn.
      * apply word_append; [done|by vm_compute; set_solver|done].
    + split; [done|]. split; [by vm_compute; set_solver|]. split; [by apply (bool_decide_unpack _); vm_compute|].
      repeat apply Forall_cons_2; try apply Forall_nil_2; (split; [apply Hk; set_solver|]); cbn [fst snd]; [done|by apply digits_plain].
    + destruct events as [|e events]; [apply Forall_nil_2|]. set (es := e :: events) in *. clearbody es.
      apply Forall_cons_2; [|apply Forall_nil_2]. split; [done|]. split; [by vm_compute; set_solver|]. cbn [fst snd]. split.
      * cbn [fmap list_fmap fst]. rewrite counter_options_keys. apply NoDup_cons. split.
        { intros H. apply list_elem_of_fmap in H as (i & E & _). by apply eq_sym, counter_key_count in E. }
        apply NoDup_fmap_2_strong; [|apply NoDup_seq]. intros i j _ _. apply counter_key_inj.
      * apply Forall_cons_2; [split; [apply Hk; set_solver|apply digits_plain; lia]|]. unfold counter_options. apply Forall_fmap, Forall_forall.
        intros [i e'] Hin. unfold compose. cbn [fst snd]. split; [apply counter_key|]. apply event_text_plain.
        rewrite Forall_forall in Hev. apply Hev. by apply elem_of_zip_r in Hin.
  - apply (bool_decide_unpack _). destruct events; by vm_compute.
Qed.

Lemma load_events events c : od_get String.eqb BENCHMARK_PMC_SECTION c =
    Some (("countercount"%string, print_int 10 (Z.of_nat (length events))) :: counter_options 0 events) ->
  Forall storable_event events ->
  mmap (load_event c) (seq 0 (length events)) = Ok ((fun e => mkEvent (ename e) (uarchName e) true true) <$> events).
Proof.
  intros Hc Hev.
  assert (H : forall i e, events !! i = Some e -> load_event c i = Ok (mkEvent (ename e) (uarchName e) true true)).
  { intros i e He. unfold load_event, get_option. rewrite Hc. cbn [or_raise mbind result_bind]. rewrite (proj1 (counter_key i)). cbn [od_get].
    rewrite (proj2 (String.eqb_neq _ _) (counter_key_count i)). rewrite -{1}(Nat.add_0_l i) counter_options_get He.
    cbn [fmap option_fmap option_map or_raise mbind result_bind]. rewrite event_text_fields; [rewrite Forall_forall in Hev; by apply Hev, (list_elem_of_lookup_2 _ i)|].
    by destruct e as [n u [] []]. }
  assert (G : forall k, (forall i e, events !! i = Some e -> load_event c (k + i) = Ok (mkEvent (ename e) (uarchName e) true true)) ->
    mmap (load_event c) (seq k (length events)) = Ok ((fun e => mkEvent (ename e) (uarchName e) true true) <$> events)); [|by apply (G 0%nat)].
  clear H Hc Hev. induction events as [|e events IH]; intros k Hk; [done|]. cbn [length seq mmap].
  pose proof (Hk 0%nat e eq_refl) as H0. rewrite Nat.add_0_r in H0. rewrite H0. cbn [mbind result_bind].
  rewrite IH; [|done]. intros i e' He'. rewrite Nat.add_succ_comm. by apply Hk.
Qed.

Lemma info_round_trip name today path (cpu : CpuInfo F) events t t' :
  word name -> word today -> plain_value (cpuId cpu) -> 0 <= frequency cpu -> Forall storable_event events ->
  makeBenchmarkInfo name today path cpu events t = Ok t' ->
  loadBenchmarkInfo t' path = Ok (Some (mkBenchmark name (CpuInfo_init (cpuId cpu) (frequency cpu)) path (legend_of name today)
    (match events with [] => None | _ => Some ((fun e => mkEvent (ename e) (uarchName e) true true) <$> events) end) None)).
Proof.
  intros Hn Ht Hid Hf Hev. unfold makeBenchmarkInfo. rewrite benchmark_ini_value. cbn [mbind result_bind]. unfold write_lines.
  destruct (_ && _)%bool; [|done]. intros H. unfold loadBenchmarkInfo. rewrite (put_path_get _ _ _ _ H).
  destruct (info_sections_plain name today cpu events Hn Ht Hid Hf Hev) as [Hp Hnd]. rewrite read_write_ini //.
  cbn [mbind result_bind]. destruct (py_int_print 10 (frequency cpu) ltac:(lia) Hf) as [Hfr _].
  set (c := info_sections name today cpu events) in *.
  transitivity (freq ← py_int 10 (print_int 10 (frequency cpu));
    evs ← (match events with
           | [] => Ok None
           | _ => n ← py_int 10 (print_int 10 (Z.of_nat (length events)));
                  es ← mmap (load_event c) (seq 0 (Z.to_nat n)); Ok (Some es)
           end);
    Ok (Some (mkBenchmark name (CpuInfo_init (cpuId cpu) freq) path (legend_of name today) evs None))).
  { unfold c. destruct events; reflexivity. }
  rewrite Hfr. cbn [mbind result_bind]. destruct events as [|e events]; [done|].
  destruct (py_int_print 10 (Z.of_nat (length (e :: events))) ltac:(lia) ltac:(lia)) as [-> _]. cbn [mbind result_bind].
  rewrite Nat2Z.id (load_events (e :: events) c) //.
Qed.

(** The info file of a benchmark gives back the name, the processor, the
    legend and the events that were stored, in order; only the flags of the events do not
    survive: every stored event comes back as counting in user and kernel mode. *)
Theorem benchmark_info_roundtrip name today path (cpu : CpuInfo F) events t t' :
  word name -> word today -> plain_value (cpuId cpu) -> 0 <= frequency cpu -> Forall storable_event events ->
  makeBenchmarkInfo name today path cpu events t = Ok t' ->
  loadBenchmarkInfo t' path = Ok (Some (mkBenchmark name (CpuInfo_init (cpuId cpu) (frequency cpu)) path (legend_of name today)
    (match events with [] => None | _ => Some ((fun e => mkEvent (ename e) (uarchName e) true true) <$> events) end) None)).
Proof. apply info_round_trip. Qed.
End InfoFile.

(** ** The order of sample files *)

(** The number in the name of a sample file. *)
Definition file_seq (f : SampleFile Path) : Z :=
  match orderByName (default "" (last (sf_contents _ f))) with Ok k => k | Raise _ => 0 end.

(** What a thread's directory contributes: its csv files, under the ids of its name, in the
    order of their numbers. *)
Definition thread_files_ok (t : FsNode) (path : Path) (threadInfo : string) (fs : list (SampleFile Path)) : Prop :=
  match at_path t (path ++ [threadInfo]) with
  | Some (Dir es) =>
      sf_contents _ <$> fs ≡ₚ (fun n => path ++ [threadInfo; n]) <$> filter (fun n => fnmatch n CSV_FILE_WILDCARD = true) (od_keys es) /\
      StronglySorted (fun f g => file_seq f <= file_seq g) fs /\
      Forall (fun f => take 2 (py_split "-" threadInfo) = [sf_threadId _ f; sf_tlsAddr _ f]) fs
  | _ => fs = []
  end.

Lemma mmap_keyed {A B} (f : A -> result B) (l : list A) ks : mmap (fun n => k ← f n; Ok (k, n)) l = Ok ks ->
  ks.*2 = l /\ Forall (fun kn => f kn.2 = Ok kn.1) ks.
Proof.
  revert ks. induction l as [|n l IH]; intros ks H; cbn in H; [injection H as <-; by split|].
  apply bind_Ok in H as (kn & H1 & H). apply bind_Ok in H1 as (k & Hk & [= <-]). apply bind_Ok in H as (ks' & H2 & [= <-]).
  destruct (IH _ H2) as [E Hf]. split; [cbn; by rewrite E|by constructor].
Qed.

Lemma thread_files_spec path d tid tls es fs : thread_files (path ++ [d]) tid tls es = Ok fs ->
  sf_contents _ <$> fs ≡ₚ (fun n => path ++ [d; n]) <$> filter (fun n => fnmatch n CSV_FILE_WILDCARD = true) (od_keys es) /\
  StronglySorted (fun f g => file_seq f <= file_seq g) fs /\
  Forall (fun f => [tid; tls] = [sf_threadId _ f; sf_tlsAddr _ f]) fs.
Proof.
  unfold thread_files. intros H. apply bind_Ok in H as (ks & H & [= <-]). destruct (mmap_keyed _ _ _ H) as [E Hk]. clear H.
  assert (Hs : Forall (fun kn => orderByName kn.2 = Ok kn.1) (py_sort (key_leb fst) ks)) by (by rewrite py_sort_perm).
  split_and!.
  - assert (Ec : forall l : list (Z * string), sf_contents Path <$> ((fun kn : Z * string => mkSampleFile Path tid tls ((path ++ [d]) ++ [kn.2])) <$> l) =
      (fun n => path ++ [d; n]) <$> l.*2).
    { intros l. rewrite -!list_fmap_compose. apply list_fmap_ext. intros i kn _. unfold compose. cbn. by rewrite -app_assoc. }
    rewrite Ec py_sort_perm E. done.
  - pose proof (py_sort_key_sorted fst ks) as Hsort. revert Hs Hsort. generalize (py_sort (key_leb fst) ks) as l.
    intros l Hs Hsort. induction Hsort as [|kn l Hsort IH Hle]; [constructor|]. apply Forall_cons in Hs as [Hkn Hs].
    cbn [fmap list_fmap]. constructor; [by apply IH|]. apply Forall_fmap. rewrite Forall_forall in Hle. rewrite Forall_forall in Hs.
    apply Forall_forall. intros kn' Hin. unfold compose, file_seq. cbn [sf_contents]. rewrite !last_snoc. cbn [default].
    rewrite Hkn (Hs _ Hin). by apply Hle.
  - apply Forall_fmap, Forall_true. done.
Qed.

(** The csv files of a profile are gathered thread directory by thread
    directory in the order of the names, and in each of them in the order of their numbers,
    whatever the order of the listings; every sample file is there once. *)
Theorem gatherSampleFiles_spec t path fs : gatherSampleFiles t path = Ok fs ->
  exists dirs fss, listdir t path = Ok dirs /\ fs = concat fss /\
    Forall2 (thread_files_ok t path) (py_sort str_leb dirs) fss /\ StronglySorted (fun a b => str_leb a b = true) (py_sort str_leb dirs).
Proof.
  unfold gatherSampleFiles. intros H. apply bind_Ok in H as (dirs & Hd & H). exists dirs.
  pose proof (py_sort_sorted str_leb str_leb_total str_leb_trans dirs) as Hsorted.
  set (ds := py_sort str_leb dirs) in *. clearbody ds.
  assert (G : forall acc r, mfor (gather_thread t path) acc ds = Ok r ->
    exists fss, r = acc ++ concat fss /\ Forall2 (thread_files_ok t path) ds fss); [|destruct (G [] fs H) as (fss & -> & Hf); by exists fss].
  clear Hsorted H Hd. induction ds as [|d ds IH]; intros acc r H; [injection H as <-; exists []; by rewrite app_nil_r|].
  cbn [mfor] in H. apply bind_Ok in H as (acc' & H1 & H). destruct (IH _ _ H) as (fss & -> & Hf).
  assert (exists f1, acc' = acc ++ f1 /\ thread_files_ok t path d f1) as (f1 & -> & Hok).
  { unfold gather_thread in H1. unfold thread_files_ok. destruct (py_split "-" d) as [|tid [|tls rest]]; [done|done|].
    destruct (at_path t (path ++ [d])) as [[ls|es]|]; [injection H1 as <-; exists []; by rewrite app_nil_r|..|injection H1 as <-; exists []; by rewrite app_nil_r].
    apply bind_Ok in H1 as (f1 & H1 & [= <-]). exists f1. split; [done|]. exact (thread_files_spec path d tid tls es f1 H1). }
  exists (f1 :: fss). split; [by rewrite -app_assoc|by constructor].
Qed.

(** ** What a stored benchmark holds *)

Section Stored.
Context {F : Type} {HF : PyFloat F}.
Context (saveAsCsv : Path -> FsNode -> result (list string)).

Definition thread_dir (f : SampleFile Path) : string :=
  String.append (sf_threadId _ f) (String.append "-" (sf_tlsAddr _ f)).

(** The directories of the threads, in the order they are made. *)
Definition add_dir (ds : list string) (f : SampleFile Path) : list string :=
  if bool_decide (thread_dir f ∈ ds) then ds else ds ++ [thread_dir f].

Definition sample_dir (e : string * FsNode) : Prop := exists ls, e.2 = Dir [("samples-0000.csv"%string, File ls)].

(** The benchmark's directory while samples are stored: a directory per thread. *)
Definition stored (B : Path) (ds : list string) (t : FsNode) : Prop :=
  match at_path t B with
  | Some (Dir es) => od_keys es = ds /\ ds <> [] /\ Forall sample_dir es
  | Some (File _) => False
  | None => ds = []
  end.

Lemma od_set_last {V} k (v w : V) d : od_get String.eqb k d = None -> od_set String.eqb k v (d ++ [(k, w)]) = d ++ [(k, v)].
Proof.
  induction d as [|[k' v'] d IH]; cbn [app od_get od_set]; [by rewrite String.eqb_refl|].
  destruct (String.eqb k k'); [done|]. intros H. by rewrite IH.
Qed.

Lemma od_get_last {V} k (w : V) d : od_get String.eqb k d = None -> od_get String.eqb k (d ++ [(k, w)]) = Some w.
Proof.
  induction d as [|[k' v'] d IH]; cbn [app od_get]; [by rewrite String.eqb_refl|]. by destruct (String.eqb k k').
Qed.

Lemma store_samples_stored B ds t f t' : stored B ds t -> store_samples saveAsCsv B t f = Ok t' -> stored B (add_dir ds f) t'.
Proof.
  intros Hs H. unfold store_samples, makeSampleFilePath in H. fold (thread_dir f) in H. set (d := thread_dir f) in *.
  apply bind_Ok in H as ([p t1] & H1 & H). apply bind_Ok in H1 as (t0 & Hm & [= <- <-]).
  apply bind_Ok in H as (lines & _ & Hw). rewrite -app_assoc in Hw.
  apply write_lines_at in Hw as (c & Hp & Hat & _); [|done].
  (* the directory before the file is written *)
  assert (exists es, at_path t0 B = Some (Dir es) /\ od_keys es = add_dir ds f /\
    (Forall sample_dir es \/ exists es0, es = es0 ++ [(d, Dir [])] /\ od_get String.eqb d es0 = None /\ Forall sample_dir es0))
    as (es & Hes & Hk & Ho).
  { unfold mkdir in Hm. rewrite at_path_app in Hm. unfold stored in Hs. destruct (at_path t B) as [[ls|es]|] eqn:EB; [done|..].
    - destruct Hs as (Hk & Hne & Hall). cbn [mbind option_bind at_path] in Hm.
      destruct (od_get String.eqb d es) as [x|] eqn:Ed.
      + pose proof Ed as Hx. apply od_get_elem_of in Hx as (k' & Hin & Ek). apply String.eqb_eq in Ek as <-.
        pose proof Hall as Hx. rewrite Forall_forall in Hx. destruct (Hx _ Hin) as [ls Hls]. cbn in Hls. subst x. injection Hm as <-.
        exists es. split_and!; [done| |by left].
        unfold add_dir. fold d. rewrite bool_decide_true // -Hk. exact (list_elem_of_fmap_2 fst _ _ Hin).
      + cbn in Hm. apply put_path_at in Hm as (c' & Hc' & Hat'). rewrite EB in Hc'. cbn [default put_path mbind result_bind] in Hc'.
        injection Hc' as <-. exists (od_set String.eqb d (Dir []) es). rewrite od_keys_set Hk. split_and!; [done|done|].
        right. exists es. by rewrite od_set_fresh.
    - subst ds. cbn [mbind option_bind] in Hm. apply put_path_at in Hm as (c' & Hc' & Hat'). rewrite EB in Hc'. cbn in Hc'. injection Hc' as <-.
      exists [(d, Dir [])]. split_and!; [done|done|]. right. by exists []. }
  unfold stored. rewrite Hat. rewrite Hes in Hp. cbn [default put_path] in Hp.
  apply bind_Ok in Hp as (c1 & Hp & [= <-]). rewrite od_keys_set Hk.
  assert (Hin : d ∈ add_dir ds f).
  { unfold add_dir. fold d. destruct (bool_decide (d ∈ ds)) eqn:E; [by apply bool_decide_eq_true in E|]. apply elem_of_app. right. left. }
  rewrite bool_decide_true //. split; [done|]. split; [intros E; rewrite E in Hin; by apply elem_of_nil in Hin|].
  destruct Ho as [Hall|(es0 & -> & Hn & Hall)].
  - apply od_set_Forall; [done|]. destruct (od_get String.eqb d es) as [x|] eqn:Ed; cbn [default] in Hp.
    + apply od_get_elem_of in Ed as (k' & Hin' & _). rewrite Forall_forall in Hall. destruct (Hall _ Hin') as [ls Hx]. cbn in Hx. subst x.
      cbn in Hp. injection Hp as <-. by eexists.
    + cbn in Hp. injection Hp as <-. by eexists.
  - rewrite od_set_last //. rewrite od_get_last // in Hp. cbn in Hp. injection Hp as <-.
    apply Forall_app. split; [done|]. apply Forall_cons_2; [by eexists|apply Forall_nil_2].
Qed.

Lemma add_dirs_prefix fs ds : exists l, fold_left add_dir fs ds = ds ++ l.
Proof.
  revert ds. induction fs as [|f fs IH]; intros ds; [exists []; by rewrite app_nil_r|]. cbn [fold_left].
  destruct (IH (add_dir ds f)) as [l ->]. unfold add_dir. destruct (bool_decide _); [by exists l|]. exists ([thread_dir f] ++ l). by rewrite app_assoc.
Qed.

Lemma add_dirs_one d fs :
  if forallb (fun g => String.eqb (thread_dir g) d) fs then fold_left add_dir fs [d] = [d]
  else exists x y l, fold_left add_dir fs [d] = x :: y :: l.
Proof.
  induction fs as [|f fs IH]; [done|]. cbn [forallb fold_left].
  destruct (String.eqb_spec (thread_dir f) d) as [E|Hne]; cbn [andb].
  - assert (add_dir [d] f = [d]) as ->; [|exact IH]. unfold add_dir. rewrite bool_decide_true // E. left.
  - assert (add_dir [d] f = [d; thread_dir f]) as ->.
    { unfold add_dir. rewrite bool_decide_false //. by rewrite list_elem_of_singleton. }
    destruct (add_dirs_prefix fs [d; thread_dir f]) as [l ->]. by eexists _, _, l.
Qed.

Lemma add_dirs_dash fs ds : Forall (fun d => "-"%char ∈ to_chars d) ds -> Forall (fun d => "-"%char ∈ to_chars d) (fold_left add_dir fs ds).
Proof.
  revert ds. induction fs as [|f fs IH]; intros ds H; [done|]. cbn [fold_left]. apply IH. unfold add_dir. destruct (bool_decide _); [done|].
  apply Forall_app. split; [done|]. apply Forall_cons_2; [|apply Forall_nil_2]. unfold thread_dir. rewrite !chars_append. set_solver.
Qed.

Lemma stored_files B fs t t' : stored B [] t -> mfor (store_samples saveAsCsv B) t fs = Ok t' -> stored B (fold_left add_dir fs []) t'.
Proof.
  generalize (@nil string) as ds. revert t. induction fs as [|f fs IH]; intros t ds Hs H; [by injection H as <-|].
  cbn [mfor] in H. apply bind_Ok in H as (t1 & H1 & H). exact (IH t1 _ (store_samples_stored _ _ _ _ _ Hs H1) H).
Qed.

(** A file written next to the directories of the threads. *)
Lemma write_beside B n ls es t t' : at_path t B = Some (Dir es) -> n ∉ od_keys es -> write_lines (B ++ [n]) ls t = Ok t' ->
  at_path t' B = Some (Dir (es ++ [(n, File ls)])).
Proof.
  intros Hat Hn Hw. apply write_lines_at in Hw as (c & Hc & Hat' & _); [|done]. rewrite Hat in Hc. cbn in Hc. injection Hc as <-.
  rewrite Hat'. rewrite od_set_fresh //. apply od_get_None, Forall_forall. intros k Hk. apply String.eqb_neq. by intros <-.
Qed.

Lemma subdirs_stored es more : Forall sample_dir es -> Forall (fun e : string * FsNode => exists ls, e.2 = File ls) more ->
  omap (fun e : string * FsNode => match e.2 with Dir _ => Some e.1 | File _ => None end) (es ++ more) = od_keys es.
Proof.
  intros He Hm. rewrite omap_app. assert (omap (fun e : string * FsNode => match e.2 with Dir _ => Some e.1 | File _ => None end) more = []) as ->.
  { induction Hm as [|e more [ls E] _ IH]; [done|]. cbn. by rewrite E. }
  rewrite app_nil_r. induction He as [|e es [ls E] _ IH]; [done|]. cbn. rewrite E. cbn. by f_equal.
Qed.

Lemma od_get_beyond {V} k (v : V) d d' : k ∉ od_keys d -> od_get String.eqb k (d ++ (k, v) :: d') = Some v.
Proof.
  induction d as [|[k' v'] d IH]; cbn [app od_get]; [by rewrite String.eqb_refl|]. intros H. apply not_elem_of_cons in H as [Hk H].
  rewrite (proj2 (String.eqb_neq k k') Hk). by apply IH.
Qed.

Lemma od_get_before {V} k (d d' : list (string * V)) : k ∈ od_keys d -> od_get String.eqb k (d ++ d') = od_get String.eqb k d.
Proof.
  induction d as [|[k' v'] d IH]; intros H; [by apply elem_of_nil in H|]. cbn [app od_get].
  destruct (String.eqb_spec k k') as [|Hne]; [done|]. apply IH. apply elem_of_cons in H as [H|H]; [done|exact H].
Qed.

(** A directory that holds threads' directories itself. *)
Lemma gather_stored B t es info ini : Forall sample_dir es -> APPINFO_FILE_NAME ∉ od_keys es ->
  at_path t B = Some (Dir (es ++ [(APPINFO_FILE_NAME, File info); (BENCHMARK_FILE_NAME, File ini)])) ->
  gather t B = match od_keys es with
               | [] => Raise IndexError_
               | [_] => Ok (Some (mkDataSource (B ++ [APPINFO_FILE_NAME]) []))
               | _ => Ok None
               end.
Proof.
  intros Hall Ha E. unfold gather, isfile, subdirs. rewrite at_path_app E. cbn [mbind option_bind at_path].
  rewrite od_get_beyond //. cbn [mbind option_bind at_path]. rewrite subdirs_stored //.
  { repeat apply Forall_cons_2; try apply Forall_nil_2; by eexists. }
  cbn [mbind result_bind]. destruct (od_keys es) as [|d [|d' ds]] eqn:Ek; [done| |done]. cbn [py_nth lookup list_lookup or_raise mbind result_bind].
  destruct es as [|[k x] [|? ?]]; try done. injection Ek as ->. apply Forall_cons in Hall as [[ls Hx] _]. cbn in Hx. subst x.
  assert (Hd : at_path t (B ++ [d]) = Some (Dir [("samples-0000.csv"%string, File ls)])).
  { rewrite at_path_app E. cbn. by rewrite String.eqb_refl. }
  unfold gatherSampleFiles, listdir. rewrite Hd. cbn [mbind result_bind od_keys fmap list_fmap py_sort fst foldr]. 
  assert (gather_thread t (B ++ [d]) [] "samples-0000.csv" = Ok []) as Hg.
  { unfold gather_thread. change (py_split "-" "samples-0000.csv") with ["samples"%string; "0000.csv"%string].
    rewrite at_path_app Hd. cbn. done. }
  cbn [sort_insert mfor]. by rewrite Hg.
Qed.

(** A benchmark that was just made has no sample files when it is
    gathered: the directories of the threads lie where the directory of the run is expected,
    so with one thread the data source is empty, and with several there is none. *)
Theorem makeBenchmark_gathers_nothing today current (cpu : option (CpuInfo F)) events path t t' :
  makeBenchmark saveAsCsv today current cpu events path t = Ok t' ->
  exists f fs, files current = f :: fs /\
    gather t' (path ++ [BENCHMARK_DIR_NAME]) =
    if forallb (fun g => String.eqb (thread_dir g) (thread_dir f)) fs
    then Ok (Some (mkDataSource ((path ++ [BENCHMARK_DIR_NAME]) ++ [APPINFO_FILE_NAME]) []))
    else Ok None.
Proof.
  unfold makeBenchmark. set (B := path ++ [BENCHMARK_DIR_NAME]). destruct (exists_path t B) eqn:Ex; [done|]. intros H.
  apply bind_Ok in H as (t1 & H1 & H). apply bind_Ok in H as (info & _ & H). apply bind_Ok in H as (t2 & H2 & H).
  apply bind_Ok in H as (c & _ & H). unfold makeBenchmarkInfo in H. apply bind_Ok in H as (ini & _ & H).
  assert (Hs0 : stored B [] t) by (unfold stored, exists_path in *; by destruct (at_path t B)).
  pose proof (stored_files B _ _ _ Hs0 H1) as Hs. unfold stored in Hs.
  destruct (at_path t1 B) as [[|es]|] eqn:EB; [done|..].
  2:{ exfalso. unfold write_lines, isdir in H2. rewrite length_app take_app_ge in H2; [cbn; lia|].
      replace (length B + length [APPINFO_FILE_NAME] - 1 - length B)%nat with 0%nat in H2 by (cbn; lia). cbn [take] in H2.
      by rewrite app_nil_r EB in H2. }
  destruct Hs as (Hk & Hne & Hall).
  assert (Hdash : Forall (fun d => "-"%char ∈ to_chars d) (od_keys es)) by (rewrite Hk; by apply add_dirs_dash).
  rewrite Forall_forall in Hdash.
  assert (Ha : APPINFO_FILE_NAME ∉ od_keys es) by (intros Hin; specialize (Hdash _ Hin); revert Hdash; by vm_compute; set_solver).
  pose proof (write_beside B _ _ _ _ _ EB Ha H2) as E2.
  assert (Hb : BENCHMARK_FILE_NAME ∉ od_keys (es ++ [(APPINFO_FILE_NAME, File info)])).
  { unfold od_keys. rewrite fmap_app elem_of_app. intros [Hin|Hin]; [specialize (Hdash _ Hin); revert Hdash; by vm_compute; set_solver|].
    by apply list_elem_of_singleton in Hin. }
  pose proof (write_beside B _ _ _ _ _ E2 Hb H) as E3. rewrite -app_assoc in E3.
  destruct (files current) as [|f fs] eqn:Ef; [done|]. exists f, fs. split; [done|].
  cbn [app] in E3. rewrite (gather_stored B t' es _ _ Hall Ha E3). rewrite Hk. cbn [fold_left].
  assert (add_dir [] f = [thread_dir f]) as -> by done. pose proof (add_dirs_one (thread_dir f) fs) as Ho.
  destruct (forallb _ fs); [by rewrite Ho|]. by destruct Ho as (x & y & l & ->).
Qed.
End Stored.

(** ** Which benchmarks are found *)

Section Found.
Context {F : Type} {HF : PyFloat F}.

Definition found_at (t : FsNode) (path : Path) : result (option (Benchmark (F := F))) :=
  if isdir t (path ++ [BENCHMARK_DIR_NAME]) then gather_one t path else Ok None.

(** The benchmarks gathered are those of the given paths that can
    be loaded, in the order of the paths, up to the limit. *)
Theorem gatherBenchmarks_spec t paths count os : (0 < count)%nat -> mmap (found_at t) paths = Ok os ->
  gatherBenchmarks t paths count = Ok (take count (omap id os)).
Proof.
  intros Hc H. unfold gatherBenchmarks.
  assert (G : forall acc, (length acc < count)%nat -> gather_loop t count acc paths = Ok (acc ++ take (count - length acc) (omap id os))).
  2:{ rewrite (G []); [exact Hc|]. cbn. by rewrite Nat.sub_0_r. }
  clear Hc. revert os H. induction paths as [|p paths IH]; intros os H acc Hacc; cbn [mmap] in H.
  - injection H as <-. cbn. by rewrite take_nil app_nil_r.
  - apply bind_Ok in H as (o & Ho & H). apply bind_Ok in H as (os' & Hos & [= <-]). cbn [gather_loop]. unfold found_at in Ho.
    destruct (isdir t _); [rewrite Ho; cbn [mbind result_bind]|injection Ho as <-; cbn; by apply IH].
    destruct o as [b|]; cbn [omap list_omap id].
    + destruct (Nat.leb_spec count (length (acc ++ [b]))) as [Hle|Hlt]; rewrite length_app /= in Hle || rewrite length_app /= in Hlt.
      * replace (count - length acc)%nat with 1%nat by lia. cbn. done.
      * rewrite (IH os' Hos); [rewrite length_app /=; lia|]. rewrite -app_assoc length_app /=.
        replace (count - length acc)%nat with (S (count - (length acc + 1)))%nat by lia. done.
    + rewrite (proj2 (Nat.leb_gt _ _) Hacc). by apply IH.
Qed.
End Found.

(** ** The repository of a session *)

Section Repository.
Context {F : Type} {HF : PyFloat F} {HH : RouteHash} (fuel : nat).
Abbreviation Coll := (TxnCollection (Meta F)).
Abbreviation Cache := (list (Route * Index)).

Definition read_sample_file (t : FsNode) (f : SampleFile Path) : result (SampleFile (list string)) :=
  lines ← read_lines t (sf_contents _ f); Ok (mkSampleFile _ (sf_threadId _ f) (sf_tlsAddr _ f) lines).

(** [Collector.loadDataSource] on the files of a data source. *)
Definition load_source (t : FsNode) (pm : ProbeMap Probe) (ds : DataSource) : result Loader :=
  info ← read_lines t (appInfoPath ds);
  fs ← mmap (read_sample_file t) (files ds);
  e ← loadDataSource (HS := TrivialCounterFilter) (HL := BoundedLoader pm fuel) info fs (mkExtractor 0 tt BoundedTxnLoader_init);
  Ok (loader e).

(** A loader for the probes [args.1], fed with a data source, and the collection it gives. *)
Definition load_stored (t : FsNode) (cache : Cache) (args : list Probe * Meta F) (ds : DataSource) : result (Coll * Cache) :=
  pm ← ProbeMap_init (fun p => p) args.1 [];
  l ← load_source t pm ds;
  TxnCollection_init cache args.2 (loaded_txns l).

Definition add_collection (r : TxnRepo (Meta F)) (c : Coll) : result (TxnRepo (Meta F)) :=
  addBenchmark m_name (length (collections r))
    (mkTxnRepo (collections r ++ [c]) (benchmarkCollections r) (currentCollection r) (owned r)).

(** [BenchmarksCollector.loadTxns]; [factory] is what [loaderFactory] gives a benchmark. *)
Definition loadTxns (t : FsNode) (factory : Benchmark (F := F) -> result (list Probe * Meta F))
    (s : TxnRepo (Meta F) * Cache) (benchmarks : list (Benchmark (F := F))) : result (TxnRepo (Meta F) * Cache) :=
  mfor (fun '(repo, cache) b =>
    args ← factory b;
    ds ← or_raise AttributeError_ (bm_dataSource b);
    '(c, cache) ← load_stored t cache args ds;
    repo ← add_collection repo c; Ok (repo, cache)) s benchmarks.

(** [TxnRepoFactory.buildTxnRepo]: [current] loads the current run.  A collection has no
    length, so the test for an empty one never holds. *)
Definition buildTxnRepo (t : FsNode) (factory : Benchmark (F := F) -> result (list Probe * Meta F))
    (current : Cache -> result (Coll * Cache)) (benchmarkPaths : list Path) (cache : Cache) : result (TxnRepo (Meta F) * Cache) :=
  '(currentTxns, cache) ← current cache;
  repo ← addCurrent 0 (TxnRepo_init [currentTxns]);
  match benchmarkPaths with
  | [] => Ok (repo, cache)
  | _ => benchmarks ← gatherBenchmarks t benchmarkPaths 10; loadTxns t factory (repo, cache) benchmarks
  end.

(** Handles under names, and the collections they stand for. *)
Definition resolves (objects : list Coll) (d : list (string * nat)) (d' : list (string * Coll)) : Prop :=
  Forall2 (fun p p' => p.1 = p'.1 /\ objects !! p.2 = Some p'.2) d d'.

(** The collection a benchmark's stored files load to. *)
Definition loaded_from (t : FsNode) (factory : Benchmark (F := F) -> result (list Probe * Meta F)) (b : Benchmark (F := F))
    (c : Coll) : Prop :=
  exists args ds cache cache', factory b = Ok args /\ bm_dataSource b = Some ds /\
    load_stored t cache args ds = Ok (c, cache') /\ tc_meta c = args.2.

Lemma resolves_set objects d d' n c : resolves objects d d' ->
  resolves (objects ++ [c]) (od_set String.eqb n (length objects) d) (od_set String.eqb n c d').
Proof.
  intros H. assert (Hc : (objects ++ [c]) !! length objects = Some c) by (by rewrite lookup_app_r // Nat.sub_diag).
  induction H as [|[k h] [k' c'] d d' [E Hl] Hd IH]; cbn [od_set fst snd] in *; [by constructor|]. subst k'.
  assert (Hl' : (objects ++ [c]) !! h = Some c') by (apply lookup_app_l_Some; exact Hl).
  destruct (String.eqb n k); constructor; try done. refine (Forall2_impl _ _ _ _ Hd _). intros [a b] [a' b'] [E' Hl'']. split; [done|].
  by apply lookup_app_l_Some.
Qed.

Lemma resolves_get objects d d' cur own : resolves objects d d' -> getBenchmarks (mkTxnRepo objects d cur own) = Ok d'.
Proof.
  unfold getBenchmarks. cbn [benchmarkCollections]. unfold coll_at. cbn [collections]. intros H.
  induction H as [|[k h] [k' c'] d d' [E Hl] Hd IH]; [done|]. cbn [fst snd] in *. subst k'. cbn [mmap fst snd]. rewrite Hl.
  cbn [or_raise mbind result_bind]. by rewrite IH.
Qed.

(** Benchmarks under their names, the last of each name. *)
Definition by_name (cs : list Coll) : list (string * Coll) :=
  fold_left (fun d c => od_set String.eqb (m_name (tc_meta c)) c d) cs [].

Lemma by_name_snoc cs c : by_name (cs ++ [c]) = od_set String.eqb (m_name (tc_meta c)) c (by_name cs).
Proof. unfold by_name. by rewrite fold_left_app. Qed.

Lemma by_name_distinct cs : NoDup (by_name cs).*1.
Proof.
  induction cs as [|c cs IH] using rev_ind; [apply NoDup_nil_2|]. rewrite by_name_snoc.
  fold (od_keys (od_set String.eqb (m_name (tc_meta c)) c (by_name cs))). rewrite od_keys_set. case_bool_decide as Hc; [done|].
  apply NoDup_app. split_and!; [done| |apply NoDup_singleton]. by intros x Hx ->%list_elem_of_singleton.
Qed.

Lemma by_name_Forall (P : Coll -> Prop) cs : Forall P cs -> Forall (fun b => P b.2) (by_name cs).
Proof.
  induction cs as [|c cs IH] using rev_ind; intros H; [constructor|]. rewrite by_name_snoc.
  apply Forall_app in H as [H Hc]. apply Forall_cons in Hc as [Hc _]. apply (od_set_Forall (fun b : string * Coll => P b.2)); [by apply IH|exact Hc].
Qed.

(** A repository with its current run first. *)
Record shaped (repo : TxnRepo (Meta F)) (cur : Coll) (cs : list Coll) : Prop := {
  sh_collections : collections repo = cur :: cs;
  sh_current : currentCollection repo = Some 0%nat;
  sh_owned : 0%nat ∈ owned repo;
  sh_benchmarks : resolves (cur :: cs) (benchmarkCollections repo) (by_name cs)
}.

Lemma shaped_gets repo cur cs : shaped repo cur cs -> getCurrent repo = Ok cur /\ getBenchmarks repo = Ok (by_name cs) /\
  isCurrent repo 0 = true.
Proof.
  destruct repo as [objects d cu ow]. intros [E1 E2 Ho Hb]. cbn in *. subst objects cu. split; [done|]. split; [by apply resolves_get|].
  unfold isCurrent. cbn. by rewrite !bool_decide_true.
Qed.

Lemma add_collection_shaped repo cur cs c repo' : shaped repo cur cs -> add_collection repo c = Ok repo' -> shaped repo' cur (cs ++ [c]).
Proof.
  destruct repo as [objects d cu ow]. intros [E1 E2 Ho Hb]. cbn in E1, E2. subst objects cu. unfold add_collection, addBenchmark. cbn [collections currentCollection benchmarkCollections owned] in *.
  rewrite bool_decide_false; [done|]. unfold coll_at. cbn [collections]. rewrite lookup_app_r // Nat.sub_diag.
  cbn [lookup list_lookup or_raise mbind result_bind]. intros [= <-]. split; cbn; [done|done|by right|].
  rewrite by_name_snoc. exact (resolves_set _ _ _ _ c Hb).
Qed.

Lemma load_stored_meta t cache args ds c cache' : load_stored t cache args ds = Ok (c, cache') -> tc_meta c = args.2.
Proof.
  unfold load_stored, TxnCollection_init. intros H. apply bind_Ok in H as (pm & _ & H). apply bind_Ok in H as (l & _ & H).
  apply bind_Ok in H as ([l' ch] & _ & H). destruct (_ =? _)%nat; [|done]. by injection H as <- _.
Qed.

Lemma loadTxns_shaped t factory bs repo cache repo' cache' cur cs : shaped repo cur cs ->
  loadTxns t factory (repo, cache) bs = Ok (repo', cache') ->
  exists cs', Forall2 (loaded_from t factory) bs cs' /\ shaped repo' cur (cs ++ cs').
Proof.
  revert repo cache cs. induction bs as [|b bs IH]; intros repo cache cs Hs H; unfold loadTxns in H; cbn [mfor] in H.
  { injection H as <- <-. exists []. by rewrite app_nil_r. }
  apply bind_Ok in H as ([r1 c1] & H1 & H). apply bind_Ok in H1 as (args & Hf & H1). apply bind_Ok in H1 as (ds & Hds & H1).
  apply bind_Ok in H1 as ([c c2] & Hl & H1). apply bind_Ok in H1 as (r2 & Ha & [= <- <-]).
  destruct (IH _ _ _ (add_collection_shaped _ _ _ _ _ Hs Ha) H) as (cs' & Hcs & Hs'). exists (c :: cs'). rewrite -app_assoc in Hs'.
  split; [|exact Hs']. constructor; [|exact Hcs]. exists args, ds, cache, c2.
  split_and!; [done|by apply or_raise_Ok in Hds|done|exact (load_stored_meta _ _ _ _ _ _ Hl)].
Qed.

Lemma buildTxnRepo_shaped t factory current paths cache repo cache' :
  buildTxnRepo t factory current paths cache = Ok (repo, cache') ->
  exists cur cache0 bs cs, current cache = Ok (cur, cache0) /\
    (match paths with [] => bs = [] | _ => gatherBenchmarks t paths 10 = Ok bs end) /\
    Forall2 (loaded_from t factory) bs cs /\ shaped repo cur cs.
Proof.
  unfold buildTxnRepo. intros H. apply bind_Ok in H as ([cur cache0] & Hcur & H). cbn in H. exists cur, cache0.
  assert (H0 : shaped (mkTxnRepo [cur] [] (Some 0%nat) [0%nat]) cur []) by (split; [done|done|left|constructor]).
  destruct paths as [|p paths].
  - injection H as <- <-. exists [], []. split_and!; [done|done|constructor|done].
  - apply bind_Ok in H as (bs & Hbs & H). destruct (loadTxns_shaped _ _ _ _ _ _ _ _ _ H0 H) as (cs & Hcs & Hs). by exists bs, cs.
Qed.

(** C39 (repository): the repository of a session holds the current run, and under every name
    the collection of the last benchmark of that name, each loaded from its stored files with the
    probes and the metadata its factory gives. *)
Theorem buildTxnRepo_spec t factory current paths cache repo cache' :
  buildTxnRepo t factory current paths cache = Ok (repo, cache') ->
  exists cur cache0 bs cs, current cache = Ok (cur, cache0) /\ getCurrent repo = Ok cur /\
    (match paths with [] => bs = [] | _ => gatherBenchmarks t paths 10 = Ok bs end) /\
    Forall2 (loaded_from t factory) bs cs /\
    getBenchmarks repo = Ok (fold_left (fun d c => od_set String.eqb (m_name (tc_meta c)) c d) cs []).
Proof.
  intros H. destruct (buildTxnRepo_shaped _ _ _ _ _ _ _ H) as (cur & cache0 & bs & cs & Hc & Hbs & Hcs & Hs).
  destruct (shaped_gets _ _ _ Hs) as (Hg & Hb & _). by exists cur, cache0, bs, cs.
Qed.
End Repository.

(** ** Witnesses *)

#[local] Instance storage_float : PyFloat Z :=
  {| f_of_Z := id; f_add := Z.add; f_sub := Z.sub; f_mul := Z.mul; f_div := Z.div; f_lt := Z.ltb;
     f_is_zero := fun x => x =? 0; f_nan := -1; f_is_nan := fun _ => false; f_trunc := id |}.
#[local] Instance storage_hash : RouteHash := fun ps => Z.of_nat (length ps).

Definition st_cpu : CpuInfo Z := CpuInfo_init "GenuineIntel-6-5E" 2600000000.
Definition st_events : list Event := [mkEvent "Cycles" "CPU_CLK_UNHALTED.CORE" true false; mkEvent "L1" "MEM_LOAD.L1" false true].
Definition st_info : FsNode := Eval vm_compute in
  match makeBenchmarkInfo "base" "2021-11-24" ["b"%string] st_cpu st_events (Dir [("b"%string, Dir [])]) with Ok t => t | Raise _ => Dir [] end.

Lemma word_check s : bool_decide (s <> ""%string) = true ->
  match head (to_chars s), last (to_chars s) with Some c, Some d => negb (is_space c) && negb (is_space d) | _, _ => false end = true ->
  bool_decide ("010"%char ∉ to_chars s) = true -> word s.
Proof.
  intros H1 H2 H3. split; [by apply bool_decide_eq_true in H1|]. split; [|by apply bool_decide_eq_true in H3].
  destruct (head (to_chars s)) as [c|] eqn:Eh; [|done]. destruct (last (to_chars s)) as [d|] eqn:El; [|done].
  apply andb_true_iff in H2 as [Hc Hd]. apply negb_true_iff in Hc. apply negb_true_iff in Hd.
  split; intros x; [rewrite Eh|rewrite El]; by intros [= <-].
Qed.

Lemma st_events_storable : Forall storable_event st_events.
Proof.
  repeat apply Forall_cons_2; try apply Forall_nil_2; (split_and!; [by vm_compute; set_solver..|by vm_compute; intros c [= <-]]).
Qed.

Lemma benchmark_info_roundtrip_witness :
  loadBenchmarkInfo st_info ["b"%string] =
  Ok (Some (mkBenchmark "base" st_cpu ["b"%string] "base run at 2021-11-24"
    (Some [mkEvent "Cycles" "CPU_CLK_UNHALTED.CORE" true true; mkEvent "L1" "MEM_LOAD.L1" true true]) None)).
Proof.
  refine (benchmark_info_roundtrip "base" "2021-11-24" ["b"%string] st_cpu st_events (Dir [("b"%string, Dir [])]) st_info _ _ _ _ st_events_storable _).
  - by apply word_check.
  - by apply word_check.
  - apply (word_check "GenuineIntel-6-5E"); reflexivity.
  - vm_compute. discriminate.
  - vm_compute. reflexivity.
Defined.

Definition st_samples : FsNode :=
  Dir [("run"%string, Dir [("12-ff"%string, Dir [("samples-0010.csv"%string, File []); ("notes"%string, File []); ("samples-0002.csv"%string, File [])]);
                           ("11-fe"%string, Dir [("samples-0000.csv"%string, File [])])])].
Definition st_files : list (SampleFile Path) :=
  [mkSampleFile Path "11" "fe" ["run"; "11-fe"; "samples-0000.csv"];
   mkSampleFile Path "12" "ff" ["run"; "12-ff"; "samples-0002.csv"];
   mkSampleFile Path "12" "ff" ["run"; "12-ff"; "samples-0010.csv"]]%string.

Lemma gatherSampleFiles_spec_witness : gatherSampleFiles st_samples ["run"%string] = Ok st_files /\
  exists dirs fss, st_files = concat fss /\ length fss = 2%nat /\
    Forall2 (thread_files_ok st_samples ["run"%string]) (py_sort str_leb dirs) fss.
Proof.
  assert (H : gatherSampleFiles st_samples ["run"%string] = Ok st_files) by (vm_compute; reflexivity).
  split; [exact H|]. destruct (gatherSampleFiles_spec _ _ _ H) as (dirs & fss & Hd & Hc & Hf & _).
  exists dirs, fss. split; [exact Hc|]. split; [|exact Hf].
  rewrite -(Forall2_length _ _ _ Hf). vm_compute in Hd. injection Hd as <-. vm_compute. reflexivity.
Defined.

(** A run with two threads, stored. *)
Definition st_run : FsNode := Dir [("tmp"%string, Dir []); ("appinfo"%string, File ["pid: 1"%string])].
Definition st_source : DataSource :=
  mkDataSource ["appinfo"%string] [mkSampleFile Path "11" "fe" ["a"%string]; mkSampleFile Path "12" "ff" ["b"%string]].
Definition st_csv (_ : Path) (_ : FsNode) : result (list string) := Ok ["Tsc,ReturnSite,Data"%string].
Definition st_made : FsNode := Eval vm_compute in
  match makeBenchmark st_csv "2021-11-24" st_source (Some st_cpu) st_events ["tmp"; "base"]%string st_run with Ok t => t | Raise _ => st_run end.

Lemma makeBenchmark_gathers_nothing_witness :
  makeBenchmark st_csv "2021-11-24" st_source (Some st_cpu) st_events ["tmp"; "base"]%string st_run = Ok st_made /\
  gather st_made ["tmp"; "base"; "benchmark"]%string = Ok None.
Proof.
  assert (H : makeBenchmark st_csv "2021-11-24" st_source (Some st_cpu) st_events ["tmp"; "base"]%string st_run = Ok st_made)
    by (vm_compute; reflexivity).
  split; [exact H|]. destruct (makeBenchmark_gathers_nothing st_csv _ _ _ _ _ _ _ H) as (f & fs & E & G).
  vm_compute in E. injection E as <- <-. exact G.
Defined.

(** A benchmark with the directory of its run. *)
Definition st_dirs : FsNode :=
  Dir [("x"%string, Dir []);
       ("base"%string, Dir [("benchmark"%string, Dir
          [(".benchmark"%string, default (Dir []) (at_path st_info ["b"; ".benchmark"]%string));
           ("appinfo.txt"%string, File ["pid: 1"; "port: 2"; "binary: /x"; "tscHz: 3"]%string);
           ("run"%string, Dir [("11-fe"%string, Dir [("samples-0000.csv"%string, File ["Tsc,ReturnSite,Data"%string])])])])])].
Definition st_found : list (Benchmark (F := Z)) := Eval vm_compute in
  match gatherBenchmarks st_dirs [["x"]; ["base"]; ["base"]]%string 1 with Ok l => l | Raise _ => [] end.

Lemma gatherBenchmarks_spec_witness : gatherBenchmarks (F := Z) st_dirs [["x"]; ["base"]; ["base"]]%string 1 = Ok st_found /\
  bm_name <$> st_found = ["base"%string].
Proof.
  split; [|reflexivity].
  destruct st_found as [|b [|? ?]] eqn:E; [discriminate E| |discriminate E].
  refine (gatherBenchmarks_spec (F := Z) st_dirs [["x"]; ["base"]; ["base"]]%string 1 [None; Some b; Some b] ltac:(lia) _).
  injection E as <-. vm_compute. reflexivity.
Defined.

Definition st_meta (name : string) : Meta Z := mkMeta name st_cpu [] None [].
Definition st_current (c : list (Route * Index)) : result (TxnCollection (Meta Z) * list (Route * Index)) :=
  Ok (mkCollection (st_meta "current run") [], c).

Lemma buildTxnRepo_spec_witness : exists repo c,
  buildTxnRepo 10 st_dirs (fun b => Ok ([], st_meta (bm_name b))) st_current [["x"]; ["base"]]%string [] = Ok (repo, c) /\
  exists cur cs, getCurrent repo = Ok cur /\ txnMap cur = [] /\ (m_name ∘ tc_meta) <$> cs = ["base"%string] /\
    getBenchmarks repo = Ok (fold_left (fun d c => od_set String.eqb (m_name (tc_meta c)) c d) cs []).
Proof.
  eexists _, _. split; [vm_compute; reflexivity|].
  destruct (buildTxnRepo_spec 10 st_dirs (fun b => Ok ([], st_meta (bm_name b))) st_current [["x"]; ["base"]]%string [] _ _ eq_refl)
    as (cur & c0 & bs & cs & Hc & Hg & Hbs & Hcs & Hb).
  exists cur, cs. split; [exact Hg|]. split; [injection Hc as <- _; reflexivity|]. split; [|exact Hb].
  vm_compute in Hbs. injection Hbs as <-. destruct cs as [|c [|? ?]].
  - apply Forall2_length in Hcs. discriminate Hcs.
  - apply Forall2_cons in Hcs as [(args & ds & c1 & c2 & Hp & _ & _ & Hm) _]. injection Hp as <-. cbn. rewrite Hm. reflexivity.
  - apply Forall2_length in Hcs. discriminate Hcs.
Defined.
