(* ===== verification/Filled.v ===== *)
(** * Built statistics are filled

    What [buildTimelineStats] (Timeline.v) gives when it returns: every delta series has one
    place per probe of the route and a value for every transaction's time point, and every
    timeline has its endpoint.  The reports (Report.v) rely on this. *)

From S2P Require Import Prelude PyStr Probe Route Txn Timeline Conflate Rebuild Profiles.

Section Filled.
Context {F : Type} {HF : PyFloat F}.
Implicit Types r : DeltaSeriesRepo F.

(** The series at a name and a position has a value. *)
Definition valued_at (name : string) (i : nat) r : Prop :=
  exists c s, od_get String.eqb name (seriesMap r) = Some c /\ deltaSeriesList c !! i = Some s /\ series s <> [].

Lemma run_add_valued a r r' : run_add r a = Ok r' ->
  valued_at a.1.1 a.1.2 r' /\ (forall name i, valued_at name i r -> valued_at name i r') /\
  od_keys (seriesMap r') = od_keys (seriesMap r).
Proof.
  destruct a as [[n i] d]. intros H. apply repo_add_Ok in H as (c & s & Hc & Hs & ->). cbn [fst snd seriesMap].
  assert (Hnew : forall name, String.eqb n name = true -> od_get String.eqb name (od_set String.eqb n
    (mkSeriesColl (eventName c) (<[i := addDelta d s]> (deltaSeriesList c))) (seriesMap r)) =
    Some (mkSeriesColl (eventName c) (<[i := addDelta d s]> (deltaSeriesList c)))).
  { intros name E. by rewrite od_get_set E. }
  split_and!.
  - eexists _, _. split; [apply Hnew, String.eqb_refl|]. cbn. rewrite list_lookup_insert_eq.
    { by apply lookup_lt_Some in Hs. } split; [done|]. cbn. by destruct (series s).
  - intros name j (c' & s' & Hc' & Hs' & Hne). unfold valued_at. cbn [seriesMap]. destruct (String.eqb n name) eqn:E.
    + apply String.eqb_eq in E as <-. rewrite Hc in Hc'. injection Hc' as <-. rewrite (Hnew n (String.eqb_refl n)).
      destruct (decide (i = j)) as [<-|Hij].
      * eexists _, _. split; [done|]. cbn. rewrite list_lookup_insert_eq; [by apply lookup_lt_Some in Hs|].
        split; [done|]. cbn. by destruct (series s).
      * eexists _, s'. split; [done|]. cbn. by rewrite list_lookup_insert_ne.
    + exists c', s'. rewrite od_get_set E. by split_and!.
  - rewrite od_keys_set bool_decide_true //. apply od_get_elem_of in Hc as (k & Hin & Ek). apply String.eqb_eq in Ek as <-.
    exact (list_elem_of_fmap_2 fst _ _ Hin).
Qed.

Lemma run_adds_valued l r r' : run_adds r l = Ok r' ->
  (forall a, a ∈ l -> valued_at a.1.1 a.1.2 r') /\ (forall name i, valued_at name i r -> valued_at name i r') /\
  od_keys (seriesMap r') = od_keys (seriesMap r).
Proof.
  revert r. induction l as [|a l IH]; intros r; cbn [run_adds mfor].
  { intros [= <-]. split_and!; [by intros a ?%not_elem_of_nil|done|done]. }
  intros H. apply bind_Ok in H as (r1 & H1 & H). destruct (run_add_valued a r r1 H1) as (Ha & Hm & Hk).
  destruct (IH r1 H) as (Hl & Hm' & Hk'). split_and!; [|auto|by rewrite Hk'].
  intros b [->|Hb]%elem_of_cons; auto.
Qed.

(** The names the series are kept under. *)
Definition visit_names (keys : list TopdownKey) : list string := fold_left (fun ns k => visit k ns) keys [].

Definition topdown_keys (meta : Meta F) : list TopdownKey :=
  match m_topdown meta with Some tm => topdownKeys tm | None => [] end.
Definition series_names (meta : Meta F) : list string :=
  (ename <$> m_events meta) ++ visit_names (topdown_keys meta).

(** Metadata whose reports can be shown: no event or topdown value is called wall time,
    topdown metrics compute the values their keys name, and come with events. *)
Definition reportable (meta : Meta F) : Prop :=
  TSC_EVENT_NAME ∉ series_names meta /\
  (forall tm m vs, m_topdown meta = Some tm -> compute tm m = Ok vs -> tv_name <$> vs = visit_names (topdownKeys tm)) /\
  (m_events meta = [] -> visit_names (topdown_keys meta) = []).

Lemma chunk_covers meta (tp : TimePoint F) name i : reportable meta ->
  point_ok tp -> point_full (m_topdown meta) (m_events meta) tp -> name ∈ series_names meta ->
  exists d, (name, i, d) ∈ chunk i tp.
Proof.
  intros (_ & Hvs & Hne) [Hlen _] Hfull Hname. unfold series_names in Hname. apply elem_of_app in Hname.
  assert (He : m_events meta <> []).
  { intros E. rewrite (Hne E) E in Hname. by destruct Hname as [H|H]; apply not_elem_of_nil in H. }
  destruct (Hfull He) as (Hns & (ds & Hds) & Htd). unfold chunk. rewrite Hns Hds. rewrite Hns Hds in Hlen.
  destruct Hlen as [Hlen _]. setoid_rewrite elem_of_app. destruct Hname as [Hname|Hname].
  - apply list_elem_of_lookup in Hname as [k Hk]. destruct (lookup_lt_is_Some_2 ds k) as [d Hd].
    { rewrite -Hlen. by apply lookup_lt_Some in Hk. }
    exists (DPmc d). left. apply list_elem_of_lookup. exists k. apply lookup_zip_with_Some. by exists name, d.
  - unfold topdown_keys in Hname. destruct (m_topdown meta) as [tm|]; [|by apply not_elem_of_nil in Hname].
    destruct (tp_topdown tp) as [vs|]; [|done]. destruct Htd as (tm' & m & [= <-] & Hc).
    rewrite -(Hvs tm m vs eq_refl Hc) in Hname. apply list_elem_of_fmap in Hname as (v & -> & Hv).
    exists (DFlt (tv_value v)). right. apply list_elem_of_fmap. by exists v.
Qed.

(** Every name has an addition at every place among those of one transaction. *)
Lemma groups_cover meta (pts : list (TimePoint F)) e name i : reportable meta ->
  Forall point_ok pts -> point_ok e -> Forall (point_full (m_topdown meta) (m_events meta)) pts ->
  point_full (m_topdown meta) (m_events meta) e -> name ∈ TSC_EVENT_NAME :: series_names meta -> (i <= length pts)%nat ->
  exists d, (name, i, d) ∈ closed (groups pts ++ [(chunk (length pts) e, wall (length pts) e)]).
Proof.
  intros Hm Hok He Hf Hfe Hname Hi.
  assert (Hone : forall tp, point_ok tp -> point_full (m_topdown meta) (m_events meta) tp ->
    exists d, (name, i, d) ∈ chunk i tp ++ [wall i tp]).
  { intros tp H1 H2. apply elem_of_cons in Hname as [->|Hname].
    - eexists. apply elem_of_app. right. by left.
    - destruct (chunk_covers meta tp name i Hm H1 H2 Hname) as (d & Hd). exists d. apply elem_of_app. by left. }
  assert (H : exists tp, (chunk i tp, wall i tp) ∈ groups pts ++ [(chunk (length pts) e, wall (length pts) e)] /\
    point_ok tp /\ point_full (m_topdown meta) (m_events meta) tp).
  { destruct (decide (i = length pts)) as [->|Hne].
    - exists e. split; [|done]. apply elem_of_app. right. by left.
    - destruct (lookup_lt_is_Some_2 pts i) as [tp Htp]; [lia|]. exists tp. rewrite !Forall_lookup in Hok, Hf.
      split; [|by split; [apply (Hok i)|apply (Hf i)]]. apply elem_of_app. left. apply list_elem_of_lookup. exists i.
      unfold groups. by rewrite list_lookup_imap Htp. }
  destruct H as (tp & Hin & H1 & H2). destruct (Hone tp H1 H2) as (d & Hd). exists d.
  apply list_elem_of_bind. by exists (chunk i tp, wall i tp).
Qed.

Lemma init_keys events keys probes :
  let r := DeltaSeriesRepo_init (F := F) events keys probes in
  distinct_keys String.eqb (seriesMap r) /\
  forall name, name ∈ od_keys (seriesMap r) <-> name ∈ TSC_EVENT_NAME :: eventNames r.
Proof.
  cbn zeta. unfold DeltaSeriesRepo_init. cbn [seriesMap eventNames]. set (names := _ ++ _).
  set (m := fold_left _ names _). assert (Hm : distinct_keys String.eqb m /\ forall name, name ∈ od_keys m <->
    name ∈ TSC_EVENT_NAME :: names).
  { unfold m. clearbody names. clear m.
    assert (H0 : distinct_keys String.eqb [(TSC_EVENT_NAME, mkSeriesColl (F := F) TSC_EVENT_NAME [])]).
    { apply (distinct_keys_snoc String.eqb []); [constructor|done]. }
    assert (Hgen : forall m0 : list (string * DeltaSeriesCollection), distinct_keys String.eqb m0 ->
      let m := fold_left (fun m n => od_set String.eqb n (mkSeriesColl (F := F) n []) m) names m0 in
      distinct_keys String.eqb m /\ forall name, name ∈ od_keys m <-> name ∈ od_keys m0 ++ names).
    { clear H0. induction names as [|n names IH]; intros m0 H0; cbn [fold_left]; [by rewrite app_nil_r|].
      destruct (IH (od_set String.eqb n (mkSeriesColl n []) m0)) as [H1 H2]; [by apply od_set_distinct|]. split; [done|].
      intros name. rewrite H2 od_keys_set !elem_of_app elem_of_cons. case_bool_decide as Hin; rewrite ?elem_of_app ?list_elem_of_singleton.
      - split; [tauto|]. intros [H|[->|H]]; tauto.
      - tauto. }
    exact (Hgen _ H0). }
  clearbody m. destruct Hm as [H1 H2]. match goal with |- context [fmap ?f m] => assert (Hk : (f <$> m).*1 = m.*1)
    by (rewrite -list_fmap_compose; by apply list_fmap_ext) end.
  split; [by refine (distinct_keys_transfer String.eqb m _ _ H1)|]. intros name. unfold od_keys. rewrite Hk. apply H2.
Qed.

(** Statistics whose series all have one place per probe and a value at each. *)
Record series_ready (n : nat) (tls : TimelineStats F) : Prop := {
  sy_series : forall p, p ∈ seriesMap (deltaSeriesRepo tls) ->
    length (deltaSeriesList p.2) = n /\ Forall (fun s => series s <> []) (deltaSeriesList p.2);
  sy_names : forall name, name ∈ TSC_EVENT_NAME :: eventNames (deltaSeriesRepo tls) ->
    is_Some (od_get String.eqb name (seriesMap (deltaSeriesRepo tls)))
}.

(** What the loop over the transactions keeps of the repository. *)
Record repo_inv (meta : Meta F) (n : nat) (r0 : DeltaSeriesRepo F) (pre : list Transaction) (r : DeltaSeriesRepo F) : Prop := {
  ri_sized : sized n r;
  ri_keys : od_keys (seriesMap r) = od_keys (seriesMap r0);
  ri_events : revents r = m_events meta;
  ri_names : eventNames r = eventNames r0;
  ri_topdown : rtopdownKeys r = rtopdownKeys r0;
  ri_valued : pre <> [] -> forall name i, name ∈ TSC_EVENT_NAME :: series_names meta -> (i < n)%nat -> valued_at name i r
}.

Lemma run_adds_names l r r' : run_adds r l = Ok r' -> eventNames r' = eventNames r.
Proof.
  revert r. induction l as [|a l IH]; intros r; cbn; [by intros [= <-]|]. intros H. apply bind_Ok in H as (r1 & H1 & H).
  rewrite (IH r1 H). by apply repo_add_Ok in H1 as (c & s & _ & _ & ->).
Qed.

Lemma no_wall meta : reportable meta -> TSC_EVENT_NAME ∉ ename <$> m_events meta /\
  (forall tm m vs, m_topdown meta = Some tm -> compute tm m = Ok vs -> Forall (fun v => tv_name v <> TSC_EVENT_NAME) vs).
Proof.
  intros (Hn & Hvs & _). unfold series_names in Hn. rewrite elem_of_app in Hn. split; [tauto|].
  intros tm m vs Htm Hc. apply Forall_forall. intros v Hv E. apply Hn. right. unfold topdown_keys. rewrite Htm -(Hvs tm m vs Htm Hc) -E.
  exact (list_elem_of_fmap_2 tv_name _ _ Hv).
Qed.

Lemma indices_length route (t : Transaction) indices :
  (if (route_len route <? length (counters t))%nat
   then ix ← or_raise AttributeError_ (tindex t); or_raise TypeError_ (conflateRoutes (iroute ix) route)
   else Ok (seq 0 (route_len route))) = Ok indices -> length indices = route_len route.
Proof.
  destruct (_ <? _)%nat; [|intros [= <-]; apply length_seq].
  intros H. apply bind_Ok in H as (ix & _ & H%or_raise_Ok). by apply conflateRoutes_length in H.
Qed.

(** A timeline made of a transaction: a point for every probe of the route, steps but for the last. *)
Definition timeline_made (meta : Meta F) (route : Route) (t : Transaction) (tl : Timeline F) : Prop :=
  tl_txn tl = t /\ tl_txnId tl = txnId t /\ length (tl_points tl) = route_len route /\ counters t <> [] /\
  (m_topdown meta = None -> exists pts final, tl_points tl = pts ++ [final] /\ Forall (step_of (length (m_events meta))) pts).

(** A timeline whose row can be shown. *)
Definition timeline_ready (tl : Timeline F) : Prop :=
  (exists pts final, tl_points tl = pts ++ [final] /\ Forall point_ok pts /\ tp_pmcNames final = None) /\
  (exists e, tl_endpoint tl = Some e /\ point_ok e) /\ is_Some (tl_inception tl).

Lemma build_txn_keeps (sc : TxnSubCollection (Meta F)) route probes r0 pre tls r inc t st :
  route_len route = length probes -> reportable (sc_meta sc) -> (probes <> [] -> repo_inv (sc_meta sc) (length probes) r0 pre r) ->
  revents r = m_events (sc_meta sc) ->
  build_txn sc route probes (tls, r, inc) t = Ok st ->
  probes <> [] /\ repo_inv (sc_meta sc) (length probes) r0 (pre ++ [t]) st.1.2 /\
  exists tl, st.1.1 = tls ++ [tl] /\ timeline_ready tl /\ timeline_made (sc_meta sc) route t tl.
Proof.
  intros Hroute Hm Hinv He H. unfold build_txn in H. apply bind_Ok in H as (tl0 & Htl & H).
  apply bind_Ok in H as (indices & Hind & H). apply indices_length in Hind. rewrite Hroute in Hind.
  apply bind_Ok in H as ([[[points e] first] repo'] & Hb & H).
  apply bind_Ok in H as ([inception inc'] & _ & [= <-]). cbn [fst snd].
  assert (Hne : probes <> []).
  { intros E. rewrite E in Hind. destruct indices; [|done]. by cbn in Hb. }
  destruct (Hinv Hne) as [Hsz Hk _ Hns Htk _]. rewrite -Hind in Hsz. destruct (no_wall _ Hm) as [Hev Htd].
  destruct (buildTimeline_adds _ _ _ _ _ (m_events (sc_meta sc)) eq_refl Hev Htd _ _ _ _ _ _ _ He Hsz Hb)
    as (pts & final & -> & Hpl & Hok & Heok & Hfl & Hfe & Hfinal & Hplain & Ha).
  destruct (run_adds_valued _ _ _ Ha) as (Hval & _ & Hk'). split; [done|]. split.
  - split.
    + rewrite -Hind. by apply (proj2 (run_adds_keeps _ _ _ _ Ha)).
    + by rewrite Hk' Hk.
    + by rewrite (proj1 (run_adds_keeps 0 _ _ _ Ha)).
    + by rewrite (run_adds_names _ _ _ Ha).
    + by rewrite (run_adds_topdown _ _ _ Ha).
    + intros _ name i Hname Hi. rewrite length_app /= in Hpl.
      destruct (groups_cover (sc_meta sc) pts e name i Hm Hok Heok Hfl Hfe Hname ltac:(lia)) as (d & Hd). exact (Hval _ Hd).
  - eexists. split; [done|]. cbn. split; [split_and!; [by exists pts, final|by exists e|by eexists]|].
    unfold Timeline_init in Htl. apply bind_Ok in Htl as (c & Hc%py_nth_Ok & [= <-]).
    split_and!; [done|done|by rewrite /= Hpl Hind Hroute|by intros E; rewrite E in Hc|].
    intros Hno. exists pts, final. split; [done|]. eapply Forall_impl; [exact Hplain|]. intros tp Hs. exact (Hs Hno).
Qed.

(** Statistics of some transactions are filled, and their timelines can be shown. *)
Lemma stats_ready category route probes (sc : TxnSubCollection (Meta F)) tls :
  route_len route = length probes -> reportable (sc_meta sc) -> transactions sc <> [] ->
  buildTimelineStats category route probes sc = Ok tls ->
  series_ready (length probes) tls /\ timelineCollection tls <> [] /\ Forall timeline_ready (timelineCollection tls) /\
  Forall2 (timeline_made (sc_meta sc) route) (transactions sc) (timelineCollection tls) /\
  rtopdownKeys (deltaSeriesRepo tls) = topdown_keys (sc_meta sc).
Proof.
  intros Hroute Hm Hne H. unfold buildTimelineStats in H. fold (topdown_keys (sc_meta sc)) in H.
  set (r0 := DeltaSeriesRepo_init (m_events (sc_meta sc)) (topdown_keys (sc_meta sc)) probes) in *.
  apply bind_Ok in H as ([[tl repo] inc] & H & [= <-]). cbn [timelineCollection].
  destruct (init_keys (m_events (sc_meta sc)) (topdown_keys (sc_meta sc)) probes) as [Hd Hks]. fold r0 in Hd, Hks.
  cut ((probes <> [] -> repo_inv (sc_meta sc) (length probes) r0 (transactions sc) repo) /\
    revents repo = m_events (sc_meta sc) /\ (transactions sc <> [] -> probes <> []) /\
    Forall timeline_ready tl /\ Forall2 (timeline_made (sc_meta sc) route) (transactions sc) tl).
  { intros (Hinv & _ & Hp & Htl & Hid). specialize (Hp Hne). destruct (Hinv Hp) as [Hsz Hk _ Hns Htk Hval]. specialize (Hval Hne).
    split_and!; [|by destruct Hid|done|done|exact Htk].
    assert (Hdr : distinct_keys String.eqb (seriesMap repo)) by (refine (distinct_keys_transfer _ _ _ _ Hd); exact (eq_sym Hk)).
    split; cbn [deltaSeriesRepo].
    - intros [name c] Hin. cbn [snd]. pose proof (od_get_member String.eqb _ _ _ Hdr Hin) as Hg. split; [exact (Hsz _ _ Hg)|].
      apply Forall_lookup. intros i s Hs.
      assert (Hname : name ∈ TSC_EVENT_NAME :: series_names (sc_meta sc)).
      { apply Hks. rewrite -Hk. exact (list_elem_of_fmap_2 fst _ _ Hin). }
      destruct (Hval name i Hname) as (c' & s' & Hc' & Hs' & Hv); [rewrite -(Hsz _ _ Hg); by apply lookup_lt_Some in Hs|].
      rewrite Hg in Hc'. injection Hc' as <-. rewrite Hs in Hs'. by injection Hs' as <-.
    - intros name Hname. rewrite Hns in Hname. apply Hks in Hname. rewrite -Hk in Hname.
      destruct (od_get String.eqb name (seriesMap repo)) eqn:E; [by eexists|]. apply od_get_None in E.
      rewrite Forall_forall in E. specialize (E name Hname). by rewrite String.eqb_refl in E. }
  change tl with (tl, repo, inc).1.1. change repo with (tl, repo, inc).1.2. revert H.
  apply (mfor_inv_prefix _ (fun pre st => (probes <> [] -> repo_inv (sc_meta sc) (length probes) r0 pre st.1.2) /\
    revents st.1.2 = m_events (sc_meta sc) /\ (pre <> [] -> probes <> []) /\
    Forall timeline_ready st.1.1 /\ Forall2 (timeline_made (sc_meta sc) route) pre st.1.1)).
  - clear tl repo inc. intros pre t post [[tl repo] inc] st1 _ (Hinv & He & _ & Htl & Hid) H. cbn [fst snd] in *.
    destruct (build_txn_keeps sc route probes r0 pre tl repo inc t st1 Hroute Hm Hinv He H) as (Hp & Hri & tl1 & -> & Hr & Hid1).
    split_and!; [done|exact (ri_events _ _ _ _ _ Hri)|done|by apply Forall_app; split; [|by constructor]|].
    apply Forall2_app; [done|]. by constructor.
  - split_and!; [|done|done|constructor|done]. intros Hp. by split; [apply init_sized| | | | |].
Qed.

Lemma made_ids meta route ts tls : Forall2 (timeline_made meta route) ts tls -> tl_txnId <$> tls = txnId <$> ts.
Proof. induction 1 as [|t tl ts tls (_ & H & _) _ IH]; cbn; [done|]. by rewrite H IH. Qed.
End Filled.

