(* ===== verification/Report.v ===== *)
(** * Reports

    Models report/reportbuilder.py, report/stats.py, report/flot.py, the report container and
    [generate] of report/__init__.py, the markers of report/markup.py, the table of
    report/diff.py, and [ReportGenerator.generateReport] of profiler/reportgenerator.py.

    A table is the list of its rows, a cell the format string and the values the code
    formats; turning them into html text is left to the html library.  What numpy computes
    from a series is a parameter, and so are the unique ids, which the code takes from the
    clock. *)

From Stdlib Require Import Ascii.
From S2P Require Import Prelude PyStr Probe Route Txn Aggregate Timeline Conflate Rebuild Analyze Profiles Histogram Topdown Filled.

(** ** Markup *)

Definition TABLE_SUMMARY : string := "tableSummary tablesorter".
Definition TRIVIAL_STATS_TABLE : string := "trivialStatsTable".
Definition TIME_POINT_STATS : string := "timePointStats-".
Definition TABLE_ROW_NO : string := "tableRowNo".
Definition TABLE_ROW_DATA : string := "tableRowData".
Definition TD_PMU_NAME : string := "pmn".
Definition TD_PMU_VALUE : string := "pmv".
Definition TH_DEBUG : string := "thDebug".
Definition TD_DEBUG : string := "tdDebug".
Definition TD_KEY : string := "tdKey".
Definition TD_END : string := "tdEnd".
Definition POSITIVE_DELTA : string := "positiveDelta".
Definition NEUTRAL_DELTA : string := "neutralDelta".
Definition NEGATIVE_DELTA : string := "negativeDelta".
Definition DURATION_FORMAT : string := "{0:4,.3f}".
Definition DURATION_FORMAT_2 : string := "{2:4,.3f}".
Definition DELTA_FORMAT_1 : string := "{0:4,.0f}".
Definition DELTA_FORMAT_2 : string := "{2:4,.0f}".

Inductive ResultOrder := Chronological | WorstToBest | BestToWorst | TransactionId.

#[export] Instance ResultOrder_eq_dec : EqDecision ResultOrder.
Proof. solve_decision. Defined.

Section Report.
Context {F : Type} {HF : PyFloat F}.

(** ** Numbers: pmu counters are integers, the rest floats *)

Definition delta_val (d : Delta F) : F :=
  match d with DFlt x => x | DPmc (Some z) => f_of_Z z | DPmc None => f_nan end.
Definition delta_lt (a b : Delta F) : bool :=
  match a, b with DPmc (Some x), DPmc (Some y) => x <? y | _, _ => f_lt (delta_val a) (delta_val b) end.
Definition delta_sub (a b : Delta F) : Delta F :=
  match a, b with DPmc (Some x), DPmc (Some y) => DPmc (Some (x - y)) | _, _ => DFlt (f_sub (delta_val a) (delta_val b)) end.

(** Five hundredths. *)
Definition DELTA_LIMIT : F := f_div (f_of_Z 5) (f_of_Z 100).

Definition getDeltaMarkup (delta : Delta F) : string :=
  if f_lt (f_of_Z 0) (delta_val delta) then "+" else "".
Definition getDeltaType (delta : Delta F) : string :=
  if f_lt DELTA_LIMIT (delta_val delta) then POSITIVE_DELTA
  else if f_lt (delta_val delta) (f_sub (f_of_Z 0) DELTA_LIMIT) then NEGATIVE_DELTA else NEUTRAL_DELTA.

(** ** Cells *)

Inductive Arg := AStr (s : string) | AInt (z : Z) | ANum (d : Delta F).
Record PmcRow := mkPmcRow { pr_name : string; pr_format : string; pr_value : Delta F }.
Inductive Cell :=
| Td (klass : option string) (fmt : string) (args : list Arg)
| Anchor (klass : option string) (fmt : string) (args : list Arg) (title : list PmcRow) (cellId : string).
Record HeadCell := mkHeadCell { th_text : string; th_rowspan : string; th_colspan : string; th_klass : string }.

Definition key_cell (s : string) : Cell := Td (Some TD_KEY) "{}" [AStr s].
Definition number_cell (z : Z) : Cell := Td (Some TD_KEY) "{0:,}" [AInt z].

(** ** The statistics of a series *)

(** What numpy gives for a series that is not empty. *)
Record NumpyStats := mkNumpyStats { np_median : F; np_mean : F; np_std : F; np_percentile : Z -> F }.
Context (numpy : list (Delta F) -> NumpyStats).

(** [min] and [max] keep the first of equals. *)
Definition py_least (x : Delta F) (l : list (Delta F)) : Delta F :=
  fold_left (fun m y => if delta_lt y m then y else m) l x.
Definition py_greatest (x : Delta F) (l : list (Delta F)) : Delta F :=
  fold_left (fun m y => if delta_lt m y then y else m) l x.

(** The statistics are [None] as long as the series is empty. *)
Definition getMin (s : DeltaSeries F) : option (Delta F) :=
  match series s with [] => None | x :: l => Some (py_least x l) end.
Definition getMax (s : DeltaSeries F) : option (Delta F) :=
  match series s with [] => None | x :: l => Some (py_greatest x l) end.
Definition np_stat (f : NumpyStats -> F) (s : DeltaSeries F) : option (Delta F) :=
  match series s with [] => None | l => Some (DFlt (f (numpy l))) end.
Definition getMedian : DeltaSeries F -> option (Delta F) := np_stat np_median.
Definition getMean : DeltaSeries F -> option (Delta F) := np_stat np_mean.
Definition getPercentile (percentile : Z) : DeltaSeries F -> option (Delta F) := np_stat (fun n => np_percentile n percentile).
Definition getStandardDeviation : DeltaSeries F -> option (Delta F) := np_stat np_std.

Definition percentile1 : Z := 95.
Definition percentile2 : Z := 99.
Definition stat_columns : list (DeltaSeries F -> option (Delta F)) :=
  [getMin; getMax; getMedian; getMean; getPercentile percentile1; getPercentile percentile2; getStandardDeviation].
Definition buildStatsTableHeader : list string :=
  ["No"; "Begin probe"; "End probe"; "Min"; "Max"; "Median"; "Mean";
   String.append (print_int 10 percentile1) "%"; String.append (print_int 10 percentile2) "%"; "Standard Deviation"].

Record StatsTable := mkStatsTable { st_klass : string; st_style : string; st_header : list string; st_rows : list (list Cell) }.

Definition series_cells (i : nat) (s : DeltaSeries F) : list Cell :=
  [number_cell (Z.of_nat i); key_cell (beginProbeName s); key_cell (endProbeName s)].

(** Formatting [None] is a TypeError. *)
Definition trivial_cell (s : DeltaSeries F) (get : DeltaSeries F -> option (Delta F)) : result Cell :=
  v ← or_raise TypeError_ (get s); Ok (Td None DURATION_FORMAT [ANum v]).

Definition buildTrivialStatsTable (c : DeltaSeriesCollection (F := F)) (klass style : string) : result StatsTable :=
  rows ← mmap (fun '(i, s) => cells ← mmap (trivial_cell s) stat_columns; Ok (series_cells (S i) s ++ cells))
           (imap pair (deltaSeriesList c));
  Ok (mkStatsTable (String.append TABLE_SUMMARY (String.append " " klass)) style buildStatsTableHeader rows).

(** A value next to its difference from the reference. *)
Definition delta_cell (fmt : string) (value ref : Delta F) : Cell :=
  let delta := delta_sub value ref in
  Td (Some (getDeltaType delta)) fmt [ANum value; AStr (getDeltaMarkup delta); ANum delta].

Definition delta_format (value difference : string) : string :=
  String.append value (String.append " ({1}" (String.append difference ")")).

Definition differential_cell (s : DeltaSeries F) (refDsc : DeltaSeriesCollection (F := F)) (i : nat)
    (get : DeltaSeries F -> option (Delta F)) : result Cell :=
  ref ← py_nth (deltaSeriesList refDsc) i;
  v ← or_raise TypeError_ (get s); r ← or_raise TypeError_ (get ref);
  Ok (delta_cell (delta_format DURATION_FORMAT DURATION_FORMAT_2) v r).

Definition buildDifferentialStatsTable (c refDsc : DeltaSeriesCollection (F := F)) (klass style : string)
    : result StatsTable :=
  rows ← mmap (fun '(i, s) => cells ← mmap (differential_cell s refDsc i) stat_columns; Ok (series_cells (S i) s ++ cells))
           (imap pair (deltaSeriesList c));
  Ok (mkStatsTable (String.append TABLE_SUMMARY (String.append " " klass)) style buildStatsTableHeader rows).

(** The table against one benchmark; an empty or missing collection is no reference. *)
Definition benchmark_table (eventName : string) (c : DeltaSeriesCollection (F := F)) (benchmarkIndex : nat)
    (tls : TimelineStats F) : result StatsTable :=
  let klass := String.append TIME_POINT_STATS (print_int 10 (Z.of_nat benchmarkIndex)) in
  let style := String.append "display: " (if (benchmarkIndex =? 0)%nat then "table" else "none") in
  match od_get String.eqb eventName (seriesMap (deltaSeriesRepo tls)) with
  | Some ref => match deltaSeriesList ref with
                | [] => buildTrivialStatsTable c klass style
                | _ => buildDifferentialStatsTable c ref klass style
                end
  | None => buildTrivialStatsTable c klass style
  end.

(** [_buildStatsTable]. *)
Definition event_tables (eventName : string) (c : DeltaSeriesCollection (F := F))
    (benchmarkTlsMap : list (string * TimelineStats F)) : result (list StatsTable) :=
  match benchmarkTlsMap with
  | [] => t ← buildTrivialStatsTable c TRIVIAL_STATS_TABLE ""; Ok [t]
  | _ => mmap (fun '(i, p) => benchmark_table eventName c i p.2) (imap pair benchmarkTlsMap)
  end.

Record StatsReport := mkStatsReport {
  sr_category : string; sr_count : nat; sr_benchmarks : list string;
  sr_tabs : list (string * list StatsTable)   (* the tables of every event *)
}.

Definition getTscDeltaSeriesCollection (tls : TimelineStats F) : result (DeltaSeriesCollection (F := F)) :=
  or_raise KeyError_ (od_get String.eqb TSC_EVENT_NAME (seriesMap (deltaSeriesRepo tls))).

(** [buildStatsTable]: one tab for every event, or the wall time alone. *)
Definition buildStatsTable (category : string) (tls : TimelineStats F) (benchmarkTlsMap : list (string * TimelineStats F))
    : result StatsReport :=
  tabs ← (if (1 <? length (seriesMap (deltaSeriesRepo tls)))%nat
          then mmap (fun p => t ← event_tables p.1 p.2 benchmarkTlsMap; Ok (p.1, t)) (seriesMap (deltaSeriesRepo tls))
          else c ← getTscDeltaSeriesCollection tls; t ← event_tables TSC_EVENT_NAME c benchmarkTlsMap;
               Ok [(TSC_EVENT_NAME, t)]);
  Ok (mkStatsReport category (length (timelineCollection tls)) benchmarkTlsMap.*1 tabs).

(** ** The table of timelines *)

Definition getName (p : Probe) : string := if String.eqb (pname p) "" then getCanonicalName p else pname p.

(** [buildBreakupTableHeader]: one row of headings, two with time lines. *)
Definition buildBreakupTableHeader (probes : list Probe) (logAbsoluteValues logTimeline logData : bool)
    : list (list HeadCell) :=
  let span := if logTimeline then "2" else "1" in
  let n := length probes in
  let th text klass := mkHeadCell text span "" klass in
  let probe_cell (ip : nat * Probe) :=
    if (ip.1 <? n - 1)%nat then [mkHeadCell (getName ip.2) "" span ""]
    else if logTimeline then [mkHeadCell (getName ip.2) "" "1" ""] else [] in
  let line_cells (ip : nat * Probe) :=
    mkHeadCell "time line (us)" "" "" "" :: (if (ip.1 <? n - 1)%nat then [mkHeadCell "duration (us)" "" "" ""] else []) in
  ([th "No" TABLE_ROW_NO; th "Transaction Id" TABLE_ROW_DATA] ++ (if logData then [th "Data" TABLE_ROW_DATA] else []) ++
   [th "Time stamp (ms)" TABLE_ROW_DATA] ++ (imap pair probes ≫= probe_cell) ++ [th "Total time (us)" ""] ++
   (if logAbsoluteValues then (fun p => th (String.append (pname p) " (tsc)") TH_DEBUG) <$> probes else [])) ::
  (if logTimeline then [imap pair probes ≫= line_cells] else []).

(** [buildPmcTable]: topdown values first. *)
Definition buildTopdownRows (vs : list (TopdownValue F)) : list PmcRow :=
  (fun v => mkPmcRow (tv_name v) DURATION_FORMAT (DFlt (tv_value v))) <$> vs.
Definition buildPmcRows (names : list string) (values : list (option Z)) : result (list PmcRow) :=
  mmap (fun '(i, name) => v ← py_nth values i; Ok (mkPmcRow name "{:,}" (DPmc v))) (imap pair names).
Definition buildPmcTable (names : list string) (values : option (list (option Z))) (td : option (list (TopdownValue F)))
    : result (list PmcRow) :=
  rows ← (match values with None | Some [] => Ok [] | Some vs => buildPmcRows names vs end);
  Ok (buildTopdownRows (default [] td) ++ rows).

Definition cell_id (uid : string) (xAxis yAxis : nat) : string :=
  py_join "-" ["tp"; uid; print_int 10 (Z.of_nat xAxis); print_int 10 (Z.of_nat yAxis)].

(** [buildTimepointCell]: pmu counters are shown in a title. *)
Definition buildTimepointCell (uid : string) (xAxis yAxis : nat) (tp : TimePoint F) (klass : option string) : result Cell :=
  let args := [ANum (DFlt (tp_duration tp))] in
  match tp_pmcNames tp with
  | Some (n :: names) =>
      title ← buildPmcTable (n :: names) (tp_deltaPmcs tp) (tp_topdown tp);
      Ok (Anchor klass DURATION_FORMAT args title (cell_id uid xAxis yAxis))
  | _ => Ok (Td klass DURATION_FORMAT args)
  end.

(** The cells of the time points; the last one has no duration. *)
Definition point_cells (uid : string) (logTimeline : bool) (n i : nat) (jtp : nat * TimePoint F) : result (list Cell) :=
  let '(j, tp) := jtp in
  dur ← (if (j <? n - 1)%nat then c ← buildTimepointCell uid i j tp None; Ok [c] else Ok []);
  Ok ((if logTimeline then [Td None DURATION_FORMAT [ANum (DFlt (tp_point tp))]] else []) ++ dur).

Definition absolute_cell (t : Transaction) (jp : nat * Probe) : result Cell :=
  let '(j, probe) := jp in
  counter ← py_nth (counters t) j;
  same ← probe_eq probe (cprobe counter);
  if negb same then Raise InvariantViloation else Ok (Td (Some TD_DEBUG) "{}" [AInt (tsc counter)]).

(** A text has no thousands. *)
Definition id_cell (i : TxnId) : result Cell :=
  match i with IdInt z => Ok (Td (Some TD_KEY) "{:,}" [AInt z]) | IdStr _ => Raise ValueError_ end.

(** One row of the table.  A timeline has no attribute data. *)
Definition timeline_row (probes : list Probe) (uid : string) (logAbsoluteValues logTimeline logData : bool)
    (i : nat) (tl : Timeline F) : result (list Cell) :=
  id ← id_cell (tl_txnId tl);
  if logData then Raise AttributeError_
  else
    inception ← or_raise TypeError_ (tl_inception tl);
    let n := length (tl_points tl) in
    points ← mmap (point_cells uid logTimeline n i) (imap pair (tl_points tl));
    endpoint ← or_raise AttributeError_ (tl_endpoint tl);
    last ← buildTimepointCell uid i (n - 1) endpoint (Some TD_END);
    absolute ← (if logAbsoluteValues then mmap (absolute_cell (tl_txn tl)) (imap pair probes) else Ok []);
    Ok ([number_cell (Z.of_nat i); id; Td (Some TD_KEY) "{:,}" [AInt inception]] ++
        concat points ++ [last] ++ absolute).

(** [reorderTimelineRecords]. *)
Definition float_leb (x y : F) : bool := negb (f_lt y x).
Definition reorderTimelineRecords (tls : list (Timeline F)) (resultOrder : ResultOrder) : result (list (Timeline F)) :=
  let keyed := mmap (fun tl => d ← tl_duration tl; Ok (d, tl)) tls in
  match resultOrder with
  | Chronological => Ok tls
  | WorstToBest => ks ← keyed; Ok (py_sort (fun a b : F * Timeline F => float_leb b.1 a.1) ks).*2
  | BestToWorst => ks ← keyed; Ok (py_sort (fun a b : F * Timeline F => float_leb a.1 b.1) ks).*2
  | TransactionId =>
      match mapM (fun tl => match tl_txnId tl with IdInt z => Some (z, tl) | IdStr _ => None end) tls,
            mapM (fun tl => match tl_txnId tl with IdStr s => Some (s, tl) | IdInt _ => None end) tls with
      | Some ks, _ => Ok (py_sort (key_leb (A := Z * Timeline F) fst) ks).*2
      | None, Some ks => Ok (py_sort (fun a b : string * Timeline F => str_leb a.1 b.1) ks).*2
      | None, None => Raise TypeError_
      end
  end.

(** The rows, from number [i] on, until the threshold is reached. *)
Fixpoint table_rows (row : nat -> Timeline F -> result (list Cell)) (threshold : Z) (i : nat) (tls : list (Timeline F))
    : result (list (list Cell)) :=
  match tls with
  | [] => Ok []
  | tl :: tls =>
      r ← row i tl;
      if threshold <=? Z.of_nat i then Ok [r] else rs ← table_rows row threshold (S i) tls; Ok (r :: rs)
  end.

Record TimelineTable := mkTimelineTable { tt_header : list (list HeadCell); tt_rows : list (list Cell) }.

Definition buildTimelineTable (tls : TimelineStats F) (probes : list Probe) (resultOrder : ResultOrder) (threshold : Z)
    (uid : string) (logAbsoluteValues logTimeline logData : bool) : result TimelineTable :=
  ordered ← reorderTimelineRecords (timelineCollection tls) resultOrder;
  rows ← table_rows (timeline_row probes uid logAbsoluteValues logTimeline logData) threshold 1 ordered;
  Ok (mkTimelineTable (buildBreakupTableHeader probes logAbsoluteValues logTimeline logData) rows).

(** [buildPmuScript]: the id and the bounds of the script's loops. *)
Definition buildPmuScript (tls : list (Timeline F)) (uid : string) : result (option (string * nat * nat)) :=
  timeline ← py_nth tls 0;
  timepoint ← py_nth (tl_points timeline) 0;
  Ok (match tp_pmcNames timepoint with
      | Some (_ :: _) => Some (uid, length tls, (length (tl_points timeline) + 1)%nat)
      | _ => None
      end).

(** ** Plots *)

Record FlotSeries := mkFlotSeries { fs_label : string; fs_data : list (nat * Delta F) }.
Record Flot := mkFlot {
  fl_category : string; fl_title : string; fl_uid : string;
  fl_constituents : list string;
  fl_data : list (list (string * FlotSeries));
  fl_choice : string
}.

Definition flot_id (name uid : string) : string := String.append name (String.append "_" uid).
Definition buildFlotSeriesMap (l : list (string * DeltaSeries F)) (uid : string) : list (string * FlotSeries) :=
  fold_left (fun m (p : string * DeltaSeries F) =>
    od_set String.eqb (flot_id p.1 uid) (mkFlotSeries p.1 (zip (seq 0 (length (series p.2))) (series p.2))) m) l [].

(** [buildFlotTitle] and [buildFlot]. *)
Definition buildFlot (category title : string) (tls : TimelineStats F) (uid : string)
    (flotData : list (list (string * FlotSeries))) (flotChoiceName : option string) : result Flot :=
  c ← getTscDeltaSeriesCollection tls;
  Ok (mkFlot category title uid
    ((fun s => String.append (beginProbeName s) (String.append " -> " (endProbeName s))) <$> deltaSeriesList c)
    flotData (default uid flotChoiceName)).

Definition isEventsEnabled (tls : TimelineStats F) : bool := bool_decide (eventNames (deltaSeriesRepo tls) <> []).

Definition benchmark_series (i : nat) (p : string * TimelineStats F) : result (string * DeltaSeries F) :=
  c ← getTscDeltaSeriesCollection p.2; s ← py_nth (deltaSeriesList c) i; Ok (p.1, s).

Definition pmu_series (tls : TimelineStats F) (i : nat) (eventName : string) : result (string * DeltaSeries F) :=
  c ← or_raise KeyError_ (od_get String.eqb eventName (seriesMap (deltaSeriesRepo tls)));
  s ← py_nth (deltaSeriesList c) i; Ok (eventName, s).

Definition buildPMUFlot (category : string) (tls : TimelineStats F) (uid : string) : result Flot :=
  let uid := String.append "pmu_" uid in
  c ← getTscDeltaSeriesCollection tls;
  data ← mmap (fun '(i, s) => l ← mmap (pmu_series tls i) (eventNames (deltaSeriesRepo tls));
                              Ok (buildFlotSeriesMap (("wall time(us)"%string, s) :: l) uid)) (imap pair (deltaSeriesList c));
  buildFlot category "PMU Counters" tls uid data (Some "pmu counter"%string).

Definition buildBenchmarkFlot (category : string) (tls : TimelineStats F) (benchmarkTlsMap : list (string * TimelineStats F))
    (uid : string) : result (list Flot) :=
  let id := String.append "benchmark_" uid in
  c ← getTscDeltaSeriesCollection tls;
  data ← mmap (fun '(i, s) => l ← mmap (benchmark_series i) benchmarkTlsMap;
                              Ok (buildFlotSeriesMap ((ts_name tls, s) :: l) id)) (imap pair (deltaSeriesList c));
  flot ← buildFlot category "Transaction latency" tls id data None;
  if isEventsEnabled tls then pmu ← buildPMUFlot category tls uid; Ok [flot; pmu] else Ok [flot].

(** ** The difference of two transactions *)

Record DiffTable := mkDiffTable { df_title : string; df_header : list string; df_rows : list (list Cell) }.

(** The header names what the endpoint carries. *)
Definition buildDiffTableHeader (txn : Timeline F) : result (list string) :=
  e ← or_raise AttributeError_ (tl_endpoint txn);
  Ok (["Begin Probe"; "End Probe"; "Wall Time"]%string ++ default [] (tp_pmcNames e) ++
      (tv_name <$> default [] (tp_topdown e))).

Definition diff_pmcs (l r : TimePoint F) : result (list Cell) :=
  mmap (fun '(j, delta) =>
    ls ← or_raise TypeError_ (tp_deltaPmcs l); other ← py_nth ls j;
    Ok (delta_cell (delta_format DELTA_FORMAT_1 DELTA_FORMAT_2) (DPmc delta) (DPmc other))) (imap pair (default [] (tp_deltaPmcs r))).

Definition diff_topdown (l r : TimePoint F) : result (list Cell) :=
  mmap (fun '(j, v) =>
    ls ← or_raise TypeError_ (tp_topdown l); other ← py_nth ls j;
    Ok (delta_cell (delta_format DURATION_FORMAT DURATION_FORMAT_2) (DFlt (tv_value v)) (DFlt (tv_value other))))
    (imap pair (default [] (tp_topdown r))).

Definition diff_row (lhs rhs : Timeline F) (i : nat) : result (list Cell) :=
  r ← py_nth (tl_points rhs) i; next ← py_nth (tl_points rhs) (S i); l ← py_nth (tl_points lhs) i;
  pmcs ← diff_pmcs l r;
  td ← diff_topdown l r;
  Ok ([Td None "{}" [AStr (tp_name r)]; Td None "{}" [AStr (tp_name next)];
       delta_cell (delta_format DURATION_FORMAT DURATION_FORMAT_2) (DFlt (tp_duration r)) (DFlt (tp_duration l))] ++ pmcs ++ td).

(** The text of an id. *)
Definition id_text (i : TxnId) : string := match i with IdInt z => print_int 10 z | IdStr s => s end.

Definition buildDiffTable (lhs rhs : Timeline F) : result DiffTable :=
  header ← buildDiffTableHeader rhs;
  rows ← mmap (diff_row lhs rhs) (seq 0 (length (tl_points lhs) - 1));
  Ok (mkDiffTable (String.append "Transaction diff" (String.append (of_chars ["010"%char]) (String.append "txn #"
        (String.append (id_text (tl_txnId lhs)) (String.append " vs txn #" (id_text (tl_txnId rhs))))))) header rows).

(** ** The report of a profile *)

Record ReportDoc := mkReportDoc {
  rd_stats : StatsReport; rd_flots : list Flot; rd_title : string;
  rd_script : option (string * nat * nat); rd_table : TimelineTable
}.

(** [buildReport]; [uids] are the unique ids of the table and of the plots. *)
Definition buildReport (tls : TimelineStats F) (benchmarkTlsMap : list (string * TimelineStats F)) (probes : list Probe)
    (category : string) (resultOrder : ResultOrder) (threshold : Z) (uids : string * string)
    (logAbsoluteValues logTimeline logData : bool) : result ReportDoc :=
  table ← buildTimelineTable tls probes resultOrder threshold uids.1 logAbsoluteValues logTimeline logData;
  ordered ← reorderTimelineRecords (timelineCollection tls) resultOrder;
  pmuScript ← buildPmuScript ordered uids.1;
  flots ← buildBenchmarkFlot category tls benchmarkTlsMap uids.2;
  stats ← buildStatsTable category tls benchmarkTlsMap;
  Ok (mkReportDoc stats flots (String.append category " Transaction Time lines") pmuScript table).

(** ** The report of a session *)

Record Markup := mkMarkup { mk_name : string; mk_title : string; mk_description : string; mk_content : ReportDoc }.
Record Category (H : Type) := mkCategory { ct_name : string; ct_histogram : H; ct_routes : list Markup }.
Arguments mkCategory {H}.
Arguments ct_name {H}.
Arguments ct_histogram {H}.
Arguments ct_routes {H}.

Definition addRoute {H} (m : Markup) (c : Category H) : Category H :=
  mkCategory (ct_name c) (ct_histogram c) (ct_routes c ++ [m]).

(** [size] is the readable length of the rendered report, [uids] its unique ids. *)
Context (size : ReportDoc -> string) (uids : string -> string * string).

Definition profile_title (p : Profile F) : string :=
  String.append (p_name p) (String.append " latency statistics ["
    (String.append (print_int 10 (Z.of_nat (length (timelineCollection (p_current p))))) " transactions]")).

Definition profile_markup (resultOrder : ResultOrder) (threshold : Z) (p : Profile F) : result Markup :=
  doc ← buildReport (p_current p) (p_benchmarks p) (ts_reportProbes (p_current p)) (p_name p) resultOrder threshold
          (uids (p_name p)) false false false;
  let title := String.append (profile_title p) (String.append " - (" (String.append (size doc) ")")) in
  let indent := of_chars ["010"%char; "009"%char] in
  Ok (mkMarkup (p_name p) title (String.append indent (String.append title indent)) doc).

(** [generate]: a profile whose category has no histogram is left out. *)
Definition generate {H} (histograms : list (string * H)) (profiles : list (Profile F)) (resultOrder : ResultOrder)
    (threshold : Z) : result (list (string * Category H)) :=
  mfor (fun categories p =>
    if od_mem String.eqb (ts_category (p_current p)) categories
    then m ← profile_markup resultOrder threshold p;
         Ok (od_alter String.eqb (addRoute m) (ts_category (p_current p)) categories)
    else Ok categories) ((fun h => (h.1, mkCategory h.1 h.2 [])) <$> histograms) profiles.

(** [ReportGenerator.generateReport]: the profiles and the categories of the report. *)
Definition CURRENT_RUN : string := "current run".

Definition generateReport `{HH : RouteHash} (fuel : nat) (reportName : string) (repo : TxnRepo (Meta F)) (classifier : Classifier)
    (resultOrder : ResultOrder) (reportThreshold : Z) (txnFilter : option (string -> Transaction -> bool))
    (routeConflation : RouteConflation) : result (list (Profile F) * list (string * Category (list (string * list Z)))) :=
  repo ← (match txnFilter with Some f => r ← filterTxns m_name f repo; Ok r.2 | None => Ok repo end);
  cur ← getCurrent repo;
  benchmarks ← getBenchmarks repo;
  h ← or_raise AttributeError_ (currentCollection repo);
  if (negb (isCurrent repo h) || negb (String.eqb (m_name (tc_meta cur)) CURRENT_RUN))%bool then Raise InvariantViloation
  else
    bundles ← buildElapsedTimeBundles (cur :: benchmarks.*2) classifier;
    histograms ← generateHistograms fuel ((m_name ∘ tc_meta) <$> cur :: benchmarks.*2) bundles;
    profiles ← generateProfiles reportName cur benchmarks classifier routeConflation;
    categories ← generate histograms profiles resultOrder reportThreshold;
    Ok (profiles, categories).
End Report.

(** ** Reports of built statistics are shown *)

Section Shown.
Context {F : Type} {HF : PyFloat F} (numpy : list (Delta F) -> NumpyStats (F := F)).

Lemma stat_some (get : DeltaSeries F -> option (Delta F)) s : get ∈ stat_columns numpy -> series s <> [] -> is_Some (get s).
Proof.
  intros Hget Hs. unfold stat_columns in Hget. rewrite !elem_of_cons in Hget.
  destruct Hget as [->|[->|[->|[->|[->|[->|[->|[]%not_elem_of_nil]]]]]]];
    rewrite /getMin /getMax /getMedian /getMean /getPercentile /getStandardDeviation /np_stat; by destruct (series s).
Qed.

Lemma trivial_shown (c : DeltaSeriesCollection (F := F)) klass style : Forall (fun s => series s <> []) (deltaSeriesList c) ->
  exists t, buildTrivialStatsTable numpy c klass style = Ok t.
Proof.
  intros Hc. unfold buildTrivialStatsTable. mmap_ok rows; [|by eexists].
  intros [i s] Hin%imap_pair_elem. rewrite Forall_lookup in Hc. specialize (Hc i s Hin). cbn beta iota.
  mmap_ok cells; [|by eexists].
  intros get Hget. unfold trivial_cell. destruct (stat_some get s Hget Hc) as [v ->]. by eexists.
Qed.

Lemma differential_shown (c ref : DeltaSeriesCollection (F := F)) klass style :
  Forall (fun s => series s <> []) (deltaSeriesList c) -> Forall (fun s => series s <> []) (deltaSeriesList ref) ->
  length (deltaSeriesList c) = length (deltaSeriesList ref) -> exists t, buildDifferentialStatsTable numpy c ref klass style = Ok t.
Proof.
  intros Hc Hr Hlen. unfold buildDifferentialStatsTable.
  mmap_ok rows; [|by eexists].
  intros [i s] Hin%imap_pair_elem. rewrite Forall_lookup in Hc. specialize (Hc i s Hin). cbn beta iota.
  destruct (lookup_lt_is_Some_2 (deltaSeriesList ref) i) as [s' Hs']; [rewrite -Hlen; by apply lookup_lt_Some in Hin|].
  rewrite Forall_lookup in Hr. specialize (Hr i s' Hs').
  mmap_ok cells; [|by eexists].
  intros get Hget. unfold differential_cell. rewrite (proj2 (py_nth_Ok _ i s') Hs'). cbn [mbind result_bind].
  destruct (stat_some get s Hget Hc) as [v ->]. destruct (stat_some get s' Hget Hr) as [w ->]. by eexists.
Qed.

Lemma event_tables_shown n name (c : DeltaSeriesCollection (F := F)) (benchs : list (string * TimelineStats F)) :
  length (deltaSeriesList c) = n -> Forall (fun s => series s <> []) (deltaSeriesList c) ->
  Forall (fun b => series_ready n b.2) benchs -> exists ts, event_tables numpy name c benchs = Ok ts.
Proof.
  intros Hlen Hc Hb. unfold event_tables. destruct benchs as [|b benchs].
  { destruct (trivial_shown c TRIVIAL_STATS_TABLE "" Hc) as [t ->]. by eexists. }
  apply mmap_total. intros [i p] Hin%imap_pair_elem.
  rewrite Forall_lookup in Hb. specialize (Hb i p Hin). cbn beta iota. unfold benchmark_table.
  destruct (od_get String.eqb name _) as [ref|] eqn:E; [|by apply trivial_shown].
  apply od_get_elem_of in E as (k & Hk & _). destruct (sy_series _ _ Hb _ Hk) as [Hl Hr]. cbn [snd] in Hl, Hr.
  destruct (deltaSeriesList ref) as [|s l] eqn:El; [by apply trivial_shown|].
  apply differential_shown; [done|by rewrite El|by rewrite Hlen El].
Qed.

Lemma tsc_ready n (tls : TimelineStats F) : series_ready n tls -> exists c, getTscDeltaSeriesCollection tls = Ok c /\
  length (deltaSeriesList c) = n /\ Forall (fun s => series s <> []) (deltaSeriesList c).
Proof.
  intros H. destruct (sy_names _ _ H TSC_EVENT_NAME) as [c Hc]; [left|]. unfold getTscDeltaSeriesCollection. rewrite Hc.
  exists c. split; [done|]. apply od_get_elem_of in Hc as (k & Hk & _). exact (sy_series _ _ H _ Hk).
Qed.

Lemma stats_shown n category (tls : TimelineStats F) benchs : series_ready n tls -> Forall (fun b => series_ready n b.2) benchs ->
  exists r, buildStatsTable numpy category tls benchs = Ok r.
Proof.
  intros H Hb. unfold buildStatsTable. destruct (1 <? _)%nat.
  - mmap_ok tabs; [|by eexists].
    intros p Hp. destruct (sy_series _ _ H _ Hp) as [Hl Hc]. destruct (event_tables_shown n p.1 p.2 benchs Hl Hc Hb) as [ts Hts].
    rewrite Hts. by eexists.
  - destruct (tsc_ready n tls H) as (c & -> & Hl & Hc). cbn [mbind result_bind].
    destruct (event_tables_shown n TSC_EVENT_NAME c benchs Hl Hc Hb) as [ts ->]. by eexists.
Qed.

Lemma flots_shown n category (tls : TimelineStats F) benchs uid : series_ready n tls -> Forall (fun b => series_ready n b.2) benchs ->
  exists l, buildBenchmarkFlot category tls benchs uid = Ok l.
Proof.
  intros H Hb. unfold buildBenchmarkFlot. destruct (tsc_ready n tls H) as (c & Hc & Hl & _). rewrite Hc. cbn [mbind result_bind].
  mmap_ok fd; [|unfold buildFlot at 1; rewrite Hc; cbn [mbind result_bind]].
  - intros [i s] Hin%imap_pair_elem. cbn beta iota. mmap_ok l; [|by eexists].
    intros p Hp. rewrite Forall_forall in Hb. destruct (tsc_ready n p.2 (Hb p Hp)) as (c' & Hc' & Hl' & _).
    destruct (lookup_lt_is_Some_2 (deltaSeriesList c') i) as [s' Hs']; [rewrite Hl' -Hl; by apply lookup_lt_Some in Hin|].
    unfold benchmark_series. rewrite Hc' /=. rewrite (proj2 (py_nth_Ok _ _ s') Hs'). by eexists.
  - destruct (isEventsEnabled tls); [|by eexists]. unfold buildPMUFlot. rewrite Hc. cbn [mbind result_bind].
    mmap_ok pdata; [|unfold buildFlot; rewrite Hc; by eexists].
    intros [i s] Hin%imap_pair_elem. cbn beta iota. mmap_ok l; [|by eexists].
    intros name Hname. destruct (sy_names _ _ H name) as [c' Hc']; [by right|]. unfold pmu_series. rewrite Hc'. cbn [or_raise mbind result_bind].
    apply od_get_elem_of in Hc' as (k & Hk & _). destruct (sy_series _ _ H _ Hk) as [Hl' _]. cbn [snd] in Hl'.
    destruct (lookup_lt_is_Some_2 (deltaSeriesList c') i) as [s' Hs']; [rewrite Hl' -Hl; by apply lookup_lt_Some in Hin|].
    rewrite (proj2 (py_nth_Ok _ _ s') Hs'). by eexists.
Qed.
End Shown.

(** ** Rows *)

(** Sorting sorts values that are ordered among themselves. *)
Lemma py_sort_sorted_on {A} (leb : A -> A -> bool) (P : A -> Prop) l :
  (forall x y, P x -> P y -> leb x y = false -> leb y x = true) ->
  (forall x y z, P x -> P y -> P z -> leb x y = true -> leb y z = true -> leb x z = true) ->
  Forall P l -> StronglySorted (fun a b => leb a b = true) (py_sort leb l).
Proof.
  intros Htot Htrans Hl. induction Hl as [|x l Hx Hl IH]; [constructor|]. cbn [py_sort].
  assert (Hs : Forall P (py_sort leb l)) by (by rewrite py_sort_perm). revert Hs IH. generalize (py_sort leb l). clear l Hl.
  intros l Hl Hs. induction Hs as [|y l Hs IH Hy]; [by repeat constructor|]. apply Forall_cons in Hl as [HPy Hl]. cbn [sort_insert].
  destruct (leb x y) eqn:E.
  - constructor; [by constructor|]. constructor; [done|]. rewrite Forall_forall in Hy. rewrite Forall_forall in Hl.
    apply Forall_forall. intros z Hz. exact (Htrans x y z Hx HPy (Hl z Hz) E (Hy z Hz)).
  - constructor; [by apply IH|]. rewrite sort_insert_perm. constructor; [by apply Htot|done].
Qed.

Lemma mmap_keyed_values {A K} (key : A -> result K) (l : list A) ks :
  mmap (fun x => k ← key x; Ok (k, x)) l = Ok ks -> ks.*2 = l /\ Forall (fun kx => key kx.2 = Ok kx.1) ks.
Proof.
  revert ks. induction l as [|x l IH]; intros ks; cbn [mmap]; [by intros [= <-]; split; [|constructor]|].
  intros H. apply bind_Ok in H as (kx & Hk & H). apply bind_Ok in Hk as (k & Hk & [= <-]). apply bind_Ok in H as (ks' & Hks & [= <-]).
  destruct (IH ks' Hks) as [<- Hf]. split; [done|by constructor].
Qed.

Section Rows.
Context {F : Type} {HF : PyFloat F}.

(** The order of the numbers that are not NaN. *)
Definition float_ordered : Prop :=
  (forall x y : F, f_is_nan x = false -> f_is_nan y = false -> f_lt x y = true -> f_lt y x = false) /\
  (forall x y z : F, f_is_nan x = false -> f_is_nan y = false -> f_is_nan z = false ->
     f_lt y x = false -> f_lt z y = false -> f_lt z x = false).

(** [a] took at least as long as [b]. *)
Definition not_faster (a b : Timeline F) : Prop :=
  exists d d', tl_duration a = Ok d /\ tl_duration b = Ok d' /\ f_lt d d' = false.

Lemma reorder_perm tls o l : reorderTimelineRecords (F := F) tls o = Ok l -> l ≡ₚ tls.
Proof.
  assert (Hm : forall {K} (f : Timeline F -> option (K * Timeline F)) ks, (forall x y, f x = Some y -> y.2 = x) ->
    mapM f tls = Some ks -> ks.*2 = tls).
  { intros K f ks Hf H. apply mapM_Some in H. induction H as [|x y xs ys Hxy _ IH]; [done|]. by rewrite fmap_cons IH (Hf x y Hxy). }
  destruct o; cbn [reorderTimelineRecords].
  - by intros [= <-].
  - intros H. apply bind_Ok in H as (ks & Hks & [= <-]). apply mmap_keyed_values in Hks as [<- _]. by rewrite py_sort_perm.
  - intros H. apply bind_Ok in H as (ks & Hks & [= <-]). apply mmap_keyed_values in Hks as [<- _]. by rewrite py_sort_perm.
  - destruct (mapM _ tls) as [ks|] eqn:E1; [|destruct (mapM (fun tl => match tl_txnId tl with IdInt _ => None | IdStr s => _ end) tls) as [ks|] eqn:E2; [|done]];
      intros [= <-]; rewrite py_sort_perm; [erewrite (Hm _ _ ks _ E1)|erewrite (Hm _ _ ks _ E2)]; try done.
    Unshelve. all: intros x y; cbn; destruct (tl_txnId x); try done; by intros [= <-].
Qed.

Lemma reorder_worst tls l : float_ordered ->
  Forall (fun tl => exists d, tl_duration tl = Ok d /\ f_is_nan d = false) tls ->
  reorderTimelineRecords (F := F) tls WorstToBest = Ok l -> StronglySorted not_faster l.
Proof.
  intros [Hasym Htrans] Hd H. cbn [reorderTimelineRecords] in H. apply bind_Ok in H as (ks & Hks & [= <-]).
  apply mmap_keyed_values in Hks as [<- Hk].
  set (leb := fun a b : F * Timeline F => float_leb b.1 a.1).
  assert (Hn : Forall (fun kx : F * Timeline F => f_is_nan kx.1 = false) ks).
  { rewrite Forall_forall in Hd. rewrite Forall_forall in Hk. apply Forall_forall. intros [k x] Hx.
    destruct (Hd x (list_elem_of_fmap_2 snd _ _ Hx)) as (d & E & Hdn). specialize (Hk _ Hx). cbn in Hk. rewrite E in Hk.
    injection Hk as <-. exact Hdn. }
  assert (Hs : StronglySorted (fun a b => leb a b = true) (py_sort leb ks)).
  { apply (py_sort_sorted_on _ (fun kx : F * Timeline F => f_is_nan kx.1 = false)); [..|done]; unfold leb, float_leb.
    - intros x y Hx Hy E. apply negb_false_iff in E. apply negb_true_iff. by apply Hasym.
    - intros x y z Hx Hy Hz E1 E2. apply negb_true_iff in E1, E2. apply negb_true_iff. exact (Htrans _ _ _ Hz Hy Hx E2 E1). }
  assert (Hk' : Forall (fun kx : F * Timeline F => tl_duration kx.2 = Ok kx.1) (py_sort leb ks)) by (by rewrite py_sort_perm).
  fold leb. revert Hk' Hs. generalize (py_sort leb ks). clear. intros l Hk Hs.
  induction Hs as [|[k x] l Hs IH Hx]; [constructor|]. apply Forall_cons in Hk as [Hkx Hk]. cbn in Hkx. rewrite fmap_cons.
  constructor; [by apply IH|]. apply Forall_fmap. rewrite Forall_forall in Hx. rewrite Forall_forall in Hk. apply Forall_forall.
  intros [k' y] Hy. specialize (Hx _ Hy). specialize (Hk _ Hy). exists k, k'. unfold leb, float_leb in Hx.
  by apply negb_true_iff in Hx.
Qed.

(** Rows are made for the first timelines, up to the threshold, and at least for one. *)
Lemma table_rows_spec (row : nat -> Timeline F -> result (list Cell)) threshold i tls rows :
  table_rows row threshold i tls = Ok rows ->
  length rows = Nat.min (length tls) (Nat.max 1 (Z.to_nat (threshold - Z.of_nat i + 1))) /\
  forall j r, rows !! j = Some r -> exists tl, tls !! j = Some tl /\ row (i + j)%nat tl = Ok r.
Proof.
  revert i rows. induction tls as [|tl tls IH]; intros i rows; cbn [table_rows]; [by intros [= <-]|].
  intros H. apply bind_Ok in H as (r & Hr & H). destruct (Z.leb_spec threshold (Z.of_nat i)) as [Hle|Hgt].
  - injection H as <-. split; [cbn [length]; lia|]. intros [|j] r'; [|done]. cbn. intros [= <-]. exists tl. by rewrite Nat.add_0_r.
  - apply bind_Ok in H as (rs & Hrs & [= <-]). destruct (IH (S i) rs Hrs) as [Hl Hj]. split; [cbn [length]; lia|].
    intros [|j] r'; cbn; [intros [= <-]; exists tl; by rewrite Nat.add_0_r|]. intros H. rewrite Nat.add_succ_r. exact (Hj j r' H).
Qed.

(** A table ordered from worst to best shows, one row each and numbered
    from one, as many of the timelines as the threshold allows (one at least), every one
    of them at least as slow as those below it and as those that are not shown. *)
Theorem buildTimelineTable_worst_first (tls : TimelineStats F) probes threshold uid logAbsoluteValues logTimeline logData table :
  float_ordered ->
  Forall (fun tl => exists d, tl_duration tl = Ok d /\ f_is_nan d = false) (timelineCollection tls) ->
  buildTimelineTable tls probes WorstToBest threshold uid logAbsoluteValues logTimeline logData = Ok table ->
  exists shown hidden, shown ++ hidden ≡ₚ timelineCollection tls /\ StronglySorted not_faster shown /\
    Forall (fun a => Forall (not_faster a) hidden) shown /\
    length shown = Nat.min (length (timelineCollection tls)) (Nat.max 1 (Z.to_nat threshold)) /\
    length (tt_rows table) = length shown /\
    forall j r, tt_rows table !! j = Some r -> exists tl, shown !! j = Some tl /\
      timeline_row probes uid logAbsoluteValues logTimeline logData (S j) tl = Ok r.
Proof.
  intros Ho Hd H. unfold buildTimelineTable in H. apply bind_Ok in H as (l & Hl & H). apply bind_Ok in H as (rows & Hrows & [= <-]).
  pose proof (reorder_perm _ _ _ Hl) as Hp. pose proof (reorder_worst _ _ Ho Hd Hl) as Hs.
  destruct (table_rows_spec _ _ _ _ _ Hrows) as [Hlen Hj]. set (n := length rows) in *.
  assert (Hn : n = Nat.min (length (timelineCollection tls)) (Nat.max 1 (Z.to_nat threshold))).
  { rewrite Hlen (Permutation_length Hp). f_equal. lia. }
  rewrite -(take_drop n l) in Hs. exists (take n l), (drop n l). cbn [tt_rows]. rewrite take_drop length_take.
  apply StronglySorted_app in Hs as (H1 & H2 & H3). split_and!; [done|done| | | |].
  - apply Forall_forall. intros a Ha. apply Forall_forall. intros b Hb. by apply H1.
  - rewrite -Hn. apply Nat.min_l. rewrite Hn -(Permutation_length Hp). lia.
  - fold n. symmetry. apply Nat.min_l. rewrite Hn -(Permutation_length Hp). lia.
  - intros j r Hr. destruct (Hj j r Hr) as (tl & Htl & Hrow). exists tl. split; [|done].
    rewrite lookup_take_lt; [by apply lookup_lt_Some in Hr|done].
Qed.
End Rows.

(** ** The whole report *)

Section Whole.
Context {F : Type} {HF : PyFloat F} (numpy : list (Delta F) -> NumpyStats (F := F)).

Lemma cell_shown uid i j (tp : TimePoint F) klass : point_ok tp -> exists c, buildTimepointCell uid i j tp klass = Ok c.
Proof.
  intros [Hp _]. unfold buildTimepointCell. destruct (tp_pmcNames tp) as [[|n names]|]; [by eexists| |by eexists].
  destruct (tp_deltaPmcs tp) as [ds|]; [|done]. destruct Hp as [Hl _]. unfold buildPmcTable.
  destruct ds as [|d ds]; [done|]. unfold buildPmcRows. mmap_ok rows; [|by eexists].
  intros [k name] Hk%imap_pair_elem. destruct (lookup_lt_is_Some_2 (d :: ds) k) as [v Hv]; [rewrite -Hl; by apply lookup_lt_Some in Hk|].
  rewrite (proj2 (py_nth_Ok _ k v) Hv). by eexists.
Qed.

Lemma row_shown probes uid logTimeline i (tl : Timeline F) : timeline_ready tl -> (exists z, tl_txnId tl = IdInt z) ->
  exists r, timeline_row probes uid false logTimeline false i tl = Ok r.
Proof.
  intros ((pts & final & Hpts & Hok & _) & (e & He & Heok) & [inc Hinc]) [z Hz]. unfold timeline_row. rewrite Hz Hinc He Hpts.
  cbn [id_cell or_raise mbind result_bind]. mmap_ok cells.
  - intros [j tp] Hj%imap_pair_elem. unfold point_cells. rewrite length_app. cbn [length].
    destruct (Nat.ltb_spec j (length pts + 1 - 1)) as [Hlt|_]; [|by eexists].
    rewrite lookup_app_l in Hj; [lia|]. rewrite Forall_lookup in Hok.
    destruct (cell_shown uid i j tp None (Hok j tp Hj)) as [c ->]. by eexists.
  - destruct (cell_shown uid i (length (pts ++ [final]) - 1) e (Some TD_END) Heok) as [c ->]. by eexists.
Qed.

Lemma rows_shown (row : nat -> Timeline F -> result (list Cell)) threshold i tls :
  (forall i tl, tl ∈ tls -> exists r, row i tl = Ok r) -> exists rows, table_rows row threshold i tls = Ok rows.
Proof.
  revert i. induction tls as [|tl tls IH]; intros i H; [by exists []|]. cbn [table_rows].
  destruct (H i tl) as [r ->]; [left|]. cbn [mbind result_bind]. destruct (threshold <=? Z.of_nat i); [by eexists|].
  destruct (IH (S i)) as [rs ->]; [intros k x Hx; apply H; by right|]. by eexists.
Qed.

Lemma reorder_shown tls o : Forall (fun tl : Timeline F => is_Some (tl_endpoint tl) /\ exists z, tl_txnId tl = IdInt z) tls ->
  exists l, reorderTimelineRecords tls o = Ok l.
Proof.
  intros H. rewrite Forall_forall in H.
  assert (Hk : exists ks, mmap (fun tl : Timeline F => d ← tl_duration tl; Ok (d, tl)) tls = Ok ks).
  { apply mmap_total. intros tl Htl. destruct (H tl Htl) as [[e He] _]. unfold tl_duration. rewrite He. by eexists. }
  destruct Hk as [ks Hks]. destruct o; cbn [reorderTimelineRecords]; rewrite ?Hks; try by eexists.
  destruct (mapM (fun tl => match tl_txnId tl with IdInt z => Some (z, tl) | IdStr _ => None end) tls) as [l|] eqn:E; [by eexists|].
  exfalso. clear Hks ks. assert (Hs : is_Some (mapM (fun tl : Timeline F => match tl_txnId tl with IdInt z => Some (z, tl) | IdStr _ => None end) tls)).
  { apply mapM_is_Some_2. apply Forall_forall. intros tl Htl. destruct (H tl Htl) as [_ [z Hz]]. unfold compose. exists (z, tl). by rewrite Hz. }
  rewrite E in Hs. by destruct Hs.
Qed.

(** Statistics that are ready have a report. *)
Lemma report_shown n (tls : TimelineStats F) benchs probes category o threshold uids logTimeline :
  series_ready n tls -> Forall (fun b => series_ready n b.2) benchs ->
  timelineCollection tls <> [] -> Forall (fun tl => timeline_ready tl /\ exists z, tl_txnId tl = IdInt z) (timelineCollection tls) ->
  exists r, buildReport numpy tls benchs probes category o threshold uids false logTimeline false = Ok r.
Proof.
  intros Hs Hb Hne Htl. unfold buildReport, buildTimelineTable.
  destruct (reorder_shown (timelineCollection tls) o) as [l Hl].
  { refine (Forall_impl _ _ _ Htl _). intros tl [(_ & (e & He & _) & _) Hid]. split; [by exists e|done]. }
  rewrite Hl. cbn [mbind result_bind]. pose proof (reorder_perm _ _ _ Hl) as Hp. rewrite -Hp in Htl.
  assert (Hne' : l <> []) by (intros ->; apply Permutation_nil_l in Hp; by rewrite -Hp in Hne).
  edestruct (rows_shown (timeline_row probes uids.1 false logTimeline false) threshold 1 l) as [rows ->].
  { intros i tl Hin. rewrite Forall_forall in Htl. destruct (Htl tl Hin) as [Hr Hid]. by apply row_shown. }
  cbn [mbind result_bind]. destruct l as [|tl l]; [done|]. apply Forall_cons in Htl as [[((pts & final & Hpts & _) & _) _] _].
  unfold buildPmuScript. cbn [py_nth lookup list_lookup or_raise mbind result_bind]. rewrite Hpts.
  assert (Hp0 : exists tp, py_nth (pts ++ [final]) 0 = Ok tp) by (destruct pts; by eexists). destruct Hp0 as [tp ->].
  cbn [mbind result_bind]. destruct (flots_shown n category tls benchs uids.2 Hs Hb) as [fl ->]. cbn [mbind result_bind].
  destruct (stats_shown numpy n category tls benchs Hs Hb) as [st ->]. by eexists.
Qed.
End Whole.

(** ** The reports of a session *)

Lemma od_alter_fmap {V} (f : V -> V) k (d : list (string * V)) : NoDup d.*1 ->
  od_alter String.eqb f k d = (fun p => (p.1, if String.eqb k p.1 then f p.2 else p.2)) <$> d.
Proof.
  induction d as [|[k' v] d IH]; [done|]. rewrite fmap_cons. intros [Hn Hd]%NoDup_cons. cbn [od_alter fst snd].
  destruct (String.eqb_spec k k') as [<-|Hne].
  - rewrite fmap_cons /= String.eqb_refl. f_equal. symmetry. rewrite -{2}(list_fmap_id d). apply Forall_fmap_ext, Forall_forall.
    intros [k' v'] Hin. cbn. destruct (String.eqb_spec k k') as [<-|_]; [|done]. exfalso. apply Hn. exact (list_elem_of_fmap_2 fst _ _ Hin).
  - by rewrite fmap_cons /= IH // (proj2 (String.eqb_neq k k') Hne).
Qed.

Lemma mapReportProbes_length route probes rps : mapReportProbes route probes = Ok rps -> length rps = length (rprobes route).
Proof.
  unfold mapReportProbes. intros H. apply bind_Ok in H as (pm & _ & H). revert H.
  apply (mfor_inv_prefix _ (fun pre ps => length ps = length pre)); [|done].
  intros pre x post s s' _ IH H. rewrite length_app /=. destruct (pm_contains pm x).
  - apply bind_Ok in H as (o & _ & [= <-]). by rewrite length_app IH.
  - injection H as <-. by rewrite length_app IH.
Qed.

Section Session.
Context {HH : RouteHash} {F : Type} {HF : PyFloat F} (numpy : list (Delta F) -> NumpyStats (F := F)).
Context (size : ReportDoc (F := F) -> string) (uids : string -> string * string).

(** The routes of a category get the markups of its profiles, in order. *)
Definition add_markups {H} (pms : list (Profile F * Markup (F := F))) (h : string * Category (F := F) H) : string * Category (F := F) H :=
  (h.1, mkCategory _ (ct_name _ h.2) (ct_histogram _ h.2)
          (ct_routes _ h.2 ++ (filter (fun pm : Profile F * Markup (F := F) => ts_category (p_current pm.1) = h.1) pms).*2)).

Lemma generate_markups {H} (cats : list (string * Category (F := F) H)) o threshold ps ms : NoDup cats.*1 ->
  Forall2 (fun p m => profile_markup numpy size uids o threshold p = Ok m) ps ms ->
  mfor (fun categories p =>
    if od_mem String.eqb (ts_category (p_current p)) categories
    then m ← profile_markup numpy size uids o threshold p;
         Ok (od_alter String.eqb (addRoute m) (ts_category (p_current p)) categories)
    else Ok categories) cats ps = Ok (add_markups (zip ps ms) <$> cats).
Proof.
  intros Hnd Hps. revert cats Hnd. induction Hps as [|p m ps ms Hm _ IH]; intros cats Hnd.
  { cbn. f_equal. symmetry. rewrite -{2}(list_fmap_id cats). apply list_fmap_ext. intros _ [k [n h r]] _. unfold add_markups. cbn.
    by rewrite app_nil_r. }
  cbn [mfor]. set (c := ts_category (p_current p)).
  assert (Hone : (if od_mem String.eqb c cats then m ← profile_markup numpy size uids o threshold p;
      Ok (od_alter String.eqb (addRoute m) c cats) else Ok cats) = Ok (add_markups [(p, m)] <$> cats)).
  { rewrite Hm. cbn [mbind result_bind].
    assert (Hf : forall k (v : Category H), (if String.eqb c k then addRoute m v else v) = (add_markups [(p, m)] (k, v)).2).
    { intros k [n h r]. unfold add_markups, addRoute. cbn [fst snd ct_name ct_histogram ct_routes]. rewrite filter_cons. cbn [fst].
      fold c. destruct (String.eqb_spec c k) as [->|Hne]; [by rewrite decide_True|]. by rewrite decide_False // app_nil_r. }
    destruct (od_mem String.eqb c cats) eqn:E.
    - rewrite od_alter_fmap //. f_equal. apply list_fmap_ext. intros _ [k v] _. cbn. by rewrite Hf.
    - f_equal. symmetry. rewrite -{2}(list_fmap_id cats). apply Forall_fmap_ext, Forall_forall. intros [k v] Hin.
      transitivity (k, (add_markups [(p, m)] (k, v)).2); [done|]. rewrite -Hf. apply od_mem_false, od_get_None in E.
      rewrite Forall_forall in E. by rewrite (E k (list_elem_of_fmap_2 fst _ _ Hin)). }
  rewrite Hone. cbn [mbind result_bind]. rewrite IH.
  { by rewrite -list_fmap_compose. }
  f_equal. rewrite -list_fmap_compose. apply list_fmap_ext. intros _ [k [n h r]] _. unfold add_markups, compose. cbn [fst snd ct_name ct_histogram ct_routes zip zip_with].
  by rewrite -app_assoc -fmap_app -filter_app.
Qed.

(** Transactions with a number and a route of its probes. *)
Definition listed (x : Transaction) : Prop :=
  (exists z, txnId x = IdInt z) /\ forall r, txn_route x = Some r -> route_len r = length (rprobes r).

Lemma benchmarks_ready k route rps (l : list (string * TxnSubCollection (Meta F))) m :
  route_len route = length rps -> Forall (fun q => reportable (sc_meta q.2) /\ transactions q.2 <> []) l ->
  mfor (fun m q => s ← buildTimelineStats k route rps q.2; Ok (od_set String.eqb (m_name (sc_meta q.2)) s m)) [] l = Ok m ->
  Forall (fun b : string * TimelineStats F => series_ready (length rps) b.2) m.
Proof.
  intros Hroute Hl. apply (mfor_inv_prefix _ (fun _ m => Forall (fun b : string * TimelineStats F => series_ready (length rps) b.2) m)); [|constructor].
  intros pre q post m0 m1 Hq Hm H. apply bind_Ok in H as (s & Hs & [= <-]). apply od_set_Forall; [done|]. cbn [snd].
  rewrite Forall_forall in Hl. destruct (Hl q) as [Hr Hne]; [rewrite Hq elem_of_app; right; left|].
  exact (proj1 (stats_ready k route rps q.2 s Hroute Hr Hne Hs)).
Qed.

Lemma benchmark_colls_ready cl conf k r (benchs : list (string * TxnCollection (Meta F))) :
  Forall (fun b => reportable (tc_meta b.2)) benchs ->
  Forall (fun q => reportable (sc_meta q.2) /\ transactions q.2 <> []) (benchmark_colls cl conf k r benchs).
Proof.
  intros H. unfold benchmark_colls. apply Forall_forall. intros q Hq. apply list_elem_of_omap in Hq as (b & Hb & Hq).
  apply fmap_Some in Hq as (c & Hc & ->). apply group_of_Some in Hc as [-> Hne]. cbn. split; [|done].
  rewrite Forall_forall in H. exact (H b Hb).
Qed.

(** The profile of a session has a report. *)
Lemma profile_shown name cur benchs cl conf ps p o threshold : NoDup benchs.*1 ->
  Forall listed (txnMap cur).*2 -> reportable (tc_meta cur) -> Forall (fun b => reportable (tc_meta b.2)) benchs ->
  generateProfiles (F := F) name cur benchs cl conf = Ok ps -> p ∈ ps ->
  exists m, profile_markup numpy size uids o threshold p = Ok m.
Proof.
  intros Hnd Hl Hm Hbm H Hp. destruct (profile_origin _ _ _ _ _ _ p Hnd H Hp) as (k & route & rps & Hrps & (x & Hx & Hroute) & Hs & Hb).
  apply mapReportProbes_length in Hrps. set (own := on_route _ _) in *.
  assert (Hown : Forall listed own).
  { apply Forall_forall. intros y Hy. rewrite Forall_forall in Hl. apply Hl. unfold own, on_route, in_category in Hy.
    apply list_elem_of_filter in Hy as [_ Hy]. by apply list_elem_of_filter in Hy as [_ Hy]. }
  assert (Hlen : route_len route = length rps).
  { rewrite Hrps. rewrite Forall_forall in Hown. exact (proj2 (Hown x Hx) route Hroute). }
  destruct (stats_ready k route rps (mkSubCollection (tc_meta cur) own) (p_current p) Hlen Hm) as (Hsr & Hne & Htl & Hmade & _); [|done|].
  { cbn. intros E. rewrite E in Hx. by apply not_elem_of_nil in Hx. }
  pose proof (made_ids _ _ _ _ Hmade) as Hids.
  pose proof (benchmarks_ready k route rps _ _ Hlen (benchmark_colls_ready cl conf k route benchs Hbm) Hb) as Hbr.
  unfold profile_markup. edestruct (report_shown numpy (length rps) (p_current p) (p_benchmarks p)) as [doc ->]; [done|done|done| |by eexists].
  apply Forall_lookup. intros i tl Hi. rewrite Forall_lookup in Htl. split; [exact (Htl i tl Hi)|].
  assert (Hid : (tl_txnId <$> timelineCollection (p_current p)) !! i = Some (tl_txnId tl)) by (by rewrite list_lookup_fmap Hi).
  rewrite Hids list_lookup_fmap in Hid. cbn [transactions] in Hid. destruct (own !! i) as [y|] eqn:Ey; [|done]. injection Hid as <-.
  rewrite Forall_lookup in Hown. exact (proj1 (Hown i y Ey)).
Qed.

(** Every profile is shown under its category's histogram. *)
Lemma generate_shown {H} name cur benchs cl conf ps (histograms : list (string * H)) o threshold :
  NoDup benchs.*1 -> NoDup histograms.*1 ->
  Forall listed (txnMap cur).*2 -> reportable (tc_meta cur) -> Forall (fun b => reportable (tc_meta b.2)) benchs ->
  generateProfiles (F := F) name cur benchs cl conf = Ok ps ->
  exists ms, Forall2 (fun p m => profile_markup numpy size uids o threshold p = Ok m) ps ms /\
    generate numpy size uids histograms ps o threshold =
      Ok ((fun h => (h.1, mkCategory _ h.1 h.2
             (filter (fun pm : Profile F * Markup (F := F) => ts_category (p_current pm.1) = h.1) (zip ps ms)).*2)) <$> histograms).
Proof.
  intros Hnd Hh Hl Hm Hb Hps. assert (Hms : exists ms, mmap (profile_markup numpy size uids o threshold) ps = Ok ms).
  { apply mmap_total. intros p Hp. exact (profile_shown name cur benchs cl conf ps p o threshold Hnd Hl Hm Hb Hps Hp). }
  destruct Hms as [ms Hms]. exists ms.
  assert (Hf : Forall2 (fun p m => profile_markup numpy size uids o threshold p = Ok m) ps ms).
  { apply Forall2_same_length_lookup_2; [symmetry; by apply mmap_Ok_length in Hms|]. intros i p m Hp Hmi.
    destruct (mmap_Ok_lookup _ _ _ _ _ Hms Hp) as (m' & Hm' & Hpm). rewrite Hmi in Hm'. by injection Hm' as ->. }
  split; [done|]. unfold generate. rewrite (generate_markups _ o threshold ps ms); [by rewrite -list_fmap_compose|done|].
  by rewrite -list_fmap_compose.
Qed.
Lemma histograms_distinct fuel names bundles hs : generateHistograms (F := F) fuel names bundles = Ok hs -> NoDup hs.*1.
Proof.
  unfold generateHistograms. apply (mfor_inv_prefix _ (fun _ hs => NoDup (hs : list (string * list (string * list Z))).*1)); [|apply NoDup_nil_2].
  intros pre [category bundle] post m m' _ IH H. apply bind_Ok in H as (first & _ & H). apply bind_Ok in H as (bs & _ & H).
  destruct bs as [[|b bs]|]; [by injection H as <-| |by injection H as <-]. apply bind_Ok in H as (y & _ & [= <-]).
  fold (od_keys (od_set String.eqb category y m)). rewrite od_keys_set. case_bool_decide as Hc; [done|]. apply NoDup_app.
  split_and!; [done| |apply NoDup_singleton]. intros x Hx ->%list_elem_of_singleton. done.
Qed.

(** The reports of the profiles a session generates never raise: every profile
    whose category has a histogram is shown under it, in order, and nothing else is. *)
Theorem generate_reports {H} name cur benchs cl conf ps (histograms : list (string * H)) o threshold :
  NoDup benchs.*1 -> NoDup histograms.*1 ->
  Forall listed (txnMap cur).*2 -> reportable (tc_meta cur) -> Forall (fun b => reportable (tc_meta b.2)) benchs ->
  generateProfiles (F := F) name cur benchs cl conf = Ok ps ->
  exists ms, Forall2 (fun p m => profile_markup numpy size uids o threshold p = Ok m) ps ms /\
    generate numpy size uids histograms ps o threshold =
      Ok ((fun h => (h.1, mkCategory _ h.1 h.2
             (filter (fun pm : Profile F * Markup (F := F) => ts_category (p_current pm.1) = h.1) (zip ps ms)).*2)) <$> histograms).
Proof. apply generate_shown. Qed.

(** A session's report raises only where its filter, its histograms or its profiles do. *)
Theorem generateReport_total fuel name (repo : TxnRepo (Meta F)) cl o threshold txnFilter conf repo' cur benchs bundles hs ps :
  match txnFilter with Some f => exists n, filterTxns m_name f repo = Ok (n, repo') | None => repo = repo' end ->
  getCurrent repo' = Ok cur -> getBenchmarks repo' = Ok benchs -> NoDup benchs.*1 ->
  (exists h, currentCollection repo' = Some h /\ isCurrent repo' h = true) -> m_name (tc_meta cur) = CURRENT_RUN ->
  buildElapsedTimeBundles (cur :: benchs.*2) cl = Ok bundles ->
  generateHistograms fuel ((m_name ∘ tc_meta) <$> cur :: benchs.*2) bundles = Ok hs ->
  generateProfiles name cur benchs cl conf = Ok ps ->
  Forall listed (txnMap cur).*2 -> reportable (tc_meta cur) -> Forall (fun b => reportable (tc_meta b.2)) benchs ->
  exists categories, generateReport numpy size uids fuel name repo cl o threshold txnFilter conf = Ok (ps, categories) /\
    categories.*1 = hs.*1.
Proof.
  intros Hf Hcur Hbench Hnd (h & Hh & Hown) Hname Hbundles Hhs Hps Hl Hm Hb. unfold generateReport.
  assert (Hr : (match txnFilter with Some f => r ← filterTxns m_name f repo; Ok r.2 | None => Ok repo end) = Ok repo').
  { destruct txnFilter as [f|]; [destruct Hf as [n ->]; done|by rewrite Hf]. }
  rewrite Hr. cbn [mbind result_bind]. rewrite Hcur. cbn [mbind result_bind]. rewrite Hbench. cbn [mbind result_bind].
  rewrite Hh. cbn [or_raise mbind result_bind]. rewrite Hown Hname String.eqb_refl. cbn [negb orb].
  rewrite Hbundles. cbn [mbind result_bind]. rewrite Hhs. cbn [mbind result_bind]. rewrite Hps. cbn [mbind result_bind].
  destruct (generate_shown name cur benchs cl conf ps hs o threshold Hnd (histograms_distinct _ _ _ _ Hhs) Hl Hm Hb Hps) as (ms & _ & ->).
  eexists. split; [done|]. rewrite -list_fmap_compose. by apply list_fmap_ext.
Qed.

(** The metrics of a topdown hierarchy compute the values their keys name. *)
Lemma topdown_reportable h tm th m vs : compute (as_TopdownMetrics h tm th) m = Ok vs ->
  tv_name <$> vs = visit_names (topdownKeys (F := F) (as_TopdownMetrics h tm th)).
Proof.
  cbn [as_TopdownMetrics compute topdownKeys]. intros H. apply bind_Ok in H as ([ws th'] & H & [= <-]). cbn [fst].
  rewrite (metrics_compute_names _ _ _ _ _ _ H). symmetry. apply visit_keys.
Qed.
End Session.

(** *** Example: a session with a pmu event, and a benchmark *)

#[local] Instance ex_rp_float : PyFloat Z := {|
  f_of_Z z := z; f_add := Z.add; f_sub := Z.sub; f_mul := Z.mul; f_div := Z.div; f_lt := Z.ltb;
  f_is_zero z := z =? 0; f_nan := 0; f_is_nan z := false; f_trunc z := z |}.
#[local] Instance ex_rp_hash : RouteHash := fun ps => Z.of_nat (length ps).

Definition ex_rp_numpy (l : list (Delta Z)) : NumpyStats (F := Z) :=
  let s := fold_left (fun a d => a + delta_val d) l 0 in mkNumpyStats s s s (fun _ => s).
Definition ex_rp_hit (p : string) (t c : Z) : Counter := mkCounter "1" (ex_named p) "" t [c].
Definition ex_rp_meta (name : string) : Meta Z :=
  mkMeta name (mkCpuInfo "cpu" 2000000000 2) [ex_named "a"; ex_named "b"] None [mkEvent "cycles" "CPU_CLK" true true].
Definition ex_rp_coll (name : string) (l : list (Z * list Counter)) : TxnCollection (Meta Z) :=
  match finalize_all [] ((fun p => (IdInt p.1, mkTransaction (IdInt p.1) p.2 None None None true)) <$> l) with
  | Ok (txns, _) => mkCollection (ex_rp_meta name) txns
  | Raise _ => mkCollection (ex_rp_meta name) []
  end.
Definition ex_rp_current : TxnCollection (Meta Z) :=
  ex_rp_coll "current run" [(1, [ex_rp_hit "a" 10 1; ex_rp_hit "b" 20 3]); (2, [ex_rp_hit "a" 30 5; ex_rp_hit "b" 70 9]);
                            (3, [ex_rp_hit "a" 80 1; ex_rp_hit "b" 100 2])].
Definition ex_rp_benchs : list (string * TxnCollection (Meta Z)) :=
  [("base"%string, ex_rp_coll "base" [(1, [ex_rp_hit "a" 10 1; ex_rp_hit "b" 30 4])])].
Definition ex_rp_profiles : list (Profile Z) :=
  match generateProfiles "demo" ex_rp_current ex_rp_benchs DefaultClassifier Off with Ok ps => ps | Raise _ => [] end.
Definition ex_rp_size (_ : ReportDoc (F := Z)) : string := "1KB".
Definition ex_rp_uids (name : string) : string * string := ("1"%string, "2"%string).

Lemma generate_reports_witness : generateProfiles "demo" ex_rp_current ex_rp_benchs DefaultClassifier Off = Ok ex_rp_profiles /\
  length ex_rp_profiles = 1%nat /\
  exists m, generate ex_rp_numpy ex_rp_size ex_rp_uids [("Transaction"%string, tt); ("Other"%string, tt)] ex_rp_profiles WorstToBest 2 =
      Ok [("Transaction"%string, mkCategory _ "Transaction" tt [m]); ("Other"%string, mkCategory _ "Other" tt [])] /\
    length (tt_rows (rd_table (mk_content m))) = 2%nat /\ length (sr_tabs (rd_stats (mk_content m))) = 2%nat.
Proof.
  assert (Hr : forall name, reportable (ex_rp_meta name)).
  { intros name. split; [|split]; [|by intros tm m vs|done]. cbn. intros H.
    apply elem_of_cons in H as [H|H]; [discriminate H|]. by apply not_elem_of_nil in H. }
  assert (Hps : generateProfiles "demo" ex_rp_current ex_rp_benchs DefaultClassifier Off = Ok ex_rp_profiles) by (vm_compute; reflexivity).
  split; [exact Hps|]. split; [vm_compute; reflexivity|].
  destruct (generate_reports ex_rp_numpy ex_rp_size ex_rp_uids "demo" ex_rp_current ex_rp_benchs DefaultClassifier Off ex_rp_profiles
    [("Transaction"%string, tt); ("Other"%string, tt)] WorstToBest 2) as (ms & Hms & Hg).
  - apply NoDup_singleton.
  - refine (bool_decide_unpack _ _). vm_compute. exact I.
  - vm_compute. repeat constructor; try (by eexists); intros r [= <-]; reflexivity.
  - apply Hr.
  - apply Forall_singleton, Hr.
  - exact Hps.
  - assert (Hp : exists p, ex_rp_profiles = [p]) by (eexists; vm_compute; reflexivity). destruct Hp as [p Hp].
    rewrite Hp in Hms, Hg. apply Forall2_cons_inv_l in Hms as (m & ms' & Hm & Hms & ->). apply Forall2_nil_inv_l in Hms as ->.
    exists m. split.
    + rewrite Hp. rewrite Hg. cbn [zip zip_with fmap list_fmap fst snd]. rewrite !filter_cons !filter_nil. cbn [fst].
      assert (Hc : ts_category (p_current p) = "Transaction"%string).
      { assert (Hv : (ts_category ∘ p_current) <$> ex_rp_profiles = ["Transaction"%string]) by (vm_compute; reflexivity).
        rewrite Hp in Hv. by injection Hv. }
      rewrite Hc. reflexivity.
    + assert (Hv : (fun p => r ← profile_markup ex_rp_numpy ex_rp_size ex_rp_uids WorstToBest 2 p;
          Ok (length (tt_rows (rd_table (mk_content r))), length (sr_tabs (rd_stats (mk_content r))))) <$> ex_rp_profiles = [Ok (2%nat, 2%nat)])
        by (vm_compute; reflexivity).
      rewrite Hp in Hv. cbn [fmap list_fmap] in Hv. rewrite Hm in Hv. cbn [mbind result_bind] in Hv.
      assert (Hi : forall (x y : nat * nat), [Ok x] = [Ok y] -> x = y) by (clear; congruence).
      apply Hi, pair_equal_spec in Hv. exact Hv.
Defined.

Lemma buildTimelineTable_worst_first_witness : exists tls table, p_current <$> ex_rp_profiles = [tls] /\
  buildTimelineTable tls (ts_reportProbes tls) WorstToBest 2 "1" false false false = Ok table /\
  exists shown hidden, length (tt_rows table) = 2%nat /\ length shown = 2%nat /\ StronglySorted not_faster shown /\
    shown ++ hidden ≡ₚ timelineCollection tls.
Proof.
  eexists _, _. split; [vm_compute; reflexivity|]. split; [vm_compute; reflexivity|].
  match goal with |- context [_ ≡ₚ timelineCollection ?t] => set (tls := t) end.
  match goal with |- context [tt_rows ?t] => set (table := t) end.
  destruct (buildTimelineTable_worst_first tls (ts_reportProbes tls) 2 "1" false false false table) as (shown & hidden & Hp & Hs & _ & Hl & Hr & Hj).
  - split; cbn; intros *; rewrite ?Z.ltb_lt ?Z.ltb_ge; lia.
  - vm_compute. repeat constructor; by eexists.
  - vm_compute. reflexivity.
  - exists shown, hidden. rewrite Hr Hl. split; [reflexivity|]. split; [reflexivity|]. split; [exact Hs|exact Hp].
Defined.
