(* ===== verification/Runtime.v ===== *)
(** * Reports of a session

    Models [Collector.gatherCounters] of txn/collector.py and txn/extractor.py, the loader of
    the current run and the arguments of the benchmark loaders in [TxnRepoFactory.buildTxnRepo]
    of txn/repo.py, [Runtime.report] of profiler/runtime.py, and what reports ask of the
    applications of profiler/app.py.

    The end of the pipeline: the samples of a session, whether they are read from the files of
    the process or from a stored profile, and those of its benchmarks, are turned into
    transactions, and these into a report. *)

From S2P Require Import Prelude PyStr Ini Probe Route Txn Loader Join Numbered Aggregate Timeline Conflate Records Analyze Profiles Histogram.
From S2P Require Import Pmu EventsDb Topdown Target Admin Session Source Storage Filled Report.

(** ** Invariants of loaders *)

(** A property of a transaction loader that collectors keep. *)
Class LoaderInvariant {L} {HL : TxnLoader L} (P : L -> Prop) := {
  li_begin tid tls l : P l -> P (ld_begin tid tls l);
  li_load l c l' : P l -> ld_load l c = Ok l' -> P l';
  li_end l : P l -> P (ld_end l)
}.

#[export] Instance bounded_loader_ok pm fuel : LoaderInvariant (HL := BoundedLoader pm fuel) loader_ok.
Proof. split; [apply ok_beginLoad|apply ok_loadCounter|apply ok_endLoad]. Qed.

Section Collecting.
Context {S L : Type} {HS : CounterFilter S} {HL : TxnLoader L} (P : L -> Prop) {HP : LoaderInvariant P}.

Lemma feed_keeps c (e e' : Extractor S L) : P (loader e) -> feed c e = Ok e' -> P (loader e').
Proof.
  unfold feed. destruct (canLoad _ _) as [[] f]; intros He H; [|by injection H as <-].
  apply bind_Ok in H as (l & Hl & [= <-]). exact (li_load _ _ _ He Hl).
Qed.

Lemma sample_keeps tid probes s (e e' : Extractor S L) : P (loader e) -> loadSample tid probes e s = Ok e' -> P (loader e').
Proof. unfold loadSample. destruct (od_get _ _ _); [apply feed_keeps|]. by intros He [= <-]. Qed.

Lemma record_keeps tid probes r (e e' : Extractor S L) : P (loader e) -> loadCounter_record tid probes e r = Ok e' -> P (loader e').
Proof.
  unfold loadCounter_record. intros He H. apply bind_Ok in H as ([c|] & _ & H); [exact (feed_keeps c e e' He H)|].
  by injection H as <-.
Qed.

(** The loader that ends a collection has the property. *)
Lemma gatherCounters_keeps probes files (e e' : Extractor S L) : P (loader e) -> gatherCounters probes files e = Ok e' ->
  exists l, P l /\ ld_endCollection l = Ok (loader e').
Proof.
  unfold gatherCounters, end_collection. intros He H. apply bind_Ok in H as (e1 & H1 & H). apply bind_Ok in H as (l & Hl & [= <-]).
  exists (loader e1). split; [|exact Hl]. revert H1. apply (mfor_inv _ (fun e => P (loader e))); [|exact He].
  intros e2 f e3 _ H2 H. apply bind_Ok in H as (e4 & H4 & [= <-]). cbn. apply li_end. revert H4.
  apply (mfor_inv _ (fun e => P (loader e))); [|cbn; by apply li_begin].
  intros e5 s e6 _ H5 H6. exact (sample_keeps _ _ _ _ _ H5 H6).
Qed.

Lemma loadDataSource_keeps info files (e e' : Extractor S L) : P (loader e) -> loadDataSource info files e = Ok e' ->
  exists l, P l /\ ld_endCollection l = Ok (loader e').
Proof.
  unfold loadDataSource, loadSamples, end_collection. intros He H. apply bind_Ok in H as (i & _ & H). apply bind_Ok in H as ([e1 n] & H1 & H).
  apply bind_Ok in H as (l & Hl & [= <-]). exists (loader e1). split; [|exact Hl].
  apply bind_Ok in H1 as ([e2 m] & H2 & [= <- _]). cbn. revert H2.
  apply (mfor_inv _ (fun en : Extractor S L * nat => P (loader en.1))); [|exact He].
  intros [e3 k] f [e4 k'] _ H3 H. unfold loadCounters in H. apply bind_Ok in H as ([e5 k''] & H5 & [= <- _]).
  apply bind_Ok in H5 as (e6 & H6 & [= <- _]). cbn. apply li_end. revert H6.
  apply (mfor_inv _ (fun e => P (loader e))); [|cbn; by apply li_begin].
  intros e7 r e8 _ H7 H8. exact (record_keeps _ _ _ _ _ H7 H8).
Qed.
End Collecting.

(** ** Transactions of a collection *)

Section Listed.
Context {HH : RouteHash} {M : Type}.

(** The routes an index factory hands out are those of their probes. *)
Definition proper_route (r : Route) : Prop := route_len r = length (rprobes r).
Definition proper_cache (cache : list (Route * Index)) : Prop := Forall (fun kv => proper_route (iroute kv.2)) cache.

Lemma buildIndex_proper cache cs ix cache' : proper_cache cache -> buildIndex cache cs = Ok (ix, cache') ->
  proper_route (iroute ix) /\ proper_cache cache'.
Proof.
  unfold buildIndex. intros Hc H. destruct (od_get route_keq _ cache) as [ix'|] eqn:E.
  - injection H as <- <-. split; [|done]. apply od_get_elem_of in E as (k & Hk & _). unfold proper_cache in Hc.
    rewrite Forall_forall in Hc. exact (Hc _ Hk).
  - apply bind_Ok in H as ([m cells] & _ & [= <- <-]).
    assert (Hp : proper_route (Route_init (cprobe <$> cs))) by (unfold proper_route, route_len, Route_init; cbn; by rewrite length_fmap).
    split; [exact Hp|]. rewrite od_set_fresh //. apply Forall_app. split; [done|]. by apply Forall_singleton.
Qed.

Lemma finalize_listed cache t t' cache' : proper_cache cache -> int_id t -> finalize cache t = Ok (t', cache') ->
  listed t' /\ proper_cache cache'.
Proof.
  unfold finalize. intros Hc Hid H. apply bind_Ok in H as (b & _ & H). apply bind_Ok in H as (e & _ & H).
  apply bind_Ok in H as ([ix c'] & Hix & [= <- <-]). destruct (buildIndex_proper _ _ _ _ Hc Hix) as [H1 H2].
  split; [|done]. split; [exact Hid|]. unfold txn_route. cbn. by intros r [= <-].
Qed.

Lemma finalize_all_listed cache l l' cache' : proper_cache cache -> Forall (fun p => int_id p.2) l ->
  finalize_all cache l = Ok (l', cache') -> Forall (fun p : TxnId * Transaction => listed p.2) l' /\ proper_cache cache'.
Proof.
  revert cache l' cache'. induction l as [|[id t] l IH]; intros cache l' cache' Hc Hl H; cbn [finalize_all] in H.
  { injection H as <- <-. by split. }
  apply Forall_cons in Hl as [Ht Hl]. apply bind_Ok in H as ([t1 c1] & H1 & H). apply bind_Ok in H as ([l1 c2] & H2 & [= <- <-]).
  destruct (finalize_listed _ _ _ _ Hc Ht H1) as [Hlt Hc1]. destruct (IH _ _ _ Hc1 Hl H2) as [Hll Hc2]. split; [|done]. by constructor.
Qed.

Lemma rebuilt_Forall (P : Transaction -> Prop) l d : Forall (fun p => P p.2) d -> Forall (fun p => P p.2) l ->
  Forall P (fold_left (fun d (p : TxnId * Transaction) => od_set txnid_eqb p.1 p.2 d) l d).*2.
Proof.
  intros Hd Hl. revert d Hd. induction Hl as [|[k v] l Hv _ IH]; intros d Hd; cbn [fold_left]; [by apply Forall_fmap|].
  apply IH. cbn [fst snd] in *. clear -Hd Hv. induction Hd as [|[k' v'] d Hv' Hd IH]; cbn [od_set]; [by constructor|].
  destruct (txnid_eqb k k'); by constructor.
Qed.

Lemma TxnCollection_init_listed cache (meta : M) txns c cache' : proper_cache cache -> Forall (fun p => int_id p.2) txns ->
  TxnCollection_init cache meta txns = Ok (c, cache') ->
  tc_meta c = meta /\ Forall listed (txnMap c).*2 /\ proper_cache cache'.
Proof.
  unfold TxnCollection_init. intros Hc Hl H. apply bind_Ok in H as ([l ch] & Hf & H). destruct (_ =? _)%nat; [|done].
  injection H as <- <-. destruct (finalize_all_listed _ _ _ _ Hc Hl Hf) as [H1 H2]. cbn. split; [done|]. split; [|done].
  apply rebuilt_Forall; [constructor|]. apply Forall_forall. intros p Hp. rewrite py_sort_elem_of in Hp.
  rewrite Forall_forall in H1. exact (H1 p Hp).
Qed.
End Listed.

(** ** The application *)

(** What a report reads once the profile has ended: the tree of files, the names in a
    directory of sample files, and what the native library decodes from one of them. *)
Record Disk := mkDisk { dk_tree : FsNode; dk_names : string -> list string; dk_samples : string -> list Sample }.

(** A live app, or one whose profile was recorded before; the id of a dormant run is a text. *)
Inductive AppKind := LiveApp | DormantApp (runId : option string).

(** [XpediteApp]; the process id and the probes come from its info file. *)
Record App := mkApp {
  app_name : string;
  app_kind : AppKind;
  app_appInfoPath : Path;
  app_pid : string;
  app_probes : list (string * Probe);
  app_sampleFilePath : option string;
  app_dataSource : option DataSource
}.

Definition app_dryRun (a : App) : bool := match app_kind a with LiveApp => false | DormantApp _ => true end.

Definition id_pattern (id : string) : string :=
  of_chars (to_chars "/dev/shm/xpedite-*-" ++ to_chars id ++ to_chars "-[0-9]*.data").

(** [sampleFilePattern] of both kinds of apps. *)
Definition sampleFilePattern (a : App) : string :=
  let pattern := match app_kind a with
                 | LiveApp => id_pattern (app_pid a)
                 | DormantApp runId => id_pattern (default "None" runId)
                 end in
  match app_sampleFilePath a with Some p => if nonempty p then p else pattern | None => pattern end.

(** [XpediteDormantApp.__init__]: the path of the info file, and the data source.  A stored
    profile brings its own info file. *)
Definition XpediteDormantApp_init (t : FsNode) (appInfoPath : Path) (dataSourcePath : option Path)
    : result (Path * option DataSource) :=
  ds ← (match dataSourcePath with Some p => gather t p | None => Ok None end);
  Ok (match ds with Some d => Storage.appInfoPath d | None => appInfoPath end, ds).

(** [XpediteApp.start] reads the info file of the process ([Environment.loadAppInfo]). *)
Definition start_app (t : FsNode) (workspace : option string) (name : string) (kind : AppKind) (appInfoPath : Path)
    (ds : option DataSource) : result App :=
  lines ← read_lines t appInfoPath;
  info ← AppInfo_load workspace lines;
  Ok (mkApp name kind appInfoPath (ai_pid info) (ai_probes info) None ds).

(** A live app after [beginProfile]. *)
Definition begun (a : App) (runId : Z) : App :=
  mkApp (app_name a) (app_kind a) (app_appInfoPath a) (app_pid a) (app_probes a)
    (Some (live_pattern (app_name a) runId)) (app_dataSource a).

Section Reporting.
Context {F : Type} {HF : PyFloat F} {HH : RouteHash} {W : Type} {HW : AdminPort W}.
Context (fuel : nat).
Abbreviation Coll := (TxnCollection (Meta F)).
Abbreviation Cache := (list (Route * Index)).

(** [Collector.gatherCounters]: from the stored profile, or from the files of the process. *)
Definition gather_counters (d : Disk) (pm : ProbeMap Probe) (a : App) : result Loader :=
  match app_dataSource a with
  | Some ds => load_source fuel (dk_tree d) pm ds
  | None =>
      files ← gather_binary (dk_names d) (sampleFilePattern a);
      e ← gatherCounters (HS := TrivialCounterFilter) (HL := BoundedLoader pm fuel) (app_probes a)
            ((fun f => mkSampleFile _ (sf_threadId _ f) (sf_tlsAddr _ f) (dk_samples d (sf_contents _ f))) <$> files)
            (mkExtractor 0 tt BoundedTxnLoader_init);
      Ok (loader e)
  end.

(** The metrics of the session, with the flags [th] of their nodes. *)
Definition session_topdown (rt : Runtime (F := F)) (th : list bool) : option (TopdownMetrics F) :=
  (fun p : Hierarchy (F := F) * Metrics (F := F) => as_TopdownMetrics p.1 p.2 th) <$> rt_topdown rt.

(** The loader of the current run. *)
Definition current_meta (rt : Runtime (F := F)) (th : list bool) : Meta F :=
  mkMeta CURRENT_RUN (rt_cpuInfo rt) (rt_probes rt) (session_topdown rt th) (report_events (rt_eventSet rt)).
Definition current_run (d : Disk) (a : App) (rt : Runtime (F := F)) (th : list bool) (cache : Cache) : result (Coll * Cache) :=
  pm ← ProbeMap_init (fun p => p) (rt_probes rt) [];
  l ← gather_counters d pm a;
  TxnCollection_init cache (current_meta rt th) (loaded_txns l).

(** The arguments of a benchmark's loader; [topdown] is the cache of hierarchies. *)
Definition benchmark_loader (topdown : string -> result (Hierarchy (F := F))) (rt : Runtime (F := F)) (th : list bool)
    (benchmarkProbes : list (string * list Probe)) (b : Benchmark (F := F)) : result (list Probe * Meta F) :=
  let keys := (fun p : Hierarchy (F := F) * Metrics (F := F) => metrics_keys (h_store p.1) p.2) <$> rt_topdown rt in
  '(name, cpu, probes, tm, events) ←
    loaderFactory topdown (mkBenchmarkInfo (bm_name b) (bm_cpuInfo b) (default [] (bm_events b))) (rt_probes rt) benchmarkProbes keys;
  tm ← (match tm with
        | Some tm => h ← topdown (cpuId cpu); Ok (Some (as_TopdownMetrics h tm th))
        | None => Ok None
        end);
  Ok (probes, mkMeta name cpu probes tm events).

(** What a profile's user asks of its report. *)
Record ReportArgs := mkReportArgs {
  ra_name : string;
  ra_benchmarkPaths : list Path;
  ra_classifier : Classifier;
  ra_txnFilter : option (string -> Transaction -> bool);
  ra_threshold : Z;
  ra_order : ResultOrder;
  ra_conflation : RouteConflation
}.

Definition session_repo (d : Disk) (topdown : string -> result (Hierarchy (F := F))) (a : App) (rt : Runtime (F := F))
    (th : list bool) (benchmarkProbes : list (string * list Probe)) (paths : list Path) (cache : Cache)
    : result (TxnRepo (Meta F) * Cache) :=
  buildTxnRepo fuel (dk_tree d) (benchmark_loader topdown rt th benchmarkProbes) (current_run d a rt th) paths cache.

(** The end of the profile; when it is not clean the process is left in a state that is not known. *)
Definition end_profile (a : App) (w : W) : option W :=
  if app_dryRun a then Some w else match endProfile w with Ok (_, w) => Some w | Raise _ => None end.

(** [Runtime.report]: an unclean end of the profile is only logged; the files are read
    after it. *)
Context (numpy : list (Delta F) -> NumpyStats (F := F)) (size : ReportDoc (F := F) -> string) (uids : string -> string * string).
Definition Runtime_report (disk : option W -> Disk) (topdown : string -> result (Hierarchy (F := F))) (a : App)
    (rt : Runtime (F := F)) (th : list bool) (benchmarkProbes : list (string * list Probe)) (args : ReportArgs) (cache : Cache) (w : W)
    : result (list (Profile F) * list (string * Category (F := F) (list (string * list Z)))) :=
  let d := disk (end_profile a w) in
  '(repo, _) ← session_repo d topdown a rt th benchmarkProbes (ra_benchmarkPaths args) cache;
  generateReport numpy size uids fuel (if nonempty (ra_name args) then ra_name args else app_name a) repo (ra_classifier args)
    (ra_order args) (ra_threshold args) (ra_txnFilter args) (ra_conflation args).
End Reporting.

(** ** What a session loads *)

Section Loaded.
Context {F : Type} {HF : PyFloat F} {HH : RouteHash} (fuel : nat).

Lemma collected_numbered pm l l' : loader_ok l -> ld_endCollection (TxnLoader := BoundedLoader pm fuel) l = Ok l' -> num_loader l'.
Proof. intros [Hl _]. exact (num_endCollection fuel l l' Hl). Qed.

Lemma load_source_numbered t pm ds l : load_source fuel t pm ds = Ok l -> num_loader l.
Proof.
  unfold load_source. intros H. apply bind_Ok in H as (info & _ & H). apply bind_Ok in H as (fs & _ & H).
  apply bind_Ok in H as (e & He & [= <-]).
  destruct (loadDataSource_keeps (HL := BoundedLoader pm fuel) loader_ok _ _ (mkExtractor 0 tt BoundedTxnLoader_init) e loader_ok_init He) as (l & Hl & El).
  exact (collected_numbered pm l _ Hl El).
Qed.

Lemma gather_counters_numbered d pm a l : gather_counters fuel d pm a = Ok l -> num_loader l.
Proof.
  unfold gather_counters. destruct (app_dataSource a) as [ds|]; [apply load_source_numbered|]. intros H.
  apply bind_Ok in H as (fs & _ & H). apply bind_Ok in H as (e & He & [= <-]).
  destruct (gatherCounters_keeps (HL := BoundedLoader pm fuel) loader_ok _ _ (mkExtractor 0 tt BoundedTxnLoader_init) e loader_ok_init He) as (l & Hl & El).
  exact (collected_numbered pm l _ Hl El).
Qed.

Lemma current_run_listed d a (rt : Runtime (F := F)) th cache c cache' : proper_cache cache ->
  current_run fuel d a rt th cache = Ok (c, cache') ->
  tc_meta c = current_meta rt th /\ Forall listed (txnMap c).*2 /\ proper_cache cache'.
Proof.
  unfold current_run. intros Hc H. apply bind_Ok in H as (pm & _ & H). apply bind_Ok in H as (l & Hl & H).
  exact (TxnCollection_init_listed _ _ _ _ _ Hc (loaded_numbered l (gather_counters_numbered d pm a l Hl)) H).
Qed.

Lemma load_stored_listed t cache args ds c cache' : proper_cache cache -> load_stored (F := F) fuel t cache args ds = Ok (c, cache') ->
  tc_meta c = args.2 /\ Forall listed (txnMap c).*2 /\ proper_cache cache'.
Proof.
  unfold load_stored. intros Hc H. apply bind_Ok in H as (pm & _ & H). apply bind_Ok in H as (l & Hl & H).
  exact (TxnCollection_init_listed _ _ _ _ _ Hc (loaded_numbered l (load_source_numbered _ _ _ _ Hl)) H).
Qed.

(** The metadata of a benchmark: metrics only with events. *)
Lemma benchmark_loader_spec topdown (rt : Runtime (F := F)) th benchmarkProbes b ps meta :
  benchmark_loader topdown rt th benchmarkProbes b = Ok (ps, meta) ->
  m_name meta = bm_name b /\ m_probes meta = ps /\
  (m_topdown meta = None \/ m_events meta <> [] /\ exists h tm, m_topdown meta = Some (as_TopdownMetrics h tm th)).
Proof.
  unfold benchmark_loader, loaderFactory. cbn [b_name b_cpuInfo b_events]. intros H. apply bind_Ok in H as ([[[[n cpu] ps'] tm] es] & H1 & H).
  apply bind_Ok in H1 as (tm' & Htm & [= <- <- <- <- <-]). apply bind_Ok in H as (tm & Htm' & [= <- <-]). cbn.
  split; [done|]. split; [done|]. destruct tm' as [tm'|]; [right|left; by injection Htm' as <-].
  apply bind_Ok in Htm' as (h & _ & [= <-]). split; [|by exists h, tm'].
  revert Htm. destruct (_ <$> rt_topdown rt); [|done]. by destruct (default [] (bm_events b)).
Qed.

(** Reports can be shown when nothing they plot is called wall time. *)
Lemma reportable_meta (meta : Meta F) th : TSC_EVENT_NAME ∉ series_names meta ->
  (forall tm, m_topdown meta = Some tm -> exists h ms, tm = as_TopdownMetrics h ms th) ->
  (m_events meta = [] -> visit_names (topdown_keys meta) = []) -> reportable meta.
Proof.
  intros H1 H2 H3. split; [exact H1|]. split; [|exact H3]. intros tm m vs Htm Hvs. destruct (H2 tm Htm) as (h & ms & ->).
  exact (topdown_reportable h ms th m vs Hvs).
Qed.
End Loaded.

(** ** The repository of a session *)

Section SessionRepo.
Context {F : Type} {HF : PyFloat F} {HH : RouteHash} (fuel : nat).
Abbreviation Coll := (TxnCollection (Meta F)).

Definition listed_coll (c : Coll) : Prop := Forall listed (txnMap c).*2.
Definition listed_repo (s : TxnRepo (Meta F) * list (Route * Index)) : Prop :=
  Forall listed_coll (collections s.1) /\ proper_cache s.2.

Lemma loadTxns_listed t factory bs s s' : listed_repo s -> loadTxns (F := F) fuel t factory s bs = Ok s' -> listed_repo s'.
Proof.
  unfold loadTxns. intros Hs. apply (mfor_inv _ listed_repo); [|exact Hs]. clear s s' Hs.
  intros [r c0] b [r' c'] _ [Hr Hc] H. apply bind_Ok in H as (args & _ & H). apply bind_Ok in H as (ds & _ & H).
  apply bind_Ok in H as ([c c1] & Hl & H). apply bind_Ok in H as (r1 & Ha & [= <- <-]).
  destruct (load_stored_listed fuel t c0 args ds c c1 Hc Hl) as (_ & Hlc & Hc1). split; [|exact Hc1].
  unfold add_collection, addBenchmark in Ha. destruct (bool_decide _); [done|]. apply bind_Ok in Ha as (c2 & _ & [= <-]).
  cbn. apply Forall_app. split; [exact Hr|]. by apply Forall_singleton.
Qed.

Lemma session_repo_listed d topdown a (rt : Runtime (F := F)) th bp paths cache repo cache' : proper_cache cache ->
  session_repo fuel d topdown a rt th bp paths cache = Ok (repo, cache') -> listed_repo (repo, cache').
Proof.
  unfold session_repo, buildTxnRepo. intros Hc H. apply bind_Ok in H as ([cur c0] & Hcur & H). cbn in H.
  destruct (current_run_listed fuel d a rt th cache cur c0 Hc Hcur) as (_ & Hl & Hc0).
  assert (H0 : listed_repo (mkTxnRepo [cur] [] (Some 0%nat) [0%nat], c0)) by (split; [by apply Forall_singleton|done]).
  destruct paths as [|p paths]; [by injection H as <- <-|]. apply bind_Ok in H as (bs & _ & H). exact (loadTxns_listed _ _ _ _ _ H0 H).
Qed.

(** The collections of the repository: the current run's loader and those of the benchmarks. *)
Lemma session_repo_metas d topdown a (rt : Runtime (F := F)) th bp paths cache repo cache' : proper_cache cache ->
  session_repo fuel d topdown a rt th bp paths cache = Ok (repo, cache') ->
  exists cur cs, shaped repo cur cs /\ tc_meta cur = current_meta rt th /\
    Forall (fun c => exists b ps, benchmark_loader topdown rt th bp b = Ok (ps, tc_meta c)) cs.
Proof.
  unfold session_repo. intros Hc H. destruct (buildTxnRepo_shaped _ _ _ _ _ _ _ _ H) as (cur & c0 & bs & cs & Hcur & _ & Hcs & Hs).
  exists cur, cs. split; [exact Hs|]. split; [exact (proj1 (current_run_listed fuel d a rt th cache cur c0 Hc Hcur))|].
  clear -Hcs. induction Hcs as [|b c bs cs (args & ds & c1 & c2 & Hf & _ & _ & Hm) _ IH]; constructor; [|exact IH].
  exists b, args.1. rewrite Hm Hf. by destruct args.
Qed.

Lemma current_reportable (rt : Runtime (F := F)) th : TSC_EVENT_NAME ∉ series_names (current_meta rt th) ->
  (report_events (rt_eventSet rt) = [] -> forall p, rt_topdown rt = Some p -> metrics_names (h_store p.1) p.2 = []) ->
  reportable (current_meta rt th).
Proof.
  intros H1 H2. apply (reportable_meta _ th H1).
  - cbn. unfold session_topdown. intros tm Htm. apply fmap_Some in Htm as ([h ms] & _ & ->). by exists h, ms.
  - unfold topdown_keys, current_meta, session_topdown in *. cbn. intros He. destruct (rt_topdown rt) as [p|]; [|done]. cbn.
    etransitivity; [apply visit_keys|]. exact (H2 He p eq_refl).
Qed.

Lemma benchmark_reportable topdown (rt : Runtime (F := F)) th bp b ps meta : benchmark_loader topdown rt th bp b = Ok (ps, meta) ->
  TSC_EVENT_NAME ∉ series_names meta -> reportable meta.
Proof.
  intros H Hn. destruct (benchmark_loader_spec _ _ _ _ _ _ _ H) as (_ & _ & Ht). apply (reportable_meta _ th Hn).
  - intros tm Htm. destruct Ht as [Ht|(_ & h & ms & Ht)]; rewrite Ht in Htm; [done|]. injection Htm as <-. by exists h, ms.
  - intros He. destruct Ht as [Ht|(Hne & _)]; [|done]. unfold topdown_keys. by rewrite Ht.
Qed.

(** The benchmarks of narrowed collections. *)
Lemma narrowed_benchmarks objects objects' d d' cu ow : Forall2 narrowed objects objects' -> resolves objects d d' ->
  exists benchs, getBenchmarks (mkTxnRepo objects' d cu ow) = Ok benchs /\ benchs.*1 = d'.*1 /\
    Forall (fun b : string * Coll => exists c, c ∈ objects /\ tc_meta b.2 = tc_meta c) benchs.
Proof.
  intros Hn. unfold getBenchmarks, coll_at. cbn [collections benchmarkCollections].
  induction 1 as [|[k h] [k' c] d d' [E Hc] _ (benchs & IH & Hk & Hms)]; [by exists []|]. cbn [fst snd] in E, Hc. subst k'.
  destruct (Forall2_lookup_l _ _ _ _ _ Hn Hc) as (c' & Hc' & Hm & _). exists ((k, c') :: benchs).
  cbn [mmap fst snd]. rewrite Hc'. cbn [or_raise mbind result_bind]. rewrite IH. cbn [mbind result_bind].
  split; [done|]. split; [by rewrite !fmap_cons Hk|]. constructor; [|exact Hms].
  exists c. split; [exact (list_elem_of_lookup_2 _ _ _ Hc)|exact Hm].
Qed.

Lemma resolves_bound objects d d' h : resolves objects d d' -> h ∈ (d.*2 : list nat) -> (h < length (objects : list Coll))%nat.
Proof.
  intros H. induction H as [|[k h0] [k' c] d d' [_ Hc] _ IH]; [by intros ?%not_elem_of_nil|]. rewrite fmap_cons elem_of_cons.
  intros [->|Hin]; [exact (lookup_lt_Some _ _ _ Hc)|exact (IH Hin)].
Qed.

(** A repository ready for a report: what the report reads is there, and can be shown. *)
Record ready (repo : TxnRepo (Meta F)) (cur : Coll) (benchs : list (string * Coll)) : Prop := {
  rd_cur : getCurrent repo = Ok cur;
  rd_benchs : getBenchmarks repo = Ok benchs;
  rd_distinct : NoDup benchs.*1;
  rd_current : exists h, currentCollection repo = Some h /\ isCurrent repo h = true;
  rd_listed : Forall listed (txnMap cur).*2;
  rd_reportable : reportable (tc_meta cur) /\ Forall (fun b => reportable (tc_meta b.2)) benchs
}.

(** Filtering keeps a repository ready. *)
Lemma shaped_ready f repo cur cs : shaped repo cur cs -> Forall listed_coll (collections repo) ->
  Forall (fun c => reportable (tc_meta c)) (collections repo) ->
  exists n repo' cur' benchs, filterTxns m_name f repo = Ok (n, repo') /\ ready repo' cur' benchs /\ tc_meta cur' = tc_meta cur.
Proof.
  destruct repo as [objects d cu ow]. intros [E1 E2 Ho Hb] Hl Hr. cbn in E1, E2, Ho, Hb. subst objects cu. cbn [collections] in Hl, Hr.
  destruct (filterTxns_total m_name f (mkTxnRepo (cur :: cs) d (Some 0%nat) ow)) as (n & objects & Hf & Hn).
  { cbn. intros o [->|Hin]%elem_of_cons; [exists 0%nat; cbn; split; [done|lia]|].
    apply list_elem_of_fmap in Hin as (h & -> & Hin). exists h. split; [done|]. exact (resolves_bound _ _ _ _ Hb Hin). }
  cbn in Hf, Hn. destruct (narrowed_benchmarks _ _ _ _ (Some 0%nat) ow Hn Hb) as (benchs & Hbs & Hk & Hms).
  apply Forall2_cons_inv_l in Hn as (cur' & objects' & [Hm Hsub] & Hn & ->).
  exists n, (mkTxnRepo (cur' :: objects') d (Some 0%nat) ow), cur', benchs. split; [exact Hf|]. split; [|exact Hm].
  apply Forall_cons in Hl as [Hl _]. unfold listed_coll in Hl. rewrite Forall_forall in Hl. rewrite Forall_forall in Hr. split.
  - done.
  - exact Hbs.
  - rewrite Hk. apply by_name_distinct.
  - exists 0%nat. split; [done|]. unfold isCurrent. cbn. by rewrite !bool_decide_true.
  - apply Forall_forall. intros x Hx. exact (Hl x (Hsub x Hx)).
  - rewrite Hm. split; [apply Hr; left|]. eapply Forall_impl; [exact Hms|]. intros b (c & Hc & ->). exact (Hr c Hc).
Qed.

(** Without a filter it is ready as it is. *)
Lemma shaped_ready_whole repo cur cs : shaped repo cur cs -> Forall listed_coll (collections repo) ->
  Forall (fun c => reportable (tc_meta c)) (collections repo) -> ready repo cur (by_name cs).
Proof.
  intros Hs Hl Hr. destruct (shaped_gets _ _ _ Hs) as (H1 & H2 & H3). destruct Hs as [Ec Ecu _ _]. rewrite Ec in Hl, Hr.
  apply Forall_cons in Hl as [Hl _]. apply Forall_cons in Hr as [Hr Hrs]. split; [exact H1|exact H2|apply by_name_distinct| |exact Hl|].
  - by exists 0%nat.
  - split; [exact Hr|]. exact (by_name_Forall (fun c => reportable (tc_meta c)) cs Hrs).
Qed.
End SessionRepo.

(** ** Reports *)

Section SessionReport.
Context {F : Type} {HF : PyFloat F} {HH : RouteHash} {W : Type} {HW : AdminPort W} (fuel : nat).
Context (numpy : list (Delta F) -> NumpyStats (F := F)) (size : ReportDoc (F := F) -> string) (uids : string -> string * string).

Lemma session_repo_reportable d topdown a (rt : Runtime (F := F)) th bp paths cache repo cache' : proper_cache cache ->
  session_repo fuel d topdown a rt th bp paths cache = Ok (repo, cache') ->
  (forall c, c ∈ collections repo -> TSC_EVENT_NAME ∉ series_names (tc_meta c)) ->
  (report_events (rt_eventSet rt) = [] -> forall p, rt_topdown rt = Some p -> metrics_names (h_store p.1) p.2 = []) ->
  exists cur cs, shaped repo cur cs /\ Forall (fun c => reportable (tc_meta c)) (collections repo) /\ m_name (tc_meta cur) = CURRENT_RUN.
Proof.
  intros Hc H Hn Htd. destruct (session_repo_metas fuel d topdown a rt th bp paths cache repo cache' Hc H) as (cur & cs & Hs & Hm & Hb).
  exists cur, cs. split; [exact Hs|]. rewrite (sh_collections _ _ _ Hs) in Hn |- *. split; [|by rewrite Hm].
  constructor.
  - rewrite Hm. apply current_reportable; [|exact Htd]. rewrite -Hm. apply Hn. left.
  - rewrite Forall_forall in Hb. apply Forall_forall. intros c Hcc. destruct (Hb c Hcc) as (b & ps & Hbl).
    apply (benchmark_reportable topdown rt th bp b ps _ Hbl), Hn. by right.
Qed.

(** C17 (types of a session): every transaction of the repository a session builds, of its current
    run and of its benchmarks, whether read from the files of the process or from a stored profile,
    has a number for an id, never the text of the link it was resumed with, and the route of its
    own probes. *)
Theorem session_repo_typed d topdown a (rt : Runtime (F := F)) th bp paths cache repo cache' : proper_cache cache ->
  session_repo fuel d topdown a rt th bp paths cache = Ok (repo, cache') ->
  Forall (fun c => Forall listed (txnMap c).*2) (collections repo) /\ proper_cache cache'.
Proof. intros Hc H. exact (session_repo_listed fuel d topdown a rt th bp paths cache repo cache' Hc H). Qed.

End SessionReport.

(** *** Example: a live session with pmu events and topdown metrics, against a stored profile *)

(** Floats with three decimals. *)
#[local] Instance ex_rt_float : PyFloat Z := {|
  f_of_Z z := 1000 * z; f_add := Z.add; f_sub := Z.sub; f_mul a b := a * b / 1000; f_div a b := 1000 * a / b; f_lt := Z.ltb;
  f_is_zero z := z =? 0; f_nan := 0; f_is_nan z := false; f_trunc z := z / 1000 |}.
#[local] Instance ex_rt_hash : RouteHash := fun ps => Z.of_nat (length ps).
#[local] Instance ex_rt_port : AdminPort Target := DirectPort no_other.

Definition ex_rt_probes : list Probe :=
  [ex_probe CTxnBeginProbe "Begin" true false false false; ex_probe CTxnEndProbe "End" false false false true].
Definition ex_rt_info (name site : string) (line : Z) : ProbeInfo :=
  mkProbeInfo "0001" "0x60" "0x40" site true name "/ws/a.C" line "f()" "".
Definition ex_rt_records : list ProbeInfo := [ex_rt_info "Begin" "0x4a" 1; ex_rt_info "End" "0x4b" 2].
Definition ex_rt_cpu : CpuInfo Z := CpuInfo_init "cpu" 1000000.
Definition ex_rt_session : Runtime (F := Z) :=
  mkRuntime ex_rt_cpu ex_rt_probes (Some (ex_se_hierarchy, ex_se_metrics)) (Some ex_se_set).
Definition ex_rt_app : App :=
  begun (mkApp "app" LiveApp ["appinfo.txt"%string] "42" (match buildFromRecords None (probe_record <$> ex_rt_records) with Ok l => l | Raise _ => [] end)
    None None) 1637000000.

(** The stored profile has one transaction, and the events of the session. *)
Definition ex_rt_ini : list string :=
  match benchmark_ini "base" "2021-11-24" ex_rt_cpu (report_events (Some ex_se_set)) with Ok c => write_ini c | Raise _ => [] end.
Definition ex_rt_tree : FsNode :=
  Dir [("base"%string, Dir [("benchmark"%string, Dir
        [(".benchmark"%string, File ex_rt_ini);
         ("appinfo.txt"%string, File (["pid: 1"; "port: 2"; "binary: /x"; "tscHz: 3"]%string ++ (probe_record <$> ex_rt_records)));
         ("run"%string, Dir [("11-fe"%string, Dir [("samples-0000.csv"%string,
            File ["Tsc,ReturnSite,Data"; "a,0x4a,,1,2"; "1e,0x4b,,5,9"]%string)])])])])].

(** Two threads, one of them interrupted. *)
Definition ex_rt_names (dir : string) : list string :=
  if String.eqb dir "/dev/shm" then ["xpedite-app-1637000000-7-00000000000000ff.data"; "other"; "xpedite-app-1637000000-8-00000000000000fe.data"]%string else [].
Definition ex_rt_samples (path : string) : list Sample :=
  if String.eqb path "/dev/shm/xpedite-app-1637000000-7-00000000000000ff.data"
  then [mkSample 74 None 10 [1; 2]; mkSample 75 None 50 [9; 5]; mkSample 74 None 60 [10; 6]; mkSample 75 None 90 [12; 9]]
  else [mkSample 74 None 20 [0; 0]; mkSample 75 None 40 [4; 4]; mkSample 74 None 95 [5; 5]].
Definition ex_rt_disk (_ : option Target) : Disk := mkDisk ex_rt_tree ex_rt_names ex_rt_samples.
Definition ex_rt_args : ReportArgs := mkReportArgs "" [["base"%string]] DefaultClassifier
  (Some (fun name t => negb (bool_decide (length (counters t) = 1%nat)))) 3000 WorstToBest Off.
Definition ex_rt_final : Disk := ex_rt_disk (end_profile ex_rt_app two_probes).
Definition ex_rt_loaded := session_repo 100 ex_rt_final ex_se_cache ex_rt_app ex_rt_session [] [] [["base"%string]] [].
Definition ex_rt_repo : TxnRepo (Meta Z) := match ex_rt_loaded with Ok p => p.1 | Raise _ => TxnRepo_init [] end.
Definition ex_rt_cache : list (Route * Index) := match ex_rt_loaded with Ok p => p.2 | Raise _ => [] end.
Definition ex_rt_ids (r : TxnRepo (Meta Z)) : list (list TxnId) := (fun c => txnId <$> (txnMap c).*2) <$> collections r.

Lemma session_repo_typed_witness :
  session_repo 100 ex_rt_final ex_se_cache ex_rt_app ex_rt_session [] [] [["base"%string]] [] = Ok (ex_rt_repo, ex_rt_cache) /\
  ex_rt_ids ex_rt_repo = [[IdInt 1; IdInt 3; IdInt 2]; [IdInt 1]] /\
  Forall (fun c => Forall listed (txnMap c).*2) (collections ex_rt_repo).
Proof.
  assert (H : session_repo 100 ex_rt_final ex_se_cache ex_rt_app ex_rt_session [] [] [["base"%string]] [] = Ok (ex_rt_repo, ex_rt_cache)) by (vm_compute; reflexivity).
  split; [exact H|]. split; [vm_compute; reflexivity|].
  exact (proj1 (session_repo_typed 100 ex_rt_final ex_se_cache ex_rt_app ex_rt_session [] [] [["base"%string]] [] ex_rt_repo ex_rt_cache (Forall_nil_2 _) H)).
Defined.

Definition from_ok {A} (d : A) (r : result A) : A := match r with Ok a => a | Raise _ => d end.
Lemma from_ok_eq {A} (d a : A) r : r = Ok a -> a = from_ok d r.
Proof. by intros ->. Qed.

Definition ex_rt_filtered : TxnRepo (Meta Z) :=
  (from_ok (0%nat, ex_rt_repo) (filterTxns m_name (fun name t => negb (bool_decide (length (counters t) = 1%nat))) ex_rt_repo)).2.
Definition ex_rt_current : TxnCollection (Meta Z) := from_ok (mkCollection (current_meta ex_rt_session []) []) (getCurrent ex_rt_filtered).
Definition ex_rt_benchs : list (string * TxnCollection (Meta Z)) := from_ok [] (getBenchmarks ex_rt_filtered).
Definition ex_rt_bundles : list (string * list (list Z)) :=
  from_ok [] (buildElapsedTimeBundles (ex_rt_current :: ex_rt_benchs.*2) DefaultClassifier).
Definition ex_rt_histograms : list (string * list (string * list Z)) :=
  from_ok [] (generateHistograms 100 ((m_name ∘ tc_meta) <$> ex_rt_current :: ex_rt_benchs.*2) ex_rt_bundles).
Definition ex_rt_profiles : list (Profile Z) := from_ok [] (generateProfiles "app" ex_rt_current ex_rt_benchs DefaultClassifier Off).

