(* ===== verification/Profiler.v ===== *)
(** * Profile sessions

    Models [Profiler.profile], [Profiler.record] and [Profiler.report] of profiler/__init__.py with
    its helpers, and [ProfileInfo] of profiler/profileInfo.py: a session is started, kept alive
    until a key is pressed, its time is up or the process is gone, and ends with a report and, if it
    is asked for, a benchmark.

    Time is read in ticks, a whole number of them to a second.  The modules users write as
    profile infos are values of [ProfileInfo]. *)

From Stdlib Require Import Ascii.
From S2P Require Import Prelude PyStr Probe Route Txn Aggregate Timeline Records Conflate Analyze Profiles Topdown Pmu EventsDb Target Admin Session Source Storage Report Runtime.

(** ** The surroundings of a session *)

(** Ticks in a second. *)
Definition SECOND : Z := 1000000000.

(** The clock, and the two ways to wait; a time out of [None] waits for a key alone. *)
Class Console (W : Type) := {
  now : W -> Z;
  select_key : option Z -> W -> bool * W;   (* whether a key was pressed *)
  sleep_for : Z -> W -> W
}.

(** ** Names and paths *)

Definition is_word (c : ascii) : bool := (is_alpha c || is_digit c || Ascii.eqb c "_")%bool.
Definition name_char (c : ascii) : bool := (is_word c || existsb (Ascii.eqb c) ["-"; ":"; "_"; "."; " "]%char)%bool.

(** [buildReportName]; [stamp] is the date and time. *)
Definition buildReportName (appName : string) (reportName : option string) (stamp : string) : string :=
  let n := match reportName with
           | Some n => if nonempty n then n else String.append appName (String.append "-" stamp)
           | None => String.append appName (String.append "-" stamp)
           end in
  of_chars ((fun c => if name_char c then c else "_"%char) <$> to_chars n).

(** [validateBenchmarkPath]: the path must be new, and is made. *)
Definition validateBenchmarkPath (path : option Path) (t : FsNode) : result FsNode :=
  match path with
  | None | Some [] => Ok t
  | Some p => if exists_path t p then Raise SystemExit_ else mkdir p t
  end.

(** The names on a path that is a text. *)
Definition to_path (s : string) : Path := filter (fun n => nonempty n = true) (py_split "/" s).

(** [str.replace] of a character. *)
Definition replace_char (a b : ascii) (s : string) : string := of_chars ((fun c => if Ascii.eqb c a then b else c) <$> to_chars s).

(** [ProfileInfo]. *)
Record ProfileInfo := mkProfileInfo {
  pi_appName : string;
  pi_appInfo : Path;
  pi_probes : list Probe;
  pi_pmc : list PmcItem;
  pi_cpuSet : list Z;
  pi_benchmarkPaths : list Path;
  pi_classifier : option Classifier;
  pi_resultOrder : option ResultOrder;
  pi_txnFilter : option (string -> Transaction -> bool);
  pi_routeConflation : option RouteConflation
}.
Definition ProfileInfo_init (appName : string) (appInfo : Path) (probes : list Probe) (pmc : list PmcItem) (cpuSet : list Z)
    (benchmarkPaths : list Path) (classifier : option Classifier) (resultOrder : option ResultOrder)
    (txnFilter : option (string -> Transaction -> bool)) (routeConflation : option RouteConflation) : ProfileInfo :=
  mkProfileInfo (replace_char " " "_" appName) appInfo probes pmc cpuSet benchmarkPaths classifier resultOrder txnFilter routeConflation.

(** A missing order is none of the four: the transactions stay as they are; a missing
    conflation is not [On]. *)
Definition given_order (o : option ResultOrder) : ResultOrder := default Chronological o.
Definition given_conflation (o : option RouteConflation) : RouteConflation := default Off o.

Definition report_args (pi : ProfileInfo) (reportName : string) : ReportArgs :=
  mkReportArgs reportName (pi_benchmarkPaths pi) (default DefaultClassifier (pi_classifier pi)) (pi_txnFilter pi) 3000
    (given_order (pi_resultOrder pi)) (given_conflation (pi_routeConflation pi)).

(** ** The session *)

Inductive Ending := KeyPressed | TimeUp | Disconnected.

Section Waiting.
Context {W : Type} {HW : AdminPort W} {HC : Console W}.

(** [min(heartbeatInterval, duration - elapsed)]: there is no order on [None]. *)
Definition wait_time (heartbeatInterval duration : option Z) (elapsed : Z) : result (option Z) :=
  match duration with
  | Some d => h ← or_raise TypeError_ heartbeatInterval; Ok (Some (Z.min (h * SECOND) (d * SECOND - elapsed)))
  | None => Ok ((fun h => h * SECOND) <$> heartbeatInterval)
  end.

(** Neither wait takes a negative time, nor can [sleep] be without one. *)
Definition wait_once (interactive : bool) (timeout : option Z) (w : W) : result (bool * W) :=
  if match timeout with Some t => t <? 0 | None => false end then Raise ValueError_
  else if interactive then Ok (select_key timeout w)
  else t ← or_raise TypeError_ timeout; Ok (false, sleep_for t w).

(** The loop of [profile]; the process is pinged after every wait.  A ping that fails ends the
    session. *)
Fixpoint profile_loop (fuel : nat) (interactive : bool) (heartbeatInterval duration : option Z) (begin elapsed : Z) (w : W)
    : result (Ending * W) :=
  match fuel with
  | O => Raise RecursionError_
  | S fuel =>
      timeout ← wait_time heartbeatInterval duration elapsed;
      '(eof, w) ← wait_once interactive timeout w;
      let elapsed := now w - begin in
      if (eof : bool) then Ok (KeyPressed, w)
      else if match duration with Some d => (negb (d =? 0) && (d * SECOND <=? elapsed))%bool | None => false end then Ok (TimeUp, w)
      else match ping w with
           | Ok (_, w) => profile_loop fuel interactive heartbeatInterval duration begin elapsed w
           | Raise _ => Ok (Disconnected, w)
           end
  end.
End Waiting.

(** ** The end of a session *)

(** Waiting takes the time it is given, unless a key is pressed, and commands do not turn the
    clock back. *)
Class PatientConsole (W : Type) {HW : AdminPort W} {HC : Console W} := {
  select_waits t w eof w' : select_key t w = (eof, w') -> (forall d, t = Some d -> 0 <= d) ->
    now w <= now w' /\ (eof = false -> exists d, t = Some d /\ now w + d <= now w');
  sleep_waits d w : 0 <= d -> now w + d <= now (sleep_for d w);
  commands_take_time cmd w r w' : admin cmd w = Ok (r, w') -> now w <= now w'
}.

Section Ending.
Context {W : Type} {HW : AdminPort W} {HC : Console W} {HP : PatientConsole W}.

Lemma wait_once_waits interactive d w : 0 <= d -> exists eof w', wait_once interactive (Some d) w = Ok (eof, w') /\
  now w <= now w' /\ (eof = false -> now w + d <= now w') /\ (interactive = false -> eof = false).
Proof.
  intros Hd. unfold wait_once. rewrite (proj2 (Z.ltb_ge d 0)) //. destruct interactive.
  - destruct (select_key (Some d) w) as [eof w'] eqn:E. exists eof, w'. destruct (select_waits _ _ _ _ E) as [H1 H2]; [by intros d' [= <-]|].
    split_and!; [done|done| |done]. intros He. destruct (H2 He) as (d' & [= <-] & H). exact H.
  - exists false, (sleep_for d w). pose proof (sleep_waits d w Hd). split_and!; [done|lia|done|done].
Qed.

Lemma ping_takes_time w b w' : ping w = Ok (b, w') -> now w <= now w'.
Proof. unfold ping. intros H. apply bind_Ok in H as ([r w1] & H & [= _ <-]). exact (commands_take_time _ _ _ _ H). Qed.

(** A wait for every heartbeat that fits in what is left. *)
Lemma profile_loop_finishes fuel interactive h d begin elapsed w : 0 < h -> 0 < d ->
  elapsed < d * SECOND -> elapsed <= now w - begin -> d * SECOND - elapsed <= Z.of_nat fuel * (h * SECOND) ->
  exists e w', profile_loop fuel interactive (Some h) (Some d) begin elapsed w = Ok (e, w') /\
    (e = TimeUp -> d * SECOND <= now w' - begin) /\ (e = Disconnected -> exists x, ping w' = Raise x) /\
    (interactive = false -> e <> KeyPressed).
Proof.
  intros Hh Hd. revert elapsed w. induction fuel as [|fuel IH]; intros elapsed w He Hw Hf; [unfold SECOND in *; lia|].
  cbn [profile_loop wait_time or_raise mbind result_bind].
  set (t := Z.min (h * SECOND) (d * SECOND - elapsed)). assert (Ht : 0 <= t) by (subst t; unfold SECOND in *; lia).
  destruct (wait_once_waits interactive t w Ht) as (eof & w1 & -> & H1 & H2 & H3). cbn [mbind result_bind].
  destruct eof; [exists KeyPressed, w1; split_and!; [done|done|done|by intros E%H3]|]. specialize (H2 eq_refl).
  assert (Hdz : (d =? 0) = false) by lia. rewrite Hdz. cbn [negb andb].
  destruct (Z.leb_spec (d * SECOND) (now w1 - begin)) as [Hle|Hgt]; [exists TimeUp, w1; by split_and!|].
  destruct (ping w1) as [[b w2]|x] eqn:Ep; [|exists Disconnected, w1; split_and!; [done|done|intros _; by exists x|done]].
  pose proof (ping_takes_time _ _ _ Ep) as H4. apply IH; [done|lia|]. subst t. lia.
Qed.

(** C19 (end of a session): a live session with a duration, a heartbeat and time that passes ends:
    it never waits for a negative time, it waits at most once for every heartbeat that
    begins within the duration, it ends early only when a key is pressed or the process does not
    answer, and otherwise not before its time is up. *)
Theorem profile_loop_ends interactive h d w : 0 < h -> 0 < d ->
  exists e w', profile_loop (Z.to_nat ((d + h - 1) / h)) interactive (Some h) (Some d) (now w) 0 w = Ok (e, w') /\
    (e = TimeUp -> d * SECOND <= now w' - now w) /\ (e = Disconnected -> exists x, ping w' = Raise x) /\
    (interactive = false -> e <> KeyPressed).
Proof.
  intros Hh Hd. apply profile_loop_finishes; [done|done|unfold SECOND; lia|lia|].
  assert (0 <= (d + h - 1) / h) by (apply Z.div_pos; lia). rewrite Z2Nat.id //.
  pose proof (Z.div_mod (d + h - 1) h ltac:(lia)). pose proof (Z.mod_pos_bound (d + h - 1) h Hh). unfold SECOND. nia.
Qed.
End Ending.

(** Without a heartbeat a duration is of no use: there is no least of [None] and a number. *)
Theorem duration_needs_heartbeat {W} {HW : AdminPort W} {HC : Console W} fuel interactive d begin elapsed (w : W) :
  profile_loop (S fuel) interactive None (Some d) begin elapsed w = Raise TypeError_.
Proof. done. Qed.

(** A duration of zero is not counted as one, and the second wait is for less than no time. *)
Theorem zero_duration_fails {W} {HW : AdminPort W} {HC : Console W} fuel interactive h begin (w w1 w2 : W) b : 0 <= h ->
  wait_once interactive (Some 0) w = Ok (false, w1) -> ping w1 = Ok (b, w2) -> begin < now w1 ->
  profile_loop (S (S fuel)) interactive (Some h) (Some 0) begin 0 w = Raise ValueError_.
Proof.
  intros Hh Hw Hp Hn. cbn [profile_loop wait_time or_raise mbind result_bind].
  replace (Z.min (h * SECOND) (0 * SECOND - 0)) with 0 by (unfold SECOND; lia). rewrite Hw. cbn [mbind result_bind Z.eqb negb andb].
  rewrite Hp. unfold wait_once. assert (Ht : (Z.min (h * SECOND) (0 * SECOND - (now w1 - begin)) <? 0) = true) by (unfold SECOND; lia).
  by rewrite Ht.
Qed.

(** ** The session, from its start to its report *)

Section Sessions.
Context {F : Type} {HF : PyFloat F} {HH : RouteHash} {W : Type} {HW : AdminPort W} {HC : Console W}.
Context (fuel : nat) (numpy : list (Delta F) -> NumpyStats (F := F)) (size : ReportDoc (F := F) -> string)
  (uids : string -> string * string) (saveAsCsv : Path -> FsNode -> result (list string)).

(** What a session finds on its host. *)
Record Host := mkHost {
  h_restart : W -> result W;
  h_driver : bool;                                            (* is the driver loaded? *)
  h_cpuInfo : result (CpuInfo F);
  h_eventsDb : string -> result (string -> option UArchEvent);
  h_topdown : string -> result (Hierarchy (F := F));
  h_flags : list bool;                                        (* of the nodes, when values are computed *)
  h_disk : FsNode -> option W -> Disk;                        (* once the profile has ended *)
  h_runId : Z; h_stamp : string; h_today : string             (* clock and calendar *)
}.

Abbreviation Categories := (list (string * Category (F := F) (list (string * list Z)))).

(** The files of the current run, which a benchmark stores. *)
Definition current_source (d : Disk) (a : App) : result DataSource :=
  match app_dataSource a with
  | Some ds => Ok ds
  | None =>
      fs ← gather_binary (dk_names d) (sampleFilePattern a);
      Ok (mkDataSource (app_appInfoPath a) ((fun f => mkSampleFile _ (sf_threadId _ f) (sf_tlsAddr _ f) (to_path (sf_contents _ f))) <$> fs))
  end.

(** [Report.makeBenchmark]; the processor is that of the first profile, and a report without
    profiles has none. *)
Definition store_report (h : Host) (d : Disk) (a : App) (rt : Runtime (F := F)) (profiles : list (Profile F)) (path : Path)
    : result FsNode :=
  ds ← current_source d a;
  makeBenchmark saveAsCsv (h_today h) ds (match profiles with [] => None | _ => Some (rt_cpuInfo rt) end)
    (report_events (rt_eventSet rt)) path (dk_tree d).

(** The wait of a live session; [int] takes the duration from the command line. *)
Definition live_session (interactive : bool) (heartbeatInterval : option Z) (duration : option string) (w : W) : result (Ending * W) :=
  d ← (match duration with Some s => n ← py_int 10 s; Ok (Some n) | None => Ok None end);
  profile_loop fuel interactive heartbeatInterval d (now w) 0 w.

(** [Profiler.profile]: the report, and the files when a benchmark was asked for. *)
Definition profile (h : Host) (workspace : option string) (a : App) (pi : ProfileInfo) (reportName : string) (reportPath : option Path)
    (dryRun : bool) (heartbeatInterval samplesFileSize : option Z) (interactive : bool) (duration : option string)
    (t : FsNode) (w : W) : result (list (Profile F) * Categories * option FsNode) :=
  '(rt, _, w) ← Runtime_init (h_restart h) workspace (app_name a) (h_runId h) 1 samplesFileSize (app_dryRun a) (h_driver h)
                 (h_cpuInfo h) (h_eventsDb h) (h_topdown h) (pi_probes pi) (pi_pmc pi) (pi_cpuSet pi) w;
  let a := if app_dryRun a then a else begun a (h_runId h) in
  w ← (if dryRun then Ok w else p ← live_session interactive heartbeatInterval duration w; Ok p.2);
  '(profiles, categories) ← Runtime_report fuel numpy size uids (h_disk h t) (h_topdown h) a rt (h_flags h) [] (report_args pi reportName) [] w;
  match reportPath with
  | None | Some [] => Ok (profiles, categories, None)
  | Some p => t ← store_report h (h_disk h t (end_profile a w)) a rt profiles p; Ok (profiles, categories, Some t)
  end.

(** [Profiler.record]: a live profile. *)
Definition record (h : Host) (pi : ProfileInfo) (benchmarkPath : option Path) (duration : option string)
    (heartbeatInterval samplesFileSize : option Z) (profileName : option string) (t : FsNode) (w : W)
    : result (list (Profile F) * Categories * option FsNode) :=
  t ← validateBenchmarkPath benchmarkPath t;
  a ← start_app t None (pi_appName pi) LiveApp (pi_appInfo pi) None;
  profile h None a pi (buildReportName (pi_appName pi) profileName (h_stamp h)) benchmarkPath false heartbeatInterval samplesFileSize true
    duration t w.

(** [Profiler.report]: the report of a profile that was recorded before. *)
Definition report_recorded (h : Host) (pi : ProfileInfo) (runId : option string) (dataSourcePath benchmarkPath : option Path)
    (profileName : option string) (t : FsNode) (w : W) : result (list (Profile F) * Categories * option FsNode) :=
  t ← validateBenchmarkPath benchmarkPath t;
  '(appInfoPath, ds) ← XpediteDormantApp_init t (pi_appInfo pi) dataSourcePath;
  a ← start_app t None (pi_appName pi) (DormantApp runId) appInfoPath ds;
  profile h None a pi (buildReportName (pi_appName pi) profileName (h_stamp h)) benchmarkPath true (Some 120) None true None t w.
End Sessions.

(** ** A recorded session, again *)

Section Again.
Context {F : Type} {HF : PyFloat F} {HH : RouteHash} {W : Type} {HW : AdminPort W} {HC : Console W}.
Context (fuel : nat) (numpy : list (Delta F) -> NumpyStats (F := F)) (size : ReportDoc (F := F) -> string)
  (uids : string -> string * string) (saveAsCsv : Path -> FsNode -> result (list string)).

(** What [Runtime.__init__] leaves behind, live and dormant. *)
Lemma Runtime_init_dry restart ws name runId poll sfs driver cpuInfo eventsDb cache probes pmc cpus (w w0 : W) rt device w' :
  Runtime_init (F := F) restart ws name runId poll sfs false driver cpuInfo eventsDb cache probes pmc cpus w = Ok (rt, device, w') ->
  exists s', Runtime_init restart ws name runId poll None true driver cpuInfo eventsDb cache probes pmc cpus w0 =
      Ok (mkRuntime (rt_cpuInfo rt) (rt_probes rt) (rt_topdown rt) s', [], w0) /\
    ((forall e, s' = Some e -> steady e) -> report_events s' = report_events (rt_eventSet rt)).
Proof.
  unfold Runtime_init. destruct (_ <? _)%nat; [done|]. intros H. apply bind_Ok in H as (w1 & _ & H).
  apply bind_Ok in H as (cpu & Hcpu & H). apply bind_Ok in H as (db & Hdb & H). apply bind_Ok in H as ([[[tm s] dev] w2] & Hs & H).
  apply bind_Ok in H as (w3 & _ & [= <- _ _]). cbn [rt_cpuInfo rt_probes rt_topdown rt_eventSet mbind result_bind].
  destruct (session_events_dry driver driver db cache (cpuId cpu) cpus pmc w1 w0 tm s dev w2 Hs) as (s' & Hs' & Hst).
  exists s'. rewrite Hcpu. cbn [mbind result_bind]. rewrite Hdb. cbn [mbind result_bind]. rewrite Hs'. cbn [mbind result_bind]. by split.
Qed.

Lemma buildTxnRepo_current t factory cur cur' paths cache : cur cache = cur' cache ->
  buildTxnRepo (F := F) fuel t factory cur paths cache = buildTxnRepo fuel t factory cur' paths cache.
Proof. unfold buildTxnRepo. by intros ->. Qed.

(** A report depends on the events of the session and on the files of the app. *)
Lemma Runtime_report_again (disk disk' : option W -> Disk) topdown a a' (rt : Runtime (F := F)) s' th bp args cache w w' :
  disk (end_profile a w) = disk' (end_profile a' w') -> app_name a = app_name a' ->
  app_dataSource a = None -> app_dataSource a' = None -> app_probes a = app_probes a' ->
  gatherFiles (dk_names (disk (end_profile a w))) (sampleFilePattern a) = gatherFiles (dk_names (disk (end_profile a w))) (sampleFilePattern a') ->
  report_events s' = report_events (rt_eventSet rt) ->
  Runtime_report fuel numpy size uids disk topdown a rt th bp args cache w =
  Runtime_report fuel numpy size uids disk' topdown a' (mkRuntime (rt_cpuInfo rt) (rt_probes rt) (rt_topdown rt) s') th bp args cache w'.
Proof.
  intros Hd Hn Hds Hds' Hps Hfiles Hev. unfold Runtime_report. rewrite -Hd -Hn. set (d := disk (end_profile a w)) in *.
  assert (E : session_repo fuel d topdown a rt th bp (ra_benchmarkPaths args) cache =
    session_repo fuel d topdown a' (mkRuntime (rt_cpuInfo rt) (rt_probes rt) (rt_topdown rt) s') th bp (ra_benchmarkPaths args) cache).
  { unfold session_repo. apply (buildTxnRepo_current _ _ (current_run fuel d a rt th)). unfold current_run, current_meta, session_topdown.
    cbn [rt_probes rt_cpuInfo rt_topdown rt_eventSet]. rewrite Hev. unfold gather_counters, gather_binary.
    by rewrite Hds Hds' Hps Hfiles. }
  by rewrite E.
Qed.

End Again.

(** *** Example: a session of five seconds with a heartbeat every two, recorded and reported again *)

(** The process and the clock; a command takes a tick. *)
Definition ClockedTarget : Type := Target * Z.
#[local] Instance ex_pf_port : AdminPort ClockedTarget := {|
  admin cmd w := match handle no_other cmd w.1 with (Value v, t) => Ok (v, (t, w.2 + 1)) | (Errors _, _) => Raise Exception_ end |}.
#[local] Instance ex_pf_console : Console ClockedTarget := {|
  now := snd;
  select_key t w := match t with Some d => (false, (w.1, w.2 + d)) | None => (true, w) end;
  sleep_for d w := (w.1, w.2 + d) |}.
#[local] Instance ex_pf_patient : PatientConsole ClockedTarget.
Proof.
  split.
  - intros [d|] w eof w' H Ht; cbn in H; injection H as <- <-; cbn; [|split; [lia|done]].
    specialize (Ht d eq_refl). split; [lia|]. intros _. exists d. split; [done|lia].
  - intros d w _. cbn. lia.
  - intros cmd [t c] r w' H. cbn in *. destruct (handle no_other cmd t) as [[v|e] t']; [|done]. injection H as <- <-. cbn. lia.
Qed.

#[local] Instance ex_pf_float : PyFloat Z := ex_rt_float.
#[local] Instance ex_pf_hash : RouteHash := fun ps => Z.of_nat (length ps).

Definition ex_pf_start : ClockedTarget := (mkTarget (set_enabled false <$> ex_rt_records) [], 0).

Lemma profile_loop_ends_witness : exists e w',
  profile_loop 3 false (Some 2) (Some 5) 0 0 ex_pf_start = Ok (e, w') /\ e = TimeUp /\ 5 * SECOND <= now w'.
Proof.
  destruct (profile_loop_ends false 2 5 ex_pf_start) as (e & w' & H & Ht & Hd & Hk); [lia|lia|].
  change (now ex_pf_start) with 0 in H, Ht. change (Z.to_nat ((5 + 2 - 1) / 2)) with 3%nat in H.
  exists e, w'. split; [exact H|].
  assert (E : e = TimeUp).
  { vm_compute in H. by injection H as <- _. }
  split; [exact E|]. specialize (Ht E). lia.
Defined.

Definition ex_pf_lines : list string := ["pid: 1"; "port: 2"; "binary: /x"; "tscHz: 3"]%string ++ (probe_record <$> ex_rt_records).
Definition ex_pf_tree : FsNode :=
  match ex_rt_tree with Dir es => Dir (("appinfo"%string, File ex_pf_lines) :: es) | f => f end.
Definition ex_pf_disk : Disk := mkDisk ex_pf_tree ex_rt_names ex_rt_samples.
Definition ex_pf_host : Host (F := Z) (W := ClockedTarget) :=
  mkHost (fun w => Ok w) true (Ok ex_rt_cpu) (fun _ => Ok ex_se_db) ex_se_cache [] (fun _ _ => ex_pf_disk) 1637000000 "2021-11-15" "2021-11-15".
Definition ex_pf_info : ProfileInfo :=
  ProfileInfo_init "app" ["appinfo"%string] ex_rt_probes ex_se_pmc [0; 1] [["base"%string]] None (Some WorstToBest) None None.
Definition ex_pf_csv (_ : Path) (_ : FsNode) : result (list string) := Ok [].
Definition ex_pf_recorded := record 100 ex_rp_numpy ex_rp_size ex_rp_uids ex_pf_csv ex_pf_host ex_pf_info None (Some "5"%string) (Some 2) None
  None ex_pf_tree ex_pf_start.
Definition ex_pf_profiles : list (Profile Z) := match ex_pf_recorded with Ok p => p.1.1 | Raise _ => [] end.
Definition ex_pf_categories : list (string * Category (F := Z) (list (string * list Z))) := match ex_pf_recorded with Ok p => p.1.2 | Raise _ => [] end.

Definition ex_pf_dry_init := Runtime_init (HW := ex_pf_port) (h_restart ex_pf_host) None (pi_appName ex_pf_info) (h_runId ex_pf_host) 1 None true
  (h_driver ex_pf_host) (h_cpuInfo ex_pf_host) (h_eventsDb ex_pf_host) (h_topdown ex_pf_host) (pi_probes ex_pf_info) (pi_pmc ex_pf_info)
  (pi_cpuSet ex_pf_info) ex_pf_start.
Definition ex_pf_dry_set : option EventSet := match ex_pf_dry_init with Ok p => rt_eventSet p.1.1 | Raise _ => None end.

