(* ===== verification/Bars.v ===== *)
(** * Bars of a latency distribution

    Models the drawing of a histogram: [formatBuckets] and [buildHistograms] of report/histogram.py,
    the histogram [ReportGenerator.generateHistograms] makes of a category, and the data a notebook
    draws it from, [buildD3Flot] of jupyter/driver.py.  The text of a bucket is [bucket_text]. *)

From S2P Require Import Prelude PyStr Probe Route Txn Timeline Histogram.

Section Bars.
Context {F : Type} {HF : PyFloat F}.

(** The data of a [Histogram]; its size and its style are constants. *)
Record HistogramDoc := mkHistogramDoc {
  hd_title : string;
  hd_description : string;
  hd_ticks : list (nat * string);                     (* options['xaxis']['ticks'] *)
  hd_data : list (string * list (F * Z))              (* label and data *)
}.

(** ** report/histogram.py *)

(** The flag tells the last bucket. *)
Definition formatBuckets (bucket_text : bool -> F -> string) (buckets : list F) : list string :=
  imap (fun i b => bucket_text (i =? length buckets - 1)%nat b) buckets.

Definition totalWidth : F := f_div (f_of_Z 8) (f_of_Z 10).
Definition bar_width (n : nat) : F :=
  f_div totalWidth (f_mul (f_div (f_of_Z (Z.of_nat n + 1)) (f_of_Z 2)) (f_of_Z 2)).

(** [offset] without stacking. *)
Definition bar_offset (width : F) (index : nat) (xval : nat) : F :=
  f_add (f_sub (f_of_Z (Z.of_nat xval)) (f_div totalWidth (f_of_Z 2))) (f_mul (f_of_Z (Z.of_nat index + 1)) width).

(** [buildHistograms(ticks, series, False)]. *)
Definition buildHistograms (ticks : list string) (series : list (string * list Z))
    : result (list (nat * string) * list (string * list (F * Z))) :=
  let width := bar_width (length series) in
  data ← mmap (fun '(index, (name, serie)) =>
      if (length ticks <? length serie)%nat then Raise ValueError_
      else Ok (name, zip (bar_offset width index <$> seq 0 (length serie)) serie)) (imap pair series);
  Ok (zip (seq 0 (length ticks)) ticks, data).

(** The histogram of a category, from its buckets and the distribution of each run. *)
Definition category_histogram (bucket_text : bool -> F -> string) (runId : Z) (category : string) (buckets : list F)
    (yaxis : list (string * list Z)) : result HistogramDoc :=
  '(ticks, data) ← buildHistograms (formatBuckets bucket_text buckets) yaxis;
  Ok (mkHistogramDoc (String.append category " - latency distribution benchmark")
        (String.append "Latency distribution (current run ID #" (String.append (print_int 10 runId) " vs chosen benchmarks)")) ticks data).

(** ** [buildD3Flot] *)

Record D3Flot := mkD3Flot {
  xAxisValues : list nat; xAxisLabels : list string; xyCoords : list (F * Z); legends : list string }.

(** The bars at one coordinate, of every run in order. *)
Definition coord_bars (data : list (string * list (F * Z))) (coord : nat) : result (list (F * Z)) :=
  mmap (fun d => py_nth d.2 coord) data.

Definition buildD3Flot (h : HistogramDoc) : result D3Flot :=
  first ← py_nth (hd_data h) 0;
  bars ← mmap (coord_bars (hd_data h)) (seq 0 (length first.2));
  Ok (mkD3Flot (hd_ticks h).*1 (hd_ticks h).*2 (concat bars) (hd_data h).*1).

(** ** Every bar has its run *)

Lemma concat_lookup {A} k (ls : list (list A)) n : (0 < k)%nat -> Forall (fun l => length l = k) ls ->
  concat ls !! n = l ← ls !! (n / k)%nat; l !! (n mod k)%nat.
Proof.
  intros Hk H. revert n. induction H as [|l ls Hl _ IH]; intros n; [done|]. cbn [concat].
  destruct (decide (n < k)%nat) as [Hn|Hn].
  - rewrite lookup_app_l; [lia|]. by rewrite Nat.div_small // Nat.mod_small.
  - rewrite lookup_app_r Hl; [lia|]. rewrite IH.
    assert (Hq : (n / k = S ((n - k) / k))%nat).
    { replace n with ((n - k) + 1 * k)%nat at 1 by lia. rewrite Nat.div_add; lia. }
    assert (Hm : (n mod k = (n - k) mod k)%nat).
    { replace n with ((n - k) + 1 * k)%nat at 1 by lia. by rewrite Nat.Div0.mod_add. }
    by rewrite Hq Hm.
Qed.

Lemma concat_length_uniform {A} k (ls : list (list A)) : Forall (fun l => length l = k) ls -> length (concat ls) = (length ls * k)%nat.
Proof. induction 1 as [|l ls Hl _ IH]; [done|]. cbn. by rewrite length_app Hl IH. Qed.

(** A run's distribution has a count for every bucket. *)
Lemma distribution_length buckets l r : buildDistribution buckets l = Ok r -> length r.1 = length buckets.
Proof.
  unfold buildDistribution. apply (mfor_inv _ (fun r : list Z * Z => length r.1 = length buckets)); [|by rewrite length_replicate].
  intros [vs c] x s' _ Hvs H. cbn in Hvs. apply bind_Ok in H as (i & _ & H).
  assert (Hincr : forall j vs', incr j vs = Ok vs' -> length vs' = length vs).
  { intros j vs' Hj. unfold incr in Hj. apply bind_Ok in Hj as (v & _ & [= <-]). by rewrite length_insert. }
  destruct (i <? length vs)%nat; [|destruct vs; [done|]]; apply bind_Ok in H as (vs' & Hi & [= <-]); cbn [fst]; by rewrite (Hincr _ _ Hi).
Qed.

Lemma series_lengths names buckets bundle yaxis : build_series names buckets bundle = Ok yaxis ->
  length yaxis = length bundle /\ Forall (fun y => length y.2 = length buckets) yaxis.
Proof.
  intros H. replace (length bundle) with (length (imap (fun i l => (i, l)) bundle)) by apply length_imap. revert H.
  apply (mfor_inv_prefix _ (fun pre (ys : list (string * list Z)) => length ys = length pre /\ Forall (fun y => length y.2 = length buckets) ys)); [|done].
  intros pre [i l] post ys ys' _ [Hl Hf] H. apply bind_Ok in H as ([vs c] & Hd & H). apply bind_Ok in H as (t & _ & [= <-]).
  rewrite !length_app Hl. split; [done|]. apply Forall_app. split; [done|]. apply Forall_cons_2; [|done]. exact (distribution_length _ _ _ Hd).
Qed.

(** Histograms of series that fit their ticks. *)
Lemma buildHistograms_total ticks (series : list (string * list Z)) : Forall (fun y => length y.2 <= length ticks)%nat series ->
  exists data, buildHistograms ticks series = Ok (zip (seq 0 (length ticks)) ticks, data) /\
    data.*1 = series.*1 /\ Forall2 (fun d y => length d.2 = length y.2 /\ d.2.*2 = y.2) data series.
Proof.
  intros H. unfold buildHistograms. set (w := bar_width (length series)).
  assert (Hm : exists data, mmap (fun '(index, (name, serie)) =>
      if (length ticks <? length serie)%nat then Raise ValueError_
      else Ok (name, zip (bar_offset w index <$> seq 0 (length serie)) serie)) (imap pair series) = Ok data /\
    data.*1 = series.*1 /\ Forall2 (fun d y => length d.2 = length y.2 /\ d.2.*2 = y.2) data series).
  { generalize w. clear w. intros w. cut (forall k, exists data, mmap (fun '(index, (name, serie)) =>
      if (length ticks <? length serie)%nat then Raise ValueError_
      else Ok (name, zip (bar_offset w index <$> seq 0 (length serie)) serie)) (imap (fun i y => ((k + i)%nat, y)) series) = Ok data /\
      data.*1 = series.*1 /\ Forall2 (fun d y => length d.2 = length y.2 /\ d.2.*2 = y.2) data series); [intros Hk; exact (Hk 0%nat)|].
    induction H as [|[name serie] series Hy _ IH]; intros k; [by exists []|]. rewrite imap_cons. cbn [mmap]. cbn [snd] in Hy.
    rewrite (proj2 (Nat.ltb_ge _ _) Hy). cbn [mbind result_bind]. destruct (IH (S k)) as (data & Hd & Hn & Hf).
    rewrite (imap_ext _ (fun i y => ((S k + i)%nat, y))); [intros i x _; cbn; f_equal; lia|]. rewrite Hd. cbn [mbind result_bind].
    eexists. split; [reflexivity|]. split; [cbn; by rewrite -Hn|]. constructor; [|done]. cbn [snd].
    split; [rewrite length_zip_with length_fmap length_seq; lia|]. apply snd_zip. by rewrite length_fmap length_seq. }
  destruct Hm as (data & -> & Hd). by exists data.
Qed.

(** The bars at every coordinate, when every run has that many. *)
Lemma coord_lists (data : list (string * list (F * Z))) n : Forall (fun d => length d.2 = n) data ->
  exists bars, mmap (coord_bars data) (seq 0 n) = Ok bars /\ length bars = n /\ Forall (fun l => length l = length data) bars /\
    forall c k, bars !! c ≫= (fun l => l !! k) = (if decide (c < n)%nat then d ← data !! k; d.2 !! c else None).
Proof.
  intros Hd. assert (Hc : forall c, (c < n)%nat -> exists l, coord_bars data c = Ok l).
  { intros c Hc. unfold coord_bars. apply (mmap_total (fun d : string * list (F * Z) => py_nth d.2 c)). intros d Hin.
    rewrite Forall_forall in Hd. destruct (lookup_lt_is_Some_2 d.2 c) as [x Hx]; [by rewrite (Hd d Hin)|]. exists x. by apply py_nth_Ok. }
  destruct (mmap_total (coord_bars data) (seq 0 n)) as [bars Hbars]; [intros c Hin; apply elem_of_seq in Hin; apply Hc; lia|].
  exists bars. pose proof (mmap_Ok_length _ _ _ Hbars) as Hl. rewrite length_seq in Hl. split_and!; [done|done| |].
  - apply Forall_lookup. intros c l Hcl. pose proof (lookup_lt_Some _ _ _ Hcl) as Hlt. rewrite Hl in Hlt.
    destruct (mmap_Ok_lookup _ _ _ c c Hbars) as (l' & Hl' & Hcb); [by rewrite lookup_seq_lt|]. rewrite Hcl in Hl'. injection Hl' as <-.
    exact (mmap_Ok_length _ _ _ Hcb).
  - intros c k. case_decide as Hlt.
    + destruct (mmap_Ok_lookup _ _ _ c c Hbars) as (l & Hcl & Hcb); [by rewrite lookup_seq_lt|]. rewrite Hcl. cbn [mbind option_bind].
      destruct (data !! k) as [d|] eqn:Ek; cbn [mbind option_bind].
      * destruct (mmap_Ok_lookup _ _ _ k d Hcb Ek) as (x & Hx & Hp%py_nth_Ok). by rewrite Hx Hp.
      * apply lookup_ge_None in Ek. apply lookup_ge_None. by rewrite (mmap_Ok_length _ _ _ Hcb).
    + rewrite lookup_ge_None_2 //. lia.
Qed.

(** The histogram of a category is drawn whole: it has a label for every bucket, a legend for every
    run, and a bar for every bucket of every run; the n-th bar is the count of bucket [n / runs]
    of run [n mod runs], which is how the notebook colours it. *)
Theorem d3_bars bucket_text runId category names buckets bundle yaxis :
  build_series names buckets bundle = Ok yaxis -> bundle <> [] -> buckets <> [] ->
  exists h f, category_histogram bucket_text runId category buckets yaxis = Ok h /\ buildD3Flot h = Ok f /\
    xAxisLabels f = formatBuckets bucket_text buckets /\ xAxisValues f = seq 0 (length buckets) /\ legends f = yaxis.*1 /\
    length (xyCoords f) = (length buckets * length yaxis)%nat /\
    forall n, snd <$> xyCoords f !! n = y ← yaxis !! (n mod length yaxis)%nat; y.2 !! (n / length yaxis)%nat.
Proof.
  intros Hs Hne Hb. destruct (series_lengths _ _ _ _ Hs) as [Hlen Hf].
  assert (Hticks : length (formatBuckets bucket_text buckets) = length buckets) by apply length_imap.
  destruct (buildHistograms_total (formatBuckets bucket_text buckets) yaxis) as (data & Hh & Hnames & Hdata).
  { eapply Forall_impl; [exact Hf|]. intros y Hy. cbn in Hy. rewrite Hticks Hy. lia. }
  unfold category_histogram. rewrite Hh. cbn [mbind result_bind].
  assert (Hd : Forall (fun d => length d.2 = length buckets) data).
  { apply Forall_lookup. intros i d Hi. destruct (Forall2_lookup_l _ _ _ _ _ Hdata Hi) as (y & Hy & Hl & _). rewrite Forall_lookup in Hf. by rewrite Hl (Hf i y Hy). }
  assert (Hld : length data = length yaxis) by exact (Forall2_length _ _ _ Hdata).
  destruct data as [|d0 data0] eqn:Ed; [destruct yaxis, bundle; done|]. rewrite -Ed in Hd Hdata Hnames Hld |- *.
  assert (Hfirst : length d0.2 = length buckets) by (rewrite Ed in Hd; by apply Forall_cons in Hd as [Hd _]).
  assert (Hn0 : py_nth data 0 = Ok d0) by (by rewrite Ed). 
  destruct (coord_lists data (length buckets) Hd) as (bars & Hbars & Hbl & Hb1 & Hb2). eexists _, _. split; [reflexivity|].
  split; [unfold buildD3Flot; cbn [hd_data]; rewrite Hn0; cbn [mbind result_bind]; rewrite Hfirst Hbars; reflexivity|]. cbn [xAxisLabels xAxisValues legends xyCoords].
  rewrite snd_zip ?fst_zip ?length_seq ?Hticks; [lia|lia|]. split_and!; [done|done|exact Hnames| |].
  - rewrite (concat_length_uniform (length data)) // Hbl Hld. lia.
  - intros n. destruct (decide (length yaxis = 0)%nat) as [E0|E0]; [by rewrite Ed E0 in Hld|].
    rewrite (concat_lookup (length data)) // ?Hld; [lia|]. set (c := (n / length yaxis)%nat). set (k := (n mod length yaxis)%nat).
    rewrite Hb2. destruct (yaxis !! k) as [y|] eqn:Ey; cbn [mbind option_bind].
    + destruct (Forall2_lookup_r _ _ _ _ _ Hdata Ey) as (d & Hk & Hdl & Hdy). rewrite Hk. cbn [mbind option_bind].
      rewrite -Hdy list_lookup_fmap. case_decide as Hc; [done|]. rewrite lookup_ge_None_2 //.
      rewrite Forall_lookup in Hd. rewrite (Hd k d Hk). lia.
    + rewrite (lookup_ge_None_2 data); [apply lookup_ge_None in Ey; lia|]. by case_decide.
Qed.
End Bars.

(** ** Example *)

#[local] Instance ex_bars_float : PyFloat Z := Timeline.ex_float.

Example d3_bars_witness : exists h f,
  category_histogram (fun _ b => print_int 10 b) 7 "Transaction" [10; 20] [("current run", [1; 2]); ("base", [0; 1])]%string = Ok h /\
  buildD3Flot h = Ok f /\ (fun n => snd <$> xyCoords f !! n) <$> [0; 1; 2; 3]%nat = [Some 1; Some 0; Some 2; Some 1].
Proof.
  destruct (d3_bars (fun _ b => print_int 10 b) 7 "Transaction" ["current run"; "base"]%string [10; 20] [[5; 15; 25]; [12]]
    [("current run", [1; 2]); ("base", [0; 1])]%string) as (h & f & Hh & Hf & _ & _ & _ & _ & Hn); [vm_compute; reflexivity|done|done|].
  exists h, f. split; [exact Hh|]. split; [exact Hf|]. cbn [fmap list_fmap]. rewrite !Hn. reflexivity.
Defined.
