(* ===== verification/DataFile.v ===== *)
(** * Data files of a notebook

    Models jupyter/xpediteData.py: the file a notebook keeps its profiles and reports in.  A
    header of eight bytes holds the size of the pickled layout; the layout tells the place and
    size of every record.  [Pickle] is the pickle library: what it makes of an object, and the
    law that it gives the object back. *)

From S2P Require Import Prelude PyStr.

Class Pickle (A : Type) := { dumps : A -> list Z; loads : list Z -> result A }.
Class PickleLaws (A : Type) {HP : Pickle A} := { loads_dumps (a : A) : loads (dumps a) = Ok a }.

(** ** Files that are open *)

Record BinFile := mkBinFile { content : list Z; position : Z }.

Definition seek (p : Z) (f : BinFile) : result BinFile :=
  if p <? 0 then Raise OSError_ else Ok (mkBinFile (content f) p).

(** [read(size)]: what is there of [size] bytes, or the rest of the file. *)
Definition read (size : Z) (f : BinFile) : list Z * BinFile :=
  let rest := drop (Z.to_nat (position f)) (content f) in
  let data := if size <? 0 then rest else take (Z.to_nat size) rest in
  (data, mkBinFile (content f) (position f + Z.of_nat (length data))).

(** ** [struct] with the format of an int *)

Definition pack_i (v : Z) : result (list Z) :=
  if ((- 2 ^ 31 <=? v) && (v <? 2 ^ 31))%bool then Ok (le_bytes 4 (v mod 2 ^ 32)) else Raise StructError_.

Definition unpack_i (b : list Z) : result Z :=
  if (length b <? 4)%nat then Raise StructError_
  else let v := le_value (take 4 b) in Ok (if v <? 2 ^ 31 then v else v - 2 ^ 32).

(** ** Records *)

Record LayoutEntry := mkLayoutEntry { offset : Z; isMarshalled : bool; size : Z }.
Definition Layout := list (string * LayoutEntry).

(** What a record is given: a text, or any other object. *)
Inductive Data (O : Type) := Text (s : string) | Object (o : O).
Arguments Text {O} s. Arguments Object {O} o.

(** The [binData] of a record. *)
Inductive BinData := Bytes (b : list Z) | Chars (s : string).
Definition bin_len (b : BinData) : Z :=
  match b with Bytes b => Z.of_nat (length b) | Chars s => Z.of_nat (String.length s) end.

Record XpdRecord (O : Type) := mkXpdRecord {
  xr_key : string; xr_description : string; xr_data : Data O; xr_binData : option BinData }.
Arguments mkXpdRecord {O}. Arguments xr_key {O}. Arguments xr_description {O}.
Arguments xr_data {O}. Arguments xr_binData {O}.

Section DataFile.
Context {O : Type} {HO : Pickle O} {HL : Pickle Layout}.

(** ** [XpediteDataFactory] *)

(** [dataTable]; the path of the file is that of the value [commit] gives. *)
Definition Factory := list (string * XpdRecord O).

Definition appendRecord (dataTable : Factory) (key description : string) (data : Data O) : result Factory :=
  if od_mem String.eqb key dataTable then Raise ValueError_
  else Ok (od_set String.eqb key (mkXpdRecord key description data None) dataTable).

(** The body of the first loop of [commit]. *)
Definition encode_record (r : XpdRecord O) : XpdRecord O * bool * Z :=
  let '(isMarshalled, binData) := match xr_data r with
                                  | Object o => (true, Bytes (dumps o))
                                  | Text s => (false, Chars s)
                                  end in
  (mkXpdRecord (xr_key r) (xr_description r) (xr_data r) (Some binData), isMarshalled, bin_len binData).

Definition layout_step (s : Factory * Layout * Z) (kr : string * XpdRecord O) : Factory * Layout * Z :=
  let '(table, layout, offset) := s in
  let '(r, isMarshalled, dataSize) := encode_record kr.2 in
  (table ++ [(kr.1, r)], od_set String.eqb kr.1 (mkLayoutEntry offset isMarshalled dataSize) layout, offset + dataSize).
Definition build_layout (dataTable : Factory) : Factory * Layout * Z := foldl layout_step ([], [], 0) dataTable.

(** [write] of a binary file takes bytes only. *)
Definition write_data (f : list Z) (b : option BinData) : list Z * result unit :=
  match b with Some (Bytes b) => (f ++ b, Ok tt) | _ => (f, Raise TypeError_) end.

(** The second loop: what is in the file when it ends or raises. *)
Fixpoint write_records (f : list Z) (table : Factory) : list Z * result unit :=
  match table with
  | [] => (f, Ok tt)
  | (_, r) :: table =>
      let '(f, res) := write_data f (xr_binData r) in
      match res with Ok _ => write_records f table | Raise e => (f, Raise e) end
  end.

(** [commit]: the factory, the contents of the file, and how it ended. *)
Definition commit (dataTable : Factory) : Factory * (list Z * result unit) :=
  let '(table, layout, _) := build_layout dataTable in
  let pTable := dumps layout in
  match pack_i (Z.of_nat (length pTable)) with
  | Raise e => (table, ([], Raise e))
  | Ok size => (table, write_records ((size ++ replicate 4 0) ++ pTable) table)
  end.

(** ** [XpediteDataReader] *)

Definition shift_entry (n : Z) (e : LayoutEntry) : LayoutEntry := mkLayoutEntry (offset e + n) (isMarshalled e) (size e).

Definition shift_layout (n : Z) (l : Layout) : Layout := (fun ke => (ke.1, shift_entry n ke.2)) <$> l.

(** [loadLayout]. *)
Definition loadLayout (f : BinFile) : result (Layout * BinFile) :=
  let '(binBuffer, f) := read 8 f in
  tableSize ← unpack_i binBuffer;
  f ← seek 8 f;
  let '(data, f) := read tableSize f in
  layout ← loads data;
  Ok (shift_layout (tableSize + 8) layout, f).

Record DataReader := mkDataReader { binFile : BinFile; layout : Layout }.

(** [__enter__]. *)
Definition open_reader (dataFile : list Z) : result DataReader :=
  '(l, f) ← loadLayout (mkBinFile dataFile 0);
  Ok (mkDataReader f l).

(** What [getData] gives: an object, or the bytes of a record that was not pickled. *)
Inductive Value := VObject (o : O) | VBytes (b : list Z).

Definition getData (r : DataReader) (targetKey : string) : result (Value * DataReader) :=
  layoutEntry ← or_raise KeyError_ (od_get String.eqb targetKey (layout r));
  f ← seek (offset layoutEntry) (binFile r);
  let '(data, f) := read (size layoutEntry) f in
  v ← (if isMarshalled layoutEntry then VObject <$> loads data else Ok (VBytes data));
  Ok (v, mkDataReader f (layout r)).
End DataFile.
Arguments Factory : clear implicits.
Arguments Value : clear implicits.

(** ** What is read back *)

Lemma read_at content p n : 0 <= n -> read n (mkBinFile content p) =
  (take (Z.to_nat n) (drop (Z.to_nat p) content), mkBinFile content (p + Z.of_nat (length (take (Z.to_nat n) (drop (Z.to_nat p) content))))).
Proof. intros Hn. unfold read. cbn. by rewrite (proj2 (Z.ltb_ge n 0)). Qed.

(** A slice in the middle of a file. *)
Lemma read_slice pre b post : read (Z.of_nat (length b)) (mkBinFile (pre ++ b ++ post) (Z.of_nat (length pre))) =
  (b, mkBinFile (pre ++ b ++ post) (Z.of_nat (length pre) + Z.of_nat (length b))).
Proof. rewrite read_at; [lia|]. by rewrite !Nat2Z.id drop_app_length take_app_length. Qed.

Lemma pack_unpack_i v rest : 0 <= v < 2 ^ 31 -> exists b, pack_i v = Ok b /\ length b = 4%nat /\ unpack_i (b ++ rest) = Ok v.
Proof.
  intros Hv. unfold pack_i. rewrite (proj2 (Z.leb_le (- 2 ^ 31) v)); [lia|]. rewrite (proj2 (Z.ltb_lt v (2 ^ 31))); [lia|]. cbn [andb].
  exists (le_bytes 4 (v mod 2 ^ 32)). split_and!; [done|apply le_bytes_length|]. unfold unpack_i.
  rewrite length_app le_bytes_length. cbn [Nat.ltb Nat.leb Nat.add].
  rewrite (take_app_length' _ _ 4); [by rewrite le_bytes_length|]. rewrite le_value_bytes.
  change (256 ^ Z.of_nat 4) with (2 ^ 32). rewrite Z.mod_mod // Z.mod_small; [lia|]. by rewrite (proj2 (Z.ltb_lt v _)); [lia|].
Qed.

Lemma od_get_shift n k (l : Layout) :
  od_get String.eqb k (shift_layout n l) = shift_entry n <$> od_get String.eqb k l.
Proof. induction l as [|[k' e] l IH]; cbn; [done|]. destruct (String.eqb k k'); [done|exact IH]. Qed.

Section Roundtrip.
Context {O : Type} {HO : Pickle O} {HL : Pickle Layout} {LL : PickleLaws Layout}.

Definition record_bytes (r : XpdRecord O) : list Z := match xr_data r with Object o => dumps o | Text _ => [] end.
Definition payload (t : Factory O) : list Z := t ≫= fun kr => record_bytes kr.2.
(** An object that pickle gives back. *)
Definition pickled (d : Data O) : Prop := exists o, d = Object o /\ loads (dumps o) = Ok o.
Definition is_object (kr : string * XpdRecord O) : Prop := pickled (xr_data kr.2).

Fixpoint layout_from (off : Z) (t : Factory O) : Layout :=
  match t with
  | [] => []
  | kr :: t => (kr.1, mkLayoutEntry off (encode_record kr.2).1.2 (encode_record kr.2).2) :: layout_from (off + (encode_record kr.2).2) t
  end.
Definition encoded (t : Factory O) : Factory O := (fun kr => (kr.1, (encode_record kr.2).1.1)) <$> t.

Lemma build_layout_from t table ly off : NoDup (ly.*1 ++ t.*1) -> exists n,
  foldl layout_step (table, ly, off) t = (table ++ encoded t, ly ++ layout_from off t, n).
Proof.
  revert table ly off. induction t as [|[k r] t IH]; intros table ly off Hk; cbn [foldl layout_from encoded fmap list_fmap].
  { exists off. by rewrite !app_nil_r. }
  cbn [fst snd]. destruct (encode_record r) as [[r' m] n] eqn:E. cbn [fst snd].
  assert (Hfresh : od_get String.eqb k ly = None).
  { apply od_get_None, Forall_forall. intros k' Hk'. apply String.eqb_neq. intros ->.
    apply NoDup_app in Hk as (_ & Hd & _). apply (Hd k' Hk'). cbn. left. }
  assert (Hstep : layout_step (table, ly, off) (k, r) = (table ++ [(k, r')], ly ++ [(k, mkLayoutEntry off m n)], off + n)).
  { unfold layout_step. cbn [fst snd]. by rewrite E (od_set_fresh _ _ _ _ Hfresh). }
  rewrite Hstep. destruct (IH (table ++ [(k, r')]) (ly ++ [(k, mkLayoutEntry off m n)]) (off + n)) as [n' H].
  { rewrite fmap_app -app_assoc. exact Hk. }
  exists n'. etransitivity; [exact H|]. by rewrite -!app_assoc.
Qed.

Lemma build_layout_spec t : NoDup t.*1 -> exists n, build_layout t = (encoded t, layout_from 0 t, n).
Proof. intros Hk. destruct (build_layout_from t [] [] 0 Hk) as [n H]. by exists n. Qed.

Lemma write_objects f t : Forall is_object t -> write_records f (encoded t) = (f ++ payload t, Ok tt).
Proof.
  intros H. revert f. induction H as [|[k r] t (o & Ho & _) _ IH]; intros f; cbn; [by rewrite app_nil_r|].
  cbn in Ho. unfold encode_record, record_bytes. rewrite Ho. cbn. rewrite IH. by rewrite -app_assoc.
Qed.

Lemma write_text f t kr text : kr ∈ t -> xr_data kr.2 = Text text -> exists f', write_records f (encoded t) = (f', Raise TypeError_).
Proof.
  intros Hin Hno. revert f. induction t as [|[k r] t IH]; intros f; [by apply not_elem_of_nil in Hin|].
  cbn. unfold encode_record. destruct (xr_data r) as [s|o] eqn:E; cbn; [by exists f|].
  apply elem_of_cons in Hin as [->|Hin]; [|by apply IH]. cbn in Hno. congruence.
Qed.

Lemma layout_lookup off t k : Forall is_object t -> NoDup t.*1 ->
  match od_get String.eqb k t with
  | Some r => exists pre post, payload t = pre ++ record_bytes r ++ post /\
      od_get String.eqb k (layout_from off t) =
      Some (mkLayoutEntry (off + Z.of_nat (length pre)) true (Z.of_nat (length (record_bytes r))))
  | None => od_get String.eqb k (layout_from off t) = None
  end.
Proof.
  intros Ht. revert off. induction Ht as [|[k' r] t (o & Ho & _) Ht IH]; intros off Hk; cbn; [done|].
  cbn in Ho. apply NoDup_cons in Hk as [Hk Hnd].
  assert (Henc : encode_record r = (mkXpdRecord (xr_key r) (xr_description r) (xr_data r) (Some (Bytes (dumps o))), true,
    Z.of_nat (length (record_bytes r)))) by (unfold encode_record, record_bytes; by rewrite Ho).
  rewrite Henc. cbn [fst snd]. destruct (String.eqb_spec k k') as [->|Hne].
  - exists [], (payload t). split; [done|]. by rewrite Z.add_0_r.
  - specialize (IH (off + Z.of_nat (length (record_bytes r))) Hnd). destruct (od_get String.eqb k t) as [r'|]; [|done].
    destruct IH as (pre & post & Hp & Hl). exists (record_bytes r ++ pre), post. split.
    + unfold payload in *. cbn. by rewrite Hp -app_assoc.
    + rewrite Hl length_app. by rewrite Nat2Z.inj_add Z.add_assoc.
Qed.

(** A record as [appendRecord] makes it, and the dict of what was appended. *)
Definition fresh_record (x : string * string * Data O) : string * XpdRecord O := (x.1.1, mkXpdRecord x.1.1 x.1.2 x.2 None).
Definition append_all (xs : list (string * string * Data O)) : result (Factory O) :=
  mfor (fun t x => appendRecord t x.1.1 x.1.2 x.2) [] xs.

Lemma fresh_keys (xs : list (string * string * Data O)) : od_keys (fresh_record <$> xs) = fst ∘ fst <$> xs.
Proof. unfold od_keys. rewrite -list_fmap_compose. by apply list_fmap_ext. Qed.

Definition fresh_table (xs : list (string * string * Data O)) : Factory O := fresh_record <$> xs.

Lemma append_fresh (xs : list (string * string * Data O)) k d v : k ∉ (fst ∘ fst <$> xs) ->
  appendRecord (fresh_table xs) k d v = Ok (fresh_table (xs ++ [(k, d, v)])).
Proof.
  rewrite -fresh_keys. intros Hk. assert (E : od_get String.eqb k (fresh_record <$> xs) = None).
  { apply od_get_None, Forall_forall. intros k' Hk'. apply String.eqb_neq. by intros ->. }
  unfold appendRecord, od_mem. change (fresh_table xs) with (fresh_record <$> xs). rewrite E (od_set_fresh _ _ _ _ E). unfold fresh_table. by rewrite fmap_app.
Qed.

Lemma append_twice (xs : list (string * string * Data O)) k d v : k ∈ (fst ∘ fst <$> xs) -> appendRecord (fresh_table xs) k d v = Raise ValueError_.
Proof.
  rewrite -fresh_keys. intros Hk. unfold appendRecord. destruct (od_mem String.eqb k _) eqn:E; [done|].
  apply od_mem_false, od_get_None in E. rewrite Forall_forall in E. specialize (E k Hk). by rewrite String.eqb_refl in E.
Qed.

Lemma append_all_fresh xs : append_all xs =
  if bool_decide (NoDup (fst ∘ fst <$> xs)) then Ok (fresh_record <$> xs) else Raise ValueError_.
Proof.
  unfold append_all. cut (forall done : list (string * string * Data O), NoDup (fst ∘ fst <$> done) ->
    mfor (fun t x => appendRecord t x.1.1 x.1.2 x.2) (fresh_record <$> done : list (string * XpdRecord O)) xs =
    if bool_decide (NoDup (fst ∘ fst <$> done ++ xs)) then Ok (fresh_record <$> done ++ xs) else Raise ValueError_).
  { intros H. exact (H [] (NoDup_nil_2)). }
  induction xs as [|[[k d] v] xs IH]; intros done Hd; cbn [mfor].
  { rewrite app_nil_r bool_decide_true //. }
  cbn [fst snd]. destruct (decide (k ∈ fst ∘ fst <$> done)) as [Hk|Hk].
  - rewrite append_twice // bool_decide_false //. rewrite fmap_app. intros (_ & Hdis & _)%NoDup_app. apply (Hdis k Hk). cbn. left.
  - rewrite append_fresh //. cbn [mbind result_bind]. specialize (IH (done ++ [(k, d, v)])). rewrite -app_assoc in IH. apply IH.
    rewrite fmap_app. apply NoDup_app. split_and!; [done| |apply NoDup_singleton]. intros k' Hk' ->%list_elem_of_singleton. done.
Qed.

(** Readers of one file, wherever the last read ended. *)
Definition same_file (r r' : DataReader) : Prop := content (binFile r) = content (binFile r') /\ layout r = layout r'.

Lemma commit_objects t : NoDup t.*1 -> Forall is_object t -> Z.of_nat (length (dumps (build_layout t).1.2)) < 2 ^ 31 ->
  exists header, (commit t).2 = (header ++ payload t, Ok tt) /\
    open_reader (header ++ payload t) =
      Ok (mkDataReader (mkBinFile (header ++ payload t) (Z.of_nat (length header))) (shift_layout (Z.of_nat (length header)) (layout_from 0 t))).
Proof.
  intros Hk Ht Hsize. destruct (build_layout_spec t Hk) as [n Hb]. unfold commit. rewrite Hb in Hsize |- *. cbn [fst snd] in *.
  set (pt := dumps (layout_from 0 t)) in *.
  destruct (pack_unpack_i (Z.of_nat (length pt)) (replicate 4 0)) as (b & -> & Hlen & Hu); [lia|]. cbn [snd].
  exists ((b ++ replicate 4 0) ++ pt). split; [by apply write_objects|].
  assert (Hl8 : length (b ++ replicate 4 0) = 8%nat) by (rewrite length_app Hlen; done).
  rewrite (length_app (b ++ _)) Hl8. unfold open_reader, loadLayout. rewrite -!app_assoc app_assoc.
  set (h := b ++ replicate 4 0) in *.
  pose proof (read_slice [] h (pt ++ payload t)) as R1. rewrite Hl8 in R1. cbn [app length] in R1.
  change (Z.of_nat 8) with 8 in R1. change (Z.of_nat 0) with 0 in R1. rewrite R1 Hu. cbn [mbind result_bind seek].
  unfold seek. cbn [content]. change (8 <? 0) with false. cbn [mbind result_bind].
  pose proof (read_slice h pt (payload t)) as R2. rewrite Hl8 in R2. change (Z.of_nat 8) with 8 in R2. rewrite R2.
  unfold pt at 2. rewrite loads_dumps. cbn [mbind result_bind]. rewrite Nat2Z.inj_add. change (Z.of_nat 8) with 8.
  by rewrite (Z.add_comm (Z.of_nat (length pt))).
Qed.

Lemma getData_object header t r k : NoDup t.*1 -> Forall is_object t ->
  content (binFile r) = header ++ payload t -> layout r = shift_layout (Z.of_nat (length header)) (layout_from 0 t) ->
  match xr_data <$> od_get String.eqb k t with
  | Some (Object o) => exists r', getData r k = Ok (VObject o, r') /\ same_file r r'
  | _ => getData (O := O) r k = Raise KeyError_
  end.
Proof.
  intros Hk Ht Hc Hl. unfold getData. rewrite Hl od_get_shift. pose proof (layout_lookup 0 t k Ht Hk) as H.
  destruct (od_get String.eqb k t) as [x|] eqn:E; cbn [fmap option_fmap option_map]; [|by rewrite H].
  destruct H as (pre & post & Hp & ->). apply od_get_elem_of in E as (k' & Hin & _). rewrite Forall_forall in Ht.
  destruct (Ht _ Hin) as (o & Ho & Hp'). cbn in Ho. unfold record_bytes in *. rewrite Ho in Hp |- *. cbn [fmap option_fmap option_map or_raise mbind result_bind shift_entry offset size isMarshalled].
  unfold seek. rewrite (proj2 (Z.ltb_ge _ 0)); [lia|]. cbn [mbind result_bind]. rewrite Hc Hp.
  replace (0 + Z.of_nat (length pre) + Z.of_nat (length header)) with (Z.of_nat (length (header ++ pre))) by (rewrite length_app; lia).
  rewrite app_assoc read_slice Hp'. cbn [fmap result_fmap mbind result_bind]. eexists. split; [reflexivity|].
  split; [|done]. cbn. by rewrite Hc Hp app_assoc.
Qed.

Lemma fresh_objects xs : Forall (fun x => pickled x.2) xs -> Forall is_object (fresh_record <$> xs).
Proof. intros H. by apply Forall_fmap. Qed.

Lemma fresh_get k xs : xr_data <$> od_get String.eqb k (fresh_record <$> xs) = od_get String.eqb k ((fun x => (x.1.1, x.2)) <$> xs).
Proof. induction xs as [|[[k' d] v] xs IH]; cbn; [done|]. by destruct (String.eqb k k'). Qed.

(** The data file of a notebook gives back what was put in it.  Appending raises ValueError
    exactly when a key comes twice.  When every record is an object other than a text which pickle gives
    back, and the pickled layout is smaller than 2^31 bytes, committing succeeds and the file opens; then a key
    gives its object, as often and in whatever order keys are asked for, and a key that was not
    appended raises KeyError. *)
Lemma xpd_roundtrip (xs : list (string * string * Data O)) (table : Factory O) :
  append_all xs = Ok table -> Forall (fun x => pickled x.2) xs ->
  Z.of_nat (length (dumps (build_layout table).1.2)) < 2 ^ 31 ->
  NoDup (fst ∘ fst <$> xs) /\ exists file rd, (commit table).2 = (file, Ok tt) /\ open_reader file = Ok rd /\
  forall k r, same_file rd r ->
    match od_get String.eqb k ((fun x => (x.1.1, x.2)) <$> xs) with
    | Some (Object o) => exists r', getData r k = Ok (VObject o, r') /\ same_file rd r'
    | _ => getData (O := O) r k = Raise KeyError_
    end.
Proof.
  intros Ha Hobj Hsize. rewrite append_all_fresh in Ha. case_bool_decide as Hnd; [|done]. injection Ha as <-. split; [done|].
  assert (Hk : NoDup (fresh_record <$> xs).*1) by (rewrite -list_fmap_compose; exact Hnd).
  apply fresh_objects in Hobj. destruct (commit_objects _ Hk Hobj Hsize) as (h & Hc & Ho). eexists _, _. split; [exact Hc|].
  split; [exact Ho|]. intros k r [Hs1 Hs2]. rewrite -fresh_get. cbn in Hs1, Hs2.
  pose proof (getData_object h _ r k Hk Hobj (eq_sym Hs1) (eq_sym Hs2)) as H.
  revert H. destruct (xr_data <$> _) as [[s|o]|]; [done| |done]. intros (r' & Hg & [H1 H2]). exists r'. split; [done|].
  split; cbn; [by rewrite -H1|by rewrite -H2].
Qed.

(** A text among the records: the file is opened for bytes, and writing it raises TypeError. *)
Theorem commit_text_fails (t : Factory O) kr text : NoDup t.*1 -> kr ∈ t -> xr_data kr.2 = Text text ->
  Z.of_nat (length (dumps (build_layout t).1.2)) < 2 ^ 31 -> exists file, (commit t).2 = (file, Raise TypeError_).
Proof.
  intros Hk Hin Hno Hsize. destruct (build_layout_spec t Hk) as [n Hb]. unfold commit. rewrite Hb in Hsize |- *. cbn [fst snd] in *.
  destruct (pack_unpack_i (Z.of_nat (length (dumps (layout_from 0 t)))) []) as (b & -> & _ & _); [lia|]. cbn [snd].
  by apply (write_text _ _ kr text).
Qed.
End Roundtrip.

(** ** Example *)

#[local] Instance layout_pickle : Pickle Layout := {
  dumps l := [Z.pos (encode ((fun ke => (ke.1, (offset ke.2, isMarshalled ke.2, size ke.2))) <$> l : list (string * (Z * bool * Z))))];
  loads b := match b with
             | [Z.pos p] => match decode p with
                            | Some l => Ok ((fun ke : string * (Z * bool * Z) => (ke.1, mkLayoutEntry ke.2.1.1 ke.2.1.2 ke.2.2)) <$> l)
                            | None => Raise ValueError_
                            end
             | _ => Raise ValueError_
             end }.
#[local] Instance layout_pickle_laws : PickleLaws Layout.
Proof.
  split. intros l. cbn. rewrite decode_encode. f_equal. rewrite -list_fmap_compose.
  induction l as [|[k [o m n]] l IH]; cbn; [done|]. by rewrite IH.
Qed.
#[local] Instance number_pickle : Pickle Z := { dumps z := [128; z]; loads b := match b with [_; z] => Ok z | _ => Raise ValueError_ end }.

Definition ex_xpd : list (string * string * Data Z) := [("envReport", "environment report", Object 7); ("profiles", "xpedite profiles", Object 9)].

Example xpd_roundtrip_witness : exists file rd, (commit (fresh_record <$> ex_xpd)).2 = (file, Ok tt) /\ open_reader file = Ok rd /\
  (exists r', getData rd "profiles" = Ok (VObject 9, r')) /\ getData (O := Z) rd "snippets" = Raise KeyError_.
Proof.
  destruct (xpd_roundtrip ex_xpd (fresh_record <$> ex_xpd)) as (_ & file & rd & Hc & Ho & Hg); [reflexivity| |vm_compute; reflexivity|].
  { repeat constructor; eexists; split; reflexivity. }
  exists file, rd. split_and!; [exact Hc|exact Ho| |].
  - destruct (Hg "profiles" rd (conj eq_refl eq_refl)) as (r' & Hr & _). exists r'. exact Hr.
  - exact (Hg "snippets" rd (conj eq_refl eq_refl)).
Defined.
