(* ===== verification/Loading.v ===== *)
(** * Loading profiles in a notebook

    Models jupyter/context.py and jupyter/autoComplete.py: a context is initialized once, a
    thread of its pool loads the profiles, and the commands of the shell read them through the
    property [profiles], which waits for the thread.  The two threads interleave: a step reads or
    writes one attribute of the context.  [load] is what [loadProfiles] gives or raises. *)

From Stdlib Require Import Ascii.
From S2P Require Import Prelude PyStr Probe Route Txn Timeline Conflate.

(** ** [autoComplete.Txn] *)

Definition legal_prefix (c : Ascii.ascii) : bool := (is_alpha c || Ascii.eqb c "_")%bool.
Definition legal_char (c : Ascii.ascii) : bool := (legal_prefix c || is_digit c)%bool.

(** The two substitutions. *)
Definition attribute_name (pmc : string) : string :=
  of_chars (drop_while (fun c => negb (legal_prefix c)) (filter (fun c => legal_char c = true) (to_chars pmc))).

(** The attributes of a [Txn]: the index of each counter under its name. *)
Definition AutoTxn_init (pmcNames : list string) : list (string * nat) :=
  foldl (fun attrs ip => od_set String.eqb (attribute_name ip.2) ip.1 attrs) [] (imap (fun i pmc => (i, pmc)) pmcNames).

(** ** [Context] *)

Inductive ProfileStatus := LoadInProgress | LoadComplete | LoadFailed.
#[export] Instance ProfileStatus_eq_dec : EqDecision ProfileStatus.
Proof. solve_decision. Defined.

#[local] Arguments Nat.leb : simpl never.

Section Loading.
Context {F : Type} {HF : PyFloat F} {R : Type} (load : result (Profiles F R)).

Record Ctx := mkCtx {
  c_profiles : option (Profiles F R);
  profileState : option ProfileStatus;
  c_txn : option (list (string * nat));
  executor : bool;                      (* whether there still is one *)
  errMsg : option exn
}.
Definition Ctx_init : Ctx := mkCtx None None None true None.

(** [Profiles] have a length. *)
Definition truthy_profiles (p : option (Profiles F R)) : bool :=
  match p with Some p => match profiles _ p with [] => false | _ => true end | None => false end.

Definition ps_pmcNames (p : Profiles F R) : option (list string) :=
  match profiles _ p with q :: _ => Some (Timeline.pmcNames (deltaSeriesRepo (p_current q))) | [] => None end.

(** *** The thread of the pool: [doLoad] *)

Inductive Worker :=
  | NotSubmitted | Queued
  | Calling          (* loadProfiles *)
  | Naming           (* Txn(self._profiles.pmcNames) *)
  | Settling         (* finally *)
  | CallingBack | Finished.

(** [None] when the thread has nothing to do. *)
Definition worker_next (w : Worker) (c : Ctx) : option (Worker * Ctx) :=
  match w with
  | NotSubmitted | Finished => None
  | Queued => Some (Calling, mkCtx (c_profiles c) (Some LoadInProgress) (c_txn c) (executor c) (errMsg c))
  | Calling => Some match load with
                    | Ok p => (Naming, mkCtx (Some p) (profileState c) (c_txn c) (executor c) (errMsg c))
                    | Raise e => (Settling, mkCtx (c_profiles c) (profileState c) (c_txn c) (executor c) (Some e))
                    end
  | Naming => Some match c_profiles c with
                   | Some p => if truthy_profiles (Some p) then
                       match ps_pmcNames p with
                       | Some names => (Settling, mkCtx (Some p) (profileState c) (Some (AutoTxn_init names)) (executor c) (errMsg c))
                       | None => (Settling, mkCtx (Some p) (profileState c) (c_txn c) (executor c) (Some TypeError_))
                       end
                     else (Settling, mkCtx (Some p) (profileState c) None (executor c) (errMsg c))
                   | None => (Settling, mkCtx None (profileState c) None (executor c) (errMsg c))
                   end
  | Settling => Some (CallingBack, mkCtx (c_profiles c) (Some (if truthy_profiles (c_profiles c) then LoadComplete else LoadFailed))
                                     (c_txn c) (executor c) (errMsg c))
  | CallingBack => Some (Finished, c)
  end.

(** *** A command: the property [profiles] *)

Inductive Why := LoadingFailed | NotInitialized | TimedOut.
Inductive Getter :=
  | AtFailed | AtNone | AtComplete           (* the three tests before the loop *)
  | AtWhile (count : nat) | Sleeping (count : nat) | Woken (count : nat)
  | AtShutdown                               (* awaits the thread *)
  | AtReturn
  | Returned (p : option (Profiles F R)) | Raised (why : Why).

(** [None] when it is over, or blocked. *)
Definition getter_next (w : Worker) (g : Getter) (c : Ctx) : option (Getter * Ctx) :=
  match g with
  | AtFailed => Some (if bool_decide (profileState c = Some LoadFailed) then Raised LoadingFailed else AtNone, c)
  | AtNone => Some (if bool_decide (profileState c = None) then Raised NotInitialized else AtComplete, c)
  | AtComplete => Some (if bool_decide (profileState c = Some LoadComplete) then AtReturn else AtWhile 0, c)
  | AtWhile count => Some (if bool_decide (profileState c = Some LoadInProgress) then Sleeping count else AtReturn, c)
  | Sleeping count => Some (Woken count, c)
  | Woken count =>
      Some (if bool_decide (profileState c = Some LoadComplete) then if executor c then AtShutdown else AtReturn
            else if (60 <=? S count)%nat then Raised TimedOut else AtWhile (S count), c)
  | AtShutdown => match w with
                  | Finished => Some (AtReturn, mkCtx (c_profiles c) (profileState c) (c_txn c) false (errMsg c))
                  | _ => None
                  end
  | AtReturn => Some (Returned (c_profiles c), c)
  | Returned _ | Raised _ => None
  end.

(** *** Both *)

Record Shell := mkShell { worker : Worker; getter : option Getter; ctx : Ctx }.

Inductive shell_step : Shell -> Shell -> Prop :=
  | step_initialize g c : (forall x, g = Some x -> getter_next Finished x c = None) ->
      shell_step (mkShell NotSubmitted g c) (mkShell Queued g c)
  | step_command w g c : (forall x, g = Some x -> getter_next Finished x c = None) ->
      shell_step (mkShell w g c) (mkShell w (Some AtFailed) c)
  | step_worker w w' g c c' : worker_next w c = Some (w', c') -> shell_step (mkShell w g c) (mkShell w' g c')
  | step_getter w g g' c c' : getter_next w g c = Some (g', c') -> shell_step (mkShell w (Some g) c) (mkShell w (Some g') c').

(** The steps of the two threads, while nothing new is started. *)
Inductive thread_step : Shell -> Shell -> Prop :=
  | thread_worker w w' g c c' : worker_next w c = Some (w', c') -> thread_step (mkShell w g c) (mkShell w' g c')
  | thread_getter w g g' c c' : getter_next w g c = Some (g', c') -> thread_step (mkShell w (Some g) c) (mkShell w (Some g') c').

Definition shell_init : Shell := mkShell NotSubmitted None Ctx_init.
Definition reachable (s : Shell) : Prop := rtc shell_step shell_init s.

(** ** What holds whatever the threads do *)

(** The context, as far as the thread has come. *)
Definition ctx_inv (w : Worker) (c : Ctx) : Prop :=
  match w with
  | NotSubmitted | Queued => profileState c = None /\ c_profiles c = None
  | Calling => profileState c = Some LoadInProgress /\ c_profiles c = None
  | Naming => profileState c = Some LoadInProgress /\ exists p, load = Ok p /\ c_profiles c = Some p
  | Settling => profileState c = Some LoadInProgress /\
      match load with Ok p => c_profiles c = Some p | Raise _ => c_profiles c = None end
  | CallingBack | Finished =>
      match load with Ok p => c_profiles c = Some p | Raise _ => c_profiles c = None end /\
      profileState c = Some (if truthy_profiles (c_profiles c) then LoadComplete else LoadFailed)
  end.

(** Once it has been seen, the thread is that far. *)
Definition settled (w : Worker) : bool := match w with CallingBack | Finished => true | _ => false end.
Definition begun (w : Worker) : bool := match w with NotSubmitted | Queued => false | _ => true end.

(** What a command has seen of the state, which only moves on. *)
Definition getter_inv (w : Worker) (g : Getter) (c : Ctx) : Prop :=
  match g with
  | AtFailed | AtNone => True
  | AtComplete | AtWhile _ | Sleeping _ | Woken _ => begun w = true
  | AtShutdown | AtReturn => settled w = true
  | Returned p => settled w = true /\ p = c_profiles c
  | Raised LoadingFailed => settled w = true /\ profileState c = Some LoadFailed
  | Raised NotInitialized => True
  | Raised TimedOut => True
  end.

Definition shell_inv (s : Shell) : Prop :=
  ctx_inv (worker s) (ctx s) /\ (forall g, getter s = Some g -> getter_inv (worker s) g (ctx s)).

Lemma reachable_inv (P : Shell -> Prop) : P shell_init -> (forall s s', P s -> shell_step s s' -> P s') -> forall s, reachable s -> P s.
Proof. intros H0 Hs s Hr. refine (rtc_ind_r P shell_init H0 _ s Hr). intros x y _ Hxy Hx. exact (Hs x y Hx Hxy). Qed.

Lemma worker_keeps w c w' c' : ctx_inv w c -> worker_next w c = Some (w', c') -> ctx_inv w' c'.
Proof.
  destruct w; cbn; intros H Hn; try done.
  - injection Hn as <- <-. by destruct H.
  - destruct load as [p|e] eqn:E; injection Hn as <- <-; cbn; rewrite ?E; [|done]. destruct H. split; [done|]. by exists p.
  - destruct H as (Hs & p & Hl & Hp). rewrite Hp in Hn. repeat case_match; simplify_eq; cbn; by rewrite Hl.
  - destruct H as [Hs H]. by injection Hn as <- <-.
  - by injection Hn as <- <-.
Qed.

Lemma worker_order w c w' c' : worker_next w c = Some (w', c') ->
  (begun w = true -> begun w' = true) /\ (settled w = true -> settled w' = true /\ c' = c).
Proof. destruct w; cbn; try done; intros Hn; repeat case_match; by simplify_eq. Qed.

Lemma worker_moves_on w c w' c' g : ctx_inv w c -> worker_next w c = Some (w', c') -> getter_inv w g c -> getter_inv w' g c'.
Proof.
  intros Hc Hn Hg. destruct (worker_order _ _ _ _ Hn) as [Hb Hs].
  destruct g as [| | |n|n|n| | |p|[]]; cbn in *; auto; try (by apply Hs).
  - destruct Hg as [H ->]. destruct (Hs H) as [H1 ->]. done.
  - destruct Hg as [H1 H2]. destruct (Hs H1) as [H3 ->]. done.
Qed.

Lemma ctx_begun w c : ctx_inv w c -> profileState c <> None -> begun w = true.
Proof. by destruct w; cbn; [intros [H _]|intros [H _]|..]. Qed.
Lemma ctx_settled w c : ctx_inv w c -> begun w = true -> profileState c <> Some LoadInProgress -> settled w = true.
Proof. destruct w; cbn; try done; intros [H _] _; by rewrite H. Qed.

Lemma getter_keeps w c g g' c' : ctx_inv w c -> getter_inv w g c -> getter_next w g c = Some (g', c') ->
  ctx_inv w c' /\ getter_inv w g' c'.
Proof.
  intros Hc Hg Hn. destruct g as [| | |n|n|n| | |p|y]; cbn in Hn; try done.
  6: { injection Hn as <- <-. split; [done|]. cbn in Hg. case_bool_decide as Hs.
       - destruct (executor c); cbn; apply (ctx_settled _ _ Hc Hg); congruence.
       - by destruct (60 <=? S n)%nat. }
  6: { destruct w; try done. injection Hn as <- <-. done. }
  all: injection Hn as <- <-; (split; [done|]); try case_bool_decide as Hs; cbn in Hg |- *; auto.
  - split; [|done]. apply (ctx_settled _ _ Hc); [apply (ctx_begun _ _ Hc)|]; congruence.
  - by apply (ctx_begun _ _ Hc).
  - apply (ctx_settled _ _ Hc Hg). congruence.
  - by apply (ctx_settled _ _ Hc Hg).
Qed.

Lemma shell_keeps s : reachable s -> shell_inv s.
Proof.
  revert s. apply reachable_inv; [by split|]. intros s s' [Hc Hg] Hst. destruct Hst as [g c Hg'|w g c Hg'|w w' g c c' Hn|w g g' c c' Hn]; cbn in *.
  - split; [exact Hc|]. intros x Hx. specialize (Hg x Hx). cbn in *. destruct x as [| | |n|n|n| | |p|[]]; cbn in *; try done; by destruct Hg.
  - split; [done|]. by intros x [= <-].
  - split; [by apply (worker_keeps _ _ _ _ Hc Hn)|]. intros x Hx. apply (worker_moves_on _ _ _ _ x Hc Hn). by apply Hg.
  - destruct (getter_keeps w c g g' c' Hc (Hg _ eq_refl) Hn) as [H1 H2]. split; [done|]. by intros x [= <-].
Qed.

(** ** A command ends *)

Definition worker_rank (w : Worker) : nat :=
  match w with NotSubmitted | Finished => 0 | CallingBack => 1 | Settling => 2 | Naming => 3 | Calling => 4 | Queued => 5 end.
Definition getter_rank (g : Getter) : nat :=
  match g with
  | Returned _ | Raised _ => 0 | AtReturn => 1 | AtShutdown => 2
  | Woken n => 3 * (60 - n) + 4 | Sleeping n => 3 * (60 - n) + 5 | AtWhile n => 3 * (60 - n) + 6
  | AtComplete => 187 | AtNone => 188 | AtFailed => 189
  end.
Definition shell_rank (s : Shell) : nat := worker_rank (worker s) + match getter s with Some g => getter_rank g | None => 0 end.

Lemma thread_step_shell s s' : thread_step s s' -> shell_step s s'.
Proof. destruct 1; by constructor. Qed.

Lemma thread_step_rank s s' : thread_step s s' -> (shell_rank s' < shell_rank s)%nat.
Proof.
  destruct 1 as [w w' g c c' Hn|w g g' c c' Hn]; unfold shell_rank; cbn [worker getter].
  - destruct w; cbn in Hn; repeat case_match; simplify_eq; cbn; lia.
  - destruct g as [| | |n|n|n| | |p|y]; cbn in Hn; repeat case_match; simplify_eq; cbn -[Nat.mul];
      repeat match goal with H : (_ <=? _)%nat = false |- _ => apply Nat.leb_gt in H end; lia.
Qed.

Lemma shell_rank_bound s : (shell_rank s <= 194)%nat.
Proof.
  assert (Hw : (worker_rank (worker s) <= 5)%nat) by (destruct (worker s); cbn; lia). unfold shell_rank.
  destruct (getter s) as [[| | |n|n|n| | |p|y]|]; cbn -[Nat.mul]; lia.
Qed.

(** What a command may end with. *)
Definition outcome (g : Getter) : Prop :=
  match g with
  | Returned p => p = match load with Ok ps => Some ps | Raise _ => None end
  | Raised LoadingFailed => truthy_profiles (match load with Ok ps => Some ps | Raise _ => None end) = false
  | Raised NotInitialized | Raised TimedOut => True
  | _ => False
  end.

Lemma settled_profiles w c : ctx_inv w c -> settled w = true ->
  c_profiles c = (match load with Ok ps => Some ps | Raise _ => None end) /\
  profileState c = Some (if truthy_profiles (c_profiles c) then LoadComplete else LoadFailed).
Proof. destruct w; cbn; try done; intros [H1 H2] _; (split; [revert H1; by destruct load|done]). Qed.

Lemma stuck_outcome s g : shell_inv s -> getter s = Some g -> (forall s', ~ thread_step s s') -> outcome g.
Proof.
  intros [Hc Hg] E Hstuck. specialize (Hg g E). destruct s as [w og c]. cbn in *. subst og.
  assert (Hno : forall g' c', getter_next w g c <> Some (g', c')) by (intros g' c' Hn; apply (Hstuck _ (thread_getter _ _ _ _ _ Hn))).
  destruct g as [| | |n|n|n| | |p|y]; cbn in Hno; try by destruct (Hno _ _ eq_refl).
  - destruct w; cbn in Hg; try done; cbn in Hno; [|by destruct (Hno _ _ eq_refl)].
    destruct (Hstuck _ (thread_worker CallingBack Finished (Some AtShutdown) c c eq_refl)).
  - destruct Hg as [Hs ->]. by apply (settled_profiles w c Hc).
  - destruct y; cbn in Hg |- *; [|done|done]. destruct Hg as [Hs Hf]. destruct (settled_profiles w c Hc Hs) as [Hp Hst].
    rewrite -Hp. rewrite Hst in Hf. by destruct (truthy_profiles _).
Qed.

Lemma thread_steps_reachable n s s' : reachable s -> nsteps thread_step n s s' -> reachable s' /\ (n + shell_rank s' <= shell_rank s)%nat.
Proof.
  intros Hr H. induction H as [s|n s1 s2 s3 H12 H23 IH]; [split; [done|lia]|].
  destruct IH as [H1 H2]; [eapply rtc_r; [exact Hr|by apply thread_step_shell]|]. split; [done|]. apply thread_step_rank in H12. lia.
Qed.

(** C22: whatever the order in which the thread that loads and a command step, they take at most 194
    steps together; and when neither can step any more the command is over: it returned exactly the
    profiles of the data file, or None if reading them raised; or it raised, because nothing was
    loaded when it began, after sixty waits, or because loading had failed or gave no profiles. *)
Theorem command_ends n s s' : reachable s -> nsteps thread_step n s s' ->
  (n <= 194)%nat /\ ((forall s'', ~ thread_step s' s'') -> forall g, getter s' = Some g -> outcome g).
Proof.
  intros Hr Hn. destruct (thread_steps_reachable n s s' Hr Hn) as [Hr' Hle]. pose proof (shell_rank_bound s). split; [lia|].
  intros Hstuck g Hg. by apply (stuck_outcome s' g (shell_keeps s' Hr') Hg).
Qed.

(** ** Two races *)

Ltac by_worker := eapply rtc_l; [apply step_worker; cbn; reflexivity|].
Ltac by_getter := eapply rtc_l; [apply step_getter; cbn; reflexivity|].

(** A command that waits while loading fails does not raise: it gives None. *)
Theorem waiting_command_gets_none e : load = Raise e -> exists s, reachable s /\ getter s = Some (Returned None).
Proof.
  intros Hl. eexists. split.
  - eapply rtc_l; [by apply step_initialize|]. by_worker. eapply rtc_l; [by apply step_command|].
    do 4 by_getter. eapply rtc_l; [apply step_worker; cbn; rewrite Hl; reflexivity|]. by_worker. do 4 by_getter. apply rtc_refl.
  - reflexivity.
Qed.

(** A command right after [initialize] finds no state: it is set by the thread only. *)
Theorem early_command_raises : exists s, reachable s /\ worker s = Queued /\ getter s = Some (Raised NotInitialized).
Proof.
  eexists. split_and!.
  - eapply rtc_l; [by apply step_initialize|]. eapply rtc_l; [by apply step_command|]. do 2 by_getter. apply rtc_refl.
  - reflexivity.
  - reflexivity.
Qed.
End Loading.

(** ** Example *)

Example command_ends_witness : exists s s' : Shell (F := Z) (R := unit),
  reachable (Raise OSError_) s /\ nsteps (thread_step (Raise OSError_)) 12 s s' /\ (12 <= 194)%nat /\
  getter s' = Some (Returned None) /\ outcome (Raise OSError_) (Returned (None : option (Profiles Z unit))).
Proof.
  assert (Hr : reachable (Raise OSError_ : result (Profiles Z unit)) (mkShell Queued (Some AtFailed) Ctx_init)).
  { eapply rtc_l; [by apply step_initialize|]. eapply rtc_l; [by apply step_command|]. apply rtc_refl. }
  assert (Hn : exists s', nsteps (thread_step (Raise OSError_ : result (Profiles Z unit))) 12 (mkShell Queued (Some AtFailed) Ctx_init) s' /\
    getter s' = Some (Returned None) /\ worker s' = Finished).
  { eexists. split_and!.
    - eapply nsteps_l; [apply thread_worker; cbn; reflexivity|].
      do 4 (eapply nsteps_l; [apply thread_getter; cbn; reflexivity|]).
      do 3 (eapply nsteps_l; [apply thread_worker; cbn; reflexivity|]).
      do 4 (eapply nsteps_l; [apply thread_getter; cbn; reflexivity|]). apply nsteps_O.
    - reflexivity.
    - reflexivity. }
  destruct Hn as ([w g c] & Hn & Hg & Hw). exists (mkShell Queued (Some AtFailed) Ctx_init), (mkShell w g c).
  destruct (command_ends (Raise OSError_) 12 _ _ Hr Hn) as [Hle Ho]. split_and!; [exact Hr|exact Hn|exact Hle|exact Hg|].
  apply Ho; [|exact Hg]. cbn in Hg, Hw. subst. intros s'' Hs. inversion Hs; subst; done.
Defined.
