(* ===== verification/Plot.v ===== *)
(** * Plots and snippets of a notebook

    Models jupyter/plot.py, the sunburst of a timeline tree and the bars of its pmu counters, and
    jupyter/snippetsBuilder.py, the commands a notebook offers.  The markup around the data is left
    out: a plot is the data it is given. *)

From Stdlib Require Import Ascii.
From S2P Require Import Prelude PyStr Probe Route Txn Timeline TimelineTree.

(** ** [NodeNameFactory] *)

(** [occurenceCount]. *)
Definition Names := list (string * Z).
Definition suffixed (name : string) (count : Z) : string := String.append name (String.append "#" (print_int 10 count)).

Definition makeName (name : string) (occurenceCount : Names) : string * Names :=
  let '(name, occurenceCount) :=
    match od_get String.eqb name occurenceCount with
    | Some count => (suffixed name count, od_set String.eqb name (count + 1) occurenceCount)
    | None => (name, occurenceCount)
    end in
  (name, od_set String.eqb name 1 occurenceCount).

(** ** [buildTxnPlotTree] *)

Section Plot.
Context {F : Type} {HF : PyFloat F}.

Inductive PlotNode :=
  | PlotGroup (name : string) (children : list PlotNode) (id : Z)
  | PlotLeaf (name : string) (size : F) (id : Z).
Definition plot_id (p : PlotNode) : Z := match p with PlotGroup _ _ id | PlotLeaf _ _ id => id end.

(** The factory is shared by all nodes. *)
Fixpoint buildTxnPlotTree (node : TimelineNode (F := F)) (names : Names) (plotId : Z) : PlotNode * Names :=
  match node with
  | Node name children =>
      let '(name, names) := makeName name names in
      let '(children, names, plotId) :=
        (fix go (cs : list TimelineNode) (names : Names) (plotId : Z) : list PlotNode * Names * Z :=
           match cs with
           | [] => ([], names, plotId)
           | child :: cs =>
               let '(c, names) := buildTxnPlotTree child names plotId in
               let '(rest, names, plotId) := go cs names (plot_id c + 1) in
               (c :: rest, names, plotId)
           end) children names plotId in
      (PlotGroup name children plotId, names)
  | Leaf name value => let '(name, names) := makeName name names in (PlotLeaf name value plotId, names)
  end.

(** The data of [buildTxnPlot]; it shows the text of an exception. *)
Definition buildTxnPlot (fuel : nat) (timeline : Timeline F) : result PlotNode :=
  timelineTree ← buildTimelineTree fuel 4 timeline;
  Ok (buildTxnPlotTree timelineTree [] 0).1.

(** ** [buildPmcJson] *)

Record PmcBar := mkPmcBar { bar_pmc : string; bar_probe : string; bar_value : F }.

Definition pmc_sums (timeline : Timeline F) : result (list (string * option Z)) :=
  e ← or_raise AttributeError_ (tl_endpoint timeline);
  names ← or_raise TypeError_ (tp_pmcNames e);
  mfor (fun sums '(i, name) =>
      deltas ← or_raise TypeError_ (tp_deltaPmcs e);
      d ← py_nth deltas i;
      Ok (od_set String.eqb name d sums))
    [] (imap (fun i n => (i, n)) names).

(** The state of the loops: the bars, the labels and the factory of names. *)
Record PmcJson := mkPmcJson { pj_bars : list PmcBar; pj_labels : list (string * string); pj_names : Names }.

Definition pmc_bar (pmcBarScale : F) (pmcSum : list (string * option Z)) (probeNum : string) (tp : TimePoint F)
    (s : PmcJson) (ip : nat * string) : result PmcJson :=
  let '(i, pmcName) := ip in
  let labels := od_set String.eqb pmcName pmcName (pj_labels s) in
  let '(label, names) := makeName (tp_name tp) (pj_names s) in
  let labels := od_set String.eqb probeNum label labels in
  total ← or_raise KeyError_ (od_get String.eqb pmcName pmcSum);
  total ← or_raise TypeError_ total;
  value ← (if 0 <? total then
             deltas ← or_raise TypeError_ (tp_deltaPmcs tp);
             d ← py_nth deltas i;
             d ← or_raise TypeError_ d;
             py_div (f_mul (f_of_Z d) pmcBarScale) (f_of_Z total)
           else Ok (f_of_Z 0));
  Ok (mkPmcJson (pj_bars s ++ [mkPmcBar pmcName probeNum value]) labels names).

Definition buildPmcJson (timeline : Timeline F) (pmcBarScale : F) : result (PmcJson * list (string * option Z)) :=
  pmcSum ← pmc_sums timeline;
  '(s, _) ← mfor (fun '(s, probeNum) tp =>
      names ← or_raise TypeError_ (tp_pmcNames tp);
      s ← mfor (pmc_bar pmcBarScale pmcSum probeNum tp) s (imap (fun i n => (i, n)) names);
      Ok (s, String.append probeNum "1"))
    (mkPmcJson [] [] [], "1"%string) (take (length (tl_points timeline) - 1) (tl_points timeline));
  Ok (s, pmcSum).

(** The data of [buildPmcPlot]. *)
Definition buildPmcPlot (timeline : Timeline F) : result (option (PmcJson * list (string * option Z) * F)) :=
  first ← py_nth (tl_points timeline) 0;
  match tp_pmcNames first with
  | None | Some [] => Ok None
  | Some names =>
      pmcBarScale ← py_div (f_of_Z 100) (f_of_Z (Z.of_nat (length names)));
      j ← buildPmcJson timeline pmcBarScale;
      Ok (Some (j, pmcBarScale))
  end.
End Plot.
Arguments PlotNode : clear implicits.
Arguments PmcBar : clear implicits.
Arguments PmcJson : clear implicits.

(** ** Snippets *)

(** [cmd[begin:end]], and [cmd.rfind(c, begin, end)]. *)
Definition slice (begin end_ : nat) (cmd : chars) : chars := take (end_ - begin) (drop begin cmd).
Definition rfind_char (c : ascii) (begin end_ : nat) (cmd : chars) : option nat :=
  last (filter (fun i => cmd !! i = Some c) (seq begin (end_ - begin))).

Definition comma : ascii := ","%char.
Fixpoint break_loop (fuel lineSize : nat) (cmd : chars) (begin end_ : nat) (fmtCmd : chars) : result chars :=
  match fuel with
  | O => Raise RecursionError_
  | S fuel =>
      if (lineSize <? end_ - begin)%nat then
        let '(fmtCmd, begin) :=
          match rfind_char comma begin end_ cmd with
          | None => (fmtCmd ++ slice begin end_ cmd, end_)
          | Some index => (fmtCmd ++ slice begin (index + 1) cmd ++ ["010"%char], (index + 1)%nat)
          end in
        break_loop fuel lineSize cmd begin (Nat.min (begin + lineSize + 1) (length cmd)) fmtCmd
      else Ok (fmtCmd ++ slice begin end_ cmd)
  end.
(** Every round moves [begin]. *)
Definition breakCommand (lineSize : nat) (cmd : string) : result string :=
  let cmd := to_chars cmd in
  of_chars <$> break_loop (S (length cmd)) lineSize cmd 0 (Nat.min (lineSize + 1) (length cmd)) [].

(** [buildSnippets].  [repr] of a text without quotes, backslashes and control characters is the
    text in quotes. *)
Definition py_repr (o : option string) : string :=
  match o with Some s => String.append "'" (String.append s "'") | None => "None" end.
Definition repr_list (l : list (option string)) : string :=
  String.append "[" (String.append (py_join ", " (py_repr <$> l)) "]").
Definition str_of (o : option string) : string := default "None" o.
Definition concat_strs (l : list string) : string := py_join "" l.
Definition show_nat (n : nat) : string := print_int 10 (Z.of_nat n).
Definition show_id (i : TxnId) : string := match i with IdInt z => print_int 10 z | IdStr s => s end.

Record Snippet := mkSnippet { sn_name : string; sn_code : list string }.

Section Snippets.
Context {F : Type}.

Definition txn_at (l : list (Timeline F)) (i : nat) : result string := tl ← py_nth l i; Ok (show_id (tl_txnId tl)).
(** [l[txnCount - 1]], the last one also when there is none before it. *)
Definition txn_last (l : list (Timeline F)) : result string := tl ← py_index l (Z.of_nat (length l) - 1); Ok (show_id (tl_txnId tl)).

Definition LINE_SIZE : nat := 150.

(** The snippets of one profile: its route and its timelines. *)
Definition profile_snippets (route : list (option string)) (tls : list (Timeline F)) : result (list Snippet) :=
  first ← py_nth route 0;
  final ← py_index route (-1);
  let routeProbes := concat_strs ["("; repr_list route; ")"] in
  let routeName := concat_strs [" ["; show_nat (length route); "] | "; str_of first; "->"; str_of final] in
  let txnCount := length tls in
  a ← txn_at tls 0; z ← txn_last tls;
  let diffArgs := concat_strs ["("; a; ", "; z; ")"] in
  b ← txn_at tls (txnCount / 4); c ← txn_at tls (txnCount / 2);
  let txnsDiffArgs := concat_strs ["(["; a; ", "; b; "], ["; c; ", "; z; "])"] in
  txnCode ← breakCommand LINE_SIZE (concat_strs ["txns"; routeProbes]);
  plotTxnCode ← breakCommand LINE_SIZE (concat_strs ["plot"; routeProbes]);
  filterCode ← breakCommand LINE_SIZE (concat_strs ["filter(lambda txn: txn.duration > 0).txns"; routeProbes]);
  filterStatCode ← breakCommand LINE_SIZE (concat_strs ["filter(lambda txn: txn.duration > 0).stat"; routeProbes]);
  diffCode ← breakCommand LINE_SIZE (concat_strs ["diff"; diffArgs]);
  txnsDiffCode ← breakCommand LINE_SIZE (concat_strs ["diff"; txnsDiffArgs]);
  let named name code := mkSnippet (String.append name routeName) [code] in
  Ok ([named "txns" txnCode; named "plot" plotTxnCode; named "filter" filterCode; named "filterStat" filterStatCode;
       named "txnDiff" diffCode] ++
      if (3 <? txnCount)%nat then [named "txnsDiff" txnsDiffCode] else []).

(** At most six profiles, and the plot of one transaction. *)
Definition buildSnippets (profiles : list (list (option string) * list (Timeline F))) : result (list Snippet) :=
  snippets ← mfor (fun acc '(route, tls) => s ← profile_snippets route tls; Ok (acc ++ s)) [] (take 6 profiles);
  Ok (snippets ++ [mkSnippet "plot-one" ["plot()"%string]]).
End Snippets.

(** ** Names are unique *)

Definition plain_label (name : string) : Prop := "#"%char ∉ to_chars name.
(** How often a name comes in a list; its name the next time. *)
Definition occurrences (name : string) (l : list string) : nat := length (filter (fun n => n = name) l).
Definition nth_name (name : string) (k : nat) : string := match k with O => name | _ => suffixed name (Z.of_nat k) end.

Fixpoint makeNames (l : list string) (names : Names) : list string * Names :=
  match l with
  | [] => ([], names)
  | n :: l => let '(n, names) := makeName n names in let '(ns, names) := makeNames l names in (n :: ns, names)
  end.

(** The counts after the names of [seen]. *)
Definition counts_seen (seen : list string) (names : Names) : Prop :=
  forall n, plain_label n -> od_get String.eqb n names =
    match occurrences n seen with O => None | k => Some (Z.of_nat k) end.

Lemma suffixed_not_plain n k : ~ plain_label (suffixed n k).
Proof. intros H. apply H. unfold suffixed. rewrite !chars_append. apply elem_of_app. right. apply elem_of_app. left. cbn. left. Qed.

Lemma makeName_seen seen n names : plain_label n -> counts_seen seen names ->
  exists names', makeName n names = (nth_name n (occurrences n seen), names') /\ counts_seen (seen ++ [n]) names'.
Proof.
  intros Hn Hs. unfold makeName. rewrite (Hs n Hn). destruct (occurrences n seen) as [|k] eqn:E; cbn [nth_name].
  all: eexists; split; [reflexivity|]; intros m Hm; rewrite !od_get_set; unfold occurrences; rewrite filter_app length_app; fold (occurrences m seen).
  - destruct (String.eqb_spec n m) as [<-|Hne]; cbn.
    + rewrite E decide_True //.
    + rewrite (Hs m Hm) decide_False // Nat.add_0_r //.
  - destruct (String.eqb_spec (suffixed n (Z.of_nat (S k))) m) as [<-|_]; [by apply suffixed_not_plain in Hm|].
    destruct (String.eqb_spec n m) as [<-|Hne]; cbn.
    + rewrite E decide_True //. cbn. f_equal. lia.
    + rewrite (Hs m Hm) decide_False // Nat.add_0_r //.
Qed.

Lemma makeNames_seen seen l names : Forall plain_label l -> counts_seen seen names ->
  (makeNames l names).1 = imap (fun i n => nth_name n (occurrences n (seen ++ take i l))) l.
Proof.
  intros Hl. revert seen names. induction Hl as [|n l Hn Hl IH]; intros seen names Hs; cbn [makeNames imap]; [done|].
  destruct (makeName_seen seen n names Hn Hs) as (names' & -> & Hs'). specialize (IH _ _ Hs').
  destruct (makeNames l names') as [ns names'']. cbn [fst] in *. rewrite take_0 app_nil_r. f_equal. rewrite IH.
  apply imap_ext. intros i x _. cbn. by rewrite -app_assoc.
Qed.

Lemma pivot_unique (a b x y : chars) c : c ∉ a -> c ∉ b -> a ++ c :: x = b ++ c :: y -> a = b /\ x = y.
Proof.
  revert b. induction a as [|u a IH]; intros [|v b] Ha Hb; cbn; intros E; injection E; try (by intros; subst; set_solver).
  intros E' ->. destruct (IH b) as [-> ->]; set_solver.
Qed.

Lemma to_chars_inj a b : to_chars a = to_chars b -> a = b.
Proof. intros H. by rewrite -(of_to_chars a) H of_to_chars. Qed.

Lemma nth_name_inj n m j k : plain_label n -> plain_label m -> nth_name n j = nth_name m k -> n = m /\ j = k.
Proof.
  intros Hn Hm E. destruct j as [|j], k as [|k]; cbn [nth_name] in E; [done| | |].
  - destruct (suffixed_not_plain m (Z.of_nat (S k))). by rewrite -E.
  - destruct (suffixed_not_plain n (Z.of_nat (S j))). by rewrite E.
  - unfold suffixed in E. apply (f_equal to_chars) in E. rewrite !chars_append in E.
    apply pivot_unique in E as [E1 E2]; [|done|done]. split; [by apply to_chars_inj|].
    apply to_chars_inj, print_int_inj in E2; lia.
Qed.

Lemma occurrences_take_lt n l i j : (i < j)%nat -> l !! i = Some n -> (occurrences n (take i l) < occurrences n (take j l))%nat.
Proof.
  intros Hij Hi. replace j with (i + (j - i))%nat by lia. rewrite -take_take_drop (drop_S _ _ _ Hi) /occurrences filter_app length_app.
  destruct (j - i)%nat as [|k] eqn:E; [lia|]. cbn. rewrite decide_True //. cbn. lia.
Qed.

(** Names without a number sign become unique: the first of a name stays as it is, and the one after
    k others gets the suffix k. *)
Theorem makeNames_spec l : Forall plain_label l ->
  (makeNames l []).1 = imap (fun i n => nth_name n (occurrences n (take i l))) l /\ NoDup (makeNames l []).1.
Proof.
  intros Hl. rewrite (makeNames_seen [] l [] Hl); [done|]. split; [done|]. apply NoDup_alt. intros i j x Hi Hj.
  rewrite !list_lookup_imap in Hi Hj. destruct (l !! i) as [n|] eqn:En; [|done]. destruct (l !! j) as [m|] eqn:Em; [|done].
  cbn in Hi, Hj. injection Hi as Hi. injection Hj as Hj. rewrite -Hj in Hi. rewrite Forall_lookup in Hl.
  apply nth_name_inj in Hi as [-> Hk]; [|exact (Hl _ _ En)|exact (Hl _ _ Em)]. cbn [app] in Hk.
  destruct (lt_eq_lt_dec i j) as [[H| ->]|H]; [|done|].
  - pose proof (occurrences_take_lt _ _ _ _ H En) as Hlt. unfold occurrences in Hlt. lia.
  - pose proof (occurrences_take_lt _ _ _ _ H Em) as Hlt. unfold occurrences in Hlt. lia.
Qed.

(** ** Plot trees *)

Section PlotTree.
Context {F : Type} {HF : PyFloat F}.

(** What is left of a tree without names and ids, its names from the root down, its ids from the
    leaves up, and how many nodes it has. *)
Inductive Shape := SGroup (children : list Shape) | SLeaf (value : F).
Fixpoint node_shape (t : TimelineNode (F := F)) : Shape :=
  match t with Node _ cs => SGroup (node_shape <$> cs) | Leaf _ v => SLeaf v end.
Fixpoint plot_shape (p : PlotNode F) : Shape :=
  match p with PlotGroup _ cs _ => SGroup (plot_shape <$> cs) | PlotLeaf _ v _ => SLeaf v end.
Fixpoint tree_names (t : TimelineNode (F := F)) : list string :=
  match t with Node n cs => n :: (cs ≫= tree_names) | Leaf n _ => [n] end.
Fixpoint plot_names (p : PlotNode F) : list string :=
  match p with PlotGroup n cs _ => n :: (cs ≫= plot_names) | PlotLeaf n _ _ => [n] end.
Fixpoint plot_ids (p : PlotNode F) : list Z :=
  match p with PlotGroup _ cs i => (cs ≫= plot_ids) ++ [i] | PlotLeaf _ _ i => [i] end.

Fixpoint TimelineNode_forall (P : TimelineNode (F := F) -> Prop) (Hnode : forall n cs, Forall P cs -> P (Node n cs))
    (Hleaf : forall n v, P (Leaf n v)) (t : TimelineNode) : P t :=
  match t with
  | Node n cs => Hnode n cs ((fix go cs : Forall P cs :=
      match cs with [] => Forall_nil_2 P | c :: cs => Forall_cons_2 P c cs (TimelineNode_forall P Hnode Hleaf c) (go cs) end) cs)
  | Leaf n v => Hleaf n v
  end.

Fixpoint plot_children (cs : list (TimelineNode (F := F))) (names : Names) (plotId : Z) : list (PlotNode F) * Names * Z :=
  match cs with
  | [] => ([], names, plotId)
  | child :: cs =>
      let '(c, names) := buildTxnPlotTree child names plotId in
      let '(rest, names, plotId) := plot_children cs names (plot_id c + 1) in
      (c :: rest, names, plotId)
  end.

Lemma build_node n cs names i : buildTxnPlotTree (Node n cs) names i =
  let '(n, names) := makeName n names in
  let '(children, names, i) := plot_children cs names i in (PlotGroup n children i, names).
Proof. reflexivity. Qed.

Lemma makeNames_app l k names : makeNames (l ++ k) names =
  let '(a, names) := makeNames l names in let '(b, names) := makeNames k names in (a ++ b, names).
Proof.
  revert names. induction l as [|n l IH]; intros names; cbn [makeNames app]; [by destruct (makeNames k names)|].
  destruct (makeName n names) as [n' names']. rewrite IH. destruct (makeNames l names') as [a m]. by destruct (makeNames k m).
Qed.

(** The ids from [i] to [j]. *)
Definition ids_between (i j : Z) : list Z := (fun k => i + Z.of_nat k) <$> seq 0 (Z.to_nat (j - i)).
Lemma ids_app i j k : i <= j -> j <= k -> ids_between i j ++ ids_between j k = ids_between i k.
Proof.
  intros Hij Hjk. unfold ids_between. replace (Z.to_nat (k - i)) with (Z.to_nat (j - i) + Z.to_nat (k - j))%nat by lia.
  pose proof (fmap_add_seq (Z.to_nat (j - i)) 0 (Z.to_nat (k - j))) as Hs. rewrite Nat.add_0_r in Hs.
  rewrite seq_app fmap_app. f_equal. cbn [Nat.add]. rewrite -Hs -list_fmap_compose.
  apply list_fmap_ext. intros m x _. cbn. lia.
Qed.
Lemma ids_single i : [i] = ids_between i (i + 1).
Proof. unfold ids_between. replace (i + 1 - i) with 1 by lia. change (seq 0 (Z.to_nat 1)) with [0%nat]. cbn [fmap list_fmap]. f_equal. lia. Qed.

(** What [buildTxnPlotTree] makes of a node with the names so far and the first id. *)
Definition drawn (t : TimelineNode (F := F)) (names : Names) (i : Z) (r : PlotNode F * Names) : Prop :=
  plot_shape r.1 = node_shape t /\ makeNames (tree_names t) names = (plot_names r.1, r.2) /\
  plot_id r.1 + 1 = i + Z.of_nat (length (tree_names t)) /\ plot_ids r.1 = ids_between i (plot_id r.1 + 1).

Lemma children_drawn cs names i : Forall (fun t => forall names i, drawn t names i (buildTxnPlotTree t names i)) cs ->
  let '(ps, names', j) := plot_children cs names i in
  (plot_shape <$> ps) = node_shape <$> cs /\ makeNames (cs ≫= tree_names) names = (ps ≫= plot_names, names') /\
  j = i + Z.of_nat (length (cs ≫= tree_names)) /\ (ps ≫= plot_ids) = ids_between i j.
Proof.
  intros H. revert names i. induction H as [|t cs Ht _ IH]; intros names i; cbn [plot_children].
  { split_and!; [done|done|cbn; lia|]. unfold ids_between. by rewrite Z.sub_diag. }
  destruct (Ht names i) as (H1 & H2 & H3 & H4). destruct (buildTxnPlotTree t names i) as [c names'] eqn:E. cbn [fst snd] in *.
  specialize (IH names' (plot_id c + 1)). destruct (plot_children cs names' (plot_id c + 1)) as [[rest names''] j].
  destruct IH as (I1 & I2 & I3 & I4). cbn [fmap list_fmap mbind list_bind]. rewrite length_app. split_and!; [by rewrite H1 I1| |lia|].
  - by rewrite makeNames_app H2 I2.
  - rewrite H4 I4. apply ids_app; lia.
Qed.

Lemma tree_drawn t names i : drawn t names i (buildTxnPlotTree t names i).
Proof.
  revert names i. induction t as [n cs IH|n v] using TimelineNode_forall; intros names i.
  - rewrite build_node. unfold drawn. destruct (makeName n names) as [n' names'] eqn:E. pose proof (children_drawn cs names' i IH) as H.
    destruct (plot_children cs names' i) as [[ps names''] j]. destruct H as (H1 & H2 & H3 & H4). cbn.
    split_and!; [by rewrite H1|by rewrite E H2|cbn in H3 |- *; lia|]. rewrite H4 (ids_single j). apply ids_app; lia.
  - unfold drawn. cbn. destruct (makeName n names) as [n' names']. cbn. split_and!; [done|done|done|apply ids_single].
Qed.

(** C30: the sunburst of a timeline tree is the tree: the same groups and values in the same places;
    every node has a number of its own, counted from the leaves up from 0, and, when the names of
    the probes have no number sign, a name of its own, its old one with the count of those before. *)
Theorem plot_tree_spec (t : TimelineNode (F := F)) : let p := (buildTxnPlotTree t [] 0).1 in
  plot_shape p = node_shape t /\
  plot_ids p = Z.of_nat <$> seq 0 (length (tree_names t)) /\
  (Forall plain_label (tree_names t) ->
   plot_names p = imap (fun i n => nth_name n (occurrences n (take i (tree_names t)))) (tree_names t) /\ NoDup (plot_names p)).
Proof.
  destruct (tree_drawn t [] 0) as (H1 & H2 & H3 & H4). cbn zeta. split; [done|]. split.
  - rewrite H4 H3. unfold ids_between. rewrite Z.sub_0_r Z.add_0_l Nat2Z.id. by apply list_fmap_ext.
  - intros Hl. destruct (makeNames_spec _ Hl) as [Hn Hd]. rewrite H2 in Hn, Hd. done.
Qed.
End PlotTree.

(** ** Broken commands *)

(** The text again, with line breaks after some of its commas. *)
Inductive broken : chars -> chars -> Prop :=
  | broken_nil : broken [] []
  | broken_char c a b : broken a b -> broken (c :: a) (c :: b)
  | broken_comma a b : broken a b -> broken (comma :: a) (comma :: "010"%char :: b).

Lemma broken_prefix l a b : broken a b -> broken (l ++ a) (l ++ b).
Proof. induction l; [done|]. intros H. by constructor; apply IHl. Qed.
Lemma broken_refl l : broken l l.
Proof. induction l; by constructor. Qed.

Lemma slice_drop b e (l : chars) : (b <= e)%nat -> slice b e l ++ drop e l = drop b l.
Proof. intros H. unfold slice. replace e with (b + (e - b))%nat at 2 by lia. by rewrite -drop_drop take_drop. Qed.

Lemma rfind_char_spec c b e l i : rfind_char c b e l = Some i -> (b <= i < e)%nat /\ l !! i = Some c.
Proof.
  unfold rfind_char. intros H. apply last_Some_elem_of, list_elem_of_filter in H as [H Hi]. apply elem_of_seq in Hi. split; [lia|done].
Qed.

Lemma break_loop_spec fuel L cmd b fmt : (b <= length cmd)%nat -> (length cmd - b < fuel)%nat -> exists out,
  break_loop fuel L cmd b (Nat.min (b + L + 1) (length cmd)) fmt = Ok (fmt ++ out) /\ broken (drop b cmd) out.
Proof.
  revert b fmt. induction fuel as [|fuel IH]; intros b fmt Hb Hf; [lia|]. cbn [break_loop]. set (e := Nat.min (b + L + 1) (length cmd)).
  destruct (Nat.ltb_spec L (e - b)) as [Hlt|Hge].
  - destruct (rfind_char comma b e cmd) as [i|] eqn:E.
    + apply rfind_char_spec in E as [Hi Hc]. destruct (IH (i + 1)%nat (fmt ++ slice b (i + 1) cmd ++ ["010"%char])) as (out & -> & Hout); [lia|lia|].
      exists (slice b (i + 1) cmd ++ "010"%char :: out). split; [by rewrite -!app_assoc|].
      rewrite -(slice_drop b i cmd); [lia|]. rewrite (drop_S _ _ _ Hc). rewrite Nat.add_1_r in Hout |- *.
      assert (Hs : slice b (S i) cmd = slice b i cmd ++ [comma]).
      { unfold slice. replace (S i - b)%nat with (S (i - b)) by lia. apply take_S_r. rewrite lookup_drop. by replace (b + (i - b))%nat with i by lia. }
      rewrite Hs -app_assoc. apply broken_prefix. by constructor.
    + destruct (IH e (fmt ++ slice b e cmd)) as (out & -> & Hout); [lia|lia|]. exists (slice b e cmd ++ out).
      split; [by rewrite -app_assoc|]. rewrite -(slice_drop b e cmd); [lia|]. by apply broken_prefix.
  - exists (drop b cmd). split; [|apply broken_refl]. do 2 f_equal. replace e with (length cmd) by lia. unfold slice.
    apply take_ge. rewrite length_drop. lia.
Qed.

(** Breaking a command ends, and gives the command with line breaks after some of its commas. *)
Theorem breakCommand_spec L cmd : exists out, breakCommand L cmd = Ok out /\ broken (to_chars cmd) (to_chars out).
Proof.
  destruct (break_loop_spec (S (length (to_chars cmd))) L (to_chars cmd) 0 [] ltac:(lia) ltac:(lia)) as (out & H & Hb).
  exists (of_chars out). rewrite to_of_chars. split; [|done]. unfold breakCommand. cbn [Nat.add] in H. by rewrite H.
Qed.

(** ** Examples *)

Example plot_tree_spec_witness : let t := Node "root" [Node "a - c" [Leaf "a - b" 3; Leaf "a - b" 4]; Leaf "a - b" 5] in
  plot_ids (buildTxnPlotTree t [] 0).1 = [0; 1; 2; 3; 4] /\
  plot_names (buildTxnPlotTree t [] 0).1 = ["root"; "a - c"; "a - b"; "a - b#1"; "a - b#2"]%string /\
  NoDup (plot_names (buildTxnPlotTree t [] 0).1).
Proof.
  set (t := Node _ _). destruct (plot_tree_spec t) as (_ & Hids & Hn). cbn zeta. split; [exact Hids|]. split; [reflexivity|].
  apply Hn. repeat constructor; apply (bool_decide_unpack _); reflexivity.
Defined.

(** A probe whose name looks like a suffixed one takes the name of another. *)
Example makeNames_clash : (makeNames ["a#1"; "a"; "a"]%string []).1 = ["a#1"; "a"; "a#1"]%string.
Proof. reflexivity. Qed.

(** Every counter of a step asks for a new name: with two counters the first step is labelled as a
    second one. *)
Theorem pmc_labels_skip {F} `{PyFloat F} (t : Transaction) (x y z : F) :
  let step name a b := mkTimePoint name x y (Some ["cycles"; "misses"]%string) (Some [Some a; Some b]) None None in
  f_is_zero (f_of_Z 10) = false ->
  exists j sums, buildPmcJson (mkTimeline t 0 (IdInt 1) [step "A" 10 0; step "B" 0 0]%string (Some (step "end"%string 10 0)) None) z = Ok (j, sums) /\
  od_get String.eqb "1" (pj_labels j) = Some "A#1"%string.
Proof. intros step Hz. eexists _, _. split; [unfold buildPmcJson, pmc_sums; cbn; unfold py_div; rewrite Hz; cbn; reflexivity|reflexivity]. Qed.
