(* ===== verification/Commands.v ===== *)
(** * Commands of a notebook

    Models jupyter/commands.py: the queries, plots and comparisons of the shell.  What a command
    displays is a list of [Shown]; the markup of tables and plots is that of [Report] and [Plot].

    [global] is what [context.profiles] gives ([Loading]); the profiles a command is given come
    first, when there are any. *)

From S2P Require Import Prelude PyStr Probe Route Txn Aggregate Timeline Conflate Rebuild Analyze Profiles TimelineTree Filled Report Plot Loading.

Section Commands.
Context {F : Type} {HF : PyFloat F} {R : Type}.
Context (numpy : list (Delta F) -> NumpyStats (F := F)).
Context (getTopdownMetrics : string -> list TopdownKey -> result (option (TopdownMetrics F))).

Inductive ErrorText := NoTransaction | InvalidTransactions | NotComparable | OneSided | NoMatch | Usage.
Inductive Shown :=
  | ShownError (e : ErrorText)
  | ShownFlot (l : list (Flot (F := F)))
  | ShownStats (s : StatsReport (F := F))
  | ShownDiff (t : DiffTable (F := F))
  | ShownTxnPlot (p : result (PlotNode F))
  | ShownPmcPlot (p : result (option (PmcJson F * list (string * option Z) * F)))
  | ShownTable (script : option (string * nat * nat)) (t : TimelineTable (F := F)).

Section Session.
Context (global : result (option (Profiles F R))).

(** [profiles if profiles else globalProfile()], where [None] has no items. *)
Definition given_profiles (profiles : option (Profiles F R)) : result (option (Profiles F R)) :=
  if truthy_profiles profiles then Ok profiles else global.

Definition some_profiles (profiles : option (Profiles F R)) : result (Profiles F R) := or_raise TypeError_ profiles.

(** [Probe(probeName, probeName)]. *)
Definition point_probe (name : string) : result Probe := Probe_init CProbe name (Some name).

(** [conflate]; [None] after an error message. *)
Definition conflate (ps : option (Profiles F R)) (routePoints : list string) : result (option (Profile F)) :=
  ps ← given_profiles ps;
  match routePoints with
  | [_] => Ok None
  | _ =>
      route ← (match routePoints with
               | [] => ps ← some_profiles ps; p ← py_nth (profiles _ ps) 0; Ok (ts_route (p_current p))
               | _ => probes ← mmap point_probe routePoints; Ok (Route_init probes)
               end);
      ps ← some_profiles ps;
      p ← conflateProfiles getTopdownMetrics (profiles _ ps) route "";
      Ok (match timelineCollection (p_current p) with [] => None | _ => Some p end)
  end.

Definition routes : result (list Route) :=
  ps ← global; ps ← some_profiles ps; Ok ((fun p => ts_route (p_current p)) <$> profiles _ ps).

(** A timeline without points is false. *)
Definition truthy_timeline (o : option (Timeline F)) : option (Timeline F) :=
  match o with Some tl => match tl_points tl with [] => None | _ => Some tl end | None => None end.

Inductive PlotArg := PlotTxn (txnId : Z) | PlotRoute (routePoints : list string).

Definition plot (fuel : nat) (uid : string) (arg : PlotArg) (ps : option (Profiles F R)) : result (list Shown) :=
  match arg with
  | PlotTxn txnId =>
      ps ← given_profiles ps;
      ps ← some_profiles ps;
      match truthy_timeline (locateTimeline ps (IdInt txnId)) with
      | Some tl => Ok (ShownTxnPlot (buildTxnPlot fuel tl) ::
                       match ps_pmcNames ps with Some (_ :: _) => [ShownPmcPlot (buildPmcPlot tl)] | _ => [] end)
      | None => Ok [ShownError NoTransaction]
      end
  | PlotRoute routePoints =>
      p ← conflate ps routePoints;
      match p with
      | Some p => l ← buildBenchmarkFlot (ts_category (p_current p)) (p_current p) (p_benchmarks p) uid; Ok [ShownFlot l]
      | None => Ok []
      end
  end.

Definition stat (routePoints : list string) (ps : option (Profiles F R)) : result (list Shown) :=
  p ← conflate ps routePoints;
  match p with
  | Some p => s ← buildStatsTable numpy (ts_category (p_current p)) (p_current p) (p_benchmarks p); Ok [ShownStats s]
  | None => Ok []
  end.

(** ** Differences *)

(** [lhs.txn.route]. *)
Definition timeline_route (tl : Timeline F) : result Route := ix ← or_raise AttributeError_ (tindex (tl_txn tl)); Ok (iroute ix).

(** The longer timeline first; of two of one length, the second. *)
Definition longer_first (a b : Timeline F) : Timeline F * Timeline F :=
  if (length (tl_points b) <? length (tl_points a))%nat then (a, b) else (b, a).

Definition diffTxn (lhs rhs : TxnId) (ps : Profiles F R) : result (list Shown) :=
  match truthy_timeline (locateTimeline ps lhs), truthy_timeline (locateTimeline ps rhs) with
  | Some a, Some b =>
      let '(l, r) := longer_first a b in
      from ← timeline_route l;
      to ← timeline_route r;
      match conflateRoutes from to with
      | Some ((_ :: _) as routeIndices) =>
          first ← or_raise AttributeError_ (head (profiles _ ps));
          let cur := p_current first in
          topdownMetrics ← getTopdownMetrics (cpuId (ts_cpuInfo cur)) (rtopdownKeys (deltaSeriesRepo cur));
          conflated ← conflateTimeline (buildEventsMap (deltaSeriesRepo cur)) topdownMetrics l routeIndices;
          t ← buildDiffTable conflated r;
          Ok [ShownDiff t]
      | _ => Ok [ShownError NotComparable]
      end
  | None, None => Ok [ShownError InvalidTransactions]
  | _, _ => Ok [ShownError NoTransaction]
  end.

(** [filter] and [TimelineFilter.apply]: of the profiles of the session, whatever a command is given. *)
Definition filter_profiles (predicate : Timeline F -> bool) : result (Profiles F R) :=
  ps ← global; ps ← or_raise AttributeError_ ps; apply predicate ps.

(** Items of a list argument: a number, or anything else. *)
Definition DiffItem := option Z.
Definition item_ids (l : list DiffItem) : option (list Z) := mapM (M := option) id l.
Definition id_in (ids : list Z) (tl : Timeline F) : bool := bool_decide (tl_txnId tl ∈ IdInt <$> ids).

(** One route of the left side against the right side. *)
Definition diff_profile (rhsProfiles : Profiles F R) (ps : option (Profiles F R)) (category : string) (p : Profile F) : result (list Shown) :=
  rhsProfile ← conflateProfiles getTopdownMetrics (profiles _ rhsProfiles) (ts_route (p_current p)) category;
  match timelineCollection (p_current rhsProfile), timelineCollection (p_current p) with
  | [r], [l] => ps ← some_profiles ps; diffTxn (tl_txnId l) (tl_txnId r) ps
  | _ :: _, _ => s ← buildStatsTable numpy category (p_current p) [(category, p_current rhsProfile)]; Ok [ShownStats s]
  | [], _ => Raise AttributeError_      (* rhs.current: rhs is the list of ids *)
  end.

(** Locating a transaction in no profiles raises, which is caught like the failure to find it. *)
Definition locatable (ps : option (Profiles F R)) (t : Z) : bool :=
  match ps with Some ps => bool_decide (is_Some (locateTimeline ps (IdInt t))) | None => false end.

Definition diffTxns (lhs rhs : list DiffItem) (ps : option (Profiles F R)) : result (list Shown) :=
  match item_ids lhs, item_ids rhs with
  | Some lhs, Some rhs =>
      if forallb (locatable ps) (lhs ++ rhs) then
        lhsProfiles ← filter_profiles (id_in lhs);
        rhsProfiles ← filter_profiles (id_in rhs);
        l ← mmap (fun '(i, p) => diff_profile rhsProfiles ps (String.append "Route #" (print_int 10 (Z.of_nat i))) p)
              (imap pair (profiles _ lhsProfiles));
        Ok (concat l)
      else Ok [ShownError InvalidTransactions]
  | _, _ => Ok [ShownError Usage]
  end.

Inductive DiffArg := OneTxn (t : Z) | TxnList (l : list DiffItem) | OtherArg.
(** [[x] if x is not a list]. *)
Definition as_list (a : DiffArg) : list DiffItem := match a with OneTxn t => [Some t] | TxnList l => l | OtherArg => [None] end.

Definition diff (lhs rhs : DiffArg) (ps : option (Profiles F R)) : result (list Shown) :=
  ps ← given_profiles ps;
  match lhs, rhs with
  | OneTxn l, OneTxn r => ps ← some_profiles ps; diffTxn (IdInt l) (IdInt r) ps
  | TxnList _, _ | _, TxnList _ => diffTxns (as_list lhs) (as_list rhs) ps
  | _, _ => Ok [ShownError Usage]
  end.

(** ** Collections of transactions *)

(** [txns]: a [Txns] of the conflated profile, which may be none. *)
Definition txns (routePoints : list string) (ps : option (Profiles F R)) : result (option (Profile F)) := conflate ps routePoints.

(** The steps of a timeline: all points but the last. *)
Definition step_points (tl : Timeline F) : list (TimePoint F) := take (length (tl_points tl) - 1) (tl_points tl).

(** [toDataFrameDict]. *)
Definition toDataFrameDict (p : Profile F) : list (string * list F) :=
  foldl (fun d tp => od_set String.eqb (tp_name tp) (default [] (od_get String.eqb (tp_name tp) d) ++ [tp_duration tp]) d)
    [] (timelineCollection (p_current p) ≫= step_points).

(** [Txns.__repr__]. *)
Definition show_txns (uid : string) (p : option (Profile F)) : result (list Shown) :=
  match p with
  | None => Ok []
  | Some p =>
      let cur := p_current p in
      script ← (if isEventsEnabled cur then buildPmuScript (timelineCollection cur) uid else Ok None);
      t ← buildTimelineTable cur (rprobes (ts_route cur)) Chronological 1000 uid false false false;
      Ok [ShownTable script t]
  end.

(** The methods of [FilteredProfiles]; only [txns] looks whether there are any. *)
Definition filtered_plot (fuel : nat) (uid : string) (ps : Profiles F R) (routePoints : list string) : result (list Shown) :=
  plot fuel uid (PlotRoute routePoints) (Some ps).
Definition filtered_stat (ps : Profiles F R) (routePoints : list string) : result (list Shown) := stat routePoints (Some ps).
Definition filtered_txns (ps : Profiles F R) (routePoints : list string) : result (option (Profile F) * list Shown) :=
  if truthy_profiles (Some ps) then p ← txns routePoints (Some ps); Ok (p, [])
  else Ok (None, [ShownError NoMatch]).
End Session.
End Commands.

(** ** The difference of two transactions is shown *)

Section DiffShown.
Context {F : Type} {HF : PyFloat F} {R : Type} (n : nat) (emap : option (list (string * nat))).

Lemma merge_pmcs_total l ss : length l = n -> length ss = n ->
  exists l', merge_pmcs (Some l) (Some ss) = Ok (Some l') /\ length l' = n.
Proof.
  intros Hl Hss. unfold merge_pmcs.
  match goal with |- context [mfor ?f ?d ?k] =>
    destruct (mfor_safe f (fun o => exists l : list (option Z), o = Some l /\ length l = n) d k) as (o & -> & l' & -> & Hl') end; [|by exists l|by exists l'].
  intros o [k s] Hin (l1 & -> & Hl1). destruct s as [y|]; [|by exists (Some l1); split; [|exists l1]].
  apply list_elem_of_lookup in Hin as [i Hi]. rewrite list_lookup_imap in Hi. destruct (ss !! i) as [z|] eqn:E; [|done]. injection Hi as <- <-.
  apply lookup_lt_Some in E. destruct (lookup_lt_is_Some_2 l1 i) as [x Hx]; [lia|]. cbn [or_raise mbind result_bind]. unfold py_nth. rewrite Hx.
  cbn [or_raise mbind result_bind]. eexists. split; [reflexivity|]. eexists. split; [reflexivity|]. by rewrite length_insert.
Qed.

Lemma merge_step dst src : step_of n dst -> step_of n src -> exists d, merge_point dst src = Ok d /\ step_of n d.
Proof.
  intros [Ht Hd] [_ Hs]. unfold merge_point, step_of. destruct n as [|m] eqn:E.
  - rewrite Hs. cbn [merge_pmcs mbind result_bind]. eexists. split; [reflexivity|]. done.
  - destruct Hd as (l & -> & Hl), Hs as (ss & -> & Hss). rewrite <- E in Hl, Hss. destruct (merge_pmcs_total l ss Hl Hss) as (l' & -> & Hl').
    cbn [mbind result_bind]. eexists. split; [reflexivity|]. cbn. split; [done|]. exists l'. by rewrite -E.
Qed.

(** A conflated point, when every point but the last is a step. *)
Lemma conflatePoint_step pts final b e : Forall (step_of n) pts -> (b <= length pts)%nat -> (e <= length pts \/ e <= S b)%nat ->
  exists p, conflatePoint emap None (pts ++ [final]) b e = Ok p /\ ((b < e <= length pts)%nat -> step_of n p).
Proof.
  intros Hp Hb He. unfold conflatePoint. destruct (lookup_lt_is_Some_2 (pts ++ [final]) b) as [s Hs]; [rewrite length_app; cbn; lia|].
  rewrite (proj2 (py_nth_Ok _ b s) Hs). cbn [mbind result_bind]. set (dst := mkTimePoint _ _ _ _ _ _ _).
  destruct (decide (b < e <= length pts)%nat) as [Hin|Hout].
  - rewrite lookup_app_l in Hs; [lia|]. rewrite Forall_lookup in Hp.
    assert (Hdst : step_of n dst).
    { destruct (Hp b s Hs) as [Ht Hd]. split; [done|]. cbn. destruct n; [by rewrite Hd|]. destruct Hd as ([|d ds] & -> & Hl); [done|]. by eexists. }
    edestruct (mfor_safe (fun dst j => sj ← py_nth (pts ++ [final]) j; merge_point dst sj) (step_of n) dst (seq (S b) (e - S b))) as (p & -> & Hstep); [|done|].
    { intros d j Hj Hd. apply elem_of_seq in Hj. destruct (lookup_lt_is_Some_2 pts j) as [sj Hsj]; [lia|].
      rewrite (proj2 (py_nth_Ok _ j sj)); [by rewrite lookup_app_l; [lia|]|]. apply merge_step; [done|exact (Hp j sj Hsj)]. }
    exists p. split; [done|by intros _].
  - replace (e - S b)%nat with 0%nat by lia. cbn [seq mfor mbind result_bind recompute]. exists dst. split; [done|]. intros H. lia.
Qed.

(** A conflated timeline has steps and a last point. *)
Lemma conflateTimepoints_steps pts final indices : Forall (step_of n) pts -> indices <> [] ->
  (forall k j, indices !! k = Some j -> (j <= length pts)%nat) ->
  (forall k k' j j', (k < k')%nat -> indices !! k = Some j -> indices !! k' = Some j' -> (j < j')%nat) ->
  exists qs q, conflateTimepoints emap None (pts ++ [final]) indices = Ok (qs ++ [q]) /\ Forall (step_of n) qs /\ S (length qs) = length indices.
Proof.
  intros Hp Hne Hlt Hinc. unfold conflateTimepoints.
  assert (Hpoint : forall i b, indices !! i = Some b -> exists p,
    conflatePoint emap None (pts ++ [final]) b (default (S b) (indices !! S i)) = Ok p /\ (is_Some (indices !! S i) -> step_of n p)).
  { intros i b Hi. pose proof (Hlt i b Hi) as Hb. destruct (indices !! S i) as [e|] eqn:E; cbn [default].
    - destruct (conflatePoint_step pts final b e Hp Hb) as (p & Hc & Hs); [left; exact (Hlt _ _ E)|]. exists p. split; [exact Hc|].
      intros _. apply Hs. split; [exact (Hinc i (S i) b e ltac:(lia) Hi E)|exact (Hlt _ _ E)].
    - destruct (conflatePoint_step pts final b (S b) Hp Hb) as (p & Hc & _); [by right|]. exists p. split; [exact Hc|]. by intros [? ?]. }
  mmap_ok ys.
  { intros [i b] Hin. apply list_elem_of_lookup in Hin as [k Hk]. rewrite list_lookup_imap in Hk.
    destruct (indices !! k) eqn:E; [|done]. injection Hk as <- <-. destruct (Hpoint _ _ E) as (p & Hc & _). by exists p. }
  pose proof (mmap_Ok_length _ _ _ Hys) as Hlen. rewrite length_imap in Hlen.
  destruct ys as [|q qs _] using rev_ind; [by destruct indices|]. exists qs, q. split; [done|].
  rewrite length_app Nat.add_1_r in Hlen. split; [|done]. apply Forall_lookup. intros i p Hi.
  destruct (lookup_lt_is_Some_2 indices i) as [b Hb]; [apply lookup_lt_Some in Hi; lia|].
  destruct (mmap_Ok_lookup _ _ _ i (i, b) Hys) as (p' & Hp' & Hc); [by rewrite list_lookup_imap Hb|].
  rewrite lookup_app_l in Hp'; [by apply lookup_lt_Some in Hi|]. rewrite Hi in Hp'. injection Hp' as <-.
  destruct (Hpoint i b Hb) as (p' & Hc' & Hs). cbn beta iota in Hc. rewrite Hc in Hc'. injection Hc' as <-. apply Hs.
  apply lookup_lt_is_Some_2. apply lookup_lt_Some in Hi. lia.
Qed.

(** A timeline with a point for every probe of its transaction's route. *)
Definition diffable (tl : Timeline F) : Prop :=
  (exists ix, tindex (tl_txn tl) = Some ix /\ route_len (iroute ix) = length (tl_points tl)) /\ counters (tl_txn tl) <> [] /\
  is_Some (tl_endpoint tl) /\ exists pts final, tl_points tl = pts ++ [final] /\ Forall (step_of n) pts.

Lemma conflateTimeline_steps tl from to indices :
  diffable tl -> timeline_route tl = Ok from -> conflateRoutes from to = Some indices -> indices <> [] ->
  exists tl' qs q, conflateTimeline emap None tl indices = Ok tl' /\ tl_points tl' = qs ++ [q] /\ Forall (step_of n) qs /\
    S (length qs) = length indices.
Proof.
  intros ((ix & Hix & Hlen) & Hc & _ & pts & final & Hp & Hs) Hr Hi Hne. unfold timeline_route in Hr. rewrite Hix in Hr. injection Hr as <-.
  destruct (conflate_embeds _ _ _ Hi) as (_ & Hin & Hinc). rewrite Hp length_app /= in Hlen.
  unfold conflateTimeline, Timeline_init. destruct (counters (tl_txn tl)) as [|c cs] eqn:Ec; [done|].
  cbn [py_nth or_raise mbind result_bind]. rewrite Hp.
  destruct (conflateTimepoints_steps pts final indices Hs Hne) as (qs & q & -> & Hq & Hql); [|done|].
  { intros k j Hj. pose proof (proj1 (Hin k j Hj)). lia. }
  cbn [mbind result_bind]. rewrite length_app Nat.add_sub.
  assert (Hends : exists e x, conflateTimepoints emap None (qs ++ [q]) [0%nat; length qs] = Ok (e :: x)).
  { unfold conflateTimepoints. cbn [imap mmap]. cbn [lookup list_lookup default compose].
    destruct (conflatePoint_step qs q 0 (length qs) Hq ltac:(lia) ltac:(by left)) as (e & He & _). cbn. rewrite He. cbn [mbind result_bind].
    destruct (conflatePoint_step qs q (length qs) (S (length qs)) Hq ltac:(lia) ltac:(by right)) as (e2 & He2 & _). rewrite He2. cbn [mbind result_bind].
    by eexists _, _. }
  destruct Hends as (e & x & ->). cbn [mbind result_bind py_nth or_raise lookup list_lookup]. eexists _, qs, q. split; [reflexivity|]. done.
Qed.

Lemma buildDiffTable_steps l r qs q pts final : tl_points l = qs ++ [q] -> Forall (step_of n) qs ->
  tl_points r = pts ++ [final] -> Forall (step_of n) pts -> length qs = length pts -> is_Some (tl_endpoint r) ->
  exists t, buildDiffTable l r = Ok t /\ length (df_rows t) = length pts.
Proof.
  intros Hl Hq Hr Hp Hlen [e He]. unfold buildDiffTable, buildDiffTableHeader. rewrite He. cbn [or_raise mbind result_bind].
  rewrite Hl length_app Nat.add_sub Hlen. mmap_ok rows.
  - intros i Hi. apply elem_of_seq in Hi. unfold diff_row. rewrite Hl Hr.
    destruct (lookup_lt_is_Some_2 pts i) as [a Ha]; [lia|]. destruct (lookup_lt_is_Some_2 qs i) as [b Hb]; [lia|].
    destruct (lookup_lt_is_Some_2 (pts ++ [final]) (S i)) as [c Hc]; [rewrite length_app /=; lia|].
    rewrite (proj2 (py_nth_Ok (pts ++ [final]) i a)); [by apply lookup_app_l_Some|]. rewrite (proj2 (py_nth_Ok _ _ c) Hc).
    rewrite (proj2 (py_nth_Ok (qs ++ [q]) i b)); [by apply lookup_app_l_Some|]. cbn [mbind result_bind].
    rewrite !Forall_lookup in Hp, Hq. destruct (Hp i a Ha) as [Hta Hda], (Hq i b Hb) as [_ Hdb]. unfold diff_pmcs, diff_topdown. rewrite Hta. destruct n as [|m] eqn:En.
    + rewrite Hda. cbn. by eexists.
    + destruct Hda as (ds & -> & Hds), Hdb as (ls & -> & Hls). cbn [default imap mmap]. mmap_ok cells; [|by eexists].
      intros [j d] Hj%imap_pair_elem. change (ds !! j = Some d) in Hj. apply lookup_lt_Some in Hj. destruct (lookup_lt_is_Some_2 ls j) as [x Hx]; [lia|].
      cbn [or_raise mbind result_bind]. rewrite (proj2 (py_nth_Ok ls j x) Hx). by eexists.
  - eexists. split; [reflexivity|]. cbn. by rewrite (mmap_Ok_length _ _ _ Hys) length_seq.
Qed.
End DiffShown.

Lemma locate_member {F R} (ps : Profiles F R) id tl : locateTimeline ps id = Some tl ->
  exists p, p ∈ profiles _ ps /\ tl ∈ timelineCollection (p_current p).
Proof.
  unfold locateTimeline. intros H. apply head_Some_elem_of, list_elem_of_filter in H as [_ H].
  apply list_elem_of_bind in H as (p & H1 & H2). by exists p.
Qed.

(** What comparing two transactions shows: an error when one is not found; otherwise, with the longer
    timeline first, a table with a row for every step of the shorter one when the route of the longer
    conflates to the route of the shorter, and an error when it does not. *)
Definition diff_spec {F R} (ps : Profiles F R) (lhs rhs : TxnId) (shown : Shown (F := F)) : Prop :=
  match locateTimeline ps lhs, locateTimeline ps rhs with
  | Some a, Some b =>
      let '(l, r) := longer_first a b in
      exists from to, timeline_route l = Ok from /\ timeline_route r = Ok to /\
      if truthy_indices (conflateRoutes from to)
      then exists t, shown = ShownDiff t /\ length (df_rows t) = (length (tl_points r) - 1)%nat
      else shown = ShownError NotComparable
  | None, None => shown = ShownError InvalidTransactions
  | _, _ => shown = ShownError NoTransaction
  end.

Definition diffable_profile {F} (n : nat) (p : Profile F) : Prop :=
  Forall (diffable n) (timelineCollection (p_current p)) /\ rtopdownKeys (deltaSeriesRepo (p_current p)) = [].

Lemma diffTxn_shown {F} {HF : PyFloat F} {R} getTopdownMetrics (ps : Profiles F R) n lhs rhs :
  (forall cpu, getTopdownMetrics cpu [] = Ok None) -> Forall (diffable_profile n) (profiles _ ps) ->
  exists shown, diffTxn getTopdownMetrics lhs rhs ps = Ok [shown] /\ diff_spec ps lhs rhs shown.
Proof.
  intros Htd Hps. assert (Hwf : forall id tl, locateTimeline ps id = Some tl -> diffable n tl).
  { intros id tl H. destruct (locate_member ps id tl H) as (p & Hp & Htl). rewrite Forall_forall in Hps.
    destruct (Hps p Hp) as [Hall _]. rewrite Forall_forall in Hall. exact (Hall tl Htl). }
  assert (Htruthy : forall id, truthy_timeline (locateTimeline ps id) = locateTimeline ps id).
  { intros id. destruct (locateTimeline ps id) as [tl|] eqn:E; [|done]. destruct (Hwf id tl E) as (_ & _ & _ & pts & f & Hp & _).
    cbn. by rewrite Hp; destruct pts. }
  unfold diffTxn, diff_spec. rewrite !Htruthy. destruct (locateTimeline ps lhs) as [a|] eqn:Ea, (locateTimeline ps rhs) as [b|] eqn:Eb; try by eexists.
  assert (Hlr : diffable n (longer_first a b).1 /\ diffable n (longer_first a b).2).
  { unfold longer_first. destruct (_ <? _)%nat; split; cbn; eauto. }
  destruct (longer_first a b) as [l r]. cbn [fst snd] in Hlr. destruct Hlr as [Hl Hr].
  destruct Hl as ((ixl & Hixl & Hll) & Hlrest). destruct Hr as ((ixr & Hixr & Hlr) & Hrc & Hre & pts & final & Hrp & Hrs).
  assert (Hfrom : timeline_route l = Ok (iroute ixl)) by (unfold timeline_route; by rewrite Hixl).
  assert (Hto : timeline_route r = Ok (iroute ixr)) by (unfold timeline_route; by rewrite Hixr).
  rewrite Hfrom Hto. cbn [mbind result_bind]. destruct (conflateRoutes (iroute ixl) (iroute ixr)) as [[|i0 idx]|] eqn:Ec.
  1, 3: by eexists; split; [reflexivity|]; exists (iroute ixl), (iroute ixr); rewrite Ec.
  destruct (locate_member ps lhs a Ea) as (p0 & Hp0 & _). destruct (profiles _ ps) as [|p ps'] eqn:Eps; [by apply not_elem_of_nil in Hp0|].
  cbn [head or_raise mbind result_bind]. apply Forall_cons in Hps as [[_ Hkeys] _]. rewrite Hkeys Htd. cbn [mbind result_bind].
  destruct (conflateTimeline_steps n (buildEventsMap (deltaSeriesRepo (p_current p))) l _ _ _ (conj (ex_intro _ ixl (conj Hixl Hll)) Hlrest) Hfrom Ec) as (tl' & qs & q & -> & Hq & Hqs & Hql); [done|].
  cbn [mbind result_bind]. pose proof (conflateRoutes_length _ _ _ Ec) as Hci. rewrite Hrp length_app /= in Hlr.
  destruct (buildDiffTable_steps n tl' r qs q pts final Hq Hqs Hrp Hrs) as (t & -> & Ht); [lia|done|].
  cbn [mbind result_bind]. eexists. split; [reflexivity|]. exists (iroute ixl), (iroute ixr). rewrite Ec. split_and!; [done|done|].
  cbn. exists t. split; [done|]. rewrite Ht Hrp length_app /=. lia.
Qed.

(** ** The profiles of a session can be compared *)

(** No two routes of the transactions share a hash: a dict of routes tells them apart by nothing else. *)
Definition hash_separates `{RouteHash} (ts : list Transaction) : Prop :=
  forall x y r q, x ∈ ts -> y ∈ ts -> txn_route x = Some r -> txn_route y = Some q -> route_keq r q = true -> rpoints r = rpoints q.

Section SessionDiff.
Context {F : Type} {HF : PyFloat F} {HH : RouteHash} {R : Type}.

Lemma session_diffable name cur benchs cl conf ps : NoDup benchs.*1 ->
  Forall listed (txnMap cur).*2 -> hash_separates (txnMap cur).*2 -> reportable (tc_meta cur) -> m_topdown (tc_meta cur) = None ->
  generateProfiles (F := F) name cur benchs cl conf = Ok ps -> Forall (diffable_profile (length (m_events (tc_meta cur)))) ps.
Proof.
  intros Hnd Hl Hsep Hm Hno H. apply Forall_forall. intros p Hp.
  destruct (profile_origin _ _ _ _ _ _ p Hnd H Hp) as (k & route & rps & Hrps & (x & Hx & Hroute) & Hs & _).
  apply mapReportProbes_length in Hrps. set (own := on_route _ _) in *.
  assert (Hown : forall y, y ∈ own -> y ∈ (txnMap cur).*2 /\ oroute_keq (Some route) (txn_route y) = true).
  { intros y Hy. unfold own, on_route, in_category in Hy. apply list_elem_of_filter in Hy as [Hk Hy]. by apply list_elem_of_filter in Hy as [_ Hy]. }
  assert (Hlen : route_len route = length rps).
  { rewrite Hrps. rewrite Forall_forall in Hl. exact (proj2 (Hl x (proj1 (Hown x Hx))) route Hroute). }
  destruct (stats_ready k route rps (mkSubCollection (tc_meta cur) own) (p_current p) Hlen Hm) as (_ & _ & Htl & Hmade & Hkeys); [|done|].
  { cbn. intros E. rewrite E in Hx. by apply not_elem_of_nil in Hx. }
  cbn [sc_meta transactions] in *. split; [|rewrite Hkeys; unfold topdown_keys; by rewrite Hno].
  apply Forall_lookup. intros i tl Hi. destruct (Forall2_lookup_r _ _ _ _ _ Hmade Hi) as (t & Ht & Htxn & _ & Hpts & Hc & Hsteps).
  apply list_elem_of_lookup_2 in Ht. destruct (Hown t Ht) as [Hin Hkeq]. unfold txn_route in Hkeq.
  destruct (tindex t) as [ix|] eqn:Eix; [|done]. cbn [fmap option_fmap option_map oroute_keq] in Hkeq.
  rewrite Forall_lookup in Htl. destruct (Htl i tl Hi) as (_ & (e & He & _) & _). split_and!; [|by rewrite Htxn|by rewrite He|by apply Hsteps].
  exists ix. rewrite Htxn. split; [done|]. rewrite Hpts. unfold route_len.
  assert (Hr : rpoints route = rpoints (iroute ix)); [|by rewrite Hr].
  apply (Hsep x t); [exact (proj1 (Hown x Hx))|done|done|unfold txn_route; by rewrite Eix|done].
Qed.

End SessionDiff.

(** ** Queries *)

Section Queries.
Context {F : Type} {HF : PyFloat F} {R : Type} (numpy : list (Delta F) -> NumpyStats (F := F)).
Context (getTopdownMetrics : string -> list TopdownKey -> result (option (TopdownMetrics F))).
Context (global : result (option (Profiles F R))).

(** The statistics and plots of a filter that nothing passed are those of the whole session; its
    transactions are none. *)
Theorem empty_filter_ignored (ps : Profiles F R) routePoints fuel uid : profiles _ ps = [] ->
  filtered_stat numpy getTopdownMetrics global ps routePoints = stat numpy getTopdownMetrics global routePoints None /\
  filtered_plot getTopdownMetrics global fuel uid ps routePoints = plot getTopdownMetrics global fuel uid (PlotRoute routePoints) None /\
  filtered_txns getTopdownMetrics global ps routePoints = Ok (None, [ShownError NoMatch]).
Proof.
  intros E. assert (Hg : given_profiles global (Some ps) = given_profiles global None).
  { unfold given_profiles. cbn. by rewrite E. }
  unfold filtered_stat, filtered_plot, filtered_txns, stat, plot, conflate. rewrite !Hg. cbn [truthy_profiles]. by rewrite E.
Qed.

(** A route of the left side that none of the right side conflates to raises instead of telling so. *)
Theorem one_sided_raises (rhs : Profiles F R) ps category p q :
  conflateProfiles getTopdownMetrics (profiles _ rhs) (ts_route (p_current p)) category = Ok q ->
  timelineCollection (p_current q) = [] -> diff_profile numpy getTopdownMetrics rhs ps category p = Raise AttributeError_.
Proof. intros H E. unfold diff_profile. rewrite H. cbn [mbind result_bind]. by rewrite E. Qed.

(** The columns of a data frame: the durations of the steps of each name, in order. *)
Theorem toDataFrameDict_spec (p : Profile F) name :
  let durations := tp_duration <$> filter (fun tp => tp_name tp = name) (timelineCollection (p_current p) ≫= step_points) in
  od_get String.eqb name (toDataFrameDict p) = match durations with [] => None | _ => Some durations end.
Proof.
  cbn zeta. unfold toDataFrameDict. induction (timelineCollection (p_current p) ≫= step_points) as [|tp l IH] using rev_ind; [done|].
  rewrite foldl_app filter_app fmap_app. cbn [foldl]. rewrite od_get_set. destruct (String.eqb_spec (tp_name tp) name) as [E|E].
  - rewrite E IH filter_cons filter_nil decide_True //. cbn. by destruct (tp_duration <$> _).
  - rewrite IH filter_cons filter_nil decide_False //. cbn. by rewrite app_nil_r.
Qed.
End Queries.

(** *** Example: a route with a probe more *)

#[local] Instance ex_cm_float : PyFloat Z := ex_rp_float.
#[local] Instance ex_cm_hash : RouteHash := fun ps => Z.of_nat (length ps).

Definition ex_cm_meta : Meta Z :=
  mkMeta "current run" (mkCpuInfo "cpu" 2000000000 2) [ex_named "a"; ex_named "m"; ex_named "b"] None [mkEvent "cycles" "CPU_CLK" true true].
Definition ex_cm_current : TxnCollection (Meta Z) :=
  match finalize_all [] ((fun p => (IdInt p.1, mkTransaction (IdInt p.1) p.2 None None None true)) <$>
      [(1, [ex_rp_hit "a" 10 1; ex_rp_hit "b" 20 3]); (2, [ex_rp_hit "a" 30 5; ex_rp_hit "m" 40 6; ex_rp_hit "b" 70 9])]) with
  | Ok (txns, _) => mkCollection ex_cm_meta txns
  | Raise _ => mkCollection ex_cm_meta []
  end.
Definition ex_cm_profiles : list (Profile Z) :=
  match generateProfiles "demo" ex_cm_current [] DefaultClassifier Off with Ok ps => ps | Raise _ => [] end.

Definition diff_rows (s : Shown (F := Z)) : nat := match s with ShownDiff t => length (df_rows t) | _ => 0 end.

