(* ===== verification/Base64.v ===== *)
(** * Base64

    The text form of compressed data: [compressText] of util/__init__.py ends with b64encode, and
    the handler of jupyter's server undoes it with b64decode.  Characters and bytes are numbers. *)

From S2P Require Import Prelude.

Definition b64_char (v : Z) : Z :=
  if v <? 26 then 65 + v else if v <? 52 then 71 + v else if v <? 62 then v - 4 else if v =? 62 then 43 else 47.
Definition b64_val (c : Z) : option Z :=
  if ((65 <=? c) && (c <=? 90))%bool then Some (c - 65)
  else if ((97 <=? c) && (c <=? 122))%bool then Some (c - 71)
  else if ((48 <=? c) && (c <=? 57))%bool then Some (c + 4)
  else if c =? 43 then Some 62 else if c =? 47 then Some 63 else None.
Definition PAD : Z := 61.

(** Three bytes are four characters. *)
Fixpoint b64encode (data : list Z) : list Z :=
  match data with
  | a :: b :: c :: data =>
      b64_char (a / 4) :: b64_char (a mod 4 * 16 + b / 16) :: b64_char (b mod 16 * 4 + c / 64) :: b64_char (c mod 64) :: b64encode data
  | [a; b] => [b64_char (a / 4); b64_char (a mod 4 * 16 + b / 16); b64_char (b mod 16 * 4); PAD]
  | [a] => [b64_char (a / 4); b64_char (a mod 4 * 16); PAD; PAD]
  | [] => []
  end.

(** [b64decode]: the place in a group of four characters, the padding seen and the bits that are
    left; other characters are skipped, and enough padding ends the text. *)
Fixpoint decode_from (quad pads : nat) (left : Z) (data : list Z) : result (list Z) :=
  match data with
  | [] => match quad with O => Ok [] | _ => Raise ValueError_ end
  | c :: data =>
      if c =? PAD then
        let pads := if (2 <=? quad)%nat then S pads else pads in
        if ((2 <=? quad)%nat && (4 <=? quad + pads)%nat)%bool then Ok [] else decode_from quad pads left data
      else match b64_val c with
           | None => decode_from quad pads left data
           | Some v =>
               match quad with
               | O => decode_from 1 0 v data
               | 1%nat => cons (left * 4 + v / 16) <$> decode_from 2 0 (v mod 16) data
               | 2%nat => cons (left * 16 + v / 4) <$> decode_from 3 0 (v mod 4) data
               | _ => cons (left * 64 + v) <$> decode_from 0 0 0 data
               end
           end
  end.
Definition b64decode (data : list Z) : result (list Z) := decode_from 0 0 0 data.

Definition byte (b : Z) : Prop := 0 <= b < 256.

Lemma b64_char_spec v : 0 <= v < 64 -> b64_val (b64_char v) = Some v /\ (b64_char v =? PAD) = false.
Proof.
  intros Hv. assert (H : forallb (fun n => (bool_decide (b64_val (b64_char (Z.of_nat n)) = Some (Z.of_nat n)) &&
    negb (b64_char (Z.of_nat n) =? PAD))%bool) (seq 0 64) = true) by (vm_compute; reflexivity).
  rewrite forallb_forall in H. specialize (H (Z.to_nat v)). rewrite Z2Nat.id in H; [lia|].
  apply andb_prop in H as [H1 H2]; [|apply in_seq; lia]. apply bool_decide_eq_true in H1. by apply negb_true_iff in H2.
Qed.

Lemma decode_char quad pads left v data : 0 <= v < 64 ->
  decode_from quad pads left (b64_char v :: data) =
    match quad with
    | O => decode_from 1 0 v data
    | 1%nat => cons (left * 4 + v / 16) <$> decode_from 2 0 (v mod 16) data
    | 2%nat => cons (left * 16 + v / 4) <$> decode_from 3 0 (v mod 4) data
    | _ => cons (left * 64 + v) <$> decode_from 0 0 0 data
    end.
Proof. intros Hv. destruct (b64_char_spec v Hv) as [H1 H2]. cbn [decode_from]. by rewrite H2 H1. Qed.

Ltac quads := unfold byte in *; Z.to_euclidean_division_equations; lia.

Lemma b64_roundtrip data : Forall byte data -> b64decode (b64encode data) = Ok data.
Proof.
  unfold b64decode. enough (H : forall n data, (length data <= n)%nat -> Forall byte data -> decode_from 0 0 0 (b64encode data) = Ok data).
  { exact (H _ data (le_n _)). }
  clear data. induction n as [|n IH]; intros data Hn Hd; [by destruct data; [|cbn in Hn; lia]|].
  destruct data as [|a [|b [|c data]]]; [done|..]; cbn [b64encode];
    repeat match goal with H : Forall byte (_ :: _) |- _ => apply Forall_cons in H as [? H] end.
  - rewrite !decode_char; [quads..|]. cbn. do 2 f_equal. quads.
  - rewrite !decode_char; [quads..|]. cbn. repeat (f_equal; try quads).
  - cbn [length] in Hn. rewrite !decode_char; [quads..|]. rewrite IH; [lia|done|]. cbn. repeat (f_equal; try quads).
Qed.
