(* ===== verification/Notebook.v ===== *)
(** * The notebook of a session

    Models jupyter/result.py and the part of jupyter/driver.py that puts the report of a session in a
    notebook: the data file with the profiles, the snippets and every report, and the cells with
    links to them.  [Zip] is zlib: the bytes it makes of a rendered report, of a text and of the
    snippets; the code around the data of a cell is a template and is left out. *)

From S2P Require Import Prelude PyStr Probe Route Txn Timeline Conflate Histogram Report Base64 Bars DataFile Plot.

(** What zlib makes of what a report, a page of text and the snippets are rendered to. *)
Class Zip (F : Type) := {
  zip_report : ReportDoc (F := F) -> list Z;
  zip_text : string -> list Z;
  zip_snippets : list Snippet -> list Z
}.
Class ZipLaws (F : Type) {HZ : Zip F} := {
  zip_report_bytes r : Forall byte (zip_report r);
  zip_text_bytes t : Forall byte (zip_text t);
  zip_snippets_bytes l : Forall byte (zip_snippets l)
}.

(** [compressText], of the bytes zlib makes. *)
Definition compressText (zipped : list Z) : list Z := b64encode zipped.

Section Notebook.
Context {F : Type} {HF : PyFloat F} {HZ : Zip F} {R : Type}.

(** ** jupyter/result.py *)

Record ZippedMarkup := mkZippedMarkup { z_name : string; z_description : string; zContent : list Z }.
Definition zipped (m : Markup (F := F)) : ZippedMarkup := mkZippedMarkup (mk_name m) (mk_description m) (compressText (zip_report (mk_content m))).

Record Reportcell := mkReportcell { flot : HistogramDoc (F := F); htmlReport : list ZippedMarkup }.

Record Result_ := mkResult {
  rs_runId : Z; rs_profiles : Profiles F R; rs_envReport : ZippedMarkup; rs_reportName : string; rs_reportCells : list Reportcell }.

(** [Result.__init__]; the report of the environment is a text. *)
Definition Result_init (runId : Z) (profiles : Profiles F R) (envName envDescription envContent : string)
    (categories : list (string * Category (F := F) (HistogramDoc (F := F)))) : Result_ :=
  mkResult runId profiles (mkZippedMarkup envName envDescription (compressText (zip_text envContent))) (ps_name _ profiles)
    ((fun c : string * Category (F := F) (HistogramDoc (F := F)) =>
       mkReportcell (ct_histogram _ c.2) (zipped <$> ct_routes _ c.2)) <$> categories).

(** ** jupyter/driver.py *)

(** The objects of the data file; the profiles are a copy without their transactions. *)
Inductive NbObject := NbZip (b : list Z) | NbProfiles (ps : Profiles F (option R)).
Definition xpd_profiles (ps : Profiles F R) : Profiles F (option R) := mkProfiles _ (ps_name _ ps) None (profiles _ ps).

Definition PROFILES_KEY : string := "profiles".
Inductive Action := Init | Load.
Record Link := mkLink { l_reportKey : string; l_action : Action; l_description : string }.
Record NbCell := mkNbCell { nb_title : string; nb_description : string; nb_cellNum : nat; nb_reportNum : nat; nb_links : list Link }.

Definition report_key (n : nat) : string := String.append "report" (print_int 10 (Z.of_nat n)).

(** The body of the loop over the reports of a cell; the state counts all reports. *)
Definition report_link (s : nat * list Link * Factory NbObject) (report : ZippedMarkup) : result (nat * list Link * Factory NbObject) :=
  let '(reportCount, links, xpdf) := s in
  let reportCount := S reportCount in
  xpdf ← appendRecord xpdf (report_key reportCount) "htmlReport" (Object (NbZip (zContent report)));
  Ok (reportCount, links ++ [mkLink (report_key reportCount) Load (z_description report)], xpdf).

(** What the loop over the cells has made: the cells, their plots, the count and the records. *)
Record NbState := mkNbState { nb_cells : list NbCell; d3Flots : list (D3Flot (F := F)); nb_count : nat; nb_table : Factory NbObject }.

(** Without a report there is no number to put in the code of the cell: None + 1. *)
Definition build_cell (s : NbState) (nc : nat * Reportcell) : result NbState :=
  let '(cellNum, cell) := nc in
  d3Flot ← buildD3Flot (flot cell);
  '(count, links, table) ← mfor report_link (nb_count s, [], nb_table s) (htmlReport cell);
  match htmlReport cell with
  | [] => Raise InvariantViloation
  | _ => Ok (mkNbState (nb_cells s ++ [mkNbCell (hd_title (flot cell)) (hd_description (flot cell)) cellNum (length (htmlReport cell)) links])
               (d3Flots s ++ [d3Flot]) count table)
  end.

Context {HO : Pickle NbObject} {HL : Pickle Layout}.

(** The arguments of the snippets: the route and the timelines of every profile. *)
Definition snippet_args (ps : Profiles F (option R)) : list (list (option string) * list (Timeline F)) :=
  (fun p => (rpoints (ts_route (p_current p)), timelineCollection (p_current p))) <$> profiles _ ps.

(** [buildReportCells]: the cells, the number of the last one, the plots, and the data file. *)
Definition buildReportCells (result_ : Result_) : result (list NbCell * option nat * list (D3Flot (F := F)) * list Z) :=
  xpdf ← appendRecord [] "envReport" "environment report" (Object (NbZip (zContent (rs_envReport result_))));
  let xpdProfiles := xpd_profiles (rs_profiles result_) in
  xpdf ← appendRecord xpdf PROFILES_KEY "xpedite profiles" (Object (NbProfiles xpdProfiles));
  snippetData ← buildSnippets (snippet_args xpdProfiles);
  xpdf ← appendRecord xpdf "snippets" "snippets" (Object (NbZip (compressText (zip_snippets snippetData))));
  s ← mfor build_cell (mkNbState [] [] 0 xpdf) (imap pair (rs_reportCells result_));
  let '(_, (file, ended)) := commit (nb_table s) in
  _ ← ended;
  Ok (nb_cells s, match rs_reportCells result_ with [] => None | _ => Some (length (rs_reportCells result_) - 1)%nat end, d3Flots s, file).

(** The first cell of a notebook. *)
Record InitCell := mkInitCell { ic_envLink : Link; ic_appName : string; ic_categoryCount : nat; ic_runId : Z; ic_d3Flots : list (D3Flot (F := F)) }.

Definition buildInitCell (numOfCategories : option nat) (d3Flots : list (D3Flot (F := F))) (appName : string) (runId : Z) : result InitCell :=
  n ← or_raise InvariantViloation numOfCategories;
  Ok (mkInitCell (mkLink "envReport" Load "") appName (n + 1) runId d3Flots).

Record Notebook := mkNotebook { n_init : InitCell; n_cells : list NbCell }.

(** [buildNotebook], up to the writing of the notebook, and the data file. *)
Definition buildNotebook (appName : string) (result_ : Result_) (runId : Z) : result (Notebook * list Z) :=
  '(cells, numOfCategories, d3Flots, file) ← buildReportCells result_;
  init ← buildInitCell numOfCategories d3Flots appName runId;
  Ok (mkNotebook init cells, file).

(** ** Every link has its report *)

Definition report_records (n : nat) (reports : list ZippedMarkup) : list (string * string * Data NbObject) :=
  imap (fun i r => (report_key (n + S i), "htmlReport"%string, Object (NbZip (zContent r)))) reports.

(** The records of a notebook, in the order they are appended. *)
Definition session_records (result_ : Result_) (snippetData : list Snippet) : list (string * string * Data NbObject) :=
  [("envReport", "environment report", Object (NbZip (zContent (rs_envReport result_))));
   (PROFILES_KEY, "xpedite profiles", Object (NbProfiles (xpd_profiles (rs_profiles result_))));
   ("snippets", "snippets", Object (NbZip (compressText (zip_snippets snippetData))))]%string.
Definition notebook_records (result_ : Result_) (snippetData : list Snippet) : list (string * string * Data NbObject) :=
  session_records result_ snippetData ++ report_records 0 (rs_reportCells result_ ≫= htmlReport).

Lemma report_key_inj n m : report_key n = report_key m -> n = m.
Proof. intros E. apply (inj (String.append "report")) in E. apply print_int_inj in E; lia. Qed.

Lemma report_keys n reports : (fst ∘ fst) <$> report_records n reports = (fun i => report_key (n + S i)) <$> seq 0 (length reports).
Proof.
  unfold report_records. apply list_eq. intros i. rewrite !list_lookup_fmap list_lookup_imap.
  destruct (reports !! i) as [r|] eqn:E; cbn.
  - by rewrite lookup_seq_lt; [exact (lookup_lt_Some _ _ _ E)|].
  - rewrite lookup_seq_ge; [by apply lookup_ge_None|done].
Qed.

Lemma notebook_keys result_ sn : NoDup (fst ∘ fst <$> notebook_records result_ sn).
Proof.
  unfold notebook_records. rewrite fmap_app report_keys. apply NoDup_app. split_and!.
  - apply (bool_decide_unpack _). by vm_compute.
  - intros k Hk (i & -> & _)%list_elem_of_fmap. revert Hk. cbn. rewrite !elem_of_cons. intros [E|[E|[E|E]]]; [discriminate E..|by apply elem_of_nil in E].
  - apply NoDup_fmap_2_strong; [|apply NoDup_seq]. intros i j _ _ E%report_key_inj. lia.
Qed.

Lemma report_records_app n a b : report_records n (a ++ b) = report_records n a ++ report_records (n + length a) b.
Proof.
  unfold report_records. rewrite imap_app. f_equal. apply imap_ext. intros i r _. cbn. by rewrite Nat.add_succ_r Nat.add_assoc -Nat.add_succ_r.
Qed.

Lemma report_records_cons n r reports :
  report_records n (r :: reports) = (report_key (S n), "htmlReport"%string, Object (NbZip (zContent r))) :: report_records (S n) reports.
Proof. rewrite -(app_nil_l reports) app_comm_cons report_records_app. unfold report_records at 1. cbn. by rewrite Nat.add_1_r. Qed.

(** A link that describes a report, whose key is that of the report in a data file. *)
Definition link_of (all : list (string * string * Data NbObject)) (l : Link) (r : ZippedMarkup) : Prop :=
  l_description l = z_description r /\ l_action l = Load /\ (l_reportKey l, "htmlReport"%string, Object (NbZip (zContent r))) ∈ all.

Lemma links_loop n links xs reports all : NoDup (fst ∘ fst <$> xs ++ report_records n reports) -> report_records n reports ⊆ all ->
  exists links', mfor report_link (n, links, fresh_table xs) reports =
    Ok ((n + length reports)%nat, links ++ links', fresh_table (xs ++ report_records n reports)) /\ Forall2 (link_of all) links' reports.
Proof.
  revert n links xs. induction reports as [|r reports IH]; intros n links xs Hnd Hall; cbn [mfor].
  { exists []. split; [|constructor]. unfold report_records. cbn. by rewrite !app_nil_r Nat.add_0_r. }
  rewrite report_records_cons in Hnd, Hall |- *.
  assert (Hk : report_key (S n) ∉ (fst ∘ fst <$> xs)).
  { rewrite fmap_app in Hnd. apply NoDup_app in Hnd as (_ & Hd & _). intros Hin. apply (Hd _ Hin). cbn. left. }
  assert (Hs : report_link (n, links, fresh_table xs) r = Ok (S n, links ++ [mkLink (report_key (S n)) Load (z_description r)],
    fresh_table (xs ++ [(report_key (S n), "htmlReport"%string, Object (NbZip (zContent r)))]))).
  { unfold report_link. by rewrite append_fresh. }
  rewrite Hs. cbn [mbind result_bind]. destruct (IH (S n) (links ++ [mkLink (report_key (S n)) Load (z_description r)])
    (xs ++ [(report_key (S n), "htmlReport"%string, Object (NbZip (zContent r)))])) as (links' & -> & Hl).
  { rewrite -app_assoc. exact Hnd. }
  { intros x Hx. apply Hall. right. exact Hx. }
  exists (mkLink (report_key (S n)) Load (z_description r) :: links'). split; [|constructor; [|done]].
  - rewrite -!app_assoc. cbn [length app]. by rewrite Nat.add_succ_r.
  - split_and!; [done|done|]. apply Hall. left.
Qed.

(** A cell that has a report and whose plot can be drawn, and what is made of it. *)
Definition drawable (cell : Reportcell) : Prop := htmlReport cell <> [] /\ exists f, buildD3Flot (flot cell) = Ok f.
Definition cell_made (all : list (string * string * Data NbObject)) (c : NbCell) (cell : Reportcell) : Prop :=
  nb_title c = hd_title (flot cell) /\ nb_reportNum c = length (htmlReport cell) /\ Forall2 (link_of all) (nb_links c) (htmlReport cell).

Lemma cells_loop k cells s xs all : Forall drawable cells -> nb_table s = fresh_table xs ->
  NoDup (fst ∘ fst <$> xs ++ report_records (nb_count s) (cells ≫= htmlReport)) ->
  report_records (nb_count s) (cells ≫= htmlReport) ⊆ all ->
  exists cs fs s', mfor build_cell s (imap (fun i c => ((k + i)%nat, c)) cells) = Ok s' /\
    nb_cells s' = nb_cells s ++ cs /\ d3Flots s' = d3Flots s ++ fs /\
    nb_table s' = fresh_table (xs ++ report_records (nb_count s) (cells ≫= htmlReport)) /\
    Forall2 (cell_made all) cs cells /\ nb_cellNum <$> cs = seq k (length cells) /\
    Forall2 (fun f cell => buildD3Flot (flot cell) = Ok f) fs cells.
Proof.
  intros Hd. revert k s xs. induction Hd as [|cell cells [Hne [f Hf]] _ IH]; intros k s xs Ht Hnd Hall; cbn [imap mfor].
  { exists [], [], s. unfold report_records. cbn. by rewrite !app_nil_r. }
  cbn [mbind list_bind] in Hnd, Hall |- *. rewrite report_records_app in Hnd, Hall |- *. rewrite app_assoc in Hnd.
  destruct (links_loop (nb_count s) [] xs (htmlReport cell) all) as (ls & Hl & Hls).
  { rewrite fmap_app in Hnd. apply NoDup_app in Hnd as [Hnd _]. exact Hnd. }
  { intros x Hx. apply Hall, elem_of_app. by left. }
  set (c := mkNbCell (hd_title (flot cell)) (hd_description (flot cell)) (k + 0) (length (htmlReport cell)) ls).
  set (s1 := mkNbState (nb_cells s ++ [c]) (d3Flots s ++ [f]) (nb_count s + length (htmlReport cell))
    (fresh_table (xs ++ report_records (nb_count s) (htmlReport cell)))).
  assert (Hs : build_cell s ((k + 0)%nat, cell) = Ok s1).
  { unfold build_cell. rewrite Hf. cbn [mbind result_bind]. rewrite Ht Hl. cbn [mbind result_bind]. by destruct (htmlReport cell). }
  rewrite Hs. cbn [mbind result_bind].
  destruct (IH (S k) s1 (xs ++ report_records (nb_count s) (htmlReport cell)) eq_refl) as (cs & fs & s' & Hm & Hc & Hfs & Htab & Hmade & Hnum & Hdraw).
  { exact Hnd. }
  { intros x Hx. apply Hall, elem_of_app. by right. }
  exists (c :: cs), (f :: fs), s'. split_and!.
  - rewrite -Hm. f_equal. apply imap_ext. intros i x _. cbn. f_equal. lia.
  - by rewrite Hc -app_assoc.
  - by rewrite Hfs -app_assoc.
  - by rewrite Htab -app_assoc.
  - by constructor.
  - cbn. by rewrite Hnum Nat.add_0_r.
  - by constructor.
Qed.

Lemma records_get result_ sn k key o : (k, key, Object o) ∈ notebook_records result_ sn ->
  od_get String.eqb k ((fun x => (x.1.1, x.2)) <$> notebook_records result_ sn) = Some (Object o).
Proof.
  pose proof (notebook_keys result_ sn) as Hnd. revert Hnd. generalize (notebook_records result_ sn) as xs.
  induction xs as [|[[k' d] v] xs IH]; intros Hnd Hin; [by apply elem_of_nil in Hin|]. cbn in Hnd |- *. apply NoDup_cons in Hnd as [Hk Hnd].
  apply elem_of_cons in Hin as [[= <- <- <-]|Hin]; [by rewrite String.eqb_refl|].
  destruct (String.eqb_spec k k') as [->|_]; [|by apply IH]. destruct Hk. by apply (list_elem_of_fmap_2 (fst ∘ fst) _ (k', key, Object o)).
Qed.

Context {LL : PickleLaws Layout}.

(** What a reader of the data file gives for a key, wherever it last read. *)
Definition gives (rd : DataReader) (k : string) (o : NbObject) : Prop :=
  forall r, same_file rd r -> exists r', getData r k = Ok (VObject o, r') /\ same_file rd r'.

(** Pickle gives the objects of a data file back. *)
Definition nb_pickled (result_ : Result_) : Prop :=
  (forall b, pickled (Object (NbZip b))) /\ pickled (Object (NbProfiles (xpd_profiles (rs_profiles result_)))).

Lemma notebook_file result_ sn : nb_pickled result_ -> Forall drawable (rs_reportCells result_) -> buildSnippets (snippet_args (xpd_profiles (rs_profiles result_))) = Ok sn ->
  Z.of_nat (length (dumps (build_layout (fresh_table (notebook_records result_ sn))).1.2)) < 2 ^ 31 ->
  exists cells n d3s file rd, buildReportCells result_ = Ok (cells, n, d3s, file) /\ open_reader file = Ok rd /\
    (forall k d o, (k, d, Object o) ∈ notebook_records result_ sn -> gives rd k o) /\
    (forall k, k ∉ (fst ∘ fst <$> notebook_records result_ sn) -> getData (O := NbObject) rd k = Raise KeyError_) /\
    Forall2 (cell_made (notebook_records result_ sn)) cells (rs_reportCells result_) /\
    n = (if decide (rs_reportCells result_ = []) then None else Some (length cells - 1)%nat) /\
    Forall2 (fun f cell => buildD3Flot (flot cell) = Ok f) d3s (rs_reportCells result_).
Proof.
  intros [Hp1 Hp2] Hd Hsn Hsize. pose proof (notebook_keys result_ sn) as Hnd.
  destruct (cells_loop 0 (rs_reportCells result_) (mkNbState [] [] 0 (fresh_table (session_records result_ sn))) (session_records result_ sn)
    (notebook_records result_ sn) Hd eq_refl Hnd) as (cs & fs & s' & Hm & Hc & Hfs & Htab & Hmade & _ & Hdraw).
  { intros x Hx. apply elem_of_app. by right. }
  destruct (xpd_roundtrip (notebook_records result_ sn) (fresh_table (notebook_records result_ sn))) as (_ & file & rd & Hcm & Ho & Hg).
  { rewrite append_all_fresh bool_decide_true //. }
  { apply Forall_app. split; [apply Forall_cons_2; [apply Hp1|apply Forall_cons_2; [exact Hp2|apply Forall_cons_2; [apply Hp1|apply Forall_nil_2]]]|]. apply Forall_lookup. intros i x Hx. unfold report_records in Hx.
    rewrite list_lookup_imap in Hx. apply fmap_Some in Hx as (r & _ & ->). apply Hp1. }
  { exact Hsize. }
  exists cs, (match rs_reportCells result_ with [] => None | _ => Some (length (rs_reportCells result_) - 1)%nat end), fs, file, rd.
  split_and!; [|exact Ho| | |exact Hmade| |exact Hdraw].
  - unfold buildReportCells. change (appendRecord [] "envReport" _ _) with (Ok (fresh_table (take 1 (session_records result_ sn)))).
    cbn [mbind result_bind]. change (appendRecord (fresh_table _) PROFILES_KEY _ _) with (Ok (fresh_table (take 2 (session_records result_ sn)))).
    cbn [mbind result_bind]. rewrite Hsn. cbn [mbind result_bind].
    change (appendRecord (fresh_table _) "snippets" _ _) with (Ok (fresh_table (session_records result_ sn))). cbn [mbind result_bind].
    cbn [Nat.add] in Hm. rewrite Hm. cbn [mbind result_bind]. rewrite Htab. cbn [nb_count]. destruct (commit _) as [t [fl e]]; cbn in Hcm. injection Hcm as -> ->.
    cbn. by rewrite Hc Hfs.
  - intros k d o Hin r Hr. specialize (Hg k r Hr). by rewrite (records_get _ _ _ _ _ Hin) in Hg.
  - intros k Hk. specialize (Hg k rd (conj eq_refl eq_refl)). revert Hg. destruct (od_get String.eqb k _) as [d|] eqn:E; [|done].
    apply od_get_elem_of in E as (k' & Hin & ->%String.eqb_eq). apply (list_elem_of_fmap_2 fst) in Hin. rewrite -list_fmap_compose in Hin. by destruct Hk.
  - rewrite -(Forall2_length _ _ _ Hmade). by destruct (rs_reportCells result_).
Qed.

(** A category without reports: the number of its last report is None, and no notebook is made. *)
Theorem empty_category_fails s num cell f : htmlReport cell = [] -> buildD3Flot (flot cell) = Ok f ->
  build_cell s (num, cell) = Raise InvariantViloation.
Proof. intros He Hf. unfold build_cell. by rewrite Hf He. Qed.
End Notebook.
