(* ===== verification/PathFiles.v ===== *)
(** * Files by path

    The files of a host as the code that puts their paths together sees them: a path is a text, and
    two texts are two paths.  [os.path.exists], [isfile], [makedirs], reading and writing, the
    helpers of util/__init__.py, and what the texts of paths are made of. *)

From Stdlib Require Import Ascii.
From S2P Require Import Prelude PyStr.

(** ** Files *)

Record Files := mkFiles { f_files : gmap string (list Z); f_dirs : gset string }.

Definition isfile (fs : Files) (p : string) : bool := bool_decide (is_Some (f_files fs !! p)).
Definition exists_ (fs : Files) (p : string) : bool := (isfile fs p || bool_decide (p ∈ f_dirs fs))%bool.
Definition read_file (fs : Files) (p : string) : result (list Z) := or_raise OSError_ (f_files fs !! p).

(** Writing needs the directory of the file. *)
Definition write_file (p : string) (b : list Z) (fs : Files) : result Files :=
  if (bool_decide (p ∈ f_dirs fs) || negb (bool_decide (dirname p ∈ f_dirs fs)))%bool then Raise OSError_
  else Ok (mkFiles (<[p := b]> (f_files fs)) (f_dirs fs)).

(** A path and the directories above it. *)
Fixpoint parents (fuel : nat) (p : string) : list string :=
  match fuel with
  | O => [p]
  | S fuel => if String.eqb (dirname p) p then [p] else p :: parents fuel (dirname p)
  end.

(** [os.makedirs], where directories that are there already are no error. *)
Definition make_dirs (p : string) (fs : Files) : result Files :=
  let ps := parents (String.length p) p in
  if existsb (isfile fs) ps then Raise OSError_ else Ok (mkFiles (f_files fs) (list_to_set ps ∪ f_dirs fs)).
Definition makedirs (p : string) (fs : Files) : result Files :=
  if exists_ fs p then Raise OSError_ else make_dirs p fs.

(** [util.mkdir]: a directory that is there may be cleaned. *)
Definition remove_files (p : string) (fs : Files) : Files :=
  if bool_decide (p ∈ f_dirs fs)
  then mkFiles (filter (fun kv => p ∉ parents (String.length kv.1) kv.1) (f_files fs)) (filter (fun d => p ∉ parents (String.length d) d) (f_dirs fs))
  else mkFiles (delete p (f_files fs)) (f_dirs fs).
Definition py_mkdir (clean : bool) (p : string) (fs : Files) : result Files :=
  let fs := if clean then remove_files p fs else fs in
  if exists_ fs p then if bool_decide (p ∈ f_dirs fs) then Ok fs else Raise Exception_
  else makedirs p fs.

(** [util.touch]. *)
Definition touch (p : string) (fs : Files) : result Files :=
  match f_files fs !! p with Some b => write_file p b fs | None => write_file p [] fs end.

(** ** Paths as texts *)

(** A directory that is not the root. *)
Definition proper_dir (d : string) : Prop := exists l c, d = of_chars (l ++ [c]) /\ c <> "/"%char.

Lemma to_chars_append a b : to_chars (String.append a b) = to_chars a ++ to_chars b.
Proof. induction a as [|c a IH]; [done|]. exact (f_equal (cons c) IH). Qed.

Lemma append_chars a b : String.append a b = of_chars (to_chars a ++ to_chars b).
Proof. by rewrite -to_chars_append of_to_chars. Qed.

Lemma no_slash_suffix n ext : "/"%char ∉ to_chars n -> "/"%char ∉ to_chars ext -> "/"%char ∉ to_chars (String.append n ext).
Proof. intros Hn He. rewrite to_chars_append. by intros [?|?]%elem_of_app. Qed.

Lemma last_slash_none i l : "/"%char ∉ l -> last_slash i l = 0%nat.
Proof.
  revert i. induction l as [|c l IH]; intros i H; [done|]. apply not_elem_of_cons in H as [Hc H]. cbn [last_slash].
  rewrite IH // (proj2 (Ascii.eqb_neq _ _)) //. congruence.
Qed.

(** A file in a directory. *)
Lemma dirname_file d b : proper_dir d -> "/"%char ∉ to_chars b -> dirname (String.append d (String.append "/" b)) = d.
Proof.
  intros (l & c & -> & Hc) Hb. unfold dirname. rewrite !to_chars_append to_of_chars. change (to_chars "/" ++ to_chars b) with ("/"%char :: to_chars b).
  rewrite last_slash_app // Nat.add_0_l.
  assert (Ht : take (S (length (l ++ [c]))) ((l ++ [c]) ++ "/"%char :: to_chars b) = (l ++ [c]) ++ ["/"%char]).
  { change ("/"%char :: to_chars b) with (["/"%char] ++ to_chars b). rewrite (app_assoc (l ++ [c])). apply take_app_length'. rewrite !length_app /=. lia. }
  rewrite Ht.
  assert (Hf : forallb (fun c => Ascii.eqb c "/") ((l ++ [c]) ++ ["/"%char]) = false).
  { rewrite !forallb_app. cbn. by rewrite (proj2 (Ascii.eqb_neq c _) Hc) /= !andb_false_r. }
  rewrite Hf. f_equal. rewrite rev_app_distr. cbn [rev app lstrip_slash]. rewrite Ascii.eqb_refl rev_app_distr. cbn [rev app lstrip_slash].
  rewrite (proj2 (Ascii.eqb_neq c _) Hc). cbn [rev]. by rewrite rev_involutive.
Qed.

Lemma basename_file d b : "/"%char ∉ to_chars b -> basename (String.append d (String.append "/" b)) = b.
Proof.
  intros Hb. rewrite append_chars to_chars_append. change (to_chars "/" ++ to_chars b) with ("/"%char :: to_chars b).
  rewrite basename_app //. apply of_to_chars.
Qed.

Lemma name_alone b : "/"%char ∉ to_chars b -> dirname b = ""%string /\ basename b = b.
Proof. intros Hb. unfold dirname, basename. rewrite last_slash_none //. cbn. by rewrite of_to_chars. Qed.

Definition relative (b : string) : Prop := head (to_chars b) <> Some "/"%char.
Lemma no_slash_relative b : "/"%char ∉ to_chars b -> relative b.
Proof. intros Hb E. apply Hb. destruct (to_chars b); [done|]. injection E as ->. left. Qed.

Lemma join_dir d b : proper_dir d -> relative b -> path_join d b = String.append d (String.append "/" b).
Proof.
  intros (l & c & -> & Hc) Hb. unfold path_join, relative in *. rewrite to_of_chars rev_app_distr. cbn [rev app starts_with].
  rewrite (proj2 (Ascii.eqb_neq _ _)); [congruence|]. cbn [andb orb]. rewrite orb_false_r.
  assert (He : String.eqb (of_chars (l ++ [c])) "" = false) by (apply String.eqb_neq; by destruct l).
  rewrite He. destruct b as [|x b]; [done|]. cbn [to_chars String.list_ascii_of_string] in *. 
  rewrite (proj2 (Ascii.eqb_neq x _)) //. intros ->. by apply Hb.
Qed.

Lemma proper_child d b : to_chars b <> [] -> "/"%char ∉ to_chars b -> proper_dir (String.append d (String.append "/" b)).
Proof.
  intros Hb Hs. revert Hb Hs. generalize (eq_refl (to_chars b)). generalize (to_chars b) at 2 3 4 as cs.
  intros cs E. destruct cs as [|c l _] using rev_ind; [done|]. intros _ Hs. exists (to_chars d ++ "/"%char :: l), c. split.
  - rewrite append_chars to_chars_append E. by rewrite -app_assoc.
  - intros ->. apply Hs, elem_of_app. right. left.
Qed.

(** ** Files that are kept *)

(** No path is both a file and a directory, and directories are in directories. *)
Record fs_ok (fs : Files) : Prop := {
  ok_disjoint p : isfile fs p = true -> p ∉ f_dirs fs;
  ok_parents d : d ∈ f_dirs fs -> dirname d ∈ f_dirs fs }.

Lemma isfile_lookup fs p b : f_files fs !! p = Some b -> isfile fs p = true.
Proof. intros H. unfold isfile. by rewrite H bool_decide_true. Qed.
Lemma exists_false fs p : exists_ fs p = false -> isfile fs p = false /\ p ∉ f_dirs fs.
Proof. unfold exists_. intros [H1 H2%bool_decide_eq_false]%orb_false_iff. done. Qed.

Lemma parents_dirs fs fuel p : fs_ok fs -> p ∈ f_dirs fs -> Forall (fun d => d ∈ f_dirs fs) (parents fuel p).
Proof.
  intros Hok. revert p. induction fuel as [|fuel IH]; intros p Hp; cbn [parents]; [by repeat constructor|].
  destruct (String.eqb _ _); [by repeat constructor|]. constructor; [done|]. apply IH. by apply Hok.
Qed.

Lemma dirs_not_files fs ps : fs_ok fs -> Forall (fun d => d ∈ f_dirs fs) ps -> existsb (isfile fs) ps = false.
Proof.
  intros Hok. induction 1 as [|d ps Hd _ IH]; [done|]. cbn. rewrite IH orb_false_r. destruct (isfile fs d) eqn:E; [|done].
  by apply (ok_disjoint _ Hok) in E.
Qed.

(** A directory in one that is there. *)
Lemma make_dirs_child fs d : fs_ok fs -> dirname d ∈ f_dirs fs -> isfile fs d = false -> exists fs',
  make_dirs d fs = Ok fs' /\ f_files fs' = f_files fs /\ (forall p, p ∈ f_dirs fs' <-> p = d \/ p ∈ f_dirs fs) /\ fs_ok fs'.
Proof.
  intros Hok Hp Hf. unfold make_dirs. assert (Hps : exists ps, parents (String.length d) d = d :: ps /\ Forall (fun d => d ∈ f_dirs fs) ps).
  { destruct (String.length d) as [|n]; cbn [parents]; [by exists []|]. destruct (String.eqb _ _); [by exists []|].
    eexists. split; [reflexivity|]. by apply parents_dirs. }
  destruct Hps as (ps & -> & Hps). cbn [existsb]. rewrite Hf (dirs_not_files _ _ Hok Hps). cbn [orb].
  assert (Hin : forall p, p ∈ (list_to_set (d :: ps) ∪ f_dirs fs : gset string) <-> p = d \/ p ∈ f_dirs fs).
  { intros p. rewrite Forall_forall in Hps. rewrite elem_of_union elem_of_list_to_set elem_of_cons. naive_solver. }
  eexists. split; [reflexivity|]. split; [done|]. split; [exact Hin|]. split; cbn [f_files f_dirs].
  - intros p Hfp Hd. apply Hin in Hd as [->|Hd]; [|by apply (ok_disjoint _ Hok) in Hd].
    change (isfile fs d = true) in Hfp. congruence.
  - intros p Hd. apply Hin. apply Hin in Hd as [->|Hd]; [by right|]. right. by apply Hok.
Qed.

Lemma write_there fs p b : p ∉ f_dirs fs -> dirname p ∈ f_dirs fs -> write_file p b fs = Ok (mkFiles (<[p := b]> (f_files fs)) (f_dirs fs)).
Proof. intros H1 H2. unfold write_file. by rewrite bool_decide_false // bool_decide_true. Qed.

Lemma write_ok fs p b : fs_ok fs -> p ∉ f_dirs fs -> fs_ok (mkFiles (<[p := b]> (f_files fs)) (f_dirs fs)).
Proof.
  intros Hok Hp. split; [|apply Hok]. intros q Hq Hd. cbn in Hd. unfold isfile in Hq. cbn in Hq. apply bool_decide_eq_true in Hq.
  destruct (decide (q = p)) as [->|Hne]; [done|]. rewrite lookup_insert_ne in Hq; [congruence|]. apply (ok_disjoint _ Hok q); [|done].
  unfold isfile. by rewrite bool_decide_true.
Qed.


(** ** Files that are added *)

(** The directories a file needs. *)
Definition way (p : string) : list string := parents (String.length (dirname p)) (dirname p).

(** Files are in directories that are there. *)
Definition housed (fs : Files) : Prop := forall p, isfile fs p = true -> dirname p ∈ f_dirs fs.

(** Nothing is in the way of the files [T]: no file and none of themselves is where they need a
    directory, and no directory is where they go. *)
Definition clear (fs : Files) (T : string -> Prop) : Prop :=
  forall p, T p -> p ∉ f_dirs fs /\ forall d, d ∈ way p -> isfile fs d = false /\ ~ T d.

(** Files of [T] were added, with the directories they need, and nothing else was changed. *)
Record grew (T : string -> Prop) (fs fs' : Files) : Prop := {
  grew_kept : f_files fs ⊆ f_files fs';
  grew_new p : isfile fs' p = true -> isfile fs p = true \/ T p;
  grew_dirs d : d ∈ f_dirs fs -> d ∈ f_dirs fs';
  grew_dirs_new d : d ∈ f_dirs fs' -> d ∈ f_dirs fs \/ exists p, T p /\ d ∈ way p }.

#[export] Instance grew_preorder T : PreOrder (grew T).
Proof.
  split; [split; auto|]. intros a b c [H1 H2 H3 H4] [H5 H6 H7 H8]. split; [by trans (f_files b)| |auto|].
  - intros p [Hb|Ht]%H6; [by apply H2|by right].
  - intros d [Hb|Ht]%H8; [by apply H4|by right].
Qed.

Lemma grew_refl T fs : grew T fs fs.
Proof. reflexivity. Qed.
#[export] Hint Resolve grew_refl : core.

Lemma clear_grew T fs fs' : clear fs T -> grew T fs fs' -> clear fs' T.
Proof.
  intros Hc Hg p Hp. destruct (Hc p Hp) as [Hd Hw]. split.
  - intros [H|(q & Hq & H)]%(grew_dirs_new _ _ _ Hg); [done|]. by destruct (proj2 (Hc q Hq) p H).
  - intros d Hin. destruct (Hw d Hin) as [Hf Ht]. split; [|done]. destruct (isfile fs' d) eqn:E; [|done].
    destruct (grew_new _ _ _ Hg d E); [congruence|done].
Qed.

Lemma exists_target T fs p : clear fs T -> T p -> exists_ fs p = isfile fs p.
Proof. intros Hc Hp. unfold exists_. rewrite (bool_decide_false _ (proj1 (Hc p Hp))). apply orb_false_r. Qed.

Lemma isfile_spec fs p : isfile fs p = true <-> is_Some (f_files fs !! p).
Proof. apply bool_decide_eq_true. Qed.
Lemma isfile_none fs p : isfile fs p = false <-> f_files fs !! p = None.
Proof. unfold isfile. by rewrite bool_decide_eq_false -eq_None_not_Some. Qed.

Lemma parents_self fuel p : p ∈ parents fuel p.
Proof. destruct fuel; cbn; [left|]. destruct (String.eqb _ _); left. Qed.

(** [mkdir] of a directory no file is in the way of. *)
Lemma mkdir_clear clean fs d : (clean = true -> exists_ fs d = false) -> (forall x, x ∈ parents (String.length d) d -> isfile fs x = false) ->
  exists fs', py_mkdir clean d fs = Ok fs' /\ f_files fs' = f_files fs /\ d ∈ f_dirs fs' /\
    (forall x, x ∈ f_dirs fs' <-> x ∈ f_dirs fs \/ d ∉ f_dirs fs /\ x ∈ parents (String.length d) d).
Proof.
  intros Hclean Hps. pose proof (Hps d (parents_self _ _)) as Hd. unfold py_mkdir.
  assert (Hfs : (if clean then remove_files d fs else fs) = fs).
  { destruct clean; [|done]. destruct (exists_false fs d (Hclean eq_refl)) as [Hf Hnd]. unfold remove_files. rewrite bool_decide_false //.
    rewrite delete_id; [by apply isfile_none|]. by destruct fs. }
  rewrite Hfs. unfold exists_. rewrite Hd. cbn [orb]. destruct (bool_decide_reflect (d ∈ f_dirs fs)) as [Hin|Hin].
  { exists fs. split_and!; try done. intros x. split; [by left|]. by intros [?|[? _]]. }
  unfold makedirs, exists_. rewrite Hd (bool_decide_false _ Hin). cbn [orb]. unfold make_dirs.
  assert (He : existsb (isfile fs) (parents (String.length d) d) = false).
  { apply not_true_is_false. intros (x & Hx & E)%existsb_exists. rewrite Hps in E; [by apply list_elem_of_In|done]. }
  rewrite He. eexists. split; [reflexivity|]. cbn [f_files f_dirs]. split_and!; [done| |].
  - rewrite elem_of_union elem_of_list_to_set. left. apply parents_self.
  - intros x. rewrite elem_of_union elem_of_list_to_set. naive_solver.
Qed.

(** A target, once its directory is made. *)
Lemma mkdir_grew T clean fs p : clear fs T -> T p -> (clean = true -> exists_ fs (dirname p) = false) -> exists fs',
  py_mkdir clean (dirname p) fs = Ok fs' /\ f_files fs' = f_files fs /\ dirname p ∈ f_dirs fs' /\ grew T fs fs'.
Proof.
  intros Hc Hp Hclean. destruct (Hc p Hp) as [Hnd Hw]. destruct (mkdir_clear clean fs (dirname p) Hclean) as (fs' & Hm & Hf & Hd & Hds).
  { intros x Hx. by apply Hw. }
  exists fs'. split_and!; try done. split.
  - by rewrite Hf.
  - intros q Hq. left. unfold isfile in *. by rewrite Hf in Hq.
  - intros d Hin. apply Hds. by left.
  - intros d [Hin|[_ Hin]]%Hds; [by left|]. right. by exists p.
Qed.

Lemma write_grew T fs p b : clear fs T -> T p -> dirname p ∈ f_dirs fs -> isfile fs p = false ->
  write_file p b fs = Ok (mkFiles (<[p := b]> (f_files fs)) (f_dirs fs)) /\ grew T fs (mkFiles (<[p := b]> (f_files fs)) (f_dirs fs)).
Proof.
  intros Hc Hp Hd Hf. split; [apply write_there; [by apply Hc|done]|]. split; cbn; auto.
  - apply insert_subseteq. by apply isfile_none.
  - intros q [c Hq]%isfile_spec. cbn in Hq. destruct (decide (q = p)) as [->|Hne]; [by right|]. left. apply isfile_spec.
    exists c. apply lookup_insert_Some in Hq as [[? _]|[_ Hq]]; [congruence|done].
Qed.

Lemma written_other fs q b p : p <> q -> f_files (mkFiles (<[q := b]> (f_files fs)) (f_dirs fs)) !! p = f_files fs !! p.
Proof. intros H. cbn. by apply lookup_insert_ne, not_eq_sym. Qed.

Lemma housed_write fs p b : housed fs -> dirname p ∈ f_dirs fs -> housed (mkFiles (<[p := b]> (f_files fs)) (f_dirs fs)).
Proof.
  intros Hh Hd q [c Hq]%isfile_spec. cbn in *. destruct (decide (q = p)) as [->|Hne]; [done|]. apply Hh, isfile_spec.
  exists c. apply lookup_insert_Some in Hq as [[? _]|[_ Hq]]; [congruence|done].
Qed.
Lemma housed_dirs fs fs' : housed fs -> f_files fs' = f_files fs -> (forall d, d ∈ f_dirs fs -> d ∈ f_dirs fs') -> housed fs'.
Proof. intros Hh Hf Hd p Hp. apply Hd, Hh. unfold isfile in *. by rewrite Hf in Hp. Qed.
