(* ===== verification/Served.v ===== *)
(** * Notebooks on disk

    Models what becomes of a notebook after it is built: jupyter/driver.py stores it and its data
    file, jupyter/context.py and the handler of the server (tornadoExtension) find the data file
    by the path of the notebook and serve its reports, and jupyter/archive.py packs both into an
    archive and unpacks it elsewhere, in the files of [PathFiles].  [Tar] is the tarfile library, [NbFormat] the text nbformat makes of a notebook. *)

From Stdlib Require Import Ascii.
From S2P Require Import Prelude PyStr Probe Route Txn Timeline Conflate Report Base64 Bars DataFile Plot Notebook PathFiles.

(** [str.replace]; the pattern is not empty. *)
Fixpoint replace_from (skip : nat) (old new l : chars) : chars :=
  match l with
  | [] => []
  | c :: l =>
      match skip with
      | S skip => replace_from skip old new l
      | O => if starts_with old (c :: l) then new ++ replace_from (length old - 1) old new l else c :: replace_from 0 old new l
      end
  end.
Definition py_replace (s old new : string) : string := of_chars (replace_from 0 (to_chars old) (to_chars new) (to_chars s)).

(** ** jupyter/__init__.py *)

Definition DATA_DIR : string := "xpData".
Definition DATA_FILE_EXT : string := ".xpd".
Definition NOTEBOOK_EXT : string := ".ipynb".
Definition ARCHIVE_FILE_EXT : string := ".tar.xpd".

Class NbFormat (F : Type) := { nb_text : Notebook (F := F) -> list Z }.
Class Tar := { tar_dumps : list (string * list Z) -> list Z; tar_loads : list Z -> result (list (string * list Z)) }.
Class TarLaws `{HT : Tar} := { tar_round l : tar_loads (tar_dumps l) = Ok l }.

Section Served.
Context {F : Type} {HF : PyFloat F} {HZ : Zip F} {R : Type}.
Context {HO : Pickle (NbObject (F := F) (R := R))} {HL : Pickle Layout} {HN : NbFormat F}.

(** ** jupyter/driver.py *)

(** [validatePath]; [temp] is a new directory for a session without one. *)
Definition validatePath (temp : string) (homeDir : option string) (reportName : string) (fs : Files)
    : result (string * string * string * Files) :=
  let homeDir := default temp homeDir in
  let dataDir := path_join homeDir DATA_DIR in
  let notebookPath := concat_strs [homeDir; "/"; reportName; NOTEBOOK_EXT] in
  let dataFilePath := concat_strs [dataDir; "/"; reportName; DATA_FILE_EXT] in
  if (isfile fs notebookPath || isfile fs dataFilePath)%bool then Raise Exception_
  else fs ← (if exists_ fs dataDir then Ok fs else makedirs dataDir fs);
       Ok (notebookPath, dataFilePath, homeDir, fs).

(** [render]: nothing is made of a report without categories.  A notebook that cannot be written
    is logged and not launched; [launchJupyter] starts the server in the home directory. *)
Definition render (appName : string) (temp : string) (homeDir : option string) (result_ : Result_ (F := F) (R := R)) (fs : Files)
    : result (option (string * Notebook (F := F)) * Files) :=
  '(notebookPath, dataFilePath, homeDir, fs) ← validatePath temp homeDir (rs_reportName result_) fs;
  match rs_reportCells result_ with
  | [] => Ok (None, fs)
  | _ =>
      '(nb, file) ← buildNotebook appName result_ (rs_runId result_);
      fs ← write_file dataFilePath file fs;
      match write_file notebookPath (nb_text nb) fs with
      | Ok fs => Ok (Some (homeDir, nb), fs)
      | Raise _ => Ok (None, fs)
      end
  end.

(** ** jupyter/context.py *)

Definition buildXpdPath (xpediteHome notebookPath : string) : string :=
  let path := dirname notebookPath in
  let notebookName := basename notebookPath in
  let dataFileName := py_replace notebookName NOTEBOOK_EXT DATA_FILE_EXT in
  path_join (path_join (path_join xpediteHome path) DATA_DIR) dataFileName.

Definition loadProfiles (fs : Files) (dataFile : string) : result (Value (NbObject (F := F) (R := R))) :=
  file ← read_file fs dataFile;
  xpd ← open_reader file;
  '(v, _) ← getData xpd PROFILES_KEY;
  Ok v.

(** ** The handler of the server *)

Inductive Response := Html (gz : list Z) | CannotRead (path key : string) | MissingArguments.

(** The body of the [with] block: only compressed data is text in base64. *)
Definition report_markup (file : list Z) (reportKey : string) : result (list Z) :=
  xpd ← open_reader file;
  '(data, _) ← getData (O := NbObject (F := F) (R := R)) xpd reportKey;
  match data with
  | VObject (NbZip b) | VBytes b => b64decode b
  | VObject (NbProfiles _) => Raise TypeError_
  end.

Definition get (xpediteHome : string) (fs : Files) (reportKey notebookPath : option string) : result Response :=
  match reportKey, notebookPath with
  | Some reportKey, Some notebookPath =>
      let xpdFilePath := buildXpdPath xpediteHome notebookPath in
      match file ← read_file fs xpdFilePath; report_markup file reportKey with
      | Ok markupGz => Ok (Html markupGz)
      | Raise OSError_ => Ok (CannotRead xpdFilePath reportKey)
      | Raise e => Raise e
      end
  | _, _ => Ok MissingArguments
  end.

(** ** jupyter/archive.py *)

Context {HT : Tar}.

Record Inflator := mkInflator {
  i_notebookPath : string; i_notebookName : string; i_dataFileName : string; i_dataFilePath : string; i_archivePath : string }.

Definition Inflator_init (fs : Files) (notebookPath : string) : result Inflator :=
  let homeDir := dirname notebookPath in
  let notebookName := basename notebookPath in
  let dataFileName := py_replace notebookName NOTEBOOK_EXT DATA_FILE_EXT in
  let dataFilePath := path_join (path_join homeDir DATA_DIR) dataFileName in
  let archivePath := py_replace notebookPath NOTEBOOK_EXT ARCHIVE_FILE_EXT in
  if isfile fs archivePath then Raise Exception_
  else Ok (mkInflator notebookPath notebookName dataFileName dataFilePath archivePath).

(** The members [inflate] adds, and how it ends. *)
Definition inflate (i : Inflator) (fs : Files) : result (list (string * list Z)) :=
  if negb (isfile fs (i_notebookPath i)) then Raise Exception_
  else if negb (isfile fs (i_dataFilePath i)) then Raise Exception_
  else notebook ← read_file fs (i_notebookPath i);
       data ← read_file fs (i_dataFilePath i);
       Ok [(i_notebookName i, notebook); (path_join DATA_DIR (i_dataFileName i), data)].

(** An [Inflator] as a context manager around [inflate]: the archive is created when it is entered
    and closed with what was added, whatever happened. *)
Definition inflate_archive (notebookPath : string) (fs : Files) : Files * result unit :=
  match i ← Inflator_init fs notebookPath; fs1 ← write_file (i_archivePath i) [] fs; Ok (i, fs1) with
  | Raise e => (fs, Raise e)
  | Ok (i, fs1) =>
      let members := inflate i fs1 in
      (mkFiles (<[i_archivePath i := tar_dumps (match members with Ok ms => ms | Raise _ => [] end)]> (f_files fs1)) (f_dirs fs1),
       _ ← members; Ok tt)
  end.

(** [extractall]: the directories of a member are made. *)
Definition extract (path : string) (fs : Files) (m : string * list Z) : result Files :=
  let target := path_join path m.1 in
  fs ← make_dirs (dirname target) fs;
  write_file target m.2 fs.

(** A [Deflator] around [deflate]. *)
Definition deflate_archive (archivePath : string) (extractPath : option string) (temp : string) (fs : Files) : result (string * Files) :=
  file ← read_file fs archivePath;
  members ← tar_loads file;
  let extractPath := match extractPath with Some p => if nonempty p then p else temp | None => temp end in
  fs ← mfor (extract extractPath) fs members;
  Ok (extractPath, fs).
End Served.

(** ** Names of reports *)

Definition proper_name (n : string) : Prop := "/"%char ∉ to_chars n /\ find_sub (to_chars NOTEBOOK_EXT) (to_chars n) = None.

(** The extension of a notebook is replaced once, at its end. *)
Lemma replace_ext n new : find_sub (to_chars NOTEBOOK_EXT) (to_chars n) = None ->
  py_replace (String.append n NOTEBOOK_EXT) NOTEBOOK_EXT new = String.append n new.
Proof.
  intros Hn. unfold py_replace. rewrite (append_chars n new). f_equal. rewrite to_chars_append. induction (to_chars n) as [|c l IH]; [cbn; by rewrite app_nil_r|].
  cbn [find_sub] in Hn. destruct (starts_with _ (c :: l)) eqn:E; [done|].
  destruct (find_sub (to_chars NOTEBOOK_EXT) l) eqn:El; [done|]. cbn [app replace_from].
  assert (Hno : starts_with (to_chars NOTEBOOK_EXT) (c :: l ++ to_chars NOTEBOOK_EXT) = false); [|by rewrite Hno IH].
  clear IH Hn El. apply not_true_is_false. intros H. revert E H. cbn [to_chars String.list_ascii_of_string NOTEBOOK_EXT starts_with].
  repeat (destruct l as [|? l]; cbn [app starts_with]; [intros _; rewrite ?andb_true_iff ?Ascii.eqb_eq; intuition congruence|]).
  intros -> E. discriminate E.
Qed.

Section Paths.
Context (home name : string) (Hhome : proper_dir home) (Hname : proper_name name).

Definition nb_name : string := String.append name NOTEBOOK_EXT.
Definition nb_path : string := String.append home (String.append "/" nb_name).
Definition data_name : string := String.append name DATA_FILE_EXT.
Definition data_dir : string := String.append home (String.append "/" DATA_DIR).
Definition data_path : string := String.append data_dir (String.append "/" data_name).
Definition archive_path : string := String.append home (String.append "/" (String.append name ARCHIVE_FILE_EXT)).

Lemma nb_name_plain : "/"%char ∉ to_chars nb_name.
Proof. apply no_slash_suffix; [apply Hname|]. by apply (bool_decide_unpack _). Qed.
Lemma data_name_plain : "/"%char ∉ to_chars data_name.
Proof. apply no_slash_suffix; [apply Hname|]. by apply (bool_decide_unpack _). Qed.
Lemma DATA_DIR_plain : "/"%char ∉ to_chars DATA_DIR.
Proof. by apply (bool_decide_unpack _). Qed.

Lemma join_data : path_join home DATA_DIR = data_dir.
Proof. apply join_dir; [done|]. apply no_slash_relative, DATA_DIR_plain. Qed.
Lemma data_dir_proper : proper_dir data_dir.
Proof. by apply proper_child; [|apply DATA_DIR_plain]. Qed.
Lemma join_data_name : path_join data_dir data_name = data_path.
Proof. apply join_dir; [apply data_dir_proper|]. apply no_slash_relative, data_name_plain. Qed.

Lemma replaced_name new : py_replace nb_name NOTEBOOK_EXT new = String.append name new.
Proof. apply replace_ext, Hname. Qed.

(** The driver, the server and the archive agree on the place of the data file. *)
Lemma driver_paths : concat_strs [home; "/"%string; name; NOTEBOOK_EXT] = nb_path /\
  concat_strs [path_join home DATA_DIR; "/"%string; name; DATA_FILE_EXT] = data_path.
Proof. rewrite join_data. split; unfold concat_strs, py_join, nb_path, nb_name, data_path, data_dir, data_name; rewrite !append_chars !to_of_chars; cbn; rewrite ?to_chars_append ?to_of_chars -?app_assoc; cbn; rewrite -?app_assoc; reflexivity. Qed.

Lemma server_path : buildXpdPath home nb_name = data_path.
Proof.
  unfold buildXpdPath. destruct (name_alone nb_name nb_name_plain) as [-> ->]. rewrite replaced_name.
  assert (H : path_join (path_join home "") DATA_DIR = data_dir); [|rewrite H; apply join_data_name].
  destruct Hhome as (l & c & E & Hc). unfold path_join at 2, data_dir. rewrite E. cbn [to_chars String.list_ascii_of_string]. rewrite to_of_chars rev_app_distr. cbn [rev app starts_with].
  rewrite (proj2 (Ascii.eqb_neq _ _)); [congruence|]. cbn [andb orb]. rewrite orb_false_r.
  assert (He : String.eqb (of_chars (l ++ [c])) "" = false) by (apply String.eqb_neq; by destruct l).
  rewrite He. unfold path_join. cbn [to_chars String.list_ascii_of_string DATA_DIR].
  change (Ascii.eqb "x" "/") with false. cbn iota. rewrite to_chars_append to_of_chars rev_app_distr. cbn [rev app starts_with to_chars String.list_ascii_of_string].
  rewrite Ascii.eqb_refl. cbn [andb orb]. rewrite orb_true_r. 
  by rewrite !append_chars !to_of_chars -!app_assoc.
Qed.
End Paths.

Section Places.
Context (home name : string) (Hhome : proper_dir home) (Hname : proper_name name).

Lemma nb_dir : dirname (nb_path home name) = home.
Proof. by apply dirname_file, nb_name_plain. Qed.
Lemma data_dir_home : dirname (data_dir home) = home.
Proof. by apply dirname_file, DATA_DIR_plain. Qed.
Lemma data_path_dir : dirname (data_path home name) = data_dir home.
Proof. apply dirname_file; [apply data_dir_proper|]. by apply data_name_plain. Qed.
Lemma data_dir_longer : data_dir home <> home.
Proof.
  intros E. apply (f_equal (fun s => length (to_chars s))) in E. unfold data_dir in E. rewrite !to_chars_append !length_app in E. cbn in E. lia.
Qed.
Lemma data_path_longer : data_path home name <> home.
Proof.
  intros E. apply (f_equal (fun s => length (to_chars s))) in E. unfold data_path, data_dir in E. rewrite !to_chars_append !length_app in E. cbn in E. lia.
Qed.
Lemma data_not_nb : data_path home name <> nb_path home name.
Proof. intros E. apply (f_equal dirname) in E. rewrite nb_dir data_path_dir in E. by apply data_dir_longer. Qed.
Lemma data_not_dir : data_path home name <> data_dir home.
Proof. intros E. apply (f_equal dirname) in E. rewrite data_path_dir data_dir_home in E. by apply data_dir_longer. Qed.

(** Files with an extension other than [DATA_DIR] ends with are not the directory of the data. *)
Lemma not_data_dir d ext c : last (to_chars ext) = Some c -> c <> "a"%char ->
  String.append d (String.append "/" (String.append name ext)) <> data_dir home.
Proof.
  intros Hl Hc E. apply (f_equal (fun s => last (to_chars s))) in E. unfold data_dir in E. rewrite !to_chars_append in E.
  rewrite !last_app Hl in E. cbn in E. congruence.
Qed.
End Places.

Section ServedFacts.
Context {F : Type} {HF : PyFloat F} {HZ : Zip F} {R : Type}.
Context {HO : Pickle (NbObject (F := F) (R := R))} {HL : Pickle Layout} {HN : NbFormat F}.

(** What the server and the shell make of the bytes of a data file. *)
Lemma get_file home name fs b k : proper_dir home -> proper_name name -> f_files fs !! data_path home name = Some b ->
  get (F := F) (R := R) home fs (Some k) (Some (nb_name name)) =
    match report_markup (F := F) (R := R) b k with
    | Ok m => Ok (Html m)
    | Raise OSError_ => Ok (CannotRead (data_path home name) k)
    | Raise e => Raise e
    end.
Proof. intros Hh Hn Hb. unfold get. rewrite server_path // /read_file Hb. reflexivity. Qed.

(** ** From the driver to the browser *)

Lemma render_files appName temp home (result_ : Result_ (F := F) (R := R)) nb file fs :
  proper_dir home -> proper_name (rs_reportName result_) -> rs_reportCells result_ <> [] ->
  fs_ok fs -> home ∈ f_dirs fs -> exists_ fs (nb_path home (rs_reportName result_)) = false ->
  exists_ fs (data_path home (rs_reportName result_)) = false -> isfile fs (data_dir home) = false ->
  buildNotebook appName result_ (rs_runId result_) = Ok (nb, file) -> exists fs',
  render appName temp (Some home) result_ fs = Ok (Some (home, nb), fs') /\
    f_files fs' !! nb_path home (rs_reportName result_) = Some (nb_text nb) /\ f_files fs' !! data_path home (rs_reportName result_) = Some file.
Proof.
  set (name := rs_reportName result_). intros Hh Hn Hne Hok Hd [Hnf Hnd]%exists_false [Hdf Hdd]%exists_false Hdir Hb.
  assert (Hv : exists fs1, validatePath temp (Some home) name fs = Ok (nb_path home name, data_path home name, home, fs1) /\
    f_files fs1 = f_files fs /\ home ∈ f_dirs fs1 /\ data_dir home ∈ f_dirs fs1 /\ nb_path home name ∉ f_dirs fs1 /\ data_path home name ∉ f_dirs fs1).
  { unfold validatePath. change (default temp (Some home)) with home. cbn zeta. destruct (driver_paths home name) as [-> ->]; [done|]. rewrite Hnf Hdf join_data //. cbn [orb].
    destruct (exists_ fs (data_dir home)) eqn:E.
    - exists fs. split; [done|]. split_and!; [done|done| |done|done]. unfold exists_ in E. rewrite Hdir in E. by apply bool_decide_eq_true in E.
    - unfold makedirs. rewrite E. destruct (make_dirs_child fs (data_dir home) Hok) as (fs1 & -> & Hf1 & Hd1 & _); [by rewrite data_dir_home|done|].
      exists fs1. split; [done|]. split_and!; [done|apply Hd1; by right|apply Hd1; by left| |].
      + rewrite Hd1. intros [En|?]; [|done]. by apply (not_data_dir home name home NOTEBOOK_EXT "b"%char) in En.
      + rewrite Hd1. intros [En|?]; [|done]. by apply data_not_dir in En. }
  destruct Hv as (fs1 & Hv & Hf1 & Hh1 & Hdh1 & Hn1 & Hd1). unfold render. fold name. rewrite Hv. cbn [mbind result_bind].
  destruct (rs_reportCells result_) as [|c cs] eqn:Ec; [done|]. rewrite Hb. cbn [mbind result_bind].
  rewrite (write_there fs1 (data_path home name)); [done|by rewrite data_path_dir|]. cbn [mbind result_bind].
  rewrite write_there; [done|by rewrite nb_dir|]. eexists. split; [reflexivity|]. cbn [f_files]. rewrite lookup_insert_eq. split; [done|].
  rewrite lookup_insert_ne; [by apply not_eq_sym, data_not_nb|]. apply lookup_insert_eq.
Qed.

Context {LL : PickleLaws Layout} {LZ : ZipLaws F}.

Lemma zip_served file rd k b : open_reader file = Ok rd -> gives (F := F) (R := R) rd k (NbZip (compressText b)) -> Forall byte b ->
  report_markup (F := F) (R := R) file k = Ok b.
Proof.
  intros Ho Hg Hb. unfold report_markup. rewrite Ho. cbn [mbind result_bind]. destruct (Hg rd (conj eq_refl eq_refl)) as (r' & -> & _).
  cbn [mbind result_bind]. by apply b64_roundtrip.
Qed.

(** A category that has a report and whose histogram can be drawn. *)
Definition shown_category (c : string * Category (F := F) (HistogramDoc (F := F))) : Prop :=
  ct_routes _ c.2 <> [] /\ exists f, buildD3Flot (ct_histogram _ c.2) = Ok f.

(** C23: a session's notebook is stored and every link in it is served.  For a report whose
    categories all have a report and a plot, whose snippets can be built and whose layout is
    smaller than 2^31 bytes, with nothing in the way in a home directory that is there: rendering
    succeeds; the notebook has one cell for each category, in order, with one link for each of
    its routes; asked for the key of a link and the name of the notebook, the server answers
    with exactly the compressed report of that route, and with that of the environment for its
    key; and the shell loads the profiles of the session, without its transactions. *)
Theorem links_served appName temp home runId ps envName envDescription envContent categories sn fs :
  let result_ := Result_init (R := R) runId ps envName envDescription envContent categories in
  proper_dir home -> proper_name (ps_name _ ps) -> fs_ok fs -> home ∈ f_dirs fs ->
  exists_ fs (nb_path home (ps_name _ ps)) = false -> exists_ fs (data_path home (ps_name _ ps)) = false -> isfile fs (data_dir home) = false ->
  categories <> [] -> Forall shown_category categories -> nb_pickled result_ ->
  buildSnippets (snippet_args (xpd_profiles ps)) = Ok sn ->
  Z.of_nat (length (dumps (build_layout (fresh_table (notebook_records result_ sn))).1.2)) < 2 ^ 31 ->
  exists nb fs', render appName temp (Some home) result_ fs = Ok (Some (home, nb), fs') /\
    f_files fs' !! nb_path home (ps_name _ ps) = Some (nb_text nb) /\
    get (F := F) (R := R) home fs' (Some "envReport"%string) (Some (nb_name (ps_name _ ps))) = Ok (Html (zip_text envContent)) /\
    loadProfiles fs' (buildXpdPath home (nb_name (ps_name _ ps))) = Ok (VObject (NbProfiles (mkProfiles _ (ps_name _ ps) None (profiles _ ps)))) /\
    Forall2 (fun cell c => nb_title cell = hd_title (ct_histogram _ c.2) /\
      Forall2 (fun l m => l_description l = mk_description m /\
        get (F := F) (R := R) home fs' (Some (l_reportKey l)) (Some (nb_name (ps_name _ ps))) = Ok (Html (zip_report (mk_content m))))
        (nb_links cell) (ct_routes _ c.2)) (n_cells nb) categories.
Proof.
  intros result_ Hh Hn Hok Hd Hfn Hfd Hfdir Hne Hshown Hp Hsn Hsize.
  destruct (notebook_file result_ sn Hp) as (cs & n & fs0 & file & rd & Hb & Ho & Hg & _ & Hm & -> & _); [|exact Hsn|exact Hsize|].
  { apply Forall_fmap. eapply Forall_impl; [exact Hshown|]. intros c [Hr Hdraw]. split; [|exact Hdraw]. cbn. by destruct (ct_routes _ c.2). }
  assert (Hcells : rs_reportCells result_ <> []) by (by destruct categories).
  destruct (render_files appName temp home result_
    (mkNotebook (mkInitCell (mkLink "envReport" Load "") appName (length cs - 1 + 1) runId fs0) cs) file fs) as (fs' & Hr & Hnb & Hdb); try done.
  { unfold buildNotebook. rewrite Hb decide_False //. }
  assert (Hget : forall k b, gives rd k (NbZip (compressText b)) -> Forall byte b ->
    get (F := F) (R := R) home fs' (Some k) (Some (nb_name (ps_name _ ps))) = Ok (Html b)).
  { intros k b Hk Hbytes. rewrite (get_file home _ fs' file k) //. by rewrite (zip_served file rd k b). }
  eexists _, fs'. split; [exact Hr|]. split; [exact Hnb|]. split_and!.
  - apply Hget; [|apply zip_text_bytes]. apply (Hg _ "environment report"%string). left.
  - unfold loadProfiles, read_file. rewrite server_path // Hdb. cbn [or_raise mbind result_bind]. rewrite Ho. cbn [mbind result_bind].
    destruct (Hg PROFILES_KEY "xpedite profiles"%string _ ltac:(right; left) rd (conj eq_refl eq_refl)) as (r' & -> & _). reflexivity.
  - cbn [n_cells]. assert (Hm' : Forall2 (fun cell c => cell_made (notebook_records result_ sn) cell
      (mkReportcell (ct_histogram _ c.2) (zipped <$> ct_routes _ c.2))) cs categories) by exact (proj1 (Forall2_fmap_r _ _ _ categories) Hm).
    refine (Forall2_impl _ _ _ _ Hm' _). intros cell c (H1 & _ & H2). split; [exact H1|].
    cbn [htmlReport] in H2. refine (Forall2_impl _ _ _ _ (proj1 (Forall2_fmap_r zipped _ _ _) H2) _). intros l m (H3 & _ & H4). split; [exact H3|].
    apply Hget; [|apply zip_report_bytes]. exact (Hg _ _ _ H4).
Qed.

(** C25: what the server answers when it cannot serve.  A request without a key or without a notebook
    is told so; one for a notebook without a data file is told which file cannot be read, and is
    no error of the server; a key the driver did not put in the data file raises KeyError, and the
    key of the profiles, which are no compressed text, raises TypeError. *)
Theorem requests_refused home fs result_ sn cells n d3s file :
  proper_dir home -> proper_name (rs_reportName result_) -> f_files fs !! data_path home (rs_reportName result_) = Some file ->
  nb_pickled (R := R) result_ -> Forall drawable (rs_reportCells result_) ->
  buildSnippets (snippet_args (xpd_profiles (rs_profiles result_))) = Ok sn ->
  Z.of_nat (length (dumps (build_layout (fresh_table (notebook_records result_ sn))).1.2)) < 2 ^ 31 ->
  buildReportCells (F := F) result_ = Ok (cells, n, d3s, file) ->
  (forall path, get (F := F) (R := R) home fs None path = Ok MissingArguments) /\
  (forall k, get (F := F) (R := R) home fs k None = Ok MissingArguments) /\
  (forall k name, proper_name name -> isfile fs (data_path home name) = false ->
    get (F := F) (R := R) home fs (Some k) (Some (nb_name name)) = Ok (CannotRead (data_path home name) k)) /\
  (forall k, k ∉ (fst ∘ fst <$> notebook_records result_ sn) ->
    get (F := F) (R := R) home fs (Some k) (Some (nb_name (rs_reportName result_))) = Raise KeyError_) /\
  get (F := F) (R := R) home fs (Some PROFILES_KEY) (Some (nb_name (rs_reportName result_))) = Raise TypeError_.
Proof.
  intros Hh Hn Hf Hp Hd Hsn Hsize Hb. destruct (notebook_file result_ sn Hp Hd Hsn Hsize) as (cs & n' & fs0 & file' & rd & Hb' & Ho & Hg & Hk & _).
  rewrite Hb in Hb'. injection Hb' as -> -> -> ->. split; [done|]. split; [by intros [k|]|]. split; [|split].
  - intros k name Hname Hno. unfold get. rewrite server_path // /read_file. destruct (f_files fs !! data_path home name) eqn:E; [|done].
    apply isfile_lookup in E. congruence.
  - intros k Hin. rewrite (get_file home _ fs file' k) //. unfold report_markup. rewrite Ho. cbn [mbind result_bind]. by rewrite Hk.
  - rewrite (get_file home _ fs file' PROFILES_KEY) //. unfold report_markup. rewrite Ho. cbn [mbind result_bind].
    by destruct (Hg PROFILES_KEY "xpedite profiles"%string _ ltac:(right; left) rd (conj eq_refl eq_refl)) as (r' & -> & _).
Qed.

Context {HT : Tar} {LT : TarLaws}.

Lemma append_assoc a b c : String.append a (String.append b c) = String.append (String.append a b) c.
Proof. by rewrite !append_chars !to_of_chars app_assoc. Qed.

(** What an archive of a notebook holds. *)
Definition archived (name : string) (nbytes dbytes : list Z) : list (string * list Z) :=
  [(nb_name name, nbytes); (path_join DATA_DIR (data_name name), dbytes)].

Lemma archive_dir home name : proper_dir home -> proper_name name -> dirname (archive_path home name) = home.
Proof. intros Hh [Hn _]. apply dirname_file; [done|]. apply no_slash_suffix; [done|]. by apply (bool_decide_unpack _). Qed.

Lemma inflator_paths home name fs : proper_dir home -> proper_name name ->
  find_sub (to_chars NOTEBOOK_EXT) (to_chars (String.append home (String.append "/" name))) = None ->
  Inflator_init fs (nb_path home name) = if isfile fs (archive_path home name) then Raise Exception_
    else Ok (mkInflator (nb_path home name) (nb_name name) (data_name name) (data_path home name) (archive_path home name)).
Proof.
  intros Hh Hn Hx. unfold Inflator_init. rewrite nb_dir // basename_file; [by apply nb_name_plain|].
  rewrite replaced_name // join_data // join_data_name //.
  assert (Hr : py_replace (nb_path home name) NOTEBOOK_EXT ARCHIVE_FILE_EXT = archive_path home name); [|by rewrite Hr].
  unfold nb_path, nb_name, archive_path. rewrite !append_assoc. apply replace_ext. by rewrite -append_assoc.
Qed.

Lemma inflate_ok home name fs nbytes dbytes :
  proper_dir home -> proper_name name -> find_sub (to_chars NOTEBOOK_EXT) (to_chars (String.append home (String.append "/" name))) = None ->
  home ∈ f_dirs fs -> f_files fs !! nb_path home name = Some nbytes -> f_files fs !! data_path home name = Some dbytes ->
  exists_ fs (archive_path home name) = false -> exists m,
  inflate_archive (nb_path home name) fs = (mkFiles (<[archive_path home name := tar_dumps (archived name nbytes dbytes)]> m) (f_dirs fs), Ok tt) /\
    forall p, p <> archive_path home name -> m !! p = f_files fs !! p.
Proof.
  intros Hh Hn Hx Hd Hnb Hdb Ha. apply exists_false in Ha as [Hf Ha].
  unfold inflate_archive. rewrite inflator_paths // Hf. cbn [mbind result_bind i_archivePath]. rewrite write_there //; [by rewrite archive_dir|].
  cbn [mbind result_bind f_files f_dirs]. set (m := <[archive_path home name := []]> (f_files fs)).
  assert (Hm : forall p, p <> archive_path home name -> m !! p = f_files fs !! p) by (intros p Hp; apply lookup_insert_ne; congruence).
  assert (Hne : forall p b, f_files fs !! p = Some b -> m !! p = Some b).
  { intros p b Hp. rewrite Hm //. intros ->. apply isfile_lookup in Hp. congruence. }
  apply Hne in Hnb, Hdb. exists m. split; [|exact Hm]. unfold inflate. cbn [i_notebookPath i_dataFilePath i_notebookName i_dataFileName].
  rewrite (isfile_lookup (mkFiles m (f_dirs fs)) _ _ Hnb) (isfile_lookup (mkFiles m (f_dirs fs)) _ _ Hdb). cbn [negb]. unfold read_file. cbn [f_files].
  rewrite Hnb Hdb. reflexivity.
Qed.

Lemma extract_ok path fs n b target : path_join path n = target -> fs_ok fs -> dirname (dirname target) ∈ f_dirs fs ->
  isfile fs (dirname target) = false -> target ∉ f_dirs fs -> target <> dirname target -> exists fs',
  extract path fs (n, b) = Ok fs' /\ f_files fs' = <[target := b]> (f_files fs) /\
    (forall p, p ∈ f_dirs fs' <-> p = dirname target \/ p ∈ f_dirs fs) /\ fs_ok fs'.
Proof.
  intros Hj Hok Hd Hf Ht Hne. destruct (make_dirs_child fs (dirname target) Hok Hd Hf) as (fs1 & Hm & Hfiles & Hdirs & Hok1).
  assert (Ht1 : target ∉ f_dirs fs1) by (rewrite Hdirs; by intros [?|?]).
  eexists. split; [unfold extract; cbn [fst snd]; rewrite Hj Hm; cbn [mbind result_bind]; rewrite write_there //; apply Hdirs; by left|].
  cbn [f_files f_dirs]. rewrite -Hfiles. split; [done|]. split; [exact Hdirs|]. by apply write_ok.
Qed.

Lemma deflate_ok dest name fs nbytes dbytes : proper_dir dest -> proper_name name -> fs_ok fs -> dest ∈ f_dirs fs ->
  isfile fs (data_dir dest) = false -> nb_path dest name ∉ f_dirs fs -> data_path dest name ∉ f_dirs fs -> exists fs',
  mfor (extract dest) fs (archived name nbytes dbytes) = Ok fs' /\
    f_files fs' !! nb_path dest name = Some nbytes /\ f_files fs' !! data_path dest name = Some dbytes.
Proof.
  intros Hh Hn Hok Hd Hdd Hnd Hdn. unfold archived. cbn [mfor].
  assert (Hj1 : path_join dest (nb_name name) = nb_path dest name) by (apply join_dir; [done|]; exact (no_slash_relative _ (nb_name_plain _ Hn))).
  destruct (extract_ok dest fs (nb_name name) nbytes _ Hj1 Hok) as (fs1 & -> & Hf1 & Hd1 & Hok1).
  { rewrite nb_dir //. by apply Hok. }
  { rewrite nb_dir //. destruct (isfile fs dest) eqn:E; [|done]. by apply (ok_disjoint _ Hok) in E. }
  { done. }
  { rewrite nb_dir //. intros E. apply Hnd. by rewrite E. }
  cbn [mbind result_bind]. rewrite nb_dir // in Hd1.
  assert (Hj2 : path_join dest (path_join DATA_DIR (data_name name)) = data_path dest name).
  { assert (Hp : proper_dir DATA_DIR) by (by exists (to_chars "xpDat"), "a"%char).
    rewrite (join_dir DATA_DIR) //; [exact (no_slash_relative _ (data_name_plain _ Hn))|]. rewrite join_dir //.
    unfold data_path, data_dir. by rewrite !append_assoc. }
  destruct (extract_ok dest fs1 (path_join DATA_DIR (data_name name)) dbytes _ Hj2 Hok1) as (fs2 & -> & Hf2 & _ & _).
  { rewrite data_path_dir // data_dir_home //. apply Hd1. by left. }
  { rewrite data_path_dir //. unfold isfile. rewrite Hf1. rewrite lookup_insert_ne; [|exact Hdd].
    apply (not_data_dir dest name dest NOTEBOOK_EXT "b"%char); done. }
  { rewrite Hd1. intros [E|E]; [by apply (data_path_longer dest name)|done]. }
  { rewrite data_path_dir //. by apply data_not_dir. }
  cbn [mbind result_bind]. exists fs2. split; [done|]. rewrite Hf2 Hf1. rewrite lookup_insert_eq. split; [|done].
  rewrite lookup_insert_ne; [by apply data_not_nb|]. apply lookup_insert_eq.
Qed.

(** C24: an archive moved elsewhere serves the same reports.  When the notebook and its data file
    are in a directory and no archive of that name is, packing them succeeds; unpacking the
    archive into any directory where nothing is in the way succeeds, puts the same bytes at the
    places the driver would use there, and the server started there answers every request of a
    report the way it did before, and loads the same profiles. *)
Theorem archive_serves_same home name dest temp fs nbytes dbytes :
  proper_dir home -> proper_dir dest -> proper_name name -> find_sub (to_chars NOTEBOOK_EXT) (to_chars (String.append home (String.append "/" name))) = None ->
  fs_ok fs -> home ∈ f_dirs fs -> dest ∈ f_dirs fs ->
  f_files fs !! nb_path home name = Some nbytes -> f_files fs !! data_path home name = Some dbytes ->
  exists_ fs (archive_path home name) = false ->
  isfile fs (data_dir dest) = false -> nb_path dest name ∉ f_dirs fs -> data_path dest name ∉ f_dirs fs ->
  exists fs1 fs2, inflate_archive (nb_path home name) fs = (fs1, Ok tt) /\
    deflate_archive (archive_path home name) (Some dest) temp fs1 = Ok (dest, fs2) /\
    f_files fs2 !! nb_path dest name = Some nbytes /\ f_files fs2 !! data_path dest name = Some dbytes /\
    (forall k m, get (F := F) (R := R) home fs (Some k) (Some (nb_name name)) = Ok (Html m) ->
      get (F := F) (R := R) dest fs2 (Some k) (Some (nb_name name)) = Ok (Html m)) /\
    loadProfiles (F := F) (R := R) fs2 (buildXpdPath dest (nb_name name)) = loadProfiles fs (buildXpdPath home (nb_name name)).
Proof.
  intros Hh Hhd Hn Hx Hok Hd Hdd Hnb Hdb Ha Hdf Hnd Hdn.
  destruct (inflate_ok home name fs nbytes dbytes) as (m & Hi & Hm); [done..|].
  apply exists_false in Ha as [Hf Ha]. set (fs1 := mkFiles (<[archive_path home name := tar_dumps (archived name nbytes dbytes)]> m) (f_dirs fs)) in *.
  assert (Hfile : forall p, p <> archive_path home name -> isfile fs1 p = isfile fs p).
  { intros p Hp. unfold isfile, fs1. cbn. rewrite lookup_insert_ne; [congruence|]. by rewrite Hm. }
  assert (Hok1 : fs_ok fs1).
  { split; [|apply Hok]. intros p Hp Hin. destruct (decide (p = archive_path home name)) as [->|Hne]; [done|].
    rewrite Hfile // in Hp. by apply (ok_disjoint _ Hok p). }
  destruct (deflate_ok dest name fs1 nbytes dbytes Hhd Hn Hok1 Hdd) as (fs2 & Hx2 & Hn2 & Hd2); [|done|done|].
  { rewrite Hfile //. intros E. by apply (not_data_dir dest name home ARCHIVE_FILE_EXT "d"%char). }
  exists fs1, fs2. split_and!; [exact Hi| |exact Hn2|exact Hd2| |].
  - unfold deflate_archive, read_file, fs1. cbn [f_files]. rewrite lookup_insert_eq. cbn [or_raise mbind result_bind]. rewrite tar_round.
    cbn [mbind result_bind]. assert (He : nonempty dest = true); [|by rewrite He Hx2].
    destruct Hhd as (l & c & -> & _). by destruct l.
  - intros k mk. rewrite (get_file dest name fs2 dbytes) // (get_file home name fs dbytes) //. destruct (report_markup dbytes k) as [x|[]]; done.
  - unfold loadProfiles, read_file. by rewrite !server_path // Hdb Hd2.
Qed.

(** An archive that fails stays: without a data file nothing is packed, but the archive is there
    and no archive of the notebook can be made any more. *)
Theorem failed_archive_blocks home name fs nbytes :
  proper_dir home -> proper_name name -> find_sub (to_chars NOTEBOOK_EXT) (to_chars (String.append home (String.append "/" name))) = None ->
  home ∈ f_dirs fs -> f_files fs !! nb_path home name = Some nbytes -> isfile fs (data_path home name) = false ->
  exists_ fs (archive_path home name) = false -> exists fs1,
  inflate_archive (nb_path home name) fs = (fs1, Raise Exception_) /\
  forall m, (forall p, is_Some (f_files fs1 !! p) -> is_Some (m !! p)) -> let fs2 := mkFiles m (f_dirs fs1) in
    inflate_archive (nb_path home name) fs2 = (fs2, Raise Exception_).
Proof.
  intros Hh Hn Hx Hd Hnb Hno [Hf Ha]%exists_false.
  assert (Hne : archive_path home name <> data_path home name).
  { intros E. apply (f_equal dirname) in E. rewrite archive_dir // data_path_dir // in E. by apply (data_dir_longer home). }
  unfold inflate_archive at 1. rewrite inflator_paths // Hf.
  cbn [mbind result_bind i_archivePath]. rewrite write_there //; [by rewrite archive_dir|]. cbn [mbind result_bind f_files f_dirs].
  assert (Hi : inflate (mkInflator (nb_path home name) (nb_name name) (data_name name) (data_path home name) (archive_path home name))
    (mkFiles (<[archive_path home name := []]> (f_files fs)) (f_dirs fs)) = Raise Exception_).
  { unfold inflate. cbn [i_notebookPath i_dataFilePath]. destruct (isfile _ (nb_path home name)); [|done]. cbn [negb].
    unfold isfile. cbn [f_files]. rewrite lookup_insert_ne //. by rewrite /isfile in Hno; rewrite Hno. }
  rewrite Hi. eexists. split; [reflexivity|]. intros m Hm. cbn zeta. unfold inflate_archive. rewrite inflator_paths //.
  assert (He : isfile (mkFiles m (f_dirs fs)) (archive_path home name) = true).
  { apply bool_decide_eq_true. apply Hm. cbn [f_files]. by rewrite lookup_insert_eq. }
  cbn [f_dirs]. by rewrite He.
Qed.
End ServedFacts.

(** A report whose name has the extension of a notebook in it: the extension is replaced twice,
    and the server looks for a data file the driver did not write. *)
Theorem notebook_name_lost : buildXpdPath "/home/u" "a.ipynb.ipynb" = "/home/u/xpData/a.xpd.xpd"%string /\
  data_path "/home/u" "a.ipynb" = "/home/u/xpData/a.ipynb.xpd"%string.
Proof. split; vm_compute; reflexivity. Qed.

(** ** Example *)

#[local] Existing Instance layout_pickle.
#[local] Existing Instance layout_pickle_laws.
#[local] Existing Instance Timeline.ex_float.
#[local] Instance ex_nb_zip : Zip Z := {
  zip_report _ := [31; 139]; zip_text s := [Z.of_nat (String.length s) mod 256]; zip_snippets l := [Z.of_nat (length l) mod 256] }.
#[local] Instance ex_nb_zip_laws : ZipLaws Z.
Proof. split; intros; repeat constructor; cbn; try lia; apply Z.mod_pos_bound; lia. Qed.
#[local] Instance ex_nb_format : NbFormat Z := { nb_text nb := [Z.of_nat (length (n_cells nb))] }.
#[local] Instance ex_nb_tar : Tar := {
  tar_dumps l := [Z.pos (encode l)];
  tar_loads b := match b with [Z.pos p] => or_raise ValueError_ (decode p) | _ => Raise ValueError_ end }.
#[local] Instance ex_nb_tar_laws : TarLaws.
Proof. split. intros l. cbn. by rewrite decode_encode. Qed.

Definition ex_nb_profiles : Profiles Z unit := mkProfiles _ "xpedite-demo" tt [Conflate.mkProfile "demo" ex_tls []].
Definition ex_nb_markup : Markup (F := Z) := mkMarkup "route" "route" "a - b" (mkReportDoc (mkStatsReport "Transaction" 1 [] []) [] "route" None (mkTimelineTable [] [])).
Definition ex_nb_categories : list (string * Category (HistogramDoc (F := Z))) :=
  [("Transaction", mkCategory _ "Transaction" (mkHistogramDoc "Transaction" "latency" [(0%nat, "10 us")] [("current run", [(1, 3)])]) [ex_nb_markup])]%string.
#[local] Instance ex_nb_pickle : Pickle (NbObject (F := Z) (R := unit)) := {
  dumps o := match o with NbZip b => 0 :: b | NbProfiles _ => [1] end;
  loads b := match b with 0 :: b => Ok (NbZip b) | _ => Ok (NbProfiles (xpd_profiles ex_nb_profiles)) end }.
Definition ex_nb_result : Result_ := Result_init 7 ex_nb_profiles "env" "environment" "cpu" ex_nb_categories.
Definition ex_nb_files : Files := mkFiles ∅ {["/"; "/home"; "/mnt"]}%string.
Definition ex_nb_snippets : list Snippet :=
  match buildSnippets (snippet_args (xpd_profiles ex_nb_profiles)) with Ok sn => sn | Raise _ => [] end.

Lemma ex_nb_files_ok : fs_ok ex_nb_files.
Proof.
  split; [intros p Hp; vm_compute in Hp; discriminate Hp|]. intros d. unfold ex_nb_files. cbn [f_dirs].
  rewrite !elem_of_union !elem_of_singleton. intros [[->| ->]| ->]; left; left; reflexivity.
Qed.
Lemma ex_nb_name : proper_name "xpedite-demo".
Proof. split; [by apply (bool_decide_unpack _)|reflexivity]. Qed.
Lemma ex_nb_home : proper_dir "/home".
Proof. by exists (to_chars "/hom"), "e"%char. Qed.
Lemma ex_nb_mount : proper_dir "/mnt".
Proof. by exists (to_chars "/mn"), "t"%char. Qed.
Lemma ex_nb_pickled : nb_pickled ex_nb_result.
Proof. split; [intros b|]; eexists; split; reflexivity. Qed.

Example links_served_witness : exists nb fs', render "demo" "/tmp/x" (Some "/home"%string) ex_nb_result ex_nb_files = Ok (Some ("/home"%string, nb), fs') /\
  get (F := Z) (R := unit) "/home" fs' (Some "envReport"%string) (Some (nb_name "xpedite-demo")) = Ok (Html [3]).
Proof.
  destruct (links_served "demo" "/tmp/x" "/home" 7 ex_nb_profiles "env" "environment" "cpu" ex_nb_categories ex_nb_snippets ex_nb_files)
    as (nb & fs' & Hr & _ & He & _).
  - exact ex_nb_home.
  - exact ex_nb_name.
  - exact ex_nb_files_ok.
  - by apply (bool_decide_unpack _).
  - reflexivity.
  - reflexivity.
  - reflexivity.
  - discriminate.
  - repeat constructor; [discriminate|eexists; reflexivity].
  - exact ex_nb_pickled.
  - vm_compute. reflexivity.
  - vm_compute. reflexivity.
  - exists nb, fs'. split; [exact Hr|exact He].
Defined.

(** The data file of the example, and a disk it is on. *)
Definition ex_nb_built : list NbCell * option nat * list (D3Flot (F := Z)) * list Z :=
  match buildReportCells ex_nb_result with Ok x => x | Raise _ => ([], None, [], []) end.
Definition ex_nb_disk : Files :=
  mkFiles {[nb_path "/home" "xpedite-demo" := [1]; data_path "/home" "xpedite-demo" := ex_nb_built.2]} ({["/home/xpData"%string]} ∪ f_dirs ex_nb_files).

Example requests_refused_witness :
  get (F := Z) (R := unit) "/home" ex_nb_disk (Some PROFILES_KEY) (Some (nb_name "xpedite-demo")) = Raise TypeError_ /\
  get (F := Z) (R := unit) "/home" ex_nb_disk (Some "report2"%string) (Some (nb_name "xpedite-demo")) = Raise KeyError_.
Proof.
  destruct (requests_refused "/home" ex_nb_disk ex_nb_result ex_nb_snippets ex_nb_built.1.1.1 ex_nb_built.1.1.2 ex_nb_built.1.2 ex_nb_built.2)
    as (_ & _ & _ & Hk & Hp).
  - exact ex_nb_home.
  - exact ex_nb_name.
  - vm_compute. reflexivity.
  - exact ex_nb_pickled.
  - repeat constructor; [discriminate|eexists; reflexivity].
  - vm_compute. reflexivity.
  - vm_compute. reflexivity.
  - vm_compute. reflexivity.
  - split; [exact Hp|]. apply Hk. apply (bool_decide_unpack _). vm_compute. exact I.
Defined.

Lemma ex_nb_disk_ok : fs_ok ex_nb_disk.
Proof.
  split.
  - intros p Hp. apply bool_decide_eq_true in Hp as [b Hb]. unfold ex_nb_disk in Hb. cbn [f_files] in Hb.
    apply lookup_insert_Some in Hb as [[<- _]|[_ Hb]]; [apply (bool_decide_unpack _); vm_compute; exact I|].
    apply lookup_singleton_Some in Hb as [<- _]. apply (bool_decide_unpack _). vm_compute. exact I.
  - intros d. unfold ex_nb_disk, ex_nb_files. cbn [f_dirs]. rewrite !elem_of_union !elem_of_singleton.
    intros [->|[[->| ->]| ->]]; [right; left; right|right; left; left..]; reflexivity.
Qed.

Example archive_serves_same_witness : exists fs1 fs2,
  inflate_archive (nb_path "/home" "xpedite-demo") ex_nb_disk = (fs1, Ok tt) /\
  deflate_archive (archive_path "/home" "xpedite-demo") (Some "/mnt"%string) "/tmp/x" fs1 = Ok ("/mnt"%string, fs2) /\
  get (F := Z) (R := unit) "/mnt" fs2 (Some "report1"%string) (Some (nb_name "xpedite-demo")) = Ok (Html [31; 139]).
Proof.
  destruct (archive_serves_same "/home" "xpedite-demo" "/mnt" "/tmp/x" ex_nb_disk [1] ex_nb_built.2) as (fs1 & fs2 & Hi & Hd & _ & _ & Hg & _).
  - exact ex_nb_home.
  - exact ex_nb_mount.
  - exact ex_nb_name.
  - reflexivity.
  - exact ex_nb_disk_ok.
  - by apply (bool_decide_unpack _).
  - by apply (bool_decide_unpack _).
  - reflexivity.
  - reflexivity.
  - reflexivity.
  - reflexivity.
  - apply (bool_decide_unpack _). vm_compute. exact I.
  - apply (bool_decide_unpack _). vm_compute. exact I.
  - exists fs1, fs2. split; [exact Hi|]. split; [exact Hd|]. apply Hg. vm_compute. reflexivity.
Defined.
