(* ===== verification/Generator.v ===== *)
(** * The generator of profile infos

    Models profiler/profileInfoGenerator.py and [Profiler.generate]: the probes of a process,
    asked for or read from its info file, are written as the python code of a profile info.  A
    regular expression is the function that gives the length of its match at a place; [re_sub]
    and [findall] go through a text with it.  Texts put into the template have no backslash. *)

From Stdlib Require Import Ascii.
From S2P Require Import Prelude PyStr Probe Records Storage Target Admin.

#[local] Arguments Nat.leb : simpl never.

(** ** Regular expressions *)

(** [re.sub] of a pattern whose matches are not empty. *)
Fixpoint re_sub (match_at : chars -> option nat) (repl : chars) (skip : nat) (l : chars) : chars :=
  match l with
  | [] => []
  | c :: l' =>
      match skip with
      | S skip => re_sub match_at repl skip l'
      | O => match match_at l with
             | Some n => repl ++ re_sub match_at repl (n - 1) l'
             | None => c :: re_sub match_at repl 0 l'
             end
      end
  end.

(** The rightmost place of a text, as a greedy pattern finds it. *)
Definition last_sub (p l : chars) : option nat := (fun j => (length l - j - length p)%nat) <$> find_sub (rev p) (rev l).

(** A key, anything, and the last quote of the line; a key, anything, and the last bracket at the
    beginning of a line. *)
Definition nl : ascii := "010"%char.
Definition quoted_at (key l : chars) : option nat :=
  if starts_with key l then
    (fun i => (length key + i + 1)%nat) <$> last_sub ["'"%char] (take_while (fun c => negb (Ascii.eqb c nl)) (drop (length key) l))
  else None.
Definition block_at (key l : chars) : option nat :=
  if starts_with key l then (fun i => (length key + i + 2)%nat) <$> last_sub [nl; "]"%char] (drop (length key) l) else None.

Definition is_lower (c : ascii) : bool := (is_alpha c && (97 <=? Z.of_nat (nat_of_ascii c)))%bool.
Definition is_upnum (c : ascii) : bool := ((is_alpha c && negb (is_lower c)) || is_digit c)%bool.

(** [probeNameFormatter]: capitals or a digit before small letters, or capitals and digits; the
    look-ahead after these has an empty branch and always succeeds. *)
Definition word_at (l : chars) : chars :=
  match l with
  | c :: l' =>
      if is_upnum c then
        match l' with
        | d :: _ => if is_lower d then c :: take_while is_lower l' else take_while is_upnum l
        | [] => [c]
        end
      else take_while is_lower l
  | [] => []
  end.

(** [findall]; every step takes a word or drops a character. *)
Fixpoint findall (fuel : nat) (l : chars) : list chars :=
  match fuel, l with
  | S fuel, c :: l' =>
      match word_at l with
      | [] => findall fuel l'
      | w => w :: findall fuel (drop (length w) l)
      end
  | _, _ => []
  end.

(** ** [ProfileInfoGenerator] *)

Definition underscores_out (l : chars) : chars := (fun c => if Ascii.eqb c "_" then " "%char else c) <$> l.
Definition display_name (sys : string) : string :=
  of_chars (underscores_out (join_chars [" "%char] (findall (length (to_chars sys)) (to_chars sys)))).

(** [generateNames]: a probe without a name of the system is no text to search. *)
Definition generateNames (p : Probe) : result (string * string) :=
  sys ← or_raise TypeError_ (sysName p); Ok (sys, display_name sys).

Definition probe_type (p : Probe) : string :=
  if canBeginTxn p then "TxnBeginProbe" else if canSuspendTxn p then "TxnSuspendProbe"
  else if canResumeTxn p then "TxnResumeProbe" else if canEndTxn p then "TxnEndProbe" else "Probe".

Definition probe_line (kind display sys : string) : string :=
  cat ["  "; kind; "('"; display; "', sysName = '"; sys; "'),"].

Definition generate_line (p : Probe) : result string := '(sys, display) ← generateNames p; Ok (probe_line (probe_type p) display sys).

(** [generateProbes], with the line breaks between its lines. *)
Definition generateProbes (probes : list Probe) : result string :=
  lines ← mmap generate_line probes;
  Ok (py_join newline ("probes = ["%string :: lines ++ ["]"%string])).

(** The sort of [__init__]. *)
Definition sort_probes (probes : list Probe) : list Probe :=
  py_sort (fun a b => str_leb (getCanonicalName a) (getCanonicalName b)) probes.

(** [generate]: what is written to the new profile info. *)
Definition generate (appName appHost appInfoPath : string) (probes : list Probe) (template : result string) : result string :=
  let probes := sort_probes probes in
  data ← (match template with Ok d => Ok (to_chars d) | Raise _ => Raise Exception_ end);
  let set_var (name value : string) data :=
    re_sub (quoted_at (to_chars name)) (to_chars (cat [name; "'"; value; "'"])) 0 data in
  let data := set_var "appName = " appName data in
  let data := set_var "appHost = " appHost data in
  let data := set_var "appInfo = " appInfoPath data in
  probeDataStr ← generateProbes probes;
  Ok (of_chars (re_sub (block_at (to_chars "probes =")) (to_chars probeDataStr) 0 data)).

(** ** [Profiler.generate] *)

Section Generate.
Context {W : Type} {HW : AdminPort W} (connect restart : W -> result W).

(** [_loadProbes]: the probes of the process, or, when it cannot be asked, those of its info
    file; without a file that could be read there is no dict of probes. *)
Definition _loadProbes (info : result AppInfo) (w : W) : result (list Probe) :=
  match (_ ← info; w ← connect w; w ← pingApp restart w; loadProbes None w), info with
  | Ok (ps, _), _ => Ok ps
  | Raise _, Ok info => Ok (ai_probes info).*2
  | Raise _, Raise _ => Raise AttributeError_
  end.

Definition Profiler_generate (t : FsNode) (appInfoPath : Path) (abspath : string) (hostname : option string) (template : result string) (w : W)
    : result (option string) :=
  let hostname := match hostname with Some h => if nonempty h then h else "localhost"%string | None => "localhost"%string end in
  let info := lines ← read_lines t appInfoPath; AppInfo_load None lines in
  probes ← _loadProbes info w;
  match probes with
  | [] => Ok None
  | _ => info ← info; Some <$> generate (ai_executableName info) hostname abspath probes template
  end.
End Generate.

(** ** Names for people *)

Definition is_alnum (c : ascii) : bool := (is_alpha c || is_digit c)%bool.

Lemma lower_alnum c : is_lower c = true -> is_alnum c = true /\ is_upnum c = false.
Proof.
  unfold is_lower, is_upnum, is_lower, is_alnum. intros [Ha Hl]%andb_prop. rewrite Ha Hl. split; [done|]. cbn.
  destruct (is_digit c) eqn:E; [|done]. exfalso. unfold is_digit in E. apply existsb_exists in E as (d & Hd & Hc%Ascii.eqb_eq). subst d.
  cbn in Hd. repeat destruct Hd as [<-|Hd]; try done.
Qed.
Lemma upnum_alnum c : is_upnum c = true -> is_alnum c = true.
Proof. unfold is_upnum, is_alnum. destruct (is_alpha c), (is_lower c), (is_digit c); done. Qed.
Lemma alnum_cases c : is_alnum c = true -> is_upnum c = true \/ is_lower c = true.
Proof. unfold is_upnum, is_alnum. destruct (is_alpha c), (is_lower c), (is_digit c); auto. Qed.

Lemma take_while_split p l : l = take_while p l ++ drop (length (take_while p l)) l /\ Forall (fun c => p c = true) (take_while p l).
Proof.
  induction l as [|c l [IH1 IH2]]; cbn; [done|]. destruct (p c) eqn:E; cbn; [|done]. split; [by f_equal|by constructor].
Qed.

(** A word is the beginning of the text, of letters and digits, and is empty only before another
    character or at the end. *)
Lemma word_at_spec l : l = word_at l ++ drop (length (word_at l)) l /\ Forall (fun c => is_alnum c = true) (word_at l) /\
  (word_at l = [] -> match l with c :: _ => is_alnum c = false | [] => True end).
Proof.
  destruct l as [|c l]; [done|]. cbn [word_at]. destruct (is_upnum c) eqn:Eu.
  - assert (Hu : Forall (fun c => is_alnum c = true) (take_while is_upnum (c :: l))).
    { eapply Forall_impl; [apply take_while_split|]. exact upnum_alnum. }
    destruct l as [|d l]; [split; [done|]; split; [|done]; apply Forall_cons_2; [by apply upnum_alnum|apply Forall_nil_2]|]. destruct (is_lower d).
    + destruct (take_while_split is_lower (d :: l)) as [H1 H2]. split; [|split; [|done]].
      * cbn [length drop app]. by rewrite -H1.
      * constructor; [by apply upnum_alnum|]. eapply Forall_impl; [exact H2|]. intros x Hx. by apply lower_alnum.
    + split; [apply take_while_split|]. split; [exact Hu|]. cbn. by rewrite Eu.
  - destruct (take_while_split is_lower (c :: l)) as [H1 H2]. split; [exact H1|]. split.
    + eapply Forall_impl; [exact H2|]. intros x Hx. by apply lower_alnum.
    + cbn. destruct (is_lower c) eqn:El; [done|]. intros _. destruct (is_alnum c) eqn:Ea; [|done]. apply alnum_cases in Ea as [?|?]; congruence.
Qed.

Definition alnums (l : chars) : chars := filter (fun c => is_alnum c = true) l.

Lemma alnums_all l : Forall (fun c => is_alnum c = true) l -> alnums l = l.
Proof. intros H. unfold alnums. induction H as [|c l Hc _ IH]; [done|]. by rewrite filter_cons_True // IH. Qed.

(** The words are all letters and digits of the text, in order. *)
Lemma findall_spec fuel l : (length l <= fuel)%nat -> mjoin (findall fuel l) = alnums l /\
  Forall (fun w => w <> [] /\ Forall (fun c => is_alnum c = true) w) (findall fuel l).
Proof.
  revert l. induction fuel as [|fuel IH]; intros l Hf; [by destruct l; [|cbn in Hf; lia]|]. destruct l as [|c l]; [done|].
  cbn [findall]. destruct (word_at_spec (c :: l)) as (H1 & H2 & H3). destruct (word_at (c :: l)) as [|x w] eqn:E.
  - specialize (H3 eq_refl). cbn in Hf. destruct (IH l) as [IH1 IH2]; [lia|]. split; [|exact IH2]. rewrite IH1. unfold alnums. by rewrite filter_cons_False // H3.
  - set (r := drop (length (x :: w)) (c :: l)) in *. destruct (IH r) as [IH1 IH2].
    { unfold r. rewrite length_drop. cbn [length] in *. lia. }
    split; [|by constructor]. cbn [mjoin list_join]. change (foldr app [] (findall fuel r)) with (mjoin (findall fuel r)).
    rewrite IH1 H1. unfold alnums. rewrite filter_app. f_equal. symmetry. by apply alnums_all.
Qed.

Lemma alnum_no_underscore c : is_alnum c = true -> Ascii.eqb c "_" = false /\ Ascii.eqb c " " = false /\ Ascii.eqb c "'" = false /\ Ascii.eqb c nl = false.
Proof. intros H. destruct (Ascii.eqb_spec c "_"%char), (Ascii.eqb_spec c " "%char), (Ascii.eqb_spec c "'"%char), (Ascii.eqb_spec c nl); subst; done. Qed.

Lemma join_words ws : Forall (fun w => w <> [] /\ Forall (fun c => is_alnum c = true) w) ws ->
  alnums (underscores_out (join_chars [" "%char] ws)) = mjoin ws /\
  Forall (fun c => is_alnum c = true \/ c = " "%char) (underscores_out (join_chars [" "%char] ws)).
Proof.
  assert (Hid : forall w, Forall (fun c => is_alnum c = true) w -> underscores_out w = w).
  { intros w Hw. unfold underscores_out. induction Hw as [|c w Hc _ IH]; [done|]. cbn. destruct (alnum_no_underscore c Hc) as (-> & _). by f_equal. }
  induction 1 as [|w ws [_ Hw] Hws IH]; [done|]. assert (Hor : Forall (fun c => is_alnum c = true \/ c = " "%char) w) by (eapply Forall_impl; [exact Hw|]; auto).
  destruct ws as [|w' ws].
  - cbn [join_chars mjoin list_join foldr]. rewrite Hid // app_nil_r. split; [by apply alnums_all|done].
  - destruct IH as [IH1 IH2]. change (join_chars [" "%char] (w :: w' :: ws)) with (w ++ [" "%char] ++ join_chars [" "%char] (w' :: ws)).
    assert (Happ : forall a b, underscores_out (a ++ b) = underscores_out a ++ underscores_out b) by (intros; apply fmap_app).
    rewrite !Happ (Hid w Hw). split.
    + unfold alnums in *. rewrite !filter_app IH1. change (mjoin (w :: w' :: ws)) with (w ++ mjoin (w' :: ws)).
      exact (f_equal (fun x => x ++ mjoin (w' :: ws)) (alnums_all w Hw)).
    + apply Forall_app. split; [done|]. apply Forall_app. split; [|done]. apply Forall_cons_2; [by right|apply Forall_nil_2].
Qed.

(** The name for people is made of letters, digits and blanks, and its letters and digits are
    those of the name of the system. *)
Lemma display_name_spec sys : alnums (to_chars (display_name sys)) = alnums (to_chars sys) /\
  Forall (fun c => is_alnum c = true \/ c = " "%char) (to_chars (display_name sys)).
Proof.
  unfold display_name. rewrite to_of_chars. destruct (findall_spec (length (to_chars sys)) (to_chars sys) (le_n _)) as [H1 H2].
  destruct (join_words _ H2) as [H3 H4]. by rewrite H3 H1.
Qed.

(** A word of capitals takes the capital of the next one with it. *)
Theorem display_name_acronym : display_name "parseHTTPServer" = "parse HTTPS erver"%string.
Proof. reflexivity. Qed.

(** ** Reading the generated code *)

(** What python makes of a line with a probe: the constructor is called. *)
Definition cut (sep l : chars) : option (chars * chars) := (fun i => (take i l, drop (i + length sep) l)) <$> find_sub sep l.

Definition construct (kind : string) (name sys : string) : option (result Probe) :=
  if String.eqb kind "TxnBeginProbe" then Some (TxnBeginProbe_init name (Some sys))
  else if String.eqb kind "TxnSuspendProbe" then Some (TxnSuspendProbe_init name (Some sys))
  else if String.eqb kind "TxnResumeProbe" then Some (TxnResumeProbe_init name (Some sys))
  else if String.eqb kind "TxnEndProbe" then Some (TxnEndProbe_init name (Some sys))
  else if String.eqb kind "Probe" then Some (Probe_init CProbe name (Some sys))
  else None.

Definition read_probe (line : chars) : option (result Probe) :=
  '(kind, rest) ← cut (to_chars "('") (drop 2 line);
  '(name, rest) ← cut (to_chars "', sysName = '") rest;
  '(sys, rest) ← cut (to_chars "'),") rest;
  match rest with [] => construct (of_chars kind) (of_chars name) (of_chars sys) | _ => None end.

(** The list a module defines: a line that opens it, one for each probe, and one that closes it. *)
Definition read_probes (text : string) : option (result (list Probe)) :=
  match split_chars [nl] (to_chars text) with
  | opening :: lines =>
      if (bool_decide (opening = to_chars "probes = [") && bool_decide (last lines = Some (to_chars "]")))%bool then
        ps ← mapM read_probe (take (length lines - 1) lines);
        Some (mmap (fun p => p) ps)
      else None
  | [] => None
  end.

(** A name that can stand between quotes. *)
Definition plain_sys (sys : string) : Prop :=
  sys <> ""%string /\ "'"%char ∉ to_chars sys /\ nl ∉ to_chars sys.

Lemma cut_first c sep x y : c ∉ x -> cut (c :: sep) (x ++ (c :: sep) ++ y) = Some (x, y).
Proof.
  intros Hx. unfold cut. assert (H : find_sub (c :: sep) (x ++ (c :: sep) ++ y) = Some (length x)).
  { induction x as [|d x IH].
    - cbn [app length]. change (c :: sep ++ y) with ((c :: sep) ++ y). pose proof (starts_with_app (c :: sep) y) as E. cbn [app] in *.
      cbn [find_sub]. by rewrite E.
    - apply not_elem_of_cons in Hx as [Hd Hx]. cbn [app find_sub starts_with length]. rewrite (proj2 (Ascii.eqb_neq c d) Hd). cbn [andb].
      cbn [app] in IH. by rewrite IH. }
  rewrite H. cbn [fmap option_fmap option_map]. rewrite take_app_length. do 2 f_equal.
  rewrite app_assoc. apply drop_app_length'. by rewrite length_app.
Qed.

Definition built (p q : Probe) : Prop :=
  cls q = (if canBeginTxn p then CTxnBeginProbe else if canSuspendTxn p then CTxnSuspendProbe
           else if canResumeTxn p then CTxnResumeProbe else if canEndTxn p then CTxnEndProbe else CProbe) /\
  sysName q = sysName p /\ pname q = display_name (default "" (sysName p)) /\
  canBeginTxn q = canBeginTxn p /\ canSuspendTxn q = (negb (canBeginTxn p) && canSuspendTxn p)%bool /\
  canResumeTxn q = (negb (canBeginTxn p) && negb (canSuspendTxn p) && canResumeTxn p)%bool /\
  canEndTxn q = (negb (canBeginTxn p) && negb (canSuspendTxn p) && negb (canResumeTxn p) && canEndTxn p)%bool.

Lemma construct_built p sys : sysName p = Some sys -> sys <> ""%string -> exists q,
  construct (probe_type p) (display_name sys) sys = Some (Ok q) /\ built p q.
Proof.
  intros Hs Hne. assert (Ht : truthy_str (Some sys) = true) by (cbn; unfold nonempty; by rewrite (proj2 (String.eqb_neq _ _) Hne)).
  unfold built, probe_type. rewrite Hs. cbn [default].
  destruct (canBeginTxn p), (canSuspendTxn p), (canResumeTxn p), (canEndTxn p); cbn;
    unfold TxnBeginProbe_init, TxnSuspendProbe_init, TxnResumeProbe_init, TxnEndProbe_init, Probe_init; rewrite Ht; cbn;
    eexists; split; reflexivity || (split_and!; reflexivity).
Qed.

Lemma display_plain sys : "'"%char ∉ to_chars (display_name sys) /\ nl ∉ to_chars (display_name sys).
Proof.
  destruct (display_name_spec sys) as [_ H]. rewrite Forall_forall in H.
  split; intros Hin; destruct (H _ Hin) as [E|E]; discriminate E.
Qed.

Lemma kind_plain p : "("%char ∉ to_chars (probe_type p) /\ nl ∉ to_chars (probe_type p).
Proof. unfold probe_type. repeat case_match; split; by apply (bool_decide_unpack _). Qed.

Lemma line_chars kind display sys : to_chars (probe_line kind display sys) =
  to_chars "  " ++ to_chars kind ++ to_chars "('" ++ to_chars display ++ to_chars "', sysName = '" ++ to_chars sys ++ to_chars "'),".
Proof. unfold probe_line, cat. rewrite to_of_chars. cbn [fmap list_fmap mjoin list_join foldr]. by rewrite app_nil_r. Qed.

Lemma read_line p sys : sysName p = Some sys -> plain_sys sys -> exists q,
  read_probe (to_chars (probe_line (probe_type p) (display_name sys) sys)) = Some (Ok q) /\ built p q.
Proof.
  intros Hs (Hne & Hq & _). destruct (construct_built p sys Hs Hne) as (q & Hc & Hb). exists q. split; [|exact Hb].
  unfold read_probe. rewrite line_chars. change (drop 2 (to_chars "  " ++ ?x)) with x.
  change (to_chars "('") with ("("%char :: ["'"%char]). rewrite cut_first; [apply kind_plain|]. cbn [mbind option_bind].
  change (to_chars "', sysName = '") with ("'"%char :: to_chars ", sysName = '"). rewrite cut_first; [apply display_plain|]. cbn [mbind option_bind].
  change (to_chars "'),") with ("'"%char :: to_chars "),"). rewrite -(app_nil_r ("'"%char :: to_chars "),")) cut_first //. cbn [mbind option_bind].
  by rewrite !of_to_chars.
Qed.

Lemma line_plain p sys : plain_sys sys -> nl ∉ to_chars (probe_line (probe_type p) (display_name sys) sys).
Proof.
  intros (_ & _ & Hn). rewrite line_chars. rewrite !not_elem_of_app. destruct (kind_plain p), (display_plain sys).
  split_and!; try done; by apply (bool_decide_unpack _).
Qed.

Definition has_name (p : Probe) : Prop := exists sys, sysName p = Some sys /\ plain_sys sys.

Lemma lines_read ps : Forall has_name ps -> exists lines rs qs, mmap generate_line ps = Ok lines /\
  Forall (fun l => nl ∉ to_chars l) lines /\ mapM read_probe (to_chars <$> lines) = Some rs /\ mmap (fun p => p) rs = Ok qs /\ Forall2 built ps qs.
Proof.
  induction 1 as [|p ps (sys & Hs & Hp) _ (lines & rs & qs & H1 & H2 & H3 & H4 & H5)]; [by exists [], [], []|].
  destruct (read_line p sys Hs Hp) as (q & Hq & Hb). exists (probe_line (probe_type p) (display_name sys) sys :: lines), (Ok q :: rs), (q :: qs).
  split_and!.
  - assert (Hg : generate_line p = Ok (probe_line (probe_type p) (display_name sys) sys)) by (unfold generate_line, generateNames; by rewrite Hs).
    cbn [mmap]. by rewrite Hg H1.
  - constructor; [by apply line_plain|done].
  - cbn [fmap list_fmap mapM]. by rewrite Hq /= H3.
  - cbn [mmap mbind result_bind]. by rewrite H4.
  - by constructor.
Qed.

(** C33: the probes of a generated profile info are those of the process.  When every probe has a name
    without quotes and line breaks, the code can be generated, and read by python it is a list
    with one probe for each probe of the process, in the order of their names; each has the name
    of the system, the first of the roles to begin, suspend, resume and end a transaction that
    the probe has, as its class, and a name for people whose letters and digits are those of the
    name of the system. *)
Theorem generated_probes ps : Forall has_name ps -> exists text qs,
  generateProbes (sort_probes ps) = Ok text /\ read_probes text = Some (Ok qs) /\ sort_probes ps ≡ₚ ps /\
  StronglySorted (fun p q => str_leb (getCanonicalName p) (getCanonicalName q) = true) (sort_probes ps) /\
  Forall2 (fun p q => built p q /\ alnums (to_chars (pname q)) = alnums (to_chars (default "" (sysName p)))) (sort_probes ps) qs.
Proof.
  intros Hps. assert (Hs : Forall has_name (sort_probes ps)) by (unfold sort_probes; by rewrite py_sort_perm).
  destruct (lines_read _ Hs) as (lines & rs & qs & H1 & H2 & H3 & H4 & H5). unfold generateProbes. rewrite H1. cbn [mbind result_bind].
  exists (py_join newline ("probes = ["%string :: lines ++ ["]"%string])), qs. split_and!; [done| |apply py_sort_perm| |].
  - unfold read_probes, py_join. rewrite to_of_chars. change (to_chars newline) with [nl]. rewrite split_join_char; [done| |].
    + rewrite fmap_cons fmap_app. apply Forall_cons_2; [by apply (bool_decide_unpack _)|]. apply Forall_app. split; [by apply Forall_fmap|].
      apply Forall_cons_2; [by apply (bool_decide_unpack _)|apply Forall_nil_2].
    + rewrite fmap_cons fmap_app. cbn [fmap list_fmap]. rewrite last_snoc !bool_decide_true //. cbn [andb].
      rewrite length_app /= Nat.add_sub take_app_length. change (list_fmap string chars to_chars lines) with (to_chars <$> lines).
      rewrite H3. cbn [mbind option_bind]. by rewrite H4.
  - apply py_sort_sorted; intros *; [apply str_leb_total|apply str_leb_trans].
  - refine (Forall2_impl _ _ _ _ H5 _). intros p q Hb. split; [exact Hb|]. destruct Hb as (_ & _ & -> & _). apply display_name_spec.
Qed.

(** A probe without a name of the system, which is all an unnamed anchored probe lacks, stops the
    generator. *)
Theorem unnamed_probe_raises p ps : sysName p = None -> generateProbes (p :: ps) = Raise TypeError_.
Proof. intros H. unfold generateProbes. cbn [mmap]. by rewrite /generate_line /generateNames H. Qed.

Definition ex_gen_probe (sys : string) : Probe := AbstractProbe_init CProbe sys (Some sys).

Example generated_probes_witness : exists text qs,
  generateProbes (sort_probes [ex_gen_probe "parse_begin"; set_flag "canEndTxn" (ex_gen_probe "MsgAlloc2")]) = Ok text /\
  read_probes text = Some (Ok qs) /\ (fun q => (pname q, canEndTxn q)) <$> qs = [("Msg Alloc 2", true); ("parse begin", false)]%string.
Proof.
  destruct (generated_probes [ex_gen_probe "parse_begin"; set_flag "canEndTxn" (ex_gen_probe "MsgAlloc2")]) as (text & qs & Hg & Hr & _).
  - apply Forall_cons_2; [|apply Forall_cons_2; [|apply Forall_nil_2]]; eexists; (split; [reflexivity|]);
      (split; [discriminate|]); split; by apply (bool_decide_unpack _).
  - exists text, qs. split; [exact Hg|]. split; [exact Hr|]. vm_compute in Hg. injection Hg as <-. vm_compute in Hr. injection Hr as <-. reflexivity.
Defined.
