(* ===== verification/Host.v ===== *)
(** * The host of a process

    Models what the profiler finds out about a host and how it keeps it: util/cpuInfo.py, the
    values [ProxyEnvironment] reads once (profiler/environment.py), the caches of pmu/eventsDb.py,
    pmu/topdown.py and analytics/conflator.py, the readers of /proc, the addresses of
    util/__init__.py, and the tables of the environment report (report/env.py,
    report/profileInfo.py).  What the host answers at one time is a [Machine]. *)

From Stdlib Require Import Ascii.
From S2P Require Import Prelude PyStr Probe Txn Timeline Pmu EventsDb Topdown Admin Session.

(** ** util/cpuInfo.py *)

(** The dict of py-cpuinfo: the entries that are read, and all of them as texts. *)
Record InfoDict := mkInfoDict {
  vendor_id : option string; vendor_id_raw : option string;
  family : option Z; model : option Z; stepping : option Z;
  hz_advertised_raw : option (list Z); hz_advertised : option (list Z);
  info_items : list (string * string) }.

(** ['{:02X}'] *)
Definition upper_hex (v : Z) : string :=
  let digits := upper_char <$> to_chars (print_int 16 v) in
  of_chars (if (length digits <? 2)%nat then "0"%char :: digits else digits).

Definition truthy_list {A} (o : option (list A)) : option (list A) := match o with Some [] => None | _ => o end.
Definition truthy_text (o : option string) : option string := match o with Some s => if nonempty s then o else None | None => None end.
Definition truthy_int (o : option Z) : option Z := match o with Some z => if z =? 0 then None else o | None => None end.

(** [_loadId]. *)
Definition loadId (info : InfoDict) : result string :=
  match (match truthy_text (vendor_id info) with Some v => Some v | None => truthy_text (vendor_id_raw info) end) with
  | Some vendorId =>
      f ← or_raise KeyError_ (family info);
      m ← or_raise KeyError_ (model info);
      let vendorIdString := py_join "-" [vendorId; print_int 10 f; upper_hex m] in
      Ok (match truthy_int (stepping info) with
          | Some s => cat [vendorIdString; "-"; print_int 10 s]
          | None => vendorIdString
          end)
  | None => Raise Exception_
  end.

(** [_loadAdvertisedHz]. *)
Definition loadAdvertisedHz (info : InfoDict) : result Z :=
  match (match truthy_list (hz_advertised_raw info) with Some l => Some l | None => truthy_list (hz_advertised info) end) with
  | Some (hz :: _) => Ok hz
  | _ => Raise Exception_
  end.

Record FullCpuInfo := mkFullCpuInfo { fc_info : InfoDict; fc_cpuId : string; advertisedHz : Z }.

(** [CpuInfo.__init__]; [localhost] is what the package finds. *)
Definition CpuInfo_load (localhost : InfoDict) (info : option InfoDict) : result FullCpuInfo :=
  let info := match info with Some i => match info_items i with [] => localhost | _ => i end | None => localhost end in
  id ← loadId info; hz ← loadAdvertisedHz info; Ok (mkFullCpuInfo info id hz).

(** ** [ProxyEnvironment]: values that are read once *)

Record Machine := mkMachine { mc_cpuInfo : InfoDict; mc_uname : list string; mc_cmdline : result string }.

Record Proxy := mkProxy {
  px_fullCpuInfo : option FullCpuInfo; px_cpuId : option string; px_osUname : option (list string); px_bootParam : option string;
  keepAliveCount : Z }.
Definition Proxy_init : Proxy := mkProxy None None None None 0.

Definition getFullCpuInfo (m : Machine) (p : Proxy) : result (FullCpuInfo * Proxy) :=
  match px_fullCpuInfo p with
  | Some i => Ok (i, p)
  | None => i ← CpuInfo_load (mc_cpuInfo m) None; Ok (i, mkProxy (Some i) (px_cpuId p) (px_osUname p) (px_bootParam p) (keepAliveCount p))
  end.

Definition getCpuId (m : Machine) (p : Proxy) : result (string * Proxy) :=
  match truthy_text (px_cpuId p) with
  | Some i => Ok (i, p)
  | None =>
      '(full, p) ← getFullCpuInfo m p;
      Ok (fc_cpuId full, mkProxy (px_fullCpuInfo p) (Some (fc_cpuId full)) (px_osUname p) (px_bootParam p) (keepAliveCount p))
  end.

Definition getOsUname (m : Machine) (p : Proxy) : result (list string * Proxy) :=
  match truthy_list (px_osUname p) with
  | Some u => Ok (u, p)
  | None => Ok (mc_uname m, mkProxy (px_fullCpuInfo p) (px_cpuId p) (Some (mc_uname m)) (px_bootParam p) (keepAliveCount p))
  end.

Definition getBootParam (m : Machine) (p : Proxy) : result (string * Proxy) :=
  match truthy_text (px_bootParam p) with
  | Some b => Ok (b, p)
  | None => b ← mc_cmdline m; Ok (b, mkProxy (px_fullCpuInfo p) (px_cpuId p) (px_osUname p) (Some b) (keepAliveCount p))
  end.

Definition keepAlive (p : Proxy) : Proxy :=
  mkProxy (px_fullCpuInfo p) (px_cpuId p) (px_osUname p) (px_bootParam p) (keepAliveCount p + 1).

(** [Environment.getCpuClockFrequencyRaw]: without a frequency of the process the comparison, whose
    outcome is only logged, is a TypeError. *)
Definition getCpuClockFrequencyRaw (tscHz : option Z) (m : Machine) (p : Proxy) : result (Z * Proxy) :=
  '(full, p) ← getFullCpuInfo m p;
  _ ← or_raise TypeError_ tscHz;
  Ok (advertisedHz full, p).

(** [Environment.getCpuInfo]. *)
Definition getCpuInfo {F} `{PyFloat F} (tscHz : option Z) (m : Machine) (p : Proxy) : result (CpuInfo F * Proxy) :=
  '(id, p) ← getCpuId m p;
  '(hz, p) ← getCpuClockFrequencyRaw tscHz m p;
  Ok (CpuInfo_init id hz, p).

(** ** Files of /proc *)

(** [getVmStats], of the lines of the status file, or nothing when it cannot be read. *)
Definition vm_line (r : list (string * string)) (line : string) : result (list (string * string)) :=
  if starts_with (to_chars "Vm") (to_chars line) then
    let parts := py_words line in
    key ← py_nth parts 0;
    value ← py_index parts (Z.of_nat (length parts) - 2);
    Ok (od_set String.eqb key value r)
  else Ok r.
Definition getVmStats (lines : result (list string)) : result (list (string * string)) :=
  match lines with Ok lines => mfor vm_line [] lines | Raise _ => Ok [] end.

(** [meminfo]. *)
Definition meminfo_line (r : list (string * string)) (line : string) : result (list (string * string)) :=
  let words := py_split ":" line in
  key ← py_nth words 0; value ← py_nth words 1; Ok (od_set String.eqb key (py_strip value) r).
Definition meminfo (lines : list string) : result (list (string * string)) := mfor meminfo_line [] lines.

(** ** util/__init__.py *)

Definition parseAddress (ipStr : string) : result (string * Z) :=
  match py_split ":" ipStr with
  | [ip; port] => n ← py_int 10 port; Ok (ip, n)
  | _ => Raise Exception_
  end.

(** A port is a number or the name of a service; [getservbyname] is the resolver. *)
Inductive PortArg := PortInt (n : Z) | PortStr (s : string).
Definition parsePort (getservbyname : string -> result Z) (port : PortArg) : result Z :=
  match port with
  | PortInt n => Ok n
  | PortStr s => match py_int 10 s with
                 | Ok n => Ok n
                 | Raise ValueError_ => getservbyname s
                 | Raise e => Raise e
                 end
  end.

(** [formatHumanReadable]; the two texts of a number are given. *)
Section Human.
Context {F : Type} {HF : PyFloat F} (narrow wide : F -> string).
Definition f_abs (x : F) : F := if f_lt x (f_of_Z 0) then f_sub (f_of_Z 0) x else x.
Fixpoint human_units (units : list string) (byteCount : F) (suffix : string) : string :=
  match units with
  | unit :: units =>
      if f_lt (f_abs byteCount) (f_of_Z 1024) then cat [narrow byteCount; " "; unit; suffix]
      else human_units units (f_div byteCount (f_of_Z 1024)) suffix
  | [] => cat [wide byteCount; " "; "Yi"; suffix]
  end.
Definition formatHumanReadable (byteCount : F) (suffix : string) : string :=
  human_units ["" ; "Ki"; "Mi"; "Gi"; "Ti"; "Pi"; "Ei"; "Zi"]%string byteCount suffix.
End Human.

(** ** Caches by cpu *)

Section Caches.
Context {D T : Type}.

(** [EventsDbCache.get] and [Conflator.getEventsDb]. *)
Definition cache_get {V} (load : string -> result V) (cpuId : string) (cache : list (string * V)) : result (V * list (string * V)) :=
  match od_get String.eqb cpuId cache with
  | Some v => Ok (v, cache)
  | None => v ← load cpuId; Ok (v, od_set String.eqb cpuId v cache)
  end.

(** [TopdownCache.get] and [Conflator.getTopdown]: the database comes from its own cache. *)
Definition topdown_get (load : string -> result D) (build : D -> result T) (cpuId : string)
    (s : list (string * T) * list (string * D)) : result (T * (list (string * T) * list (string * D))) :=
  match od_get String.eqb cpuId s.1 with
  | Some t => Ok (t, s)
  | None => '(db, dbs) ← cache_get load cpuId s.2; t ← build db; Ok (t, (od_set String.eqb cpuId t s.1, dbs))
  end.
End Caches.

(** [loadEventsDb]: [specs] is the manifest, [read] what a file of events parses to. *)
Definition loadEventsDb (specs : list (string * UarchSpec)) (read : option string -> result (list Rec)) (cpuId : string)
    : result (UarchSpec * EventsMap) :=
  spec ← spec_getitem specs cpuId;
  spec ← or_raise Exception_ spec;
  records ← read (coreEventsDbFile spec);
  eventsMap ← loadJson records;
  match eventsMap with [] => Raise Exception_ | _ => Ok (spec, eventsMap) end.

(** ** The report of the environment *)

(** A table is its header and its rows, each a number and texts. *)
Record EnvTable := mkEnvTable { et_header : list string; et_rows : list (Z * list string) }.

Definition numbered_rows (rows : list (list string)) : list (Z * list string) := imap (fun i r => (Z.of_nat (S i), r)) rows.

(** What the report asks of an app. *)
Record HostApp := mkHostApp { ha_name : string; ha_ip : string; ha_pid : string; ha_appInfoPath : string; ha_runId : string }.

Section EnvReport.
Context (show_uname : list string -> string) (now user : string).

(** [buildEnvironmentTable]. *)
Definition buildEnvironmentTable (a : HostApp) (m : Machine) (p : Proxy) : result (EnvTable * Proxy) :=
  '(uname, p) ← getOsUname m p;
  '(boot, p) ← getBootParam m p;
  let details := [["application"; ha_name a]; ["report time"; now]; ["host"; ha_ip a]; ["pid"; ha_pid a]; ["user"; user];
                  ["os"; show_uname uname]; ["os boot param"; boot]]%string in
  Ok (mkEnvTable ["No"; "Parameter"; "Value"]%string (numbered_rows details), p).

(** [buildCpuInfoTable]. *)
Definition buildCpuInfoTable (m : Machine) (p : Proxy) : result (EnvTable * Proxy) :=
  '(info, p) ← getFullCpuInfo m p;
  Ok (mkEnvTable ["No"; "Info"; "Value"]%string (numbered_rows ((fun kv => [kv.1; kv.2]) <$> info_items (fc_info info))), p).

(** ** report/profileInfo.py *)

Definition buildProbeTable (probes : list Probe) : EnvTable :=
  mkEnvTable ["Probe #"; "Probe"; "SysName"]%string (numbered_rows ((fun p => [pname p; default "None"%string (sysName p)]) <$> probes)).

Definition py_flag (b : bool) : string := if b then "True" else "False".
Definition buildPmcTable (pmcs : list Event) : EnvTable :=
  mkEnvTable ["PMC #"; "Name"; "Uarch Name"; "User"; "Kernel"]%string
    (numbered_rows ((fun e => [ename e; uarchName e; py_flag (euser e); py_flag (ekernel e)]) <$> pmcs)).

(** The parts of [buildReport], each a heading with a list, a table or source code. *)
Inductive Part := PList (title : option string) (items : list string) | PTable (title : string) (t : EnvTable) | PCode (title code : string).

Definition profileInfo_report (a : HostApp) (resultOrder classifier txnFilter : option string) (events : list Event)
    (probes : list Probe) (benchmarkPaths : list string) : list Part :=
  let infos := [cat ["App Name = "; ha_name a]; cat ["App Host = "; ha_ip a]; cat ["App Info = "; ha_appInfoPath a]; cat ["xpedite Run = "; ha_runId a]] in
  let infos := match resultOrder with Some o => infos ++ [cat ["Result Order = "; o]] | None => infos end in
  [PList None infos; PTable "Probes" (buildProbeTable probes)] ++
  match benchmarkPaths with [] => [] | _ => [PList (Some "Benchmarks"%string) benchmarkPaths] end ++
  match events with [] => [] | _ => [PTable "Performance Counters" (buildPmcTable events)] end ++
  match txnFilter with Some c => [PCode "Transaction Filter" c] | None => [] end ++
  match classifier with Some c => [PCode "Transaction Classifier" c] | None => [] end.

(** [generateEnvironmentReport]: the tables of the host and the profile info, each in a tab. *)
Definition generateEnvironmentReport (a : HostApp) (resultOrder classifier txnFilter : option string) (events : list Event)
    (probes : list Probe) (benchmarkPaths : list string) (m : Machine) (p : Proxy) : result (list (string * list Part) * Proxy) :=
  '(envTable, p) ← buildEnvironmentTable a m p;
  '(cpuInfoTable, p) ← buildCpuInfoTable m p;
  Ok ([("Host Info"%string, [PTable "Test Environment parameters" envTable; PTable "Test Environment cpu info" cpuInfoTable]);
       ("Profile Info"%string, profileInfo_report a resultOrder classifier txnFilter events probes benchmarkPaths)], p).
End EnvReport.

(** ** Values that stay *)

Inductive Query := QInfo | QId | QUname | QBoot | QKeepAlive.
Inductive Answer := AInfo (i : FullCpuInfo) | AId (id : string) | AUname (u : list string) | ABoot (b : string) | ANone.

Definition ask (q : Query) (m : Machine) (p : Proxy) : result (Answer * Proxy) :=
  match q with
  | QInfo => '(i, p) ← getFullCpuInfo m p; Ok (AInfo i, p)
  | QId => '(i, p) ← getCpuId m p; Ok (AId i, p)
  | QUname => '(u, p) ← getOsUname m p; Ok (AUname u, p)
  | QBoot => '(b, p) ← getBootParam m p; Ok (ABoot b, p)
  | QKeepAlive => Ok (ANone, keepAlive p)
  end.

(** Queries at different times; one that raises changes nothing. *)
Definition ask_all (p : Proxy) (qs : list (Query * Machine)) : Proxy :=
  fold_left (fun p qm => match ask qm.1 qm.2 p with Ok (_, p) => p | Raise _ => p end) qs p.

(** An answer that is kept: it is not empty. *)
Definition kept_answer (a : Answer) : Prop :=
  match a with AId i => i <> ""%string | AUname u => u <> [] | ABoot b => b <> ""%string | _ => True end.

(** The id that is kept is that of the information that is kept. *)
Definition proxy_inv (p : Proxy) : Prop :=
  forall i, truthy_text (px_cpuId p) = Some i -> exists full, px_fullCpuInfo p = Some full /\ fc_cpuId full = i.

(** What a proxy knows, another one knows too. *)
Definition knows_more (p p' : Proxy) : Prop :=
  (forall i, px_fullCpuInfo p = Some i -> px_fullCpuInfo p' = Some i) /\
  (forall i, truthy_text (px_cpuId p) = Some i -> truthy_text (px_cpuId p') = Some i) /\
  (forall u, truthy_list (px_osUname p) = Some u -> truthy_list (px_osUname p') = Some u) /\
  (forall b, truthy_text (px_bootParam p) = Some b -> truthy_text (px_bootParam p') = Some b).

#[export] Instance knows_more_preorder : PreOrder knows_more.
Proof. split; [by intros p|]. intros p q r (H1 & H2 & H3 & H4) (H5 & H6 & H7 & H8). split_and!; auto. Qed.

Lemma truthy_text_some s : s <> ""%string -> truthy_text (Some s) = Some s.
Proof. intros H. cbn. unfold nonempty. by rewrite (proj2 (String.eqb_neq _ _) H). Qed.
Lemma truthy_text_Some o s : truthy_text o = Some s -> o = Some s /\ s <> ""%string.
Proof.
  destruct o as [x|]; cbn; [|done]. unfold nonempty. destruct (String.eqb_spec x ""); cbn; [done|]. by intros [= ->].
Qed.

Lemma getFullCpuInfo_step m p i p' : getFullCpuInfo m p = Ok (i, p') ->
  px_fullCpuInfo p' = Some i /\ (forall j, px_fullCpuInfo p = Some j -> j = i) /\
  px_cpuId p' = px_cpuId p /\ px_osUname p' = px_osUname p /\ px_bootParam p' = px_bootParam p.
Proof.
  unfold getFullCpuInfo. destruct (px_fullCpuInfo p) as [j|] eqn:E; [intros [= -> ->]; rewrite E; split_and!; congruence|].
  intros H. apply bind_Ok in H as (x & _ & [= -> <-]). by split_and!.
Qed.

(** Every answer is in the proxy afterwards, and what was known still is. *)
Definition recorded (a : Answer) (p : Proxy) : Prop :=
  match a with
  | AInfo i => px_fullCpuInfo p = Some i
  | AId i => i <> ""%string -> truthy_text (px_cpuId p) = Some i
  | AUname u => u <> [] -> truthy_list (px_osUname p) = Some u
  | ABoot b => b <> ""%string -> truthy_text (px_bootParam p) = Some b
  | ANone => True
  end.

Lemma ask_step q m p a p' : proxy_inv p -> ask q m p = Ok (a, p') -> recorded a p' /\ knows_more p p' /\ proxy_inv p'.
Proof.
  intros Hi. destruct q; cbn [ask]; intros H.
  - apply bind_Ok in H as ([i p1] & H & [= <- <-]). apply getFullCpuInfo_step in H as (H1 & H2 & H3 & H4 & H5).
    unfold knows_more, proxy_inv. cbn [recorded]. rewrite H3 H4 H5. split_and!; auto; [intros j Hj; by rewrite H1 (H2 j Hj)|].
    intros j Hj. destruct (Hi j Hj) as (full & Hf & He). exists full. by rewrite H1 -(H2 _ Hf).
  - apply bind_Ok in H as ([i p1] & H & [= <- <-]). unfold getCpuId in H. destruct (truthy_text (px_cpuId p)) as [j|] eqn:E.
    + injection H as <- <-. cbn. rewrite E. split; [done|]. by split.
    + apply bind_Ok in H as ([full p2] & H & [= <- <-]). apply getFullCpuInfo_step in H as (H1 & H2 & H3 & H4 & H5).
      unfold knows_more, proxy_inv. cbn [recorded px_fullCpuInfo px_cpuId px_osUname px_bootParam]. rewrite H4 H5. split_and!; auto.
      * apply truthy_text_some.
      * intros j Hj. by rewrite H1 (H2 j Hj).
      * intros j Hj. congruence.
      * intros j [[= <-] _]%truthy_text_Some. by exists full.
  - apply bind_Ok in H as ([u p1] & H & [= <- <-]). unfold getOsUname in H. destruct (truthy_list (px_osUname p)) as [v|] eqn:E; injection H as <- <-.
    + cbn. rewrite E. split; [done|]. by split.
    + unfold knows_more, proxy_inv. cbn. split_and!; auto; [|congruence]. intros Hne. by destruct (mc_uname m).
  - apply bind_Ok in H as ([b p1] & H & [= <- <-]). unfold getBootParam in H. destruct (truthy_text (px_bootParam p)) as [c|] eqn:E.
    + injection H as <- <-. cbn. rewrite E. split; [done|]. by split.
    + apply bind_Ok in H as (x & _ & [= -> <-]). unfold knows_more, proxy_inv. cbn [recorded px_fullCpuInfo px_cpuId px_osUname px_bootParam].
      split_and!; auto; [apply truthy_text_some|congruence].
  - injection H as <- <-. cbn. split; [done|]. by split.
Qed.

Lemma ask_all_step qs p : proxy_inv p -> knows_more p (ask_all p qs) /\ proxy_inv (ask_all p qs).
Proof.
  revert p. induction qs as [|[q m] qs IH]; intros p Hi; cbn; [by split|]. destruct (ask q m p) as [[a p']|] eqn:E; [|by apply IH].
  destruct (ask_step _ _ _ _ _ Hi E) as (_ & Hk & Hi'). destruct (IH p' Hi') as [Hk' Hi'']. split; [exact (transitivity Hk Hk')|done].
Qed.

Lemma ask_known q m p a p' b : proxy_inv p -> recorded b p -> kept_answer b -> ask q m p = Ok (a, p') ->
  match q, b with QInfo, AInfo _ | QId, AId _ | QUname, AUname _ | QBoot, ABoot _ => a = b | _, _ => True end.
Proof.
  intros _ Hr Hk H. destruct q, b; try done; cbn in Hr, Hk, H; apply bind_Ok in H as ([x p1] & H & [= <- _]).
  - unfold getFullCpuInfo in H. rewrite Hr in H. by injection H as -> _.
  - unfold getCpuId in H. rewrite Hr // in H. by injection H as -> _.
  - unfold getOsUname in H. rewrite Hr // in H. by injection H as -> _.
  - unfold getBootParam in H. rewrite Hr // in H. by injection H as -> _.
Qed.

Lemma recorded_more a p p' : knows_more p p' -> recorded a p -> recorded a p'.
Proof. intros (H1 & H2 & H3 & H4). destruct a; cbn; auto. Qed.

(** A report is about one reading of its host.  Whatever is asked in between and however the host
    changes, a question that had an answer gets the same answer again, unless it was empty; and
    the id of the cpu is at any time that of the information on the cpu that is kept. *)
Theorem answers_steady before between q m m' p1 a p2 a' :
  ask q m (ask_all Proxy_init before) = Ok (a, p1) -> kept_answer a ->
  ask q m' (ask_all p1 between) = Ok (a', p2) ->
  a' = a /\ (forall i, truthy_text (px_cpuId p2) = Some i -> exists full, px_fullCpuInfo p2 = Some full /\ fc_cpuId full = i).
Proof.
  intros H1 Hk H2. assert (Hi : proxy_inv Proxy_init) by done.
  destruct (ask_all_step before _ Hi) as [_ Hi1]. destruct (ask_step _ _ _ _ _ Hi1 H1) as (Hr & _ & Hi2).
  destruct (ask_all_step between _ Hi2) as [Hm Hi3]. split; [|exact (proj2 (proj2 (ask_step _ _ _ _ _ Hi3 H2)))].
  pose proof (ask_known _ _ _ _ _ a Hi3 (recorded_more _ _ _ Hm Hr) Hk H2) as H. clear Hr Hk Hm.
  destruct q; cbn in H1, H2; repeat (apply bind_Ok in H1 as ([? ?] & _ & H1)); repeat (apply bind_Ok in H2 as ([? ?] & _ & H2));
    injection H1 as <- _; injection H2 as <- _; done.
Qed.

(** ** From a cpu to its events *)

Lemma digits_no_dash base v : 2 <= base <= 16 -> 0 <= v -> "-"%char ∉ to_chars (print_int base v).
Proof.
  intros Hb Hv. unfold print_int. rewrite (proj2 (Z.ltb_ge v 0)) // to_of_chars.
  destruct (print_nat_spec base v Hb Hv) as (_ & H & _). rewrite Forall_forall in H. intros Hin.
  destruct (H _ Hin) as (d & E & Hd). destruct (digit_char_facts d) as (_ & Hne & _); [lia|]. by rewrite -E in Hne.
Qed.

Lemma upper_no_dash v : 0 <= v -> "-"%char ∉ to_chars (upper_hex v).
Proof.
  intros Hv. assert (H : "-"%char ∉ (upper_char <$> to_chars (print_int 16 v))).
  { intros (c & E & Hc)%list_elem_of_fmap. unfold upper_char in E.
    destruct ((97 <=? nat_of_ascii c)%nat && (nat_of_ascii c <=? 122)%nat)%bool eqn:Er.
    - apply andb_prop in Er as [H1%Nat.leb_le H2%Nat.leb_le]. apply (f_equal nat_of_ascii) in E.
      rewrite nat_ascii_embedding in E; [lia|]. change (nat_of_ascii "-") with 45%nat in E. lia.
    - subst c. exact (digits_no_dash 16 v ltac:(lia) Hv Hc). }
  unfold upper_hex. destruct (_ <? _)%nat; rewrite to_of_chars; [|done]. apply not_elem_of_cons. done.
Qed.

Lemma of_to_chars_list (l : list string) : of_chars <$> (to_chars <$> l) = l.
Proof. induction l as [|s l IH]; cbn; [done|]. by rewrite of_to_chars IH. Qed.

(** The id of a model, without its stepping. *)
Definition model_id (vendor : string) (f m : Z) : string := py_join "-" [vendor; print_int 10 f; upper_hex m].

Lemma stripStepping_model vendor f m rest : "-"%char ∉ to_chars vendor -> 0 <= f -> 0 <= m ->
  Forall (fun s => "-"%char ∉ to_chars s) rest ->
  stripStepping (py_join "-" (vendor :: print_int 10 f :: upper_hex m :: rest)) = Ok (model_id vendor f m).
Proof.
  intros Hv Hf Hm Hr. unfold stripStepping.
  assert (Hs : py_split "-" (py_join "-" (vendor :: print_int 10 f :: upper_hex m :: rest)) = vendor :: print_int 10 f :: upper_hex m :: rest).
  { unfold py_split, py_join. rewrite to_of_chars. change (to_chars "-") with ["-"%char]. rewrite split_join_char.
    - done.
    - apply Forall_fmap. apply Forall_cons_2; [done|]. apply Forall_cons_2; [apply digits_no_dash; lia|]. apply Forall_cons_2; [by apply upper_no_dash|done].
    - apply of_to_chars_list. }
  rewrite Hs. reflexivity.
Qed.

(** C34: a cpu gets the events of its model.  For a cpu with a vendor whose name has no dash, the id is
    made of the vendor, the family and the model, and of the stepping when there is one other
    than zero; and when the manifest has an entry for the model, a specification is found for
    the id: the entry of the very id if there is one, else that of the model. *)
Theorem cpu_spec_found info vendor f m specs s :
  truthy_text (match truthy_text (vendor_id info) with Some v => Some v | None => vendor_id_raw info end) = Some vendor ->
  "-"%char ∉ to_chars vendor -> family info = Some f -> model info = Some m -> 0 <= f -> 0 <= m ->
  (forall x, stepping info = Some x -> 0 <= x) -> od_get String.eqb (model_id vendor f m) specs = Some s ->
  exists id, loadId info = Ok id /\
    id = match truthy_int (stepping info) with Some x => py_join "-" [vendor; print_int 10 f; upper_hex m; print_int 10 x] | None => model_id vendor f m end /\
    spec_getitem specs id = Ok (Some (default s (od_get String.eqb id specs))).
Proof.
  intros Hv Hd Hf Hm Hf0 Hm0 Hst Hs. unfold loadId.
  assert (Hvendor : (match truthy_text (vendor_id info) with Some v => Some v | None => truthy_text (vendor_id_raw info) end) = Some vendor).
  { destruct (truthy_text (vendor_id info)) as [v|] eqn:E; [|exact Hv]. apply truthy_text_Some in E as [_ Hne]. by rewrite truthy_text_some in Hv. }
  rewrite Hvendor Hf Hm. cbn [or_raise mbind result_bind]. eexists. split; [reflexivity|].
  destruct (truthy_int (stepping info)) as [x|] eqn:Ex.
  - assert (Hx : 0 <= x). { destruct (stepping info) as [y|] eqn:Ey; [|done]. cbn in Ex. destruct (y =? 0); [done|]. injection Ex as ->. by apply Hst. }
    assert (Hid : cat [py_join "-" [vendor; print_int 10 f; upper_hex m]; "-"; print_int 10 x] =
      py_join "-" [vendor; print_int 10 f; upper_hex m; print_int 10 x]).
    { unfold cat, py_join. cbn [fmap list_fmap mjoin list_join foldr join_chars]. rewrite !to_of_chars. f_equal. cbn. by rewrite -!app_assoc /= -!app_assoc app_nil_r. }
    rewrite Hid. split; [done|]. unfold spec_getitem.
    destruct (od_get String.eqb (py_join "-" [vendor; print_int 10 f; upper_hex m; print_int 10 x]) specs) as [s'|] eqn:E; [reflexivity|].
    rewrite (stripStepping_model vendor f m [print_int 10 x]) //; [apply Forall_cons_2; [apply digits_no_dash; lia|apply Forall_nil_2]|].
    cbn [mbind result_bind]. by rewrite Hs.
  - split; [done|]. unfold spec_getitem. fold (model_id vendor f m). by rewrite Hs.
Qed.

(** Entries of the manifest with a set of steppings: these are hexadecimal digits, and the id has
    the decimal number, or none for the first stepping. *)
Definition ex_ho_info (step : Z) : InfoDict :=
  mkInfoDict (Some "GenuineIntel"%string) None (Some 6) (Some 85) (Some step) None (Some [2000000000; 0]) [].
Definition ex_ho_specs : list (string * UarchSpec) :=
  UarchSpecDb_init "/spec" [mkMapRow "GenuineIntel-6-55-[01234]" "/SKX/skylakex.json" "core" "";
    mkMapRow "GenuineIntel-6-55-[56789ABCDEF]" "/CLX/cascadelakex.json" "core" "";
    mkMapRow "GenuineIntel-6-4E" "/SKL/skylake.json" "core" ""]%string.
Definition ex_ho_found (step : Z) : result (option string) := id ← loadId (ex_ho_info step); s ← spec_getitem ex_ho_specs id; Ok (option_map s_name s).

Theorem stepping_lost : ex_ho_found <$> [0; 4; 7; 11] = [Ok None; Ok (Some "SKX"); Ok (Some "CLX"); Ok None]%string.
Proof. vm_compute. reflexivity. Qed.

(** ** Caches *)

Definition cached {V} (load : string -> result V) (cache : list (string * V)) : Prop :=
  forall k v, od_get String.eqb k cache = Some v -> load k = Ok v.

Lemma cache_get_spec {V} (load : string -> result V) k c : cached load c ->
  match cache_get load k c with
  | Ok (v, c') => load k = Ok v /\ cached load c' /\ od_get String.eqb k c' = Some v
  | Raise e => load k = Raise e
  end.
Proof.
  intros Hc. unfold cache_get. destruct (od_get String.eqb k c) as [v|] eqn:E; [split; [by apply Hc|done]|].
  destruct (load k) as [v|e] eqn:El; cbn [mbind result_bind]; [|done]. split; [done|]. split.
  - intros k' v'. rewrite od_get_set. destruct (String.eqb_spec k k') as [<-|_]; [|apply Hc]. intros H. injection H as <-. exact El.
  - apply od_get_set_same, String.eqb_refl.
Qed.

(** Caches change nothing.  Started from caches that hold what loading gives, asking for the
    hierarchy of a cpu gives what loading its events and building it gives, or raises what that
    raises, and the caches still hold what loading gives. *)
Theorem topdown_cache_transparent {D T} (load : string -> result D) (build : D -> result T) k (ts : list (string * T)) (dbs : list (string * D)) :
  cached load dbs -> cached (fun k => load k ≫= build) ts ->
  match topdown_get load build k (ts, dbs) with
  | Ok (t, (ts', dbs')) => load k ≫= build = Ok t /\ cached load dbs' /\ cached (fun k => load k ≫= build) ts'
  | Raise e => load k ≫= build = Raise e
  end.
Proof.
  intros Hd Ht. unfold topdown_get. cbn [fst snd]. destruct (od_get String.eqb k ts) as [t|] eqn:E; [split; [by apply Ht|done]|].
  pose proof (cache_get_spec load k dbs Hd) as H. destruct (cache_get load k dbs) as [[db dbs']|e]; cbn [mbind result_bind]; [|by rewrite H].
  destruct H as (Hl & Hd' & _). rewrite Hl. cbn [mbind result_bind]. destruct (build db) as [t|e] eqn:Eb; cbn [mbind result_bind]; [|done].
  split; [done|]. split; [done|]. intros k' t'. rewrite od_get_set. destruct (String.eqb_spec k k') as [<-|_]; [|apply Ht].
  intros H. injection H as <-. rewrite Hl. exact Eb.
Qed.

(** ** Addresses *)

(** An address that is written with a colon is read back. *)
Theorem parseAddress_roundtrip ip port : ":"%char ∉ to_chars ip -> 0 <= port ->
  parseAddress (py_join ":" [ip; print_int 10 port]) = Ok (ip, port).
Proof.
  intros Hip Hp. unfold parseAddress.
  assert (Hs : py_split ":" (py_join ":" [ip; print_int 10 port]) = [ip; print_int 10 port]).
  { unfold py_split, py_join. rewrite to_of_chars. change (to_chars ":") with [":"%char]. rewrite split_join_char //.
    - apply Forall_fmap. apply Forall_cons_2; [done|]. apply Forall_cons_2; [|apply Forall_nil_2].
      refine ((fun H => H) _ : ":"%char ∉ to_chars (print_int 10 port)). pose proof (digit_forall (fun c => c <> ":"%char) port Hp) as H.
      rewrite Forall_forall in H. intros Hin. apply (H ltac:(intros d Hd; pose proof (Z2Nat.id d); assert (d = 0 \/ d = 1 \/ d = 2 \/ d = 3 \/ d = 4 \/ d = 5 \/ d = 6 \/ d = 7 \/ d = 8 \/ d = 9) as Hc by lia; repeat destruct Hc as [->|Hc]; subst; discriminate) _ Hin). done.
    - cbn. by rewrite !of_to_chars. }
  rewrite Hs. destruct (py_int_print 10 port) as [-> _]; [lia|done|]. reflexivity.
Qed.

(** An address with more than one colon, such as one of ip version 6, is refused. *)
Theorem parseAddress_ip6 : parseAddress "::1:5000" = Raise Exception_.
Proof. reflexivity. Qed.

(** ** Examples *)

Definition ex_ho_machine (user : string) : Machine := mkMachine (ex_ho_info 7) ["Linux"; user]%string (Ok "quiet"%string).
Definition ex_ho_other : Machine := mkMachine (ex_ho_info 4) [] (Ok ""%string).

Example answers_steady_witness : exists a p1 a' p2,
  ask QId (ex_ho_machine "a") (ask_all Proxy_init [(QUname, ex_ho_machine "a")]) = Ok (a, p1) /\
  ask QId ex_ho_other (ask_all p1 [(QBoot, ex_ho_machine "b"); (QKeepAlive, ex_ho_machine "b")]) = Ok (a', p2) /\
  ask QId ex_ho_other Proxy_init <> Ok (a, p1) /\ a' = a.
Proof.
  eexists _, _, _, _. split; [reflexivity|]. split; [reflexivity|]. split; [discriminate|].
  eapply (proj1 (answers_steady [(QUname, ex_ho_machine "a")] [(QBoot, ex_ho_machine "b"); (QKeepAlive, ex_ho_machine "b")] QId (ex_ho_machine "a") ex_ho_other
    _ _ _ _ eq_refl ltac:(discriminate) eq_refl)).
Defined.

Example cpu_spec_found_witness : exists id s, loadId (mkInfoDict (Some ""%string) (Some "GenuineIntel"%string) (Some 6) (Some 78) (Some 3) None None []) = Ok id /\
  spec_getitem ex_ho_specs id = Ok (Some s) /\ s_name s = "SKL"%string.
Proof.
  destruct (cpu_spec_found (mkInfoDict (Some ""%string) (Some "GenuineIntel"%string) (Some 6) (Some 78) (Some 3) None None []) "GenuineIntel" 6 78 ex_ho_specs
    (mkUarchSpec "GenuineIntel-6-4E" "SKL" (Some "/spec/SKL/skylake.json"%string) None)) as (id & Hl & Hid & Hs).
  - reflexivity.
  - by apply (bool_decide_unpack _).
  - reflexivity.
  - reflexivity.
  - lia.
  - lia.
  - intros x [= <-]. lia.
  - vm_compute. reflexivity.
  - eexists id, _. split; [exact Hl|]. split; [exact Hs|]. rewrite Hid. vm_compute. reflexivity.
Defined.
