(* ===== verification/Specs.v ===== *)
(** * Specifications of cpus on disk

    Models pmu/uarchspec/uarchSpecLoader.py with the manifest it reads (csv, as [csv.DictReader] reads
    it) and the options of dependencies/config.py: the events of a cpu are in a file that is downloaded
    once and kept.  [web] is the server: what opening a url and reading it gives or raises; its
    answers are texts.  [parse] of a file of events is left to json. *)

From Stdlib Require Import Ascii.
From S2P Require Import Prelude PyStr EventsDb Admin PathFiles Host.

(** ** dependencies/config.py *)

Record Config := mkConfig {
  logDir : string; uarchSpecPath : string; uarchSpecRepoUrl : string; manifestFileName : string; topdownRatiosRepoUrl : string }.

(** [Config.__init__]: the default of the log directory is made of USER even when it is not used. *)
Definition Config_init (user : option string) (config : list (string * string)) : result Config :=
  user ← or_raise TypeError_ user;
  let get key d := default d (od_get String.eqb key config) in
  Ok (mkConfig (get "logDir" (path_join (path_join "/var/tmp" user) "xpedite"))
        (get "uarchSpecPath" "/var/tmp/xpedite")
        (get "uarchSpecRepoUrl" "https://download.01.org/perfmon/")
        (get "manifestFileName" "mapfile.csv")
        (get "topdownRatiosRepoUrl" "https://raw.githubusercontent.com/andikleen/pmu-tools/93a31782131f907067339c883477075cfedb5451/"))%string.

(** ** The manifest *)

(** A text file, read with its line ends made one. *)
Fixpoint one_newline (l : chars) : chars :=
  match l with
  | "013"%char :: (("010"%char :: _) as l') => one_newline l'
  | "013"%char :: l' => "010"%char :: one_newline l'
  | c :: l' => c :: one_newline l'
  | [] => []
  end.
Definition text_of (data : list Z) : chars := one_newline ((fun b => ascii_of_nat (Z.to_nat b)) <$> data).

(** The states of a csv reader, and its rows; a quoted field may have line ends. *)
Inductive CsvState := StartRecord | StartField | InField | InQuoted | QuoteInQuoted.
Definition quote : ascii := "034"%char.
Definition newline_char : ascii := "010"%char.

Fixpoint csv_rows (st : CsvState) (cur : chars) (row : list string) (l : chars) : list (list string) :=
  let saved := row ++ [of_chars (rev cur)] in
  match l with
  | [] => match st with StartRecord => [] | _ => [saved] end
  | c :: l =>
      match st with
      | StartRecord | StartField =>
          if Ascii.eqb c newline_char then (match st with StartRecord => [] | _ => saved end) :: csv_rows StartRecord [] [] l
          else if Ascii.eqb c quote then csv_rows InQuoted [] row l
          else if Ascii.eqb c "," then csv_rows StartField [] saved l
          else csv_rows InField [c] row l
      | InField =>
          if Ascii.eqb c newline_char then saved :: csv_rows StartRecord [] [] l
          else if Ascii.eqb c "," then csv_rows StartField [] saved l
          else csv_rows InField (c :: cur) row l
      | InQuoted => if Ascii.eqb c quote then csv_rows QuoteInQuoted cur row l else csv_rows InQuoted (c :: cur) row l
      | QuoteInQuoted =>
          if Ascii.eqb c quote then csv_rows InQuoted (c :: cur) row l
          else if Ascii.eqb c newline_char then saved :: csv_rows StartRecord [] [] l
          else if Ascii.eqb c "," then csv_rows StartField [] saved l
          else csv_rows InField (c :: cur) row l
      end
  end.

(** A cell of a row of [DictReader]: of columns with one name the last one counts, and a row that is
    too short has None, which cannot be stripped. *)
Fixpoint last_index (name : string) (i : nat) (names : list string) : option nat :=
  match names with
  | n :: names => match last_index name (S i) names with Some j => Some j | None => if String.eqb n name then Some i else None end
  | [] => None
  end.
Definition cell (names row : list string) (column : string) : result string :=
  i ← or_raise KeyError_ (last_index column 0 names); or_raise AttributeError_ (row !! i).

Definition skipped_role (role : string) : bool := (nonempty (py_strip role) && negb (String.eqb (py_lower (py_strip role)) "core"))%bool.

(** A row as [UarchSpecDb.__init__] reads it. *)
Definition manifest_row (names row : list string) : result MapRow :=
  cpuId ← cell names row "Family-model";
  file ← cell names row "Filename";
  role ← cell names row "Core Role Name";
  type ← (if skipped_role role then Ok ""%string else cell names row "EventType");
  Ok (mkMapRow cpuId file type role).

Definition manifest_rows (data : list Z) : result (list MapRow) :=
  match csv_rows StartRecord [] [] (text_of data) with
  | [] => Ok []
  | names :: rows => mmap (manifest_row names) (filter (fun r => r <> []) rows)
  end.

Definition SpecDb := list (string * UarchSpec).
Definition UarchSpecDb_load (manifestPath : string) (fs : Files) : result SpecDb :=
  data ← read_file fs manifestPath;
  rows ← manifest_rows data;
  Ok (UarchSpecDb_init (dirname manifestPath) rows).

(** ** uarchSpecLoader.py *)

Definition UARCH_SPEC_PKG_NAME : string := "xpedite_uarch_spec".
Definition TOPDOWN_RATIOS_MODULES : list (string * string) :=
  [("IVB", "ivb_client_ratios.py"); ("IVT", "ivb_server_ratios.py"); ("SNB", "snb_client_ratios.py"); ("JKT", "jkt_server_ratios.py");
   ("HSW", "hsw_client_ratios.py"); ("HSX", "hsx_server_ratios.py"); ("BDW", "bdw_client_ratios.py"); ("BDX", "bdx_server_ratios.py");
   ("SKL", "skl_client_ratios.py"); ("SKX", "skx_server_ratios.py"); ("CLX", "clx_server_ratios.py"); ("SLM", "slm_ratios.py");
   ("KNL", "knl_ratios.py")]%string.

Section Loader.
Context (CONFIG : Config) (moduleDir : string) (web : string -> result (list Z)).

Definition topdownPath : string := path_join (path_join (uarchSpecPath CONFIG) "uarchSpec") UARCH_SPEC_PKG_NAME.
Definition uarchSpecDir : string := path_join moduleDir "data".
Definition manifestFilePath : string := path_join uarchSpecDir (manifestFileName CONFIG).

(** [makeTopdownDir]; its result is not looked at. *)
Definition makeTopdownDir (fs : Files) : result Files :=
  if exists_ fs topdownPath then Ok fs
  else match py_mkdir true topdownPath fs with
       | Ok fs => touch (path_join topdownPath "__init__.py") fs
       | Raise OSError_ => Ok fs
       | Raise e => Raise e
       end.

Definition downloadFile (url path : string) (fs : Files) : result (bool * Files) :=
  match web url with
  | Ok data =>
      match write_file path data fs with
      | Ok fs => Ok (true, fs)
      | Raise OSError_ => Ok (false, fs)
      | Raise e => Raise e
      end
  | Raise OSError_ | Raise SocketError_ => Ok (false, fs)
  | Raise e => Raise e
  end.

Definition downloadManifest (fs : Files) : result (bool * Files) :=
  fs ← py_mkdir false (dirname manifestFilePath) fs;
  downloadFile (String.append (uarchSpecRepoUrl CONFIG) (manifestFileName CONFIG)) manifestFilePath fs.

Definition spec_url (name file : string) : string := cat [uarchSpecRepoUrl CONFIG; name; "/"%string; basename file].

Definition downloadUarchSpec (s : UarchSpec) (file : string) (fs : Files) : result (bool * Files) :=
  let path := dirname file in
  fs ← py_mkdir false path fs;
  downloadFile (spec_url (s_name s) file) (path_join path file) fs.

Definition downloadtopdownMetrics (s : UarchSpec) (fs : Files) : result Files :=
  match od_get String.eqb (s_name s) TOPDOWN_RATIOS_MODULES with
  | Some ratiosModuleName =>
      let path := path_join topdownPath (s_name s) in
      if exists_ fs path then Ok fs
      else fs ← py_mkdir false path fs;
           '(_, fs) ← downloadFile (String.append (topdownRatiosRepoUrl CONFIG) ratiosModuleName) (path_join path "__init__.py") fs;
           Ok fs
  | None => Ok fs
  end.

(** One entry of [downloadUarchSpecDb]: without a file of core events there is no path to look for. *)
Definition download_spec (fs : Files) (kv : string * UarchSpec) : result Files :=
  file ← or_raise TypeError_ (coreEventsDbFile kv.2);
  fs ← (if exists_ fs file then Ok fs else '(_, fs) ← downloadUarchSpec kv.2 file fs; Ok fs);
  downloadtopdownMetrics kv.2 fs.

Definition downloadUarchSpecDb (db : SpecDb) (fs : Files) : result Files :=
  fs ← makeTopdownDir fs; mfor download_spec fs db.

Definition loadUarchSpecDb (fs : Files) : result (option SpecDb * Files) :=
  '(there, fs) ← (if exists_ fs manifestFilePath then Ok (true, fs) else downloadManifest fs : result (bool * Files));
  if (there : bool) then
    db ← UarchSpecDb_load manifestFilePath fs;
    match db with [] => Ok (Some db, fs) | _ => fs ← downloadUarchSpecDb db fs; Ok (Some db, fs) end
  else Ok (None, fs).

End Loader.

(** ** A host without the internet, and one with it *)

(** An example: a manifest with a quoted field, a cpu with two rows and one of another core role. *)
Definition bytes_of (s : string) : list Z := (fun c : ascii => Z.of_nat (nat_of_ascii c)) <$> to_chars s.
Definition crlf : string := of_chars ["013"; "010"]%char.
Definition ex_sp_manifest : list Z := bytes_of (cat
  ["Family-model,Version,Filename,EventType,Core Type,Native Model ID,Core Role Name"; crlf;
   "GenuineIntel-6-4E,V52,/SKL/skylake_core_v52.json,core,,,"; crlf;
   "GenuineIntel-6-4E,V52,/SKL/skylake_uncore_v52.json,uncore,,,"; crlf; crlf;
   "GenuineIntel-6-97,v1.01,"; of_chars [quote]; "/ADL/alderlake_goldencove_core_v1.01.json"; of_chars [quote]; ",hybridcore,0x40,0x000001,Core"; crlf;
   "GenuineIntel-6-97,v1.01,/ADL/alderlake_gracemont_core_v1.01.json,hybridcore,0x20,0x000001,Atom"]%string).
Definition ex_sp_config : Config := default (mkConfig "" "" "" "" "") (match Config_init (Some "joe"%string) [("uarchSpecRepoUrl", "http://m/")]%string with Ok c => Some c | _ => None end).
Definition ex_sp_web (url : string) : result (list Z) :=
  if String.eqb url "http://m/mapfile.csv" then Ok ex_sp_manifest
  else if String.eqb url "http://m/SKL/skylake_core_v52.json" then Ok (bytes_of "[1]")
  else Raise OSError_.
Definition ex_sp_fs : Files := mkFiles ∅ (list_to_set ["/"; "/opt"; "/opt/x"]%string).
Definition ex_sp_shown (r : result (option SpecDb * Files)) : result (option (list (string * string)) * list string) :=
  match r with
  | Ok (db, fs) => Ok (option_map (fun db : SpecDb => (fun kv : string * UarchSpec => (kv.1, default ""%string (coreEventsDbFile kv.2))) <$> db) db, (map_to_list (f_files fs)).*1)
  | Raise e => Raise e
  end.

(** ** Downloading what is missing *)

Section Facts.
Context (CONFIG : Config) (moduleDir : string) (web : string -> result (list Z)).
Context (Hweb : forall url e, web url = Raise e -> e = OSError_ \/ e = SocketError_).
Context (Hpath : proper_dir (uarchSpecPath CONFIG)).

Abbreviation topdown := (topdownPath CONFIG).
Abbreviation manifest := (manifestFilePath CONFIG moduleDir).

(** What the server gives, and what is there or comes from it. *)
Definition got (url : string) : option (list Z) := match web url with Ok b => Some b | Raise _ => None end.
Definition available (fs : Files) (url p : string) : option (list Z) := match f_files fs !! p with Some b => Some b | None => got url end.

Definition init_file (d : string) : string := path_join d "__init__.py".

(** The files loading may write. *)
Definition targets (db : SpecDb) : list string :=
  manifest :: init_file topdown :: ((fun nm => init_file (path_join topdown nm.1)) <$> TOPDOWN_RATIOS_MODULES) ++ omap (fun kv => coreEventsDbFile kv.2) db.
Definition target (db : SpecDb) (p : string) : Prop := p ∈ targets db.

(** An entry with a file of core events, named after the directory of this file. *)
Definition placed (s : UarchSpec) : Prop :=
  exists f, coreEventsDbFile s = Some f /\ head (to_chars f) = Some "/"%char /\ s_name s = basename (dirname f) /\
    basename f <> "__init__.py"%string /\ f <> manifest.

Lemma init_dirname d : proper_dir d -> dirname (init_file d) = d /\ basename (init_file d) = "__init__.py"%string.
Proof.
  intros Hd. unfold init_file. rewrite join_dir //. split; [apply dirname_file; [done|]|apply basename_file]; by apply (bool_decide_unpack _).
Qed.

Lemma join_proper d b : proper_dir d -> to_chars b <> [] -> "/"%char ∉ to_chars b -> proper_dir (path_join d b).
Proof. intros Hd Hb Hs. rewrite join_dir //; [|by apply proper_child]. by apply no_slash_relative. Qed.

Lemma topdown_proper : proper_dir topdown.
Proof. unfold topdownPath. apply join_proper; [apply join_proper; [done|done|]|done|]; by apply (bool_decide_unpack _). Qed.

Lemma modules_plain n m : (n, m) ∈ TOPDOWN_RATIOS_MODULES -> to_chars n <> [] /\ "/"%char ∉ to_chars n.
Proof.
  assert (H : Forall (fun nm => to_chars nm.1 <> [] /\ "/"%char ∉ to_chars nm.1) TOPDOWN_RATIOS_MODULES) by (by apply (bool_decide_unpack _)).
  rewrite Forall_forall in H. apply H.
Qed.

Lemma package_proper n m : (n, m) ∈ TOPDOWN_RATIOS_MODULES -> proper_dir (path_join topdown n).
Proof. intros [H1 H2]%modules_plain. apply join_proper; [apply topdown_proper|done|done]. Qed.

Lemma join_absolute d f : head (to_chars f) = Some "/"%char -> path_join d f = f.
Proof. unfold path_join. destruct (to_chars f) as [|c l]; [done|]. intros [= ->]. by rewrite Ascii.eqb_refl. Qed.

(** A download of a file that is not there: it appears when the server gives it. *)
Lemma download_spec_file T fs url p : clear fs T -> T p -> housed fs -> isfile fs p = false -> dirname p ∈ f_dirs fs -> exists ok fs',
  downloadFile web url p fs = Ok (ok, fs') /\ grew T fs fs' /\ housed fs' /\
  (ok = true <-> is_Some (got url)) /\
  forall q, f_files fs' !! q = if decide (q = p) then got url else f_files fs !! q.
Proof.
  intros Hc Hp Hh Hf Hd. unfold downloadFile, got. destruct (web url) as [b|e] eqn:E.
  - destruct (write_grew T fs p b Hc Hp Hd Hf) as [-> Hg]. exists true. eexists. split; [reflexivity|]. split; [done|]. split; [by apply housed_write|].
    split; [by split; [eexists|]|]. intros q. cbn. destruct (decide (q = p)) as [->|Hne]; [apply lookup_insert_eq|]. apply lookup_insert_ne. congruence.
  - exists false, fs. split; [destruct (Hweb url e E) as [-> | ->]; reflexivity|]. split; [reflexivity|]. split; [done|]. split; [split; [done|by intros []]|].
    intros q. destruct (decide (q = p)) as [->|]; [by apply isfile_none|done].
Qed.

(** The same, with the directory of the file made first. *)
Lemma download_made T fs url p : clear fs T -> T p -> housed fs -> isfile fs p = false -> exists fs1 ok fs',
  py_mkdir false (dirname p) fs = Ok fs1 /\ downloadFile web url p fs1 = Ok (ok, fs') /\ grew T fs fs' /\ housed fs' /\
  (ok = true <-> is_Some (got url)) /\
  forall q, f_files fs' !! q = if decide (q = p) then got url else f_files fs !! q.
Proof.
  intros Hc Hp Hh Hf. destruct (mkdir_grew T false fs p Hc Hp) as (fs1 & Hm & Hf1 & Hd1 & Hg1); [done|].
  assert (Hh1 : housed fs1) by (apply (housed_dirs fs); [done|done|apply Hg1]).
  destruct (download_spec_file T fs1 url p) as (ok & fs' & Hdl & Hg & Hh' & Hok & Hq);
    [exact (clear_grew _ _ _ Hc Hg1)|done|done|unfold isfile in *; by rewrite Hf1|done|].
  exists fs1, ok, fs'. split_and!; try done; [by trans fs1|]. intros q. by rewrite Hq Hf1.
Qed.

Section Db.
Context (db : SpecDb) (Hplaced : Forall placed db.*2).

Lemma core_target s p : s ∈ db.*2 -> coreEventsDbFile s = Some p -> target db p.
Proof.
  intros ([k s'] & -> & Hin)%list_elem_of_fmap Hp. do 2 right. apply elem_of_app. right. apply list_elem_of_omap. by exists (k, s').
Qed.

(** The files of core events are none of the other targets. *)
Lemma core_other s p : s ∈ db.*2 -> coreEventsDbFile s = Some p ->
  p <> manifest /\ p <> init_file topdown /\ forall n m, (n, m) ∈ TOPDOWN_RATIOS_MODULES -> p <> init_file (path_join topdown n).
Proof.
  intros Hs Hp. destruct (proj1 (Forall_forall _ _) Hplaced s Hs) as (f & Hf & _ & _ & Hb & Hm). rewrite Hp in Hf. injection Hf as <-.
  split_and!; [done| |].
  - intros ->. apply Hb, init_dirname, topdown_proper.
  - intros n m Hn ->. apply Hb, init_dirname. exact (package_proper n m Hn).
Qed.

Lemma makeTopdownDir_spec fs : clear fs (target db) -> housed fs -> exists fs', makeTopdownDir CONFIG fs = Ok fs' /\ grew (target db) fs fs' /\ housed fs' /\
  forall s p, s ∈ db.*2 -> coreEventsDbFile s = Some p -> f_files fs' !! p = f_files fs !! p.
Proof.
  intros Hc Hh. assert (Ht : target db (init_file topdown)) by (right; left). destruct (init_dirname topdown topdown_proper) as [Hdn _].
  unfold makeTopdownDir. destruct (exists_ fs (topdownPath CONFIG)) eqn:E; [by exists fs|].
  destruct (mkdir_grew (target db) true fs (init_file topdown) Hc Ht) as (fs1 & Hm & Hf1 & Hd1 & Hg1); [by rewrite Hdn|].
  rewrite Hdn in Hm, Hd1. rewrite Hm. unfold touch. fold (init_file topdown). assert (Hn : f_files fs !! init_file topdown = None).
  { destruct (isfile fs (init_file topdown)) eqn:Ef; [|by apply isfile_none]. apply Hh in Ef. rewrite Hdn in Ef.
    by apply exists_false in E as [_ ?]. }
  rewrite Hf1 Hn. assert (Hh1 : housed fs1) by (apply (housed_dirs fs); [done|done|apply Hg1]).
  destruct (write_grew (target db) fs1 (init_file topdown) []) as [Hw Hg2];
    [exact (clear_grew _ _ _ Hc Hg1)|done|by rewrite Hdn|apply isfile_none; by rewrite Hf1|]. rewrite Hw. eexists. split; [reflexivity|].
  split; [by trans fs1|]. split; [by apply housed_write; [|rewrite Hdn]|]. intros s p Hs Hp.
  rewrite written_other; [exact (proj1 (proj2 (core_other s p Hs Hp)))|]. by rewrite Hf1.
Qed.

Lemma downloadtopdown_spec fs s : clear fs (target db) -> housed fs -> exists fs', downloadtopdownMetrics CONFIG web s fs = Ok fs' /\ grew (target db) fs fs' /\ housed fs' /\
  forall s p, s ∈ db.*2 -> coreEventsDbFile s = Some p -> f_files fs' !! p = f_files fs !! p.
Proof.
  intros Hc Hh. unfold downloadtopdownMetrics. destruct (od_get String.eqb (s_name s) TOPDOWN_RATIOS_MODULES) as [m|] eqn:Em; [|by exists fs].
  apply od_get_elem_of in Em as (n & Hn & <-%String.eqb_eq). set (pkg := path_join topdown (s_name s)).
  assert (Ht : target db (init_file pkg)) by (do 2 right; apply elem_of_app; left; apply list_elem_of_fmap; by exists (s_name s, m)).
  destruct (init_dirname pkg (package_proper _ _ Hn)) as [Hdn _]. destruct (exists_ fs pkg) eqn:E; [by exists fs|].
  destruct (download_made (target db) fs (String.append (topdownRatiosRepoUrl CONFIG) m) (init_file pkg) Hc Ht Hh) as (fs1 & ok & fs' & Hm & Hd & Hg & Hh' & _ & Hq).
  { destruct (isfile fs (init_file pkg)) eqn:Ef; [|done]. apply Hh in Ef. rewrite Hdn in Ef. by apply exists_false in E as [_ ?]. }
  rewrite Hdn in Hm. rewrite Hm. cbn [mbind result_bind]. fold (init_file pkg). rewrite Hd. cbn [mbind result_bind].
  exists fs'. split_and!; try done. intros s' p Hs Hp. rewrite Hq. rewrite decide_False //. destruct (core_other s' p Hs Hp) as (_ & _ & Hne). exact (Hne _ m Hn).
Qed.

(** What is at the place of a file of core events, once the entries [l] are downloaded. *)
Definition synced (l : SpecDb) (fs : Files) (s : UarchSpec) (p : string) : option (list Z) :=
  if decide (Some p ∈ (fun kv : string * UarchSpec => coreEventsDbFile kv.2) <$> l) then available fs (spec_url CONFIG (s_name s) p) p else f_files fs !! p.

Lemma download_spec_step fs kv : kv ∈ db -> clear fs (target db) -> housed fs -> exists fs', download_spec CONFIG web fs kv = Ok fs' /\
  grew (target db) fs fs' /\ housed fs' /\ forall s p, s ∈ db.*2 -> coreEventsDbFile s = Some p -> f_files fs' !! p = synced [kv] fs s p.
Proof.
  intros Hkv Hc Hh. assert (Hin : kv.2 ∈ db.*2) by (by apply list_elem_of_fmap_2).
  destruct (proj1 (Forall_forall _ _) Hplaced _ Hin) as (f & Hf & Habs & Hn & _). unfold download_spec. rewrite Hf. cbn [or_raise mbind result_bind].
  assert (Ht : target db f) by exact (core_target _ f Hin Hf). rewrite (exists_target _ _ _ Hc Ht).
  assert (H1 : exists fs1, (if isfile fs f then Ok fs else '(_, fs1) ← downloadUarchSpec CONFIG web kv.2 f fs; Ok fs1) = Ok fs1 /\
    grew (target db) fs fs1 /\ housed fs1 /\ forall s p, s ∈ db.*2 -> coreEventsDbFile s = Some p -> f_files fs1 !! p = synced [kv] fs s p).
  { assert (Hd : forall s p, s ∈ db.*2 -> coreEventsDbFile s = Some p -> synced [kv] fs s p =
      if decide (p = f) then available fs (spec_url CONFIG (s_name kv.2) f) f else f_files fs !! p).
    { intros s p Hs Hp. unfold synced. cbn [fmap list_fmap]. rewrite Hf. destruct (decide (p = f)) as [->|Hne].
      - rewrite decide_True; [left|]. destruct (proj1 (Forall_forall _ _) Hplaced _ Hs) as (f' & Hf' & _ & Hn' & _).
        rewrite Hp in Hf'. injection Hf' as <-. by rewrite Hn Hn'.
      - rewrite decide_False //. intros [= ?]%list_elem_of_singleton. done. }
    destruct (isfile fs f) eqn:E.
    - exists fs. split_and!; try done. intros s p Hs Hp. rewrite (Hd s p Hs Hp). destruct (decide (p = f)) as [->|]; [|done].
      unfold available. apply isfile_spec in E as [b E]. by rewrite E.
    - destruct (download_made (target db) fs (spec_url CONFIG (s_name kv.2) f) f Hc Ht Hh E) as (fs1 & ok & fs' & Hm & Hdl & Hg & Hh' & _ & Hq).
      unfold downloadUarchSpec. rewrite Hm join_absolute //. cbn [mbind result_bind]. rewrite Hdl. cbn [mbind result_bind].
      exists fs'. split_and!; try done. intros s p Hs Hp. rewrite (Hd s p Hs Hp) Hq. destruct (decide (p = f)) as [->|]; [|done].
      unfold available. apply isfile_none in E. by rewrite E. }
  destruct H1 as (fs1 & -> & Hg1 & Hh1 & Hq1). cbn [mbind result_bind].
  destruct (downloadtopdown_spec fs1 kv.2) as (fs2 & -> & Hg2 & Hh2 & Hq2); [exact (clear_grew _ _ _ Hc Hg1)|done|].
  exists fs2. split_and!; [done|by trans fs1|done|]. intros s p Hs Hp. by rewrite (Hq2 s p Hs Hp) (Hq1 s p Hs Hp).
Qed.

Lemma download_specs_spec l fs : l ⊆ db -> clear fs (target db) -> housed fs -> exists fs', mfor (download_spec CONFIG web) fs l = Ok fs' /\
  grew (target db) fs fs' /\ housed fs' /\ forall s p, s ∈ db.*2 -> coreEventsDbFile s = Some p -> f_files fs' !! p = synced l fs s p.
Proof.
  revert fs. induction l as [|kv l IH]; intros fs Hl Hc Hh; cbn [mfor].
  - exists fs. by split_and!.
  - destruct (download_spec_step fs kv) as (fs1 & -> & Hg1 & Hh1 & Hq1); [apply Hl; left|done|done|]. cbn [mbind result_bind].
    destruct (IH fs1) as (fs2 & -> & Hg2 & Hh2 & Hq2); [|exact (clear_grew _ _ _ Hc Hg1)|done|].
    { intros x Hx. apply Hl. by right. }
    exists fs2. split_and!; [done|by trans fs1|done|]. intros s p Hs Hp. rewrite (Hq2 s p Hs Hp). unfold synced, available in *. rewrite !(Hq1 s p Hs Hp).
    cbn [fmap list_fmap]. destruct (decide (Some p ∈ [coreEventsDbFile kv.2])) as [H%list_elem_of_singleton|H].
    + rewrite (decide_True (P := Some p ∈ coreEventsDbFile kv.2 :: _)); [rewrite H; left|]. destruct (decide _); [|done].
      destruct (f_files fs !! p); [done|]. by destruct (got _).
    + rewrite list_elem_of_singleton in H. destruct (decide (Some p ∈ (fun kv : string * UarchSpec => coreEventsDbFile kv.2) <$> l)) as [Hi|Hi].
      * rewrite decide_True //. by right.
      * rewrite decide_False //. by intros [?|?]%elem_of_cons.
Qed.

(** Downloading for a whole database. *)
Lemma downloadUarchSpecDb_spec fs : clear fs (target db) -> housed fs -> exists fs', downloadUarchSpecDb CONFIG web db fs = Ok fs' /\
  grew (target db) fs fs' /\ housed fs' /\
  forall s p, s ∈ db.*2 -> coreEventsDbFile s = Some p -> f_files fs' !! p = available fs (spec_url CONFIG (s_name s) p) p.
Proof.
  intros Hc Hh. unfold downloadUarchSpecDb. destruct (makeTopdownDir_spec fs Hc Hh) as (fs1 & -> & Hg1 & Hh1 & Hq1). cbn [mbind result_bind].
  destruct (download_specs_spec db fs1) as (fs2 & -> & Hg2 & Hh2 & Hq2); [done|exact (clear_grew _ _ _ Hc Hg1)|done|].
  exists fs2. split_and!; [done|by trans fs1|done|]. intros s p Hs Hp. rewrite (Hq2 s p Hs Hp). unfold synced, available. rewrite (Hq1 s p Hs Hp).
  apply decide_True. apply list_elem_of_fmap in Hs as ([k s'] & -> & Hin). apply list_elem_of_fmap. by exists (k, s').
Qed.
End Db.

Lemma spec_getitem_in db cpuId s : spec_getitem db cpuId = Ok (Some s) -> s ∈ db.*2.
Proof.
  assert (Hget : forall k, od_get String.eqb k db = Some s -> s ∈ db.*2).
  { intros k Hk. apply od_get_elem_of in Hk as (k' & Hk & _). apply list_elem_of_fmap. by exists (k', s). }
  unfold spec_getitem. destruct (od_get String.eqb cpuId db) as [s'|] eqn:E1; [intros [= ->]; exact (Hget cpuId E1)|].
  destruct (stripStepping cpuId) as [k|]; cbn [mbind result_bind]; [|done].
  destruct (od_get String.eqb k db) as [s'|] eqn:E2; [intros [= ->]; exact (Hget k E2)|]. intros [= H]. clear Hget E1 E2. revert H.
  assert (Hfold : forall l o, fold_left (fun o (p : string * UarchSpec) => if fnmatch cpuId p.1 then Some p.2 else o) l o = Some s -> o = Some s \/ s ∈ l.*2).
  { intros l. induction l as [|[k' s'] l IH]; intros o; cbn [fold_left]; [by left|]. intros [H|H]%IH; [|by right; right].
    cbn [fst snd] in H. revert H. destruct (fnmatch cpuId k'); [intros [= ->]; right; left|by left]. }
  intros H. by apply Hfold in H as [?|?].
Qed.

(** [loadEventsDb] on the files of a host; [parse] is json. *)
Definition read_events (parse : list Z -> result (list Rec)) (fs : Files) (path : option string) : result (list Rec) :=
  path ← or_raise TypeError_ path; data ← read_file fs path; parse data.

End Facts.

(** Deciding that nothing is in the way. *)
Lemma clear_list fs (T : list string) :
  Forall (fun p => p ∉ f_dirs fs /\ Forall (fun d => f_files fs !! d = None /\ d ∉ T) (way p)) T -> clear fs (fun p => p ∈ T).
Proof.
  intros H p Hp. rewrite Forall_forall in H. destruct (H p Hp) as [Hd Hw]. split; [done|]. intros d Hin. rewrite Forall_forall in Hw.
  destruct (Hw d Hin) as [Hf Ht]. split; [by apply isfile_none|done].
Qed.

Definition ex_sp_rows : list MapRow := match manifest_rows ex_sp_manifest with Ok rows => rows | Raise _ => [] end.
Definition ex_sp_db : SpecDb := UarchSpecDb_init "/opt/x/data" ex_sp_rows.
Definition ex_sp_parse (b : list Z) : result (list Rec) := if bool_decide (b = bytes_of "[1]") then Ok [] else Raise ValueError_.


(** ** What is there is not asked for *)

(** With the manifest, the files of core events and the packages of ratios on disk, the server is
    not needed and nothing is written. *)
Theorem load_offline CONFIG moduleDir web fs m rows :
  let db := UarchSpecDb_init (dirname (manifestFilePath CONFIG moduleDir)) rows in
  f_files fs !! manifestFilePath CONFIG moduleDir = Some m -> manifest_rows m = Ok rows -> exists_ fs (topdownPath CONFIG) = true ->
  Forall (fun kv => (exists f, coreEventsDbFile kv.2 = Some f /\ exists_ fs f = true) /\
    exists_ fs (path_join (topdownPath CONFIG) (s_name kv.2)) = true) db ->
  loadUarchSpecDb CONFIG moduleDir web fs = Ok (Some db, fs).
Proof.
  intros db Hm Hrows Ht Hdb. unfold loadUarchSpecDb, exists_. rewrite (isfile_lookup _ _ _ Hm). cbn [orb mbind result_bind].
  unfold UarchSpecDb_load, read_file. rewrite Hm. cbn [or_raise mbind result_bind]. rewrite Hrows. cbn [mbind result_bind]. fold db.
  assert (Hd : downloadUarchSpecDb CONFIG web db fs = Ok fs).
  { unfold downloadUarchSpecDb, makeTopdownDir. rewrite Ht. cbn [mbind result_bind]. induction Hdb as [|kv l [(f & Hf & He) Hp] _ IH]; [done|].
    assert (H : download_spec CONFIG web fs kv = Ok fs).
    { unfold download_spec. rewrite Hf. cbn [or_raise mbind result_bind]. rewrite He. cbn [mbind result_bind].
      unfold downloadtopdownMetrics. rewrite Hp. by destruct (od_get _ _ _). }
    cbn [mfor]. rewrite H. exact IH. }
  destruct db; [done|]. by rewrite Hd.
Qed.

(** The directory of a package is made before its ratios are downloaded: when that fails, no later
    run asks for them. *)
Definition ex_sp_full (url : string) : result (list Z) := match ex_sp_web url with Ok b => Ok b | Raise _ => Ok [49] end.
Definition ex_sp_later : result (list bool) :=
  '(_, fs) ← loadUarchSpecDb ex_sp_config "/opt/x" ex_sp_web ex_sp_fs;
  '(_, fs) ← loadUarchSpecDb ex_sp_config "/opt/x" ex_sp_full fs;
  Ok (isfile fs <$> ["/opt/x/data/ADL/alderlake_goldencove_core_v1.01.json"; "/var/tmp/xpedite/uarchSpec/xpedite_uarch_spec/SKL/__init__.py"])%string.
Theorem failed_ratios_stay : ex_sp_later = Ok [true; false].
Proof. vm_compute. reflexivity. Qed.

(** An entry of uncore events alone has no path to look for. *)
Theorem uncore_alone_fails fs web :
  download_spec ex_sp_config web fs ("GenuineIntel-6-1A", mkUarchSpec "GenuineIntel-6-1A" "NHM-EP" None (Some "/opt/x/data/u.json"))%string = Raise TypeError_.
Proof. reflexivity. Qed.

(** Without USER there is no configuration, even one that says where the logs go. *)
Theorem config_needs_user config : Config_init None config = Raise TypeError_.
Proof. reflexivity. Qed.
