(* ===== verification/Plugins.v ===== *)
(** * Plugins and dependencies

    Models dependencies/pluginLoader.py and dependencies/__init__.py: the modules of the path whose
    name begins with xpedite_ say which objects they provide, the profiler asks for objects by
    type, and the requirements file gives the versions of packages.  What importing a module and
    calling its functions gives is a parameter. *)

From Stdlib Require Import Ascii.
From S2P Require Import Prelude PyStr.

(** ** Plugins *)

(** A module: [xpedite_provides] gives a list whose elements should be pairs, [None] stands for one
    that is none; [xpedite_instantiate] makes an object. *)
Record Plugin (O : Type) := mkPlugin {
  xpedite_provides : option (result (list (option (string * string))));
  xpedite_instantiate : option (string -> string -> result (option O)) }.
Arguments mkPlugin {O}.
Arguments xpedite_provides {O}.
Arguments xpedite_instantiate {O}.

Record PluggableObject (O : Type) := mkPluggable { po_type : string; po_name : string; po_module : Plugin O }.
Arguments mkPluggable {O}.
Arguments po_type {O}.
Arguments po_name {O}.
Arguments po_module {O}.

Section Plugins.
Context {O : Type}.

Definition PluginMap := list (string * list (PluggableObject O)).

Definition instantiate (p : PluggableObject O) : result (option O) :=
  match xpedite_instantiate (po_module p) with Some f => f (po_type p) (po_name p) | None => Ok None end.

(** The loop over what a module provides, up to an element that cannot be unpacked. *)
Fixpoint add_provided (module : Plugin O) (entries : list (option (string * string))) (m : PluginMap) : PluginMap :=
  match entries with
  | Some (objType, objName) :: entries =>
      add_provided module entries (od_set String.eqb objType (default [] (od_get String.eqb objType m) ++ [mkPluggable objType objName module]) m)
  | _ => m
  end.

(** One module of [loadPluggableObjects]: what it raises is logged. *)
Definition load_plugin (m : PluginMap) (nm : string * result (Plugin O)) : PluginMap :=
  if starts_with (to_chars "xpedite_") (to_chars nm.1) then
    match nm.2 with
    | Ok module =>
        match xpedite_provides module with
        | Some (Ok entries) => add_provided module entries m
        | _ => m
        end
    | Raise _ => m
    end
  else m.
Definition loadPluggableObjects (modules : list (string * result (Plugin O))) : PluginMap := fold_left load_plugin modules [].

(** The comparison of an object that has no [__eq__] with a text. *)
Definition object_is_name (p : PluggableObject O) (name : string) : bool := false.
Fixpoint index_of (name : string) (i : nat) (ps : list (PluggableObject O)) : option nat :=
  match ps with
  | p :: ps => if object_is_name p name then Some i else index_of name (S i) ps
  | [] => None
  end.

Definition loadObject (m : PluginMap) (objType : string) (objName : option string) (dflt : option O) : result (option O) :=
  match od_get String.eqb objType m with
  | Some (p :: ps) =>
      let index := match objName with Some n => if nonempty n then default 0%nat (index_of n 0 (p :: ps)) else 0%nat | None => 0%nat end in
      p ← or_raise IndexError_ ((p :: ps) !! index);
      instantiate p
  | _ => Ok dflt
  end.

(** [loadDriver]: the name only says that a driver is wanted. *)
Definition loadDriver (m : PluginMap) (name : option string) : result (option O) :=
  match name with
  | Some n => if nonempty n then loadObject m "driver" None None else Ok None
  | None => Ok None
  end.

(** What a module provides, as far as it goes. *)
Fixpoint provided (module : Plugin O) (entries : list (option (string * string))) : list (PluggableObject O) :=
  match entries with Some (t, n) :: entries => mkPluggable t n module :: provided module entries | _ => [] end.
Definition provided_by (nm : string * result (Plugin O)) : list (PluggableObject O) :=
  if starts_with (to_chars "xpedite_") (to_chars nm.1) then
    match nm.2 with Ok module => match xpedite_provides module with Some (Ok entries) => provided module entries | _ => [] end | Raise _ => [] end
  else [].

Definition of_type (t : string) (ps : list (PluggableObject O)) : list (PluggableObject O) := filter (fun p => String.eqb t (po_type p) = true) ps.

Lemma add_provided_spec module entries m t :
  default [] (od_get String.eqb t (add_provided module entries m)) = default [] (od_get String.eqb t m) ++ of_type t (provided module entries).
Proof.
  revert m. induction entries as [|[[t' n]|] entries IH]; intros m; cbn [add_provided provided]; [by rewrite app_nil_r| |by rewrite app_nil_r].
  rewrite IH od_get_set. unfold of_type. rewrite (filter_cons_bool (fun p => String.eqb t (po_type p))). cbn [po_type]. rewrite (String.eqb_sym t t').
  destruct (String.eqb_spec t' t) as [->|]; [|done]. cbn. by rewrite -app_assoc.
Qed.

(** The objects of a type are those the plugins provide, in the order of the modules; what a module
    raises takes nothing from the others. *)
Theorem loadPluggableObjects_spec modules t :
  default [] (od_get String.eqb t (loadPluggableObjects modules)) = of_type t (mjoin (provided_by <$> modules)).
Proof.
  assert (H : forall m, default [] (od_get String.eqb t (fold_left load_plugin modules m)) = default [] (od_get String.eqb t m) ++ of_type t (mjoin (provided_by <$> modules))).
  { induction modules as [|nm modules IH]; intros m; cbn [fold_left]; [by rewrite app_nil_r|]. rewrite IH.
    change (mjoin (provided_by <$> nm :: modules)) with (provided_by nm ++ mjoin (provided_by <$> modules)).
    unfold of_type at 2. rewrite filter_app app_assoc. f_equal. unfold load_plugin, provided_by.
    destruct (starts_with _ _); [|by rewrite app_nil_r]. destruct nm.2 as [module|]; [|by rewrite app_nil_r].
    destruct (xpedite_provides module) as [[entries|]|]; [apply add_provided_spec|by rewrite app_nil_r..]. }
  exact (H []).
Qed.

(** The name of the object that is asked for makes no difference: the first one of the type is taken. *)
Theorem object_name_ignored m objType objName dflt : loadObject m objType objName dflt = loadObject m objType None dflt.
Proof.
  unfold loadObject. destruct (od_get String.eqb objType m) as [[|p ps]|]; [done| |done]. destruct objName as [n|]; [|done]. destruct (nonempty n); [|done].
  assert (H : forall i l, index_of n i l = None) by (intros i l; revert i; induction l as [|q l IH]; intros i; cbn; [done|apply IH]). by rewrite H.
Qed.
End Plugins.

(** ** Requirements *)

(** [re.split('>=|==', record)]. *)
Fixpoint split_versions (skip : nat) (cur l : chars) : list string :=
  match l with
  | [] => [of_chars (rev cur)]
  | c :: l' =>
      match skip with
      | S skip => split_versions skip cur l'
      | O => if (starts_with (to_chars ">=") l || starts_with (to_chars "==") l)%bool then of_chars (rev cur) :: split_versions 1 [] l'
             else split_versions 0 (c :: cur) l'
      end
  end.

Definition add_requirement (requirements : list (string * string)) (record : string) : list (string * string) :=
  match split_versions 0 [] (to_chars record) with
  | name :: minVersion :: _ => od_set String.eqb (py_strip name) (py_strip minVersion) requirements
  | _ => requirements
  end.
Definition loadRequirements (records : list string) : list (string * string) := fold_left add_requirement records [].

Record Dependency := mkDependency { dep_name : string; dep_required : bool; dep_minVersion : option string }.
(** [Dependency.get]. *)
Definition get_dependency (requirements : list (string * string)) (name : string) (required : bool) : Dependency :=
  mkDependency name required (od_get String.eqb name requirements).

Example requirements_read :
  (fun n => dep_minVersion (get_dependency (loadRequirements ["numpy>=1.15.2"; "functools32>=3.2.3-1; python_version < '3.0'"; "setuptools"]%string) n true)) <$> ["numpy"; "functools32"; "setuptools"]%string =
  [Some "1.15.2"; Some "3.2.3-1; python_version < '3.0'"; None]%string.
Proof. reflexivity. Qed.
