(* ===== verification/Attach.v ===== *)
(** * Attaching to a process

    Models what the profiler opens and closes around a session: [XpediteApp.start], [stop] and
    [restart] and the launch of a target (profiler/app.py), [Environment] and [RemoteEnvironment]
    (profiler/environment.py), the rpyc server of transport/remote.py, the client of
    transport/client.py and [binPath] of dependencies/__init__.py.

    A computation has a state and may raise, and what it did before it raised stays done.  A call
    of the operating system or of a library takes place at a time; what it raises or answers at
    that time is a parameter.  Closing does not fail. *)

From Stdlib Require Import Ascii.
From S2P Require Import Prelude PyStr Session Host.

(** ** Computations that keep their state when they raise *)

Definition St (S A : Type) : Type := S -> result A * S.
#[export] Instance St_ret {S} : MRet (St S) := fun A a s => (Ok a, s).
#[export] Instance St_bind {S} : MBind (St S) := fun A B f m s =>
  match m s with (Ok a, s) => f a s | (Raise e, s) => (Raise e, s) end.
Definition st_lift {S A} (r : result A) : St S A := fun s => (r, s).
Definition st_get {S} : St S S := fun s => (Ok s, s).
Definition st_modify {S} (f : S -> S) : St S unit := fun s => (Ok tt, f s).

(** [try: m except: h] and [try: m finally: f]. *)
Definition st_catch {S A} (m : St S A) (h : St S A) : St S A := fun s =>
  match m s with (Ok a, s) => (Ok a, s) | (Raise _, s) => h s end.
Definition st_finally {S A} (m : St S A) (f : St S unit) : St S A := fun s =>
  let '(r, s) := m s in match f s with (Ok _, s) => (r, s) | (Raise e, s) => (Raise e, s) end.

(** ** What is open *)

(** Sockets, rpyc connections, files and processes of this host, and servers on other hosts, each
    with the time it was opened. *)
Inductive Res := Sock (n : nat) | Conn (n : nat) | File (n : nat) | Child (n : nat) | Server (n : nat).
#[export] Instance Res_eq_dec : EqDecision Res.
Proof. solve_decision. Defined.
#[export] Instance Res_countable : Countable Res.
Proof.
  refine (inj_countable' (fun r => match r with Sock n => (0, n) | Conn n => (1, n) | File n => (2, n) | Child n => (3, n) | Server n => (4, n) end)%nat
    (fun p => match p.1 with 0 => Sock p.2 | 1 => Conn p.2 | 2 => File p.2 | 3 => Child p.2 | _ => Server p.2 end)%nat _). by intros [].
Defined.
Definition made (r : Res) : nat := match r with Sock n | Conn n | File n | Child n | Server n => n end.

Record World := mkWorld { opened : gset Res; tick : nat }.

(** A state with a world in it. *)
Class HasWorld (S : Type) := { world : S -> World; set_world : World -> S -> S }.

(** What the hosts do. *)
Record Os := mkOs {
  fails : nat -> option exn;                 (* what the call at a time raises *)
  environ : list (string * string);
  find_executable : string -> option string;
  addresses : list string;                   (* of this host *)
  getservbyname : string -> result Z;
  app_info : nat -> result string;           (* loading the app info at a time: the port *)
  log : nat -> nat -> list string;           (* the lines of a server's stderr at a time *)
  server_pid : nat -> Z;
  remote_files : nat -> list string;         (* files found on the remote host *)
  log_size : nat -> Z                        (* of the log of a target *)
}.

Section Attach.
Context (os : Os).

Section Calls.
Context {S : Type} {HS : HasWorld S}.

Definition call : St S nat := fun s =>
  let t := tick (world s) in
  let s := set_world (mkWorld (opened (world s)) (t + 1)) s in
  match fails os t with Some e => (Raise e, s) | None => (Ok t, s) end.
Definition acquire (k : nat -> Res) : St S nat :=
  t ← call; _ ← st_modify (fun s => set_world (mkWorld ({[k t]} ∪ opened (world s)) (tick (world s))) s); mret t.
Definition release (r : Res) : St S unit :=
  st_modify (fun s => set_world (mkWorld (opened (world s) ∖ {[r]}) (tick (world s))) s).
End Calls.

(** [binPath]. *)
Definition py_upper (s : string) : string := of_chars (upper_char <$> to_chars s).
Definition binPath (binaryName : string) : result string :=
  match od_get String.eqb (String.append "XPEDITE_" (py_upper binaryName)) (environ os) with
  | Some p => Ok p
  | None => match find_executable os binaryName with
            | Some p => if nonempty p then Ok p else Raise Exception_
            | None => Raise Exception_
            end
  end.

(** [isIpLocal]. *)
Definition isIpLocal (ip : string) : bool :=
  (String.eqb (py_lower ip) "localhost" || existsb (String.eqb ip) (addresses os))%bool.

(** ** transport/remote.py *)

(** The two patterns of [Remote.__enter__]: the port is what follows the last colon of a line that
    has the message before it; the pid is the last number in angle brackets after [pid]. *)
Definition match_port (line : chars) : option chars :=
  j ← find_sub [":"%char] (rev line);
  let i := (length line - j - 1)%nat in
  if find_sub (to_chars "server started on ") (take i line) then Some (drop (S i) line) else None.
Fixpoint match_pid (line : chars) : option chars :=
  match line with
  | [] => None
  | _ :: rest =>
      match match_pid rest with
      | Some p => Some p
      | None =>
          if starts_with (to_chars "pid<") line then
            let digits := take_while is_digit (drop 4 line) in
            match digits, drop (4 + length digits) line with
            | _ :: _, ">"%char :: _ => Some digits
            | _, _ => None
            end
          else None
      end
  end.

Definition keep_last (o o' : option chars) : option chars := match o' with Some _ => o' | None => o end.
Definition matchRegexpsInFile (lines : list string) : option chars * option chars :=
  fold_left (fun acc line => (keep_last acc.1 (match_port (to_chars line)), keep_last acc.2 (match_pid (to_chars line)))) lines (None, None).

Record Remote := mkRemote {
  r_host : string; r_err : nat; r_out : nat; r_proc : option nat; r_pid : option Z; r_port : option Z; r_conn : option nat; r_chdir : bool }.

(** ** profiler/environment.py *)

(** An environment: its client with its socket, and the remote of a [RemoteEnvironment]. *)
Record Env := mkEnv { e_dryRun : bool; e_client : option (option nat); e_remote : option Remote }.

(** An app, which keeps the environment it was started with last. *)
Record App := mkApp { a_ip : string; a_dryRun : bool; a_env : option Env; a_world : World }.
#[export] Instance App_world : HasWorld App :=
  {| world := a_world; set_world w a := mkApp (a_ip a) (a_dryRun a) (a_env a) w |}.

Definition set_env (e : option Env) (a : App) : App := mkApp (a_ip a) (a_dryRun a) e (a_world a).

(** [__getattr__] of an app that was not started raises. *)
Definition get_env : St App Env := fun a => match a_env a with Some e => (Ok e, a) | None => (Raise Exception_, a) end.
Definition set_client (c : option (option nat)) : St App unit :=
  e ← get_env; st_modify (set_env (Some (mkEnv (e_dryRun e) c (e_remote e)))).
Definition get_remote : St App Remote := e ← get_env; st_lift (or_raise AttributeError_ (e_remote e)).
Definition set_remote (r : Remote) : St App unit :=
  e ← get_env; st_modify (set_env (Some (mkEnv (e_dryRun e) (e_client e) (Some r)))).

(** [Remote.__init__] and [StdFiles]; the directory of the logs is made first. *)
Definition Remote_init (host : string) (chdir : bool) : St App Remote :=
  _ ← call; err ← acquire File; out ← acquire File; mret (mkRemote host err out None None None None chdir).

(** [Remote.kill]: without a pid the other host is asked to kill None. *)
Definition Remote_kill : St App unit :=
  r ← get_remote;
  proc ← st_lift (or_raise AttributeError_ (r_proc r));
  _ ← release (Child proc);
  _ ← (if String.eqb (r_host r) "localhost" then mret tt
       else _ ← st_lift (binPath "ssh");
            _ ← call;
            match r_pid r with
            | Some pid => if pid =? server_pid os proc then release (Server proc) else mret tt
            | None => mret tt
            end);
  _ ← release (File (r_err r));
  release (File (r_out r)).

(** The loop of [Remote.__enter__]; [polls] is how often it looks before the time out. *)
Fixpoint wait_started (polls : nat) (proc : nat) : St App (option (chars * chars)) :=
  match polls with
  | O => mret None
  | S polls =>
      t ← call;
      match matchRegexpsInFile (log os proc t) with
      | (Some port, Some pid) => mret (Some (port, pid))
      | _ => wait_started polls proc
      end
  end.

Definition Remote_enter (polls : nat) : St App unit :=
  r ← get_remote;
  _ ← st_lift (binPath "python");
  proc ← (if String.eqb (r_host r) "localhost" then acquire Child
          else _ ← st_lift (binPath "ssh");
               n ← acquire Child;
               _ ← st_modify (fun a => set_world (mkWorld ({[Server n]} ∪ opened (world a)) (tick (world a))) a);
               mret n);
  _ ← set_remote (mkRemote (r_host r) (r_err r) (r_out r) (Some proc) (r_pid r) (r_port r) (r_conn r) (r_chdir r));
  found ← wait_started polls proc;
  match found with
  | None => _ ← Remote_kill; _ ← call; st_lift (Raise Exception_)
  | Some (port, pid) =>
      port ← st_lift (py_int 10 (of_chars port));
      pid ← st_lift (py_int 10 (of_chars pid));
      _ ← set_remote (mkRemote (r_host r) (r_err r) (r_out r) (Some proc) (Some pid) (Some port) (r_conn r) (r_chdir r));
      _ ← st_lift (or_raise KeyError_ (od_get String.eqb "PWD"%string (environ os)));
      c ← acquire Conn;
      _ ← set_remote (mkRemote (r_host r) (r_err r) (r_out r) (Some proc) (Some pid) (Some port) (Some c) (r_chdir r));
      if r_chdir r then _ ← call; mret tt else mret tt
  end.

Definition Remote_exit : St App unit :=
  r ← get_remote;
  c ← st_lift (or_raise AttributeError_ (r_conn r));
  _ ← release (Conn c);
  _ ← set_remote (mkRemote (r_host r) (r_err r) (r_out r) (r_proc r) (r_pid r) (r_port r) None (r_chdir r));
  Remote_kill.

(** [Client.connect] of the client of the environment: the socket is kept before it is connected. *)
Definition connect : St App unit :=
  n ← acquire Sock;
  _ ← set_client (Some (Some n));
  _ ← call;                                  (* socket.connect *)
  _ ← call;                                  (* setsockopt *)
  mret tt.

(** [Environment.__enter__]. *)
Definition Env_enter : St App unit :=
  e ← get_env;
  match e_client e with
  | Some _ => st_lift (Raise InvariantViloation)
  | None =>
      t ← call;
      port ← st_lift (app_info os t);
      if e_dryRun e then mret tt
      else _ ← st_lift (parsePort (getservbyname os) (PortStr port));
           _ ← set_client (Some None);
           connect
  end.

(** [Environment.__exit__] with [Client.close]. *)
Definition Env_exit : St App unit :=
  e ← get_env;
  if e_dryRun e then mret tt
  else match e_client e with
       | Some c => _ ← (match c with Some n => release (Sock n) | None => mret tt end); set_client None
       | None => mret tt
       end.

(** [RemoteEnvironment.gatherFiles]: every file is copied. *)
Fixpoint copy_files (files : list string) : St App (list string) :=
  match files with
  | [] => mret []
  | f :: files => _ ← call; fs ← copy_files files; mret (f :: fs)
  end.
Definition gatherFiles : St App (list string) := t ← call; _ ← call; copy_files (remote_files os t).

Definition RemoteEnv_enter (polls : nat) : St App unit :=
  _ ← Remote_enter polls;
  _ ← call;                                  (* deliver *)
  files ← gatherFiles;
  match files with
  | [_] => Env_enter
  | _ => st_lift (Raise Exception_)
  end.

Definition RemoteEnv_exit : St App unit := _ ← Env_exit; Remote_exit.

(** ** profiler/app.py *)

Definition start (polls : nat) : St App unit :=
  a ← st_get;
  if isIpLocal (a_ip a) then
    _ ← st_modify (set_env (Some (mkEnv (a_dryRun a) None None)));
    Env_enter
  else
    r ← Remote_init (a_ip a) false;
    _ ← st_modify (set_env (Some (mkEnv (a_dryRun a) None (Some r))));
    RemoteEnv_enter polls.

Definition stop : St App unit :=
  a ← st_get;
  match a_env a with
  | Some e => match e_remote e with Some _ => RemoteEnv_exit | None => Env_exit end
  | None => mret tt
  end.

Definition restart (polls : nat) : St App unit := _ ← stop; start polls.

(** [with app: body]. *)
Definition with_app {A} (polls : nat) (body : St App A) : St App A := _ ← start polls; st_finally body stop.

(** *** [TargetApp] *)

Record Launch := mkLaunch { t_proc : option nat; t_log : option nat; t_world : World }.
#[export] Instance Launch_world : HasWorld Launch := {| world := t_world; set_world w t := mkLaunch (t_proc t) (t_log t) w |}.

Fixpoint wait_size (attempts : nat) (size : Z) : St Launch Z :=
  match attempts with
  | O => mret size
  | S attempts => if size <=? 0 then t ← call; wait_size attempts (log_size os t) else mret size
  end.

Definition Target_enter : St Launch unit :=
  f ← acquire File;
  _ ← st_modify (fun t => mkLaunch (t_proc t) (Some f) (t_world t));
  p ← acquire Child;
  _ ← st_modify (fun t => mkLaunch (Some p) (t_log t) (t_world t));
  size ← wait_size 10 0;
  if size <=? 0 then st_lift (Raise Exception_) else _ ← call; mret tt.

Definition Target_exit : St Launch unit :=
  t ← st_get;
  p ← st_lift (or_raise AttributeError_ (t_proc t));
  _ ← release (Child p);
  f ← st_lift (or_raise AttributeError_ (t_log t));
  release (File f).

Definition with_target {A} (body : St Launch A) : St Launch A := _ ← Target_enter; st_finally body Target_exit.
End Attach.

(** ** Reasoning on computations *)

Section Triples.
Context {S : Type}.

(** From [P], [m] gives a value and a state in [Q] or raises in a state in [E]. *)
Definition triple {A} (P : S -> Prop) (m : St S A) (Q : A -> S -> Prop) (E : S -> Prop) : Prop :=
  forall s, P s -> match m s with (Ok a, s') => Q a s' | (Raise _, s') => E s' end.

Lemma triple_ret {A} (P : S -> Prop) (a : A) Q E : (forall s, P s -> Q a s) -> triple P (mret a) Q E.
Proof. intros H s Hs. exact (H s Hs). Qed.

Lemma triple_bind {A B} P (m : St S A) (f : A -> St S B) Q R E :
  triple P m Q E -> (forall a, triple (Q a) (f a) R E) -> triple P (m ≫= f) R E.
Proof.
  intros Hm Hf s Hs. specialize (Hm s Hs). unfold mbind, St_bind. destruct (m s) as [[a|e] s']; [|exact Hm]. exact (Hf a s' Hm).
Qed.

Lemma triple_ret_bind {A B} (P : S -> Prop) (a : A) (f : A -> St S B) R E : triple P (f a) R E -> triple P (mret a ≫= f) R E.
Proof. done. Qed.

Lemma triple_lift {A} (P : S -> Prop) (r : result A) (Q : A -> S -> Prop) (E : S -> Prop) :
  (forall a s, r = Ok a -> P s -> Q a s) -> (forall e s, r = Raise e -> P s -> E s) -> triple P (st_lift r) Q E.
Proof. intros HQ HE s Hs. cbn. destruct r as [a|e]; [by apply HQ|by eapply HE]. Qed.

Lemma triple_any {A} (P : S -> Prop) (m : St S A) : triple P m (fun _ _ => True) (fun _ => True).
Proof. intros s _. by destruct (m s) as [[]]. Qed.

Lemma triple_conseq {A} (P P' : S -> Prop) (m : St S A) Q Q' (E E' : S -> Prop) :
  triple P' m Q' E' -> (forall s, P s -> P' s) -> (forall a s, Q' a s -> Q a s) -> (forall s, E' s -> E s) -> triple P m Q E.
Proof. intros H HP HQ HE s Hs. specialize (H s (HP s Hs)). destruct (m s) as [[a|e] s']; auto. Qed.

Lemma triple_catch {A} (P : S -> Prop) (m h : St S A) Q F E :
  triple P m Q F -> triple F h Q E -> triple P (st_catch m h) Q E.
Proof. intros Hm Hh s Hs. specialize (Hm s Hs). unfold st_catch. destruct (m s) as [[a|e] s']; [exact Hm|]. exact (Hh s' Hm). Qed.

Lemma triple_pure {A} (P : S -> Prop) (H : Prop) (m : St S A) Q E : (H -> triple P m Q E) -> triple (fun s => P s /\ H) m Q E.
Proof. intros Ht s [Hs Hh]. exact (Ht Hh s Hs). Qed.
End Triples.

(** An app whose world has the resources [X] open next to [B], with none in both. *)
Record holding (ip : string) (dry : bool) (env : option Env) (B X : gset Res) (a : App) : Prop := {
  h_ip : a_ip a = ip; h_dry : a_dryRun a = dry; h_env : a_env a = env;
  h_opened : opened (a_world a) = B ∪ X; h_disjoint : B ## X;
  h_fresh r : r ∈ B ∪ X -> (made r < tick (a_world a))%nat }.

Section Rules.
Context (os : Os) (ip : string) (dry : bool) (B : gset Res).

Lemma triple_call env X : triple (holding ip dry env B X) (call os) (fun _ => holding ip dry env B X) (holding ip dry env B X).
Proof.
  intros a [H1 H2 H3 H4 H5 H6]. unfold call. assert (H : holding ip dry env B X (set_world (mkWorld (opened (world a)) (tick (world a) + 1)) a)).
  { split; try done. cbn. intros r Hr. specialize (H6 r Hr). lia. }
  by destruct (fails os (tick (world a))).
Qed.

Lemma triple_call_to env X (E : App -> Prop) : (forall a, holding ip dry env B X a -> E a) ->
  triple (holding ip dry env B X) (call os) (fun _ => holding ip dry env B X) E.
Proof. intros HE. by apply (triple_conseq _ _ _ _ _ _ _ (triple_call env X)). Qed.

Lemma triple_acquire env X k : (forall n, made (k n) = n) ->
  triple (holding ip dry env B X) (acquire os k) (fun n a => holding ip dry env B ({[k n]} ∪ X) a /\ k n ∉ B /\ k n ∉ X) (holding ip dry env B X).
Proof.
  intros Hk a Ha. pose proof (triple_call env X a Ha) as Hc. unfold acquire, mbind, St_bind. remember (tick (world a)) as t eqn:Et.
  assert (Hn : k t ∉ B ∪ X). { intros Hin. apply (h_fresh _ _ _ _ _ _ Ha) in Hin. rewrite Hk Et in Hin. unfold world in Hin. cbn in Hin. lia. }
  unfold call in *. rewrite <- Et in *. destruct (fails os t) as [e|]; [exact Hc|]. destruct Hc as [H1 H2 H3 H4 H5 H6]. cbn in *.
  apply not_elem_of_union in Hn as [HnB HnX]. split; [|done]. split; try done; cbn.
  - rewrite H4. set_solver.
  - set_solver.
  - intros r Hr. destruct (decide (r = k t)) as [->|Hne]; [rewrite Hk; lia|]. apply H6. set_solver.
Qed.

Lemma triple_acquire_to env X k (E : App -> Prop) : (forall n, made (k n) = n) -> (forall a, holding ip dry env B X a -> E a) ->
  triple (holding ip dry env B X) (acquire os k) (fun n a => holding ip dry env B ({[k n]} ∪ X) a /\ k n ∉ B /\ k n ∉ X) E.
Proof. intros Hk HE. by apply (triple_conseq _ _ _ _ _ _ _ (triple_acquire env X k Hk)). Qed.

Lemma triple_lift_to {A} env X (r : result A) (E : App -> Prop) : (forall a, holding ip dry env B X a -> E a) ->
  triple (holding ip dry env B X) (st_lift r) (fun x a => holding ip dry env B X a /\ r = Ok x) E.
Proof. intros HE. apply triple_lift; [by intros x a Hr Ha|]. intros e a _. apply HE. Qed.

Lemma triple_release env X r E : r ∉ B -> triple (holding ip dry env B X) (release r) (fun _ => holding ip dry env B (X ∖ {[r]})) E.
Proof.
  intros Hr a [H1 H2 H3 H4 H5 H6]. cbn. split; try done; cbn.
  - rewrite H4. set_solver.
  - set_solver.
  - intros q Hq. apply H6. set_solver.
Qed.

Lemma triple_get_env e X E : triple (holding ip dry (Some e) B X) get_env (fun e' a => holding ip dry (Some e) B X a /\ e' = e) E.
Proof. intros a Ha. unfold get_env. rewrite (h_env _ _ _ _ _ _ Ha). done. Qed.

Lemma triple_set_env env env' X E : triple (holding ip dry env B X) (st_modify (set_env env')) (fun _ => holding ip dry env' B X) E.
Proof. intros a [H1 H2 H3 H4 H5 H6]. by split. Qed.

Lemma triple_set_client e c X E :
  triple (holding ip dry (Some e) B X) (set_client c) (fun _ => holding ip dry (Some (mkEnv (e_dryRun e) c (e_remote e))) B X) E.
Proof. eapply triple_bind; [apply triple_get_env|]. intros e'. apply triple_pure. intros ->. apply triple_set_env. Qed.

Lemma triple_set_remote e r X E :
  triple (holding ip dry (Some e) B X) (set_remote r) (fun _ => holding ip dry (Some (mkEnv (e_dryRun e) (e_client e) (Some r))) B X) E.
Proof. eapply triple_bind; [apply triple_get_env|]. intros e'. apply triple_pure. intros ->. apply triple_set_env. Qed.

Lemma triple_get_remote e r X E : e_remote e = Some r ->
  triple (holding ip dry (Some e) B X) get_remote (fun r' a => holding ip dry (Some e) B X a /\ r' = r) E.
Proof.
  intros Hr. eapply triple_bind; [apply triple_get_env|]. intros e'. apply triple_pure. intros ->. rewrite Hr.
  apply triple_lift; [|done]. intros r' a [= <-] Ha. done.
Qed.
End Rules.

(** ** An environment *)

Definition sock_of (c : option (option nat)) : gset Res := match c with Some (Some n) => {[Sock n]} | _ => ∅ end.

(** The environment of the app may have a client with a socket; [X] is what else it has open. *)
Definition entered ip dry B rem X (a : App) : Prop := exists c,
  holding ip dry (Some (mkEnv dry c rem)) B (sock_of c ∪ X) a /\ (dry = true -> c = None) /\ forall n, Sock n ∉ X.

Section Environments.
Context (os : Os) (ip : string) (dry : bool) (B : gset Res).

Lemma union_empty (X : gset Res) : ∅ ∪ X = X.
Proof. set_solver. Qed.

Lemma entered_plain c rem X a : (dry = true -> c = None) -> (forall n, Sock n ∉ X) -> holding ip dry (Some (mkEnv dry c rem)) B (sock_of c ∪ X) a ->
  entered ip dry B rem X a.
Proof. intros Hc Hx Ha. by exists c. Qed.

Lemma triple_connect rem X : dry = false -> (forall n, Sock n ∉ X) ->
  triple (holding ip dry (Some (mkEnv dry (Some None) rem)) B X) (connect os) (fun _ => entered ip dry B rem X) (entered ip dry B rem X).
Proof.
  intros Hd Hx. assert (Hnone : forall a, holding ip dry (Some (mkEnv dry (Some None) rem)) B X a -> entered ip dry B rem X a).
  { intros a Ha. apply (entered_plain (Some None)); [congruence|done|]. cbn. by rewrite union_empty. }
  unfold connect. eapply triple_bind; [by apply triple_acquire_to|].
  intros n. apply triple_pure. intros _. eapply triple_bind; [apply triple_set_client|]. intros [].
  assert (Hs : forall a, holding ip dry (Some (mkEnv dry (Some (Some n)) rem)) B ({[Sock n]} ∪ X) a -> entered ip dry B rem X a).
  { intros a Ha. apply (entered_plain (Some (Some n))); [congruence|done|done]. }
  eapply triple_bind; [by apply triple_call_to|]. intros ?.
  eapply triple_bind; [by apply triple_call_to|]. intros ?.
  apply triple_ret. exact Hs.
Qed.

(** Entering: whether it succeeds or not, only the socket of the client was opened. *)
Lemma triple_Env_enter rem X : (forall n, Sock n ∉ X) ->
  triple (holding ip dry (Some (mkEnv dry None rem)) B X) (Env_enter os) (fun _ => entered ip dry B rem X) (entered ip dry B rem X).
Proof.
  intros Hx. assert (Hnone : forall a, holding ip dry (Some (mkEnv dry None rem)) B X a -> entered ip dry B rem X a).
  { intros a Ha. apply (entered_plain None); [done|done|]. cbn. by rewrite union_empty. }
  unfold Env_enter. eapply triple_bind; [apply triple_get_env|]. intros e. apply triple_pure. intros ->. cbn [e_client e_dryRun].
  eapply triple_bind; [by apply triple_call_to|]. intros t.
  eapply triple_bind; [by apply triple_lift_to|]. intros port. apply triple_pure. intros _. destruct dry eqn:Hd; [by apply triple_ret|].
  eapply triple_bind; [by apply triple_lift_to|]. intros p. apply triple_pure. intros _.
  eapply triple_bind; [apply triple_set_client|]. intros ?. cbn [e_dryRun e_remote]. rewrite -Hd. by apply triple_connect.
Qed.

(** Leaving closes the socket and does not raise. *)
Lemma triple_Env_exit rem X : triple (entered ip dry B rem X) Env_exit (fun _ => holding ip dry (Some (mkEnv dry None rem)) B X) (fun _ => False).
Proof.
  intros a (c & Ha & Hc & Hx). revert a Ha. change (triple (holding ip dry (Some (mkEnv dry c rem)) B (sock_of c ∪ X)) Env_exit
    (fun _ => holding ip dry (Some (mkEnv dry None rem)) B X) (fun _ => False)).
  unfold Env_exit. eapply triple_bind; [apply triple_get_env|]. intros e. apply triple_pure. intros ->. cbn [e_client e_dryRun].
  assert (Hu : holding ip dry (Some (mkEnv dry None rem)) B (∅ ∪ X) = holding ip dry (Some (mkEnv dry None rem)) B X) by (by rewrite union_empty).
  destruct dry; [rewrite Hc //; cbn [sock_of]; rewrite Hu; by apply triple_ret|].
  destruct c as [[n|]|]; cbn [sock_of].
  - apply (triple_bind _ _ _ (fun _ => holding ip false (Some (mkEnv false (Some (Some n)) rem)) B X)); [|intros ?; apply triple_set_client].
    intros a Ha. assert (Hn : Sock n ∉ B) by (pose proof (h_disjoint _ _ _ _ _ _ Ha); set_solver).
    pose proof (triple_release ip false B _ _ (Sock n) (fun _ => False) Hn a Ha) as H. cbn in H |- *.
    assert (E : ({[Sock n]} ∪ X) ∖ {[Sock n]} = X) by (specialize (Hx n); set_solver). by rewrite E in H.
  - rewrite union_empty. apply triple_ret_bind, triple_set_client.
  - rewrite Hu. by apply triple_ret.
Qed.
End Environments.

(** ** Sessions *)

(** What a session may do with its app: calls, restarts, one after the other, and handlers. *)
Inductive Body := BCall | BRestart | BSeq (x y : Body) | BCatch (x y : Body).
Fixpoint run (os : Os) (polls : nat) (b : Body) : St App unit :=
  match b with
  | BCall => _ ← call os; mret tt
  | BRestart => restart os polls
  | BSeq x y => _ ← run os polls x; run os polls y
  | BCatch x y => st_catch (run os polls x) (run os polls y)
  end.

(** An app that was not started. *)
Record idle (a : App) : Prop := {
  idle_env : a_env a = None; idle_fresh r : r ∈ opened (a_world a) -> (made r < tick (a_world a))%nat }.

Lemma idle_holding a : idle a -> holding (a_ip a) (a_dryRun a) None (opened (a_world a)) ∅ a.
Proof.
  intros [H1 H2]. split; try done; [set_solver|]. intros r Hr. apply H2. set_solver.
Qed.

Section Local.
Context (os : Os) (polls : nat) (ip : string) (dry : bool) (B : gset Res) (Hip : isIpLocal os ip = true).

(** A local app that was started, perhaps in vain. *)
Definition local_app : App -> Prop := entered ip dry B None ∅.

Lemma triple_start_local env : triple (holding ip dry env B ∅) (start os polls) (fun _ => local_app) local_app.
Proof.
  intros a Ha. unfold start, mbind, St_bind. cbn [st_get]. rewrite (h_ip _ _ _ _ _ _ Ha) Hip (h_dry _ _ _ _ _ _ Ha). revert a Ha.
  change (triple (holding ip dry env B ∅) (_ ← st_modify (set_env (Some (mkEnv dry None None))); Env_enter os) (fun _ => local_app) local_app).
  eapply triple_bind; [apply triple_set_env|]. intros ?. by apply triple_Env_enter.
Qed.

Lemma triple_stop_local : triple local_app (stop os) (fun _ => holding ip dry (Some (mkEnv dry None None)) B ∅) (fun _ => False).
Proof.
  intros a Ha. unfold stop, mbind, St_bind. cbn [st_get]. assert (He : exists e, a_env a = Some e /\ e_remote e = None).
  { destruct Ha as (c & Ha & _). rewrite (h_env _ _ _ _ _ _ Ha). by eexists. }
  destruct He as (e & -> & ->). exact (triple_Env_exit ip dry B None ∅ a Ha).
Qed.

Lemma triple_run_local b : triple local_app (run os polls b) (fun _ => local_app) local_app.
Proof.
  induction b as [| |x IHx y IHy|x IHx y IHy]; cbn [run].
  - apply (triple_bind _ _ _ (fun _ => local_app)); [|intros _; by apply triple_ret]. intros a (c & Ha & Hc). pose proof (triple_call os ip dry B _ _ a Ha) as H.
    destruct (call os a) as [[t|e] a']; exists c; (split; [exact H|done]).
  - eapply triple_bind; [eapply triple_conseq; [apply triple_stop_local|done|intros ? ? H; exact H|done]|]. intros ?. apply triple_start_local.
  - eapply triple_bind; [exact IHx|]. intros ?. exact IHy.
  - eapply triple_catch; [exact IHx|exact IHy].
Qed.
End Local.


(** ** A process of another host *)

Section RemoteSessions.
Context (os : Os) (polls : nat) (ip : string) (dry : bool) (B : gset Res).
Context (Hip : isIpLocal os ip = false).

(** What a server prints is its own pid. *)
Definition honest : Prop := forall p t port pid, matchRegexpsInFile (log os p t) = (Some port, Some pid) -> py_int 10 (of_chars pid) = Ok (server_pid os p).
Context (Hlog : honest).

Definition remote_res (c p f g : nat) : gset Res := {[Conn c; Child p; Server p; File f; File g]}.

(** A remote that was entered. *)
Definition serving (r : Remote) (c p : nat) : Prop :=
  r_host r = ip /\ r_conn r = Some c /\ r_proc r = Some p /\ r_pid r = Some (server_pid os p).

Definition attached (a : App) : Prop := exists r c p,
  entered ip dry B (Some r) (remote_res c p (r_err r) (r_out r)) a /\ serving r c p.

Lemma not_localhost : String.eqb ip "localhost" = false.
Proof.
  apply not_true_is_false. intros ->%String.eqb_eq. unfold isIpLocal in Hip. discriminate Hip.
Qed.

Lemma triple_wait env X n proc : triple (holding ip dry env B X) (wait_started os n proc)
  (fun o a => holding ip dry env B X a /\ match o with Some (port, pid) => exists t, matchRegexpsInFile (log os proc t) = (Some port, Some pid) | None => True end)
  (fun _ => True).
Proof.
  induction n as [|n IH]; cbn [wait_started]; [by apply triple_ret|]. eapply triple_bind; [by apply triple_call_to|]. intros t. cbv beta.
  destruct (matchRegexpsInFile (log os proc t)) as [[port|] [pid|]] eqn:E; [|exact IH..]. apply triple_ret. intros a Ha. split; [done|]. by exists t.
Qed.

(** Once the server is known, killing it ends the processes and closes the files; it raises when the
    command for the other host cannot be run, and then the server and the files stay. *)
Lemma triple_kill e r c p X : e_remote e = Some r -> serving r c p \/ serving (mkRemote (r_host r) (r_err r) (r_out r) (r_proc r) (r_pid r) (r_port r) (Some c) (r_chdir r)) c p ->
  Child p ∉ B -> Server p ∉ B -> File (r_err r) ∉ B -> File (r_out r) ∉ B ->
  triple (holding ip dry (Some e) B X) (Remote_kill os)
    (fun _ => holding ip dry (Some e) B (X ∖ {[Child p]} ∖ {[Server p]} ∖ {[File (r_err r)]} ∖ {[File (r_out r)]})) (holding ip dry (Some e) B (X ∖ {[Child p]})).
Proof.
  intros Hr Hs Hp Hsv Hf Hg. assert (Hs' : r_host r = ip /\ r_proc r = Some p /\ r_pid r = Some (server_pid os p)).
  { destruct Hs as [(? & ? & ? & ?)|(? & ? & ? & ?)]; done. }
  destruct Hs' as (Hh & Hproc & Hpid). unfold Remote_kill. eapply triple_bind; [exact (triple_get_remote ip dry B e r X _ Hr)|]. intros ?. apply triple_pure. intros ->.
  rewrite Hproc Hh not_localhost Hpid. eapply (triple_bind _ _ _ (fun p' a => holding ip dry (Some e) B X a /\ p' = p)); [by intros a Ha|].
  intros ?. apply triple_pure. intros ->. eapply triple_bind; [by apply triple_release|]. intros ?. cbv beta.
  apply (triple_bind _ _ _ (fun _ => holding ip dry (Some e) B (X ∖ {[Child p]} ∖ {[Server p]}))).
  - eapply triple_bind; [by apply triple_lift_to|]. intros ?. apply triple_pure. intros _. eapply triple_bind; [by apply triple_call_to|]. intros ?. cbv beta.
    rewrite Z.eqb_refl. by apply triple_release.
  - intros _. eapply triple_bind; [by apply triple_release|]. intros ?. by apply triple_release.
Qed.

(** The server of an attached app is ended when the app is stopped. *)
Definition stopped (a : App) : Prop := exists env, holding ip dry env B ∅ a.
Definition left_over (a : App) : Prop := exists env n f g, holding ip dry env B {[Server n; File f; File g]} a.

Lemma triple_stop_remote : triple attached (stop os) (fun _ => stopped) left_over.
Proof.
  intros a (r & c & p & Ha & Hs). unfold stop, mbind, St_bind. cbn [st_get]. assert (He : exists e, a_env a = Some e /\ e_remote e = Some r).
  { destruct Ha as (cl & Ha & _). rewrite (h_env _ _ _ _ _ _ Ha). by eexists. }
  destruct He as (e & -> & ->). assert (Hd : B ## remote_res c p (r_err r) (r_out r)).
  { destruct Ha as (cl & Ha & _). pose proof (h_disjoint _ _ _ _ _ _ Ha). set_solver. }
  revert a Ha. set (X := remote_res c p (r_err r) (r_out r)) in *.
  change (triple (entered ip dry B (Some r) X) (RemoteEnv_exit os) (fun _ => stopped) left_over).
  unfold RemoteEnv_exit. apply (triple_bind _ _ _ (fun _ => holding ip dry (Some (mkEnv dry None (Some r))) B X)); [by apply (triple_conseq _ _ _ _ _ _ _ (triple_Env_exit ip dry B (Some r) X))|]. intros _.
  unfold Remote_exit. eapply triple_bind; [by apply (triple_get_remote ip dry B _ r)|]. intros ?. apply triple_pure. intros ->.
  destruct Hs as (Hh & Hc & Hp & Hpid). rewrite Hc. apply (triple_bind _ _ _ (fun c' a => holding ip dry (Some (mkEnv dry None (Some r))) B X a /\ c' = c)); [by intros a Ha|].
  intros ?. apply triple_pure. intros ->. assert (Hn : forall q, q ∈ X -> q ∉ B) by (intros q Hq Hb; exact (Hd q Hb Hq)). unfold X, remote_res in Hn.
  eapply triple_bind; [apply triple_release, Hn; set_solver|]. intros ?. cbv beta. eapply triple_bind; [apply triple_set_remote|]. intros ?. cbv beta. cbn [e_dryRun e_client].
  set (r' := mkRemote (r_host r) (r_err r) (r_out r) (r_proc r) (r_pid r) (r_port r) None (r_chdir r)).
  eapply triple_conseq; [apply (triple_kill (mkEnv dry None (Some r')) r' c p (X ∖ {[Conn c]})); [reflexivity|right; by split_and!|apply Hn; set_solver..]|by intros s H|..];
    cbn [r_err r_out r'].
  - intros _ s H. eexists. assert (E : X ∖ {[Conn c]} ∖ {[Child p]} ∖ {[Server p]} ∖ {[File (r_err r)]} ∖ {[File (r_out r)]} = ∅) by (unfold X, remote_res; set_solver).
    rewrite E in H. exact H.
  - intros s H. assert (E : X ∖ {[Conn c]} ∖ {[Child p]} = {[Server p; File (r_err r); File (r_out r)]}) by (unfold X, remote_res; set_solver).
    rewrite E in H. eexists _, p, (r_err r), (r_out r). exact H.
Qed.

(** Starting: when it succeeds, the app is attached to a server of its own. *)
Lemma triple_copy env X fs : triple (holding ip dry env B X) (copy_files os fs) (fun _ => holding ip dry env B X) (fun _ => True).
Proof.
  induction fs as [|f fs IH]; cbn [copy_files]; [by apply triple_ret|]. eapply triple_bind; [by apply triple_call_to|]. intros ?. cbv beta.
  eapply triple_bind; [exact IH|]. intros ?. by apply triple_ret.
Qed.

Lemma triple_gather env X : triple (holding ip dry env B X) (gatherFiles os) (fun _ => holding ip dry env B X) (fun _ => True).
Proof.
  unfold gatherFiles. eapply triple_bind; [by apply triple_call_to|]. intros ?. cbv beta.
  eapply triple_bind; [by apply triple_call_to|]. intros ?. apply triple_copy.
Qed.

Lemma triple_launch env X : triple (holding ip dry env B X)
  (n ← acquire os Child; _ ← st_modify (fun a => set_world (mkWorld ({[Server n]} ∪ opened (world a)) (tick (world a))) a); mret n)
  (fun p => holding ip dry env B ({[Server p]} ∪ ({[Child p]} ∪ X))) (fun _ => True).
Proof.
  intros a Ha. pose proof (triple_call os ip dry B env X a Ha) as Hc. unfold acquire, call, mbind, St_bind in *. destruct (fails os (tick (world a))) as [e|]; [done|].
  destruct Hc as [H1 H2 H3 H4 H5 H6]. cbn in *. set (t := tick (a_world a)) in *.
  assert (Hn : forall r, made r = t -> r ∉ B ∪ X) by (intros r Hr Hin; apply (h_fresh _ _ _ _ _ _ Ha) in Hin; rewrite Hr in Hin; unfold t in Hin; lia).
  pose proof (Hn (Child t) eq_refl) as HnC. pose proof (Hn (Server t) eq_refl) as HnS. split; try done; cbn.
  - rewrite H4. set_solver.
  - set_solver.
  - intros r Hr. assert (Hr' : made r = t \/ r ∈ B ∪ X) by (destruct (decide (r = Server t)) as [->|]; [by left|]; destruct (decide (r = Child t)) as [->|]; [by left|]; right; set_solver).
    destruct Hr' as [->|Hr']; [lia|]. by apply H6.
Qed.

Lemma triple_Remote_enter r f g X : r_host r = ip -> r_err r = f -> r_out r = g -> r_conn r = None -> r_chdir r = false ->
  X = {[File g; File f]} ->
  triple (holding ip dry (Some (mkEnv dry None (Some r))) B X) (Remote_enter os polls)
    (fun _ a => exists r' c p, holding ip dry (Some (mkEnv dry None (Some r'))) B (remote_res c p f g) a /\ serving r' c p /\ r_err r' = f /\ r_out r' = g)
    (fun _ => True).
Proof.
  intros Hh Hf Hg Hc Hcd HX. unfold Remote_enter. eapply triple_bind; [by apply (triple_get_remote ip dry B _ r)|]. intros ?. apply triple_pure. intros ->.
  eapply triple_bind; [by apply triple_lift_to|]. intros ?. apply triple_pure. intros _. rewrite Hh not_localhost.
  apply (triple_bind _ _ _ (fun p => holding ip dry (Some (mkEnv dry None (Some r))) B ({[Server p]} ∪ ({[Child p]} ∪ X)))).
  { eapply triple_bind; [by apply triple_lift_to|]. intros ?. apply triple_pure. intros _. apply triple_launch. }
  intros p. eapply triple_bind; [apply triple_set_remote|]. intros ?. cbv beta. cbn [e_dryRun e_client].
  eapply triple_bind; [apply triple_wait|]. intros [[port pid]|]; [|eapply triple_bind; [apply triple_any|]; intros ?; eapply triple_bind; [apply triple_any|]; intros ? s1 _; exact I].
  apply triple_pure. intros (t & Ht). eapply triple_bind; [by apply triple_lift_to|]. intros ?. apply triple_pure. intros _.
  rewrite (Hlog p t port pid Ht). eapply triple_bind; [by apply triple_lift_to|]. intros ?. apply triple_pure. intros [= <-].
  eapply triple_bind; [apply triple_set_remote|]. intros ?. cbv beta. cbn [e_dryRun e_client]. eapply triple_bind; [by apply triple_lift_to|]. intros ?. apply triple_pure. intros _.
  eapply triple_bind; [by apply triple_acquire_to|]. intros c. apply triple_pure. intros _. eapply triple_bind; [apply triple_set_remote|]. intros ?. cbv beta. cbn [e_dryRun e_client].
  rewrite Hcd. apply triple_ret. intros st Ha.
  assert (E : {[Conn c]} ∪ ({[Server p]} ∪ ({[Child p]} ∪ X)) = remote_res c p f g) by (rewrite HX; unfold remote_res; set_solver).
  rewrite E in Ha. eexists _, c, p. split; [exact Ha|]. split; [by split_and!|by split].
Qed.

Lemma triple_start_remote env : triple (holding ip dry env B ∅) (start os polls) (fun _ => attached) (fun _ => True).
Proof.
  intros a Ha. unfold start. unfold mbind at 1. unfold St_bind at 1. cbn [st_get]. rewrite (h_ip _ _ _ _ _ _ Ha) Hip (h_dry _ _ _ _ _ _ Ha). revert a Ha.
  change (triple (holding ip dry env B ∅) (r ← Remote_init os ip false; _ ← st_modify (set_env (Some (mkEnv dry None (Some r)))); RemoteEnv_enter os polls) (fun _ => attached) (fun _ => True)).
  apply (triple_bind _ _ _ (fun r a => exists f g, holding ip dry env B ({[File g]} ∪ ({[File f]} ∪ ∅)) a /\ r = mkRemote ip f g None None None None false)).
  { unfold Remote_init. eapply triple_bind; [by apply triple_call_to|]. intros ?. cbv beta. eapply triple_bind; [by apply triple_acquire_to|]. intros f. apply triple_pure. intros _.
    eapply triple_bind; [by apply triple_acquire_to|]. intros g. apply triple_pure. intros _. apply triple_ret. intros st Ha. by exists f, g. }
  intros r st (f & g & Ha & ->). revert st Ha.
  change (triple (holding ip dry env B ({[File g]} ∪ ({[File f]} ∪ ∅))) (_ ← st_modify (set_env (Some (mkEnv dry None (Some (mkRemote ip f g None None None None false))))); RemoteEnv_enter os polls) (fun _ => attached) (fun _ => True)).
  eapply triple_bind; [apply triple_set_env|]. intros ?. cbv beta. unfold RemoteEnv_enter. eapply triple_bind; [apply (triple_Remote_enter (mkRemote ip f g None None None None false) f g); [reflexivity..|set_solver]|].
  intros ? st (r' & c & p & Ha & Hs & Hf & Hg). revert st Ha.
  change (triple (holding ip dry (Some (mkEnv dry None (Some r'))) B (remote_res c p f g)) (_ ← call os; files ← gatherFiles os; match files with [_] => Env_enter os | _ => st_lift (Raise Exception_) end) (fun _ => attached) (fun _ => True)).
  eapply triple_bind; [by apply triple_call_to|]. intros ?. cbv beta. eapply triple_bind; [apply triple_gather|]. intros files. cbv beta.
  assert (Hx : forall n, Sock n ∉ remote_res c p f g) by (unfold remote_res; set_solver).
  destruct files as [|x [|? ?]]; [by intros st _| |by intros st _].
  apply (triple_conseq _ _ _ _ _ _ _ (triple_Env_enter os ip dry B (Some r') (remote_res c p f g) Hx)); [done| |done].
  intros ? st H. exists r', c, p. by rewrite Hf Hg.
Qed.

Lemma triple_call_attached : triple attached (call os) (fun _ => attached) attached.
Proof.
  intros a (r & c & p & (cl & Ha & Hcl) & Hs). pose proof (triple_call os ip dry B _ _ a Ha) as H.
  destruct (call os a) as [[t|e] a']; exists r, c, p; (split; [by exists cl|done]).
Qed.
End RemoteSessions.

(** The restarts a run comes to succeed. *)
Fixpoint restarts_ok (os : Os) (polls : nat) (b : Body) (a : App) : Prop :=
  match b with
  | BCall => True
  | BRestart => exists a', restart os polls a = (Ok tt, a')
  | BSeq x y => restarts_ok os polls x a /\ forall a', run os polls x a = (Ok tt, a') -> restarts_ok os polls y a'
  | BCatch x y => restarts_ok os polls x a /\ forall e a', run os polls x a = (Raise e, a') -> restarts_ok os polls y a'
  end.

Lemma run_attached os polls ip dry B b a : isIpLocal os ip = false -> honest os -> restarts_ok os polls b a -> attached os ip dry B a ->
  attached os ip dry B (run os polls b a).2.
Proof.
  intros Hip Hlog. revert a. induction b as [| |x IHx y IHy|x IHx y IHy]; intros a Hok Ha; cbn [run restarts_ok] in *.
  - pose proof (triple_call_attached os ip dry B a Ha) as H. unfold mbind, St_bind. by destruct (call os a) as [[t|e] a'].
  - destruct Hok as [a' Hr]. rewrite Hr. cbn. pose proof (triple_stop_remote os ip dry B Hip Hlog a Ha) as H. unfold restart, mbind, St_bind in Hr.
    destruct (stop os a) as [[[]|e] a1]; [|done]. destruct H as [env H]. pose proof (triple_start_remote os polls ip dry B Hip Hlog env a1 H) as H'. by rewrite Hr in H'.
  - destruct Hok as [Hx Hy]. specialize (IHx a Hx Ha). unfold mbind, St_bind. destruct (run os polls x a) as [[[]|e] a1]; [|done]. apply IHy; [by apply Hy|done].
  - destruct Hok as [Hx Hy]. specialize (IHx a Hx Ha). unfold st_catch. destruct (run os polls x a) as [[[]|e] a1]; [done|]. apply IHy; [by eapply Hy|done].
Qed.


(** ** A target that is launched *)

Lemma wait_size_world os n size t r t' : wait_size os n size t = (r, t') ->
  t_proc t' = t_proc t /\ t_log t' = t_log t /\ opened (t_world t') = opened (t_world t).
Proof.
  revert size t. induction n as [|n IH]; intros size t; cbn [wait_size]; [by intros [= _ <-]|]. destruct (size <=? 0); [|by intros [= _ <-]].
  unfold mbind, St_bind, call. cbn. destruct (fails os (tick (t_world t))) as [e|]; [by intros [= _ <-]|]. intros H%IH. exact H.
Qed.

(** When the launch succeeds, leaving ends the process and closes its log. *)
Theorem target_closed os t t1 : (forall r, r ∈ opened (t_world t) -> (made r < tick (t_world t))%nat) ->
  Target_enter os t = (Ok tt, t1) -> exists t2, Target_exit t1 = (Ok tt, t2) /\ opened (t_world t2) = opened (t_world t).
Proof.
  intros Hf H. assert (Hn : forall r, made r = tick (t_world t) \/ made r = (tick (t_world t) + 1)%nat -> r ∉ opened (t_world t)).
  { intros r Hr Hin. specialize (Hf r Hin). lia. }
  unfold Target_enter in H. revert H. generalize 10%nat. intros attempts H. unfold acquire, call, mbind, St_bind in H. cbn in H. destruct (fails os (tick (t_world t))) as [e|]; [done|]. cbn in H.
  destruct (fails os (tick (t_world t) + 1)) as [e|]; [done|]. cbn in H.
  match type of H with context [wait_size os attempts 0 ?x] => set (u := x) in H; destruct (wait_size os attempts 0 u) as [[size|e] u'] eqn:E end; [|done].
  apply wait_size_world in E as (E1 & E2 & E3). cbn in E1, E2, E3. destruct (size <=? 0); [done|]. cbn in H.
  destruct (fails os _) as [e|]; [done|]. injection H as <-. unfold Target_exit, mbind, St_bind. cbn. rewrite E1 E2. cbn. eexists. split; [reflexivity|]. cbn.
  rewrite E3. pose proof (Hn (File (tick (t_world t))) (or_introl eq_refl)). pose proof (Hn (Child (tick (t_world t) + 1)) (or_intror eq_refl)). set_solver.
Qed.

(** ** What stays open *)

Definition ex_at_os (bad : nat) (ready : bool) (files : list string) : Os := {|
  fails t := if (t =? bad)%nat then Some SocketError_ else None; environ := [("PWD", "/home/joe"); ("XPEDITE_SSH", "/bin/ssh")]%string;
  find_executable b := Some (String.append "/usr/bin/" b); addresses := ["10.0.0.1"]%string;
  getservbyname _ := Raise OSError_; app_info _ := Ok "5000"%string;
  log p t := if ready then ["INFO:SLAVE/18812:server started on [0.0.0.0]:18812"; "pid<4711>"]%string else [];
  server_pid _ := 4711; remote_files _ := files; log_size t := 0 |}.
Definition ex_at_app (ip : string) : App := mkApp ip false None (mkWorld ∅ 0).
Definition ex_at_open (a : App) : list Res := elements (opened (a_world a)).
Definition never : nat := 1000.

(** An app info that is not found on the other host: the app is not started, and everything that
    was started for it stays. *)
Theorem remote_start_leaks :
  let '(r, a) := with_app (ex_at_os never true []) 150 (mret tt) (ex_at_app "far") in
  r = Raise Exception_ /\ opened (a_world a) = {[File 1; File 2; Child 3; Server 3; Conn 5]}.
Proof. vm_compute. split; reflexivity. Qed.

(** A server that does not say in time that it is up: its ssh ends, and it is asked for by the name
    None, so it stays. *)
Theorem timed_out_server_stays :
  let '(r, a) := with_app (ex_at_os never false []) 150 (mret tt) (ex_at_app "far") in
  r = Raise Exception_ /\ opened (a_world a) = {[Server 3]}.
Proof. vm_compute. split; reflexivity. Qed.

(** A restart that fails before there is a connection: what ends the session is the exception of its
    end, and the new server stays. *)
Theorem failed_restart_hidden :
  let '(r, a) := with_app (ex_at_os 20 true ["/tmp/info"]%string) 150 (restart (ex_at_os 20 true ["/tmp/info"]%string) 150) (ex_at_app "far") in
  r = Raise AttributeError_ /\ opened (a_world a) = {[File 16; File 17; Child 18; Server 18]}.
Proof. vm_compute. split; reflexivity. Qed.

(** A target that writes nothing to its log is left running. *)
Theorem silent_target_stays : exists t, with_target (ex_at_os never true []) (mret tt) (mkLaunch None None (mkWorld ∅ 0)) = (Raise Exception_, t) /\
  opened (t_world t) = {[File 0; Child 1]}.
Proof. eexists. vm_compute. split; reflexivity. Qed.

(** ** Examples *)

Definition ex_at_body : Body := BSeq BCall (BSeq (BCatch BRestart BCall) BCall).

Lemma ex_at_idle ip : idle (ex_at_app ip).
Proof. split; [done|]. intros r Hr. cbn in Hr. set_solver. Qed.


